(* ===== verification/_CoqProject ===== *)
-Q . S2P
Prelude.v
GoFloat.v
Db.v
Models.v
Migrations.v
Transfer.v
Config.v
World.v
Logic.v
Processors.v
ProcessorSpecs.v
BatchProcessors.v
BatchSpecs.v
Middleware.v
Pipeline.v
Dispatcher.v
System.v
Channels.v
ChannelRefinement.v
ChannelProgress.v
Shutdown.v
Trace.v
TestWorld.v
BatchStore.v
Delivery.v
StageTheorems.v
DispatchTheorems.v
ChannelTheorems.v
RelayTheorems.v
Cooperation.v
CostTracker.v
RelayerApi.v
SideCalls.v
Once.v
GoLib.v
EvmClient.v
CosmosClient.v
Signers.v
ClientContract.v
ClientWorld.v
EvmTheorems.v
Bindings.v
BoundContracts.v
LogIterators.v
RouterBinding.v
Ics20Binding.v
IftBinding.v
Erc20Binding.v
Sp1Binding.v
BindingTheorems.v
CosmosTheorems.v
SignerTheorems.v
Monitors.v
ClientManager.v
Prices.v
UsdValue.v
Commands.v
Metrics.v
HttpTransport.v
Loops.v
Startup.v
Utils.v
Codec.v
