(* ===== verification/Prelude.v ===== *)
(** * A verification of the IBC v2 relayer

    The relayer carries packets between blockchains.  A client of its API names a
    transaction on a source chain; the API records the packets the transaction sent as
    PENDING rows of a PostgreSQL table.  A dispatcher reads the unfinished rows every
    few seconds and pushes each into the pipeline of its connection, where it passes a
    fixed sequence of stages: each stage asks a chain something about the packet or
    sends a transaction for it, and stores what it learnt in the packet's row.  A
    packet that fails at a stage leaves the pipeline with its error and is read again
    by a later pass; one that is complete gets its final status.  Chains are reached
    through bridge clients, one implementation for EVM and one for Cosmos chains, which
    a client manager builds from the configuration.  A tracker looks up the fate and the
    cost of the transactions the relayer submitted, with prices from a cached service,
    and two monitors export gas balances and counts of transfers.

    ** How the code is modelled

    The program's effects are a state monad [World.M] over the world, the tables and a
    trace of events (metrics, log lines of the Cancel methods, calls of the proof
    service, transactions handed to a chain), with results [Ok], [Fail] of an error
    and [Panic].  What the program calls and does not contain (clock, database server,
    the bridge clients, proof service, price service) is the class [World.Env]: each
    operation may change the world and may fail at any call, and the theorems hold for
    every instance unless a hypothesis says otherwise.  The two bridge clients are
    modelled the same way one level down, over a node and the functions of go-ethereum
    or the Cosmos SDK ([EVMNode], [EVMLib], [CosmosNode], [CosmosLib]), with their own
    memory in a part of the world reached by a [Lens]; [EVM.bridge] and [Cosmos.bridge]
    give the interface the relay core is proved against.  Integers are
    [Z] with Go's wrap-around written out ([wrapU], [wrapS]); errors are the tree
    [error] that [errors.Is] and [errors.As] walk, with the constant part of a format
    for its text.  Loops are structural recursion on the list they range over, and every
    function is total.  Only the loops of the bridge clients on a ticker take a bound on
    the number of ticks; [wait_for_chain_terminates] says which bound is enough.  The
    loops of the services take the list of what their select statement receives.

    Concurrency is modelled twice.  The file System treats the channels of a pipeline as
    bags of transfers and a call of a processor as one step; the file Channels has the
    goroutines, the unbuffered and buffered channels and the lock of the deduper, and is
    proved to implement System ([channels_refine]), so that what holds in every reachable
    state there holds of the goroutines.  The combinators of the pipeline library appear
    as rules that state their documentation; the number [extra] of inputs they may hold
    besides those being processed is arbitrary.

    - [Prelude]: machine integers, times and durations, errors, record updates.
    - [GoFloat], [GoLib]: floats and products rounded to nearest even; strings, numbers
      in text.
    - [Db]: [src/db/gen/db] and the schema of [src/db/migrations]: tables as finite
      maps, one definition per statement, [wf_db] for what the schema guarantees.
    - [Models]: the enums of [models.go] with Scan and Value, and the row structs;
      [Migrations]: [src/db/migrations/*.sql] as statements, [src/db/migrate.go].
    - [Transfer]: [src/relayer/ibcv2/ibcv2_transfer.go].
    - [Config]: [src/shared/config/config.go]: records, validation, the reader.
    - [World]: the environment, the monad, [ExecTx] of [src/db/tx/tx.go], [GetClient]
      of [client_manager.go], the interface of
      [src/shared/bridges/ibcv2/bridge_client.go].
    - [Logic]: weakest preconditions [wp], relations on tables [dbrel], the frame of an
      update, [in_sync] between a transfer and its row.
    - [Processors], [ProcessorSpecs]: the twelve single-transfer processors
      ([check_*.go], [retry_*.go], [*_gas_calculator.go], [wait_for_write_ack.go])
      and their contract [ProcessorSpec].
    - [BatchProcessors], [BatchSpecs]: [batch_recv_packet.go], [batch_ack_packet.go],
      [timeout_packet.go], [tx_submission_mapping.go] and their contract
      [BatchProcessorSpec].
    - [Middleware]: [processor_mw.go] and [state_finisher.go], proved against the two
      contracts.
    - [Pipeline]: [pipeline_opts.go], the stages of [pipeline.go],
      [conditional_batch_processor.go].
    - [Dispatcher]: deduper and manager of [pipeline.go], [relay_dispatcher.go], the
      latency alert and recorders of [ibcv2_transfer_metrics.go].
    - [System]: all pipelines, the dispatcher and the rest as one transition system,
      with the inductive invariant of its reachable states.
    - [Channels]: the goroutines and channels of [pipeline.go] and
      [conditional_batch_processor.go]; [ChannelRefinement]: they implement System;
      [ChannelProgress]: the measure of their moves and the absence of deadlock;
      [Shutdown]: closing a pipeline; [ChannelTheorems]: the goroutines of a configured
      relayer, with the witnesses.
    - [Trace]: what runs add to the trace, and clocks that do not run backwards.
    - [TestWorld]: an executable instance of [Env], used by the witnesses.
    - [BatchStore], [Delivery], [StageTheorems], [DispatchTheorems], [RelayTheorems]:
      the properties of relaying; [Cooperation]: when a packet gets through.
    - [CostTracker]: [tx_submission_cost_tracker.go].
    - [RelayerApi]: [src/relayerapi/services/relayerapi/service.go] and
      [src/shared/utils/validate_address_list.go].
    - [SideCalls]: the API and the tracker running beside the relayer.
    - [Once]: [src/shared/bridges/ibcv2/once.go], alone and interleaved.
    - [EvmClient], [EvmTheorems]: [evm_bridge_client.go]; [CosmosClient],
      [CosmosTheorems]: [cosmos_bridge_client.go].
    - [Bindings]: types and values of a contract's ABI; [BoundContracts]: bound contracts
      and the shape of a binding; [LogIterators]: iterating over logs and watching them;
      [RouterBinding], [Ics20Binding], [IftBinding], [Erc20Binding], [Sp1Binding]: the
      generated bindings of [src/shared/contracts]; [BindingTheorems]: they fit their ABI
      and are the operations [EVMNode] and [EVMLib] stand for.
    - [Signers], [SignerTheorems]: [src/shared/signing], [remote_cosmos_signer.go],
      [remote_evm_signer.go].
    - [ClientContract]: what the retry stages rely on in a client, kept by both;
      [ClientWorld]: a world with both clients, used by the witnesses.
    - [ClientManager]: [client_manager.go].
    - [Monitors]: [src/gasmonitor/gasmonitor.go], [src/transferstats/transferstats.go].
    - [Prices]: [src/shared/clients/coingecko] and [rate_limited_http_client.go];
      [UsdValue]: [GetCoinUsdValue] of [price_client.go].
    - [Commands]: [src/cmd/transfer], and the keys of [src/cmd/relayer/main.go].
    - [Loops]: the Run and Start loops of the dispatcher, the tracker and the monitors.
    - [Startup]: [main] of [src/cmd/relayer], [src/cmd/relay] and [src/cmd/transfer],
      the database connection, the health check and the servers.
    - [Utils]: [address.go] and [key.go] of [src/shared/utils], and the configuration a
      context carries; [Codec]: the registries of message types ([newInterfaceRegistry],
      [tx_config.go]), [src/shared/lmt/logger.go] and [src/db/gen/db/db.go].
    - [Metrics]: [src/shared/metrics/metrics.go]; [HttpTransport]: [http_transport.go]
      beside it, [src/shared/utils/http.go] and the gRPC interceptors.

    ** What the theorems show

    - Agreement of memory and database: a transfer run through the whole pipeline ends
      with an error or in agreement with its row, the run does not panic and keeps the
      schema's guarantees ([pipeline_in_sync]); a batched stage loses and duplicates
      nothing ([batch_stage_keeps_transfers]); an error ends the processing of a
      transfer ([errored_transfer_skips_rest]).
    - Relaying gets done: with a database and chains that answer, and a packet that does
      not time out on the way, one run through the pipeline takes a transfer from
      whatever stage its row is at to its final state, which is not FAILED
      ([cooperative_run_completes]; [Cooperative] says what is asked of the surroundings
      and [row_sane] of the row, and [acked_row_left_behind] why).
    - No double work: in every reachable state, for every interleaving, a packet is in
      flight once ([in_flight_unique], [submit_once], with [side_calls_reachable] for
      the API and the tracker); a run that times a packet out does not also deliver it
      ([timeout_excludes_recv], for a clock that does not run backwards).
    - Goroutines: they implement the transition system ([channels_refine]); they drain
      what they hold without deadlock, for every schedule, while the input has room
      ([pipelines_drain]), and otherwise can stand still for ever ([submit_jams],
      [jammed_for_ever]); closing a pipeline ends, and sends on no closed output
      ([close_returns]), and what is cancelled then keeps its row ([cancels_tables]).
      The two need positive batch sizes and concurrencies ([cfg_positive]), which every
      configuration without negative ones has ([cfg_positive_nonneg]).
    - What is sent and stored: the proof request and the transaction of a batch
      ([batches_sent]) and the database transaction that records it, all or nothing
      ([batch_stores_atomic]).
    - Stages: every branch of the write-ack, commitment, retry and finishing stages,
      and when they make a packet eligible again or finished for the dispatcher.
    - Dispatcher: a pass puts every unfinished row in flight, and fails only rows
      whose chains no pipeline can be configured for.
    - API: Relay records exactly the packets of an accepted transaction, Status
      reports them, with the bounds of the sequence numbers and the address list.
    - Tracker: a pass touches only pending submissions, oldest first, expires the old
      ones and resolves the others once their chain answers.
    - Bridge clients: a client asks for a retry only for a transaction that failed or
      expired, whatever its cache holds, and does so for every dead one
      ([clients_keep_retry_contract], [dead_tx_is_retried]), so that the retry stages do
      not send a successful transaction again ([successful_tx_not_resubmitted]); calls
      that share a key share a result and return ([once_shares], [once_terminates]); the
      nonce and fields of an EVM transaction ([evm_submits_well_built]), finality against
      a chain ([evm_finality]), the transactions of a Cosmos relay, their gas and fee
      ([cosmos_submission_plan], [cosmos_fee_covers]), their signature
      ([cosmos_broadcast_is_signed], over the laws [TxConfigLaws] of the SDK's objects)
      and packets read back from events ([cosmos_send_packets_roundtrip]).  The contract
      bindings fit the ABI they carry and never panic on a conversion
      ([bindings_fit_abi], over what go-ethereum documents of a bound contract,
      [Documented]), and what the EVM client calls are these bindings
      ([client_calls_bindings], [client_parses_bindings]).  An iterator over events
      delivers what it is sent ([iterator_delivers]), a watch forwards it ([watch_sends]).
    - Around them: the clients of a manager match the configuration
      ([client_manager_builds]), the gauges of the monitors are exact
      ([transfer_counts_exact], [gas_monitor_reports]), cached prices are fresh
      ([cached_price_fresh]), a cost in dollars is close to the exact one
      ([usd_value_close]), the migrations build the schema the program is written for
      ([migrations_match_models]), the loops do their work on a tick and return when the
      context is done ([select_loop_returns], [dispatcher_tick_dispatches]), no service
      starts without a signer ([services_need_signer]), the metrics fit the series they are registered as
      ([metrics_fit]), the recording transport is transparent ([transport_transparent])
      and the transfer command sends what its flags say ([ics20Transfer_sends]).
    - Some theorems state behaviour the code does not intend:
      [write_ack_finality_not_stored], [dispatch_panics_without_ibcv2],
      [timeout_finality_race], [relay_repeated_is_internal], [once_never_shrinks],
      [evm_waitForTx_waits], [cosmos_waitForTx_waits], [cosmos_TxFee_panics],
      [short_cosmos_key_panics], [remote_signature_of_fresh_tx], [prompt_at_end_of_input],
      [broken_body_is_sent], [submit_jams], [down_fails], [redo_fails],
      [stopped_relayer_fails], [key_file_newline], [acked_row_left_behind], parts of [recorded_sequence] and [blacklist_iff].

    ** Choices

    A serial counter is not rolled back with its transaction; a COMMIT that reports an
    error may have been applied.  The order of a SELECT without ORDER BY is that of the
    primary key; the theorems do not depend on it.  Informational log lines inside
    Process methods are left out.  A client method called through [World.Env] runs
    without interleaving ([as_X]); the sharing of calls between goroutines is proved on
    the steps of [Once].  Float64 values are finite.  The order of a range over a Go map
    is that of the finite map, and no theorem depends on it.  A call of a processor is
    one step of its goroutine: the calls of different goroutines interleave, the
    statements within them do not.

    ** Not modelled

    The parsing of flags, YAML and JSON, dialling and listening, the Cosmos SDK and
    go-ethereum are third-party code and appear as arguments where the program uses them.
    The errors a contract reverts with are left out of its ABI.  The generated protobuf
    code is the data types of the calls that use it; mocks and the imports of build tools
    are not part of the running program. *)

From stdpp Require Export base tactics option list list_monad gmap sets strings pretty.
From Stdlib Require Export ZArith Lia.
Open Scope Z_scope.

Declare Scope relayer_scope.
Delimit Scope relayer_scope with relayer.

(** ** Machine integers

    Go's fixed-width integers are kept as [Z]; a conversion between widths is
    written out as the wrap-around the language specifies. *)

Definition wrapU (w z : Z) : Z := z mod 2 ^ w.
Definition wrapS (w z : Z) : Z := (z + 2 ^ (w - 1)) mod 2 ^ w - 2 ^ (w - 1).

Definition to_uint32 (z : Z) : Z := wrapU 32 z.
Definition to_int32 (z : Z) : Z := wrapS 32 z.
Definition to_uint64 (z : Z) : Z := wrapU 64 z.
Definition to_int64 (z : Z) : Z := wrapS 64 z.

Definition max_int32 : Z := 2147483647.
Definition max_int64 : Z := 9223372036854775807.
Definition min_int64 : Z := -9223372036854775808.

Definition in_uint32 (z : Z) : Prop := 0 <= z < 2 ^ 32.
Definition in_int32 (z : Z) : Prop := - 2 ^ 31 <= z < 2 ^ 31.

Lemma to_uint32_range z : in_uint32 (to_uint32 z).
Proof. unfold in_uint32, to_uint32, wrapU. apply Z.mod_pos_bound. lia. Qed.

Lemma to_int32_range z : in_int32 (to_int32 z).
Proof.
  unfold in_int32, to_int32, wrapS. change (32 - 1) with 31.
  pose proof (Z.mod_pos_bound (z + 2 ^ 31) (2 ^ 32)). lia.
Qed.

Lemma to_int32_to_uint32 z : in_int32 z -> to_int32 (to_uint32 z) = z.
Proof.
  unfold in_int32, to_int32, to_uint32, wrapS, wrapU. change (32 - 1) with 31.
  intros H. rewrite Zplus_mod_idemp_l, Z.mod_small by lia. lia.
Qed.

Lemma to_uint32_to_int32 z : in_uint32 z -> to_uint32 (to_int32 z) = z.
Proof.
  unfold in_uint32, to_int32, to_uint32, wrapS, wrapU. change (32 - 1) with 31.
  intros H. rewrite Zminus_mod_idemp_l. rewrite Z.add_simpl_r, Z.mod_small; lia.
Qed.

Lemma to_int32_small z : in_int32 z -> to_int32 z = z.
Proof.
  unfold in_int32, to_int32, wrapS. change (32 - 1) with 31.
  intros H. rewrite Z.mod_small by lia. lia.
Qed.

Lemma to_int32_inj z1 z2 :
  in_uint32 z1 -> in_uint32 z2 -> to_int32 z1 = to_int32 z2 -> z1 = z2.
Proof.
  intros H1 H2 E. rewrite <- (to_uint32_to_int32 z1), <- (to_uint32_to_int32 z2), E; done.
Qed.

(** ** Time

    A [time.Time] is the number of nanoseconds since the Unix epoch, a
    [time.Duration] a number of nanoseconds.  [time.Time.Sub] saturates at the
    int64 bounds; [zero_time] is Go's zero value (year 1, UTC).  PostgreSQL
    timestamps keep microseconds: the driver drops the nanoseconds below. *)

Definition Microsecond : Z := 1000.
Definition Millisecond : Z := 1000 * Microsecond.
Definition Second : Z := 1000 * Millisecond.
Definition Minute : Z := 60 * Second.
Definition Hour : Z := 60 * Minute.

Definition zero_time : Z := -62135596800 * Second.

Definition time_After (t u : Z) : bool := bool_decide (u < t).
Definition time_Before (t u : Z) : bool := bool_decide (t < u).
Definition time_Sub (t u : Z) : Z := Z.max min_int64 (Z.min max_int64 (t - u)).

Definition pg_timestamp (t : Z) : Z := t / 1000 * 1000.

Lemma pg_timestamp_bounds t : pg_timestamp t <= t < pg_timestamp t + 1000.
Proof.
  unfold pg_timestamp. pose proof (Z.div_mod t 1000). pose proof (Z.mod_pos_bound t 1000). lia.
Qed.

Lemma pg_timestamp_idemp t : pg_timestamp (pg_timestamp t) = pg_timestamp t.
Proof. unfold pg_timestamp. rewrite Z.div_mul by lia. done. Qed.

(** ** Errors

    [errors.New] and [fmt.Errorf] without [%w] make an error of their own
    ([ENew]); [%w] wraps ([EWrap], [EWrap2] for two of them).  The text kept is
    the constant part of the format string.  Errors that the code compares with
    [errors.Is] are the sentinels. *)

Inductive sentinel :=
  | ErrTxNotFound
  | ErrWriteAckDecoding
  | ErrWriteAckNotFoundForPacket
  | ErrNoLaterBlocks
  | ErrSendNotFinalized
  | ErrTimeoutNotFinalized
  | ErrWriteAckNotFinalized
  | ErrRetryingRecvPacket
  | ErrRetryingAckPacket
  | ErrRetryingTimeoutPacket
  | ErrTransferAlreadyInPipeline
  | ErrNoSignerForBridge
  | errAlreadySubmitted
  | context_Canceled
  | context_DeadlineExceeded
  | pgx_ErrNoRows
  | ethereum_NotFound.

#[export] Instance sentinel_eq_dec : EqDecision sentinel.
Proof. solve_decision. Defined.

Inductive error :=
  | ENew (msg : string)
  | ESentinel (s : sentinel)
  | EWrap (msg : string) (e : error)
  | EWrap2 (msg1 : string) (e1 : error) (msg2 : string) (e2 : error)
  | EPg (code : string) (msg : string)
  | EStatus (code : Z) (msg : string).

Definition sentinel_text (s : sentinel) : string :=
  match s with
  | ErrTxNotFound => "tx not found"
  | ErrWriteAckDecoding => "could not decode write ack"
  | ErrWriteAckNotFoundForPacket => "write ack for packet not found in tx"
  | ErrNoLaterBlocks => "no blocks with a timestamp later than the provided timestamp"
  | ErrSendNotFinalized => "send tx not finalized"
  | ErrTimeoutNotFinalized => "timeout tx not finalized"
  | ErrWriteAckNotFinalized => "write tx not finalized"
  | ErrRetryingRecvPacket => "retrying recv packet"
  | ErrRetryingAckPacket => "retrying ack packet"
  | ErrRetryingTimeoutPacket => "retrying timeout packet"
  | ErrTransferAlreadyInPipeline => "transfer already in pipeline"
  | ErrNoSignerForBridge => "no signer for bridge"
  | errAlreadySubmitted => "tx already submitted"
  | context_Canceled => "context canceled"
  | context_DeadlineExceeded => "context deadline exceeded"
  | pgx_ErrNoRows => "no rows in result set"
  | ethereum_NotFound => "not found"
  end.

Fixpoint Error_text (e : error) : string :=
  match e with
  | ENew m => m
  | ESentinel s => sentinel_text s
  | EWrap m e' => m +:+ ": " +:+ Error_text e'
  | EWrap2 m1 e1 m2 e2 => m1 +:+ ": " +:+ Error_text e1 +:+ m2 +:+ ": " +:+ Error_text e2
  | EPg c m => "ERROR: " +:+ m +:+ " (SQLSTATE " +:+ c +:+ ")"
  | EStatus _ m => "rpc error: " +:+ m
  end.

(** [errors.Is err target] for a sentinel target: the whole tree is searched. *)
Fixpoint errors_Is (e : error) (s : sentinel) : bool :=
  match e with
  | ESentinel s' => bool_decide (s' = s)
  | EWrap _ e' => errors_Is e' s
  | EWrap2 _ e1 _ e2 => errors_Is e1 s || errors_Is e2 s
  | ENew _ | EPg _ _ | EStatus _ _ => false
  end.

(** An error is visible when its text is not empty: the pipeline recognises an
    errored transfer by the text of its error. *)
Definition visible (e : error) : Prop := Error_text e <> "".

Lemma visible_sentinel s : visible (ESentinel s).
Proof. destruct s; done. Qed.

Lemma visible_wrap m e : visible (EWrap m e).
Proof. unfold visible. cbn. destruct m; done. Qed.

Lemma visible_wrap2 m1 e1 m2 e2 : visible (EWrap2 m1 e1 m2 e2).
Proof. unfold visible. cbn. destruct m1; done. Qed.

Lemma visible_new m : m <> "" -> visible (ENew m).
Proof. done. Qed.

Create HintDb relayer discriminated.
#[export] Hint Resolve visible_sentinel visible_wrap visible_wrap2 : relayer.
#[export] Hint Extern 1 (visible (ENew _)) => (apply visible_new; discriminate) : relayer.

(** ** Results of a call

    A call returns a value, returns an error, or panics. *)

Inductive res (A : Type) :=
  | Ok (a : A)
  | Fail (e : error)
  | Panic.
Arguments Ok {A} a.
Arguments Fail {A} e.
Arguments Panic {A}.

(** ** Record update

    [t <| f := v |>] is [t] with its field [f] replaced; the updated record is
    computed from the record's eta-expansion. *)

Class Eta (R : Type) := eta : R -> R.
Class Setter {R A : Type} (f : R -> A) := update : A -> R -> R.
Arguments update {R A} f {_} v t /.
#[export] Typeclasses Opaque Eta Setter.

Ltac build_setter f :=
  match type of f with
  | ?R -> ?A =>
      let i := constr:(_ : Eta R) in
      let i := eval hnf in i in
      let v := fresh "v" in
      let t := fresh "t" in
      change (A -> R -> R); intros v t;
      let body := eval cbv beta in (i t) in
      let p := eval pattern (f t) in body in
      match p with
      | ?g _ => let r := eval cbv beta in (g v) in exact r
      end
  end.

#[export] Hint Extern 0 (Setter ?f) => build_setter f : typeclass_instances.

Notation "t <| f := v |>" := (update f v t)
  (at level 1, left associativity, format "t  <| f  :=  v |>").

(** ** Tactics *)

(** Splits the innermost [match] or [if] of the goal or of a hypothesis. *)
Ltac step_match :=
  match goal with
  | |- context [match ?x with _ => _ end] =>
      lazymatch x with
      | context [match _ with _ => _ end] => fail
      | _ => let E := fresh "E" in destruct x eqn:E
      end
  | H : context [match ?x with _ => _ end] |- _ =>
      lazymatch x with
      | context [match _ with _ => _ end] => fail
      | _ => let E := fresh "E" in destruct x eqn:E
      end
  end.

Ltac split_matches := repeat (step_match; simplify_eq/=).

Lemma bool_decide_false_iff (P : Prop) `{Decision P} : bool_decide P = false <-> ~ P.
Proof. apply bool_decide_eq_false. Qed.
