(* ===== verification/GoFloat.v ===== *)
(** * Floating point

    What the bridge clients use of [float64] and [math/big.Float]: finite values as a
    mantissa and a power of two, and the product rounded to a precision, to the nearest
    and ties to even. *)

From S2P Require Import Prelude.

(** The value [mantissa * 2 ^ exponent]. *)
Record float := mkFloat {
  mantissa : Z;
  exponent : Z;
}.

Definition float_of_Z (n : Z) : float := mkFloat n 0.

(** The number of bits of a non-negative integer. *)
Definition BitLen (m : Z) : Z := if bool_decide (m = 0) then 0 else Z.log2 m + 1.

(** A non-negative mantissa rounded to [p] bits, with the bits dropped. *)
Definition round_even (p m : Z) : Z * Z :=
  let d := BitLen m - p in
  if bool_decide (d <= 0) then (m, 0)
  else
    let q := m / 2 ^ d in
    let r := m mod 2 ^ d in
    if bool_decide (2 ^ (d - 1) < r) || (bool_decide (r = 2 ^ (d - 1)) && Z.odd q) then (q + 1, d) else (q, d).

Definition round (p : Z) (x : float) : float :=
  let '(q, d) := round_even p (Z.abs (mantissa x)) in
  mkFloat (Z.sgn (mantissa x) * q) (exponent x + d).

(** [new(big.Float).Mul(x, y)] for operands of which the larger precision is [p]. *)
Definition big_Mul (p : Z) (x y : float) : float :=
  round p (mkFloat (mantissa x * mantissa y) (exponent x + exponent y)).

(** [x.Int(nil)]: truncated towards zero. *)
Definition big_Int (x : float) : Z :=
  if bool_decide (0 <= exponent x) then mantissa x * 2 ^ exponent x
  else Z.quot (mantissa x) (2 ^ (- exponent x)).

(** [math.Ceil] *)
Definition math_Ceil (x : float) : Z :=
  if bool_decide (0 <= exponent x) then mantissa x * 2 ^ exponent x
  else - (- mantissa x / 2 ^ (- exponent x)).

(** [x > 0] and [x == 0] *)
Definition float_pos (x : float) : bool := bool_decide (0 < mantissa x).
Definition float_zero (x : float) : bool := bool_decide (mantissa x = 0).

(** ** Rounding *)

Lemma BitLen_spec m : 0 < m -> 2 ^ (BitLen m - 1) <= m < 2 ^ BitLen m.
Proof.
  intros Hm. unfold BitLen. rewrite bool_decide_false by lia.
  pose proof (Z.log2_spec m Hm) as [H1 H2]. rewrite Z.add_simpl_r. by rewrite <- Z.add_1_r in H2.
Qed.

Lemma BitLen_le m n : 0 <= m < 2 ^ n -> 0 <= n -> BitLen m <= n.
Proof.
  intros [Hm Hn] H0. unfold BitLen. case_bool_decide; [lia|].
  apply Z.log2_lt_pow2 in Hn; lia.
Qed.

Lemma round_even_exact p m : BitLen m <= p -> round_even p m = (m, 0).
Proof. intros H. unfold round_even. rewrite bool_decide_true by lia. done. Qed.

Lemma round_even_bounds p m q d :
  0 <= m -> round_even p m = (q, d) -> 0 <= d /\ (d = 0 /\ q = m \/ d = BitLen m - p) /\ m / 2 ^ d <= q <= m / 2 ^ d + 1.
Proof.
  intros Hm. unfold round_even. case_bool_decide as Hd.
  - intros [= <- <-]. rewrite Z.pow_0_r, Z.div_1_r. split; [lia|]. split; [by left | lia].
  - destruct (_ || _); intros [= <- <-]; (split; [lia|]); (split; [by right | lia]).
Qed.

(** The integer part of a product below [2 ^ p] survives rounding to [p] bits. *)
Lemma big_Int_round p m e :
  0 <= m -> 0 <= p -> m * 2 ^ Z.max 0 e < 2 ^ (p + Z.max 0 (- e)) ->
  big_Int (mkFloat m e) <= big_Int (round p (mkFloat m e)) <= big_Int (mkFloat m e) + 1.
Proof.
  intros Hm Hp Hlt. unfold round. cbn [mantissa exponent]. rewrite Z.abs_eq by done.
  destruct (round_even p m) as [q d] eqn:Hr.
  destruct (decide (m = 0)) as [->|N].
  { rewrite round_even_exact in Hr by (change (BitLen 0) with 0; lia). injection Hr as <- <-. rewrite Z.mul_0_r, Z.add_0_r. lia. }
  rewrite Z.sgn_pos, Z.mul_1_l by lia.
  destruct (round_even_bounds _ _ _ _ Hm Hr) as (Hd & Hcase & Hq).
  destruct (decide (0 <= e)) as [He|He].
  - rewrite Z.max_r, Z.max_l, Z.add_0_r in Hlt by lia.
    assert (m < 2 ^ p).
    { assert (1 <= 2 ^ e) by (pose proof (Z.pow_pos_nonneg 2 e); lia). nia. }
    rewrite round_even_exact in Hr by (apply BitLen_le; lia). injection Hr as <- <-. rewrite Z.add_0_r. lia.
  - rewrite Z.max_l, Z.max_r, Z.pow_0_r, Z.mul_1_r in Hlt by lia.
    assert (Hb : BitLen m <= p - e) by (apply BitLen_le; [split; [lia | assumption] | lia]).
    assert (Hde : d <= - e) by (destruct Hcase as [[-> _]| ->]; lia).
    assert (H2d : 0 < 2 ^ d) by (apply Z.pow_pos_nonneg; lia).
    assert (Hqn : 0 <= m / 2 ^ d) by (apply Z.div_pos; lia).
    assert (Hsplit : m / 2 ^ (- e) = m / 2 ^ d / 2 ^ (- e - d)).
    { rewrite Z.div_div by (try apply Z.pow_nonzero; try apply Z.pow_pos_nonneg; lia).
      rewrite <- Z.pow_add_r by lia. f_equal. f_equal. lia. }
    assert (H2k : 0 < 2 ^ (- e - d)) by (apply Z.pow_pos_nonneg; lia).
    unfold big_Int. cbn [mantissa exponent]. rewrite (bool_decide_false (0 <= e)) by lia.
    rewrite Z.quot_div_nonneg by lia. rewrite Hsplit.
    assert (Hmono : m / 2 ^ d / 2 ^ (- e - d) <= q / 2 ^ (- e - d) <= m / 2 ^ d / 2 ^ (- e - d) + 1).
    { split; [apply Z.div_le_mono; lia|].
      transitivity ((m / 2 ^ d + 2 ^ (- e - d)) / 2 ^ (- e - d)); [apply Z.div_le_mono; lia|].
      rewrite <- (Z.mul_1_l (2 ^ (- e - d))) at 1. rewrite Z.div_add by lia. lia. }
    case_bool_decide as Hed.
    + assert (d = - e) by lia. replace (e + d) with 0 by lia. replace (- e - d) with 0 in Hmono |- * by lia.
      rewrite !Z.pow_0_r, !Z.div_1_r in *. lia.
    + rewrite Z.quot_div_nonneg by lia. replace (- (e + d)) with (- e - d) by lia. exact Hmono.
Qed.
