(* ===== verification/Db.v ===== *)
(** * The relayer's database

    The generated package [db] ([src/db/gen/db]) and the schema of its tables
    ([src/db/migrations]).  A table is a finite map from its serial primary key
    to its rows; a statement reads the transaction time [NOW()] and the tables
    and returns its result (or the error PostgreSQL raises) with the new tables.
    A [WHERE] clause is evaluated on every row; the unique indexes, foreign keys
    and NOT NULL constraints of the migrations are checked by the inserts, and
    [wf_db] collects what the schema guarantees of the stored rows. *)

From S2P Require Import Prelude.
From stdpp Require Import sorting.
Open Scope Z_scope.

Module db.

(** ** Enumerations ([models.go]) *)

Inductive Ibcv2RelayStatus :=
  | Ibcv2RelayStatusPENDING
  | Ibcv2RelayStatusCHECKRECVPACKETDELIVERY
  | Ibcv2RelayStatusGETRECVPACKET
  | Ibcv2RelayStatusDELIVERRECVPACKET
  | Ibcv2RelayStatusWAITFORWRITEACK
  | Ibcv2RelayStatusCHECKACKPACKETDELIVERY
  | Ibcv2RelayStatusGETACKPACKET
  | Ibcv2RelayStatusDELIVERACKPACKET
  | Ibcv2RelayStatusCHECKTIMEOUTPACKETDELIVERY
  | Ibcv2RelayStatusGETTIMEOUTPACKET
  | Ibcv2RelayStatusDELIVERTIMEOUTPACKET
  | Ibcv2RelayStatusCOMPLETEWITHACK
  | Ibcv2RelayStatusCOMPLETEWITHTIMEOUT
  | Ibcv2RelayStatusFAILED
  | Ibcv2RelayStatusAWAITINGSENDFINALITY
  | Ibcv2RelayStatusAWAITINGWRITEACKFINALITY
  | Ibcv2RelayStatusCOMPLETEWITHWRITEACKSUCCESS
  | Ibcv2RelayStatusAWAITINGTIMEOUTFINALITY
  | Ibcv2RelayStatusCOMPLETEWITHWRITEACKERROR
  | Ibcv2RelayStatusCALCULATINGRECVTXGASCOST
  | Ibcv2RelayStatusCALCULATINGACKTXGASCOST
  | Ibcv2RelayStatusCALCULATINGTIMEOUTTXGASCOST.

#[global] Instance Ibcv2RelayStatus_eq_dec : EqDecision Ibcv2RelayStatus.
Proof. solve_decision. Defined.

Definition Ibcv2RelayStatus_string (s : Ibcv2RelayStatus) : string :=
  match s with
  | Ibcv2RelayStatusPENDING => "PENDING"
  | Ibcv2RelayStatusCHECKRECVPACKETDELIVERY => "CHECK_RECV_PACKET_DELIVERY"
  | Ibcv2RelayStatusGETRECVPACKET => "GET_RECV_PACKET"
  | Ibcv2RelayStatusDELIVERRECVPACKET => "DELIVER_RECV_PACKET"
  | Ibcv2RelayStatusWAITFORWRITEACK => "WAIT_FOR_WRITE_ACK"
  | Ibcv2RelayStatusCHECKACKPACKETDELIVERY => "CHECK_ACK_PACKET_DELIVERY"
  | Ibcv2RelayStatusGETACKPACKET => "GET_ACK_PACKET"
  | Ibcv2RelayStatusDELIVERACKPACKET => "DELIVER_ACK_PACKET"
  | Ibcv2RelayStatusCHECKTIMEOUTPACKETDELIVERY => "CHECK_TIMEOUT_PACKET_DELIVERY"
  | Ibcv2RelayStatusGETTIMEOUTPACKET => "GET_TIMEOUT_PACKET"
  | Ibcv2RelayStatusDELIVERTIMEOUTPACKET => "DELIVER_TIMEOUT_PACKET"
  | Ibcv2RelayStatusCOMPLETEWITHACK => "COMPLETE_WITH_ACK"
  | Ibcv2RelayStatusCOMPLETEWITHTIMEOUT => "COMPLETE_WITH_TIMEOUT"
  | Ibcv2RelayStatusFAILED => "FAILED"
  | Ibcv2RelayStatusAWAITINGSENDFINALITY => "AWAITING_SEND_FINALITY"
  | Ibcv2RelayStatusAWAITINGWRITEACKFINALITY => "AWAITING_WRITE_ACK_FINALITY"
  | Ibcv2RelayStatusCOMPLETEWITHWRITEACKSUCCESS => "COMPLETE_WITH_WRITE_ACK_SUCCESS"
  | Ibcv2RelayStatusAWAITINGTIMEOUTFINALITY => "AWAITING_TIMEOUT_FINALITY"
  | Ibcv2RelayStatusCOMPLETEWITHWRITEACKERROR => "COMPLETE_WITH_WRITE_ACK_ERROR"
  | Ibcv2RelayStatusCALCULATINGRECVTXGASCOST => "CALCULATING_RECV_TX_GAS_COST"
  | Ibcv2RelayStatusCALCULATINGACKTXGASCOST => "CALCULATING_ACK_TX_GAS_COST"
  | Ibcv2RelayStatusCALCULATINGTIMEOUTTXGASCOST => "CALCULATING_TIMEOUT_TX_GAS_COST"
  end.

Inductive Ibcv2RelayerTxSubmissionStatus :=
  | Ibcv2RelayerTxSubmissionStatusPENDING
  | Ibcv2RelayerTxSubmissionStatusSUCCESS
  | Ibcv2RelayerTxSubmissionStatusFAILED
  | Ibcv2RelayerTxSubmissionStatusEXPIRED.

#[global] Instance Ibcv2RelayerTxSubmissionStatus_eq_dec : EqDecision Ibcv2RelayerTxSubmissionStatus.
Proof. solve_decision. Defined.

Inductive Ibcv2RelayerTxSubmissionType :=
  | Ibcv2RelayerTxSubmissionTypeRECVPACKET
  | Ibcv2RelayerTxSubmissionTypeACKPACKET
  | Ibcv2RelayerTxSubmissionTypeTIMEOUTPACKET.

#[global] Instance Ibcv2RelayerTxSubmissionType_eq_dec : EqDecision Ibcv2RelayerTxSubmissionType.
Proof. solve_decision. Defined.

Inductive Ibcv2WriteAckStatus :=
  | Ibcv2WriteAckStatusSUCCESS
  | Ibcv2WriteAckStatusERROR
  | Ibcv2WriteAckStatusUNKNOWN.

#[global] Instance Ibcv2WriteAckStatus_eq_dec : EqDecision Ibcv2WriteAckStatus.
Proof. solve_decision. Defined.

(** ** Rows ([models.go])

    [pgtype.Text], [pgtype.Timestamp] and the Null enums are options (None is
    [Valid = false]); a valid [pgtype.Numeric] is an integer mantissa (nil for a
    NaN) and a decimal exponent. *)

Record Numeric := mkNumeric {
  Int : option Z;
  Exp : Z;
}.

Record Ibcv2RelayRequest := mkRelayRequest {
  rr_ID : Z;
  rr_SourceChainID : string;
  rr_SourceTxHash : string;
  rr_CreatedAt : option Z;
}.

Record Ibcv2RelayerTxSubmission := mkTxSubmission {
  sub_ID : Z;
  sub_TxHash : string;
  sub_ChainID : string;
  sub_TxType : Ibcv2RelayerTxSubmissionType;
  sub_RelayerAddress : string;
  sub_SubmittedAt : option Z;
  sub_ResolvedAt : option Z;
  sub_GasCostAmount : option Numeric;
  sub_GasCostUsd : option Numeric;
  sub_Status : Ibcv2RelayerTxSubmissionStatus;
  sub_ExecutionError : option string;
}.

#[global] Instance eta_TxSubmission : Eta Ibcv2RelayerTxSubmission := fun t =>
  mkTxSubmission (sub_ID t) (sub_TxHash t) (sub_ChainID t) (sub_TxType t)
    (sub_RelayerAddress t) (sub_SubmittedAt t) (sub_ResolvedAt t) (sub_GasCostAmount t)
    (sub_GasCostUsd t) (sub_Status t) (sub_ExecutionError t).

Record Ibcv2Transfer := mkTransfer {
  ID : Z;
  CreatedAt : option Z;
  UpdatedAt : option Z;
  Status : Ibcv2RelayStatus;
  StatusText : option string;
  SourceChainID : string;
  DestinationChainID : string;
  SourceTxHash : string;
  SourceTxTime : option Z;
  PacketSequenceNumber : Z;
  PacketSourceClientID : string;
  PacketDestinationClientID : string;
  PacketTimeoutTimestamp : option Z;
  RecvTxHash : option string;
  RecvTxTime : option Z;
  WriteAckTxHash : option string;
  WriteAckTxTime : option Z;
  AckTxHash : option string;
  AckTxTime : option Z;
  TimeoutTxHash : option string;
  TimeoutTxTime : option Z;
  WriteAckStatus : option Ibcv2WriteAckStatus;
  RecvTxGasCostUsd : option Numeric;
  AckTxGasCostUsd : option Numeric;
  TimeoutTxGasCostUsd : option Numeric;
  RecvTxRelayerAddress : option string;
  AckTxRelayerAddress : option string;
  TimeoutTxRelayerAddress : option string;
  SourceTxFinalizedTime : option Z;
  WriteAckTxFinalizedTime : option Z;
}.

#[global] Instance eta_Transfer : Eta Ibcv2Transfer := fun t =>
  mkTransfer (ID t) (CreatedAt t) (UpdatedAt t) (Status t) (StatusText t)
    (SourceChainID t) (DestinationChainID t) (SourceTxHash t) (SourceTxTime t)
    (PacketSequenceNumber t) (PacketSourceClientID t) (PacketDestinationClientID t)
    (PacketTimeoutTimestamp t) (RecvTxHash t) (RecvTxTime t) (WriteAckTxHash t)
    (WriteAckTxTime t) (AckTxHash t) (AckTxTime t) (TimeoutTxHash t) (TimeoutTxTime t)
    (WriteAckStatus t) (RecvTxGasCostUsd t) (AckTxGasCostUsd t) (TimeoutTxGasCostUsd t)
    (RecvTxRelayerAddress t) (AckTxRelayerAddress t) (TimeoutTxRelayerAddress t)
    (SourceTxFinalizedTime t) (WriteAckTxFinalizedTime t).

(** ** Tables *)

Record DB := mkDB {
  ibcv2_transfers : gmap Z Ibcv2Transfer;
  ibcv2_transfers_id_seq : Z;
  ibcv2_relay_requests : gmap Z Ibcv2RelayRequest;
  ibcv2_relay_requests_id_seq : Z;
  ibcv2_relayer_tx_submissions : gmap Z Ibcv2RelayerTxSubmission;
  ibcv2_relayer_tx_submissions_id_seq : Z;
  ibcv2_transfer_tx_submissions : gset (Z * Z);
}.

#[global] Instance eta_DB : Eta DB := fun d =>
  mkDB (ibcv2_transfers d) (ibcv2_transfers_id_seq d)
    (ibcv2_relay_requests d) (ibcv2_relay_requests_id_seq d)
    (ibcv2_relayer_tx_submissions d) (ibcv2_relayer_tx_submissions_id_seq d)
    (ibcv2_transfer_tx_submissions d).

Definition empty_DB : DB := mkDB ∅ 0 ∅ 0 ∅ 0 ∅.

(** The columns of the unique index [index_ibcv2_transfer_packet], which are
    also the columns every update of a transfer selects by. *)
Record PacketKey := mkPacketKey {
  key_SourceChainID : string;
  key_PacketSourceClientID : string;
  key_PacketSequenceNumber : Z;
}.

#[global] Instance PacketKey_eq_dec : EqDecision PacketKey.
Proof. solve_decision. Defined.

Definition row_key (r : Ibcv2Transfer) : PacketKey :=
  mkPacketKey (SourceChainID r) (PacketSourceClientID r) (PacketSequenceNumber r).

Definition Stmt (A : Type) : Type := Z -> DB -> (error + A) * DB.

Definition unique_violation : error :=
  EPg "23505" "duplicate key value violates unique constraint".
Definition foreign_key_violation : error :=
  EPg "23503" "insert or update violates foreign key constraint".
Definition not_null_violation : error :=
  EPg "23502" "null value violates not-null constraint".
Definition sequence_exhausted : error :=
  EPg "2200H" "nextval: reached maximum value of sequence".

(** [UPDATE ibcv2_transfers SET f WHERE source_chain_id=.. AND
    packet_source_client_id=.. AND packet_sequence_number=..] *)
Definition update_where (k : PacketKey) (f : Ibcv2Transfer -> Ibcv2Transfer) (d : DB) : DB :=
  d <| ibcv2_transfers :=
    (fun r => if bool_decide (row_key r = k) then f r else r) <$> ibcv2_transfers d |>.

(** ** Statements on transfers ([ibcv2_transfers.sql.go]) *)

Definition ClearAckTx (k : PacketKey) : Stmt unit := fun now d =>
  (inr tt, update_where k (fun r => r <| AckTxHash := None |> <| AckTxTime := None |>) d).

Definition ClearRecvTx (k : PacketKey) : Stmt unit := fun now d =>
  (inr tt, update_where k (fun r => r <| RecvTxHash := None |> <| RecvTxTime := None |>) d).

Definition ClearTimeoutTx (k : PacketKey) : Stmt unit := fun now d =>
  (inr tt, update_where k (fun r => r <| TimeoutTxHash := None |> <| TimeoutTxTime := None |>) d).

Definition UpdateTransferAckTx (hash : option string) (time : option Z) (relayer : option string)
    (k : PacketKey) : Stmt unit := fun now d =>
  (inr tt, update_where k (fun r =>
     r <| UpdatedAt := Some now |> <| AckTxHash := hash |>
       <| AckTxTime := pg_timestamp <$> time |> <| AckTxRelayerAddress := relayer |>) d).

Definition UpdateTransferAckTxGasCostUSD (cost : option Numeric) (k : PacketKey) : Stmt unit :=
  fun now d =>
  (inr tt, update_where k (fun r =>
     r <| UpdatedAt := Some now |> <| AckTxGasCostUsd := cost |>) d).

Definition UpdateTransferRecvTx (hash : option string) (time : option Z) (relayer : option string)
    (k : PacketKey) : Stmt unit := fun now d =>
  (inr tt, update_where k (fun r =>
     r <| UpdatedAt := Some now |> <| RecvTxHash := hash |>
       <| RecvTxTime := pg_timestamp <$> time |> <| RecvTxRelayerAddress := relayer |>) d).

Definition UpdateTransferRecvTxGasCostUSD (cost : option Numeric) (k : PacketKey) : Stmt unit :=
  fun now d =>
  (inr tt, update_where k (fun r =>
     r <| UpdatedAt := Some now |> <| RecvTxGasCostUsd := cost |>) d).

Definition UpdateTransferSourceTxFinalizedTime (time : option Z) (k : PacketKey) : Stmt unit :=
  fun now d =>
  (inr tt, update_where k (fun r =>
     r <| UpdatedAt := Some now |> <| SourceTxFinalizedTime := pg_timestamp <$> time |>) d).

Definition UpdateTransferState (status : Ibcv2RelayStatus) (k : PacketKey) : Stmt unit :=
  fun now d =>
  (inr tt, update_where k (fun r => r <| UpdatedAt := Some now |> <| Status := status |>) d).

Definition UpdateTransferTimeoutTx (hash : option string) (time : option Z) (relayer : option string)
    (k : PacketKey) : Stmt unit := fun now d =>
  (inr tt, update_where k (fun r =>
     r <| UpdatedAt := Some now |> <| TimeoutTxHash := hash |>
       <| TimeoutTxTime := pg_timestamp <$> time |> <| TimeoutTxRelayerAddress := relayer |>) d).

Definition UpdateTransferTimeoutTxGasCostUSD (cost : option Numeric) (k : PacketKey) : Stmt unit :=
  fun now d =>
  (inr tt, update_where k (fun r =>
     r <| UpdatedAt := Some now |> <| TimeoutTxGasCostUsd := cost |>) d).

Definition UpdateTransferWriteAckTx (hash : option string) (time : option Z)
    (status : option Ibcv2WriteAckStatus) (k : PacketKey) : Stmt unit := fun now d =>
  (inr tt, update_where k (fun r =>
     r <| UpdatedAt := Some now |> <| WriteAckTxHash := hash |>
       <| WriteAckTxTime := pg_timestamp <$> time |> <| WriteAckStatus := status |>) d).

Definition UpdateTransferWriteAckTxFinalizedTime (time : option Z) (k : PacketKey) : Stmt unit :=
  fun now d =>
  (inr tt, update_where k (fun r =>
     r <| UpdatedAt := Some now |> <| WriteAckTxFinalizedTime := pg_timestamp <$> time |>) d).

Definition GetTransfersBySourceTx (chainID txHash : string) : Stmt (list Ibcv2Transfer) := fun now d =>
  (inr (filter (fun r => SourceChainID r = chainID /\ SourceTxHash r = txHash)
          (map_to_list (ibcv2_transfers d)).*2), d).

(** The statuses [GetUnfinishedIBCV2Transfers] leaves out. *)
Definition finished (s : Ibcv2RelayStatus) : bool :=
  match s with
  | Ibcv2RelayStatusCOMPLETEWITHACK | Ibcv2RelayStatusCOMPLETEWITHTIMEOUT
  | Ibcv2RelayStatusFAILED | Ibcv2RelayStatusCOMPLETEWITHWRITEACKSUCCESS
  | Ibcv2RelayStatusCOMPLETEWITHWRITEACKERROR => true
  | _ => false
  end.

Definition GetUnfinishedIBCV2Transfers : Stmt (list Ibcv2Transfer) := fun now d =>
  (inr (filter (fun r => finished (Status r) = false) (map_to_list (ibcv2_transfers d)).*2), d).

(** [SELECT unnest(enum_range(NULL::ibcv2_relay_status))]: in the order in which the
    migrations added the values. *)
Definition enum_range : list Ibcv2RelayStatus :=
  [Ibcv2RelayStatusPENDING; Ibcv2RelayStatusCHECKRECVPACKETDELIVERY; Ibcv2RelayStatusGETRECVPACKET;
   Ibcv2RelayStatusDELIVERRECVPACKET; Ibcv2RelayStatusWAITFORWRITEACK; Ibcv2RelayStatusCHECKACKPACKETDELIVERY;
   Ibcv2RelayStatusGETACKPACKET; Ibcv2RelayStatusDELIVERACKPACKET; Ibcv2RelayStatusCHECKTIMEOUTPACKETDELIVERY;
   Ibcv2RelayStatusGETTIMEOUTPACKET; Ibcv2RelayStatusDELIVERTIMEOUTPACKET; Ibcv2RelayStatusCOMPLETEWITHACK;
   Ibcv2RelayStatusCOMPLETEWITHTIMEOUT; Ibcv2RelayStatusFAILED; Ibcv2RelayStatusAWAITINGSENDFINALITY;
   Ibcv2RelayStatusAWAITINGWRITEACKFINALITY; Ibcv2RelayStatusCOMPLETEWITHWRITEACKSUCCESS;
   Ibcv2RelayStatusAWAITINGTIMEOUTFINALITY; Ibcv2RelayStatusCOMPLETEWITHWRITEACKERROR;
   Ibcv2RelayStatusCALCULATINGRECVTXGASCOST; Ibcv2RelayStatusCALCULATINGACKTXGASCOST;
   Ibcv2RelayStatusCALCULATINGTIMEOUTTXGASCOST].

Definition ListRelayStatuses : Stmt (list string) := fun now d =>
  (inr (Ibcv2RelayStatus_string <$> enum_range), d).

Record CountTransfersByChainPairAndStatusRow := mkCountRow {
  count_SourceChainID : string;
  count_DestinationChainID : string;
  count_Status : Ibcv2RelayStatus;
  Count : Z;
}.

Definition chain_pair_status (r : Ibcv2Transfer) : string * string * Ibcv2RelayStatus :=
  (SourceChainID r, DestinationChainID r, Status r).

(** [GROUP BY source_chain_id, destination_chain_id, status]: one row per group that is
    not empty, in an order of the server's choosing. *)
Definition CountTransfersByChainPairAndStatus : Stmt (list CountTransfersByChainPairAndStatusRow) := fun now d =>
  let groups := chain_pair_status <$> (map_to_list (ibcv2_transfers d)).*2 in
  (inr ((fun g => mkCountRow g.1.1 g.1.2 g.2 (Z.of_nat (length (filter (fun g' => g' = g) groups))))
          <$> remove_dups groups), d).

(** [nextval]: a serial column fails once its int4 range is used up. *)
Definition nextval (seq : Z) : option Z :=
  if bool_decide (seq + 1 <= max_int32) then Some (seq + 1) else None.

Definition InsertIBCV2Transfer (sourceChainID destinationChainID sourceTxHash : string)
    (sourceTxTime : option Z) (packetSequenceNumber : Z)
    (packetSourceClientID packetDestinationClientID : string)
    (packetTimeoutTimestamp : option Z) : Stmt unit := fun now d =>
  match nextval (ibcv2_transfers_id_seq d) with
  | None => (inl sequence_exhausted, d)
  | Some id =>
      let d := d <| ibcv2_transfers_id_seq := id |> in
      match sourceTxTime, packetTimeoutTimestamp with
      | Some st, Some pt =>
          if bool_decide (map_Exists
               (fun _ r => row_key r =
                  mkPacketKey sourceChainID packetSourceClientID packetSequenceNumber)
               (ibcv2_transfers d))
          then (inl unique_violation, d)
          else (inr tt, d <| ibcv2_transfers := <[id := {|
                 ID := id;
                 CreatedAt := Some now;
                 UpdatedAt := Some now;
                 Status := Ibcv2RelayStatusPENDING;
                 StatusText := None;
                 SourceChainID := sourceChainID;
                 DestinationChainID := destinationChainID;
                 SourceTxHash := sourceTxHash;
                 SourceTxTime := Some (pg_timestamp st);
                 PacketSequenceNumber := packetSequenceNumber;
                 PacketSourceClientID := packetSourceClientID;
                 PacketDestinationClientID := packetDestinationClientID;
                 PacketTimeoutTimestamp := Some (pg_timestamp pt);
                 RecvTxHash := None;
                 RecvTxTime := None;
                 WriteAckTxHash := None;
                 WriteAckTxTime := None;
                 AckTxHash := None;
                 AckTxTime := None;
                 TimeoutTxHash := None;
                 TimeoutTxTime := None;
                 WriteAckStatus := None;
                 RecvTxGasCostUsd := None;
                 AckTxGasCostUsd := None;
                 TimeoutTxGasCostUsd := None;
                 RecvTxRelayerAddress := None;
                 AckTxRelayerAddress := None;
                 TimeoutTxRelayerAddress := None;
                 SourceTxFinalizedTime := None;
                 WriteAckTxFinalizedTime := None;
               |}]> (ibcv2_transfers d) |>)
      | _, _ => (inl not_null_violation, d)
      end
  end.

(** ** Relay requests *)

Definition GetRelayRequest (chainID txHash : string) : Stmt Ibcv2RelayRequest := fun now d =>
  (match filter (fun r => rr_SourceChainID r = chainID /\ rr_SourceTxHash r = txHash)
           (map_to_list (ibcv2_relay_requests d)).*2 with
   | r :: _ => inr r
   | [] => inl (ESentinel pgx_ErrNoRows)
   end, d).

Definition InsertRelayRequest (chainID txHash : string) : Stmt unit := fun now d =>
  match nextval (ibcv2_relay_requests_id_seq d) with
  | None => (inl sequence_exhausted, d)
  | Some id =>
      let d := d <| ibcv2_relay_requests_id_seq := id |> in
      if bool_decide (map_Exists
           (fun _ r => rr_SourceChainID r = chainID /\ rr_SourceTxHash r = txHash)
           (ibcv2_relay_requests d))
      then (inr tt, d)
      else (inr tt, d <| ibcv2_relay_requests :=
             <[id := mkRelayRequest id chainID txHash (Some now)]> (ibcv2_relay_requests d) |>)
  end.

(** ** Submitted transactions ([ibcv2_relayer_tx_submissions.sql.go],
    [ibcv2_transfer_tx_submissions.sql.go]) *)

Definition update_submission (p : Ibcv2RelayerTxSubmission -> bool)
    (f : Ibcv2RelayerTxSubmission -> Ibcv2RelayerTxSubmission) (d : DB) : DB :=
  d <| ibcv2_relayer_tx_submissions :=
    (fun r => if p r then f r else r) <$> ibcv2_relayer_tx_submissions d |>.

Definition ExpirePendingIBCV2RelayerTxSubmission (id : Z) : Stmt unit := fun now d =>
  (inr tt, update_submission
     (fun s => bool_decide (sub_ID s = id)
               && bool_decide (sub_Status s = Ibcv2RelayerTxSubmissionStatusPENDING))
     (fun s => s <| sub_ResolvedAt := Some now |>
                 <| sub_Status := Ibcv2RelayerTxSubmissionStatusEXPIRED |>
                 <| sub_ExecutionError := None |>) d).

(** [ORDER BY submitted_at ASC]: rows submitted at the same time come in an order
    of the server's choosing, here that of the table. *)
Definition submitted_before (s s' : Ibcv2RelayerTxSubmission) : Prop :=
  default 0 (sub_SubmittedAt s) <= default 0 (sub_SubmittedAt s').

#[global] Instance submitted_before_dec s s' : Decision (submitted_before s s').
Proof. unfold submitted_before. apply _. Defined.

Definition by_submission (l : list Ibcv2RelayerTxSubmission) : list Ibcv2RelayerTxSubmission :=
  merge_sort submitted_before l.

Definition negative_limit : error := EPg "2201W" "LIMIT must not be negative".

Definition GetUnresolvedIBCV2RelayerTxSubmissions (limit : Z) : Stmt (list Ibcv2RelayerTxSubmission) :=
  fun now d =>
  if bool_decide (limit < 0) then (inl negative_limit, d) else
  (inr (take (Z.to_nat limit) (by_submission
          (filter (fun s => sub_Status s = Ibcv2RelayerTxSubmissionStatusPENDING)
             (map_to_list (ibcv2_relayer_tx_submissions d)).*2))), d).

Definition InsertIBCV2RelayerTxSubmission (txHash chainID : string)
    (txType : Ibcv2RelayerTxSubmissionType) (relayerAddress : string)
    (submittedAt : option Z) (status : Ibcv2RelayerTxSubmissionStatus) : Stmt Z := fun now d =>
  match nextval (ibcv2_relayer_tx_submissions_id_seq d) with
  | None => (inl sequence_exhausted, d)
  | Some id =>
      let d := d <| ibcv2_relayer_tx_submissions_id_seq := id |> in
      match submittedAt with
      | None => (inl not_null_violation, d)
      | Some at_ =>
          if bool_decide (map_Exists
               (fun _ s => sub_ChainID s = chainID /\ sub_TxHash s = txHash /\ sub_TxType s = txType)
               (ibcv2_relayer_tx_submissions d))
          then (inl unique_violation, d)
          else (inr id, d <| ibcv2_relayer_tx_submissions :=
                 <[id := {|
                     sub_ID := id;
                     sub_TxHash := txHash;
                     sub_ChainID := chainID;
                     sub_TxType := txType;
                     sub_RelayerAddress := relayerAddress;
                     sub_SubmittedAt := Some (pg_timestamp at_);
                     sub_ResolvedAt := None;
                     sub_GasCostAmount := None;
                     sub_GasCostUsd := None;
                     sub_Status := status;
                     sub_ExecutionError := None;
                   |}]> (ibcv2_relayer_tx_submissions d) |>)
      end
  end.

(** The status of the tracking update arrives as a string: one that is not a member
    of the enumeration is refused. *)
Definition submissionStatus (s : string) : option Ibcv2RelayerTxSubmissionStatus :=
  if bool_decide (s = "PENDING") then Some Ibcv2RelayerTxSubmissionStatusPENDING
  else if bool_decide (s = "SUCCESS") then Some Ibcv2RelayerTxSubmissionStatusSUCCESS
  else if bool_decide (s = "FAILED") then Some Ibcv2RelayerTxSubmissionStatusFAILED
  else if bool_decide (s = "EXPIRED") then Some Ibcv2RelayerTxSubmissionStatusEXPIRED
  else None.

Definition invalid_enum : error := EPg "22P02" "invalid input value for enum".

Definition UpdateIBCV2RelayerTxSubmissionTracking (amount usd : option Numeric)
    (status : string) (executionError : option string) (id : Z)
    : Stmt unit := fun now d =>
  match submissionStatus status with
  | None => (inl invalid_enum, d)
  | Some status =>
      (inr tt, update_submission
         (fun s => bool_decide (sub_ID s = id))
         (fun s => s <| sub_ResolvedAt := Some now |> <| sub_GasCostAmount := amount |>
                     <| sub_GasCostUsd := usd |> <| sub_Status := status |>
                     <| sub_ExecutionError := executionError |>) d)
  end.

Definition InsertIBCV2TransferTxSubmission (transferID submissionID : Z) : Stmt unit := fun now d =>
  if bool_decide ((transferID, submissionID) ∈ ibcv2_transfer_tx_submissions d) then (inr tt, d)
  else match ibcv2_transfers d !! transferID, ibcv2_relayer_tx_submissions d !! submissionID with
       | Some _, Some _ =>
           (inr tt, d <| ibcv2_transfer_tx_submissions :=
              {[ (transferID, submissionID) ]} ∪ ibcv2_transfer_tx_submissions d |>)
       | _, _ => (inl foreign_key_violation, d)
       end.

(** [ORDER BY s.submitted_at ASC, s.id ASC] *)
Definition submitted_before_id (s s' : Ibcv2RelayerTxSubmission) : Prop :=
  default 0 (sub_SubmittedAt s) < default 0 (sub_SubmittedAt s') \/
  default 0 (sub_SubmittedAt s) = default 0 (sub_SubmittedAt s') /\ sub_ID s <= sub_ID s'.

#[global] Instance submitted_before_id_dec s s' : Decision (submitted_before_id s s').
Proof. unfold submitted_before_id. apply _. Defined.

Definition GetIBCV2RelayerTxSubmissionsByTransferID (transferID : Z) : Stmt (list Ibcv2RelayerTxSubmission) :=
  fun now d =>
  (inr (merge_sort submitted_before_id
          (filter (fun s => (transferID, sub_ID s) ∈ ibcv2_transfer_tx_submissions d)
             (map_to_list (ibcv2_relayer_tx_submissions d)).*2)), d).

(** ** What the schema guarantees *)

Record wf_db (d : DB) : Prop := {
  wf_transfer_id : forall i r, ibcv2_transfers d !! i = Some r ->
    ID r = i /\ 0 < i <= ibcv2_transfers_id_seq d;
  wf_transfer_seq : forall i r, ibcv2_transfers d !! i = Some r ->
    in_int32 (PacketSequenceNumber r);
  wf_transfer_unique : forall i j r r',
    ibcv2_transfers d !! i = Some r -> ibcv2_transfers d !! j = Some r' ->
    row_key r = row_key r' -> i = j;
  wf_request_id : forall i r, ibcv2_relay_requests d !! i = Some r ->
    rr_ID r = i /\ 0 < i <= ibcv2_relay_requests_id_seq d;
  wf_request_unique : forall i j r r',
    ibcv2_relay_requests d !! i = Some r -> ibcv2_relay_requests d !! j = Some r' ->
    rr_SourceChainID r = rr_SourceChainID r' -> rr_SourceTxHash r = rr_SourceTxHash r' -> i = j;
  wf_submission_id : forall i s, ibcv2_relayer_tx_submissions d !! i = Some s ->
    sub_ID s = i /\ 0 < i <= ibcv2_relayer_tx_submissions_id_seq d;
  wf_submission_unique : forall i j s s',
    ibcv2_relayer_tx_submissions d !! i = Some s ->
    ibcv2_relayer_tx_submissions d !! j = Some s' ->
    sub_ChainID s = sub_ChainID s' -> sub_TxHash s = sub_TxHash s' ->
    sub_TxType s = sub_TxType s' -> i = j;
  wf_mapping : forall t s, (t, s) ∈ ibcv2_transfer_tx_submissions d ->
    is_Some (ibcv2_transfers d !! t) /\ is_Some (ibcv2_relayer_tx_submissions d !! s);
  wf_seqs : 0 <= ibcv2_transfers_id_seq d /\ 0 <= ibcv2_relay_requests_id_seq d
            /\ 0 <= ibcv2_relayer_tx_submissions_id_seq d;
}.

Definition wf_stmt {A} (q : Stmt A) : Prop :=
  forall now d, wf_db d -> wf_db (snd (q now d)).

Lemma wf_empty_DB : wf_db empty_DB.
Proof. split; cbn; intros; try done; try (by simplify_map_eq); set_solver. Qed.

Lemma nextval_Some seq id : nextval seq = Some id -> id = seq + 1 /\ id <= max_int32.
Proof. unfold nextval. case_bool_decide; intros [= <-]; lia. Qed.

(** An update of a row that keeps its key. *)
Definition keeps_key (f : Ibcv2Transfer -> Ibcv2Transfer) : Prop :=
  forall r, ID (f r) = ID r /\ row_key (f r) = row_key r.

Lemma lookup_update_where k f d i :
  ibcv2_transfers (update_where k f d) !! i =
  (fun r => if bool_decide (row_key r = k) then f r else r) <$> ibcv2_transfers d !! i.
Proof. apply lookup_fmap. Qed.

Lemma lookup_update_where_eq k f d i r :
  ibcv2_transfers d !! i = Some r -> row_key r = k ->
  ibcv2_transfers (update_where k f d) !! i = Some (f r).
Proof. intros H <-. rewrite lookup_update_where, H. cbn. by rewrite bool_decide_true. Qed.

Lemma lookup_update_where_ne k f d i r :
  ibcv2_transfers d !! i = Some r -> row_key r <> k ->
  ibcv2_transfers (update_where k f d) !! i = Some r.
Proof. intros H N. rewrite lookup_update_where, H. cbn. by rewrite bool_decide_false. Qed.

Lemma update_where_keeps k f d i r' :
  keeps_key f -> ibcv2_transfers (update_where k f d) !! i = Some r' ->
  exists r, ibcv2_transfers d !! i = Some r /\ ID r' = ID r /\ row_key r' = row_key r.
Proof.
  intros Hf H. rewrite lookup_update_where in H.
  apply fmap_Some in H as (r & Hr & ->). exists r. split; [done|].
  case_bool_decide; [apply Hf | done].
Qed.

Lemma update_where_wf k f d : keeps_key f -> wf_db d -> wf_db (update_where k f d).
Proof.
  intros Hf [W1 W2 W3 W4 W5 W6 W7 W8 W9]. split; try done.
  - intros i r H. apply update_where_keeps in H as (r0 & H & -> & _); [|done].
    by apply W1 in H.
  - intros i r H. apply update_where_keeps in H as (r0 & H & _ & Hk); [|done].
    apply W2 in H. by injection Hk as _ _ ->.
  - intros i j r r' H H' E.
    apply update_where_keeps in H as (r0 & H & _ & Hk); [|done].
    apply update_where_keeps in H' as (r0' & H' & _ & Hk'); [|done].
    rewrite Hk, Hk' in E. eauto.
  - intros t s H. apply W8 in H as [H1 H2]. split; [|done].
    rewrite lookup_update_where. by apply fmap_is_Some.
Qed.

Lemma update_submission_wf p f d :
  (forall s, sub_ID (f s) = sub_ID s /\ sub_ChainID (f s) = sub_ChainID s
             /\ sub_TxHash (f s) = sub_TxHash s /\ sub_TxType (f s) = sub_TxType s) ->
  wf_db d -> wf_db (update_submission p f d).
Proof.
  intros Hf [W1 W2 W3 W4 W5 W6 W7 W8 W9].
  assert (K : forall i s', ibcv2_relayer_tx_submissions (update_submission p f d) !! i = Some s' ->
    exists s, ibcv2_relayer_tx_submissions d !! i = Some s /\ sub_ID s' = sub_ID s /\
      sub_ChainID s' = sub_ChainID s /\ sub_TxHash s' = sub_TxHash s /\ sub_TxType s' = sub_TxType s).
  { intros i s' H. cbn in H. rewrite lookup_fmap in H.
    apply fmap_Some in H as (s & Hs & ->). exists s. split; [done|].
    destruct (p s); [apply Hf | done]. }
  split; try done.
  - intros i s H. apply K in H as (s0 & H & -> & _). by apply W6 in H.
  - intros i j s s' H H' E1 E2 E3.
    apply K in H as (s0 & H & _ & C1 & C2 & C3).
    apply K in H' as (s0' & H' & _ & C1' & C2' & C3').
    eapply W7; [exact H | exact H' | congruence..].
  - intros t s H. apply W8 in H as [H1 H2]. split; [done|].
    cbn. rewrite lookup_fmap. by apply fmap_is_Some.
Qed.

Lemma InsertIBCV2Transfer_wf sc dc h st n c1 c2 pt :
  in_int32 n -> wf_stmt (InsertIBCV2Transfer sc dc h st n c1 c2 pt).
Proof.
  intros Hn now d W. unfold InsertIBCV2Transfer.
  destruct (nextval _) as [id|] eqn:En; [|done]. apply nextval_Some in En as [En _].
  assert (W' : wf_db (d <| ibcv2_transfers_id_seq := id |>)).
  { destruct W as [W1 W2 W3 W4 W5 W6 W7 W8 (V1&V2&V3)]. split; try done; cbn in *; [|lia].
    intros i r H. apply W1 in H. lia. }
  destruct st; [|done]. destruct pt; [|done]. case_bool_decide as Hex; [done|].
  cbn in *. destruct W as [W1 W2 W3 W4 W5 W6 W7 W8 (V1&V2&V3)].
  assert (Hfresh : ibcv2_transfers d !! id = None).
  { destruct (ibcv2_transfers d !! id) eqn:E; [|done]. apply W1 in E. lia. }
  split; try done; cbn.
  - intros i r [[<- <-] | [? H]]%lookup_insert_Some; [cbn; lia|]. apply W1 in H. lia.
  - intros i r [[<- <-] | [? H]]%lookup_insert_Some; [done|]. by apply W2 in H.
  - intros i j r r' [[<- <-] | [? H]]%lookup_insert_Some [[<- <-] | [? H']]%lookup_insert_Some E;
      [done | | |eauto]; destruct Hex; eexists _, _; split; eauto.
  - intros t s H'. apply W8 in H' as [Ht ?]. split; [|done].
    rewrite lookup_insert_is_Some. destruct (decide (id = t)); [by left | right; done].
  - lia.
Qed.

Lemma InsertRelayRequest_wf sc h : wf_stmt (InsertRelayRequest sc h).
Proof.
  intros now d W. unfold InsertRelayRequest.
  destruct (nextval _) as [id|] eqn:En; [|done]. apply nextval_Some in En as [En _].
  destruct W as [W1 W2 W3 W4 W5 W6 W7 W8 (V1&V2&V3)].
  case_bool_decide as Hex; cbn in *.
  - split; try done; cbn; [|lia]. intros i r H'. apply W4 in H'. lia.
  - split; try done; cbn.
    + intros i r [[<- <-] | [? H']]%lookup_insert_Some; [cbn; lia|]. apply W4 in H'. lia.
    + intros i j r r' [[<- <-] | [? H2]]%lookup_insert_Some [[<- <-] | [? H']]%lookup_insert_Some E1 E2;
        [done | | |eauto]; destruct Hex; eexists _, _; split; eauto.
    + lia.
Qed.

Lemma InsertIBCV2RelayerTxSubmission_wf h c ty a t st :
  wf_stmt (InsertIBCV2RelayerTxSubmission h c ty a t st).
Proof.
  intros now d W. unfold InsertIBCV2RelayerTxSubmission.
  destruct (nextval _) as [id|] eqn:En; [|done]. apply nextval_Some in En as [En _].
  assert (W' : wf_db (d <| ibcv2_relayer_tx_submissions_id_seq := id |>)).
  { destruct W as [W1 W2 W3 W4 W5 W6 W7 W8 (V1&V2&V3)]. split; try done; cbn in *; [|lia].
    intros i r H'. apply W6 in H'. lia. }
  destruct t; [|done]. case_bool_decide as Hex; [done|].
  cbn in *. destruct W as [W1 W2 W3 W4 W5 W6 W7 W8 (V1&V2&V3)].
  split; try done; cbn.
  - intros i r [[<- <-] | [? H']]%lookup_insert_Some; [cbn; lia|]. apply W6 in H'. lia.
  - intros i j r r' [[<- <-] | [? H2]]%lookup_insert_Some [[<- <-] | [? H']]%lookup_insert_Some E1 E2 E3;
      [done | | |eauto]; destruct Hex; eexists _, _; split; eauto.
  - intros tr s H'. apply W8 in H' as [Ht ?]. split; [done|].
    rewrite lookup_insert_is_Some. destruct (decide (id = s)); [by left | right; done].
  - lia.
Qed.

Lemma InsertIBCV2TransferTxSubmission_wf t s : wf_stmt (InsertIBCV2TransferTxSubmission t s).
Proof.
  intros now d W. unfold InsertIBCV2TransferTxSubmission.
  case_bool_decide; [done|].
  destruct (ibcv2_transfers d !! t) eqn:Et; [|done].
  destruct (ibcv2_relayer_tx_submissions d !! s) eqn:Es; [|done].
  destruct W as [W1 W2 W3 W4 W5 W6 W7 W8 W9]. split; try done; cbn.
  intros t' s' [[= -> ->]%elem_of_singleton | H']%elem_of_union; [by rewrite Et, Es | by apply W8].
Qed.

#[global] Hint Resolve wf_empty_DB InsertIBCV2Transfer_wf InsertRelayRequest_wf
  InsertIBCV2RelayerTxSubmission_wf InsertIBCV2TransferTxSubmission_wf : relayer.
#[global] Hint Extern 2 (wf_stmt _) =>
  (intros ?now ?d ?W; first [exact W | apply update_where_wf; [by split | exact W]
                            | apply update_submission_wf; [by repeat split | exact W]]) : relayer.

Lemma ClearRecvTx_wf k : wf_stmt (ClearRecvTx k).
Proof. auto with relayer. Qed.

Lemma UpdateIBCV2RelayerTxSubmissionTracking_wf a u s e id :
  wf_stmt (UpdateIBCV2RelayerTxSubmissionTracking a u s e id).
Proof.
  intros now d W. unfold UpdateIBCV2RelayerTxSubmissionTracking. destruct (submissionStatus s); [|done].
  apply update_submission_wf; [by repeat split | exact W].
Qed.

(** With the unique index, an update by packet key changes one row at most. *)
Lemma update_where_one_row k f d i r :
  wf_db d -> ibcv2_transfers d !! i = Some r -> row_key r = k ->
  ibcv2_transfers (update_where k f d) = <[i := f r]> (ibcv2_transfers d).
Proof.
  intros W H Hk. apply map_eq; intros j. rewrite lookup_update_where.
  destruct (decide (i = j)) as [<-|N].
  - rewrite lookup_insert_eq, H. cbn. by rewrite bool_decide_true.
  - rewrite lookup_insert_ne by done.
    destruct (ibcv2_transfers d !! j) as [r'|] eqn:E; [|done]. cbn. f_equal.
    rewrite bool_decide_false; [done|]. intros Hk'. apply N.
    eapply wf_transfer_unique; [done..|congruence].
Qed.

End db.
