(* ===== verification/Models.v ===== *)
(** * The row types of the database package

    [src/db/gen/db/models.go]: the enum types, which are strings in Go, with their
    [Scan] and [Value], the fields of the row structs, and the [InsertRawTx] statement
    of [transactions.sql.go].  The file Db uses inductive types for the enums; here a
    value of one goes through the driver and comes back. *)

From S2P Require Import Prelude Db.

(** ** Enums and the driver *)

(** What a driver hands to [Scan]. *)
Inductive driver_value :=
  | DNil
  | DBytes (b : string)
  | DString (s : string)
  | DOther.

(** [Scan] of an enum: any text is taken, known or not. *)
Definition enum_Scan (name : string) (src : driver_value) : error + string :=
  match src with
  | DBytes s => inr s
  | DString s => inr s
  | DNil | DOther => inl (ENew ("unsupported scan type for " +:+ name))
  end.

Definition BridgeType_Scan := enum_Scan "BridgeType".
Definition Ibcv2RelayStatus_Scan := enum_Scan "Ibcv2RelayStatus".
Definition Ibcv2RelayerTxSubmissionStatus_Scan := enum_Scan "Ibcv2RelayerTxSubmissionStatus".
Definition Ibcv2RelayerTxSubmissionType_Scan := enum_Scan "Ibcv2RelayerTxSubmissionType".
Definition Ibcv2WriteAckStatus_Scan := enum_Scan "Ibcv2WriteAckStatus".

(** The Null variants: the enum's text and [Valid]. *)
Record NullEnum := mkNullEnum {
  Enum : string;
  Valid : bool;
}.

(** [Scan] of a Null enum, on the value it was.  A value of another type leaves
    [Valid] set and the text as it was, with an error. *)
Definition null_Scan (Scan : driver_value -> error + string) (ns : NullEnum) (value : driver_value)
    : option error * NullEnum :=
  match value with
  | DNil => (None, mkNullEnum "" false)
  | _ =>
      match Scan value with
      | inl err => (Some err, mkNullEnum (Enum ns) true)
      | inr s => (None, mkNullEnum s true)
      end
  end.

Definition NullBridgeType_Scan := null_Scan BridgeType_Scan.
Definition NullIbcv2RelayStatus_Scan := null_Scan Ibcv2RelayStatus_Scan.
Definition NullIbcv2RelayerTxSubmissionStatus_Scan := null_Scan Ibcv2RelayerTxSubmissionStatus_Scan.
Definition NullIbcv2RelayerTxSubmissionType_Scan := null_Scan Ibcv2RelayerTxSubmissionType_Scan.
Definition NullIbcv2WriteAckStatus_Scan := null_Scan Ibcv2WriteAckStatus_Scan.

(** [Value] of the five Null enums. *)
Definition null_Value (ns : NullEnum) : driver_value :=
  if Valid ns then DString (Enum ns) else DNil.

Definition NullBridgeType_Value := null_Value.
Definition NullIbcv2RelayStatus_Value := null_Value.
Definition NullIbcv2RelayerTxSubmissionStatus_Value := null_Value.
Definition NullIbcv2RelayerTxSubmissionType_Value := null_Value.
Definition NullIbcv2WriteAckStatus_Value := null_Value.

(** The constants of the other enums. *)
Definition BridgeTypeIbcv2 : string := "ibcv2".

Definition Ibcv2RelayerTxSubmissionStatus_string (s : db.Ibcv2RelayerTxSubmissionStatus) : string :=
  match s with
  | db.Ibcv2RelayerTxSubmissionStatusPENDING => "PENDING"
  | db.Ibcv2RelayerTxSubmissionStatusSUCCESS => "SUCCESS"
  | db.Ibcv2RelayerTxSubmissionStatusFAILED => "FAILED"
  | db.Ibcv2RelayerTxSubmissionStatusEXPIRED => "EXPIRED"
  end.

Definition Ibcv2RelayerTxSubmissionType_string (s : db.Ibcv2RelayerTxSubmissionType) : string :=
  match s with
  | db.Ibcv2RelayerTxSubmissionTypeRECVPACKET => "RECV_PACKET"
  | db.Ibcv2RelayerTxSubmissionTypeACKPACKET => "ACK_PACKET"
  | db.Ibcv2RelayerTxSubmissionTypeTIMEOUTPACKET => "TIMEOUT_PACKET"
  end.

Definition Ibcv2WriteAckStatus_string (s : db.Ibcv2WriteAckStatus) : string :=
  match s with
  | db.Ibcv2WriteAckStatusSUCCESS => "SUCCESS"
  | db.Ibcv2WriteAckStatusERROR => "ERROR"
  | db.Ibcv2WriteAckStatusUNKNOWN => "UNKNOWN"
  end.

(** ** Structs *)

(** The types of fields; [GEnum] and [GNull] are an enum and its Null variant. *)
Inductive gotype :=
  | Gint32
  | Gstring
  | GText
  | GTimestamp
  | GTimestamptz
  | GNumeric
  | GEnum (name : string)
  | GNull (name : string).

#[export] Instance gotype_eq_dec : EqDecision gotype.
Proof. solve_decision. Defined.

Definition struct := list (string * gotype).

Definition struct_Ibcv2RelayRequest : struct :=
  [("ID", Gint32); ("SourceChainID", Gstring); ("SourceTxHash", Gstring); ("CreatedAt", GTimestamptz)].

Definition struct_Ibcv2RelayerTxSubmission : struct :=
  [("ID", Gint32); ("TxHash", Gstring); ("ChainID", Gstring);
   ("TxType", GEnum "Ibcv2RelayerTxSubmissionType"); ("RelayerAddress", Gstring);
   ("SubmittedAt", GTimestamptz); ("ResolvedAt", GTimestamptz); ("GasCostAmount", GNumeric);
   ("GasCostUsd", GNumeric); ("Status", GEnum "Ibcv2RelayerTxSubmissionStatus");
   ("ExecutionError", GText)].

Definition struct_Ibcv2Transfer : struct :=
  [("ID", Gint32); ("CreatedAt", GTimestamp); ("UpdatedAt", GTimestamp);
   ("Status", GEnum "Ibcv2RelayStatus"); ("StatusText", GText); ("SourceChainID", Gstring);
   ("DestinationChainID", Gstring); ("SourceTxHash", Gstring); ("SourceTxTime", GTimestamp);
   ("PacketSequenceNumber", Gint32); ("PacketSourceClientID", Gstring);
   ("PacketDestinationClientID", Gstring); ("PacketTimeoutTimestamp", GTimestamp);
   ("RecvTxHash", GText); ("RecvTxTime", GTimestamp); ("WriteAckTxHash", GText);
   ("WriteAckTxTime", GTimestamp); ("AckTxHash", GText); ("AckTxTime", GTimestamp);
   ("TimeoutTxHash", GText); ("TimeoutTxTime", GTimestamp);
   ("WriteAckStatus", GNull "Ibcv2WriteAckStatus"); ("RecvTxGasCostUsd", GNumeric);
   ("AckTxGasCostUsd", GNumeric); ("TimeoutTxGasCostUsd", GNumeric);
   ("RecvTxRelayerAddress", GText); ("AckTxRelayerAddress", GText);
   ("TimeoutTxRelayerAddress", GText); ("SourceTxFinalizedTime", GTimestamp);
   ("WriteAckTxFinalizedTime", GTimestamp)].

Definition struct_Ibcv2TransferTxSubmission : struct :=
  [("TransferID", Gint32); ("SubmissionID", Gint32)].

Definition struct_RawTx : struct :=
  [("ID", Gint32); ("CreatedAt", GTimestamp); ("UpdatedAt", GTimestamp); ("CctpMessageID", Gint32);
   ("TxHash", Gstring); ("RawTx", Gstring); ("ChainID", GText); ("Nonce", GText)].

(** ** Raw transactions ([transactions.sql.go]) *)

Record RawTx := mkRawTx {
  raw_ID : Z;
  raw_CreatedAt : option Z;
  raw_UpdatedAt : option Z;
  raw_CctpMessageID : Z;
  raw_TxHash : string;
  raw_RawTx : string;
  raw_ChainID : option string;
  raw_Nonce : option string;
}.

Record RawTxs := mkRawTxs {
  raw_txs : gmap Z RawTx;
  raw_txs_id_seq : Z;
}.

(** A statement at [CURRENT_TIMESTAMP = now]; an exhausted sequence fails it. *)
Definition InsertRawTx (CctpMessageID : Z) (TxHash RawTx : string) (ChainID Nonce : option string)
    (now : Z) (d : RawTxs) : (error + Models.RawTx) * RawTxs :=
  match db.nextval (raw_txs_id_seq d) with
  | None => (inl (ENew "nextval: reached maximum value of sequence"), d)
  | Some id =>
      let row := mkRawTx id (Some now) (Some now) CctpMessageID TxHash RawTx ChainID Nonce in
      (inr row, mkRawTxs (<[id := row]> (raw_txs d)) id)
  end.

(** ** Properties *)

(** What a Null enum writes it reads back, whatever it held before; and so does a
    driver that hands the text out as bytes. *)
Lemma null_roundtrip name ns before :
  (Valid ns = false -> Enum ns = "") ->
  null_Scan (enum_Scan name) before (null_Value ns) = (None, ns) /\
  (Valid ns = true -> null_Scan (enum_Scan name) before (DBytes (Enum ns)) = (None, ns)).
Proof.
  destruct ns as [s [|]]; cbn; [done|]. intros H. rewrite H by done. done.
Qed.

(** The texts of the enums tell their values apart. *)
Lemma status_string_inj s s' : db.Ibcv2RelayStatus_string s = db.Ibcv2RelayStatus_string s' -> s = s'.
Proof. by destruct s, s'. Qed.

Lemma submission_status_string s : db.submissionStatus (Ibcv2RelayerTxSubmissionStatus_string s) = Some s.
Proof. by destruct s. Qed.

(** A failed [Scan] leaves a Null enum that claims to be valid. *)
Example null_scan_other : null_Scan Ibcv2WriteAckStatus_Scan (mkNullEnum "" false) DOther =
  (Some (ENew "unsupported scan type for Ibcv2WriteAckStatus"), mkNullEnum "" true).
Proof. reflexivity. Qed.

Lemma InsertRawTx_fresh a b c e f now d row d' :
  (forall i r, raw_txs d !! i = Some r -> i <= raw_txs_id_seq d) ->
  InsertRawTx a b c e f now d = (inr row, d') ->
  raw_txs d !! raw_ID row = None /\ raw_txs d' = <[raw_ID row := row]> (raw_txs d).
Proof.
  intros Hs. unfold InsertRawTx. destruct (db.nextval _) as [id|] eqn:En; [|done].
  intros [= <- <-]. cbn. split; [|done]. apply db.nextval_Some in En as [-> _].
  destruct (raw_txs d !! _) as [r|] eqn:Er; [|done]. apply Hs in Er. lia.
Qed.
