(* ===== verification/Migrations.v ===== *)
(** * The schema and its migrations

    [src/db/migrations/*.sql] as statements on a schema, what PostgreSQL does with
    them, and [src/db/migrate.go], which applies them.  The theorem ties the schema the
    migrations build to the row structs of [src/db/gen/db/models.go], to the enums the
    program's states are values of, and to the uniqueness the invariant of the file Db
    relies on. *)

From Stdlib Require Import Ascii.
From S2P Require Import Prelude Db Models.

(** ** Schemas *)

Inductive sqltype :=
  | SERIAL
  | INT
  | TEXT
  | TIMESTAMP
  | TIMESTAMPTZ
  | NUMERIC
  | ENUM (name : string).

#[export] Instance sqltype_eq_dec : EqDecision sqltype.
Proof. solve_decision. Defined.

Record column := mkColumn {
  col_name : string;
  col_type : sqltype;
  not_null : bool;
}.

(** A table: its columns, the sets of columns no two rows agree on (the primary key
    among them), and the tables its columns refer to. *)
Record table := mkTable {
  columns : list column;
  uniques : list (list string);
  refers : list (string * string);
}.

#[export] Instance eta_table : Eta table := fun t => mkTable (columns t) (uniques t) (refers t).

Record index := mkIndex {
  on_table : string;
  on_columns : list string;
  unique : bool;
}.

#[export] Instance eta_index : Eta index := fun i => mkIndex (on_table i) (on_columns i) (unique i).

Record schema := mkSchema {
  types : gmap string (list string);
  tables : gmap string table;
  indexes : gmap string index;
}.

#[export] Instance eta_schema : Eta schema := fun s => mkSchema (types s) (tables s) (indexes s).

Definition empty_schema : schema := mkSchema ∅ ∅ ∅.

(** ** Statements *)

Inductive stmt :=
  | CreateTable (if_not_exists : bool) (name : string) (t : table)
  | DropTable (if_exists : bool) (name : string)
  | RenameTable (from to : string)
  | AddColumn (name : string) (c : column)
  | DropColumn (name col : string)
  | CreateType (name : string) (labels : list string)
  | DropType (if_exists : bool) (name : string)
  | AddValue (name label : string)
  | CreateIndex (concurrently if_not_exists : bool) (name : string) (i : index)
  | DropIndex (concurrently if_exists : bool) (name : string)
  | RenameIndex (from to : string).

(** Tables and indexes share their names. *)
Definition relation_exists (s : schema) (name : string) : bool :=
  bool_decide (is_Some (tables s !! name)) || bool_decide (is_Some (indexes s !! name)).

Definition type_known (s : schema) (t : sqltype) : bool :=
  match t with ENUM name => bool_decide (is_Some (types s !! name)) | _ => true end.

(** Some column of some table has the type. *)
Definition type_used (s : schema) (name : string) : bool :=
  existsb (fun '(_, t) => existsb (fun c => bool_decide (col_type c = ENUM name)) (columns t))
    (map_to_list (tables s)).

(** Another table refers to this one. *)
Definition referred_to (s : schema) (name : string) : bool :=
  existsb (fun '(n, t) => negb (bool_decide (n = name)) && existsb (fun '(_, r) => bool_decide (r = name)) (refers t))
    (map_to_list (tables s)).

Definition has_column (t : table) (col : string) : bool :=
  existsb (fun c => bool_decide (col_name c = col)) (columns t).

(** What PostgreSQL does with a statement; None is an error. *)
Definition exec (st : stmt) (s : schema) : option schema :=
  match st with
  | CreateTable if_not_exists name t =>
      if relation_exists s name then if if_not_exists then Some s else None
      else if forallb (fun c => type_known s (col_type c)) (columns t)
              && forallb (fun '(_, r) => bool_decide (is_Some (tables s !! r))) (refers t)
      then Some (s <| tables := <[name := t]> (tables s) |>) else None
  | DropTable if_exists name =>
      match tables s !! name with
      | None => if if_exists then Some s else None
      | Some _ =>
          if referred_to s name then None
          else Some (s <| tables := delete name (tables s) |>
                       <| indexes := filter (fun '(_, i) => on_table i <> name) (indexes s) |>)
      end
  | RenameTable from to =>
      match tables s !! from with
      | None => None
      | Some t =>
          if relation_exists s to then None
          else Some (s <| tables := <[to := t]> (delete from (tables s)) |>
                       <| indexes := (fun i => if bool_decide (on_table i = from) then i <| on_table := to |> else i)
                                     <$> indexes s |>)
      end
  | AddColumn name c =>
      match tables s !! name with
      | None => None
      | Some t =>
          if has_column t (col_name c) || negb (type_known s (col_type c)) then None
          else Some (s <| tables := <[name := t <| columns := columns t ++ [c] |>]> (tables s) |>)
      end
  | DropColumn name col =>
      match tables s !! name with
      | None => None
      | Some t =>
          if has_column t col then
            Some (s <| tables := <[name := t <| columns := filter (fun c => col_name c <> col) (columns t) |>
                                              <| uniques := filter (fun u => col ∉ u) (uniques t) |>]> (tables s) |>
                    <| indexes := filter (fun '(_, i) => ~ (on_table i = name /\ col ∈ on_columns i)) (indexes s) |>)
          else None
      end
  | CreateType name labels =>
      match types s !! name with
      | Some _ => None
      | None => Some (s <| types := <[name := labels]> (types s) |>)
      end
  | DropType if_exists name =>
      match types s !! name with
      | None => if if_exists then Some s else None
      | Some _ => if type_used s name then None else Some (s <| types := delete name (types s) |>)
      end
  | AddValue name label =>
      match types s !! name with
      | None => None
      | Some labels =>
          if bool_decide (label ∈ labels) then None
          else Some (s <| types := <[name := labels ++ [label]]> (types s) |>)
      end
  | CreateIndex _ if_not_exists name i =>
      if relation_exists s name then if if_not_exists then Some s else None
      else match tables s !! on_table i with
           | None => None
           | Some t => if forallb (has_column t) (on_columns i)
                       then Some (s <| indexes := <[name := i]> (indexes s) |>) else None
           end
  | DropIndex _ if_exists name =>
      match indexes s !! name with
      | None => if if_exists then Some s else None
      | Some _ => Some (s <| indexes := delete name (indexes s) |>)
      end
  | RenameIndex from to =>
      match indexes s !! from with
      | None => None
      | Some i => if relation_exists s to then None
                  else Some (s <| indexes := <[to := i]> (delete from (indexes s)) |>)
      end
  end.

Fixpoint exec_all (l : list stmt) (s : schema) : option schema :=
  match l with
  | [] => Some s
  | st :: l' => s' ← exec st s; exec_all l' s'
  end.

Definition is_concurrent (st : stmt) : bool :=
  match st with CreateIndex c _ _ _ | DropIndex c _ _ => c | _ => false end.

(** A file is sent as one query: several statements run in one transaction, in which no
    index can be made or dropped concurrently; an error takes back all of them. *)
Definition exec_file (l : list stmt) (s : schema) : option schema :=
  if existsb is_concurrent l && bool_decide (1 < length l)%nat then None else exec_all l s.

(** ** The migrations *)

Definition required (name : string) (t : sqltype) : column := mkColumn name t true.
Definition nullable (name : string) (t : sqltype) : column := mkColumn name t false.

Definition up1 : list stmt :=
  [CreateTable true "raw_txs" (mkTable
    [required "id" SERIAL; required "created_at" TIMESTAMP; required "updated_at" TIMESTAMP;
     required "cctp_message_id" INT; required "tx_hash" TEXT; required "raw_tx" TEXT] [["id"]] [])].
Definition down1 : list stmt := [DropTable true "raw_txs"].

Definition up2 : list stmt :=
  [CreateType "ibcv2_relay_status"
     ["PENDING"; "CHECK_RECV_PACKET_DELIVERY"; "GET_RECV_PACKET"; "DELIVER_RECV_PACKET"; "WAIT_FOR_WRITE_ACK";
      "CHECK_ACK_PACKET_DELIVERY"; "GET_ACK_PACKET"; "DELIVER_ACK_PACKET"; "CHECK_TIMEOUT_PACKET_DELIVERY";
      "GET_TIMEOUT_PACKET"; "DELIVER_TIMEOUT_PACKET"; "COMPLETE_WITH_ACK"; "COMPLETE_WITH_TIMEOUT"; "FAILED"];
   CreateTable true "ibcv2_transfers" (mkTable
     [required "id" SERIAL; required "created_at" TIMESTAMP; required "updated_at" TIMESTAMP;
      required "status" (ENUM "ibcv2_relay_status"); nullable "status_text" TEXT;
      required "source_chain_id" TEXT; required "destination_chain_id" TEXT; required "source_tx_hash" TEXT;
      required "source_tx_time" TIMESTAMP; required "packet_sequence_number" INT;
      required "packet_source_client_id" TEXT; required "packet_destination_client_id" TEXT;
      required "packet_timeout_timestamp" TIMESTAMP;
      nullable "recv_tx_hash" TEXT; nullable "recv_tx_time" TIMESTAMP;
      nullable "write_ack_tx_hash" TEXT; nullable "write_ack_tx_time" TIMESTAMP;
      nullable "ack_tx_hash" TEXT; nullable "ack_tx_time" TIMESTAMP;
      nullable "timeout_tx_hash" TEXT; nullable "timeout_tx_time" TIMESTAMP] [["id"]] []);
   CreateIndex false false "index_ibcv2_transfer_packet"
     (mkIndex "ibcv2_transfers" ["source_chain_id"; "packet_sequence_number"; "packet_source_client_id"] true)].
Definition down2 : list stmt :=
  [DropType true "ibcv2_relay_status"; DropType true "ack_status"; DropTable true "ibcv2_transfers"].

Definition up3 : list stmt := [CreateType "bridge_type" ["ibcv2"]].
Definition down3 : list stmt := [DropType true "bridge_type"].

Definition up4 : list stmt :=
  [AddValue "ibcv2_relay_status" "AWAITING_SEND_FINALITY";
   AddValue "ibcv2_relay_status" "AWAITING_WRITE_ACK_FINALITY"].
Definition down4 : list stmt := [].

Definition up5 : list stmt :=
  [AddValue "ibcv2_relay_status" "COMPLETE_WITH_WRITE_ACK_SUCCESS";
   CreateType "ibcv2_write_ack_status" ["SUCCESS"; "ERROR"; "UNKNOWN"];
   AddColumn "ibcv2_transfers" (nullable "write_ack_status" (ENUM "ibcv2_write_ack_status"))].
Definition down5 : list stmt :=
  [DropType true "ibcv2_write_ack_status"; DropColumn "ibcv2_transfers" "ibcv2_write_ack_status"].

Definition up6 : list stmt := [AddValue "ibcv2_relay_status" "AWAITING_TIMEOUT_FINALITY"].
Definition down6 : list stmt := [].
Definition up7 : list stmt := [AddValue "ibcv2_relay_status" "COMPLETE_WITH_WRITE_ACK_ERROR"].
Definition down7 : list stmt := [].

Definition up8 : list stmt :=
  [CreateIndex true true "idx_ibcv2_transfers_recv_time_chain_ids"
     (mkIndex "ibcv2_transfers" ["recv_tx_time"; "source_chain_id"; "destination_chain_id"; "source_tx_time"] false)].
Definition down8 : list stmt := [DropIndex false false "idx_ibcv2_transfers_recv_time_chain_ids"].

Definition up9 : list stmt :=
  [AddColumn "ibcv2_transfers" (nullable "recv_tx_gas_cost_usd" NUMERIC);
   AddColumn "ibcv2_transfers" (nullable "ack_tx_gas_cost_usd" NUMERIC);
   AddColumn "ibcv2_transfers" (nullable "timeout_tx_gas_cost_usd" NUMERIC);
   AddColumn "ibcv2_transfers" (nullable "recv_tx_relayer_address" TEXT);
   AddColumn "ibcv2_transfers" (nullable "ack_tx_relayer_address" TEXT);
   AddColumn "ibcv2_transfers" (nullable "timeout_tx_relayer_address" TEXT);
   AddValue "ibcv2_relay_status" "CALCULATING_RECV_TX_GAS_COST";
   AddValue "ibcv2_relay_status" "CALCULATING_ACK_TX_GAS_COST";
   AddValue "ibcv2_relay_status" "CALCULATING_TIMEOUT_TX_GAS_COST"].
Definition down9 : list stmt :=
  [DropColumn "ibcv2_transfers" "recv_tx_gas_cost_usd"; DropColumn "ibcv2_transfers" "ack_tx_gas_cost_usd";
   DropColumn "ibcv2_transfers" "timeout_tx_gas_cost_usd"; DropColumn "ibcv2_transfers" "recv_tx_relayer_address";
   DropColumn "ibcv2_transfers" "ack_tx_relayer_address"; DropColumn "ibcv2_transfers" "timeout_tx_relayer_address"].

Definition up10 : list stmt :=
  [AddColumn "raw_txs" (nullable "chain_id" TEXT); AddColumn "raw_txs" (nullable "nonce" TEXT)].
Definition down10 : list stmt := [DropColumn "raw_txs" "chain_id"; DropColumn "raw_txs" "nonce"].

Definition up11 : list stmt :=
  [AddColumn "ibcv2_transfers" (nullable "source_tx_finalized_time" TIMESTAMP);
   AddColumn "ibcv2_transfers" (nullable "write_ack_tx_finalized_time" TIMESTAMP)].
Definition down11 : list stmt :=
  [DropColumn "ibcv2_transfers" "source_tx_finalized_time"; DropColumn "ibcv2_transfers" "write_ack_tx_finalized_time"].

Definition up12 : list stmt :=
  [CreateTable false "ibcv2_relay_submissions" (mkTable
     [required "id" SERIAL; required "source_chain_id" TEXT; required "source_tx_hash" TEXT;
      required "created_at" TIMESTAMPTZ] [["id"]; ["source_chain_id"; "source_tx_hash"]] []);
   CreateIndex false false "idx_ibcv2_relay_submissions_lookup"
     (mkIndex "ibcv2_relay_submissions" ["source_chain_id"; "source_tx_hash"] false)].
Definition down12 : list stmt := [DropTable true "ibcv2_relay_submissions"].

Definition up13 : list stmt :=
  [CreateType "ibcv2_relayer_tx_submission_type" ["RECV_PACKET"; "ACK_PACKET"; "TIMEOUT_PACKET"];
   CreateType "ibcv2_relayer_tx_submission_status" ["PENDING"; "SUCCESS"; "FAILED"; "EXPIRED"];
   CreateTable false "ibcv2_relayer_tx_submissions" (mkTable
     [required "id" SERIAL; required "tx_hash" TEXT; required "chain_id" TEXT;
      required "tx_type" (ENUM "ibcv2_relayer_tx_submission_type"); required "relayer_address" TEXT;
      required "submitted_at" TIMESTAMPTZ; nullable "resolved_at" TIMESTAMPTZ;
      nullable "gas_cost_amount" NUMERIC; nullable "gas_cost_usd" NUMERIC;
      required "status" (ENUM "ibcv2_relayer_tx_submission_status"); nullable "execution_error" TEXT]
     [["id"]; ["chain_id"; "tx_hash"; "tx_type"]] []);
   CreateIndex false false "idx_ibcv2_relayer_tx_submissions_unresolved"
     (mkIndex "ibcv2_relayer_tx_submissions" ["submitted_at"] false);
   CreateTable false "ibcv2_transfer_tx_submissions" (mkTable
     [required "transfer_id" INT; required "submission_id" INT] [["transfer_id"; "submission_id"]]
     [("transfer_id", "ibcv2_transfers"); ("submission_id", "ibcv2_relayer_tx_submissions")]);
   CreateIndex false false "idx_ibcv2_transfer_tx_submissions_submission_id"
     (mkIndex "ibcv2_transfer_tx_submissions" ["submission_id"] false)].
Definition down13 : list stmt :=
  [DropTable true "ibcv2_transfer_tx_submissions"; DropTable true "ibcv2_relayer_tx_submissions";
   DropType true "ibcv2_relayer_tx_submission_status"; DropType true "ibcv2_relayer_tx_submission_type"].

Definition up14 : list stmt :=
  [CreateIndex true true "idx_ibcv2_transfers_chain_ids_status"
     (mkIndex "ibcv2_transfers" ["source_chain_id"; "destination_chain_id"; "status"] false)].
Definition down14 : list stmt := [DropIndex true true "idx_ibcv2_transfers_chain_ids_status"].

Definition up15 : list stmt :=
  [RenameTable "ibcv2_relay_submissions" "ibcv2_relay_requests";
   RenameIndex "idx_ibcv2_relay_submissions_lookup" "idx_ibcv2_relay_requests_lookup"].
Definition down15 : list stmt :=
  [RenameIndex "idx_ibcv2_relay_requests_lookup" "idx_ibcv2_relay_submissions_lookup";
   RenameTable "ibcv2_relay_requests" "ibcv2_relay_submissions"].

(** [Migrations]: the files, up and down, in the order of their versions from 1. *)
Definition Migrations : list (list stmt * list stmt) :=
  [(up1, down1); (up2, down2); (up3, down3); (up4, down4); (up5, down5); (up6, down6); (up7, down7);
   (up8, down8); (up9, down9); (up10, down10); (up11, down11); (up12, down12); (up13, down13);
   (up14, down14); (up15, down15)].

(** ** Applying them ([migrate.go]) *)

(** What the library keeps: the version, whether the last migration failed, and the
    schema it works on. *)
Record migration_state := mkMigrationState {
  version : nat;
  dirty : bool;
  current : schema;
}.

(** All files after the current version, one by one, as the library's [Up] documents. *)
Fixpoint apply_ups (files : list (list stmt * list stmt)) (st : migration_state) : bool * migration_state :=
  match files with
  | [] => (true, st)
  | (up, _) :: files' =>
      match exec_file up (current st) with
      | None => (false, mkMigrationState (S (version st)) true (current st))
      | Some s => apply_ups files' (mkMigrationState (S (version st)) false s)
      end
  end.

Section Migrate.
(** The library: opening a connection, the driver, the source and the instance, and
    closing them; [Up]. *)
Context (Conn WithConnection iofs_New NewWithInstance : error + unit).
Context (Up : migration_state -> option error * migration_state).
Context (Close : option error * option error).
Context (ErrNoChange : sentinel).

Definition runMigration (st : migration_state) : option error * migration_state :=
  match Conn with
  | inl err => (Some err, st)
  | inr _ =>
  match WithConnection with
  | inl err => (Some (EWrap "failed to create db migrate driver" err), st)
  | inr _ =>
  match iofs_New with
  | inl err => (Some (EWrap "failed to create migration source" err), st)
  | inr _ =>
  match NewWithInstance with
  | inl err => (Some (EWrap "failed to create migration instance" err), st)
  | inr _ =>
      let '(err, st') := Up st in
      match err with
      | Some err => if negb (errors_Is err ErrNoChange) then (Some (EWrap "failed to run migration" err), st')
                    else match Close with
                         | (Some srcErr, _) => (Some (EWrap "failed to close migration source" srcErr), st')
                         | (None, Some dbErr) => (Some (EWrap "failed to close migration database" dbErr), st')
                         | (None, None) => (None, st')
                         end
      | None => match Close with
                | (Some srcErr, _) => (Some (EWrap "failed to close migration source" srcErr), st')
                | (None, Some dbErr) => (Some (EWrap "failed to close migration database" dbErr), st')
                | (None, None) => (None, st')
                end
      end
  end end end end.

(** One list of files, as [runMigrations] of [cmd/relayer/migrate.go] gives it. *)
Fixpoint Migrate (modules : nat) (st : migration_state) : option error * migration_state :=
  match modules with
  | O => (None, st)
  | S modules' =>
      match runMigration st with
      | (Some err, st') => (Some err, st')
      | (None, st') => Migrate modules' st'
      end
  end.

Definition runMigrations (st : migration_state) : option error * migration_state := Migrate 1 st.

End Migrate.

(** ** The structs sqlc makes of tables *)

Definition upper (c : ascii) : ascii :=
  let n := nat_of_ascii c in if (97 <=? n)%nat && (n <=? 122)%nat then ascii_of_nat (n - 32) else c.

(** The words of a column's name. *)
Fixpoint words (acc s : string) : list string :=
  match s with
  | "" => [acc]
  | String c s' => if Ascii.eqb c "_"%char then acc :: words "" s' else words (acc +:+ String c "") s'
  end.

Definition capitalize (w : string) : string :=
  if bool_decide (w = "id") then "ID" else match w with "" => "" | String c w' => String (upper c) w' end.

Definition camel (name : string) : string := foldr String.append "" (capitalize <$> words "" name).

Definition go_type (c : column) : gotype :=
  match col_type c with
  | SERIAL | INT => Gint32
  | TEXT => if not_null c then Gstring else GText
  | TIMESTAMP => GTimestamp
  | TIMESTAMPTZ => GTimestamptz
  | NUMERIC => GNumeric
  | ENUM name => if not_null c then GEnum (camel name) else GNull (camel name)
  end.

Definition struct_of (t : table) : struct := (fun c => (camel (col_name c), go_type c)) <$> columns t.

(** The schema the program is written for: the row structs, the labels of the enums in
    order, and the columns no two rows agree on. *)
Record expected (s : schema) : Prop := {
  transfers_struct : struct_of <$> tables s !! "ibcv2_transfers" = Some struct_Ibcv2Transfer;
  requests_struct : struct_of <$> tables s !! "ibcv2_relay_requests" = Some struct_Ibcv2RelayRequest;
  submissions_struct :
    struct_of <$> tables s !! "ibcv2_relayer_tx_submissions" = Some struct_Ibcv2RelayerTxSubmission;
  mapping_struct :
    struct_of <$> tables s !! "ibcv2_transfer_tx_submissions" = Some struct_Ibcv2TransferTxSubmission;
  raw_txs_struct : struct_of <$> tables s !! "raw_txs" = Some struct_RawTx;
  only_tables : size (tables s) = 5%nat;
  relay_status : types s !! "ibcv2_relay_status" = Some (db.Ibcv2RelayStatus_string <$> db.enum_range);
  write_ack_status : types s !! "ibcv2_write_ack_status" = Some (Ibcv2WriteAckStatus_string <$>
    [db.Ibcv2WriteAckStatusSUCCESS; db.Ibcv2WriteAckStatusERROR; db.Ibcv2WriteAckStatusUNKNOWN]);
  submission_type : types s !! "ibcv2_relayer_tx_submission_type" = Some (Ibcv2RelayerTxSubmissionType_string <$>
    [db.Ibcv2RelayerTxSubmissionTypeRECVPACKET; db.Ibcv2RelayerTxSubmissionTypeACKPACKET;
     db.Ibcv2RelayerTxSubmissionTypeTIMEOUTPACKET]);
  submission_status : types s !! "ibcv2_relayer_tx_submission_status" = Some (Ibcv2RelayerTxSubmissionStatus_string <$>
    [db.Ibcv2RelayerTxSubmissionStatusPENDING; db.Ibcv2RelayerTxSubmissionStatusSUCCESS;
     db.Ibcv2RelayerTxSubmissionStatusFAILED; db.Ibcv2RelayerTxSubmissionStatusEXPIRED]);
  bridge_types : types s !! "bridge_type" = Some [BridgeTypeIbcv2];
  transfers_unique : indexes s !! "index_ibcv2_transfer_packet" =
    Some (mkIndex "ibcv2_transfers" ["source_chain_id"; "packet_sequence_number"; "packet_source_client_id"] true);
  requests_unique : exists t, tables s !! "ibcv2_relay_requests" = Some t /\ ["source_chain_id"; "source_tx_hash"] ∈ uniques t;
  submissions_unique : exists t, tables s !! "ibcv2_relayer_tx_submissions" = Some t /\
    ["chain_id"; "tx_hash"; "tx_type"] ∈ uniques t;
  mapping_unique : exists t, tables s !! "ibcv2_transfer_tx_submissions" = Some t /\
    ["transfer_id"; "submission_id"] ∈ uniques t /\
    refers t = [("transfer_id", "ibcv2_transfers"); ("submission_id", "ibcv2_relayer_tx_submissions")];
}.

Definition fresh : migration_state := mkMigrationState 0 false empty_schema.

(** The schema after all files. *)
Definition migrated : migration_state := snd (apply_ups Migrations fresh).

Lemma migrated_ok : fst (apply_ups Migrations fresh) = true /\ version migrated = 15%nat /\ dirty migrated = false.
Proof. vm_compute. done. Qed.

Lemma migrated_expected : expected (current migrated).
Proof.
  split; try (vm_compute; reflexivity); eexists; (split; [vm_compute; reflexivity|]);
    try (split; [|reflexivity]); apply (bool_decide_unpack _); vm_compute; exact I.
Qed.

(** What the library documents of [Up]: it applies the files after the current version, in
    order, and returns an error of its own when there are none. *)
Record up_documented (Up : migration_state -> option error * migration_state) (ErrNoChange : sentinel) : Prop := {
  up_applies : forall st st', dirty st = false -> (version st < length Migrations)%nat ->
    apply_ups (drop (version st) Migrations) st = (true, st') -> Up st = (None, st');
  up_no_change : forall st, dirty st = false -> (length Migrations <= version st)%nat ->
    Up st = (Some (ESentinel ErrNoChange), st);
}.

(** C39: migrating an empty database gives the schema the program is written for: every
    row struct of the database package is the one its table gives, field by field and in
    order, the labels of the enums are the program's states in the order in which they
    are listed, and the columns the database keeps unique are those the program relies
    on.  Migrating again changes nothing and is no error. *)
Theorem migrations_match_models Up ErrNoChange :
  up_documented Up ErrNoChange ->
  exists st, runMigrations (inr tt) (inr tt) (inr tt) (inr tt) Up (None, None) ErrNoChange fresh = (None, st) /\
    expected (current st) /\ version st = length Migrations /\
    runMigrations (inr tt) (inr tt) (inr tt) (inr tt) Up (None, None) ErrNoChange st = (None, st).
Proof.
  intros [Ha Hn]. exists migrated. destruct migrated_ok as (Hok & Hv & Hd).
  assert (Hup : Up fresh = (None, migrated)).
  { apply Ha; [done | vm_compute; lia|]. change (drop (version fresh) Migrations) with Migrations.
    unfold migrated. rewrite <- Hok. by destruct (apply_ups Migrations fresh). }
  assert (Hun : Up migrated = (Some (ESentinel ErrNoChange), migrated)) by (apply Hn; [done | by rewrite Hv]).
  split; [unfold runMigrations, Migrate, runMigration; by rewrite Hup|].
  split; [apply migrated_expected|]. split; [done|].
  unfold runMigrations, Migrate, runMigration. rewrite Hun. cbn.
  assert (He : bool_decide (ErrNoChange = ErrNoChange) = true) by by apply bool_decide_true. by rewrite ?He.
Qed.

(** ** Going down *)

Definition after (n : nat) : option schema :=
  foldl (fun s f => s' ← s; exec_file (fst f) s') (Some empty_schema) (take n Migrations).

Definition down_works (n : nat) : bool :=
  match after n, Migrations !! (n - 1)%nat with
  | Some s, Some (_, down) => bool_decide (is_Some (exec_file down s))
  | _, _ => false
  end.

(** The files that take migrations 2 and 5 back fail on the schema those left: each
    drops an enum a column still uses, and the fifth also a column there is none of. *)
Lemma down_fails : filter (fun n => down_works n = false) (seq 1 15) = [2%nat; 5%nat].
Proof. vm_compute. reflexivity. Qed.

(** Taking back migration 4, 6, 7 or 9 leaves the labels it added to the enum, so that
    it cannot be applied again. *)
Definition redo_works (n : nat) : bool :=
  match after n, Migrations !! (n - 1)%nat with
  | Some s, Some (up, down) => bool_decide (is_Some (s' ← exec_file down s; exec_file up s'))
  | _, _ => false
  end.

Lemma redo_fails : filter (fun n => redo_works n = false) (seq 1 15) = [2%nat; 4%nat; 5%nat; 6%nat; 7%nat; 9%nat].
Proof. vm_compute. reflexivity. Qed.

(** ** The theorem at work *)

(** A library that does what is documented. *)
Definition library_Up (ErrNoChange : sentinel) (st : migration_state) : option error * migration_state :=
  if dirty st then (Some (ENew "dirty"), st)
  else if bool_decide (length Migrations <= version st)%nat then (Some (ESentinel ErrNoChange), st)
  else match apply_ups (drop (version st) Migrations) st with
       | (true, st') => (None, st')
       | (false, st') => (Some (ENew "migration failed"), st')
       end.

Lemma migrations_match_models_witness :
  exists st, runMigrations (inr tt) (inr tt) (inr tt) (inr tt) (library_Up ErrTxNotFound) (None, None) ErrTxNotFound fresh
      = (None, st) /\ expected (current st).
Proof.
  destruct (migrations_match_models (library_Up ErrTxNotFound) ErrTxNotFound) as (st & H1 & H2 & _).
  - split.
    + intros st st' Hd Hv Ha. unfold library_Up. rewrite Hd, bool_decide_false by lia. by rewrite Ha.
    + intros st Hd Hv. unfold library_Up. by rewrite Hd, bool_decide_true.
  - exists st. split; [exact H1 | exact H2].
Defined.
