(* ===== verification/Transfer.v ===== *)
(** * The in-memory transfer

    [src/relayer/ibcv2/ibcv2_transfer.go]: the record the pipeline carries, how
    it is read from its database row, its getters and its two predicates.  The
    logger field is not modelled.  [NewIBCV2Transfer] converts the int32 column
    of the packet sequence to the uint32 field; [packet_key] is the WHERE key
    the processors convert it back to. *)

From S2P Require Import Prelude Db.

Record IBCV2Transfer := mkIBCV2Transfer {
  ID : Z;
  State : db.Ibcv2RelayStatus;
  SourceChainID : string;
  DestinationChainID : string;
  SourceTxHash : string;
  SourceTxTime : Z;
  SourceTxFinalizedTime : option Z;
  PacketSequenceNumber : Z;
  PacketSourceClientID : string;
  PacketDestinationClientID : string;
  PacketTimeoutTimestamp : Z;
  RecvTxBytes : option (list Z);
  RecvTxToAddress : option string;
  RecvTxHash : option string;
  RecvTxTime : option Z;
  RecvTxRelayerAddress : option string;
  RecvTxGasCostUSD : option Z;
  WriteAckTxHash : option string;
  WriteAckTxTime : option Z;
  WriteAckStatus : option db.Ibcv2WriteAckStatus;
  WriteAckTxFinalizedTime : option Z;
  AckTxBytes : option (list Z);
  AckTxToAddress : option string;
  AckTxHash : option string;
  AckTxTime : option Z;
  AckTxRelayerAddress : option string;
  AckTxGasCostUSD : option Z;
  TimeoutTxBytes : option (list Z);
  TimeoutTxHash : option string;
  TimeoutTxTime : option Z;
  TimeoutTxRelayerAddress : option string;
  TimeoutTxGasCostUSD : option Z;
  ProcessingError : option error;
}.

#[export] Instance eta_IBCV2Transfer : Eta IBCV2Transfer := fun t =>
  mkIBCV2Transfer (ID t) (State t) (SourceChainID t) (DestinationChainID t) (SourceTxHash t)
    (SourceTxTime t) (SourceTxFinalizedTime t) (PacketSequenceNumber t) (PacketSourceClientID t)
    (PacketDestinationClientID t) (PacketTimeoutTimestamp t) (RecvTxBytes t) (RecvTxToAddress t)
    (RecvTxHash t) (RecvTxTime t) (RecvTxRelayerAddress t) (RecvTxGasCostUSD t)
    (WriteAckTxHash t) (WriteAckTxTime t) (WriteAckStatus t) (WriteAckTxFinalizedTime t)
    (AckTxBytes t) (AckTxToAddress t) (AckTxHash t) (AckTxTime t) (AckTxRelayerAddress t)
    (AckTxGasCostUSD t) (TimeoutTxBytes t) (TimeoutTxHash t) (TimeoutTxTime t)
    (TimeoutTxRelayerAddress t) (TimeoutTxGasCostUSD t) (ProcessingError t).

Definition nullTime (t : option Z) : option Z := t.
Definition nullStr (s : option string) : option string := s.

Definition NewIBCV2Transfer (transfer : db.Ibcv2Transfer) : IBCV2Transfer := {|
  ID := db.ID transfer;
  State := db.Status transfer;
  SourceChainID := db.SourceChainID transfer;
  DestinationChainID := db.DestinationChainID transfer;
  SourceTxHash := db.SourceTxHash transfer;
  SourceTxTime := default zero_time (db.SourceTxTime transfer);
  SourceTxFinalizedTime := db.SourceTxFinalizedTime transfer;
  PacketSequenceNumber := to_uint32 (db.PacketSequenceNumber transfer);
  PacketSourceClientID := db.PacketSourceClientID transfer;
  PacketDestinationClientID := db.PacketDestinationClientID transfer;
  PacketTimeoutTimestamp := default zero_time (db.PacketTimeoutTimestamp transfer);
  RecvTxBytes := None;
  RecvTxToAddress := None;
  RecvTxHash := nullStr (db.RecvTxHash transfer);
  RecvTxTime := nullTime (db.RecvTxTime transfer);
  RecvTxRelayerAddress := nullStr (db.RecvTxRelayerAddress transfer);
  RecvTxGasCostUSD := db.RecvTxGasCostUsd transfer ≫= db.Int;
  WriteAckTxHash := nullStr (db.WriteAckTxHash transfer);
  WriteAckTxTime := nullTime (db.WriteAckTxTime transfer);
  WriteAckStatus := db.WriteAckStatus transfer;
  WriteAckTxFinalizedTime := db.WriteAckTxFinalizedTime transfer;
  AckTxBytes := None;
  AckTxToAddress := None;
  AckTxHash := nullStr (db.AckTxHash transfer);
  AckTxTime := nullTime (db.AckTxTime transfer);
  AckTxRelayerAddress := nullStr (db.AckTxRelayerAddress transfer);
  AckTxGasCostUSD := db.AckTxGasCostUsd transfer ≫= db.Int;
  TimeoutTxBytes := None;
  TimeoutTxHash := nullStr (db.TimeoutTxHash transfer);
  TimeoutTxTime := nullTime (db.TimeoutTxTime transfer);
  TimeoutTxRelayerAddress := nullStr (db.TimeoutTxRelayerAddress transfer);
  TimeoutTxGasCostUSD := db.TimeoutTxGasCostUsd transfer ≫= db.Int;
  ProcessingError := None;
|}.

(** ** Getters

    A getter of a pointer field returns the zero value and false for nil. *)

Definition deref {A} (zero : A) (p : option A) : A * bool :=
  match p with
  | None => (zero, false)
  | Some x => (x, true)
  end.

Definition GetID (e : IBCV2Transfer) : Z := ID e.
Definition GetSourceChainID (e : IBCV2Transfer) : string := SourceChainID e.
Definition GetSourceTxTime (e : IBCV2Transfer) : Z := SourceTxTime e.
Definition GetSourceTxHash (e : IBCV2Transfer) : string := SourceTxHash e.
Definition GetSourceTxFinalizedTime (e : IBCV2Transfer) : Z * bool := deref zero_time (SourceTxFinalizedTime e).
Definition GetPacketSequenceNumber (e : IBCV2Transfer) : Z := PacketSequenceNumber e.
Definition GetPacketSourceClientID (e : IBCV2Transfer) : string := PacketSourceClientID e.
Definition GetPacketDestinationClientID (e : IBCV2Transfer) : string := PacketDestinationClientID e.
Definition GetPacketTimeoutTimestamp (e : IBCV2Transfer) : Z := PacketTimeoutTimestamp e.
Definition GetRecvTxHash (e : IBCV2Transfer) : string * bool := deref "" (RecvTxHash e).
Definition GetRecvTxToAddress (e : IBCV2Transfer) : string * bool := deref "" (RecvTxToAddress e).
Definition GetRecvTxTime (e : IBCV2Transfer) : Z * bool := deref zero_time (RecvTxTime e).
Definition GetRecvTxRelayerAddress (e : IBCV2Transfer) : string * bool := deref "" (RecvTxRelayerAddress e).
Definition GetRecvGasCostUSD (e : IBCV2Transfer) : option Z * bool :=
  match RecvTxGasCostUSD e with None => (None, false) | c => (c, true) end.
Definition GetWriteAckTxHash (e : IBCV2Transfer) : string * bool := deref "" (WriteAckTxHash e).
Definition GetWriteAckTxTime (e : IBCV2Transfer) : Z * bool := deref zero_time (WriteAckTxTime e).
Definition GetWriteAckStatus (e : IBCV2Transfer) : option db.Ibcv2WriteAckStatus * bool :=
  match WriteAckStatus e with None => (None, false) | s => (s, true) end.
Definition GetWriteAckTxFinalizedTime (e : IBCV2Transfer) : Z * bool := deref zero_time (WriteAckTxFinalizedTime e).
Definition GetAckTxHash (e : IBCV2Transfer) : string * bool := deref "" (AckTxHash e).
Definition GetAckTxTime (e : IBCV2Transfer) : Z * bool := deref zero_time (AckTxTime e).
Definition GetAckTxRelayerAddress (e : IBCV2Transfer) : string * bool := deref "" (AckTxRelayerAddress e).
Definition GetAckGasCostUSD (e : IBCV2Transfer) : option Z * bool :=
  match AckTxGasCostUSD e with None => (None, false) | c => (c, true) end.
Definition GetTimeoutTxHash (e : IBCV2Transfer) : string * bool := deref "" (TimeoutTxHash e).
Definition GetTimeoutTxRelayerAddress (e : IBCV2Transfer) : string * bool := deref "" (TimeoutTxRelayerAddress e).
Definition GetTimeoutTxTime (e : IBCV2Transfer) : Z * bool := deref zero_time (TimeoutTxTime e).
Definition GetTimeoutGasCostUSD (e : IBCV2Transfer) : option Z * bool :=
  match TimeoutTxGasCostUSD e with None => (None, false) | c => (c, true) end.
Definition GetRecvTxBytes (e : IBCV2Transfer) : list Z * bool := deref [] (RecvTxBytes e).
Definition GetTimeoutTxBytes (e : IBCV2Transfer) : list Z * bool := deref [] (TimeoutTxBytes e).
Definition GetAckTxBytes (e : IBCV2Transfer) : list Z * bool := deref [] (AckTxBytes e).
Definition GetAckTxToAddress (e : IBCV2Transfer) : string * bool := deref "" (AckTxToAddress e).
Definition GetDestinationChainID (e : IBCV2Transfer) : string := DestinationChainID e.
Definition GetState (e : IBCV2Transfer) : db.Ibcv2RelayStatus := State e.

Definition Error (e : IBCV2Transfer) : string :=
  match ProcessingError e with
  | None => ""
  | Some err => Error_text err
  end.

(** An ack is an error ack when its status is ERROR or UNKNOWN. *)
Definition isErrorAck (s : option db.Ibcv2WriteAckStatus) : bool :=
  bool_decide (s = Some db.Ibcv2WriteAckStatusERROR)
  || bool_decide (s = Some db.Ibcv2WriteAckStatusUNKNOWN).
Definition isSuccessAck (s : option db.Ibcv2WriteAckStatus) : bool :=
  bool_decide (s = Some db.Ibcv2WriteAckStatusSUCCESS).

Definition IsComplete (e : IBCV2Transfer) (shouldRelaySuccessAcks shouldRelayErrorAcks : bool) : bool :=
  match ProcessingError e with
  | Some _ => false
  | None =>
      let '(_, hasTimeoutHash) := GetTimeoutTxHash e in
      if hasTimeoutHash then true else
      let '(_, hasRecvHash) := GetRecvTxHash e in
      let '(_, hasWriteAckHash) := GetWriteAckTxHash e in
      if negb hasRecvHash || negb hasWriteAckHash then false else
      let '(_, hasAckHash) := GetAckTxHash e in
      if hasAckHash then true else
      let '(writeAckStatus, hasWriteAckStatus) := GetWriteAckStatus e in
      if negb hasWriteAckStatus then false else
      if (isErrorAck writeAckStatus && shouldRelayErrorAcks)
         || (isSuccessAck writeAckStatus && shouldRelaySuccessAcks)
      then false
      else true
  end.

(** [time.Now()] is read by the caller. *)
Definition IsTimedOut (now : Z) (e : IBCV2Transfer) : bool :=
  time_After now (GetPacketTimeoutTimestamp e).

(** The key every update of the transfer's row selects by:
    [int32(transfer.GetPacketSequenceNumber())] and the two identifiers. *)
Definition packet_key (e : IBCV2Transfer) : db.PacketKey :=
  db.mkPacketKey (GetSourceChainID e) (GetPacketSourceClientID e)
    (to_int32 (GetPacketSequenceNumber e)).

(** ** Lemmas *)

Lemma packet_key_NewIBCV2Transfer r :
  in_int32 (db.PacketSequenceNumber r) -> packet_key (NewIBCV2Transfer r) = db.row_key r.
Proof.
  intros H. unfold packet_key, db.row_key. cbn. unfold GetPacketSequenceNumber. cbn.
  by rewrite to_int32_to_uint32.
Qed.

(** Whether the acknowledgement of a transfer with write-ack status [s] has to be
    relayed under the configuration. *)
Definition ack_required (rs re : bool) (s : db.Ibcv2WriteAckStatus) : bool :=
  match s with
  | db.Ibcv2WriteAckStatusSUCCESS => rs
  | _ => re
  end.

Lemma ack_required_spec rs re s :
  (isErrorAck (Some s) && re) || (isSuccessAck (Some s) && rs) = ack_required rs re s.
Proof. destruct s, rs, re; done. Qed.

(** What the database keeps of a transfer's progress, times truncated to what a
    PostgreSQL timestamp holds. *)
Definition progress (t : IBCV2Transfer) :=
  ((ID t, State t, packet_key t, SourceChainID t, DestinationChainID t, PacketSourceClientID t,
    PacketDestinationClientID t, SourceTxHash t),
   (RecvTxHash t, pg_timestamp <$> RecvTxTime t),
   (WriteAckTxHash t, pg_timestamp <$> WriteAckTxTime t, WriteAckStatus t),
   (AckTxHash t, pg_timestamp <$> AckTxTime t),
   (TimeoutTxHash t, pg_timestamp <$> TimeoutTxTime t),
   (pg_timestamp <$> SourceTxFinalizedTime t)).

Lemma pg_timestamp_fmap_idemp (o : option Z) :
  pg_timestamp <$> (pg_timestamp <$> o) = pg_timestamp <$> o.
Proof. destruct o; cbn; [by rewrite pg_timestamp_idemp | done]. Qed.

(** [IsComplete] as a proposition. *)
Lemma IsComplete_spec t rs re :
  IsComplete t rs re = true <->
  ProcessingError t = None /\
  (is_Some (TimeoutTxHash t) \/
   (is_Some (RecvTxHash t) /\ is_Some (WriteAckTxHash t) /\
    (is_Some (AckTxHash t) \/
     exists s, WriteAckStatus t = Some s /\ ack_required rs re s = false))).
Proof.
  unfold IsComplete, GetTimeoutTxHash, GetRecvTxHash, GetWriteAckTxHash, GetAckTxHash,
    GetWriteAckStatus.
  destruct (ProcessingError t), (TimeoutTxHash t), (RecvTxHash t), (WriteAckTxHash t),
    (AckTxHash t), (WriteAckStatus t) as [st|]; cbn; try (rewrite ack_required_spec);
    try (destruct (ack_required rs re st) eqn:E); naive_solver eauto.
Qed.
