(* ===== verification/Config.v ===== *)
(** * Configuration

    [src/shared/config/config.go]: the configuration records and the reader the
    rest of the program queries.  The [Chains] map is given as the list of its
    entries in the order a range over the map visits them (Go leaves that order
    open); the environment variables are an argument. *)

From S2P Require Import Prelude GoFloat.
From Stdlib Require Import Ascii.

Definition ChainType := string.
Definition ChainTypeCOSMOS : ChainType := "cosmos".
Definition ChainTypeEVM : ChainType := "evm".
Definition ChainTypeSVM : ChainType := "svm".

Definition BridgeType := string.
Definition BridgeTypeIBCV2 : BridgeType := "ibcv2".

Definition ChainEnvironment := string.

Record PostgresConfig := mkPostgresConfig {
  Hostname : string;
  Port : string;
  Database : string;
  IAMAuthEnabled : bool;
  IAMAuthRegion : string;
}.

Record IBCV2ProofAPIConfig := mkIBCV2ProofAPIConfig {
  ProofAPI_GRPCAddress : string;
  ProofAPI_GRPCTLSEnabled : bool;
}.

Record IBCV2Config := mkIBCV2Config {
  CounterpartyChains : gmap string string;
  FinalityOffset : option Z;
  cfg_AckBatchSize : Z;
  cfg_AckBatchTimeout : Z;
  cfg_AckBatchConcurrency : Z;
  cfg_RecvBatchSize : Z;
  cfg_RecvBatchTimeout : Z;
  cfg_RecvBatchConcurrency : Z;
  cfg_TimeoutBatchSize : Z;
  cfg_TimeoutBatchTimeout : Z;
  cfg_TimeoutBatchConcurrency : Z;
  cfg_ShouldRelaySuccessAcks : bool;
  cfg_ShouldRelayErrorAcks : bool;
}.

Record SignerGasAlertThresholdsConfig := mkSignerGasAlertThresholdsConfig {
  WarningThreshold : string;
  CriticalThreshold : string;
}.

Record CosmosConfig := mkCosmosConfig {
  GasPrice : float;
  IBCV2TxFeeDenom : string;
  IBCV2TxFeeAmount : Z;
  Cosmos_RPC : string;
  Cosmos_RPCBasicAuthVar : string;
  Cosmos_GRPC : string;
  Cosmos_GRPCTLSEnabled : bool;
  AddressPrefix : string;
  Cosmos_TxSubmissionDelay : option Z;
}.

Record EVMConfig := mkEVMConfig {
  EVM_RPC : string;
  EVM_RPCBasicAuthVar : string;
  ICS26RouterAddress : string;
  ICS20TransferAddress : string;
  GasFeeCapMultiplier : option float;
  GasTipCapMultiplier : option float;
  EVM_TxSubmissionDelay : option Z;
}.

Record SVMConfig := mkSVMConfig {
  SVM_RPC : string;
  SVM_WS : string;
  PriorityFee : Z;
  SubmitRPCs : list string;
}.

Record ChainConfig := mkChainConfig {
  ChainName : string;
  ChainID : string;
  Type_ : ChainType;
  Environment : ChainEnvironment;
  Cosmos : option CosmosConfig;
  EVM : option EVMConfig;
  SVM : option SVMConfig;
  GasTokenSymbol : string;
  GasTokenCoingeckoID : option string;
  GasTokenDecimals : Z;
  SignerGasAlertThresholds : gmap BridgeType SignerGasAlertThresholdsConfig;
  IBCV2 : option IBCV2Config;
  SupportedBridges : list BridgeType;
}.

Record CoingeckoConfig := mkCoingeckoConfig {
  BaseURL : string;
  RequestsPerMinute : Z;
  APIKey : string;
  CacheRefreshInterval : Z;
}.

Record SigningConfig := mkSigningConfig {
  KeysPath : string;
  Signing_GRPCAddress : string;
  Signing_GRPCTLSEnabled : bool;
  CosmosWalletKey : string;
  EVMWalletKey : string;
  SVMWalletKey : string;
}.

Definition no_signing : SigningConfig := mkSigningConfig "" "" false "" "" "".

(** [MetricsConfig] and [RelayerAPIConfig] are their only field. *)
Record Config := mkConfig {
  Postgres : PostgresConfig;
  Chains : list (string * ChainConfig);
  PrometheusAddress : string;
  RelayerAPI_Address : string;
  Coingecko : CoingeckoConfig;
  IBCV2ProofAPI : IBCV2ProofAPIConfig;
  Signing : SigningConfig;
}.

Definition ToDBBridgeType (t : BridgeType) : error + string :=
  if bool_decide (t = BridgeTypeIBCV2) then inr "ibcv2" else inl (ENew ("invalid bridge type " +:+ t)).

(** [LoadConfig] rejects a configuration without an API address. *)
Definition Validate (c : Config) : option error :=
  if bool_decide (RelayerAPI_Address c = "")
  then Some (ENew "relayer_api.address must be configured")
  else None.

(** [LoadConfig]: [ReadFile] and [Unmarshal] are the file system and the YAML library. *)
Definition LoadConfig (ReadFile : string -> error + list Z) (Unmarshal : list Z -> error + Config)
    (path : string) : error + Config :=
  match ReadFile path with
  | inl err => inl err
  | inr cfgBytes =>
      match Unmarshal cfgBytes with
      | inl err => inl err
      | inr config =>
          match Validate config with
          | Some err => inl err
          | None => inr config
          end
      end
  end.

Record configReader := mkConfigReader {
  config : Config;
  chainIDIndex : gmap string ChainConfig;
  chainIDToKey : gmap string string;
}.

(** [createIndexes]: later entries of the range overwrite earlier ones. *)
Definition createIndexes (c : Config) : gmap string ChainConfig * gmap string string :=
  foldl (fun '(ix, keys) '(key, chain) =>
           (<[ChainID chain := chain]> ix, <[ChainID chain := key]> keys))
    (∅, ∅) (Chains c).

Definition NewConfigReader (c : Config) : configReader :=
  mkConfigReader c (fst (createIndexes c)) (snd (createIndexes c)).

Definition not_found (chainID : string) : error := ENew ("chain id " +:+ chainID +:+ " not found").

Definition GetIBCV2ProofRelayerConfig (r : configReader) : IBCV2ProofAPIConfig := IBCV2ProofAPI (config r).
Definition PostgresIAMAuthEnabled (r : configReader) : bool := IAMAuthEnabled (Postgres (config r)).
Definition PostgresIAMAuthRegion (r : configReader) : string := IAMAuthRegion (Postgres (config r)).
Definition GetRelayerAPIConfig (r : configReader) : string := RelayerAPI_Address (config r).

(** [GetServiceAccountToken]: a variable that is not set reads as the empty text. *)
Definition EnvServiceAccountToken : string := "SERVICE_ACCOUNT_TOKEN".
Definition GetServiceAccountToken (env : string -> option string) : string :=
  default "" (env EnvServiceAccountToken).

Definition GetChainConfig (r : configReader) (chainID : string) : error + ChainConfig :=
  match chainIDIndex r !! chainID with
  | Some chain => inr chain
  | None => inl (not_found chainID)
  end.

Definition GetIBCV2Chains (r : configReader) : list ChainConfig :=
  filter (fun chain => is_Some (IBCV2 chain)) (Chains (config r)).*2.

Definition GetAllChains (r : configReader) : list ChainConfig := (Chains (config r)).*2.

Definition GetAllChainConfigsOfType (r : configReader) (t : ChainType) : list ChainConfig :=
  filter (fun chain => Type_ chain = t) (Chains (config r)).*2.

Definition GetIBCV2Config (r : configReader) (chainID : string) : error + option IBCV2Config :=
  match GetChainConfig r chainID with
  | inl e => inl e
  | inr chain => inr (IBCV2 chain)
  end.

Definition GetClientCounterpartyChainID (r : configReader) (chainID clientID : string) : error + string :=
  match GetChainConfig r chainID with
  | inl e => inl e
  | inr chain =>
      match IBCV2 chain with
      | None => inl (ENew "chain is not ibcv2 enabled")
      | Some ibcv2 =>
          match CounterpartyChains ibcv2 !! clientID with
          | None => inl (ENew "unknown client on chain")
          | Some trackedChain => inr trackedChain
          end
      end
  end.

Definition GetChainEnvironment (r : configReader) (chainID : string) : error + ChainEnvironment :=
  match chainIDIndex r !! chainID with
  | None => inl (not_found chainID)
  | Some chain => inr (Environment chain)
  end.

(** *** Strings *)

(** [strings.ReplaceAll key "-" "_"] and [strings.ToUpper] on ASCII. *)
Fixpoint string_map (f : ascii -> ascii) (s : string) : string :=
  match s with
  | EmptyString => EmptyString
  | String c s' => String (f c) (string_map f s')
  end.

Definition ascii_upper (c : ascii) : ascii :=
  let n := nat_of_ascii c in
  if (97 <=? n)%nat && (n <=? 122)%nat then ascii_of_nat (n - 32) else c.

Definition dash_to_underscore (c : ascii) : ascii := if Ascii.eqb c "-" then "_"%char else c.

Definition rpc_env_name (key : string) : string :=
  string_map ascii_upper (string_map dash_to_underscore key) +:+ "_EVM_RPC_FULL_URL".

(** [os.Getenv] is the empty string for an unset variable. *)
Definition Getenv (env : string -> option string) (name : string) : string := default "" (env name).

Definition GetRPCEndpoint (env : string -> option string) (r : configReader) (chainID : string)
    : error + string :=
  match chainIDIndex r !! chainID with
  | None => inl (not_found chainID)
  | Some chain =>
      if bool_decide (Type_ chain = ChainTypeCOSMOS) then
        match Cosmos chain with
        | None => inl (ENew "cosmos config not set for chain")
        | Some c => inr (Cosmos_RPC c)
        end
      else if bool_decide (Type_ chain = ChainTypeEVM) then
        match EVM chain with
        | None => inl (ENew "evm config not set for chain")
        | Some c =>
            let key := default "" (chainIDToKey r !! chainID) in
            let envURL := Getenv env (rpc_env_name key) in
            if negb (bool_decide (envURL = "")) then inr envURL else inr (EVM_RPC c)
        end
      else if bool_decide (Type_ chain = ChainTypeSVM) then
        match SVM chain with
        | None => inl (ENew "svm config not set for chain")
        | Some c => inr (SVM_RPC c)
        end
      else inl (ENew "unknown chain type")
  end.

Definition GetGRPCEndpoint (r : configReader) (chainID : string) : error + (string * bool) :=
  match chainIDIndex r !! chainID with
  | None => inl (not_found chainID)
  | Some chain =>
      if bool_decide (Type_ chain = ChainTypeCOSMOS) then
        match Cosmos chain with
        | None => inl (ENew "cosmos config not set for chain")
        | Some c => inr (Cosmos_GRPC c, Cosmos_GRPCTLSEnabled c)
        end
      else if bool_decide (Type_ chain = ChainTypeEVM) then
        inl (ENew "grpc endpoints not supported for chain type evm")
      else if bool_decide (Type_ chain = ChainTypeSVM) then
        inl (ENew "grpc endpoints not supported for chain type svm")
      else inl (ENew "unknown chain type")
  end.

Definition GetBasicAuth (env : string -> option string) (r : configReader) (chainID : string)
    : error + option string :=
  match chainIDIndex r !! chainID with
  | None => inl (not_found chainID)
  | Some chain =>
      if bool_decide (Type_ chain = ChainTypeCOSMOS) then
        match Cosmos chain with
        | None => inl (ENew "cosmos config not set for chain")
        | Some c => inr (env (Cosmos_RPCBasicAuthVar c))
        end
      else if bool_decide (Type_ chain = ChainTypeEVM) then
        match EVM chain with
        | None => inl (ENew "evm config not set for chain")
        | Some c => inr (env (EVM_RPCBasicAuthVar c))
        end
      else if bool_decide (Type_ chain = ChainTypeSVM) then inr None
      else inl (ENew "unknown chain type")
  end.

Definition GetPostgresConnString (env : string -> option string) (r : configReader) : string :=
  let dbUser := default "relayer" (env "POSTGRES_USER") in
  let dbPassword := default "relayer" (env "POSTGRES_PASSWORD") in
  let p := Postgres (config r) in
  "host=" +:+ Hostname p +:+ " port=" +:+ Port p +:+ " user=" +:+ dbUser
    +:+ " password=" +:+ dbPassword +:+ " dbname=" +:+ Database p.

Definition GetCoingeckoConfig (env : string -> option string) (r : configReader) : CoingeckoConfig :=
  let cfg := Coingecko (config r) in
  let envURL := Getenv env "COINGECKO_FULL_URL" in
  let envKey := Getenv env "COINGECKO_API_KEY" in
  mkCoingeckoConfig
    (if bool_decide (envURL = "") then BaseURL cfg else envURL)
    (RequestsPerMinute cfg)
    (if bool_decide (envKey = "") then APIKey cfg else envKey)
    (CacheRefreshInterval cfg).

(** [big.Int.SetString s 10]: an optional sign and one digit at least. *)
Definition digit_value (c : ascii) : option Z :=
  let n := Z.of_nat (nat_of_ascii c) in
  if bool_decide (48 <= n) && bool_decide (n <= 57) then Some (n - 48) else None.

Fixpoint parse_digits (acc : Z) (s : string) : option Z :=
  match s with
  | EmptyString => Some acc
  | String c s' => d ← digit_value c; parse_digits (10 * acc + d) s'
  end.

Definition SetString10 (s : string) : option Z :=
  match s with
  | EmptyString => None
  | String "-" EmptyString | String "+" EmptyString => None
  | String "-" s' => Z.opp <$> parse_digits 0 s'
  | String "+" s' => parse_digits 0 s'
  | _ => parse_digits 0 s
  end.

Definition GetSignerGasAlertThresholds (r : configReader) (chainID : string) (bridgeType : BridgeType)
    : error + (Z * Z) :=
  match GetChainConfig r chainID with
  | inl e => inl (EWrap "getting chain config for chain" e)
  | inr chain =>
      match SignerGasAlertThresholds chain !! bridgeType with
      | None => inl (ESentinel ErrNoSignerForBridge)
      | Some gasConfig =>
          match SetString10 (WarningThreshold gasConfig) with
          | None => inl (ENew "failed to parse gas balance warning threshold amount")
          | Some warningThreshold =>
              match SetString10 (CriticalThreshold gasConfig) with
              | None => inl (ENew "failed to parse gas balance critical threshold amount")
              | Some criticalThreshold => inr (warningThreshold, criticalThreshold)
              end
          end
      end
  end.

(** A range over the chains whose config is looked up again by chain ID; the
    IBCV2 config is read through the pointer (nil panics). *)
Definition GetAllIBCV2ClientsToCounterparties (r : configReader)
    : res (gmap string (gmap string string)) :=
  foldl (fun acc chain =>
           match acc with
           | Ok m =>
               match GetIBCV2Config r (ChainID chain) with
               | inl e => Fail (EWrap "getting ibcv2 config for chain" e)
               | inr None => Panic
               | inr (Some ibcv2) => Ok (<[ChainID chain := CounterpartyChains ibcv2]> m)
               end
           | _ => acc
           end) (Ok ∅) (GetIBCV2Chains r).

(** ** Lemmas *)

Definition index_add (ix : gmap string ChainConfig) (p : string * ChainConfig)
  : gmap string ChainConfig := <[ChainID p.2 := p.2]> ix.

Lemma chainIDIndex_foldl c :
  chainIDIndex (NewConfigReader c) = foldl index_add ∅ (Chains c).
Proof.
  cbn. unfold createIndexes. generalize (∅ : gmap string ChainConfig), (∅ : gmap string string).
  induction (Chains c) as [|[k c0] l IH]; intros ix keys; cbn; [done|]. apply IH.
Qed.

Lemma foldl_index_add (l : list (string * ChainConfig)) ix id c :
  NoDup (ChainID <$> l.*2) ->
  (forall c, c ∈ l.*2 -> ix !! ChainID c = None) ->
  foldl index_add ix l !! id = Some c <->
  ix !! id = Some c \/ (c ∈ l.*2 /\ ChainID c = id).
Proof.
  revert ix. induction l as [|[k c0] l IH]; intros ix Hnd Hix; cbn in *.
  - rewrite elem_of_nil. tauto.
  - apply NoDup_cons in Hnd as [Hn Hnd]. rewrite IH; [| done |].
    + unfold index_add. rewrite lookup_insert_Some, elem_of_cons. cbn.
      assert (H0 : ix !! ChainID c0 = None) by (apply Hix; set_solver).
      split.
      * intros [[[<- <-]|[? ?]]|[? ?]]; eauto.
      * intros [H|[[->|H] <-]]; eauto. left; right. split; [|done]. congruence.
    + intros c' Hc'. apply lookup_insert_None. cbn. split; [apply Hix; set_solver|].
      intros E. apply Hn. rewrite E. by apply list_elem_of_fmap_2.
Qed.

(** With distinct chain IDs a chain is found exactly when it is configured,
    whatever the order the chains are indexed in. *)
Lemma GetChainConfig_elem c id chain :
  NoDup (ChainID <$> (Chains c).*2) ->
  GetChainConfig (NewConfigReader c) id = inr chain <->
  chain ∈ (Chains c).*2 /\ ChainID chain = id.
Proof.
  intros Hnd. unfold GetChainConfig. rewrite chainIDIndex_foldl.
  assert (L : foldl index_add ∅ (Chains c) !! id = Some chain <->
              chain ∈ (Chains c).*2 /\ ChainID chain = id).
  { rewrite foldl_index_add by done. rewrite lookup_empty. naive_solver. }
  rewrite <- L. destruct (_ !! id); naive_solver.
Qed.
