(* ===== verification/World.v ===== *)
(** * The system the relayer runs in

    What the relayer's code calls but does not contain: the clock, the
    PostgreSQL server, the bridge clients of the chains
    ([src/shared/bridges/ibcv2/bridge_client.go]), the proof service
    ([RelayByTx]) and the price client, as the operations of the class [Env] on
    an abstract world [W].  Every operation may change the world and may return
    an error.  On top of it the state monad [M] of the program: the world, the
    database, and the trace of observable events (metrics, log lines of the
    Cancel methods, transactions handed to a chain). *)

From S2P Require Import Prelude Db Config.

(** ** Interfaces *)

Record BridgeTx := mkBridgeTx {
  Hash : string;
  Timestamp : Z;
  RelayerAddress : string;
}.

Record TxExecutionStatusT := mkTxExecutionStatus {
  ExecStatus : string;
  ErrorMessage : string;
}.

Definition TxExecutionStatusSuccess : string := "SUCCESS".
Definition TxExecutionStatusFailed : string := "FAILED".

Record PacketInfo := mkPacketInfo {
  Sequence : Z;
  SourceClient : string;
  DestinationClient : string;
  TimeoutTimestamp : Z;
  PacketTimestamp : Z;
}.

(** [proofapi.RelayByTxRequest] and its response. *)
Record RelayByTxRequest := mkRelayByTxRequest {
  SrcChain : string;
  DstChain : string;
  SourceTxIds : list (list Z);
  TimeoutTxIds : list (list Z);
  SrcClientId : string;
  DstClientId : string;
  SrcPacketSequences : list Z;
  DstPacketSequences : list Z;
}.

Record RelayByTxResponse := mkRelayByTxResponse {
  Tx : list Z;
  Address : string;
}.

(** A call into the world: an error or a value, and the world after it. *)
Definition X (W A : Type) : Type := W -> (error + A) * W.

Record BridgeClient (W : Type) := mkBridgeClient {
  IsPacketReceived : string -> Z -> X W bool;
  IsPacketCommitted : string -> Z -> X W bool;
  FindRecvTx : string -> string -> Z -> Z -> X W BridgeTx;
  FindAckTx : string -> string -> Z -> X W BridgeTx;
  FindTimeoutTx : string -> string -> Z -> X W BridgeTx;
  DeliverTx : list Z -> string -> X W BridgeTx;
  PacketWriteAckStatus : string -> Z -> string -> string -> X W db.Ibcv2WriteAckStatus;
  SendPacketsFromTx : string -> string -> X W (list PacketInfo);
  ShouldRetryTx : string -> Z -> Z -> X W bool;
  WaitForChain : X W unit;
  IsTxFinalized : string -> option Z -> X W bool;
  IsTimestampFinalized : Z -> option Z -> X W bool;
  ClientChainType : ChainType;
  SignerGasTokenBalance : X W Z;
  TxFee : string -> X W (option Z);
  TxExecutionStatus : string -> X W TxExecutionStatusT;
  GetTransactionSender : string -> X W string;
}.

Arguments IsPacketReceived {W} b.
Arguments IsPacketCommitted {W} b.
Arguments FindRecvTx {W} b.
Arguments FindAckTx {W} b.
Arguments FindTimeoutTx {W} b.
Arguments DeliverTx {W} b.
Arguments PacketWriteAckStatus {W} b.
Arguments SendPacketsFromTx {W} b.
Arguments ShouldRetryTx {W} b.
Arguments WaitForChain {W} b.
Arguments IsTxFinalized {W} b.
Arguments IsTimestampFinalized {W} b.
Arguments ClientChainType {W} b.
Arguments SignerGasTokenBalance {W} b.
Arguments TxFee {W} b.
Arguments TxExecutionStatus {W} b.
Arguments GetTransactionSender {W} b.

(** [GetCoinUsdValue ctx coingeckoID decimals amount]; the amount is a pointer, nil
    included, as [TxFee] returns it. *)
Record PriceClient (W : Type) := mkPriceClient {
  GetCoinUsdValue : string -> Z -> option Z -> X W (option db.Numeric);
}.
Arguments GetCoinUsdValue {W} p.

(** The outcome of COMMIT: a failed one may or may not have been applied. *)
Inductive commit_outcome :=
  | Committed
  | CommitFailed (e : error) (applied : bool).

Class Env (W : Type) := {
  clock : W -> Z * W;
  db_exec : X W Z;
  tx_begin : X W unit;
  tx_commit : W -> commit_outcome * W;
  tx_rollback : X W unit;
  clients : gmap string (BridgeClient W);
  RelayByTx : RelayByTxRequest -> X W RelayByTxResponse;
  priceClient : option (PriceClient W);
  cfg : configReader;
}.

(** ** Observable events *)

Inductive RelayType :=
  | IBCV2SendToRecvRelayType
  | IBCV2SendToTimeoutRelayType
  | IBCV2RecvToAckRelayType.

#[export] Instance RelayType_eq_dec : EqDecision RelayType.
Proof. solve_decision. Defined.

Inductive log_level := LDebug | LInfo | LWarn | LError.

Inductive event :=
  | AddTransactionSubmitted (success : bool) (chainID chainName chainEnvironment : string)
  | AddTransactionRetryAttempt (sourceChainID destinationChainID sourceChainName
      destinationChainName chainEnvironment : string) (relayType : RelayType)
  | AddTransfer (sourceChainID destinationChainID sourceChainName destinationChainName
      chainEnvironment : string) (state : db.Ibcv2RelayStatus)
  | RelayLatency (sourceChainID destinationChainID sourceChainName destinationChainName
      chainEnvironment : string) (relayType : RelayType) (latency : Z)
  | AddRelayCompleted (sourceChainID sourceClientID destinationChainID
      destinationClientID : string) (relayType : RelayType)
  | AddExcessiveRelayLatencyObservation (sourceChainName destinationChainName
      chainEnvironment : string) (relayType : RelayType)
  | AddTransactionConfirmed (success : bool) (chainID chainName chainEnvironment : string)
  | AddTransactionGasCost (chainID chainName chainEnvironment : string) (gasCost decimals : Z)
  | SetGasBalance (chainID chainName gasTokenSymbol chainEnvironment : string)
      (gasBalance warningThreshold criticalThreshold decimals : Z)
  | SetTransferCount (sourceChainID destinationChainID sourceChainName destinationChainName
      chainEnvironment state : string) (count : Z)
  | AddRelayRequest (statusCode : Z)
  | AddTransactionNonceReplaced (chainID : string)
  | AddRequest (method : string) (statusCode : Z)
  | AddRelayerAPIRequestLatency (method : string) (duration : Z)
  | AddSuccessfulExternalRequest (method code provider : string)
  | AddFailedExternalRequest (method code provider : string)
  | ExternalRequestLatency (method provider : string) (latency : Z)
  | Log (level : log_level) (msg : string)
  | CallRelayByTx (req : RelayByTxRequest)
  | CallDeliverTx (chainID : string) (tx : list Z) (address : string).

(** ** The program monad *)

Record Sys (W : Type) := mkSys {
  world : W;
  tables : db.DB;
  trace : list event;
}.
Arguments mkSys {W} world tables trace.
Arguments world {W} s.
Arguments tables {W} s.
Arguments trace {W} s.

Definition M (W A : Type) : Type := Sys W -> res A * Sys W.

Definition ret {W A} (a : A) : M W A := fun s => (Ok a, s).
Definition fail {W A} (e : error) : M W A := fun s => (Fail e, s).
Definition panic {W A} : M W A := fun s => (Panic, s).

Definition bind {W A B} (m : M W A) (f : A -> M W B) : M W B := fun s =>
  match m s with
  | (Ok a, s') => f a s'
  | (Fail e, s') => (Fail e, s')
  | (Panic, s') => (Panic, s')
  end.

(** [try m] makes the error of [m] a value: [v, err := m]. *)
Definition try {W A} (m : M W A) : M W (error + A) := fun s =>
  match m s with
  | (Ok a, s') => (Ok (inr a), s')
  | (Fail e, s') => (Ok (inl e), s')
  | (Panic, s') => (Panic, s')
  end.

(** [fmt.Errorf("msg: %w", err)] on the error of [m]. *)
Definition wrap {W A} (msg : string) (m : M W A) : M W A := fun s =>
  match m s with
  | (Fail e, s') => (Fail (EWrap msg e), s')
  | r => r
  end.

Notation "'let*' x := m 'in' k" := (bind m (fun x => k))
  (at level 200, x name, m at level 100, k at level 200, right associativity) : relayer_scope.
Notation "'let*' ' p := m 'in' k" := (bind m (fun x => match x with p => k end))
  (at level 200, p pattern, m at level 100, k at level 200, right associativity) : relayer_scope.
Notation "m ;; k" := (bind m (fun _ => k)) (at level 100, right associativity) : relayer_scope.
Open Scope relayer_scope.

Definition emit {W} (e : event) : M W unit := fun s =>
  (Ok tt, mkSys (world s) (tables s) (trace s ++ [e])).

Definition logf {W} (l : log_level) (msg : string) : M W unit := emit (Log l msg).

Definition call {W A} (x : X W A) : M W A := fun s =>
  match x (world s) with
  | (inr a, w) => (Ok a, mkSys w (tables s) (trace s))
  | (inl e, w) => (Fail e, mkSys w (tables s) (trace s))
  end.

Fixpoint for_each {W A} (f : A -> M W unit) (l : list A) : M W unit :=
  match l with
  | [] => ret tt
  | x :: l' => f x ;; for_each f l'
  end.

Section Effects.
Context {W : Type} {E : Env W}.

Definition Now : M W Z := fun s =>
  let '(t, w) := clock (world s) in (Ok t, mkSys w (tables s) (trace s)).

(** [time.Since t] *)
Definition Since (t : Z) : M W Z := let* now := Now in ret (time_Sub now t).

(** One statement sent to the server: it may fail on the way, without effect. *)
Definition sql {A} (q : db.Stmt A) : M W A := fun s =>
  match db_exec (world s) with
  | (inl e, w) => (Fail e, mkSys w (tables s) (trace s))
  | (inr now, w) =>
      match q now (tables s) with
      | (inr a, d) => (Ok a, mkSys w d (trace s))
      | (inl e, d) => (Fail e, mkSys w d (trace s))
      end
  end.

(** A rolled back transaction leaves the rows as they were; serial counters are
    not transactional. *)
Definition rolled_back (d0 d : db.DB) : db.DB :=
  db.mkDB (db.ibcv2_transfers d0) (db.ibcv2_transfers_id_seq d)
    (db.ibcv2_relay_requests d0) (db.ibcv2_relay_requests_id_seq d)
    (db.ibcv2_relayer_tx_submissions d0) (db.ibcv2_relayer_tx_submissions_id_seq d)
    (db.ibcv2_transfer_tx_submissions d0).

(** [tx.ExecTx] ([src/db/tx/tx.go]) *)
Definition ExecTx (fn : M W unit) : M W unit := fun s =>
  match tx_begin (world s) with
  | (inl e, w) => (Fail e, mkSys w (tables s) (trace s))
  | (inr _, w) =>
      match fn (mkSys w (tables s) (trace s)) with
      | (Panic, s1) => (Panic, mkSys (world s1) (rolled_back (tables s) (tables s1)) (trace s1))
      | (Fail e, s1) =>
          let d := rolled_back (tables s) (tables s1) in
          match tx_rollback (world s1) with
          | (inl rbErr, w2) =>
              (Fail (EWrap2 "tx err" e ", rb err" rbErr), mkSys w2 d (trace s1))
          | (inr _, w2) => (Fail e, mkSys w2 d (trace s1))
          end
      | (Ok _, s1) =>
          match tx_commit (world s1) with
          | (Committed, w2) => (Ok tt, mkSys w2 (tables s1) (trace s1))
          | (CommitFailed e applied, w2) =>
              (Fail e, mkSys w2 (if applied then tables s1
                                 else rolled_back (tables s) (tables s1)) (trace s1))
          end
      end
  end.

(** [ClientManager.GetClient] ([src/relayer/ibcv2/client_manager.go]) *)
Definition GetClient (chainID : string) : M W (BridgeClient W) :=
  match clients !! chainID with
  | Some client => ret client
  | None => fail (ENew "no configured ibcv2 bridge client for chain ID")
  end.

(** A transaction handed to a chain, with its observation. *)
Definition deliver (chainID : string) (c : BridgeClient W) (tx : list Z) (to : string) : M W BridgeTx :=
  emit (CallDeliverTx chainID tx to) ;; call (DeliverTx c tx to).

Definition relay_by_tx (req : RelayByTxRequest) : M W RelayByTxResponse :=
  emit (CallRelayByTx req) ;; call (RelayByTx req).

(** [metrics.RecordTransactionSubmitted] ([src/shared/metrics/metrics.go]) *)
Definition RecordTransactionSubmitted (success : bool) (executionChainID : string) : M W unit :=
  match GetChainConfig cfg executionChainID with
  | inr c => emit (AddTransactionSubmitted success executionChainID (ChainName c) (Environment c))
  | inl _ => emit (AddTransactionSubmitted success executionChainID executionChainID "")
  end.

End Effects.
