(* ===== verification/Logic.v ===== *)
(** * A small logic for the program monad

    [dbrel R m]: running [m] relates the tables before and after by [R].  The
    rules follow the structure of the monad and are hints, so that a processor's
    frame is found by proof search; [ExecTx] needs that [R] survives a rollback.
    Two relations are used throughout: preservation of the schema's guarantees
    ([wf_step]) and the frame of an update by packet key ([frame]).  [in_sync] is
    the agreement between a transfer in memory and its row. *)

From S2P Require Import Prelude Db Transfer Config World.

Definition dbrel {W A} (R : db.DB -> db.DB -> Prop) (m : M W A) : Prop :=
  forall s, R (tables s) (tables (snd (m s))).

(** A relation on tables that composes and that a rollback keeps. *)
Class StepRel (R : db.DB -> db.DB -> Prop) : Prop := {
  steprel_preorder :: PreOrder R;
  steprel_rollback d d' : R d d' -> R d (rolled_back d d');
}.

Section Rules.
Context {W : Type} {R : db.DB -> db.DB -> Prop} `{HR : !StepRel R}.

Lemma dbrel_ret {A} (a : A) : dbrel (W:=W) R (ret a).
Proof. intros s. reflexivity. Qed.
Lemma dbrel_fail {A} e : dbrel (W:=W) (A:=A) R (fail e).
Proof. intros s. reflexivity. Qed.
Lemma dbrel_panic {A} : dbrel (W:=W) (A:=A) R panic.
Proof. intros s. reflexivity. Qed.
Lemma dbrel_emit e : dbrel (W:=W) R (emit e).
Proof. intros s. reflexivity. Qed.

Lemma dbrel_bind {A B} (m : M W A) (f : A -> M W B) :
  dbrel R m -> (forall a, dbrel R (f a)) -> dbrel R (bind m f).
Proof.
  intros Hm Hf s. unfold bind. specialize (Hm s).
  destruct (m s) as [[a|e|] s'] eqn:Em; cbn in *; [|done..].
  etrans; [exact Hm | apply Hf].
Qed.

Lemma dbrel_try {A} (m : M W A) : dbrel R m -> dbrel R (try m).
Proof. intros Hm s. unfold try. specialize (Hm s). by destruct (m s) as [[a|e|] s']. Qed.

Lemma dbrel_wrap {A} msg (m : M W A) : dbrel R m -> dbrel R (wrap msg m).
Proof. intros Hm s. unfold wrap. specialize (Hm s). by destruct (m s) as [[a|e|] s']. Qed.

Lemma dbrel_call {A} (x : X W A) : dbrel R (call x).
Proof. intros s. unfold call. destruct (x (world s)) as [[e|a] w]; reflexivity. Qed.

Lemma dbrel_for_each {A} (f : A -> M W unit) l :
  (forall x, x ∈ l -> dbrel R (f x)) -> dbrel R (for_each f l).
Proof.
  induction l as [|x l IH]; intros Hf; cbn; [apply dbrel_ret|].
  apply dbrel_bind; [apply Hf; left | intros _; apply IH; intros y Hy; apply Hf; by right].
Qed.

Context {E : Env W}.

Lemma dbrel_Now : dbrel R Now.
Proof. intros s. unfold Now. destruct (clock (world s)); reflexivity. Qed.

Lemma dbrel_sql {A} (q : db.Stmt A) :
  (forall now d, R d (snd (q now d))) -> dbrel R (sql q).
Proof.
  intros Hq s. unfold sql. destruct (db_exec (world s)) as [[e|now] w]; [reflexivity|].
  specialize (Hq now (tables s)). by destruct (q now (tables s)) as [[e|a] d].
Qed.

Lemma dbrel_GetClient chainID : dbrel R (GetClient chainID).
Proof. intros s. unfold GetClient. destruct (clients !! chainID); reflexivity. Qed.

Lemma dbrel_ExecTx fn : dbrel R fn -> dbrel R (ExecTx fn).
Proof.
  intros Hf s. unfold ExecTx. destruct (tx_begin (world s)) as [[e|?] w]; [reflexivity|].
  specialize (Hf (mkSys w (tables s) (trace s))).
  destruct (fn _) as [[a|e|] s1]; cbn in *.
  - destruct (tx_commit (world s1)) as [[|e applied] w2]; cbn; [done|].
    destruct applied; [done | by apply steprel_rollback].
  - destruct (tx_rollback (world s1)) as [[e2|?] w2]; cbn; by apply steprel_rollback.
  - by apply steprel_rollback.
Qed.

End Rules.

(** ** Postconditions

    [wp m Q s]: running [m] from [s] ends in a result and a state that satisfy
    [Q]; the rules run a program symbolically, keeping what each call returned. *)

Definition wp {W A} (m : M W A) (Q : res A -> Sys W -> Prop) (s : Sys W) : Prop :=
  Q (fst (m s)) (snd (m s)).
Arguments wp {W A} m Q s : simpl never.

Section WP.
Context {W : Type}.

Lemma wp_ret {A} (a : A) Q (s : Sys W) : Q (Ok a) s -> wp (ret a) Q s.
Proof. done. Qed.
Lemma wp_fail {A} e Q (s : Sys W) : Q (Fail e) s -> wp (A:=A) (fail e) Q s.
Proof. done. Qed.
Lemma wp_panic {A} Q (s : Sys W) : Q Panic s -> wp (A:=A) panic Q s.
Proof. done. Qed.
Lemma wp_emit e Q (s : Sys W) :
  Q (Ok tt) (mkSys (world s) (tables s) (trace s ++ [e])) -> wp (emit e) Q s.
Proof. done. Qed.

Lemma wp_bind {A B} (m : M W A) (f : A -> M W B) Q s :
  wp m (fun r s' => match r with
                    | Ok a => wp (f a) Q s'
                    | Fail e => Q (Fail e) s'
                    | Panic => Q Panic s'
                    end) s -> wp (bind m f) Q s.
Proof. unfold wp, bind. by destruct (m s) as [[a|e|] s']. Qed.

Lemma wp_try {A} (m : M W A) Q s :
  wp m (fun r s' => match r with
                    | Ok a => Q (Ok (inr a)) s'
                    | Fail e => Q (Ok (inl e)) s'
                    | Panic => Q Panic s'
                    end) s -> wp (try m) Q s.
Proof. unfold wp, try. by destruct (m s) as [[a|e|] s']. Qed.

Lemma wp_wrap {A} msg (m : M W A) Q s :
  wp m (fun r s' => match r with
                    | Ok a => Q (Ok a) s'
                    | Fail e => Q (Fail (EWrap msg e)) s'
                    | Panic => Q Panic s'
                    end) s -> wp (wrap msg m) Q s.
Proof. unfold wp, wrap. by destruct (m s) as [[a|e|] s']. Qed.

Lemma wp_call {A} (x : X W A) Q s :
  (forall r w, x (world s) = (r, w) ->
     match r with
     | inr a => Q (Ok a) (mkSys w (tables s) (trace s))
     | inl e => Q (Fail e) (mkSys w (tables s) (trace s))
     end) -> wp (call x) Q s.
Proof.
  intros H. unfold wp, call. destruct (x (world s)) as [r w] eqn:Ex.
  specialize (H r w eq_refl). by destruct r.
Qed.

Lemma wp_and {A} (m : M W A) (Q Q' : res A -> Sys W -> Prop) s :
  wp m Q s -> wp m Q' s -> wp m (fun r s' => Q r s' /\ Q' r s') s.
Proof. unfold wp. auto. Qed.

Lemma wp_dbrel {A} R (m : M W A) s :
  dbrel R m -> wp m (fun _ s' => R (tables s) (tables s')) s.
Proof. intros H. apply H. Qed.

Lemma wp_mono {A} (m : M W A) (Q Q' : res A -> Sys W -> Prop) s :
  (forall r s', Q r s' -> Q' r s') -> wp m Q s -> wp m Q' s.
Proof. unfold wp. auto. Qed.

Context {E : Env W}.

Lemma wp_Now Q s :
  (forall t w, clock (world s) = (t, w) -> Q (Ok t) (mkSys w (tables s) (trace s))) -> wp Now Q s.
Proof. intros H. unfold wp, Now. destruct (clock (world s)) eqn:Ec. by apply H. Qed.

Lemma wp_GetClient id Q s :
  (forall c, clients !! id = Some c -> Q (Ok c) s) ->
  (clients !! id = None -> Q (Fail (ENew "no configured ibcv2 bridge client for chain ID")) s) ->
  wp (GetClient id) Q s.
Proof. intros H1 H2. unfold wp, GetClient. destruct (clients !! id); [by apply H1 | by apply H2]. Qed.

Lemma wp_sql {A} (q : db.Stmt A) Q s :
  (forall e w, db_exec (world s) = (inl e, w) -> Q (Fail e) (mkSys w (tables s) (trace s))) ->
  (forall now w r d, db_exec (world s) = (inr now, w) -> q now (tables s) = (r, d) ->
     match r with
     | inr a => Q (Ok a) (mkSys w d (trace s))
     | inl e => Q (Fail e) (mkSys w d (trace s))
     end) -> wp (sql q) Q s.
Proof.
  intros H1 H2. unfold wp, sql. destruct (db_exec (world s)) as [[e|now] w] eqn:Ed; [by apply H1|].
  destruct (q now (tables s)) as [r d] eqn:Eq. specialize (H2 now w r d eq_refl Eq). by destruct r.
Qed.

Lemma wp_ExecTx fn Q s :
  (forall e w, tx_begin (world s) = (inl e, w) -> Q (Fail e) (mkSys w (tables s) (trace s))) ->
  (forall u w, tx_begin (world s) = (inr u, w) ->
    wp fn (fun r s1 =>
      match r with
      | Ok _ =>
          forall c w2, tx_commit (world s1) = (c, w2) ->
          match c with
          | Committed => Q (Ok tt) (mkSys w2 (tables s1) (trace s1))
          | CommitFailed e applied =>
              Q (Fail e) (mkSys w2 (if applied then tables s1
                                    else rolled_back (tables s) (tables s1)) (trace s1))
          end
      | Fail e =>
          forall rb w2, tx_rollback (world s1) = (rb, w2) ->
          Q (Fail (match rb with inl rbErr => EWrap2 "tx err" e ", rb err" rbErr | inr _ => e end))
            (mkSys w2 (rolled_back (tables s) (tables s1)) (trace s1))
      | Panic => Q Panic (mkSys (world s1) (rolled_back (tables s) (tables s1)) (trace s1))
      end) (mkSys w (tables s) (trace s))) ->
  wp (ExecTx fn) Q s.
Proof.
  intros H1 H2. unfold wp, ExecTx.
  destruct (tx_begin (world s)) as [[e|u] w] eqn:Eb; [by apply H1|].
  specialize (H2 u w eq_refl). unfold wp in H2.
  destruct (fn _) as [[a|e|] s1]; cbn in *; [| |done].
  - destruct (tx_commit (world s1)) as [c w2] eqn:Ec. specialize (H2 c w2 eq_refl). by destruct c.
  - destruct (tx_rollback (world s1)) as [rb w2] eqn:Er. specialize (H2 rb w2 eq_refl).
    by destruct rb.
Qed.

Lemma wp_update k f Q s :
  (forall e w, db_exec (world s) = (inl e, w) -> Q (Fail e) (mkSys w (tables s) (trace s))) ->
  (forall now w, db_exec (world s) = (inr now, w) ->
     Q (Ok tt) (mkSys w (db.update_where k (f now) (tables s)) (trace s))) ->
  wp (sql (fun now d => (inr tt, db.update_where k (f now) d))) Q s.
Proof. intros H1 H2. apply wp_sql; [done|]. intros now w r d Hexec [= <- <-]. auto. Qed.

End WP.

(** One symbolic step. *)
Ltac wp_step :=
  lazymatch goal with
  | |- wp (bind _ _) _ _ => apply wp_bind
  | |- wp (try _) _ _ => apply wp_try
  | |- wp (wrap _ _) _ _ => apply wp_wrap
  | |- wp (ret _) _ _ => apply wp_ret
  | |- wp (fail _) _ _ => apply wp_fail
  | |- wp panic _ _ => apply wp_panic
  | |- wp (emit _) _ _ => apply wp_emit
  | |- wp (call _) _ _ => apply wp_call; intros [?e|?a] ?w ?Hcall
  | |- wp Now _ _ => apply wp_Now; intros ?now ?w ?Hclock
  | |- wp (GetClient _) _ _ => apply wp_GetClient; [intros ?client ?Hclient | intros ?Hclient]
  | |- wp (sql ?q) _ _ =>
      first [ let h := get_head q in unfold h;
              apply wp_update; [intros ?e ?w ?Hexec | intros ?now ?w ?Hexec]
            | apply wp_sql; [intros ?e ?w ?Hexec | intros ?now ?w [?e|?a] ?d ?Hexec ?Hstmt] ]
  | |- wp (if ?b then _ else _) _ _ => destruct b eqn:?
  | |- wp (match ?x with _ => _ end) _ _ => destruct x eqn:?
  | |- wp ?m _ _ => let h := get_head m in unfold h
  end; cbn beta iota zeta; cbn [world tables trace].

Ltac wp_run := repeat wp_step.

(** [dbrel_go] follows the program; the statements are left to the hints. *)
Ltac dbrel_step :=
  lazymatch goal with
  | |- dbrel _ (bind _ _) => apply dbrel_bind; [|intros ?]
  | |- dbrel _ (ret _) => apply dbrel_ret
  | |- dbrel _ (fail _) => apply dbrel_fail
  | |- dbrel _ panic => apply dbrel_panic
  | |- dbrel _ (emit _) => apply dbrel_emit
  | |- dbrel _ (try _) => apply dbrel_try
  | |- dbrel _ (wrap _ _) => apply dbrel_wrap
  | |- dbrel _ (call _) => apply dbrel_call
  | |- dbrel _ Now => apply dbrel_Now
  | |- dbrel _ (GetClient _) => apply dbrel_GetClient
  | |- dbrel _ (ExecTx _) => apply dbrel_ExecTx
  | |- dbrel _ (for_each _ _) => apply dbrel_for_each; intros ? ?
  | |- dbrel _ (sql _) => solve [auto with relayer]
  | |- dbrel _ (match ?x with _ => _ end) => destruct x eqn:?
  | |- dbrel _ ?m => let h := get_head m in unfold h
  end; cbv beta zeta.
Ltac dbrel_go := repeat dbrel_step.

(** ** Preservation of the schema *)

Definition wf_step (d d' : db.DB) : Prop :=
  db.wf_db d -> db.wf_db d' /\ db.ibcv2_transfers_id_seq d <= db.ibcv2_transfers_id_seq d'
    /\ db.ibcv2_relay_requests_id_seq d <= db.ibcv2_relay_requests_id_seq d'
    /\ db.ibcv2_relayer_tx_submissions_id_seq d <= db.ibcv2_relayer_tx_submissions_id_seq d'.

#[export] Instance wf_step_steprel : StepRel wf_step.
Proof.
  split.
  - split; [intros d W; split; [done | lia]|].
    intros d1 d2 d3 H1 H2 W. destruct (H1 W) as (W2&?&?&?). destruct (H2 W2) as (W3&?&?&?).
    split; [done | lia].
  - intros d d' H W. destruct (H W) as (_&?&?&?).
    destruct W as [W1 W2 W3 W4 W5 W6 W7 W8 (V1&V2&V3)].
    split; [|done]. split; cbn; try done; [| | |lia].
    + intros i r Hi. apply W1 in Hi. lia.
    + intros i r Hi. apply W4 in Hi. lia.
    + intros i r Hi. apply W6 in Hi. lia.
Qed.

(** ** Frames

    Rows are neither created nor deleted and keep what identifies them, and a row
    whose key is not selected keeps everything but its modification time and its
    write-ack finality time (see [CheckWriteAckFinality_Process], whose update is
    keyed by zero values). *)

Definition row_identity (r : db.Ibcv2Transfer) :=
  (db.ID r, db.row_key r, db.SourceChainID r, db.DestinationChainID r, db.PacketSourceClientID r,
   db.PacketDestinationClientID r, db.SourceTxHash r, db.SourceTxTime r,
   db.PacketTimeoutTimestamp r).

Definition tracked (r : db.Ibcv2Transfer) : db.Ibcv2Transfer :=
  r <| db.UpdatedAt := None |> <| db.WriteAckTxFinalizedTime := None |>.

Definition frame (K : db.PacketKey -> Prop) (d d' : db.DB) : Prop :=
  forall i, match db.ibcv2_transfers d !! i, db.ibcv2_transfers d' !! i with
            | None, None => True
            | Some r, Some r' =>
                row_identity r' = row_identity r /\ (~ K (db.row_key r) -> tracked r' = tracked r)
            | _, _ => False
            end.

Lemma row_identity_key r r' : row_identity r' = row_identity r -> db.row_key r' = db.row_key r.
Proof. unfold row_identity. congruence. Qed.

#[export] Instance frame_steprel K : StepRel (frame K).
Proof.
  split.
  - split; [intros d i; by destruct (_ !! i)|].
    intros d1 d2 d3 H1 H2 i. specialize (H1 i). specialize (H2 i).
    destruct (db.ibcv2_transfers d1 !! i), (db.ibcv2_transfers d2 !! i),
      (db.ibcv2_transfers d3 !! i); try done.
    destruct H1 as [I1 F1], H2 as [I2 F2]. split; [congruence|].
    intros HK. rewrite F2, F1; [done..|]. by rewrite (row_identity_key _ _ I1).
  - intros d d' _ i. cbn. by destruct (_ !! i).
Qed.

Lemma frame_weaken (K K' : db.PacketKey -> Prop) d d' :
  (forall k, K k -> K' k) -> frame K d d' -> frame K' d d'.
Proof.
  intros HK H i. specialize (H i). do 2 destruct (_ !! i); try done.
  destruct H as [H1 H2]. split; [done|]. intros N. apply H2. auto.
Qed.

Lemma frame_update_where (K : db.PacketKey -> Prop) k f d :
  K k -> (forall r, row_identity (f r) = row_identity r) -> frame K d (db.update_where k f d).
Proof.
  intros Hk Hf i. rewrite db.lookup_update_where.
  destruct (db.ibcv2_transfers d !! i) as [r|]; cbn; [|done].
  case_bool_decide as Hr; [split; [apply Hf|]; intros []; by rewrite Hr | done].
Qed.

(** An update of columns that are not part of the progress changes no agreement. *)
Lemma frame_untracked K k f d :
  (forall r, row_identity (f r) = row_identity r /\ tracked (f r) = tracked r) ->
  frame K d (db.update_where k f d).
Proof.
  intros Hf i. rewrite db.lookup_update_where.
  destruct (db.ibcv2_transfers d !! i) as [r|]; cbn; [|done].
  case_bool_decide; [|done]. split; [apply Hf|]. intros _. apply Hf.
Qed.

Lemma frame_same_transfers K d d' :
  db.ibcv2_transfers d' = db.ibcv2_transfers d -> frame K d d'.
Proof. intros H i. rewrite H. by destruct (_ !! i). Qed.

(** ** Statements *)

Lemma wf_step_update_where k f d : db.keeps_key f -> wf_step d (db.update_where k f d).
Proof. intros Hf W. split; [by apply db.update_where_wf|]. cbn. lia. Qed.

Lemma wf_step_InsertIBCV2RelayerTxSubmission h c ty a t st now d :
  wf_step d (snd (db.InsertIBCV2RelayerTxSubmission h c ty a t st now d)).
Proof.
  intros W. split; [by apply db.InsertIBCV2RelayerTxSubmission_wf|].
  unfold db.InsertIBCV2RelayerTxSubmission. destruct (db.nextval _) eqn:En; [|cbn; lia].
  apply db.nextval_Some in En. destruct t; [|cbn; lia]. case_bool_decide; cbn; lia.
Qed.

Lemma wf_step_InsertIBCV2TransferTxSubmission t sid now d :
  wf_step d (snd (db.InsertIBCV2TransferTxSubmission t sid now d)).
Proof.
  intros W. split; [by apply db.InsertIBCV2TransferTxSubmission_wf|].
  unfold db.InsertIBCV2TransferTxSubmission. case_bool_decide; [cbn; lia|].
  destruct (db.ibcv2_transfers d !! t), (db.ibcv2_relayer_tx_submissions d !! sid); cbn; lia.
Qed.

Lemma transfers_InsertIBCV2RelayerTxSubmission h c ty a t st now d :
  db.ibcv2_transfers (snd (db.InsertIBCV2RelayerTxSubmission h c ty a t st now d))
  = db.ibcv2_transfers d.
Proof.
  unfold db.InsertIBCV2RelayerTxSubmission. destruct (db.nextval _); [|done].
  destruct t; [|done]. by case_bool_decide.
Qed.

Lemma transfers_InsertIBCV2TransferTxSubmission t sid now d :
  db.ibcv2_transfers (snd (db.InsertIBCV2TransferTxSubmission t sid now d)) = db.ibcv2_transfers d.
Proof.
  unfold db.InsertIBCV2TransferTxSubmission. case_bool_decide; [done|].
  by destruct (db.ibcv2_transfers d !! t), (db.ibcv2_relayer_tx_submissions d !! sid).
Qed.

#[export] Hint Extern 2 (dbrel wf_step (sql _)) =>
  (apply dbrel_sql; intros ? ?;
   first [apply wf_step_InsertIBCV2RelayerTxSubmission | apply wf_step_InsertIBCV2TransferTxSubmission
         | apply wf_step_update_where; by split]) : relayer.
#[export] Hint Extern 2 (dbrel (frame _) (sql _)) =>
  (apply dbrel_sql; intros ? ?;
   first [apply frame_same_transfers, transfers_InsertIBCV2RelayerTxSubmission
         | apply frame_same_transfers, transfers_InsertIBCV2TransferTxSubmission
         | apply frame_update_where; [reflexivity | done]
         | apply frame_untracked; done]) : relayer.

(** ** Agreement of a transfer with its row *)

Definition in_sync (d : db.DB) (t : IBCV2Transfer) : Prop :=
  exists r, db.ibcv2_transfers d !! ID t = Some r /\ db.row_key r = packet_key t /\
            progress t = progress (NewIBCV2Transfer r).

Lemma in_sync_NewIBCV2Transfer d i r :
  db.wf_db d -> db.ibcv2_transfers d !! i = Some r -> in_sync d (NewIBCV2Transfer r).
Proof.
  intros W H. exists r. cbn. destruct (db.wf_transfer_id d W i r H) as [-> _].
  split; [done|]. split; [|done].
  rewrite packet_key_NewIBCV2Transfer; [done | by eapply db.wf_transfer_seq].
Qed.

Lemma progress_tracked r r' :
  tracked r' = tracked r -> progress (NewIBCV2Transfer r') = progress (NewIBCV2Transfer r).
Proof. destruct r, r'. cbn. intros [=]. by subst. Qed.

(** An update of other rows leaves the agreement as it is. *)
Lemma in_sync_frame K d d' t :
  frame K d d' -> ~ K (packet_key t) -> in_sync d t -> in_sync d' t.
Proof.
  intros F N (r & Hr & Hk & Hp). specialize (F (ID t)). rewrite Hr in F.
  destruct (db.ibcv2_transfers d' !! ID t) as [r'|] eqn:Hr'; [|done].
  destruct F as [F1 F2]. exists r'. split; [done|]. split.
  - by rewrite (row_identity_key _ _ F1).
  - rewrite Hp. symmetry. apply progress_tracked, F2. by rewrite Hk.
Qed.

(** An update of the transfer's own row and the matching assignment. *)
Lemma in_sync_update d t t' f :
  in_sync d t -> ID t' = ID t -> packet_key t' = packet_key t ->
  (forall r, db.row_key (f r) = db.row_key r) ->
  (forall r, progress t = progress (NewIBCV2Transfer r) ->
             progress t' = progress (NewIBCV2Transfer (f r))) ->
  in_sync (db.update_where (packet_key t) f d) t'.
Proof.
  intros (r & Hr & Hk & Hp) HI HP Hf Hprog. exists (f r).
  rewrite HI, HP. split; [by apply db.lookup_update_where_eq|]. split; [by rewrite Hf | auto].
Qed.

(** Equality of progress once the record operations are computed. *)
Ltac progress_tac :=
  intros; unfold progress, packet_key, GetSourceChainID, GetPacketSourceClientID,
    GetPacketSequenceNumber in *; cbn in *; unfold nullStr, nullTime in *;
  rewrite ?pg_timestamp_idemp, ?pg_timestamp_fmap_idemp; congruence.

Lemma in_sync_tables d d' t :
  db.ibcv2_transfers d' = db.ibcv2_transfers d -> in_sync d t -> in_sync d' t.
Proof. intros H (r & ? & ? & ?). exists r. by rewrite H. Qed.

#[export] Instance eq_steprel : StepRel (@eq db.DB).
Proof. split; [apply _|]. intros d d' <-. by destruct d. Qed.

(** The tables but for the transfers. *)
Definition same_others (d d' : db.DB) : Prop :=
  db.ibcv2_relay_requests d' = db.ibcv2_relay_requests d /\
  db.ibcv2_relayer_tx_submissions d' = db.ibcv2_relayer_tx_submissions d /\
  db.ibcv2_transfer_tx_submissions d' = db.ibcv2_transfer_tx_submissions d.

Definition same_rows (d d' : db.DB) : Prop :=
  db.ibcv2_transfers d' = db.ibcv2_transfers d /\ same_others d d'.
