(* ===== verification/Processors.v ===== *)
(** * The single-transfer processors

    One section per file of [src/relayer/ibcv2] that implements [IBCV2Processor].
    [Process] returns the transfer it was given with the fields it assigned: every
    processor assigns them after its last fallible call, so an error leaves the
    caller's transfer as it was.  Log lines inside Process are not modelled; those
    of Cancel are. *)

From S2P Require Import Prelude Db Transfer Config World.

(** [RecordTransferState] and the other recorders of
    [ibcv2_transfer_metrics.go], which look the chain names up in the config. *)
Section Recorders.
Context {W : Type} {E : Env W}.

Definition chainConfigOrFallback (chainID : string) : ChainConfig * bool :=
  match GetChainConfig cfg chainID with
  | inl _ => (mkChainConfig chainID chainID "" "" None None None "" None 0 ∅ None [], false)
  | inr chainConfig => (chainConfig, true)
  end.

Definition chainConfigs (sourceChainID destChainID : string) : ChainConfig * ChainConfig :=
  (fst (chainConfigOrFallback sourceChainID), fst (chainConfigOrFallback destChainID)).

Definition RecordLatency (sourceChainID destChainID : string) (from to : Z) (relayType : RelayType)
    : M W unit :=
  let '(sourceConfig, destConfig) := chainConfigs sourceChainID destChainID in
  emit (RelayLatency sourceChainID destChainID (ChainName sourceConfig) (ChainName destConfig)
          (Environment sourceConfig) relayType (time_Sub to from)).

Definition RecordRecvSendLatency (e : IBCV2Transfer) : M W unit :=
  let '(recvTxTime, ok) := GetRecvTxTime e in
  if negb ok then ret tt
  else RecordLatency (GetSourceChainID e) (GetDestinationChainID e) (GetSourceTxTime e) recvTxTime
         IBCV2SendToRecvRelayType.

Definition RecordRecvRelayed (e : IBCV2Transfer) : M W unit :=
  emit (AddRelayCompleted (GetSourceChainID e) (GetPacketSourceClientID e)
          (GetDestinationChainID e) (GetPacketDestinationClientID e) IBCV2SendToRecvRelayType).

Definition RecordSendTimeoutLatency (e : IBCV2Transfer) : M W unit :=
  let '(timeoutTxTime, ok) := GetTimeoutTxTime e in
  if negb ok then ret tt
  else RecordLatency (GetSourceChainID e) (GetDestinationChainID e) (GetSourceTxTime e) timeoutTxTime
         IBCV2SendToTimeoutRelayType.

(** The relay type recorded for a timeout is the one of a recv. *)
Definition RecordTimeoutRelayed (e : IBCV2Transfer) : M W unit :=
  emit (AddRelayCompleted (GetSourceChainID e) (GetPacketSourceClientID e)
          (GetDestinationChainID e) (GetPacketDestinationClientID e) IBCV2SendToRecvRelayType).

Definition RecordAckRecvLatency (e : IBCV2Transfer) : M W unit :=
  let '(ackTxTime, ok) := GetAckTxTime e in
  if negb ok then ret tt else
  let '(recvTxTime, ok) := GetRecvTxTime e in
  if negb ok then ret tt
  else RecordLatency (GetDestinationChainID e) (GetSourceChainID e) recvTxTime ackTxTime
         IBCV2RecvToAckRelayType.

Definition RecordAckRelayed (e : IBCV2Transfer) : M W unit :=
  emit (AddRelayCompleted (GetDestinationChainID e) (GetPacketDestinationClientID e)
          (GetSourceChainID e) (GetPacketSourceClientID e) IBCV2RecvToAckRelayType).

Definition RecordTransactionRetried (e : IBCV2Transfer) (relayType : RelayType) : M W unit :=
  let '(sourceConfig, destConfig) := chainConfigs (GetSourceChainID e) (GetDestinationChainID e) in
  emit (AddTransactionRetryAttempt (GetSourceChainID e) (GetDestinationChainID e)
          (ChainName sourceConfig) (ChainName destConfig) (Environment sourceConfig) relayType).

Definition RecordTransferState (e : IBCV2Transfer) (state : db.Ibcv2RelayStatus) : M W unit :=
  let '(sourceConfig, destConfig) := chainConfigs (GetSourceChainID e) (GetDestinationChainID e) in
  emit (AddTransfer (GetSourceChainID e) (GetDestinationChainID e)
          (ChainName sourceConfig) (ChainName destConfig) (Environment sourceConfig) state).

End Recorders.

(** ** The processor interface ([processor_mw.go]) *)

Record IBCV2Processor (W : Type) := mkProcessor {
  ShouldProcess : IBCV2Transfer -> M W bool;
  ProcState : db.Ibcv2RelayStatus;
  Process : IBCV2Transfer -> M W IBCV2Transfer;
  Cancel : IBCV2Transfer -> error -> M W unit;
}.
Arguments mkProcessor {W}.
Arguments ShouldProcess {W} i.
Arguments ProcState {W} i.
Arguments Process {W} i.
Arguments Cancel {W} i.

Section Processors.
Context {W : Type} {E : Env W}.

(** ** Is the packet already received? ([check_recv_packet_delivery.go]) *)

Definition CheckRecvPacketDelivery_Process (transfer : IBCV2Transfer) : M W IBCV2Transfer :=
  let* destinationBridgeClient :=
    wrap "getting bridge client for transfer destination chain"
      (GetClient (GetDestinationChainID transfer)) in
  let* received :=
    wrap "checking if packet is already received on destination chain"
      (call (IsPacketReceived destinationBridgeClient (GetPacketDestinationClientID transfer)
               (GetPacketSequenceNumber transfer))) in
  if negb received then ret transfer else
  let* recvTx :=
    wrap "finding for recv tx hash for transfer"
      (call (FindRecvTx destinationBridgeClient (GetPacketSourceClientID transfer)
               (GetPacketDestinationClientID transfer) (GetPacketSequenceNumber transfer)
               (GetPacketTimeoutTimestamp transfer))) in
  wrap "updating transfer recv tx with existing tx"
    (sql (db.UpdateTransferRecvTx (Some (Hash recvTx)) (Some (Timestamp recvTx))
            (Some (RelayerAddress recvTx)) (packet_key transfer))) ;;
  ret (transfer <| RecvTxHash := Some (Hash recvTx) |>
                <| RecvTxTime := Some (Timestamp recvTx) |>
                <| RecvTxRelayerAddress := Some (RelayerAddress recvTx) |>).

Definition CheckRecvPacketDelivery_Cancel (transfer : IBCV2Transfer) (err : error) : M W unit :=
  logf LError "checking if recv packet has already been delivered on the destination client".

Definition CheckRecvPacketDelivery_ShouldProcess (transfer : IBCV2Transfer) : M W bool :=
  let '(_, hasRecvTxHash) := GetRecvTxHash transfer in
  let '(_, hasAckTxHash) := GetAckTxHash transfer in
  let '(_, hasTimeoutTxHash) := GetTimeoutTxHash transfer in
  ret (negb hasRecvTxHash && negb hasAckTxHash && negb hasTimeoutTxHash).

Definition NewCheckRecvPacketDeliveryProcessor : IBCV2Processor W :=
  mkProcessor CheckRecvPacketDelivery_ShouldProcess db.Ibcv2RelayStatusCHECKRECVPACKETDELIVERY
    CheckRecvPacketDelivery_Process CheckRecvPacketDelivery_Cancel.

(** ** Is the packet still committed? ([check_packet_commitment.go])

    The two searches run in an errgroup whose first hit cancels the other; their
    results are what the model takes from the world, one after the other. *)

Definition CheckPacketCommitment_Process (transfer : IBCV2Transfer) : M W IBCV2Transfer :=
  let* sourceChainClient :=
    wrap "getting bridge client for transfer source chain" (GetClient (GetSourceChainID transfer)) in
  let* committed :=
    wrap "checking if packet is already ack'd on source chain"
      (call (IsPacketCommitted sourceChainClient (GetPacketSourceClientID transfer)
               (GetPacketSequenceNumber transfer))) in
  if committed then ret transfer else
  let* ackSearch := try (call (FindAckTx sourceChainClient (GetPacketSourceClientID transfer)
                                 (GetPacketDestinationClientID transfer)
                                 (GetPacketSequenceNumber transfer))) in
  let* timeoutSearch := try (call (FindTimeoutTx sourceChainClient (GetPacketSourceClientID transfer)
                                     (GetPacketDestinationClientID transfer)
                                     (GetPacketSequenceNumber transfer))) in
  match ackSearch, timeoutSearch with
  | inr _, inr _ => fail (ENew "found both timeout tx and ack tx packet, should not be possible")
  | inr ackTx, inl _ =>
      wrap "updating transfer ack tx with existing tx"
        (sql (db.UpdateTransferAckTx (Some (Hash ackTx)) (Some (Timestamp ackTx))
                (Some (RelayerAddress ackTx)) (packet_key transfer))) ;;
      ret (transfer <| AckTxHash := Some (Hash ackTx) |>
                    <| AckTxTime := Some (Timestamp ackTx) |>
                    <| AckTxRelayerAddress := Some (RelayerAddress ackTx) |>)
  | inl _, inr timeoutTx =>
      wrap "updating transfer timeout tx with existing tx"
        (sql (db.UpdateTransferTimeoutTx (Some (Hash timeoutTx)) (Some (Timestamp timeoutTx))
                (Some (RelayerAddress timeoutTx)) (packet_key transfer))) ;;
      ret (transfer <| TimeoutTxHash := Some (Hash timeoutTx) |>
                    <| TimeoutTxTime := Some (Timestamp timeoutTx) |>
                    <| TimeoutTxRelayerAddress := Some (RelayerAddress timeoutTx) |>)
  | inl _, inl _ =>
      fail (ENew "could not find timeout tx or ack tx after packet commitment not found on chain")
  end.

Definition CheckPacketCommitment_Cancel (transfer : IBCV2Transfer) (err : error) : M W unit :=
  logf LError "checking if packet commitment is found on the source client".

Definition CheckPacketCommitment_ShouldProcess (transfer : IBCV2Transfer) : M W bool :=
  let '(_, hasAckTxHash) := GetAckTxHash transfer in
  let '(_, hasTimeoutTxHash) := GetTimeoutTxHash transfer in
  ret (negb hasAckTxHash && negb hasTimeoutTxHash).

Definition NewCheckPacketCommitmentProcessor : IBCV2Processor W :=
  mkProcessor CheckPacketCommitment_ShouldProcess db.Ibcv2RelayStatusCHECKACKPACKETDELIVERY
    CheckPacketCommitment_Process CheckPacketCommitment_Cancel.

(** ** Is the send finalized? ([check_send_finality.go]) *)

Definition CheckSendFinality_Process (sourceFinalityOffset : option Z) (transfer : IBCV2Transfer)
    : M W IBCV2Transfer :=
  let* sourceChainClient :=
    wrap "getting source bridge client for chain" (GetClient (GetSourceChainID transfer)) in
  let* finalized :=
    wrap "checking if tx is finalized on chain"
      (call (IsTxFinalized sourceChainClient (GetSourceTxHash transfer) sourceFinalityOffset)) in
  if negb finalized then fail (ESentinel ErrSendNotFinalized) else
  let '(_, sourceTxFinalizedTimeSet) := GetSourceTxFinalizedTime transfer in
  if negb sourceTxFinalizedTimeSet then
    let* finalizedTime := Now in
    wrap "updating source tx finalized time"
      (sql (db.UpdateTransferSourceTxFinalizedTime (Some finalizedTime) (packet_key transfer))) ;;
    ret (transfer <| SourceTxFinalizedTime := Some finalizedTime |>)
  else ret transfer.

Definition CheckSendFinality_Cancel (transfer : IBCV2Transfer) (err : error) : M W unit :=
  if errors_Is err ErrSendNotFinalized then
    let* since := Since (GetSourceTxTime transfer) in
    if bool_decide (since > 30 * Minute)
    then logf LWarn "source transaction not finalized on source chain after 30 mins, is the node lagging behind?"
    else ret tt
  else logf LError "error checking finality of send tx".

Definition CheckSendFinality_ShouldProcess (transfer : IBCV2Transfer) : M W bool :=
  let '(_, hasRecvTxHash) := GetRecvTxHash transfer in
  ret (negb hasRecvTxHash).

Definition NewCheckSendFinalityProcessor (sourceFinalityOffset : option Z) : IBCV2Processor W :=
  mkProcessor CheckSendFinality_ShouldProcess db.Ibcv2RelayStatusAWAITINGSENDFINALITY
    (CheckSendFinality_Process sourceFinalityOffset) CheckSendFinality_Cancel.

(** ** Is the timeout timestamp finalized? ([check_timeout_finality.go]) *)

Definition CheckTimeoutFinality_Process (destinationFinalityOffset : option Z)
    (transfer : IBCV2Transfer) : M W IBCV2Transfer :=
  let* destinationChainClient :=
    wrap "getting destination bridge client for chain" (GetClient (GetDestinationChainID transfer)) in
  let* finalized :=
    wrap "checking timeout finality on chain"
      (call (IsTimestampFinalized destinationChainClient (GetPacketTimeoutTimestamp transfer)
               destinationFinalityOffset)) in
  if negb finalized then fail (ESentinel ErrTimeoutNotFinalized) else ret transfer.

Definition CheckTimeoutFinality_Cancel (transfer : IBCV2Transfer) (err : error) : M W unit :=
  if errors_Is err ErrTimeoutNotFinalized then
    let* since := Since (GetPacketTimeoutTimestamp transfer) in
    if bool_decide (since > 30 * Minute)
    then logf LWarn "packet timeout timestamp not finalized on transfer destination chain 30 minutes after packet timeout timestamp, is the node lagging behind?"
    else ret tt
  else logf LError "error checking finality of packet timeout timeout on transfer destination chain".

Definition CheckTimeoutFinality_ShouldProcess (transfer : IBCV2Transfer) : M W bool :=
  let '(_, hasRecvTxHash) := GetRecvTxHash transfer in
  let '(_, hasAckTxHash) := GetAckTxHash transfer in
  let* now := Now in
  let shouldBeTimedOut := IsTimedOut now transfer && negb hasRecvTxHash && negb hasAckTxHash in
  let '(_, hasTimeoutTxHash) := GetTimeoutTxHash transfer in
  ret (shouldBeTimedOut && negb hasTimeoutTxHash).

Definition NewCheckTimeoutFinalityProcessor (destinationFinalityOffset : option Z) : IBCV2Processor W :=
  mkProcessor CheckTimeoutFinality_ShouldProcess db.Ibcv2RelayStatusAWAITINGTIMEOUTFINALITY
    (CheckTimeoutFinality_Process destinationFinalityOffset) CheckTimeoutFinality_Cancel.

(** ** Retries ([retry_recv_packet.go], [retry_ack_packet.go],
    [retry_timeout_packet.go]) *)

Definition RetryRecvExpiry : Z := 2 * Minute.
Definition RetryAckExpiry : Z := 2 * Minute.
Definition RetryTimeoutExpiry : Z := 2 * Minute.

Definition RetryRecvPacket_Process (destinationChainID : string) (transfer : IBCV2Transfer)
    : M W IBCV2Transfer :=
  let* destinationChainClient :=
    wrap "getting client for transfer destination chain" (GetClient destinationChainID) in
  let '(recvTxHash, ok) := GetRecvTxHash transfer in
  if negb ok then
    fail (ENew "transfer does not have recv tx hash, violates should process, this is a bug") else
  let '(recvTxTime, ok) := GetRecvTxTime transfer in
  if negb ok then
    fail (ENew "transfer does not have a recv tx time, violates should process, this is a bug") else
  let* retry :=
    wrap "checking if transfer with recv tx hash should be retried"
      (call (ShouldRetryTx destinationChainClient recvTxHash RetryRecvExpiry recvTxTime)) in
  if negb retry then ret transfer else
  wrap "clearing recv tx hash" (sql (db.ClearRecvTx (packet_key transfer))) ;;
  RecordTransactionRetried transfer IBCV2SendToRecvRelayType ;;
  fail (ESentinel ErrRetryingRecvPacket).

Definition RetryRecvPacket_Cancel (transfer : IBCV2Transfer) (err : error) : M W unit :=
  if errors_Is err ErrRetryingRecvPacket then logf LWarn "retrying recv packet tx"
  else if errors_Is err ErrTxNotFound
  then logf LDebug "recv packet tx not yet found on chain, waiting for it to be found"
  else logf LError "error checking recv packet retry".

Definition RetryRecvPacket_ShouldProcess (transfer : IBCV2Transfer) : M W bool :=
  let '(_, hasRecvTxHash) := GetRecvTxHash transfer in
  let '(_, hasRecvTxTime) := GetRecvTxTime transfer in
  let '(_, hasWriteAckTxHash) := GetWriteAckTxHash transfer in
  ret (hasRecvTxHash && hasRecvTxTime && negb hasWriteAckTxHash).

Definition NewRetryRecvPacketProcessor (destinationChainID : string) : IBCV2Processor W :=
  mkProcessor RetryRecvPacket_ShouldProcess db.Ibcv2RelayStatusDELIVERRECVPACKET
    (RetryRecvPacket_Process destinationChainID) RetryRecvPacket_Cancel.

Definition RetryAckPacket_Process (sourceChainID : string) (transfer : IBCV2Transfer)
    : M W IBCV2Transfer :=
  let* sourceChainClient :=
    wrap "getting client for transfer source chain" (GetClient sourceChainID) in
  let '(ackTxHash, ok) := GetAckTxHash transfer in
  if negb ok then
    fail (ENew "transfer does not have ack tx hash, violates should process, this is a bug") else
  let '(ackTxTime, ok) := GetAckTxTime transfer in
  if negb ok then
    fail (ENew "transfer does not have a ack tx time, violates should process, this is a bug") else
  let* retry :=
    wrap "checking if transfer with ack tx hash should be retried"
      (call (ShouldRetryTx sourceChainClient ackTxHash RetryAckExpiry ackTxTime)) in
  if negb retry then ret transfer else
  wrap "clearing ack tx hash" (sql (db.ClearAckTx (packet_key transfer))) ;;
  RecordTransactionRetried transfer IBCV2RecvToAckRelayType ;;
  fail (ESentinel ErrRetryingAckPacket).

Definition RetryAckPacket_Cancel (transfer : IBCV2Transfer) (err : error) : M W unit :=
  if errors_Is err ErrRetryingAckPacket then logf LWarn "retrying ack packet tx"
  else if errors_Is err ErrTxNotFound
  then logf LDebug "ack packet tx not yet found on chain, waiting for it to be found"
  else logf LError "error checking ack packet retry".

Definition RetryAckPacket_ShouldProcess (transfer : IBCV2Transfer) : M W bool :=
  let '(_, hasAckTxHash) := GetAckTxHash transfer in
  let '(_, hasAckTxTime) := GetAckTxTime transfer in
  ret (hasAckTxHash && hasAckTxTime).

Definition NewRetryAckPacketProcessor (sourceChainID : string) : IBCV2Processor W :=
  mkProcessor RetryAckPacket_ShouldProcess db.Ibcv2RelayStatusDELIVERACKPACKET
    (RetryAckPacket_Process sourceChainID) RetryAckPacket_Cancel.

Definition RetryTimeoutPacket_Process (sourceChainID : string) (transfer : IBCV2Transfer)
    : M W IBCV2Transfer :=
  let* sourceChainClient :=
    wrap "getting client for transfer source chain" (GetClient sourceChainID) in
  let '(timeoutTxHash, ok) := GetTimeoutTxHash transfer in
  if negb ok then
    fail (ENew "transfer does not have timeout tx hash, violates should process, this is a bug") else
  let '(timeoutTxTime, ok) := GetTimeoutTxTime transfer in
  if negb ok then
    fail (ENew "transfer does not have a timeout tx time, violates should process, this is a bug") else
  let* retry :=
    wrap "checking if transfer with timeout tx hash should be retried"
      (call (ShouldRetryTx sourceChainClient timeoutTxHash RetryTimeoutExpiry timeoutTxTime)) in
  if negb retry then ret transfer else
  wrap "clearing timeout tx hash" (sql (db.ClearTimeoutTx (packet_key transfer))) ;;
  RecordTransactionRetried transfer IBCV2SendToTimeoutRelayType ;;
  fail (ESentinel ErrRetryingTimeoutPacket).

Definition RetryTimeoutPacket_Cancel (transfer : IBCV2Transfer) (err : error) : M W unit :=
  if errors_Is err ErrRetryingTimeoutPacket then logf LWarn "retrying timeout packet tx"
  else if errors_Is err ErrTxNotFound
  then logf LDebug "timeout packet tx not yet found on chain, waiting for it to be found"
  else logf LError "error checking timeout packet retry".

Definition RetryTimeoutPacket_ShouldProcess (transfer : IBCV2Transfer) : M W bool :=
  let '(_, hasTimeoutTxHash) := GetTimeoutTxHash transfer in
  let '(_, hasTimeoutTxTime) := GetTimeoutTxTime transfer in
  ret (hasTimeoutTxHash && hasTimeoutTxTime).

Definition NewRetryTimeoutPacketProcessor (sourceChainID : string) : IBCV2Processor W :=
  mkProcessor RetryTimeoutPacket_ShouldProcess db.Ibcv2RelayStatusDELIVERTIMEOUTPACKET
    (RetryTimeoutPacket_Process sourceChainID) RetryTimeoutPacket_Cancel.

(** ** Gas costs ([recv_tx_gas_calculator.go], [ack_tx_gas_calculator.go],
    [timeout_tx_gas_calculator.go]) *)

Definition RecvTxGasCalculator_Process (price : PriceClient W) (coingeckoID : string) (decimals : Z)
    (transfer : IBCV2Transfer) : M W IBCV2Transfer :=
  let* destinationBridgeClient :=
    wrap "getting ibcv2 bridge client for transfer destination chain"
      (GetClient (GetDestinationChainID transfer)) in
  let '(recvTxHash, hasRecvTxHash) := GetRecvTxHash transfer in
  if negb hasRecvTxHash then
    fail (ENew "this is a bug! transfer does not have a recv tx, violating should process") else
  let* gasCostInGasToken :=
    wrap "getting gas cost of recv tx" (call (TxFee destinationBridgeClient recvTxHash)) in
  let* gasCostUSD :=
    wrap "getting usd value of recv tx gas cost on chain"
      (call (GetCoinUsdValue price coingeckoID decimals gasCostInGasToken)) in
  wrap "updating transfer recv tx gas cost usd value"
    (sql (db.UpdateTransferRecvTxGasCostUSD gasCostUSD (packet_key transfer))) ;;
  ret transfer.

Definition RecvTxGasCalculator_Cancel (transfer : IBCV2Transfer) (err : error) : M W unit :=
  logf LError "calculating recv packet gas cost".

Definition RecvTxGasCalculator_ShouldProcess (transfer : IBCV2Transfer) : M W bool :=
  let '(_, hasRecvGasCostUSD) := GetRecvGasCostUSD transfer in
  if hasRecvGasCostUSD then ret false else
  let '(_, hasRecvTxHash) := GetRecvTxHash transfer in
  ret hasRecvTxHash.

Definition NewRecvTxGasCalculatorProcessor (price : PriceClient W) (coingeckoID : string)
    (decimals : Z) : IBCV2Processor W :=
  mkProcessor RecvTxGasCalculator_ShouldProcess db.Ibcv2RelayStatusCALCULATINGRECVTXGASCOST
    (RecvTxGasCalculator_Process price coingeckoID decimals) RecvTxGasCalculator_Cancel.

Definition AckTxGasCalculator_Process (price : PriceClient W) (coingeckoID : string) (decimals : Z)
    (transfer : IBCV2Transfer) : M W IBCV2Transfer :=
  let* sourceBridgeClient :=
    wrap "getting ibcv2 bridge client for transfer source chain"
      (GetClient (GetSourceChainID transfer)) in
  let '(ackTxHash, hasAckTxHash) := GetAckTxHash transfer in
  if negb hasAckTxHash then
    fail (ENew "this is a bug! transfer does not have a ack tx, violating should process") else
  let* gasCostInGasToken :=
    wrap "getting gas cost of ack tx" (call (TxFee sourceBridgeClient ackTxHash)) in
  let* gasCostUSD :=
    wrap "getting usd value of ack tx gas cost on chain"
      (call (GetCoinUsdValue price coingeckoID decimals gasCostInGasToken)) in
  wrap "updating transfer ack tx gas cost usd value"
    (sql (db.UpdateTransferAckTxGasCostUSD gasCostUSD (packet_key transfer))) ;;
  ret transfer.

Definition AckTxGasCalculator_Cancel (transfer : IBCV2Transfer) (err : error) : M W unit :=
  logf LError "calculating ack packet gas cost".

Definition AckTxGasCalculator_ShouldProcess (transfer : IBCV2Transfer) : M W bool :=
  let '(_, hasAckGasCostUSD) := GetAckGasCostUSD transfer in
  if hasAckGasCostUSD then ret false else
  let '(_, hasAckTxHash) := GetAckTxHash transfer in
  ret hasAckTxHash.

Definition NewAckTxGasCalculatorProcessor (price : PriceClient W) (coingeckoID : string)
    (decimals : Z) : IBCV2Processor W :=
  mkProcessor AckTxGasCalculator_ShouldProcess db.Ibcv2RelayStatusCALCULATINGACKTXGASCOST
    (AckTxGasCalculator_Process price coingeckoID decimals) AckTxGasCalculator_Cancel.

Definition TimeoutTxGasCalculator_Process (price : PriceClient W) (coingeckoID : string)
    (decimals : Z) (transfer : IBCV2Transfer) : M W IBCV2Transfer :=
  let* sourceBridgeClient :=
    wrap "getting ibcv2 bridge client for transfer source chain"
      (GetClient (GetSourceChainID transfer)) in
  let '(recvTxHash, hasTimeoutTxHash) := GetTimeoutTxHash transfer in
  if negb hasTimeoutTxHash then
    fail (ENew "this is a bug! transfer does not have a recv tx, violating should process") else
  let* gasCostInGasToken :=
    wrap "getting gas cost of timeout tx" (call (TxFee sourceBridgeClient recvTxHash)) in
  let* gasCostUSD :=
    wrap "getting usd value of timeout tx gas cost on chain"
      (call (GetCoinUsdValue price coingeckoID decimals gasCostInGasToken)) in
  wrap "updating transfer timeout tx gas cost usd value"
    (sql (db.UpdateTransferTimeoutTxGasCostUSD gasCostUSD (packet_key transfer))) ;;
  ret transfer.

Definition TimeoutTxGasCalculator_Cancel (transfer : IBCV2Transfer) (err : error) : M W unit :=
  logf LError "calculating timeout packet gas cost".

Definition TimeoutTxGasCalculator_ShouldProcess (transfer : IBCV2Transfer) : M W bool :=
  let '(_, hasTimeoutGasCostUSD) := GetTimeoutGasCostUSD transfer in
  if hasTimeoutGasCostUSD then ret false else
  let '(_, hasTimeoutTxHash) := GetTimeoutTxHash transfer in
  ret hasTimeoutTxHash.

Definition NewTimeoutTxGasCalculatorProcessor (price : PriceClient W) (coingeckoID : string)
    (decimals : Z) : IBCV2Processor W :=
  mkProcessor TimeoutTxGasCalculator_ShouldProcess db.Ibcv2RelayStatusCALCULATINGTIMEOUTTXGASCOST
    (TimeoutTxGasCalculator_Process price coingeckoID decimals) TimeoutTxGasCalculator_Cancel.

(** ** Waiting for the write ack ([wait_for_write_ack.go]) *)

Definition WaitForWriteAck_Process (transfer : IBCV2Transfer) : M W IBCV2Transfer :=
  let* destinationChainClient :=
    wrap "getting client for transfer destination chain"
      (GetClient (GetDestinationChainID transfer)) in
  let '(recvHash, ok) := GetRecvTxHash transfer in
  if negb ok then fail (ENew "transfer does not have recv tx hash, violating ShouldProcess") else
  let* result := try (call (PacketWriteAckStatus destinationChainClient recvHash
                              (GetPacketSequenceNumber transfer) (GetPacketSourceClientID transfer)
                              (GetPacketDestinationClientID transfer))) in
  let is_err s := match result with inl err => errors_Is err s | inr _ => false end in
  if is_err ErrWriteAckNotFoundForPacket then
    wrap "clearing transfer recv tx hash" (sql (db.ClearRecvTx (packet_key transfer))) ;;
    fail (ENew "write ack for transfer not found in recv tx")
  else
  let* status :=
    match result with
    | inr status => ret status
    | inl err =>
        if negb (errors_Is err ErrWriteAckDecoding)
        then fail (EWrap "finding write ack for packet in recv tx" err)
        else ret db.Ibcv2WriteAckStatusUNKNOWN
    end in
  RecordRecvSendLatency transfer ;;
  RecordRecvRelayed transfer ;;
  let '(recvTxTime, _) := GetRecvTxTime transfer in
  wrap "updating transfer with write ack tx hash"
    (sql (db.UpdateTransferWriteAckTx (Some recvHash) (Some recvTxTime) (Some status)
            (packet_key transfer))) ;;
  ret (transfer <| WriteAckTxHash := Some recvHash |>
                <| WriteAckTxTime := Some recvTxTime |>
                <| WriteAckStatus := Some status |>).

Definition WaitForWriteAck_Cancel (transfer : IBCV2Transfer) (err : error) : M W unit :=
  if errors_Is err ErrTxNotFound then logf LDebug "write ack tx not yet found on chain"
  else logf LError "error waiting for write ack packet".

Definition WaitForWriteAck_ShouldProcess (transfer : IBCV2Transfer) : M W bool :=
  let '(_, hasRecvTxHash) := GetRecvTxHash transfer in
  let '(_, hasWriteAckTxHash) := GetWriteAckTxHash transfer in
  let '(_, hasTimeoutTxHash) := GetTimeoutTxHash transfer in
  ret ((hasRecvTxHash && negb hasWriteAckTxHash) && negb hasTimeoutTxHash).

Definition NewWaitForWriteAckPacketProcessor : IBCV2Processor W :=
  mkProcessor WaitForWriteAck_ShouldProcess db.Ibcv2RelayStatusWAITFORWRITEACK
    WaitForWriteAck_Process WaitForWriteAck_Cancel.

(** ** Is the write ack finalized? ([check_write_ack_finality.go])

    The update of the finalized time is called with the time only: the key fields
    of its parameters keep their zero values. *)

Definition zero_key : db.PacketKey := db.mkPacketKey "" "" 0.

Definition CheckWriteAckFinality_Process (destinationFinalityOffset : option Z)
    (transfer : IBCV2Transfer) : M W IBCV2Transfer :=
  let* destinationChainClient :=
    wrap "getting source bridge client for chain" (GetClient (GetDestinationChainID transfer)) in
  let '(writeAckTxHash, ok) := GetWriteAckTxHash transfer in
  if negb ok then fail (ENew "write ack tx hash not finalized, violates should process") else
  let* finalized :=
    wrap "checking if tx is finalized on chain"
      (call (IsTxFinalized destinationChainClient writeAckTxHash destinationFinalityOffset)) in
  if negb finalized then fail (ESentinel ErrWriteAckNotFinalized) else
  let '(_, writeAckTxFinalizedTimeSet) := GetWriteAckTxFinalizedTime transfer in
  if negb writeAckTxFinalizedTimeSet then
    let* finalizedTime := Now in
    wrap "updating write ack tx finalized time"
      (sql (db.UpdateTransferWriteAckTxFinalizedTime (Some finalizedTime) zero_key)) ;;
    ret (transfer <| WriteAckTxFinalizedTime := Some finalizedTime |>)
  else ret transfer.

Definition CheckWriteAckFinality_Cancel (transfer : IBCV2Transfer) (err : error) : M W unit :=
  if errors_Is err ErrWriteAckNotFinalized then
    let '(writeAckTxTime, _) := GetWriteAckTxTime transfer in
    let* since := Since writeAckTxTime in
    if bool_decide (since > 30 * Minute)
    then logf LWarn "write ack transaction not finalized on destination chain after 30 mins, is the node lagging behind?"
    else ret tt
  else logf LError "error checking finality of write ack tx".

Definition CheckWriteAckFinality_ShouldProcess (shouldRelaySuccessAcks shouldRelayErrorAcks : bool)
    (transfer : IBCV2Transfer) : M W bool :=
  let '(_, hasWriteAckTxHash) := GetWriteAckTxHash transfer in
  if negb hasWriteAckTxHash then ret false else
  let '(writeAckStatus, hasWriteAckStatus) := GetWriteAckStatus transfer in
  if negb hasWriteAckStatus then ret false else
  ret ((isErrorAck writeAckStatus && shouldRelayErrorAcks)
       || (isSuccessAck writeAckStatus && shouldRelaySuccessAcks)).

Definition NewCheckWriteAckFinalityProcessor (shouldRelaySuccessAcks shouldRelayErrorAcks : bool)
    (destinationFinalityOffset : option Z) : IBCV2Processor W :=
  mkProcessor (CheckWriteAckFinality_ShouldProcess shouldRelaySuccessAcks shouldRelayErrorAcks)
    db.Ibcv2RelayStatusAWAITINGWRITEACKFINALITY
    (CheckWriteAckFinality_Process destinationFinalityOffset) CheckWriteAckFinality_Cancel.

End Processors.
