(* ===== verification/ProcessorSpecs.v ===== *)
(** * What a processor promises to the middleware

    The class [ProcessorSpec] is the contract of [IBCV2Processor]: ShouldProcess
    and Cancel do not touch the database and always return; Process keeps the
    schema's guarantees, changes only the row of its transfer, and either returns
    the transfer, identified as before and in agreement with its row if it was,
    or fails with an error whose text is not empty.  Each processor of the
    pipeline is an instance. *)

From S2P Require Import Prelude Db Transfer Config World Logic Processors.

(** What identifies a transfer in the program, never assigned by a processor. *)
Definition identity (t : IBCV2Transfer) :=
  (ID t, SourceChainID t, DestinationChainID t, SourceTxHash t, SourceTxTime t,
   PacketSequenceNumber t, PacketSourceClientID t, PacketDestinationClientID t,
   PacketTimeoutTimestamp t).

Lemma identity_packet_key t t' : identity t' = identity t -> packet_key t' = packet_key t.
Proof.
  unfold identity, packet_key, GetSourceChainID, GetPacketSourceClientID, GetPacketSequenceNumber.
  congruence.
Qed.

(** The outcome of processing [t] from tables [d]. *)
Definition processed (d : db.DB) (t : IBCV2Transfer) {W} (r : res IBCV2Transfer) (s' : Sys W) : Prop :=
  match r with
  | Ok t' => identity t' = identity t /\ ProcessingError t' = ProcessingError t /\
             State t' = State t /\ (in_sync d t -> in_sync (tables s') t')
  | Fail e => visible e
  | Panic => False
  end.

Class ProcessorSpec {W} (p : IBCV2Processor W) : Prop := {
  should_db t : dbrel eq (ShouldProcess p t);
  should_returns t s : exists b s', ShouldProcess p t s = (Ok b, s');
  cancel_db t e : dbrel eq (Cancel p t e);
  cancel_returns t e s : exists s', Cancel p t e s = (Ok tt, s');
  process_wf t : dbrel wf_step (Process p t);
  process_frame t : dbrel (frame (eq (packet_key t))) (Process p t);
  process_outcome t s : wp (Process p t) (processed (tables s) t) s;
}.

(** A call that always returns a value. *)
Definition returns {W A} (m : M W A) : Prop := forall s, exists a s', m s = (Ok a, s').

Lemma returns_ret {W A} (a : A) : returns (W:=W) (ret a).
Proof. intros s. eauto. Qed.
Lemma returns_emit {W} e : returns (W:=W) (emit e).
Proof. intros s. eexists _, _. reflexivity. Qed.
Lemma returns_bind {W A B} (m : M W A) (f : A -> M W B) :
  returns m -> (forall a, returns (f a)) -> returns (bind m f).
Proof.
  intros Hm Hf s. destruct (Hm s) as (a & s1 & E1). destruct (Hf a s1) as (b & s2 & E2).
  exists b, s2. unfold bind. by rewrite E1.
Qed.
Lemma returns_Now {W} `{E : Env W} : returns Now.
Proof. intros s. unfold Now. destruct (clock (world s)). eauto. Qed.

Lemma returns_for_each {W A} (f : A -> M W unit) l :
  (forall x, returns (f x)) -> returns (for_each f l).
Proof.
  intros Hf. induction l as [|x l IH]; cbn; [apply returns_ret|]. by apply returns_bind.
Qed.

Ltac returns_go :=
  repeat lazymatch goal with
  | |- returns (bind _ _) => apply returns_bind; [|intros ?]
  | |- returns (ret _) => apply returns_ret
  | |- returns (emit _) => apply returns_emit
  | |- returns Now => apply returns_Now
  | |- returns (for_each _ _) => apply returns_for_each; intros ?
  | |- returns (match ?x with _ => _ end) => destruct x
  | |- returns ?m => let h := get_head m in unfold h
  end.

Lemma returns_unit {W} (m : M W unit) : returns m -> forall s, exists s', m s = (Ok tt, s').
Proof. intros H s. destruct (H s) as ([] & s' & E). eauto. Qed.

Lemma ProcessorSpec_intro {W} (p : IBCV2Processor W) :
  (forall t, dbrel eq (ShouldProcess p t)) -> (forall t, returns (ShouldProcess p t)) ->
  (forall t e, dbrel eq (Cancel p t e)) -> (forall t e, returns (Cancel p t e)) ->
  (forall t, dbrel wf_step (Process p t)) ->
  (forall t, dbrel (frame (eq (packet_key t))) (Process p t)) ->
  (forall t s, wp (Process p t) (processed (tables s) t) s) ->
  ProcessorSpec p.
Proof. intros. split; auto using returns_unit. Qed.

(** The outcome of a run: an error is visible, a returned transfer is identified
    as before and matches the update of its row. *)
Ltac outcome_tac :=
  first [ solve [unfold processed; auto with relayer]
        | split; [done|]; split; [done|]; split; [done|];
          let HS := fresh "HS" in
          intros HS; cbn [tables];
          first [ exact HS
                | apply in_sync_update; [exact HS | done | done | done | progress_tac]
                | apply (in_sync_frame (fun _ => False)) with (2 := id) (3 := HS);
                  apply frame_untracked; done ] ].

Tactic Notation "spec_tac" reference(new) reference(process) :=
  apply ProcessorSpec_intro; unfold new; cbn [ShouldProcess Process Cancel];
  [ intros; dbrel_go | intros; returns_go | intros; dbrel_go | intros; returns_go
  | intros; dbrel_go | intros; dbrel_go | intros t s; unfold process; wp_run; outcome_tac ].

Section Instances.
Context {W : Type} {E : Env W}.

#[export] Instance CheckRecvPacketDelivery_spec : ProcessorSpec (W:=W) (NewCheckRecvPacketDeliveryProcessor).
Proof. spec_tac NewCheckRecvPacketDeliveryProcessor CheckRecvPacketDelivery_Process. Qed.

#[export] Instance CheckPacketCommitment_spec : ProcessorSpec (W:=W) (NewCheckPacketCommitmentProcessor).
Proof. spec_tac NewCheckPacketCommitmentProcessor CheckPacketCommitment_Process. Qed.

#[export] Instance CheckSendFinality_spec o : ProcessorSpec (W:=W) (NewCheckSendFinalityProcessor o).
Proof. spec_tac NewCheckSendFinalityProcessor CheckSendFinality_Process. Qed.

#[export] Instance CheckTimeoutFinality_spec o : ProcessorSpec (W:=W) (NewCheckTimeoutFinalityProcessor o).
Proof. spec_tac NewCheckTimeoutFinalityProcessor CheckTimeoutFinality_Process. Qed.

#[export] Instance RetryRecvPacket_spec c : ProcessorSpec (W:=W) (NewRetryRecvPacketProcessor c).
Proof. spec_tac NewRetryRecvPacketProcessor RetryRecvPacket_Process. Qed.

#[export] Instance RetryAckPacket_spec c : ProcessorSpec (W:=W) (NewRetryAckPacketProcessor c).
Proof. spec_tac NewRetryAckPacketProcessor RetryAckPacket_Process. Qed.

#[export] Instance RetryTimeoutPacket_spec c : ProcessorSpec (W:=W) (NewRetryTimeoutPacketProcessor c).
Proof. spec_tac NewRetryTimeoutPacketProcessor RetryTimeoutPacket_Process. Qed.

#[export] Instance RecvTxGasCalculator_spec pr id dec : ProcessorSpec (W:=W) (NewRecvTxGasCalculatorProcessor pr id dec).
Proof. spec_tac NewRecvTxGasCalculatorProcessor RecvTxGasCalculator_Process. Qed.

#[export] Instance AckTxGasCalculator_spec pr id dec : ProcessorSpec (W:=W) (NewAckTxGasCalculatorProcessor pr id dec).
Proof. spec_tac NewAckTxGasCalculatorProcessor AckTxGasCalculator_Process. Qed.

#[export] Instance TimeoutTxGasCalculator_spec pr id dec : ProcessorSpec (W:=W) (NewTimeoutTxGasCalculatorProcessor pr id dec).
Proof. spec_tac NewTimeoutTxGasCalculatorProcessor TimeoutTxGasCalculator_Process. Qed.

#[export] Instance WaitForWriteAck_spec : ProcessorSpec (W:=W) (NewWaitForWriteAckPacketProcessor).
Proof. spec_tac NewWaitForWriteAckPacketProcessor WaitForWriteAck_Process. Qed.

#[export] Instance CheckWriteAckFinality_spec rs re o : ProcessorSpec (W:=W) (NewCheckWriteAckFinalityProcessor rs re o).
Proof. spec_tac NewCheckWriteAckFinalityProcessor CheckWriteAckFinality_Process. Qed.

End Instances.
