(* ===== verification/BatchProcessors.v ===== *)
(** * The batch processors

    [batch_recv_packet.go], [batch_ack_packet.go], [timeout_packet.go] and
    [tx_submission_mapping.go] of [src/relayer/ibcv2].  A batch processor mutates
    the transfers of its batch also on the way to an error (it marks those whose
    hash cannot be decoded), so [BProcess] returns the batch as mutated together
    with the error.  Log lines, and the clock readings they report, are not
    modelled. *)

From S2P Require Import Prelude Db Transfer Config World Processors.
From Stdlib Require Import Ascii.

(** ** Hexadecimal ([encoding/hex], [strings.TrimPrefix]) *)

Definition hex_value (c : ascii) : option Z :=
  let n := Z.of_nat (nat_of_ascii c) in
  if bool_decide (48 <= n <= 57) then Some (n - 48)
  else if bool_decide (97 <= n <= 102) then Some (n - 87)
  else if bool_decide (65 <= n <= 70) then Some (n - 55)
  else None.

Fixpoint hex_DecodeString (s : string) : option (list Z) :=
  match s with
  | EmptyString => Some []
  | String _ EmptyString => None
  | String a (String b s') =>
      hi ← hex_value a; lo ← hex_value b; bs ← hex_DecodeString s'; Some (16 * hi + lo :: bs)
  end.

Definition TrimPrefix0x (s : string) : string :=
  match s with
  | String "0" (String "x" s') => s'
  | _ => s
  end.

(** ** The interface ([processor_mw.go]) *)

Record IBCV2BatchProcessor (W : Type) := mkBatchProcessor {
  BShouldProcess : IBCV2Transfer -> M W bool;
  BProcState : db.Ibcv2RelayStatus;
  BProcess : list IBCV2Transfer -> M W (list IBCV2Transfer * option error);
  BCancel : list IBCV2Transfer -> error -> M W unit;
}.
Arguments mkBatchProcessor {W}.
Arguments BShouldProcess {W} i.
Arguments BProcState {W} i.
Arguments BProcess {W} i.
Arguments BCancel {W} i.

(** The loop that collects the transaction ids and packet sequences of a batch:
    each distinct hash is decoded and appended once, every transfer with a
    decodable hash contributes its sequence, the others get a processing error.
    [getHash] is the hash a transfer of this batch is relayed by. *)
Fixpoint collectTxIDs (getHash : IBCV2Transfer -> error + string) (decodeMsg : string)
    (txSet : gset string) (transfers : list IBCV2Transfer)
    : list (list Z) * list Z * list IBCV2Transfer :=
  match transfers with
  | [] => ([], [], [])
  | transfer :: rest =>
      match getHash transfer with
      | inl err =>
          let '(txIDs, sequences, rest') := collectTxIDs getHash decodeMsg txSet rest in
          (txIDs, sequences, transfer <| ProcessingError := Some err |> :: rest')
      | inr hash =>
          if bool_decide (hash ∈ txSet) then
            let '(txIDs, sequences, rest') := collectTxIDs getHash decodeMsg txSet rest in
            (txIDs, GetPacketSequenceNumber transfer :: sequences, transfer :: rest')
          else
            match hex_DecodeString (TrimPrefix0x hash) with
            | None =>
                let '(txIDs, sequences, rest') := collectTxIDs getHash decodeMsg txSet rest in
                (txIDs, sequences,
                 transfer <| ProcessingError := Some (EWrap decodeMsg (ENew "encoding/hex: invalid")) |>
                   :: rest')
            | Some txID =>
                let '(txIDs, sequences, rest') :=
                  collectTxIDs getHash decodeMsg ({[ hash ]} ∪ txSet) rest in
                (txID :: txIDs, GetPacketSequenceNumber transfer :: sequences, transfer :: rest')
            end
      end
  end.

Definition sourceTxHashOf (transfer : IBCV2Transfer) : error + string :=
  inr (GetSourceTxHash transfer).

Definition writeAckTxHashOf (transfer : IBCV2Transfer) : error + string :=
  let '(writeAckTxHash, ok) := GetWriteAckTxHash transfer in
  if negb ok then inl (ENew "trying to deliver ack packet, no write ack tx hash found")
  else inr writeAckTxHash.

(** [transfer.ProcessingError != nil] *)
Definition errored (transfer : IBCV2Transfer) : bool :=
  match ProcessingError transfer with Some _ => true | None => false end.

(** The connection a batch processor is built for. *)
Record Connection := mkConnection {
  sourceChainID : string;
  sourceClientID : string;
  destinationChainID : string;
  destinationClientID : string;
}.

Section BatchProcessors.
Context {W : Type} {E : Env W}.

(** [insertTransferTxSubmissionMappings] ([tx_submission_mapping.go]) *)
Definition insertTransferTxSubmissionMappings (submissionID : Z) (transfers : list IBCV2Transfer)
    : M W unit :=
  for_each (fun transfer =>
    if errored transfer then ret tt
    else if bool_decide (GetID transfer = 0) then fail (ENew "transfer is missing db id")
    else wrap "inserting tx submission mapping for transfer"
           (sql (db.InsertIBCV2TransferTxSubmission (GetID transfer) submissionID))) transfers.

(** The submission of a signed transaction with its metric. *)
Definition submit (chainID : string) (client : BridgeClient W) (tx : list Z) (to msg : string)
    : M W BridgeTx :=
  let* r := try (deliver chainID client tx to) in
  match r with
  | inl err => RecordTransactionSubmitted false chainID ;; fail (EWrap msg err)
  | inr bridgeTx => RecordTransactionSubmitted true chainID ;; ret bridgeTx
  end.

(** On an EVM chain the submission waits for the chain to catch up. *)
Definition waitIfEVM (client : BridgeClient W) : M W unit :=
  if bool_decide (ClientChainType client = ChainTypeEVM)
  then wrap "waiting for chain" (call (WaitForChain client))
  else ret tt.

(** ** Batch recv ([batch_recv_packet.go]) *)

Definition BatchRecvPacket_store (p : Connection) (recvTx : BridgeTx)
    (transfers : list IBCV2Transfer) : M W unit :=
  wrap "updating batch transfers recv txs" (ExecTx (
    for_each (fun transfer =>
      if errored transfer then ret tt
      else wrap "updating transfer with recv hash"
             (sql (db.UpdateTransferRecvTx (Some (Hash recvTx)) (Some (Timestamp recvTx))
                     (Some (RelayerAddress recvTx)) (packet_key transfer)))) transfers ;;
    let submittedTransferCount := length (filter (fun t => errored t = false) transfers) in
    if bool_decide (submittedTransferCount = 0%nat) then ret tt else
    let* submissionID :=
      wrap "inserting recv tx submission"
        (sql (db.InsertIBCV2RelayerTxSubmission (Hash recvTx) (destinationChainID p)
                db.Ibcv2RelayerTxSubmissionTypeRECVPACKET (RelayerAddress recvTx)
                (Some (Timestamp recvTx)) db.Ibcv2RelayerTxSubmissionStatusPENDING)) in
    wrap "inserting recv tx submission mappings"
      (insertTransferTxSubmissionMappings submissionID transfers))).

Definition BatchRecvPacket_Process (p : Connection) (batch : list IBCV2Transfer)
    : M W (list IBCV2Transfer * option error) :=
  let '(txIDs, sequences, transfers) :=
    collectTxIDs sourceTxHashOf "decoding hex source tx hash to bytes" ∅ batch in
  let* result := try (
    let* resp :=
      wrap "getting recv tx bytes from relay service"
        (relay_by_tx {| SrcChain := sourceChainID p;
                        DstChain := destinationChainID p;
                        SourceTxIds := txIDs;
                        TimeoutTxIds := [];
                        SrcClientId := sourceClientID p;
                        DstClientId := destinationClientID p;
                        SrcPacketSequences := sequences;
                        DstPacketSequences := [] |}) in
    let* destinationChainClient :=
      wrap "getting client for transfer destination chain" (GetClient (destinationChainID p)) in
    waitIfEVM destinationChainClient ;;
    let* recvTx := submit (destinationChainID p) destinationChainClient (Tx resp) (Address resp)
                     "signing and submitting recv tx bytes" in
    BatchRecvPacket_store p recvTx transfers ;;
    ret recvTx) in
  match result with
  | inl err => ret (transfers, Some err)
  | inr recvTx =>
      ret ((fun transfer =>
              if errored transfer then transfer
              else transfer <| RecvTxHash := Some (Hash recvTx) |>
                            <| RecvTxTime := Some (Timestamp recvTx) |>
                            <| RecvTxRelayerAddress := Some (RelayerAddress recvTx) |>)
             <$> transfers, None)
  end.

Definition BatchRecvPacket_Cancel (transfers : list IBCV2Transfer) (err : error) : M W unit :=
  for_each (fun _ => logf LError "error submitting batch recv") transfers.

Definition BatchRecvPacket_ShouldProcess (transfer : IBCV2Transfer) : M W bool :=
  let '(_, hasRecvTxHash) := GetRecvTxHash transfer in
  if negb hasRecvTxHash then
    let* now := Now in ret (negb (IsTimedOut now transfer))
  else ret false.

Definition NewBatchRecvPacketProcessor (p : Connection) : IBCV2BatchProcessor W :=
  mkBatchProcessor BatchRecvPacket_ShouldProcess db.Ibcv2RelayStatusDELIVERRECVPACKET
    (BatchRecvPacket_Process p) BatchRecvPacket_Cancel.

(** ** Batch ack ([batch_ack_packet.go]) *)

Definition BatchAckPacket_store (p : Connection) (ackTx : BridgeTx)
    (transfers : list IBCV2Transfer) : M W unit :=
  wrap "updating batch transfers ack txs" (ExecTx (
    for_each (fun transfer =>
      if errored transfer then ret tt
      else wrap "updating transfer with ack hash"
             (sql (db.UpdateTransferAckTx (Some (Hash ackTx)) (Some (Timestamp ackTx))
                     (Some (RelayerAddress ackTx)) (packet_key transfer)))) transfers ;;
    let submittedTransferCount := length (filter (fun t => errored t = false) transfers) in
    if bool_decide (submittedTransferCount = 0%nat) then ret tt else
    let* submissionID :=
      wrap "inserting ack tx submission"
        (sql (db.InsertIBCV2RelayerTxSubmission (Hash ackTx) (sourceChainID p)
                db.Ibcv2RelayerTxSubmissionTypeACKPACKET (RelayerAddress ackTx)
                (Some (Timestamp ackTx)) db.Ibcv2RelayerTxSubmissionStatusPENDING)) in
    wrap "inserting ack tx submission mappings"
      (insertTransferTxSubmissionMappings submissionID transfers))).

Definition BatchAckPacket_Process (p : Connection) (batch : list IBCV2Transfer)
    : M W (list IBCV2Transfer * option error) :=
  let '(txIDs, sequences, transfers) :=
    collectTxIDs writeAckTxHashOf "decoding hex write ack tx hash to bytes" ∅ batch in
  let* result := try (
    let* resp :=
      wrap "getting ack tx bytes from relay service"
        (relay_by_tx {| SrcChain := destinationChainID p;
                        DstChain := sourceChainID p;
                        SourceTxIds := txIDs;
                        TimeoutTxIds := [];
                        SrcClientId := destinationClientID p;
                        DstClientId := sourceClientID p;
                        SrcPacketSequences := [];
                        DstPacketSequences := sequences |}) in
    let* sourceChainClient :=
      wrap "getting client for transfer source chain" (GetClient (sourceChainID p)) in
    waitIfEVM sourceChainClient ;;
    let* ackTx := submit (sourceChainID p) sourceChainClient (Tx resp) (Address resp)
                    "signing and submitting ack tx bytes" in
    BatchAckPacket_store p ackTx transfers ;;
    ret ackTx) in
  match result with
  | inl err => ret (transfers, Some err)
  | inr ackTx =>
      ret ((fun transfer =>
              if errored transfer then transfer
              else transfer <| AckTxHash := Some (Hash ackTx) |>
                            <| AckTxTime := Some (Timestamp ackTx) |>)
             <$> transfers, None)
  end.

Definition BatchAckPacket_Cancel (transfers : list IBCV2Transfer) (err : error) : M W unit :=
  for_each (fun _ => logf LError "error submitting batch ack") transfers.

Definition BatchAckPacket_ShouldProcess (shouldRelaySuccessAcks shouldRelayErrorAcks : bool)
    (transfer : IBCV2Transfer) : M W bool :=
  let '(_, hasWriteAckTxHash) := GetWriteAckTxHash transfer in
  if negb hasWriteAckTxHash then ret false else
  let '(writeAckStatus, hasWriteAckStatus) := GetWriteAckStatus transfer in
  if negb hasWriteAckStatus then ret false else
  if (isErrorAck writeAckStatus && negb shouldRelayErrorAcks)
     || (isSuccessAck writeAckStatus && negb shouldRelaySuccessAcks)
  then ret false else
  let '(_, hasAckTxHash) := GetAckTxHash transfer in
  let '(_, hasTimeoutTxHash) := GetTimeoutTxHash transfer in
  ret (negb hasAckTxHash && negb hasTimeoutTxHash).

Definition NewBatchAckPacketProcessor (p : Connection)
    (shouldRelaySuccessAcks shouldRelayErrorAcks : bool) : IBCV2BatchProcessor W :=
  mkBatchProcessor (BatchAckPacket_ShouldProcess shouldRelaySuccessAcks shouldRelayErrorAcks)
    db.Ibcv2RelayStatusDELIVERACKPACKET (BatchAckPacket_Process p) BatchAckPacket_Cancel.

(** ** Batch timeout ([timeout_packet.go]) *)

Definition BatchTimeoutPacket_store (p : Connection) (timeoutTx : BridgeTx)
    (transfers : list IBCV2Transfer) : M W unit :=
  wrap "updating batch transfers timeout txs" (ExecTx (
    for_each (fun transfer =>
      if errored transfer then ret tt
      else wrap "updating transfer timeout tx with timeout tx"
             (sql (db.UpdateTransferTimeoutTx (Some (Hash timeoutTx)) (Some (Timestamp timeoutTx))
                     (Some (RelayerAddress timeoutTx)) (packet_key transfer)))) transfers ;;
    let submittedTransferCount := length (filter (fun t => errored t = false) transfers) in
    if bool_decide (submittedTransferCount = 0%nat) then ret tt else
    let* submissionID :=
      wrap "inserting timeout tx submission"
        (sql (db.InsertIBCV2RelayerTxSubmission (Hash timeoutTx) (sourceChainID p)
                db.Ibcv2RelayerTxSubmissionTypeTIMEOUTPACKET (RelayerAddress timeoutTx)
                (Some (Timestamp timeoutTx)) db.Ibcv2RelayerTxSubmissionStatusPENDING)) in
    wrap "inserting timeout tx submission mappings"
      (insertTransferTxSubmissionMappings submissionID transfers))).

Definition BatchTimeoutPacket_Process (p : Connection) (batch : list IBCV2Transfer)
    : M W (list IBCV2Transfer * option error) :=
  let '(txIDs, sequences, transfers) :=
    collectTxIDs sourceTxHashOf "decoding hex source tx hash to bytes" ∅ batch in
  let* result := try (
    let* resp :=
      wrap "getting timeout tx bytes from ibcv2 relayer"
        (relay_by_tx {| SrcChain := destinationChainID p;
                        DstChain := sourceChainID p;
                        SourceTxIds := [];
                        TimeoutTxIds := txIDs;
                        SrcClientId := destinationClientID p;
                        DstClientId := sourceClientID p;
                        SrcPacketSequences := [];
                        DstPacketSequences := sequences |}) in
    let* sourceChainClient :=
      wrap "getting client for transfer source chain" (GetClient (sourceChainID p)) in
    waitIfEVM sourceChainClient ;;
    let* timeoutTx := submit (sourceChainID p) sourceChainClient (Tx resp) (Address resp)
                        "submitting batch timeout tx" in
    BatchTimeoutPacket_store p timeoutTx transfers ;;
    ret timeoutTx) in
  match result with
  | inl err => ret (transfers, Some err)
  | inr timeoutTx =>
      ret ((fun transfer =>
              if errored transfer then transfer
              else transfer <| TimeoutTxHash := Some (Hash timeoutTx) |>
                            <| TimeoutTxTime := Some (Timestamp timeoutTx) |>)
             <$> transfers, None)
  end.

Definition BatchTimeoutPacket_Cancel (transfers : list IBCV2Transfer) (err : error) : M W unit :=
  for_each (fun _ => logf LError "error timing out packet") transfers.

Definition BatchTimeoutPacket_ShouldProcess (transfer : IBCV2Transfer) : M W bool :=
  let '(_, hasRecvTxHash) := GetRecvTxHash transfer in
  let '(_, hasAckTxHash) := GetAckTxHash transfer in
  let* now := Now in
  let shouldBeTimedOut := IsTimedOut now transfer && negb hasRecvTxHash && negb hasAckTxHash in
  let '(_, hasTimeoutTxHash) := GetTimeoutTxHash transfer in
  ret (shouldBeTimedOut && negb hasTimeoutTxHash).

Definition NewBatchTimeoutPacketProcessor (p : Connection) : IBCV2BatchProcessor W :=
  mkBatchProcessor BatchTimeoutPacket_ShouldProcess db.Ibcv2RelayStatusDELIVERTIMEOUTPACKET
    (BatchTimeoutPacket_Process p) BatchTimeoutPacket_Cancel.

End BatchProcessors.
