(* ===== verification/BatchSpecs.v ===== *)
(** * What a batch processor promises to the middleware

    [BatchProcessorSpec] is the contract of [IBCV2BatchProcessor]: the batch comes
    back with the same transfers in the same order, only rows of the batch change,
    and when Process returns no error every transfer it did not mark agrees with
    its row (for a batch of distinct packets).  The three processors are instances;
    what they share, the request they build and the transaction they store the
    submission in, is proved once. *)

From S2P Require Import Prelude Db Transfer Config World Logic Processors ProcessorSpecs BatchProcessors.

(** The batch as it comes back: each transfer is identified as before and at most
    marked with a visible error. *)
Definition same_transfer (t t' : IBCV2Transfer) : Prop :=
  identity t' = identity t /\ State t' = State t /\
  (ProcessingError t' = ProcessingError t \/ exists e, ProcessingError t' = Some e /\ visible e).

(** What collecting the ids of a batch does to one of its transfers. *)
Definition marked (t t' : IBCV2Transfer) : Prop :=
  t' = t \/ exists e, visible e /\ t' = t <| ProcessingError := Some e |>.

Lemma marked_same t t' : marked t t' -> same_transfer t t'.
Proof.
  intros [->|(e & He & ->)]; (split; [done|]; split; [done|]); [by left | right; eauto].
Qed.

Lemma marked_in_sync d t t' : marked t t' -> in_sync d t -> in_sync d t'.
Proof. by intros [->|(e & He & ->)]. Qed.

Definition batch_processed (d : db.DB) (batch : list IBCV2Transfer) {W}
    (r : res (list IBCV2Transfer * option error)) (s' : Sys W) : Prop :=
  match r with
  | Ok (batch', err) =>
      Forall2 same_transfer batch batch' /\
      (forall e, err = Some e -> visible e) /\
      (err = None -> NoDup (packet_key <$> batch) ->
       Forall2 (fun t t' => in_sync d t -> ProcessingError t' = None -> in_sync (tables s') t')
         batch batch')
  | _ => False
  end.

Class BatchProcessorSpec {W} (p : IBCV2BatchProcessor W) : Prop := {
  bshould_db t : dbrel eq (BShouldProcess p t);
  bshould_returns t : returns (BShouldProcess p t);
  bcancel_db ts e : dbrel eq (BCancel p ts e);
  bcancel_returns ts e : returns (BCancel p ts e);
  bprocess_wf ts : dbrel wf_step (BProcess p ts);
  bprocess_frame ts : dbrel (frame (fun k => k ∈ packet_key <$> ts)) (BProcess p ts);
  bprocess_outcome ts s : wp (BProcess p ts) (batch_processed (tables s) ts) s;
}.

(** ** The request *)

Section Collect.
Context (getHash : IBCV2Transfer -> error + string) (msg : string).
Context (getHash_visible : forall t e, getHash t = inl e -> visible e).

Lemma collectTxIDs_marked seen ts :
  Forall2 marked ts (collectTxIDs getHash msg seen ts).2.
Proof.
  revert seen. induction ts as [|t ts IH]; intros seen; cbn; [constructor|].
  destruct (getHash t) as [e|h] eqn:Eh; [|case_bool_decide; [|destruct (hex_DecodeString _)]];
    match goal with |- context [collectTxIDs _ _ ?seen' ?ts'] =>
      specialize (IH seen'); destruct (collectTxIDs _ _ seen' ts') as [[? ?] ?] end;
    (constructor; [|done]); first [by left | right; eauto with relayer].
Qed.

(** The transfers relayed by the request: those not marked. *)
Definition relayed (ts : list IBCV2Transfer) : list IBCV2Transfer :=
  filter (fun t => errored t = false) ts.

(** Every unmarked transfer contributes its sequence, in order, and every distinct
    hash of an unmarked transfer its decoded id, once. *)
Lemma collectTxIDs_request seen ts ids seqs ts' :
  Forall (fun t => errored t = false) ts ->
  (forall h, h ∈ seen -> is_Some (hex_DecodeString (TrimPrefix0x h))) ->
  collectTxIDs getHash msg seen ts = (ids, seqs, ts') ->
  seqs = GetPacketSequenceNumber <$> relayed ts' /\
  exists hs, NoDup hs /\ Forall2 (fun h id => hex_DecodeString (TrimPrefix0x h) = Some id) hs ids /\
    (forall h, h ∈ hs <-> h ∉ seen /\ exists t, t ∈ relayed ts' /\ getHash t = inr h) /\
    (forall t, t ∈ relayed ts' -> exists h, getHash t = inr h /\ (h ∈ seen \/ h ∈ hs)).
Proof.
  intros Hts. revert seen ids seqs ts'.
  induction Hts as [|t ts Ht Hts IH]; intros seen ids seqs ts' Hseen Hc; cbn in Hc.
  { injection Hc as <- <- <-. split; [done|]. exists []. split_and!; [constructor|constructor| |];
      set_solver. }
  destruct (getHash t) as [e|h] eqn:Eh; [|case_bool_decide as Hin; [|destruct (hex_DecodeString _) as [id|] eqn:Ed]].
  - destruct (collectTxIDs getHash msg seen ts) as [[ids1 seqs1] ts1] eqn:E1.
    injection Hc as <- <- <-. destruct (IH _ _ _ _ Hseen E1) as (Hs & hs & ?).
    unfold relayed. rewrite filter_cons_False by done. eauto.
  - destruct (collectTxIDs getHash msg seen ts) as [[ids1 seqs1] ts1] eqn:E1.
    injection Hc as <- <- <-. destruct (IH _ _ _ _ Hseen E1) as (Hs & hs & Hnd & Hf & Hh & Hall).
    unfold relayed. rewrite filter_cons_True by done. split; [by rewrite Hs|].
    exists hs. split_and!; [done|done| |].
    + intros h'. rewrite Hh. split; [set_solver|].
      intros (N & t' & [->|Hin']%elem_of_cons & Et); [congruence|]. eauto.
    + intros t' [->|Hin']%elem_of_cons; [eauto | by apply Hall].
  - destruct (collectTxIDs getHash msg ({[h]} ∪ seen) ts) as [[ids1 seqs1] ts1] eqn:E1.
    injection Hc as <- <- <-.
    assert (Hseen' : forall h', h' ∈ {[h]} ∪ seen -> is_Some (hex_DecodeString (TrimPrefix0x h'))).
    { intros h' [->%elem_of_singleton|?]%elem_of_union; [by rewrite Ed | auto]. }
    destruct (IH _ _ _ _ Hseen' E1) as (Hs & hs & Hnd & Hf & Hh & Hall).
    unfold relayed. rewrite filter_cons_True by done. split; [by rewrite Hs|].
    exists (h :: hs). split_and!.
    + constructor; [|done]. rewrite Hh. set_solver.
    + by constructor.
    + intros h'. rewrite elem_of_cons, Hh. split.
      * intros [->|(N & t' & Hin' & Et)]; [split; [done|]; exists t; set_solver|].
        split; [set_solver|]. exists t'. set_solver.
      * intros (N & t' & [->|Hin']%elem_of_cons & Et); [left; congruence|].
        destruct (decide (h' = h)) as [->|]; [by left|]. right. split; [set_solver|]. eauto.
    + intros t' [->|Hin']%elem_of_cons; [exists h; set_solver|].
      destruct (Hall t' Hin') as (h' & ? & [?|?]); exists h'; set_solver.
  - destruct (collectTxIDs getHash msg seen ts) as [[ids1 seqs1] ts1] eqn:E1.
    injection Hc as <- <- <-. destruct (IH _ _ _ _ Hseen E1) as (Hs & hs & ?).
    unfold relayed. rewrite filter_cons_False by done. eauto.
Qed.

End Collect.

Lemma same_transfer_packet_key ts ts' :
  Forall2 same_transfer ts ts' -> packet_key <$> ts' = packet_key <$> ts.
Proof.
  induction 1 as [|t t' ts ts' H _ IH]; cbn; [done|]. f_equal; [|done].
  apply identity_packet_key, H.
Qed.

(** ** Storing the submission

    The transaction of the three processors: update the row of every unmarked
    transfer, insert the submission, map it to those transfers. *)

Section Store.
Context {W : Type} {E : Env W}.
Context (f : Z -> db.Ibcv2Transfer -> db.Ibcv2Transfer) (g : IBCV2Transfer -> IBCV2Transfer).
Context (f_identity : forall now r, row_identity (f now r) = row_identity r).
Context (g_identity : forall t, identity (g t) = identity t).
Context (fg_progress : forall now t r, progress t = progress (NewIBCV2Transfer r) ->
           progress (g t) = progress (NewIBCV2Transfer (f now r))).

Definition upd (k : db.PacketKey) : db.Stmt unit :=
  fun now d => (inr tt, db.update_where k (f now) d).

Definition update_rows (msg : string) (ts : list IBCV2Transfer) : M W unit :=
  for_each (fun t => if errored t then ret tt else wrap msg (sql (upd (packet_key t)))) ts.

Lemma update_rows_frame msg ts : dbrel (frame (fun k => k ∈ packet_key <$> ts)) (update_rows msg ts).
Proof.
  apply dbrel_for_each. intros t Ht. destruct (errored t); [apply dbrel_ret|].
  apply dbrel_wrap, dbrel_sql. intros now d. apply frame_update_where; [|done].
  by apply list_elem_of_fmap_2.
Qed.

Lemma g_packet_key t : packet_key (g t) = packet_key t.
Proof. apply identity_packet_key, g_identity. Qed.

Lemma g_ID t : ID (g t) = ID t.
Proof. pose proof (g_identity t) as H. unfold identity in H. congruence. Qed.

Lemma update_rows_nopanic msg ts s : wp (update_rows msg ts) (fun r _ => r <> Panic) s.
Proof.
  revert s. induction ts as [|t ts IH]; intros s; [by apply wp_ret|]. cbn. apply wp_bind.
  destruct (errored t); [apply wp_ret, IH|].
  apply wp_wrap. apply (wp_update _ _ _ _); [done|]. intros. apply IH.
Qed.

Lemma update_rows_sync msg ts s :
  NoDup (packet_key <$> ts) ->
  wp (update_rows msg ts) (fun r s' =>
    match r with
    | Ok _ => forall t, t ∈ ts -> errored t = false -> in_sync (tables s) t -> in_sync (tables s') (g t)
    | Fail _ => True
    | Panic => False
    end) s.
Proof.
  revert s. induction ts as [|t ts IH]; intros s Hnd.
  { change (update_rows msg []) with (ret (W:=W) tt). apply wp_ret. by intros ? ?%not_elem_of_nil. }
  change (update_rows msg (t :: ts)) with
    ((if errored t then ret tt else wrap msg (sql (upd (packet_key t)))) ;; update_rows msg ts).
  cbn [fmap list_fmap] in Hnd.
  apply NoDup_cons in Hnd as [Hn Hnd].
  assert (Hrest : forall s1, (forall t', t' ∈ ts -> in_sync (tables s) t' -> in_sync (tables s1) t') ->
    (errored t = false -> in_sync (tables s) t -> in_sync (tables s1) (g t)) ->
    wp (update_rows msg ts) (fun r s' =>
      match r with
      | Ok _ => forall t', t' ∈ t :: ts -> errored t' = false -> in_sync (tables s) t' ->
                  in_sync (tables s') (g t')
      | Fail _ => True
      | Panic => False
      end) s1).
  { intros s1 H1 H2. eapply wp_mono;
      [|apply wp_and; [apply (IH s1 Hnd) | apply wp_dbrel, update_rows_frame]].
    intros [[]|e|] s' [Hs Hf]; [|done..].
    intros t' [->|Ht']%elem_of_cons He Hsync; [|auto].
    eapply in_sync_frame; [exact Hf | by rewrite g_packet_key | auto]. }
  apply wp_bind. destruct (errored t) eqn:Et.
  - apply wp_ret. apply Hrest; auto. by intros.
  - apply wp_wrap. apply (wp_update _ _ _ _); [done|]. intros now w Hexec. cbn. apply Hrest.
    + intros t' Ht' Hsync. cbn [tables]. eapply (in_sync_frame (eq (packet_key t))).
      * by apply frame_update_where.
      * intros Ek. apply Hn. rewrite Ek. by apply list_elem_of_fmap_2.
      * done.
    + intros _ Hsync. cbn [tables]. apply in_sync_update; [done | apply g_ID | apply g_packet_key | |].
      * intros r. apply row_identity_key, f_identity.
      * intros r. apply fg_progress.
Qed.

Lemma update_rows_sync' msg ts s :
  wp (update_rows msg ts) (fun r s' =>
    r = Ok tt -> NoDup (packet_key <$> ts) ->
    forall t, t ∈ ts -> errored t = false -> in_sync (tables s) t -> in_sync (tables s') (g t)) s.
Proof.
  destruct (decide (NoDup (packet_key <$> ts))) as [Hnd|N].
  - eapply wp_mono; [|apply update_rows_sync, Hnd]. by intros [[]|e|] s' H Hr _.
  - eapply wp_mono; [|apply (update_rows_nopanic msg ts)]. by intros.
Qed.

Definition store (msg0 msg1 msg2 msg3 : string) (ins : db.Stmt Z) (ts : list IBCV2Transfer)
    : M W unit :=
  wrap msg0 (ExecTx (
    update_rows msg1 ts ;;
    if bool_decide (length (filter (fun t => errored t = false) ts) = 0%nat) then ret tt else
    let* submissionID := wrap msg2 (sql ins) in
    wrap msg3 (insertTransferTxSubmissionMappings submissionID ts))).

Lemma mappings_transfers sid ts :
  dbrel (fun d d' => db.ibcv2_transfers d' = db.ibcv2_transfers d)
    (insertTransferTxSubmissionMappings (W:=W) sid ts).
Proof.
  assert (StepRel (fun d d' => db.ibcv2_transfers d' = db.ibcv2_transfers d)).
  { split; [split; [done|]; intros ? ? ? -> ->; done | done]. }
  unfold insertTransferTxSubmissionMappings. dbrel_go.
  apply dbrel_sql. intros. apply transfers_InsertIBCV2TransferTxSubmission.
Qed.

Lemma insertMappings_nopanic sid ts s :
  wp (insertTransferTxSubmissionMappings (W:=W) sid ts) (fun r _ => r <> Panic) s.
Proof.
  unfold insertTransferTxSubmissionMappings. revert s.
  induction ts as [|t ts IH]; intros s; cbn; [by apply wp_ret|].
  apply wp_bind. wp_run; try done; apply IH.
Qed.

Lemma store_outcome msg0 msg1 msg2 msg3 ins ts s :
  (forall now d, db.ibcv2_transfers (snd (ins now d)) = db.ibcv2_transfers d) ->
  wp (store msg0 msg1 msg2 msg3 ins ts) (fun r s' =>
    match r with
    | Ok _ => NoDup (packet_key <$> ts) -> forall t, t ∈ ts -> errored t = false -> in_sync (tables s) t -> in_sync (tables s') (g t)
    | Fail e => visible e
    | Panic => False
    end) s.
Proof.
  intros Hins. unfold store. apply wp_wrap, wp_ExecTx; [auto with relayer|].
  intros u w Hb. apply wp_bind.
  eapply wp_mono; [|apply wp_and; [apply update_rows_nopanic | apply update_rows_sync']].
  intros [[]|e|] s1 [Hp1 H1]; cbn in *; [|auto with relayer|done].
  case_bool_decide; [apply wp_ret; intros [|] ? ?; auto with relayer|].
  apply wp_bind, wp_wrap, wp_sql; [auto with relayer|].
  intros now w1 r d Hexec Hq. specialize (Hins now (tables s1)). rewrite Hq in Hins. cbn in Hins.
  destruct r as [e|sid]; [auto with relayer|]. apply wp_wrap.
  eapply wp_mono; [|apply wp_and; [apply (insertMappings_nopanic sid ts)|
    apply wp_dbrel, (mappings_transfers sid ts)]].
  intros [[]|e|] s2 [Hp Hm]; cbn in *; [|auto with relayer|done].
  intros [|e applied] w2 Hc; [|auto with relayer]. cbn.
  intros Hnd t Ht He Hsync. eapply in_sync_tables; [|by apply H1]. congruence.
Qed.

Lemma store_wf msg0 msg1 msg2 msg3 ins ts :
  (forall now, db.keeps_key (f now)) -> (forall now d, wf_step d (snd (ins now d))) ->
  dbrel wf_step (store msg0 msg1 msg2 msg3 ins ts).
Proof.
  intros Hf Hins. unfold store, update_rows, insertTransferTxSubmissionMappings. dbrel_go.
  - apply dbrel_sql. intros. by apply wf_step_update_where.
  - by apply dbrel_sql.
Qed.

Lemma store_frame msg0 msg1 msg2 msg3 ins ts :
  (forall now d, db.ibcv2_transfers (snd (ins now d)) = db.ibcv2_transfers d) ->
  dbrel (frame (fun k => k ∈ packet_key <$> ts)) (store msg0 msg1 msg2 msg3 ins ts).
Proof.
  intros Hins. unfold store. apply dbrel_wrap, dbrel_ExecTx, dbrel_bind; [apply update_rows_frame|].
  intros _. unfold insertTransferTxSubmissionMappings. dbrel_go.
  apply dbrel_sql. intros. by apply frame_same_transfers.
Qed.

End Store.

(** The tail of the three processors, once the batch is collected. *)
Section Tail.
Context {W : Type} {E : Env W}.
Context (g : BridgeTx -> IBCV2Transfer -> IBCV2Transfer).
Context (g_identity : forall tx t, identity (g tx t) = identity t).
Context (g_state : forall tx t, State (g tx t) = State t).
Context (g_error : forall tx t, ProcessingError (g tx t) = ProcessingError t).

Definition assign (tx : BridgeTx) (t : IBCV2Transfer) : IBCV2Transfer :=
  if errored t then t else g tx t.

Lemma assign_same tx ts ts' : Forall2 marked ts ts' -> Forall2 same_transfer ts (assign tx <$> ts').
Proof.
  induction 1 as [|t t' ts ts' H _ IH]; cbn; constructor; [|done].
  apply marked_same in H as (H1 & H2 & H3). unfold same_transfer, assign.
  destruct (errored t'); [done|]. by rewrite g_identity, g_state, g_error.
Qed.

Lemma tail_outcome (m : M W BridgeTx) batch ts s :
  Forall2 marked batch ts ->
  wp m (fun r s' =>
    match r with
    | Ok tx => NoDup (packet_key <$> ts) -> forall t, t ∈ ts -> errored t = false ->
                 in_sync (tables s) t -> in_sync (tables s') (g tx t)
    | Fail e => visible e
    | Panic => False
    end) s ->
  wp (let* result := try m in
      match result with
      | inl err => ret (ts, Some err)
      | inr tx => ret (assign tx <$> ts, None)
      end) (batch_processed (tables s) batch) s.
Proof.
  intros Hm H. apply wp_bind, wp_try. eapply wp_mono; [|exact H].
  intros [tx|e|] s' Hr; cbn in *; [| |done].
  - split; [by apply assign_same|]. split; [done|]. intros _ Hnd.
    assert (Hk : packet_key <$> ts = packet_key <$> batch).
    { apply same_transfer_packet_key. eapply Forall2_impl; [exact Hm | apply marked_same]. }
    rewrite Hk in Hr. specialize (Hr Hnd). clear Hnd Hk.
    clear H. induction Hm as [|t t' batch ts H1 Hm IH]; cbn; constructor.
    + intros Hsync. unfold assign. destruct (errored t') eqn:Ee.
      * unfold errored in Ee. by destruct (ProcessingError t').
      * intros _. apply Hr; [left | done | by eapply marked_in_sync].
    + apply IH. intros; apply Hr; [by right|done..].
  - split; [eapply Forall2_impl; [exact Hm | apply marked_same]|].
    split; [|done]. by intros ? [= <-].
Qed.

End Tail.

Section BatchInstances.
Context {W : Type} {E : Env W}.

(** The part of the three processors between collecting and storing: it ends with
    a visible error or stores the transaction delivered. *)
Lemma submission_outcome req chainID msg1 msg2 msg3 (st : BridgeTx -> M W unit) Q s :
  (forall tx s1, tables s1 = tables s ->
     wp (st tx) (fun r s' => match r with
                             | Ok _ => Q (Ok tx) s'
                             | Fail e => visible e
                             | Panic => False
                             end) s1) ->
  (forall e s', visible e -> Q (Fail e) s') ->
  wp (let* resp := wrap msg1 (relay_by_tx req) in
      let* client := wrap msg2 (GetClient chainID) in
      waitIfEVM client ;;
      let* tx := submit chainID client (Tx resp) (Address resp) msg3 in
      st tx ;;
      ret tx) Q s.
Proof.
  intros Hst Hfail. wp_run; auto with relayer.
  all: eapply wp_mono; [|by apply Hst]; intros [[]|?|] s' Hr; cbn; auto with relayer; done.
Qed.

Lemma collected_keys getHash msg seen ts ids seqs ts' :
  (forall t e, getHash t = inl e -> visible e) ->
  collectTxIDs getHash msg seen ts = (ids, seqs, ts') ->
  Forall2 marked ts ts' /\ packet_key <$> ts' = packet_key <$> ts.
Proof.
  intros Hv Ec. pose proof (collectTxIDs_marked getHash msg Hv seen ts) as Hm.
  rewrite Ec in Hm. split; [done|]. apply same_transfer_packet_key.
  eapply Forall2_impl; [exact Hm | apply marked_same].
Qed.

(** The assignments that follow the stored transaction. *)
Definition assign_recv (tx : BridgeTx) (t : IBCV2Transfer) : IBCV2Transfer :=
  t <| RecvTxHash := Some (Hash tx) |> <| RecvTxTime := Some (Timestamp tx) |>
    <| RecvTxRelayerAddress := Some (RelayerAddress tx) |>.
Definition assign_ack (tx : BridgeTx) (t : IBCV2Transfer) : IBCV2Transfer :=
  t <| AckTxHash := Some (Hash tx) |> <| AckTxTime := Some (Timestamp tx) |>.
Definition assign_timeout (tx : BridgeTx) (t : IBCV2Transfer) : IBCV2Transfer :=
  t <| TimeoutTxHash := Some (Hash tx) |> <| TimeoutTxTime := Some (Timestamp tx) |>.

Lemma writeAckTxHashOf_visible t e : writeAckTxHashOf t = inl e -> visible e.
Proof.
  unfold writeAckTxHashOf. destruct (GetWriteAckTxHash t) as [h []]; cbn; [done|].
  intros [= <-]. auto with relayer.
Qed.

Ltac until_store :=
  repeat lazymatch goal with
  | |- dbrel _ (wrap _ (ExecTx _)) => fail
  | _ => dbrel_step
  end.

Tactic Notation "batch_spec_tac" reference(new) reference(process) reference(st) constr(g) :=
  split; unfold new; cbn [BShouldProcess BProcess BCancel];
  [ intros; dbrel_go | intros; returns_go | intros; dbrel_go | intros; returns_go
  | intros ts; unfold process; destruct (collectTxIDs _ _ _ ts) as [[ids seqs] ts']; dbrel_go
  | intros ts; unfold process; destruct (collectTxIDs _ _ _ ts) as [[ids seqs] ts'] eqn:Ec;
    apply collected_keys in Ec as [Hm Hk]; [|first [done | apply writeAckTxHashOf_visible]];
    rewrite <- Hk; until_store; apply store_frame; [done | intros; apply transfers_InsertIBCV2RelayerTxSubmission]
  | intros ts s; unfold process; destruct (collectTxIDs _ _ _ ts) as [[ids seqs] ts'] eqn:Ec;
    apply collected_keys in Ec as [Hm Hk]; [|first [done | apply writeAckTxHashOf_visible]];
    apply (tail_outcome g); [done | done | done | exact Hm|];
    apply submission_outcome; [|done];
    intros tx s1 Hs1; rewrite <- Hs1;
    apply (store_outcome _ (g tx)); [done | done | | intros; apply transfers_InsertIBCV2RelayerTxSubmission];
    unfold g; progress_tac ].

#[export] Instance BatchRecvPacket_spec c : BatchProcessorSpec (W:=W) (NewBatchRecvPacketProcessor c).
Proof.
  batch_spec_tac NewBatchRecvPacketProcessor BatchRecvPacket_Process BatchRecvPacket_store assign_recv.
Qed.

#[export] Instance BatchAckPacket_spec c rs re :
  BatchProcessorSpec (W:=W) (NewBatchAckPacketProcessor c rs re).
Proof.
  batch_spec_tac NewBatchAckPacketProcessor BatchAckPacket_Process BatchAckPacket_store assign_ack.
Qed.

#[export] Instance BatchTimeoutPacket_spec c :
  BatchProcessorSpec (W:=W) (NewBatchTimeoutPacketProcessor c).
Proof.
  batch_spec_tac NewBatchTimeoutPacketProcessor BatchTimeoutPacket_Process
    BatchTimeoutPacket_store assign_timeout.
Qed.

End BatchInstances.
