(* ===== verification/Middleware.v ===== *)
(** * The processor middleware and the state finisher

    [src/relayer/ibcv2/processor_mw.go] wraps every processor of the pipeline,
    [state_finisher.go] ends it.  The theorems on the wrappers are proved against
    the contracts [ProcessorSpec] and [BatchProcessorSpec] of what they wrap. *)

From S2P Require Import Prelude Db Transfer Config World Logic Processors ProcessorSpecs BatchProcessors.
From S2P Require Import BatchSpecs.

Section Middleware.
Context {W : Type} {E : Env W}.

(** [IBCV2ProcessorMW.Cancel] *)
Definition MW_Cancel (p : IBCV2Processor W) (input : option IBCV2Transfer) (err : error) : M W unit :=
  match input with
  | None => ret tt
  | Some input => Cancel p input err
  end.

(** [IBCV2ProcessorMW.Process].  The input is a pointer: the condition
    [input.Error() != "" || input == nil] reads a field of the input before it
    compares the input with nil. *)
Definition MW_Process (p : IBCV2Processor W) (input : option IBCV2Transfer) : M W IBCV2Transfer :=
  match input with
  | None => panic
  | Some input =>
      if negb (bool_decide (Error input = "")) then ret input else
      if bool_decide (GetState input = db.Ibcv2RelayStatusFAILED) then ret input else
      let* should := ShouldProcess p input in
      if negb should then ret input else
      let* updated := try (sql (db.UpdateTransferState (ProcState p) (packet_key input))) in
      match updated with
      | inl err =>
          let wrapped := EWrap "updating transfer state" err in
          MW_Cancel p (Some input) wrapped ;;
          ret (input <| ProcessingError := Some wrapped |>)
      | inr _ =>
          let input := input <| State := ProcState p |> in
          RecordTransferState input (State input) ;;
          let* output := try (Process p input) in
          match output with
          | inl err =>
              if errors_Is err context_Canceled then fail err else
              MW_Cancel p (Some input) err ;;
              ret (input <| ProcessingError := Some err |>)
          | inr output => ret output
          end
      end
  end.

(** [IBCV2BatchProcessorMW.Process]: the loop that splits the batch into the
    transfers to skip and those to process. *)
Fixpoint BatchMW_split (p : IBCV2BatchProcessor W) (batch : list IBCV2Transfer)
    : M W (list IBCV2Transfer * list IBCV2Transfer) :=
  match batch with
  | [] => ret ([], [])
  | input :: rest =>
      if negb (bool_decide (Error input = "")) then
        let* '(notProcessing, toProcess) := BatchMW_split p rest in
        ret (input :: notProcessing, toProcess)
      else if bool_decide (GetState input = db.Ibcv2RelayStatusFAILED) then
        let* '(notProcessing, toProcess) := BatchMW_split p rest in
        ret (input :: notProcessing, toProcess)
      else
      let* should := BShouldProcess p input in
      if negb should then
        let* '(notProcessing, toProcess) := BatchMW_split p rest in
        ret (input :: notProcessing, toProcess)
      else
      let* updated := try (sql (db.UpdateTransferState (BProcState p) (packet_key input))) in
      match updated with
      | inl err =>
          let wrapped := EWrap "updating transfer state" err in
          BCancel p [input] wrapped ;;
          let* '(notProcessing, toProcess) := BatchMW_split p rest in
          ret (input <| ProcessingError := Some wrapped |> :: notProcessing, toProcess)
      | inr _ =>
          let input := input <| State := BProcState p |> in
          RecordTransferState input (State input) ;;
          let* '(notProcessing, toProcess) := BatchMW_split p rest in
          ret (notProcessing, input :: toProcess)
      end
  end.

Definition BatchMW_Process (p : IBCV2BatchProcessor W) (batch : list IBCV2Transfer)
    : M W (list IBCV2Transfer) :=
  let* '(notProcessing, toProcess) := BatchMW_split p batch in
  match toProcess with
  | [] => ret notProcessing
  | _ =>
      let* '(output, perr) := BProcess p toProcess in
      match perr with
      | Some err =>
          if errors_Is err context_Canceled then fail err else
          BCancel p output err ;;
          ret (((fun input => input <| ProcessingError := Some err |>) <$> output) ++ notProcessing)
      | None => ret (output ++ notProcessing)
      end
  end.

(** [IBCV2BatchProcessorMW.Cancel], [ShouldProcess] and [State]. *)
Definition BatchMW_Cancel (p : IBCV2BatchProcessor W) (input : list IBCV2Transfer) (err : error)
    : M W unit := BCancel p input err.

Definition BatchMW_ShouldProcess (p : IBCV2BatchProcessor W) (input : IBCV2Transfer) : M W bool :=
  BShouldProcess p input.

Definition BatchMW_State (p : IBCV2BatchProcessor W) : db.Ibcv2RelayStatus := BProcState p.

(** ** The state finisher ([state_finisher.go]) *)

Definition StateFinisher_store (transfer : IBCV2Transfer) : M W IBCV2Transfer :=
  let* updated := try (sql (db.UpdateTransferState (GetState transfer) (packet_key transfer))) in
  match updated with
  | inl err => ret (transfer <| ProcessingError := Some (EWrap "updating transfer state" err) |>)
  | inr _ => ret transfer
  end.

Definition StateFinisher_Process (shouldRelaySuccessAcks shouldRelayErrorAcks : bool)
    (transfer : IBCV2Transfer) : M W IBCV2Transfer :=
  if negb (bool_decide (Error transfer = "")) then ret transfer else
  if negb (IsComplete transfer shouldRelaySuccessAcks shouldRelayErrorAcks) then ret transfer else
  let '(_, timedOut) := GetTimeoutTxHash transfer in
  if timedOut then
    let transfer := transfer <| State := db.Ibcv2RelayStatusCOMPLETEWITHTIMEOUT |> in
    RecordTransferState transfer (State transfer) ;;
    RecordSendTimeoutLatency transfer ;;
    RecordTimeoutRelayed transfer ;;
    StateFinisher_store transfer
  else
    let '(writeAckStatus, hasWriteAckStatus) := GetWriteAckStatus transfer in
    if negb hasWriteAckStatus then ret transfer else
    let '(_, ackd) := GetAckTxHash transfer in
    if ackd then
      let transfer := transfer <| State := db.Ibcv2RelayStatusCOMPLETEWITHACK |> in
      RecordTransferState transfer (State transfer) ;;
      RecordAckRecvLatency transfer ;;
      RecordAckRelayed transfer ;;
      StateFinisher_store transfer
    else
      let transfer := if isErrorAck writeAckStatus
        then transfer <| State := db.Ibcv2RelayStatusCOMPLETEWITHWRITEACKERROR |> else transfer in
      (if isErrorAck writeAckStatus then RecordTransferState transfer (State transfer) else ret tt) ;;
      let transfer := if isSuccessAck writeAckStatus
        then transfer <| State := db.Ibcv2RelayStatusCOMPLETEWITHWRITEACKSUCCESS |> else transfer in
      (if isSuccessAck writeAckStatus then RecordTransferState transfer (State transfer) else ret tt) ;;
      StateFinisher_store transfer.

Definition StateFinisher_Cancel (transfer : IBCV2Transfer) (err : error) : M W unit :=
  logf LError "error updating transfer to finalized state".

End Middleware.

(** ** What a stage leaves behind *)

(** The errors of a transfer are visible: an errored transfer is recognised by
    every later stage. *)
Definition err_ok (t : IBCV2Transfer) : Prop := forall e, ProcessingError t = Some e -> visible e.

(** A transfer that is not errored agrees with its row. *)
Definition live_sync (d : db.DB) (t : IBCV2Transfer) : Prop :=
  ProcessingError t = None -> in_sync d t.

Lemma err_ok_Error t : err_ok t -> Error t = "" -> ProcessingError t = None.
Proof.
  unfold err_ok, Error. destruct (ProcessingError t) as [e|]; [|done].
  intros H He. by destruct (H e eq_refl).
Qed.

Lemma err_ok_None t : ProcessingError t = None -> err_ok t.
Proof. intros H e. by rewrite H. Qed.

Lemma err_ok_set t e : visible e -> err_ok (t <| ProcessingError := Some e |>).
Proof. by intros H e' [= <-]. Qed.

#[export] Hint Resolve err_ok_set : relayer.

Section MiddlewareSpec.
Context {W : Type} {E : Env W}.

Lemma dbrel_eq {A} R `{!StepRel R} (m : M W A) : dbrel eq m -> dbrel R m.
Proof. intros H s. rewrite <- (H s). reflexivity. Qed.

(** Follows the wrapper up to the calls of the wrapped processor. *)
Ltac mw_go :=
  repeat lazymatch goal with
  | |- dbrel _ (ShouldProcess _ _) => fail
  | |- dbrel _ (Process _ _) => fail
  | |- dbrel _ (Cancel _ _ _) => fail
  | |- dbrel _ (BShouldProcess _ _) => fail
  | |- dbrel _ (BProcess _ _) => fail
  | |- dbrel _ (BCancel _ _ _) => fail
  | _ => dbrel_step
  end.

(** One transfer through one stage. *)
Definition stage_outcome (d : db.DB) (t : IBCV2Transfer) (r : res IBCV2Transfer) (s' : Sys W) : Prop :=
  match r with
  | Ok t' => identity t' = identity t /\ (err_ok t -> err_ok t') /\
             (err_ok t -> live_sync d t -> live_sync (tables s') t')
  | Fail e => errors_Is e context_Canceled = true
  | Panic => False
  end.

Section Single.
Context (p : IBCV2Processor W) `{Hp : !ProcessorSpec p}.

Lemma MW_wf i : dbrel wf_step (MW_Process p i).
Proof.
  destruct i as [t|]; [|apply dbrel_panic]. unfold MW_Process, MW_Cancel.
  mw_go; [apply dbrel_eq; [apply _ | apply should_db]| |apply process_wf|];
    apply dbrel_eq; [apply _ | apply cancel_db | apply _ | apply cancel_db].
Qed.

Lemma MW_frame t : dbrel (frame (eq (packet_key t))) (MW_Process p (Some t)).
Proof.
  unfold MW_Process, MW_Cancel.
  mw_go; [apply dbrel_eq; [apply _ | apply should_db]| |match goal with |- dbrel _ (Process _ ?u) => exact (process_frame u) end|];
    apply dbrel_eq; [apply _ | apply cancel_db | apply _ | apply cancel_db].
Qed.

(** The wrapper's call of Cancel. *)
Lemma wp_cancel t e Q s :
  (forall s', tables s' = tables s -> Q (Ok tt) s') -> wp (MW_Cancel p (Some t) e) Q s.
Proof.
  intros H. unfold wp. cbn. destruct (cancel_returns t e s) as [s' Es]. rewrite Es. cbn.
  apply H. pose proof (cancel_db t e s) as Hd. by rewrite Es in Hd.
Qed.

Lemma wp_should t Q s :
  (forall b s', tables s' = tables s -> Q (Ok b) s') -> wp (ShouldProcess p t) Q s.
Proof.
  intros H. unfold wp. destruct (should_returns t s) as (b & s' & Es). rewrite Es. cbn.
  apply H. pose proof (should_db t s) as Hd. by rewrite Es in Hd.
Qed.

Lemma MW_outcome t s : wp (MW_Process p (Some t)) (stage_outcome (tables s) t) s.
Proof.
  unfold MW_Process. case_bool_decide as He; [|by apply wp_ret].
  case_bool_decide; [by apply wp_ret|].
  cbn [negb]. apply wp_bind, wp_should. intros [] s1 H1; [|apply wp_ret; rewrite <- H1; done].
  cbn [negb]. apply wp_bind, wp_try. unfold db.UpdateTransferState.
  apply wp_update; [intros e w _ | intros now w _]; cbn beta iota.
  { apply wp_bind, wp_cancel. intros s2 H2. apply wp_ret.
    split; [done|]. split; [auto with relayer | by intros _ _ [=]]. }
  apply wp_bind. unfold RecordTransferState. destruct (chainConfigs _ _) as [c1 c2].
  apply wp_emit. cbn beta iota.
  set (t1 := t <| State := ProcState p |>). cbn [world tables trace]. rewrite H1.
  set (s2 := mkSys _ _ _).
  apply wp_bind, wp_try. eapply wp_mono; [|apply process_outcome].
  intros [t'|e|] s3 Hr; cbn beta iota; [| |done].
  - apply wp_ret. destruct Hr as (Hi & Hpe & Hst & Hs). split; [done|].
    split; [unfold err_ok; rewrite Hpe; done|].
    intros Hok Hl _. apply Hs. cbn [tables s2].
    apply in_sync_update; [apply Hl; by apply err_ok_Error | done | done | done | progress_tac].
  - destruct (errors_Is e context_Canceled) eqn:Ec; [by apply wp_fail|].
    apply wp_bind, wp_cancel. intros s4 H4. apply wp_ret.
    split; [done|]. split; [intros _; by apply err_ok_set | by intros _ _ [=]].
Qed.

End Single.

(** ** Batches *)

Section Batch.
Context (p : IBCV2BatchProcessor W) `{Hp : !BatchProcessorSpec p}.

Lemma wp_bcancel ts e Q s :
  (forall s', tables s' = tables s -> Q (Ok tt) s') -> wp (BCancel p ts e) Q s.
Proof.
  intros H. unfold wp. destruct (bcancel_returns ts e s) as ([] & s' & Es). rewrite Es. cbn.
  apply H. pose proof (bcancel_db ts e s) as Hd. by rewrite Es in Hd.
Qed.

Lemma wp_bshould t Q s :
  (forall b s', tables s' = tables s -> Q (Ok b) s') -> wp (BShouldProcess p t) Q s.
Proof.
  intros H. unfold wp. destruct (bshould_returns t s) as (b & s' & Es). rewrite Es. cbn.
  apply H. pose proof (bshould_db t s) as Hd. by rewrite Es in Hd.
Qed.

Lemma BatchMW_split_frame batch :
  dbrel (frame (fun k => k ∈ packet_key <$> batch)) (BatchMW_split p batch).
Proof.
  induction batch as [|t batch IH]; [apply dbrel_ret|].
  assert (IH' : dbrel (frame (fun k => k ∈ packet_key <$> t :: batch)) (BatchMW_split p batch)).
  { intros s. eapply frame_weaken; [|apply IH]. cbn. intros k Hk. by right. }
  cbn [BatchMW_split]. mw_go; try exact IH'.
  - apply dbrel_eq; [apply _ | apply bshould_db].
  - apply dbrel_sql. intros. apply frame_update_where; [left | done].
  - apply dbrel_eq; [apply _ | apply bcancel_db].
Qed.

Lemma BatchMW_split_wf batch : dbrel wf_step (BatchMW_split p batch).
Proof.
  induction batch as [|t batch IH]; [apply dbrel_ret|].
  cbn [BatchMW_split]. mw_go; try exact IH; apply dbrel_eq;
    [apply _ | apply bshould_db | apply _ | apply bcancel_db].
Qed.

(** The split of a batch: nothing lost, nothing duplicated. *)
Definition split_outcome (d : db.DB) (batch : list IBCV2Transfer)
    (r : res (list IBCV2Transfer * list IBCV2Transfer)) (s' : Sys W) : Prop :=
  match r with
  | Ok (np, tp) =>
      identity <$> tp ++ np ≡ₚ identity <$> batch /\
      (Forall err_ok batch -> Forall err_ok np /\ Forall (fun t => ProcessingError t = None) tp) /\
      (NoDup (packet_key <$> batch) -> Forall err_ok batch -> Forall (live_sync d) batch ->
       Forall (live_sync (tables s')) (tp ++ np))
  | _ => False
  end.

(** What one more transfer, ending up in either part, adds to the split of the
    rest: its row and those of the rest are distinct. *)
Lemma split_cons (d d1 : db.DB) t t' batch s' np tp (to_np : bool) :
  split_outcome d1 batch (Ok (np, tp)) s' ->
  frame (fun k => k ∈ packet_key <$> batch) d1 (tables s') ->
  frame (eq (packet_key t)) d d1 ->
  identity t' = identity t ->
  (if to_np then err_ok t -> err_ok t' else err_ok t -> ProcessingError t' = None) ->
  (err_ok t -> live_sync d t -> live_sync d1 t') ->
  split_outcome d (t :: batch)
    (Ok (if to_np then (t' :: np, tp) else (np, t' :: tp))) s'.
Proof.
  intros (Hperm & Hok & Hsync) F1 F0 Hid Ht' Hs'.
  assert (Hk : packet_key t' = packet_key t) by by apply identity_packet_key.
  assert (Hsync' : NoDup (packet_key <$> t :: batch) -> Forall err_ok (t :: batch) ->
    Forall (live_sync d) (t :: batch) -> live_sync (tables s') t' /\ Forall (live_sync (tables s')) (tp ++ np)).
  { cbn. intros [Hn Hnd]%NoDup_cons [Ho1 Ho]%Forall_cons [Hl1 Hl]%Forall_cons. split.
    - intros He. eapply in_sync_frame; [exact F1 | by rewrite Hk | by apply Hs'].
    - apply Hsync; [done..|]. rewrite Forall_forall in *. intros u Hu He.
      eapply in_sync_frame; [exact F0 | | by apply Hl].
      intros Ek. apply Hn. rewrite Ek. by apply list_elem_of_fmap_2. }
  destruct to_np; split_and!; cbn.
  - rewrite fmap_app in *. cbn. rewrite <- Permutation_middle, Hid. by apply Permutation_cons.
  - intros [H1 H2]%Forall_cons. destruct (Hok H2). split; [constructor; auto | done].
  - intros Hnd Ho Hl. destruct (Hsync' Hnd Ho Hl) as [H1 H2].
    rewrite Forall_app in *. destruct H2. split; [done|]. by constructor.
  - rewrite Hid. by apply Permutation_cons.
  - intros [H1 H2]%Forall_cons. destruct (Hok H2). split; [done | constructor; auto].
  - intros Hnd Ho Hl. destruct (Hsync' Hnd Ho Hl) as [H1 H2]. by constructor.
Qed.

Lemma BatchMW_split_outcome batch s : wp (BatchMW_split p batch) (split_outcome (tables s) batch) s.
Proof.
  revert s. induction batch as [|t batch IH]; intros s.
  { apply wp_ret. split_and!; [done | by constructor | done]. }
  cbn [BatchMW_split].
  assert (Hskip : forall s1 t' (K : list IBCV2Transfer * list IBCV2Transfer -> M W (list IBCV2Transfer * list IBCV2Transfer)) to_np,
    (forall np tp s2, K (np, tp) s2 = (Ok (if to_np : bool then (t' :: np, tp) else (np, t' :: tp)), s2)) ->
    frame (eq (packet_key t)) (tables s) (tables s1) -> identity t' = identity t ->
    (if to_np then err_ok t -> err_ok t' else err_ok t -> ProcessingError t' = None) ->
    (err_ok t -> live_sync (tables s) t -> live_sync (tables s1) t') ->
    wp (bind (BatchMW_split p batch) K) (split_outcome (tables s) (t :: batch)) s1).
  { intros s1 t' K to_np HK F Hid He Hs. apply wp_bind.
    eapply wp_mono; [|apply wp_and; [apply IH | apply wp_dbrel, BatchMW_split_frame]].
    intros [[np tp]|e|] s2 [Ho Hf]; [|done..]. unfold wp. rewrite HK. cbn [fst snd].
    by eapply split_cons. }
  case_bool_decide as He; [|apply (Hskip s t _ true); done].
  case_bool_decide; [apply (Hskip s t _ true); done|]. cbn [negb].
  apply wp_bind, wp_bshould. intros [] s1 H1; cbn [negb];
    [|apply (Hskip s1 t _ true); by rewrite ?H1].
  apply wp_bind, wp_try. unfold db.UpdateTransferState.
  apply wp_update; [intros e w _ | intros now w _]; cbn beta iota; cbn [world tables trace]; rewrite H1.
  - apply wp_bind, wp_bcancel. intros s2 H2. cbn [tables] in H2.
    eapply (Hskip s2 _ _ true); [done | by rewrite H2 | done | intros _; by apply err_ok_set, visible_wrap|].
    by intros _ _ [=].
  - apply wp_bind. unfold RecordTransferState. destruct (chainConfigs _ _). apply wp_emit.
    eapply (Hskip _ _ _ false); [done | by apply frame_update_where | done | intros Ho; by apply err_ok_Error|].
    intros Ho Hl _. apply in_sync_update; [apply Hl; by apply err_ok_Error | done | done | done | progress_tac].
Qed.

Definition batch_stage_outcome (d : db.DB) (batch : list IBCV2Transfer)
    (r : res (list IBCV2Transfer)) (s' : Sys W) : Prop :=
  match r with
  | Ok out =>
      identity <$> out ≡ₚ identity <$> batch /\
      (Forall err_ok batch -> Forall err_ok out) /\
      (NoDup (packet_key <$> batch) -> Forall err_ok batch -> Forall (live_sync d) batch ->
       Forall (live_sync (tables s')) out)
  | Fail e => errors_Is e context_Canceled = true
  | Panic => False
  end.

Lemma same_transfer_identity ts ts' :
  Forall2 same_transfer ts ts' -> identity <$> ts' = identity <$> ts.
Proof. induction 1 as [|t t' ts ts' [H _] _ IH]; cbn; congruence. Qed.

Lemma identity_keys ts ts' :
  identity <$> ts' ≡ₚ identity <$> ts -> packet_key <$> ts' ≡ₚ packet_key <$> ts.
Proof.
  intros H. set (f := fun i : Z * string * string * string * Z * Z * string * string * Z =>
    match i with (_, c, _, _, _, n, s, _, _) => db.mkPacketKey c s (to_int32 n) end).
  apply (Permutation_map f) in H. change (f <$> (identity <$> ts') ≡ₚ f <$> (identity <$> ts)) in H.
  by rewrite <- !list_fmap_compose in H.
Qed.

Lemma same_transfer_err_ok ts ts' :
  Forall2 same_transfer ts ts' -> Forall err_ok ts -> Forall err_ok ts'.
Proof.
  induction 1 as [|t t' ts ts' (_ & _ & H) _ IH]; [done|].
  intros [H1 H2]%Forall_cons. constructor; [|auto]. intros e He.
  destruct H as [H|(e' & H & Hv)]; [apply H1; congruence | congruence].
Qed.

(** Transfers whose rows are not in the batch, after the batch is processed. *)
Lemma live_sync_outside d d' (np tp : list IBCV2Transfer) :
  frame (fun k => k ∈ packet_key <$> tp) d d' -> NoDup (packet_key <$> tp ++ np) ->
  Forall (live_sync d) np -> Forall (live_sync d') np.
Proof.
  rewrite fmap_app. intros F (_ & Hdis & _)%NoDup_app Hl. rewrite Forall_forall in *.
  intros t Ht He. eapply in_sync_frame; [exact F | | by apply Hl].
  intros Hk. apply (Hdis _ Hk). by apply list_elem_of_fmap_2.
Qed.

Lemma BatchMW_outcome batch s : wp (BatchMW_Process p batch) (batch_stage_outcome (tables s) batch) s.
Proof.
  unfold BatchMW_Process. apply wp_bind.
  eapply wp_mono; [|apply BatchMW_split_outcome].
  intros [[np tp]|e|] s1 H1; [|done..]. destruct H1 as (Hperm & Hok & Hsync).
  destruct tp as [|t0 tp0] eqn:Etp; [apply wp_ret; split_and!; [exact Hperm | intros Ho; apply (Hok Ho) | exact Hsync]|].
  rewrite <- Etp in *. clear t0 tp0 Etp. apply wp_bind.
  eapply wp_mono; [|apply wp_and; [apply bprocess_outcome | apply wp_dbrel, bprocess_frame]].
  intros [[out perr]|e|] s2 [H2 Hf]; [|done..]. destruct H2 as (Hsame & Hvis & Hs).
  assert (Hid : identity <$> out ++ np ≡ₚ identity <$> batch).
  { rewrite <- Hperm, !fmap_app. by rewrite (same_transfer_identity _ _ Hsame). }
  assert (Hout : Forall err_ok batch -> Forall err_ok out).
  { intros Ho. eapply same_transfer_err_ok; [exact Hsame|].
    eapply Forall_impl; [apply (Hok Ho) | apply err_ok_None]. }
  assert (Hnp : NoDup (packet_key <$> batch) -> Forall err_ok batch -> Forall (live_sync (tables s)) batch ->
                Forall (live_sync (tables s2)) np /\ NoDup (packet_key <$> tp)).
  { intros Hnd Ho Hl. rewrite <- (identity_keys _ _ Hperm) in Hnd.
    specialize (Hsync ltac:(by rewrite <- (identity_keys _ _ Hperm)) Ho Hl).
    rewrite Forall_app in Hsync. split; [eapply live_sync_outside; [done..|]; apply Hsync|].
    rewrite fmap_app in Hnd. by apply NoDup_app in Hnd as [? _]. }
  destruct perr as [err|].
  - destruct (errors_Is err context_Canceled) eqn:Ec; [by apply wp_fail|].
    apply wp_bind, wp_bcancel. intros s3 H3. apply wp_ret. split_and!.
    + rewrite fmap_app, <- list_fmap_compose. rewrite fmap_app in Hid. exact Hid.
    + intros Ho. apply Forall_app. split; [|apply (Hok Ho)]. apply Forall_fmap, Forall_true.
      intros t. cbn. apply err_ok_set. by apply Hvis.
    + intros Hnd Ho Hl. destruct (Hnp Hnd Ho Hl) as [Hn _]. rewrite H3. apply Forall_app.
      split; [|done]. apply Forall_fmap, Forall_true. intros t. by intros [=].
  - apply wp_ret. split_and!; [done | |].
    + intros Ho. apply Forall_app. split; [auto | apply (Hok Ho)].
    + intros Hnd Ho Hl. destruct (Hnp Hnd Ho Hl) as [Hn Hndtp]. apply Forall_app. split; [|done].
      specialize (Hsync Hnd Ho Hl). apply Forall_app in Hsync as [Hsync _].
      destruct (Hok Ho) as [_ Hnone]. specialize (Hs eq_refl Hndtp).
      clear -Hs Hsync Hnone. induction Hs as [|t t' tp out H _ IH]; constructor.
      * inversion Hsync; inversion Hnone; subst. intros He. apply H; auto.
      * inversion Hsync; inversion Hnone; subst. auto.
Qed.

Lemma BatchMW_wf batch : dbrel wf_step (BatchMW_Process p batch).
Proof.
  unfold BatchMW_Process. apply dbrel_bind; [apply BatchMW_split_wf|]. intros [np tp]. mw_go;
    first [apply bprocess_wf | apply dbrel_eq; [apply _ | apply bcancel_db]].
Qed.

End Batch.

(** ** The finisher *)

Lemma StateFinisher_wf rs re t : dbrel wf_step (StateFinisher_Process rs re t).
Proof. dbrel_go. Qed.

Lemma StateFinisher_frame rs re t :
  dbrel (frame (eq (packet_key t))) (StateFinisher_Process rs re t).
Proof.
  unfold StateFinisher_Process.
  destruct (GetTimeoutTxHash t), (GetWriteAckStatus t) as [[[]|] ?], (GetAckTxHash t); cbn; dbrel_go.
Qed.

(** The state a complete transfer ends in. *)
Definition final_state (t : IBCV2Transfer) : db.Ibcv2RelayStatus :=
  match TimeoutTxHash t, AckTxHash t, WriteAckStatus t with
  | Some _, _, _ => db.Ibcv2RelayStatusCOMPLETEWITHTIMEOUT
  | None, Some _, _ => db.Ibcv2RelayStatusCOMPLETEWITHACK
  | None, None, Some db.Ibcv2WriteAckStatusSUCCESS => db.Ibcv2RelayStatusCOMPLETEWITHWRITEACKSUCCESS
  | None, None, _ => db.Ibcv2RelayStatusCOMPLETEWITHWRITEACKERROR
  end.

(** The finisher marks a complete transfer whose write-ack status is known (or
    that timed out) and leaves every other one alone. *)
Definition finishable (rs re : bool) (t : IBCV2Transfer) : bool :=
  IsComplete t rs re && bool_decide (is_Some (TimeoutTxHash t) \/ is_Some (WriteAckStatus t)).

(** A recorder in front of the rest leaves the tables alone. *)
Lemma wp_recorder {A} (m : M W unit) (k : M W A) (P : db.DB -> res A -> Sys W -> Prop) s :
  dbrel eq m -> returns m -> (forall s1, wp k (P (tables s1)) s1) -> wp (m ;; k) (P (tables s)) s.
Proof.
  intros Hd Hr Hk. apply wp_bind. unfold wp at 1. specialize (Hd s).
  destruct (Hr s) as ([] & s1 & Es). rewrite Es in *. cbn in *. rewrite Hd. apply Hk.
Qed.

Definition finished_as (t : IBCV2Transfer) (st : db.Ibcv2RelayStatus) (d : db.DB)
    (r : res IBCV2Transfer) (s' : Sys W) : Prop :=
  exists e, r = Ok (t <| State := st |> <| ProcessingError := e |>) /\
    match e with
    | None => exists now, tables s' = db.update_where (packet_key t)
                (fun r => r <| db.UpdatedAt := Some now |> <| db.Status := st |>) d
    | Some e => visible e /\ tables s' = d
    end.

Lemma StateFinisher_store_outcome t st s :
  ProcessingError t = None ->
  wp (StateFinisher_store (t <| State := st |>)) (finished_as t st (tables s)) s.
Proof.
  intros Hpe. unfold StateFinisher_store. wp_run.
  - eexists (Some _). split; [done|]. cbn. auto with relayer.
  - exists None. split; [|eauto]. f_equal. destruct t; cbn in *; congruence.
Qed.

Lemma StateFinisher_outcome rs re t s :
  wp (StateFinisher_Process rs re t) (fun r s' =>
    if finishable rs re t then finished_as t (final_state t) (tables s) r s'
    else r = Ok t /\ s' = s) s.
Proof.
  unfold StateFinisher_Process, finishable.
  destruct (IsComplete t rs re) eqn:Ec; [|case_bool_decide; by apply wp_ret].
  pose proof (proj1 (IsComplete_spec t rs re) Ec) as [Hpe Hc].
  rewrite bool_decide_true by (unfold Error; by rewrite Hpe).
  unfold GetTimeoutTxHash, GetWriteAckStatus, GetAckTxHash, final_state.
  destruct (TimeoutTxHash t), (AckTxHash t), (WriteAckStatus t) as [[]|]; cbn;
    try (apply wp_ret; done);
    repeat (apply (wp_recorder _ _ (finished_as t _)); [dbrel_go | returns_go | intros ?]);
    by apply StateFinisher_store_outcome.
Qed.

End MiddlewareSpec.
