(* ===== verification/Pipeline.v ===== *)
(** * Pipelines

    [src/relayer/ibcv2/pipeline_opts.go], [pipeline.go] and
    [conditional_batch_processor.go]: the options of a pipeline, the stages
    [NewPipeline] connects, the deduper in front of it and the manager that keeps
    one pipeline per connection.  How the stages interleave is the subject of the
    files System and Channels. *)

From S2P Require Import Prelude Db Transfer Config World Logic Processors ProcessorSpecs BatchProcessors.
From S2P Require Import BatchSpecs Middleware.

(** ** Options *)

Definition DefaultShouldRelaySuccessAcks : bool := false.
Definition DefaultShouldRelayErrorAcks : bool := true.
Definition DefaultAckBatchSize : Z := 50.
Definition DefaultAckBatchTimeout : Z := 10 * Second.
Definition DefaultAckBatchConcurrency : Z := 10.
Definition DefaultRecvBatchSize : Z := 50.
Definition DefaultRecvBatchTimeout : Z := 10 * Second.
Definition DefaultRecvBatchConcurrency : Z := 10.
Definition DefaultTimeoutBatchSize : Z := 50.
Definition DefaultTimeoutBatchTimeout : Z := 1 * Minute.
Definition DefaultTimeoutBatchConcurrency : Z := 10.

Record PipelineOptions := mkPipelineOptions {
  ShouldRelaySuccessAcks : bool;
  ShouldRelayErrorAcks : bool;
  AckBatchSize : Z;
  AckBatchTimeout : Z;
  AckBatchConcurrency : Z;
  RecvBatchSize : Z;
  RecvBatchTimeout : Z;
  RecvBatchConcurrency : Z;
  TimeoutBatchSize : Z;
  TimeoutBatchTimeout : Z;
  TimeoutBatchConcurrency : Z;
  SourceChainGasTokenCoingeckoID : string;
  SourceChainGasTokenDecimals : Z;
  DestinationChainGasTokenCoingeckoID : string;
  DestinationChainGasTokenDecimals : Z;
  SourceFinalityOffset : option Z;
  DestinationFinalityOffset : option Z;
}.

Definition NewDefaultPipelineOpts : PipelineOptions := {|
  ShouldRelaySuccessAcks := false;
  ShouldRelayErrorAcks := true;
  AckBatchSize := DefaultAckBatchSize;
  AckBatchTimeout := DefaultAckBatchTimeout;
  AckBatchConcurrency := DefaultAckBatchConcurrency;
  RecvBatchSize := DefaultRecvBatchSize;
  RecvBatchTimeout := DefaultRecvBatchTimeout;
  RecvBatchConcurrency := DefaultRecvBatchSize;
  TimeoutBatchSize := DefaultTimeoutBatchSize;
  TimeoutBatchTimeout := DefaultTimeoutBatchTimeout;
  TimeoutBatchConcurrency := DefaultTimeoutBatchConcurrency;
  SourceChainGasTokenCoingeckoID := "";
  SourceChainGasTokenDecimals := 0;
  DestinationChainGasTokenCoingeckoID := "";
  DestinationChainGasTokenDecimals := 0;
  SourceFinalityOffset := None;
  DestinationFinalityOffset := None;
|}.

Definition NewSmallPipelineOpts : PipelineOptions := {|
  ShouldRelaySuccessAcks := false;
  ShouldRelayErrorAcks := true;
  AckBatchSize := 3;
  AckBatchTimeout := 250 * Millisecond;
  AckBatchConcurrency := 2;
  RecvBatchSize := 3;
  RecvBatchTimeout := 250 * Millisecond;
  RecvBatchConcurrency := 2;
  TimeoutBatchSize := 3;
  TimeoutBatchTimeout := 250 * Millisecond;
  TimeoutBatchConcurrency := 2;
  SourceChainGasTokenCoingeckoID := "";
  SourceChainGasTokenDecimals := 0;
  DestinationChainGasTokenCoingeckoID := "";
  DestinationChainGasTokenDecimals := 0;
  SourceFinalityOffset := None;
  DestinationFinalityOffset := None;
|}.

(** A configured value of zero means the default. *)
Definition or_default (configured default : Z) : Z :=
  if negb (bool_decide (configured = 0)) then configured else default.

Definition NewPipelineOpts (r : configReader) (transfer : IBCV2Transfer) : error + PipelineOptions :=
  match GetChainConfig r (GetSourceChainID transfer) with
  | inl err => inl (EWrap "getting config for chain" err)
  | inr sourceChainConfig =>
      match GetChainConfig r (GetDestinationChainID transfer) with
      | inl err => inl (EWrap "getting config for chain" err)
      | inr destinationChainConfig =>
          match IBCV2 sourceChainConfig with
          | None => inl (ENew "no ibcv2 config for source chain")
          | Some src =>
              match IBCV2 destinationChainConfig with
              | None => inl (ENew "no ibcv2 config for destination chain")
              | Some dst => inr {|
                  ShouldRelaySuccessAcks := cfg_ShouldRelaySuccessAcks src;
                  ShouldRelayErrorAcks := cfg_ShouldRelayErrorAcks src;
                  AckBatchSize := or_default (cfg_AckBatchSize src) DefaultAckBatchSize;
                  AckBatchTimeout := or_default (cfg_AckBatchTimeout src) DefaultAckBatchTimeout;
                  AckBatchConcurrency := or_default (cfg_AckBatchConcurrency src) DefaultAckBatchConcurrency;
                  RecvBatchSize := or_default (cfg_RecvBatchSize dst) DefaultRecvBatchSize;
                  RecvBatchTimeout := or_default (cfg_RecvBatchTimeout dst) DefaultRecvBatchTimeout;
                  RecvBatchConcurrency := or_default (cfg_RecvBatchConcurrency dst) DefaultRecvBatchConcurrency;
                  TimeoutBatchSize := or_default (cfg_TimeoutBatchSize src) DefaultTimeoutBatchSize;
                  TimeoutBatchTimeout := or_default (cfg_TimeoutBatchTimeout src) DefaultTimeoutBatchTimeout;
                  TimeoutBatchConcurrency := or_default (cfg_TimeoutBatchConcurrency src) DefaultTimeoutBatchConcurrency;
                  SourceChainGasTokenCoingeckoID := default "" (GasTokenCoingeckoID sourceChainConfig);
                  SourceChainGasTokenDecimals := GasTokenDecimals sourceChainConfig;
                  DestinationChainGasTokenCoingeckoID := default "" (GasTokenCoingeckoID destinationChainConfig);
                  DestinationChainGasTokenDecimals := GasTokenDecimals destinationChainConfig;
                  SourceFinalityOffset := FinalityOffset src;
                  DestinationFinalityOffset := FinalityOffset dst;
                |}
              end
          end
      end
  end.

(** ** Stages *)

Inductive stage (W : Type) :=
  | Single (p : IBCV2Processor W)
  | Batched (p : IBCV2BatchProcessor W) (maxSize maxDuration concurrency : Z)
  | Finisher (shouldRelaySuccessAcks shouldRelayErrorAcks : bool).
Arguments Single {W} p.
Arguments Batched {W} p maxSize maxDuration concurrency.
Arguments Finisher {W} shouldRelaySuccessAcks shouldRelayErrorAcks.

Section Pipeline.
Context {W : Type} {E : Env W}.

(** A gas calculator is part of the pipeline only when the token is configured and
    there is a price client. *)
Definition gasStage (coingeckoID : string) (decimals : Z)
    (new : PriceClient W -> string -> Z -> IBCV2Processor W) : list (stage W) :=
  match priceClient with
  | Some price =>
      if negb (bool_decide (coingeckoID = "")) && negb (bool_decide (decimals = 0))
      then [Single (new price coingeckoID decimals)]
      else []
  | None => []
  end.

(** [NewPipeline]: the stages in the order their channels are connected. *)
Definition NewPipeline (c : Connection) (opts : PipelineOptions) : list (stage W) :=
  [ Single NewCheckRecvPacketDeliveryProcessor;
    Single NewCheckPacketCommitmentProcessor;
    Single (NewCheckSendFinalityProcessor (SourceFinalityOffset opts));
    Single (NewCheckTimeoutFinalityProcessor (DestinationFinalityOffset opts));
    Batched (NewBatchTimeoutPacketProcessor c) (TimeoutBatchSize opts) (TimeoutBatchTimeout opts)
      (TimeoutBatchConcurrency opts);
    Single (NewRetryTimeoutPacketProcessor (sourceChainID c)) ] ++
  gasStage (SourceChainGasTokenCoingeckoID opts) (SourceChainGasTokenDecimals opts)
    NewTimeoutTxGasCalculatorProcessor ++
  [ Batched (NewBatchRecvPacketProcessor c) (RecvBatchSize opts) (RecvBatchTimeout opts)
      (RecvBatchConcurrency opts);
    Single (NewRetryRecvPacketProcessor (destinationChainID c)) ] ++
  gasStage (DestinationChainGasTokenCoingeckoID opts) (DestinationChainGasTokenDecimals opts)
    NewRecvTxGasCalculatorProcessor ++
  [ Single NewWaitForWriteAckPacketProcessor;
    Single (NewCheckWriteAckFinalityProcessor (ShouldRelaySuccessAcks opts)
              (ShouldRelayErrorAcks opts) (DestinationFinalityOffset opts));
    Single NewCheckPacketCommitmentProcessor;
    Batched (NewBatchAckPacketProcessor c (ShouldRelaySuccessAcks opts) (ShouldRelayErrorAcks opts))
      (AckBatchSize opts) (AckBatchTimeout opts) (AckBatchConcurrency opts);
    Single (NewRetryAckPacketProcessor (sourceChainID c)) ] ++
  gasStage (SourceChainGasTokenCoingeckoID opts) (SourceChainGasTokenDecimals opts)
    NewAckTxGasCalculatorProcessor ++
  [ Finisher (ShouldRelaySuccessAcks opts) (ShouldRelayErrorAcks opts) ].

(** [ConditionallyBatchProcess]: whether a transfer reaching the stage is put in a
    batch or sent on at once. *)
Definition toBatch (p : IBCV2BatchProcessor W) (i : IBCV2Transfer) : M W bool :=
  if negb (bool_decide (Error i = "")) then ret false else BShouldProcess p i.

(** One transfer through one stage, on its own in its batch. *)
Definition run_stage (st : stage W) (t : IBCV2Transfer) : M W IBCV2Transfer :=
  match st with
  | Single p => MW_Process p (Some t)
  | Batched p _ _ _ =>
      let* b := toBatch p t in
      if b then
        let* out := BatchMW_Process p [t] in
        match out with
        | [t'] => ret t'
        | _ => panic
        end
      else ret t
  | Finisher rs re => StateFinisher_Process rs re t
  end.

Fixpoint run_stages (sts : list (stage W)) (t : IBCV2Transfer) : M W IBCV2Transfer :=
  match sts with
  | [] => ret t
  | st :: sts' => let* t' := run_stage st t in run_stages sts' t'
  end.

Class StageSpec (st : stage W) : Prop := stage_spec :
  match st with
  | Single p => ProcessorSpec p
  | Batched p _ _ _ => BatchProcessorSpec p
  | Finisher _ _ => True
  end.

Lemma gasStage_spec id dec new :
  (forall pr i d, ProcessorSpec (new pr i d)) -> Forall StageSpec (gasStage id dec new).
Proof.
  intros H. unfold gasStage. destruct priceClient; [|constructor].
  case_match; constructor; [apply H | constructor].
Qed.

Lemma NewPipeline_spec c opts : Forall StageSpec (NewPipeline c opts).
Proof.
  unfold NewPipeline. repeat (apply Forall_app; split);
    first [apply gasStage_spec; intros; apply _
          | repeat (constructor; [red; first [done | apply _]|]); constructor].
Qed.

(** ** One transfer through the whole pipeline *)

Lemma run_stage_wf st t : StageSpec st -> dbrel wf_step (run_stage st t).
Proof.
  destruct st as [p|p m1 m2 m3|rs re]; intros H; red in H; cbn [run_stage].
  - by apply MW_wf.
  - apply dbrel_bind.
    + unfold toBatch. case_match; [apply dbrel_ret|]. apply dbrel_eq; [apply _ | apply bshould_db].
    + intros []; [|apply dbrel_ret]. apply dbrel_bind; [by apply BatchMW_wf|].
      intros out. destruct out as [|t' []]; first [apply dbrel_ret | apply dbrel_panic].
  - apply StateFinisher_wf.
Qed.

Lemma run_stage_outcome st t s : StageSpec st ->
  wp (run_stage st t) (stage_outcome (tables s) t) s.
Proof.
  destruct st as [p|p m1 m2 m3|rs re]; intros H; red in H; cbn [run_stage].
  - by apply MW_outcome.
  - apply wp_bind. unfold toBatch. case_bool_decide; cbn [negb]; [|apply wp_ret; by apply wp_ret].
    apply (wp_bshould p). intros [] s1 H1; [|apply wp_ret; by rewrite <- H1].
    apply wp_bind. eapply wp_mono; [|by apply BatchMW_outcome].
    rewrite H1. intros [out|e|] s2 H2; cbn; [|done..].
    destruct H2 as (Hp & Ho & Hs).
    destruct out as [|t' [|t'' out]]; cbn in Hp.
    + by apply Permutation_nil_l in Hp.
    + apply wp_ret. apply Permutation_singleton_inj in Hp. split; [done|]. split.
      * intros Hok. specialize (Ho ltac:(by repeat constructor)). by inversion Ho.
      * intros Hok Hl. specialize (Hs ltac:(apply NoDup_singleton) ltac:(by repeat constructor) ltac:(by repeat constructor)).
        by inversion Hs.
    + by apply Permutation_length in Hp.
  - eapply wp_mono; [|apply StateFinisher_outcome]. intros r s' Hr.
    destruct (finishable rs re t) eqn:Ef; [|by destruct Hr as [-> ->]].
    destruct Hr as (e & -> & He). split; [done|]. split.
    + intros _ e'. cbn. intros ->. apply He.
    + intros Hok Hl. destruct e as [e|]; [by intros [=]|]. destruct He as (now & ->). intros _.
      apply in_sync_update; [|done|done|done|progress_tac].
      apply Hl. unfold finishable in Ef. apply andb_true_iff in Ef as [Ef _].
      by apply IsComplete_spec in Ef as [? _].
Qed.

Lemma run_stages_wf sts t : Forall StageSpec sts -> dbrel wf_step (run_stages sts t).
Proof.
  intros H. revert t. induction H as [|st sts Hst _ IH]; intros t; cbn; [apply dbrel_ret|].
  apply dbrel_bind; [by apply run_stage_wf | apply IH].
Qed.

(** Agreement with the row is kept from stage to stage. *)
Lemma run_stages_outcome sts t s : Forall StageSpec sts ->
  wp (run_stages sts t) (stage_outcome (tables s) t) s.
Proof.
  intros H. revert t s. induction H as [|st sts Hst _ IH]; intros t s; cbn; [by apply wp_ret|].
  apply wp_bind. eapply wp_mono; [|by apply run_stage_outcome].
  intros [t'|e|] s1 H1; [|done..]. destruct H1 as (I1 & O1 & L1).
  eapply wp_mono; [|apply IH]. intros [t''|e|] s2 H2; [|done..].
  destruct H2 as (I2 & O2 & L2). split; [congruence|]. split; auto.
Qed.

Lemma run_stages_app l1 l2 t s :
  run_stages (l1 ++ l2) t s = bind (run_stages l1 t) (run_stages l2) s.
Proof.
  revert t s. induction l1 as [|st l1 IH]; intros t s; [done|].
  cbn. unfold bind. destruct (run_stage st t s) as [[t'|e|] s']; [apply IH | done..].
Qed.

(** An errored transfer goes through the rest of the pipeline untouched. *)
Lemma run_stages_errored sts t s :
  Error t <> "" -> run_stages sts t s = (Ok t, s).
Proof.
  intros He. induction sts as [|st sts IH]; [done|].
  cbn [run_stages]. unfold bind at 1.
  assert (Hst : run_stage st t s = (Ok t, s)).
  { destruct st as [p|p m1 m2 m3|rs re]; cbn [run_stage MW_Process];
      unfold toBatch, StateFinisher_Process, bind; by rewrite bool_decide_false. }
  by rewrite Hst.
Qed.

End Pipeline.
