(* ===== verification/Dispatcher.v ===== *)
(** * The deduper, the pipeline manager and the dispatcher

    [PipelineDeduper] and [IBCV2PipelineManager] of [src/relayer/ibcv2/pipeline.go],
    [relay_dispatcher.go], and the latency alert of [ibcv2_transfer_metrics.go] the
    dispatcher calls for every unfinished transfer.  The manager is explicit state:
    a map from connection to the pipeline created for it, a pipeline being its
    options, the keys its deduper holds and the transfers waiting in it. *)

From S2P Require Import Prelude Db Transfer Config World Logic Processors ProcessorSpecs BatchProcessors.
From S2P Require Import BatchSpecs Middleware Pipeline.

#[export] Instance Connection_eq_dec : EqDecision Connection.
Proof. solve_decision. Defined.

#[export] Instance Connection_countable : Countable Connection.
Proof.
  refine (inj_countable'
    (fun c => (sourceChainID c, sourceClientID c, destinationChainID c, destinationClientID c))
    (fun '(a, b, c, d) => mkConnection a b c d) _).
  by intros [].
Defined.

(** [newPipelineKey]: a pipeline's key is the connection it serves. *)
Definition newPipelineKey (transfer : IBCV2Transfer) : Connection :=
  mkConnection (GetSourceChainID transfer) (GetPacketSourceClientID transfer)
    (GetDestinationChainID transfer) (GetPacketDestinationClientID transfer).

Record transferKey := mkTransferKey {
  tk_SourceChainID : string;
  tk_PacketSequenceNumber : Z;
  tk_PacketSourceClientID : string;
}.

#[export] Instance transferKey_eq_dec : EqDecision transferKey.
Proof. solve_decision. Defined.

#[export] Instance transferKey_countable : Countable transferKey.
Proof.
  refine (inj_countable'
    (fun k => (tk_SourceChainID k, tk_PacketSequenceNumber k, tk_PacketSourceClientID k))
    (fun '(a, b, c) => mkTransferKey a b c) _).
  by intros [].
Defined.

Definition newTransferKey (transfer : IBCV2Transfer) : transferKey :=
  mkTransferKey (GetSourceChainID transfer) (GetPacketSequenceNumber transfer)
    (GetPacketSourceClientID transfer).

(** Where a transfer is: waiting in front of stage [n], or collected into the next
    batch of stage [n]. *)
Inductive place :=
  | Waiting (n : nat)
  | Collected (n : nat).

#[export] Instance place_eq_dec : EqDecision place.
Proof. solve_decision. Defined.

Record DedupedPipeline := mkDeduped {
  dp_opts : PipelineOptions;
  inPipeline : gset transferKey;
  flights : list (place * IBCV2Transfer);
}.

#[export] Instance eta_DedupedPipeline : Eta DedupedPipeline := fun d =>
  mkDeduped (dp_opts d) (inPipeline d) (flights d).

Definition NewPipelineDeduper (opts : PipelineOptions) : DedupedPipeline := mkDeduped opts ∅ [].

(** [PipelineDeduper.Push] *)
Definition Push (d : DedupedPipeline) (transfer : IBCV2Transfer) : bool * DedupedPipeline :=
  let key := newTransferKey transfer in
  if bool_decide (key ∈ inPipeline d) then (false, d)
  else (true, d <| inPipeline := {[ key ]} ∪ inPipeline d |>
                <| flights := flights d ++ [(Waiting 0, transfer)] |>).

(** What the deduper's goroutine does with a transfer it polls off the output. *)
Definition Polled (d : DedupedPipeline) (output : IBCV2Transfer) : DedupedPipeline :=
  d <| inPipeline := inPipeline d ∖ {[ newTransferKey output ]} |>.

Notation Manager := (gmap Connection DedupedPipeline).

Section Dispatcher.
Context {W : Type} {E : Env W}.

(** [IBCV2PipelineManager.Pipeline] *)
Definition newPipelineForTransfer (transfer : IBCV2Transfer) : error + DedupedPipeline :=
  match NewPipelineOpts cfg transfer with
  | inl err => inl (EWrap "creating pipeline options" err)
  | inr opts => inr (NewPipelineDeduper opts)
  end.

Definition Pipeline (m : Manager) (transfer : IBCV2Transfer) : error + (DedupedPipeline * Manager) :=
  let key := newPipelineKey transfer in
  match m !! key with
  | Some existing => inr (existing, m)
  | None =>
      match newPipelineForTransfer transfer with
      | inl err => inl (EWrap "creating new pipeline for transfer" err)
      | inr created => inr (created, <[key := created]> m)
      end
  end.

(** [RelayDispatcher.SubmitTransfer] *)
Definition SubmitTransfer (m : Manager) (transfer : IBCV2Transfer) : option error * Manager :=
  match Pipeline m transfer with
  | inl err => (Some (EWrap "getting pipeline to push transfer onto from manager" err), m)
  | inr (pipeline, m1) =>
      match Push pipeline transfer with
      | (false, _) => (Some (ESentinel ErrTransferAlreadyInPipeline), m1)
      | (true, pipeline') => (None, <[newPipelineKey transfer := pipeline']> m1)
      end
  end.

(** ** The latency alert ([ibcv2_transfer_metrics.go]) *)

Definition ongoingRelayType (e : IBCV2Transfer) (shouldRelaySuccessAcks shouldRelayErrorAcks : bool)
    : M W (option RelayType) :=
  if IsComplete e shouldRelaySuccessAcks shouldRelayErrorAcks then ret None else
  let '(_, hasWriteAck) := GetWriteAckTxHash e in
  if negb hasWriteAck then
    let* now := Now in
    if time_After now (GetPacketTimeoutTimestamp e) then ret (Some IBCV2SendToTimeoutRelayType)
    else ret (Some IBCV2SendToRecvRelayType)
  else ret (Some IBCV2RecvToAckRelayType).

Definition evmSourceExcessiveLatency : Z := 60 * Minute.
Definition evmSourceFinality : Z := 15 * Minute.
Definition cosmosSourceExcessiveLatency : Z := 30 * Minute.

(** [cond && time.Since(t) > limit]: the clock is read when [cond] holds. *)
Definition sinceExceeds (cond : bool) (t limit : Z) : M W bool :=
  if cond then let* since := Since t in ret (bool_decide (since > limit)) else ret false.

Definition AlertOnExcessiveRelayLatency (e : IBCV2Transfer) : M W unit :=
  match GetChainConfig cfg (GetSourceChainID e) with
  | inl _ => ret tt
  | inr sourceConfig =>
  match GetChainConfig cfg (GetDestinationChainID e) with
  | inl _ => ret tt
  | inr destConfig =>
  match IBCV2 sourceConfig with
  | None => panic
  | Some ibcv2 =>
  let* relay := ongoingRelayType e (cfg_ShouldRelaySuccessAcks ibcv2) (cfg_ShouldRelayErrorAcks ibcv2) in
  match relay with
  | None => ret tt
  | Some IBCV2SendToRecvRelayType =>
      let alert := emit (AddExcessiveRelayLatencyObservation (ChainName sourceConfig)
                           (ChainName destConfig) (Environment sourceConfig) IBCV2SendToRecvRelayType) in
      let* b1 := sinceExceeds (bool_decide (Type_ sourceConfig = ChainTypeEVM))
                   (GetSourceTxTime e) evmSourceExcessiveLatency in
      (if b1 then alert else ret tt) ;;
      let* b2 := sinceExceeds (bool_decide (Type_ sourceConfig = ChainTypeCOSMOS))
                   (GetSourceTxTime e) cosmosSourceExcessiveLatency in
      (if b2 then alert else ret tt)
  | Some IBCV2RecvToAckRelayType =>
      let '(writeAckTime, _) := GetWriteAckTxTime e in
      let alert := emit (AddExcessiveRelayLatencyObservation (ChainName destConfig)
                           (ChainName sourceConfig) (Environment sourceConfig) IBCV2RecvToAckRelayType) in
      let* b1 := sinceExceeds (bool_decide (Type_ destConfig = ChainTypeEVM))
                   writeAckTime evmSourceExcessiveLatency in
      (if b1 then alert else ret tt) ;;
      let* b2 := sinceExceeds (bool_decide (Type_ destConfig = ChainTypeCOSMOS))
                   writeAckTime cosmosSourceExcessiveLatency in
      (if b2 then alert else ret tt)
  | Some IBCV2SendToTimeoutRelayType =>
      let* since := Since (GetPacketTimeoutTimestamp e) in
      if bool_decide (since < 5 * Minute) then ret tt else
      let* early :=
        (if bool_decide (Type_ sourceConfig = ChainTypeEVM) then
           let* s := Since (GetSourceTxTime e) in ret (bool_decide (s < evmSourceFinality))
         else ret false) in
      if early : bool then ret tt else
      emit (AddExcessiveRelayLatencyObservation (ChainName sourceConfig) (ChainName destConfig)
              (Environment sourceConfig) IBCV2SendToTimeoutRelayType)
  end end end end.

(** ** The dispatcher ([relay_dispatcher.go]) *)

(** One turn of the loop of [SubmitWaitingUnfinishedTransfers]. *)
Definition submitUnfinished (m : Manager) (transfer : db.Ibcv2Transfer) : M W Manager :=
  let t := NewIBCV2Transfer transfer in
  AlertOnExcessiveRelayLatency t ;;
  let '(err, m') := SubmitTransfer m t in
  match err with
  | Some err =>
      if negb (errors_Is err ErrTransferAlreadyInPipeline) then
        try (sql (db.UpdateTransferState db.Ibcv2RelayStatusFAILED (packet_key t))) ;;
        ret m'
      else ret m'
  | None => ret m'
  end.

Fixpoint submitAll (m : Manager) (transfers : list db.Ibcv2Transfer) : M W Manager :=
  match transfers with
  | [] => ret m
  | transfer :: rest => let* m' := submitUnfinished m transfer in submitAll m' rest
  end.

Definition SubmitWaitingUnfinishedTransfers (m : Manager) : M W Manager :=
  let* transfers :=
    wrap "getting unfinished ibcv2 transfers from storage" (sql db.GetUnfinishedIBCV2Transfers) in
  submitAll m transfers.

(** ** Lemmas *)

Lemma NewPipelineOpts_visible t e : newPipelineForTransfer t = inl e -> errors_Is e ErrTransferAlreadyInPipeline = false.
Proof.
  unfold newPipelineForTransfer, NewPipelineOpts, GetChainConfig, not_found.
  intros H. repeat (case_match; simplify_eq/=); done.
Qed.

(** The only error of SubmitTransfer that is not about the configuration is the
    notice that the transfer is in the pipeline already. *)
Lemma SubmitTransfer_cases m t :
  (exists e, newPipelineForTransfer t = inl e /\ m !! newPipelineKey t = None /\
     SubmitTransfer m t =
       (Some (EWrap "getting pipeline to push transfer onto from manager"
                (EWrap "creating new pipeline for transfer" e)), m)) \/
  (exists d m1, Pipeline m t = inr (d, m1) /\ newTransferKey t ∈ inPipeline d /\
     SubmitTransfer m t = (Some (ESentinel ErrTransferAlreadyInPipeline), m1)) \/
  (exists d m1, Pipeline m t = inr (d, m1) /\ newTransferKey t ∉ inPipeline d /\
     SubmitTransfer m t = (None, <[newPipelineKey t :=
        d <| inPipeline := {[ newTransferKey t ]} ∪ inPipeline d |>
          <| flights := flights d ++ [(Waiting 0, t)] |>]> m1)).
Proof.
  unfold SubmitTransfer, Pipeline.
  destruct (m !! newPipelineKey t) as [d|] eqn:Em.
  - unfold Push. case_bool_decide; [right; left | right; right]; eauto 10.
  - destruct (newPipelineForTransfer t) as [e|d] eqn:En; [left; eauto|].
    unfold Push. case_bool_decide; [right; left | right; right]; eauto 10.
Qed.

Lemma dbrel_Alert R `{!StepRel R} t : dbrel R (AlertOnExcessiveRelayLatency t).
Proof. dbrel_go. Qed.

Lemma submitUnfinished_wf m r : dbrel wf_step (submitUnfinished m r).
Proof. unfold submitUnfinished. apply dbrel_bind; [apply dbrel_Alert; apply _|]. intros _. dbrel_go. Qed.

Lemma submitUnfinished_frame m r :
  dbrel (frame (eq (packet_key (NewIBCV2Transfer r)))) (submitUnfinished m r).
Proof. unfold submitUnfinished. apply dbrel_bind; [apply dbrel_Alert; apply _|]. intros _. dbrel_go. Qed.

Lemma SubmitWaiting_wf m : dbrel wf_step (SubmitWaitingUnfinishedTransfers m).
Proof.
  unfold SubmitWaitingUnfinishedTransfers. apply dbrel_bind.
  - apply dbrel_wrap, dbrel_sql. intros now d. cbn. reflexivity.
  - intros rows. revert m. induction rows as [|r rows IH]; intros m; cbn; [apply dbrel_ret|].
    apply dbrel_bind; [apply submitUnfinished_wf | intros m'; apply IH].
Qed.

End Dispatcher.
