(* ===== verification/System.v ===== *)
(** * The running relayer

    The stages of every pipeline, the deduper's poller, the dispatcher and the rest
    of the program as one transition system.  A step is one call: a stage takes a
    transfer (or a collected batch) and processes it, the poller takes a finished
    transfer off the output, the dispatcher reads the unfinished rows or submits
    one of them, or the environment moves (the API inserts rows, the world changes).
    Steps of different pipelines and of the dispatcher interleave freely.  The channels
    of a pipeline are bags here; the goroutines and channels of the file Channels
    implement this system. *)

From S2P Require Import Prelude Db Transfer Config World Logic Processors ProcessorSpecs BatchProcessors.
From S2P Require Import BatchSpecs Middleware Pipeline Dispatcher.

Record Relayer (W : Type) := mkRelayer {
  sys : Sys W;
  manager : Manager;
  snapshot : list db.Ibcv2Transfer;
}.
Arguments mkRelayer {W} sys manager snapshot.
Arguments sys {W} r.
Arguments manager {W} r.
Arguments snapshot {W} r.

(** Rows stay and keep what identifies them. *)
Definition persist (d d' : db.DB) : Prop :=
  forall i r, db.ibcv2_transfers d !! i = Some r ->
    exists r', db.ibcv2_transfers d' !! i = Some r' /\ row_identity r' = row_identity r.

#[export] Instance persist_steprel : StepRel persist.
Proof.
  split.
  - split; [intros d i r; eauto|]. intros d1 d2 d3 H1 H2 i r Hr.
    destruct (H1 i r Hr) as (r' & Hr' & E1). destruct (H2 i r' Hr') as (r'' & ? & E2).
    exists r''. split; congruence.
  - intros d d' _ i r Hr. eauto.
Qed.

Lemma frame_persist K d d' : frame K d d' -> persist d d'.
Proof.
  intros F i r Hr. specialize (F i). rewrite Hr in F.
  destruct (_ !! i) as [r'|]; [|done]. exists r'. split; [done | apply F].
Qed.

Lemma identity_row r r' :
  row_identity r' = row_identity r -> identity (NewIBCV2Transfer r') = identity (NewIBCV2Transfer r).
Proof. unfold row_identity, identity, db.row_key. cbn. intros [=]. congruence. Qed.

Section System.
Context {W : Type} {E : Env W}.

Definition stages (c : Connection) (d : DedupedPipeline) : list (stage W) := NewPipeline c (dp_opts d).

Definition set_flights (m : Manager) (c : Connection) (d : DedupedPipeline)
    (fl : list (place * IBCV2Transfer)) : Manager := <[c := d <| flights := fl |>]> m.

Inductive step : Relayer W -> Relayer W -> Prop :=
  | step_env s s' m sn :
      wf_step (tables s) (tables s') -> persist (tables s) (tables s') ->
      step (mkRelayer s m sn) (mkRelayer s' m sn)
  | step_snapshot s s' m rows :
      sql db.GetUnfinishedIBCV2Transfers s = (Ok rows, s') ->
      step (mkRelayer s m []) (mkRelayer s' m rows)
  | step_submit s s' m m' r sn :
      submitUnfinished m r s = (Ok m', s') ->
      step (mkRelayer s m (r :: sn)) (mkRelayer s' m' sn)
  | step_single s s' m sn c d n p t t' fl :
      m !! c = Some d -> stages c d !! n = Some (Single p) ->
      flights d ≡ₚ (Waiting n, t) :: fl ->
      MW_Process p (Some t) s = (Ok t', s') ->
      step (mkRelayer s m sn) (mkRelayer s' (set_flights m c d ((Waiting (S n), t') :: fl)) sn)
  | step_single_dropped s s' m sn c d n p t e fl :
      m !! c = Some d -> stages c d !! n = Some (Single p) ->
      flights d ≡ₚ (Waiting n, t) :: fl ->
      MW_Process p (Some t) s = (Fail e, s') ->
      step (mkRelayer s m sn) (mkRelayer s' (set_flights m c d fl) sn)
  | step_route s s' m sn c d n p size dur conc t b fl :
      m !! c = Some d -> stages c d !! n = Some (Batched p size dur conc) ->
      flights d ≡ₚ (Waiting n, t) :: fl ->
      toBatch p t s = (Ok b, s') ->
      step (mkRelayer s m sn)
        (mkRelayer s' (set_flights m c d
           ((if b : bool then Collected n else Waiting (S n), t) :: fl)) sn)
  | step_batch s s' m sn c d n p size dur conc batch out fl :
      m !! c = Some d -> stages c d !! n = Some (Batched p size dur conc) ->
      flights d ≡ₚ ((Collected n,.) <$> batch) ++ fl ->
      batch <> [] -> Z.of_nat (length batch) <= size ->
      BatchMW_Process p batch s = (Ok out, s') ->
      step (mkRelayer s m sn)
        (mkRelayer s' (set_flights m c d (((Waiting (S n),.) <$> out) ++ fl)) sn)
  | step_batch_dropped s s' m sn c d n p size dur conc batch e fl :
      m !! c = Some d -> stages c d !! n = Some (Batched p size dur conc) ->
      flights d ≡ₚ ((Collected n,.) <$> batch) ++ fl ->
      batch <> [] -> Z.of_nat (length batch) <= size ->
      BatchMW_Process p batch s = (Fail e, s') ->
      step (mkRelayer s m sn) (mkRelayer s' (set_flights m c d fl) sn)
  | step_finish s s' m sn c d n rs re t t' fl :
      m !! c = Some d -> stages c d !! n = Some (Finisher rs re) ->
      flights d ≡ₚ (Waiting n, t) :: fl ->
      StateFinisher_Process rs re t s = (Ok t', s') ->
      step (mkRelayer s m sn) (mkRelayer s' (set_flights m c d ((Waiting (S n), t') :: fl)) sn)
  | step_output s m sn c d n t fl :
      m !! c = Some d -> stages c d !! n = None ->
      flights d ≡ₚ (Waiting n, t) :: fl ->
      step (mkRelayer s m sn)
        (mkRelayer s (<[c := (Polled d t) <| flights := fl |>]> m) sn).

Definition initial (s : Relayer W) : Prop :=
  db.wf_db (tables (sys s)) /\ manager s = ∅ /\ snapshot s = [].

Inductive reachable : Relayer W -> Prop :=
  | reach_init s : initial s -> reachable s
  | reach_step s s' : reachable s -> step s s' -> reachable s'.

(** ** The invariant *)

(** A transfer of the pipeline for [c] whose deduper holds its key and whose row is
    in the database. *)
Definition flight_ok (db_ : db.DB) (c : Connection) (d : DedupedPipeline) (t : IBCV2Transfer) : Prop :=
  newPipelineKey t = c /\ newTransferKey t ∈ inPipeline d /\
  exists i r, db.ibcv2_transfers db_ !! i = Some r /\ identity t = identity (NewIBCV2Transfer r).

Definition pipeline_ok (db_ : db.DB) (c : Connection) (d : DedupedPipeline) : Prop :=
  NoDup (newTransferKey <$> (flights d).*2) /\
  forall t, t ∈ (flights d).*2 -> flight_ok db_ c d t.

Record inv (s : Relayer W) : Prop := {
  inv_wf : db.wf_db (tables (sys s));
  inv_pipelines : forall c d, manager s !! c = Some d -> pipeline_ok (tables (sys s)) c d;
  inv_snapshot : forall r, r ∈ snapshot s -> exists r',
    db.ibcv2_transfers (tables (sys s)) !! db.ID r = Some r' /\ row_identity r' = row_identity r;
}.

Lemma identity_keys_eq t t' :
  identity t' = identity t ->
  newPipelineKey t' = newPipelineKey t /\ newTransferKey t' = newTransferKey t.
Proof.
  unfold identity, newPipelineKey, newTransferKey, GetSourceChainID, GetPacketSourceClientID,
    GetDestinationChainID, GetPacketDestinationClientID, GetPacketSequenceNumber.
  intros [=]. split; congruence.
Qed.

Lemma pipeline_ok_persist d0 d1 c d : persist d0 d1 -> pipeline_ok d0 c d -> pipeline_ok d1 c d.
Proof.
  intros Hp [Hn Hf]. split; [done|]. intros t Ht.
  destruct (Hf t Ht) as (H1 & H2 & i & r & Hr & Hi). split; [done|]. split; [done|].
  destruct (Hp i r Hr) as (r' & Hr' & Hid). exists i, r'. split; [done|].
  by rewrite (identity_row _ _ Hid).
Qed.

(** Replacing flights by flights of the same packets. *)
Lemma pipeline_ok_replace db_ c d fl :
  pipeline_ok db_ c d ->
  identity <$> fl.*2 ⊆+ identity <$> (flights d).*2 ->
  pipeline_ok db_ c (d <| flights := fl |>).
Proof.
  intros [Hn Hf] Hsub.
  assert (Hkeys : forall l : list IBCV2Transfer,
    newTransferKey <$> l =
    (fun i : Z * string * string * string * Z * Z * string * string * Z =>
       match i with (_, c, _, _, _, n, s, _, _) => mkTransferKey c n s end) <$> (identity <$> l)).
  { intros l. rewrite <- list_fmap_compose. done. }
  split; cbn.
  - rewrite Hkeys in *. apply submseteq_Permutation in Hsub as [k Hk]. rewrite Hk in Hn.
    rewrite fmap_app in Hn. by apply NoDup_app in Hn as [? _].
  - intros t Ht. apply (list_elem_of_fmap_2 identity) in Ht.
    eapply elem_of_submseteq in Ht; [|exact Hsub].
    apply list_elem_of_fmap in Ht as (t0 & Hid & Ht0).
    destruct (identity_keys_eq _ _ Hid) as [Hk1 Hk2].
    destruct (Hf t0 Ht0) as (H1 & H2 & i & r & Hr & Hi).
    unfold flight_ok. cbn. rewrite Hk1, Hk2. split; [done|]. split; [done|].
    exists i, r. split; congruence.
Qed.

Lemma inv_update s0 s1 m sn c d fl :
  inv (mkRelayer s0 m sn) -> wf_step (tables s0) (tables s1) -> persist (tables s0) (tables s1) ->
  m !! c = Some d -> identity <$> fl.*2 ⊆+ identity <$> (flights d).*2 ->
  inv (mkRelayer s1 (set_flights m c d fl) sn).
Proof.
  intros [Iw Ip Is] Hw Hp Hc Hsub. unfold set_flights. cbn in *. split; cbn.
  - by apply Hw.
  - intros c' d' [[<- <-]|[N H]]%lookup_insert_Some.
    + eapply pipeline_ok_persist; [exact Hp|]. apply pipeline_ok_replace; auto.
    + eapply pipeline_ok_persist; eauto.
  - intros r Hr. destruct (Is r Hr) as (r' & Hr' & E1).
    destruct (Hp _ _ Hr') as (r'' & ? & E2). exists r''. split; congruence.
Qed.

(** A deduper that holds the key of none of its flights' packets accepts a transfer
    of a packet that is nowhere in flight. *)
Lemma inv_push s m sn c d t i r :
  inv (mkRelayer s m sn) ->
  db.ibcv2_transfers (tables s) !! i = Some r -> identity t = identity (NewIBCV2Transfer r) ->
  newPipelineKey t = c -> newTransferKey t ∉ inPipeline d ->
  (m !! c = Some d \/ (m !! c = None /\ flights d = [])) ->
  inv (mkRelayer s (<[c := d <| inPipeline := {[ newTransferKey t ]} ∪ inPipeline d |>
                             <| flights := flights d ++ [(Waiting 0, t)] |>]> m) sn).
Proof.
  intros [Iw Ip Is] Hr Hid Hc Hk Hm. cbn in *. split; cbn; [done| |done].
  assert (Hold : pipeline_ok (tables s) c d).
  { destruct Hm as [Hm|[_ Hm]]; [by apply Ip|]. split; rewrite Hm; [constructor|]. by intros ? ?%not_elem_of_nil. }
  destruct Hold as [Hn Hf].
  intros c' d' [[<- <-]|[N H]]%lookup_insert_Some; [|by apply Ip]. split; cbn.
  - rewrite !fmap_app. cbn. apply NoDup_app. split; [done|]. split; [|apply NoDup_singleton].
    intros k Hk1 Hk2%list_elem_of_singleton. subst k. apply Hk.
    apply list_elem_of_fmap in Hk1 as (t' & Ek & Ht'). rewrite Ek. by apply Hf.
  - intros t'. rewrite fmap_app, elem_of_app. cbn. intros [Ht'|Ht'%list_elem_of_singleton]; [|subst t'].
    + destruct (Hf t' Ht') as (? & ? & ?). split; [done|]. split; [set_solver | done].
    + split; [done|]. split; [set_solver|]. eauto.
Qed.

(** A transfer leaves the pipeline and its key the deduper. *)
Lemma inv_output s m sn c d n t fl :
  inv (mkRelayer s m sn) -> m !! c = Some d -> flights d ≡ₚ (Waiting n, t) :: fl ->
  inv (mkRelayer s (<[c := (Polled d t) <| flights := fl |>]> m) sn).
Proof.
  intros [Iw Ip Is] Hc Hfl. cbn in *. split; cbn; [done| |done].
  intros c' d' [[<- <-]|[N H]]%lookup_insert_Some; [|by apply Ip].
  destruct (Ip _ _ Hc) as [Hn Hf].
  assert (Hp2 : (flights d).*2 ≡ₚ t :: fl.*2) by by rewrite Hfl.
  rewrite Hp2 in Hn. cbn in Hn. apply NoDup_cons in Hn as [Hn1 Hn2]. split; cbn; [done|].
  intros t' Ht'. destruct (Hf t') as (H1 & H2 & H3); [rewrite Hp2; by right|].
  split; [done|]. split; [|done]. cbn. apply elem_of_difference. split; [done|].
  intros Ek%elem_of_singleton. apply Hn1. rewrite <- Ek. by apply list_elem_of_fmap_2.
Qed.

(** ** Every step keeps the invariant *)

Lemma stages_spec c d n st : stages c d !! n = Some st -> StageSpec st.
Proof. intros H. by eapply Forall_lookup_1; [apply NewPipeline_spec|]. Qed.

Lemma wp_run {A} (m : M W A) Q s r s' : wp m Q s -> m s = (r, s') -> Q r s'.
Proof. unfold wp. intros H Hm. by rewrite Hm in H. Qed.

Lemma dbrel_run {A} R (m : M W A) s r s' : dbrel R m -> m s = (r, s') -> R (tables s) (tables s').
Proof. intros H Hm. specialize (H s). by rewrite Hm in H. Qed.

Lemma snd_paired (pl : place) (l : list IBCV2Transfer) : ((pl,.) <$> l).*2 = l.
Proof. rewrite <- list_fmap_compose. apply list_fmap_id. Qed.

Lemma BatchMW_persist p batch : BatchProcessorSpec p -> dbrel persist (BatchMW_Process (W:=W) p batch).
Proof.
  intros Hp. unfold BatchMW_Process. apply dbrel_bind.
  - intros s. eapply frame_persist, BatchMW_split_frame; apply _.
  - intros [np tp]. assert (HF : dbrel persist (BProcess p tp)).
    { intros s. eapply frame_persist, bprocess_frame. }
    destruct tp; [apply dbrel_ret|]. apply dbrel_bind; [exact HF|]. intros [out [err|]]; [|apply dbrel_ret].
    destruct (errors_Is _ _); [apply dbrel_fail|].
    apply dbrel_bind; [|intros _; apply dbrel_ret]. apply dbrel_eq; [apply _ | apply bcancel_db].
Qed.

Lemma submit_inv s s' m m' r sn :
  inv (mkRelayer s m (r :: sn)) -> submitUnfinished m r s = (Ok m', s') -> inv (mkRelayer s' m' sn).
Proof.
  intros I Hs.
  pose proof (dbrel_run _ _ _ _ _ (submitUnfinished_wf m r) Hs) as Hw.
  pose proof (frame_persist _ _ _ (dbrel_run _ _ _ _ _ (submitUnfinished_frame m r) Hs)) as Hp.
  destruct (inv_snapshot _ I r) as (r0 & Hr0 & Er0); [left|]. cbn in *.
  assert (I' : inv (mkRelayer s' m sn)).
  { destruct I as [Iw Ip Is]; cbn in *. split; cbn; [by apply Hw | |].
    - intros c d H. eapply pipeline_ok_persist; eauto.
    - intros r1 Hr1. destruct (Is r1) as (r2 & Hr2 & E2); [by right|].
      destruct (Hp _ _ Hr2) as (r3 & ? & E3). exists r3. split; congruence. }
  destruct (Hp _ _ Hr0) as (r1 & Hr1 & E1).
  assert (Hm' : m' = snd (SubmitTransfer m (NewIBCV2Transfer r))).
  { unfold submitUnfinished, bind in Hs.
    destruct (AlertOnExcessiveRelayLatency _ s) as [[[]|e|] s1]; [|done..].
    destruct (SubmitTransfer m (NewIBCV2Transfer r)) as [[err|] m1]; [|by inversion Hs].
    destruct (negb _); [|by inversion Hs].
    destruct (try _ s1) as [[x|e|] s2]; by inversion Hs. }
  destruct (SubmitTransfer_cases m (NewIBCV2Transfer r))
    as [(e & _ & _ & Hsub)|[(d & m1 & Hpl & _ & Hsub)|(d & m1 & Hpl & Hk & Hsub)]];
    rewrite Hsub in Hm'; cbn in Hm'; subst m'.
  - done.
  - unfold Pipeline in Hpl. destruct (m !! _) as [d0|] eqn:Em; [by inversion Hpl; subst|].
    destruct (newPipelineForTransfer _) as [|d0] eqn:En; inversion Hpl; subst.
    destruct I' as [Iw Ip Is]; cbn in *. split; cbn; [done | | done].
    intros c' d' [[<- <-]|[N H]]%lookup_insert_Some; [|by apply Ip].
    unfold newPipelineForTransfer in En. destruct (NewPipelineOpts _ _); inversion En; subst.
    split; [constructor|]. by intros ? ?%not_elem_of_nil.
  - assert (Hd : m1 = m /\ m !! newPipelineKey (NewIBCV2Transfer r) = Some d \/
                 m1 = <[newPipelineKey (NewIBCV2Transfer r) := d]> m /\
                 m !! newPipelineKey (NewIBCV2Transfer r) = None /\ flights d = []).
    { unfold Pipeline in Hpl. destruct (m !! _) as [d0|] eqn:Em; [left; by inversion Hpl; subst|].
      right. destruct (newPipelineForTransfer _) as [|d0] eqn:En; inversion Hpl; subst.
      split; [done|]. split; [done|].
      unfold newPipelineForTransfer in En. by destruct (NewPipelineOpts _ _); inversion En; subst. }
    assert (Hid : identity (NewIBCV2Transfer r) = identity (NewIBCV2Transfer r1)).
    { symmetry. apply identity_row. congruence. }
    destruct Hd as [[-> Hm]|(-> & Hm & Hfl)].
    + eapply inv_push; [exact I' | exact Hr1 | exact Hid | done | done | auto].
    + rewrite insert_insert_eq.
      eapply inv_push; [exact I' | exact Hr1 | exact Hid | done | done | auto].
Qed.

Lemma snapshot_inv s s' m rows : inv (mkRelayer s m []) -> sql db.GetUnfinishedIBCV2Transfers s = (Ok rows, s') ->
  inv (mkRelayer s' m rows).
Proof.
  intros I Hq.
  assert (Hr : tables s' = tables s /\ forall r, r ∈ rows -> exists i, db.ibcv2_transfers (tables s) !! i = Some r).
    { unfold sql in Hq. destruct (db_exec (world s)) as [[e|now] w]; [done|].
      cbn in Hq. injection Hq as <- <-. split; [done|]. intros r [_ Hr]%list_elem_of_filter.
      apply list_elem_of_fmap in Hr as ([i r'] & -> & Hr). exists i. by apply elem_of_map_to_list in Hr. }
    destruct Hr as [Ht Hr]. destruct I as [Iw Ip Is]; cbn in *. split; cbn; rewrite Ht; [done..|].
    intros r Hin. destruct (Hr r Hin) as [i Hi]. exists r.
    destruct (db.wf_transfer_id _ Iw i r Hi) as [-> _]. done.
Qed.

Lemma step_inv s s' : inv s -> step s s' -> inv s'.
Proof.
  intros I Hstep. destruct Hstep as
    [s s' m sn Hw Hp | s s' m rows Hq | s s' m m' r sn Hs
    | s s' m sn c d n p t t' fl Hc Hst Hfl Hrun | s s' m sn c d n p t e fl Hc Hst Hfl Hrun
    | s s' m sn c d n p size dur conc t b fl Hc Hst Hfl Hrun
    | s s' m sn c d n p size dur conc batch out fl Hc Hst Hfl Hne Hsz Hrun
    | s s' m sn c d n p size dur conc batch e fl Hc Hst Hfl Hne Hsz Hrun
    | s s' m sn c d n rs re t t' fl Hc Hst Hfl Hrun
    | s m sn c d n t fl Hc Hst Hfl ];
    try (apply stages_spec in Hst; red in Hst).
  - destruct I as [Iw Ip Is]; cbn in *. split; cbn; [by apply Hw | |].
    + intros c d H. eapply pipeline_ok_persist; eauto.
    + intros r Hr. destruct (Is r Hr) as (r1 & Hr1 & E1).
      destruct (Hp _ _ Hr1) as (r2 & ? & E2). exists r2. split; congruence.
  - by eapply snapshot_inv.
  - by eapply submit_inv.
  - eapply inv_update; [exact I | by eapply dbrel_run; [by apply MW_wf|] | | done |].
    + eapply frame_persist, dbrel_run; [by apply MW_frame | done].
    + rewrite Hfl. cbn. apply (wp_run _ _ _ _ _ (MW_outcome p t s)) in Hrun as (-> & _). done.
  - eapply inv_update; [exact I | by eapply dbrel_run; [by apply MW_wf|] | | done |].
    + eapply frame_persist, dbrel_run; [by apply MW_frame | done].
    + rewrite Hfl. cbn. by apply submseteq_cons.
  - assert (Ht : tables s = tables s').
    { eapply dbrel_run; [|exact Hrun]. unfold toBatch. case_match; [apply dbrel_ret | apply bshould_db]. }
    eapply inv_update; [exact I | rewrite Ht; reflexivity | rewrite Ht; reflexivity | done |].
    by rewrite Hfl.
  - eapply inv_update; [exact I | by eapply dbrel_run; [by apply BatchMW_wf|] | | done |].
    + by eapply dbrel_run; [by apply BatchMW_persist|].
    + apply (wp_run _ _ _ _ _ (BatchMW_outcome p batch s)) in Hrun as (Hperm & _).
      rewrite Hfl, !fmap_app, !snd_paired. by rewrite Hperm.
  - eapply inv_update; [exact I | by eapply dbrel_run; [by apply BatchMW_wf|] | | done |].
    + by eapply dbrel_run; [by apply BatchMW_persist|].
    + rewrite Hfl, !fmap_app. by apply submseteq_inserts_l.
  - eapply inv_update; [exact I | by eapply dbrel_run; [apply StateFinisher_wf|] | | done |].
    + eapply frame_persist, dbrel_run; [apply StateFinisher_frame | done].
    + rewrite Hfl. cbn. apply (wp_run _ _ _ _ _ (StateFinisher_outcome rs re t s)) in Hrun.
      destruct (finishable rs re t); [destruct Hrun as (e & [= ->] & _) | destruct Hrun as [[= ->] _]]; done.
  - by eapply inv_output.
Qed.

Lemma reachable_inv s : reachable s -> inv s.
Proof.
  induction 1 as [[s m sn] (Hw & Hm & Hs)|s s' _ IH Hstep]; [|by eapply step_inv].
  cbn in *. subst. split; cbn; [done | intros c d; by rewrite lookup_empty |].
  by intros ? ?%not_elem_of_nil.
Qed.

(** The row of a flight is the row its packet key selects. *)
Lemma flight_row_key db_ c d t :
  db.wf_db db_ -> flight_ok db_ c d t ->
  exists i r, db.ibcv2_transfers db_ !! i = Some r /\ db.row_key r = packet_key t /\
              identity t = identity (NewIBCV2Transfer r).
Proof.
  intros Hw (_ & _ & i & r & Hr & Hid). exists i, r. split; [done|]. split; [|done].
  rewrite (identity_packet_key _ _ Hid), packet_key_NewIBCV2Transfer; [done|].
  by eapply db.wf_transfer_seq.
Qed.

(** C2: in every reachable state of the relayer, whatever the interleaving of the
    pipelines, the dispatcher and the environment, a packet is in flight at one
    place at most: two positions of two pipelines whose transfers carry the same
    packet key are the same position of the same pipeline. *)
Theorem in_flight_unique s c1 c2 d1 d2 i1 i2 pl1 pl2 t1 t2 :
  reachable s ->
  manager s !! c1 = Some d1 -> manager s !! c2 = Some d2 ->
  flights d1 !! i1 = Some (pl1, t1) -> flights d2 !! i2 = Some (pl2, t2) ->
  packet_key t1 = packet_key t2 ->
  c1 = c2 /\ i1 = i2.
Proof.
  intros Hr Hc1 Hc2 H1 H2 Hk. apply reachable_inv in Hr as [Iw Ip _].
  destruct (Ip _ _ Hc1) as [_ Hf1]. destruct (Ip _ _ Hc2) as [Hn2 Hf2].
  assert (F1 : (flights d1).*2 !! i1 = Some t1) by by rewrite list_lookup_fmap, H1.
  assert (F2 : (flights d2).*2 !! i2 = Some t2) by by rewrite list_lookup_fmap, H2.
  pose proof (Hf1 t1 (list_elem_of_lookup_2 _ _ _ F1)) as Ho1.
  pose proof (Hf2 t2 (list_elem_of_lookup_2 _ _ _ F2)) as Ho2.
  destruct (flight_row_key _ _ _ _ Iw Ho1) as (j1 & r1 & Hr1 & Hk1 & Hid1).
  destruct (flight_row_key _ _ _ _ Iw Ho2) as (j2 & r2 & Hr2 & Hk2 & Hid2).
  assert (j1 = j2) as <- by (eapply db.wf_transfer_unique; [exact Iw | done | done | congruence]).
  assert (Hid : identity t1 = identity t2) by congruence.
  destruct (identity_keys_eq _ _ Hid) as [Hp Ht].
  assert (Hc : c1 = c2) by (destruct Ho1 as [<- _], Ho2 as [<- _]; done).
  split; [done|]. subst c2. assert (d1 = d2) as <- by congruence.
  eapply (NoDup_lookup (newTransferKey <$> (flights d1).*2));
    [done | by rewrite list_lookup_fmap, F1 | by rewrite list_lookup_fmap, F2, Ht].
Qed.

End System.
