(* ===== verification/Channels.v ===== *)
(** * The goroutines and channels of a pipeline

    The file System treats the channels of a pipeline as bags of transfers.  Here
    they are channels: [NewPipeline] of [src/relayer/ibcv2/pipeline.go] connects
    goroutines by unbuffered channels behind one buffered input,
    [conditional_batch_processor.go] adds the router, the forwarder with its buffer
    of batches and the drainer of a batch stage, and [PipelineDeduper.Push] holds
    the deduper's lock while it sends.  A step is one goroutine's move: an internal
    move of a stage, a rendezvous of two neighbours, a send to the input, a receive
    of the output, or the removal of a key under the lock.

    The combinators of [github.com/deliveryhero/pipeline] are not part of the
    repository; their documented behaviour is what the rules state of them:
    [Emitter] passes on what its function returns, [ProcessConcurrently] has at most
    [concurrency] inputs in hand and calls [Cancel] on an input whose [Process]
    fails, [Collect] collects up to [maxSize] items and passes on what it has when
    its timer fires.  [extra] is the number of inputs the loop of
    [ProcessConcurrently] may hold besides; the theorems are for any such number. *)

From S2P Require Import Prelude Db Transfer Config World Logic Processors ProcessorSpecs BatchProcessors.
From S2P Require Import BatchSpecs Middleware Pipeline Dispatcher System.

(** ** Goroutines *)

(** [ProcessConcurrently]: inputs being processed, and outputs whose goroutine
    waits to send them on. *)
Record fanout (A : Type) := mkFanout { processing : list A; results : list A }.
Arguments mkFanout {A} processing results.
Arguments processing {A} f.
Arguments results {A} f.

#[export] Instance eta_fanout A : Eta (fanout A) := fun f => mkFanout (processing f) (results f).

(** The first goroutine of [ConditionallyBatchProcess]: waiting for an input, holding
    one, or sending it to [out] or to [toBatch]. *)
Inductive routing :=
  | Receiving
  | Received (i : IBCV2Transfer)
  | SendingOut (i : IBCV2Transfer)
  | SendingToBatch (i : IBCV2Transfer).

(** [ConditionallyBatchProcess]: the router, the batch being collected, the batch the
    collector sends, the batch the forwarding goroutine sends, the channel
    [bufferedBatches], the batches being processed, and the results the last
    goroutine sends to [out]. *)
Record batcher := mkBatcher {
  router : routing;
  collecting : list IBCV2Transfer;
  collected : option (list IBCV2Transfer);
  forwarding : option (list IBCV2Transfer);
  bufferedBatches : list (list IBCV2Transfer);
  batchsResults : fanout (list IBCV2Transfer);
  draining : list IBCV2Transfer;
}.

#[export] Instance eta_batcher : Eta batcher := fun b =>
  mkBatcher (router b) (collecting b) (collected b) (forwarding b) (bufferedBatches b)
    (batchsResults b) (draining b).

Inductive node :=
  | NSingle (f : fanout IBCV2Transfer)
  | NBatch (b : batcher).

(** The constants of [NewPipeline] and [ConditionallyBatchProcess]. *)
Definition inputBufferSize : Z := 10000.
Definition concurrency : Z := 10.
Definition bufferSize : Z := 1000.

(** A pipeline and the deduper in front of it: the keys of the deduper, the buffer of
    the input channel, what the emitter sends, the stages, and what the deduper's
    goroutine has polled and not yet removed. *)
Record net := mkNet {
  n_opts : PipelineOptions;
  n_keys : gset transferKey;
  n_input : list IBCV2Transfer;
  n_emitter : option IBCV2Transfer;
  n_nodes : list node;
  n_poller : option IBCV2Transfer;
}.

#[export] Instance eta_net : Eta net := fun n =>
  mkNet (n_opts n) (n_keys n) (n_input n) (n_emitter n) (n_nodes n) (n_poller n).

(** The relayer: [c_pushing] is the transfer the dispatcher's goroutine is sending to
    the input of a pipeline, whose deduper it has locked. *)
Record Channels (W : Type) := mkChannels {
  c_sys : Sys W;
  c_nets : gmap Connection net;
  c_snapshot : list db.Ibcv2Transfer;
  c_pushing : option (Connection * IBCV2Transfer);
}.
Arguments mkChannels {W} c_sys c_nets c_snapshot c_pushing.
Arguments c_sys {W} c.
Arguments c_nets {W} c.
Arguments c_snapshot {W} c.
Arguments c_pushing {W} c.

Section Channels.
Context {W : Type} {E : Env W}.
Context (extra : nat).

Definition new_node (st : stage W) : node :=
  match st with
  | Batched _ _ _ _ => NBatch (mkBatcher Receiving [] None None [] (mkFanout [] []) [])
  | _ => NSingle (mkFanout [] [])
  end.

Definition new_net (c : Connection) (opts : PipelineOptions) : net :=
  mkNet opts ∅ [] None (new_node <$> NewPipeline c opts) None.

(** ** The moves of a stage *)

(** The library's call of a processor on an input. *)
Definition process {A} (Process : A -> M W A) (Cancel : A -> error -> M W unit) (i : A)
    : M W (option A) :=
  let* r := try (Process i) in
  match r with
  | inl err => Cancel i err ;; ret None
  | inr o => ret (Some o)
  end.

Definition process_transfer (st : stage W) (i : IBCV2Transfer) : M W (option IBCV2Transfer) :=
  match st with
  | Single p => process (fun i => MW_Process p (Some i)) (fun i => MW_Cancel p (Some i)) i
  | Finisher rs re => process (StateFinisher_Process rs re) StateFinisher_Cancel i
  | Batched _ _ _ _ => panic
  end.

Definition process_batch (p : IBCV2BatchProcessor W) (batch : list IBCV2Transfer)
    : M W (option (list IBCV2Transfer)) :=
  process (BatchMW_Process p) (BatchMW_Cancel p) batch.

(** A processor is free. *)
Definition has_room {A} (conc : Z) (f : fanout A) : Prop :=
  Z.of_nat (length (processing f) + length (results f)) < conc + Z.of_nat extra.

(** Sending on the stage's output. *)
Inductive gives : node -> IBCV2Transfer -> node -> Prop :=
  | gives_result f l1 i l2 :
      results f = l1 ++ i :: l2 ->
      gives (NSingle f) i (NSingle (f <| results := l1 ++ l2 |>))
  | gives_routed b i :
      router b = SendingOut i ->
      gives (NBatch b) i (NBatch (b <| router := Receiving |>))
  | gives_drained b i rest :
      draining b = i :: rest ->
      gives (NBatch b) i (NBatch (b <| draining := rest |>)).

(** Receiving from the stage's input. *)
Inductive takes : stage W -> node -> IBCV2Transfer -> node -> Prop :=
  | takes_single p f i :
      has_room concurrency f ->
      takes (Single p) (NSingle f) i (NSingle (f <| processing := processing f ++ [i] |>))
  | takes_finisher rs re f i :
      has_room concurrency f ->
      takes (Finisher rs re) (NSingle f) i (NSingle (f <| processing := processing f ++ [i] |>))
  | takes_batched p size dur conc b i :
      router b = Receiving ->
      takes (Batched p size dur conc) (NBatch b) i (NBatch (b <| router := Received i |>)).

(** The goroutines inside a stage. *)
Inductive works : stage W -> Sys W -> node -> Sys W -> node -> Prop :=
  | works_process st s s' f l1 i l2 o :
      processing f = l1 ++ i :: l2 -> process_transfer st i s = (Ok o, s') ->
      works st s (NSingle f) s'
        (NSingle (mkFanout (l1 ++ l2) (results f ++ option_list o)))
  | works_route p size dur conc s s' b i (batched : bool) :
      router b = Received i -> toBatch p i s = (Ok batched, s') ->
      works (Batched p size dur conc) s (NBatch b) s'
        (NBatch (b <| router := if batched then SendingToBatch i else SendingOut i |>))
  | works_collect p size dur conc s b i :
      router b = SendingToBatch i -> collected b = None ->
      Z.of_nat (length (collecting b)) < Z.max 1 size ->
      works (Batched p size dur conc) s (NBatch b) s
        (NBatch (b <| router := Receiving |> <| collecting := collecting b ++ [i] |>))
  | works_collected p size dur conc s b :
      collecting b <> [] -> collected b = None ->
      works (Batched p size dur conc) s (NBatch b) s
        (NBatch (b <| collecting := [] |> <| collected := Some (collecting b) |>))
  | works_forward p size dur conc s b batch :
      collected b = Some batch -> forwarding b = None ->
      works (Batched p size dur conc) s (NBatch b) s
        (NBatch (b <| collected := None |> <| forwarding := Some batch |>))
  | works_buffer p size dur conc s b batch :
      forwarding b = Some batch -> Z.of_nat (length (bufferedBatches b)) < bufferSize ->
      works (Batched p size dur conc) s (NBatch b) s
        (NBatch (b <| forwarding := None |> <| bufferedBatches := bufferedBatches b ++ [batch] |>))
  | works_take_batch p size dur conc s b batch rest :
      bufferedBatches b = batch :: rest -> has_room conc (batchsResults b) ->
      works (Batched p size dur conc) s (NBatch b) s
        (NBatch (b <| bufferedBatches := rest |>
                   <| batchsResults := mkFanout (processing (batchsResults b) ++ [batch])
                                         (results (batchsResults b)) |>))
  | works_process_batch p size dur conc s s' b l1 batch l2 o :
      processing (batchsResults b) = l1 ++ batch :: l2 -> process_batch p batch s = (Ok o, s') ->
      works (Batched p size dur conc) s (NBatch b) s'
        (NBatch (b <| batchsResults := mkFanout (l1 ++ l2)
                        (results (batchsResults b) ++ option_list o) |>))
  | works_drain p size dur conc s b l1 batch l2 :
      results (batchsResults b) = l1 ++ batch :: l2 -> draining b = [] ->
      works (Batched p size dur conc) s (NBatch b) s
        (NBatch (b <| batchsResults := mkFanout (processing (batchsResults b)) (l1 ++ l2) |>
                   <| draining := batch |>)).

(** ** The moves of a pipeline *)

(** [locked]: the dispatcher's goroutine holds the deduper's lock. *)
Inductive net_step (c : Connection) (locked : bool) : Sys W -> net -> Sys W -> net -> Prop :=
  | net_emit s n i rest :
      n_input n = i :: rest -> n_emitter n = None ->
      net_step c locked s n s (n <| n_input := rest |> <| n_emitter := Some i |>)
  | net_first s n i st a a' rest :
      n_emitter n = Some i -> NewPipeline c (n_opts n) !! O = Some st ->
      n_nodes n = a :: rest -> takes st a i a' ->
      net_step c locked s n s (n <| n_emitter := None |> <| n_nodes := a' :: rest |>)
  | net_work s s' n k st a a' :
      NewPipeline c (n_opts n) !! k = Some st -> n_nodes n !! k = Some a ->
      works st s a s' a' ->
      net_step c locked s n s' (n <| n_nodes := <[k := a']> (n_nodes n) |>)
  | net_handover s n k st a b i a' b' :
      n_nodes n !! k = Some a -> n_nodes n !! S k = Some b ->
      NewPipeline c (n_opts n) !! S k = Some st ->
      gives a i a' -> takes st b i b' ->
      net_step c locked s n s (n <| n_nodes := <[S k := b']> (<[k := a']> (n_nodes n)) |>)
  | net_poll s n k a i a' :
      n_nodes n !! k = Some a -> S k = length (n_nodes n) -> gives a i a' ->
      n_poller n = None ->
      net_step c locked s n s
        (n <| n_nodes := <[k := a']> (n_nodes n) |> <| n_poller := Some i |>)
  | net_delete s n i :
      n_poller n = Some i -> locked = false ->
      net_step c locked s n s
        (n <| n_keys := n_keys n ∖ {[ newTransferKey i ]} |> <| n_poller := None |>).

(** ** The dispatcher *)

(** [IBCV2PipelineManager.Pipeline] on pipelines made of channels. *)
Definition net_Pipeline (m : gmap Connection net) (transfer : IBCV2Transfer)
    : error + (net * gmap Connection net) :=
  let key := newPipelineKey transfer in
  match m !! key with
  | Some existing => inr (existing, m)
  | None =>
      match newPipelineForTransfer transfer with
      | inl err => inl (EWrap "creating new pipeline for transfer" err)
      | inr created =>
          let n := new_net key (dp_opts created) in inr (n, <[key := n]> m)
      end
  end.

(** [SubmitTransfer] up to the send in [Pipeline.Push]: the manager after the lookup,
    and the transfer to send when the deduper has accepted it. *)
Definition net_SubmitTransfer (m : gmap Connection net) (transfer : IBCV2Transfer)
    : option error * gmap Connection net * option (Connection * IBCV2Transfer) :=
  let key := newPipelineKey transfer in
  match net_Pipeline m transfer with
  | inl err => (Some (EWrap "getting pipeline to push transfer onto from manager" err), m, None)
  | inr (n, m1) =>
      if bool_decide (newTransferKey transfer ∈ n_keys n)
      then (Some (ESentinel ErrTransferAlreadyInPipeline), m1, None)
      else (None, <[key := n <| n_keys := {[ newTransferKey transfer ]} ∪ n_keys n |>]> m1,
            Some (key, transfer))
  end.

Definition net_submitUnfinished (m : gmap Connection net) (transfer : db.Ibcv2Transfer)
    : M W (gmap Connection net * option (Connection * IBCV2Transfer)) :=
  let t := NewIBCV2Transfer transfer in
  AlertOnExcessiveRelayLatency t ;;
  let '(err, m', pushing) := net_SubmitTransfer m t in
  match err with
  | Some err =>
      if negb (errors_Is err ErrTransferAlreadyInPipeline) then
        try (sql (db.UpdateTransferState db.Ibcv2RelayStatusFAILED (packet_key t))) ;;
        ret (m', pushing)
      else ret (m', pushing)
  | None => ret (m', pushing)
  end.

(** The dispatcher's goroutine holds the lock of this pipeline's deduper. *)
Definition locks (pushing : option (Connection * IBCV2Transfer)) (c : Connection) : bool :=
  match pushing with Some (c', _) => bool_decide (c' = c) | None => false end.

(** The moves of the pipelines: those of their goroutines, and the completion of the
    dispatcher's send. *)
Inductive pipe_step : Channels W -> Channels W -> Prop :=
  | pipe_net s s' m sn pushing c n n' :
      m !! c = Some n -> net_step c (locks pushing c) s n s' n' ->
      pipe_step (mkChannels s m sn pushing) (mkChannels s' (<[c := n']> m) sn pushing)
  | pipe_send s m sn c i n :
      m !! c = Some n -> Z.of_nat (length (n_input n)) < inputBufferSize ->
      pipe_step (mkChannels s m sn (Some (c, i)))
        (mkChannels s (<[c := n <| n_input := n_input n ++ [i] |>]> m) sn None).

Inductive chan_step : Channels W -> Channels W -> Prop :=
  | chan_env s s' m sn pushing :
      wf_step (tables s) (tables s') -> persist (tables s) (tables s') ->
      chan_step (mkChannels s m sn pushing) (mkChannels s' m sn pushing)
  | chan_snapshot s s' m rows :
      sql db.GetUnfinishedIBCV2Transfers s = (Ok rows, s') ->
      chan_step (mkChannels s m [] None) (mkChannels s' m rows None)
  | chan_submit s s' m m' r sn pushing :
      net_submitUnfinished m r s = (Ok (m', pushing), s') ->
      chan_step (mkChannels s m (r :: sn) None) (mkChannels s' m' sn pushing)
  | chan_pipe ch ch' : pipe_step ch ch' -> chan_step ch ch'.

Definition chan_initial (ch : Channels W) : Prop :=
  db.wf_db (tables (c_sys ch)) /\ c_nets ch = ∅ /\ c_snapshot ch = [] /\ c_pushing ch = None.

Inductive chan_reachable : Channels W -> Prop :=
  | chan_reach_init ch : chan_initial ch -> chan_reachable ch
  | chan_reach_step ch ch' : chan_reachable ch -> chan_step ch ch' -> chan_reachable ch'.

End Channels.
