(* ===== verification/ChannelRefinement.v ===== *)
(** * The channels implement the bags

    Every move of the goroutines of the file Channels is a sequence of steps of the
    file System: a transfer held by a goroutine or by a channel is in flight at the
    stage it waits for, or collected into a batch.  What System proves of reachable
    states holds of the goroutines. *)

From S2P Require Import Prelude Db Transfer Config World Logic Processors ProcessorSpecs BatchProcessors.
From S2P Require Import BatchSpecs Middleware Pipeline Dispatcher System Channels.

(** ** Where a transfer is *)

Definition at_place (pl : place) (l : list IBCV2Transfer) : list (place * IBCV2Transfer) := (pl,.) <$> l.
Arguments at_place : simpl never.

Definition routing_flights (k : nat) (r : routing) : list (place * IBCV2Transfer) :=
  match r with
  | Receiving => []
  | Received i => [(Waiting k, i)]
  | SendingOut i => [(Waiting (S k), i)]
  | SendingToBatch i => [(Collected k, i)]
  end.

(** The transfers in front of the processor of a batch stage. *)
Definition batching (b : batcher) : list IBCV2Transfer :=
  collecting b ++ default [] (collected b) ++ default [] (forwarding b) ++
  concat (bufferedBatches b) ++ concat (processing (batchsResults b)).

Definition node_flights (k : nat) (a : node) : list (place * IBCV2Transfer) :=
  match a with
  | NSingle f => at_place (Waiting k) (processing f) ++ at_place (Waiting (S k)) (results f)
  | NBatch b =>
      routing_flights k (router b) ++ at_place (Collected k) (batching b) ++
      at_place (Waiting (S k)) (concat (results (batchsResults b)) ++ draining b)
  end.

Fixpoint nodes_flights (k : nat) (l : list node) : list (place * IBCV2Transfer) :=
  match l with
  | [] => []
  | a :: l' => node_flights k a ++ nodes_flights (S k) l'
  end.

Definition net_flights (n : net) : list (place * IBCV2Transfer) :=
  at_place (Waiting 0) (n_input n ++ option_list (n_emitter n)) ++ nodes_flights 0 (n_nodes n) ++
  at_place (Waiting (length (n_nodes n))) (option_list (n_poller n)).

(** What the dispatcher is about to send to a pipeline. *)
Definition pending (pushing : option (Connection * IBCV2Transfer)) (c : Connection) : list IBCV2Transfer :=
  match pushing with Some (c', i) => if decide (c' = c) then [i] else [] | None => [] end.

Lemma at_place_app pl l k : at_place pl (l ++ k) = at_place pl l ++ at_place pl k.
Proof. apply fmap_app. Qed.

Lemma at_place_nil pl : at_place pl [] = [].
Proof. done. Qed.

Lemma at_place_cons pl i l : at_place pl (i :: l) = (pl, i) :: at_place pl l.
Proof. done. Qed.

Lemma concat_snoc {A} (l : list (list A)) x : concat (l ++ [x]) = concat l ++ x.
Proof. rewrite concat_app. cbn. by rewrite app_nil_r. Qed.

Lemma concat_middle {A} (l k : list (list A)) x : concat (l ++ x :: k) ≡ₚ x ++ concat (l ++ k).
Proof. rewrite !concat_app. cbn. solve_Permutation. Qed.

(** The stages' transfers with one stage in front. *)
Lemma nodes_flights_lookup k l j a : l !! j = Some a ->
  exists rest, forall a', nodes_flights k (<[j := a']> l) ≡ₚ node_flights (k + j) a' ++ rest.
Proof.
  revert k j. induction l as [|x l IH]; intros k [|j] Hj; cbn in Hj; simplify_eq.
  - exists (nodes_flights (S k) l). intros a'. cbn. by rewrite Nat.add_0_r.
  - destruct (IH (S k) j Hj) as [rest Hr]. exists (node_flights k x ++ rest). intros a'.
    cbn. rewrite Hr. rewrite Nat.add_succ_r. cbn. solve_Permutation.
Qed.

Lemma nodes_flights_split k l j a : l !! j = Some a ->
  exists rest, nodes_flights k l ≡ₚ node_flights (k + j) a ++ rest /\
    forall a', nodes_flights k (<[j := a']> l) ≡ₚ node_flights (k + j) a' ++ rest.
Proof.
  intros Hj. destruct (nodes_flights_lookup k l j a Hj) as [rest Hr]. exists rest.
  split; [|done]. rewrite <- Hr. by rewrite list_insert_id.
Qed.

Section Refinement.
Context {W : Type} {E : Env W}.
Context (extra : nat).

(** ** The batches of a stage are not empty and not too large *)

Definition batch_ok (size : Z) (batch : list IBCV2Transfer) : Prop :=
  batch <> [] /\ Z.of_nat (length batch) <= size.

Definition node_ok (st : stage W) (a : node) : Prop :=
  match st, a with
  | (Single _ | Finisher _ _), NSingle _ => True
  | Batched _ size _ _, NBatch b =>
      1 <= size /\ Z.of_nat (length (collecting b)) <= size /\
      Forall (batch_ok size) (option_list (collected b) ++ option_list (forwarding b) ++
        bufferedBatches b ++ processing (batchsResults b)) /\
      Forall (fun batch => batch <> []) (results (batchsResults b))
  | _, _ => False
  end.

(** ** One move of one stage *)

(** The library's call of a processor either ends the input's stage or drops it. *)
Lemma process_run {A} (P : A -> M W A) C i s o s' :
  process P C i s = (Ok o, s') ->
  (exists o', o = Some o' /\ P i s = (Ok o', s')) \/
  (exists e s1, o = None /\ P i s = (Fail e, s1) /\ C i e s1 = (Ok tt, s')).
Proof.
  unfold process, bind, try. destruct (P i s) as [[o'|e|] s1]; cbn; [..|done].
  - intros [= <- <-]. left. eauto.
  - destruct (C i e s1) as [[[]|e'|] s2] eqn:Ec; cbn; [|done..]. intros [= <- <-]. right. eauto 10.
Qed.

Lemma step_sys s s1 (m : Manager) sn :
  tables s1 = tables s -> step (mkRelayer s m sn) (mkRelayer (W:=W) s1 m sn).
Proof. intros H. apply step_env; rewrite H; reflexivity. Qed.

Lemma set_flights_same m c d : m !! c = Some d -> set_flights m c d (flights d) = m.
Proof. intros H. unfold set_flights. apply insert_id. rewrite H. by destruct d. Qed.

(** The steps a move of stage [k] of pipeline [c] amounts to. *)
Definition simulated (m : Manager) sn (c : Connection) (d : DedupedPipeline) (s s' : Sys W)
    (fl : list (place * IBCV2Transfer)) : Prop :=
  exists fl', rtc step (mkRelayer s m sn) (mkRelayer s' (set_flights m c d fl') sn) /\ fl' ≡ₚ fl.

Lemma simulated_silent m sn c d s fl :
  m !! c = Some d -> flights d ≡ₚ fl -> simulated m sn c d s s fl.
Proof. intros Hc Hf. exists (flights d). split; [|done]. by rewrite set_flights_same. Qed.

Lemma simulated_once m sn c d s s' fl :
  step (mkRelayer s m sn) (mkRelayer s' (set_flights m c d fl) sn) -> simulated m sn c d s s' fl.
Proof. intros H. exists fl. split; [by apply rtc_once | done]. Qed.

(** A drop, then the call of [Cancel]. *)
Lemma simulated_dropped m sn c d s s1 s' fl :
  step (mkRelayer s m sn) (mkRelayer s1 (set_flights m c d fl) sn) -> tables s' = tables s1 ->
  simulated m sn c d s s' fl.
Proof.
  intros H Ht. exists fl. split; [|done]. eapply rtc_l; [exact H|]. apply rtc_once. by apply step_sys.
Qed.

Lemma process_transfer_sim m sn c d k st s s' i o fl :
  m !! c = Some d -> stages c d !! k = Some st -> flights d ≡ₚ (Waiting k, i) :: fl ->
  process_transfer st i s = (Ok o, s') ->
  simulated m sn c d s s' (at_place (Waiting (S k)) (option_list o) ++ fl).
Proof.
  intros Hc Hst Hf Hp. pose proof (stages_spec _ _ _ _ Hst) as Hspec. red in Hspec.
  destruct st as [p| |rs re]; [| done |]; apply process_run in Hp
    as [(o' & -> & Hp)|(e & s1 & -> & Hp & Hx)]; cbn.
  - apply simulated_once. by eapply step_single.
  - eapply simulated_dropped; [by eapply step_single_dropped|].
    pose proof (cancel_db i e s1) as Hd. cbn in Hx. by rewrite Hx in Hd.
  - apply simulated_once. by eapply step_finish.
  - exfalso. pose proof (StateFinisher_outcome rs re i s) as Ho. unfold wp in Ho. rewrite Hp in Ho.
    destruct (finishable rs re i); cbn in Ho; [by destruct Ho as (x & [=] & _) | by destruct Ho].
Qed.

Lemma process_batch_sim m sn c d k p size dur conc s s' batch o fl :
  m !! c = Some d -> stages c d !! k = Some (Batched p size dur conc) -> batch_ok size batch ->
  flights d ≡ₚ at_place (Collected k) batch ++ fl ->
  process_batch p batch s = (Ok o, s') ->
  simulated m sn c d s s' (at_place (Waiting (S k)) (concat (option_list o)) ++ fl).
Proof.
  intros Hc Hst [Hne Hsz] Hf Hp. pose proof (stages_spec _ _ _ _ Hst) as Hspec. red in Hspec.
  apply process_run in Hp as [(o' & -> & Hp)|(e & s1 & -> & Hp & Hx)]; cbn.
  - rewrite app_nil_r. apply simulated_once. by eapply step_batch.
  - eapply simulated_dropped; [by eapply step_batch_dropped|].
    pose proof (bcancel_db batch e s1) as Hd. unfold BatchMW_Cancel in Hx. by rewrite Hx in Hd.
Qed.

(** A batch comes back with as many transfers as it had. *)
Lemma process_batch_length p `{!BatchProcessorSpec p} batch s o s' :
  process_batch p batch s = (Ok o, s') ->
  Forall (fun out => length out = length batch) (option_list o).
Proof.
  intros [(o' & -> & Hp)|(e & s1 & -> & _)]%process_run; [|constructor].
  apply (wp_run _ _ _ _ _ (BatchMW_outcome p batch s)) in Hp as (Hperm & _).
  apply Permutation_length in Hperm. rewrite !length_fmap in Hperm. by repeat constructor.
Qed.

Lemma works_ok st s a s' a' : StageSpec st ->
  works extra st s a s' a' -> node_ok st a -> node_ok st a'.
Proof.
  intros Hspec Hw Hok. red in Hspec. destruct Hw as
    [st s s' f l1 i l2 o Hl Hp | p size dur conc s s' b i batched Hr Hp
    | p size dur conc s b i Hr Hn Hlt | p size dur conc s b Hne Hn | p size dur conc s b batch Hb Hn
    | p size dur conc s b batch Hb Hlt | p size dur conc s b batch rest Hb Hroom
    | p size dur conc s s' b l1 batch l2 o Hb Hp | p size dur conc s b l1 batch l2 Hb Hd ];
    [by destruct st | by destruct batched | .. ];
    destruct b as [r co cd fw bu [pr res] dr]; cbn in *; simplify_eq; cbn in *;
    rewrite ?length_app, ?Forall_app, ?Forall_cons, ?Forall_app in *; cbn [length] in *;
    [destruct_and!; split_and!; try done; try constructor; first [lia | done].. | |naive_solver].
  destruct Hok as (H1 & H2 & (H3 & H4 & H5 & H6 & H7 & H8) & H9). repeat split; try done.
  eapply Forall_impl; [by eapply process_batch_length|]. cbn. intros out Hl ->.
  destruct H7 as [Hne _]. by destruct batch.
Qed.

(** Bags of flights, written out. *)
Ltac flights_norm :=
  unfold batching in *; cbn [routing_flights router collecting collected forwarding bufferedBatches
    batchsResults draining processing results default option_list node_flights] in *;
  repeat rewrite ?concat_app, ?concat_cons, ?at_place_app, ?at_place_cons, ?at_place_nil, ?app_nil_r in *;
  cbn [concat app option_list] in *; rewrite ?at_place_nil, ?app_nil_r in *.

Lemma simulated_perm m sn c d s s' fl fl' :
  fl ≡ₚ fl' -> simulated m sn c d s s' fl -> simulated m sn c d s s' fl'.
Proof. intros Hp (fl0 & Hs & H0). exists fl0. split; [done | by rewrite H0]. Qed.

Lemma works_sim st s a s' a' m sn c d k fl :
  works extra st s a s' a' -> node_ok st a ->
  m !! c = Some d -> stages c d !! k = Some st -> flights d ≡ₚ node_flights k a ++ fl ->
  simulated m sn c d s s' (node_flights k a' ++ fl).
Proof.
  intros Hw Hok Hc Hst Hf. destruct Hw as
    [st s s' f l1 i l2 o Hl Hp | p size dur conc s s' b i batched Hr Hp
    | p size dur conc s b i Hr Hn Hlt | p size dur conc s b Hne Hn | p size dur conc s b batch Hb Hn
    | p size dur conc s b batch Hb Hlt | p size dur conc s b batch rest Hb Hroom
    | p size dur conc s s' b l1 batch l2 o Hb Hp | p size dur conc s b l1 batch l2 Hb Hd ];
    [| | apply simulated_silent; [done|] .. | | apply simulated_silent; [done|]];
    try (destruct b as [r co cd fw bu [pr res] dr]; cbn in *; simplify_eq; flights_norm; etrans; [eassumption|]; solve_Permutation).
  - destruct f as [pr res]. cbn in Hl. subst pr.
    eapply simulated_perm; [|eapply (process_transfer_sim _ _ _ _ _ _ _ _ i _
        (at_place (Waiting k) (l1 ++ l2) ++ at_place (Waiting (S k)) res ++ fl)); [done | done | | done]];
      flights_norm; [|etrans; [eassumption|]]; solve_Permutation.
  - eapply simulated_perm; [|eapply simulated_once, (step_route _ _ _ _ _ _ _ _ _ _ _ i _
        (at_place (Collected k) (batching b) ++
         at_place (Waiting (S k)) (concat (results (batchsResults b)) ++ draining b) ++ fl));
        [done | done | | done]];
      destruct b; cbn in *; subst; flights_norm; [|etrans; [eassumption|]; solve_Permutation].
    destruct batched; cbn; solve_Permutation.
  - destruct b as [r co cd fw bu [pr res] dr]. cbn in Hb, Hok. subst pr.
    destruct Hok as (_ & _ & Hb & _). rewrite !Forall_app, Forall_cons in Hb.
    eapply simulated_perm; [|eapply (process_batch_sim m sn c d k p size dur conc s s' batch o
      (routing_flights k r ++
       at_place (Collected k) (co ++ default [] cd ++ default [] fw ++ concat bu ++ concat (l1 ++ l2)) ++
       at_place (Waiting (S k)) (concat res ++ dr) ++ fl)); [done | done | naive_solver | | done]];
      cbn in Hf |- *; flights_norm; [|etrans; [eassumption|]]; solve_Permutation.
Qed.

(** ** One move of a pipeline *)

Lemma gives_flights a i a' k : gives a i a' -> node_flights k a ≡ₚ (Waiting (S k), i) :: node_flights k a'.
Proof.
  destruct 1 as [[pr res] l1 i l2 H|b i H|b i rest H]; try destruct b; cbn in *; subst; flights_norm;
    solve_Permutation.
Qed.

Lemma takes_flights (st : stage W) a i a' k :
  takes extra st a i a' -> node_flights k a' ≡ₚ (Waiting k, i) :: node_flights k a.
Proof.
  destruct 1 as [p [pr res] i H|rs re [pr res] i H|p size dur conc b i H]; try destruct b; cbn in *; subst;
    flights_norm; solve_Permutation.
Qed.

Lemma gives_ok st a i a' : gives a i a' -> node_ok st a -> node_ok st a'.
Proof. destruct 1, st; try done; by destruct b. Qed.

Lemma takes_ok (st : stage W) a i a' : takes extra st a i a' -> node_ok st a -> node_ok st a'.
Proof. destruct 1; try done; by destruct b. Qed.

Definition net_ok (c : Connection) (n : net) : Prop :=
  Forall2 node_ok (NewPipeline c (n_opts n)) (n_nodes n).

Definition net_rel (pend : list IBCV2Transfer) (n : net) (d : DedupedPipeline) : Prop :=
  dp_opts d = n_opts n /\ inPipeline d = n_keys n /\
  flights d ≡ₚ at_place (Waiting 0) pend ++ net_flights n.

Lemma nodes_ok_insert sts nodes k st a :
  Forall2 node_ok sts nodes -> sts !! k = Some st -> node_ok st a ->
  Forall2 node_ok sts (<[k := a]> nodes).
Proof. intros Hn Hst Ha. rewrite <- (list_insert_id _ _ _ Hst). by apply Forall2_insert. Qed.

Lemma net_ok_lookup c n k st a :
  net_ok c n -> NewPipeline c (n_opts n) !! k = Some st -> n_nodes n !! k = Some a -> node_ok st a.
Proof. intros Hn Hst Ha. by eapply Forall2_lookup_lr. Qed.

Lemma net_ok_step c locked s n s' n' :
  net_step extra c locked s n s' n' -> net_ok c n -> net_ok c n'.
Proof.
  intros Hs Hok. assert (Hat : forall k a, n_nodes n !! k = Some a -> exists st,
    NewPipeline c (n_opts n) !! k = Some st /\ node_ok st a).
  { intros k a Ha. destruct (Forall2_lookup_r _ _ _ _ _ Hok Ha) as (st & ? & ?). eauto. }
  destruct Hs as [s n i rest Hi He | s n i st a a' rest He Hst Hn Ht | s s' n k st a a' Hst Hn Hw
    | s n k st a b i a' b' Ha Hb Hst Hg Ht | s n k a i a' Ha Hl Hg Hp | s n i Hp Hl]; try done;
    unfold net_ok; cbn -[NewPipeline].
  - pose proof (nodes_ok_insert _ _ 0 st a' Hok Hst) as Hok'. rewrite Hn in Hok'. apply Hok'.
    eapply takes_ok; [exact Ht|]. eapply net_ok_lookup; [done | done|]. by rewrite Hn.
  - eapply nodes_ok_insert; [done | done|].
    eapply works_ok; [by eapply Forall_lookup_1; [apply NewPipeline_spec|] | done | by eapply net_ok_lookup].
  - destruct (Hat _ _ Ha) as (st0 & Hst0 & Hok0).
    eapply nodes_ok_insert; [|done|].
    + eapply nodes_ok_insert; [done | done | by eapply gives_ok].
    + eapply takes_ok; [done | by eapply net_ok_lookup].
  - destruct (Hat _ _ Ha) as (st0 & Hst0 & Hok0).
    eapply nodes_ok_insert; [done | done | by eapply gives_ok].
Qed.

(** The bag of a pipeline one of whose stages has moved. *)
Lemma net_flights_node n k a : n_nodes n !! k = Some a ->
  exists rest, net_flights n ≡ₚ node_flights k a ++ rest /\
    forall a', net_flights (n <| n_nodes := <[k := a']> (n_nodes n) |>) ≡ₚ node_flights k a' ++ rest.
Proof.
  intros Ha. destruct (nodes_flights_split 0 _ _ _ Ha) as (rest & H1 & H2). cbn [Nat.add] in *.
  exists (at_place (Waiting 0) (n_input n ++ option_list (n_emitter n)) ++ rest ++
          at_place (Waiting (length (n_nodes n))) (option_list (n_poller n))).
  split; [unfold net_flights; rewrite H1; solve_Permutation|].
  intros a'. unfold net_flights. cbn. rewrite H2, length_insert. solve_Permutation.
Qed.

(** A hand-over between neighbours moves no transfer to another place. *)
Lemma net_flights_handover n k (st : stage W) a b i a' b' :
  n_nodes n !! k = Some a -> n_nodes n !! S k = Some b -> gives a i a' -> takes extra st b i b' ->
  net_flights (n <| n_nodes := <[S k := b']> (<[k := a']> (n_nodes n)) |>) ≡ₚ net_flights n.
Proof.
  intros Ha Hb Hg Ht. destruct (net_flights_node n k a Ha) as (r1 & H1 & H1').
  destruct (net_flights_node (n <| n_nodes := <[k := a']> (n_nodes n) |>) (S k) b) as (r2 & H2 & H2').
  { cbn. rewrite list_lookup_insert_ne by lia. done. }
  specialize (H2' b'). cbn in H2'. rewrite H2', H1. specialize (H1' a').
  rewrite (takes_flights _ _ _ _ (S k) Ht), (gives_flights _ _ _ k Hg).
  cbn. f_equiv. by rewrite <- H1', H2.
Qed.

(** The pipeline of System after a move of its goroutines. *)
Definition net_simulated (pend : list IBCV2Transfer) (m : Manager) sn c s s' n' : Prop :=
  exists d', rtc step (mkRelayer s m sn) (mkRelayer (W:=W) s' (<[c := d']> m) sn) /\ net_rel pend n' d'.

Lemma net_simulated_silent pend m sn c d s n n' :
  m !! c = Some d -> net_rel pend n d -> n_opts n' = n_opts n -> n_keys n' = n_keys n ->
  net_flights n' ≡ₚ net_flights n -> net_simulated pend m sn c s s n'.
Proof.
  intros Hc (Ho & Hk & Hf) Ho' Hk' Hf'. exists d. rewrite insert_id by done.
  split; [done|]. split; [congruence|]. split; [congruence|]. by rewrite Hf, Hf'.
Qed.

Lemma net_step_sim pend m sn c d locked s n s' n' :
  net_step extra c locked s n s' n' -> net_ok c n -> m !! c = Some d -> net_rel pend n d ->
  net_simulated pend m sn c s s' n'.
Proof.
  intros Hs Hok Hc Hrel.
  destruct Hs as [s n i rest Hi He | s n i st a a' rest He Hst Hn Ht | s s' n k st a a' Hst Hn Hw
    | s n k st a b i a' b' Ha Hb Hst Hg Ht | s n k a i a' Ha Hl Hg Hp | s n i Hp Hl].
  - eapply net_simulated_silent; [done.. |]. unfold net_flights. cbn. rewrite Hi, He.
    rewrite !at_place_app. cbn. solve_Permutation.
  - eapply net_simulated_silent; [done.. |]. unfold net_flights. cbn. rewrite Hn, He. cbn.
    rewrite (takes_flights _ _ _ _ 0 Ht), !at_place_app. cbn. solve_Permutation.
  - destruct Hrel as (Ho & Hk & Hf). destruct (net_flights_node n k a Hn) as (r & H1 & H2).
    destruct (works_sim st s a s' a' m sn c d k (at_place (Waiting 0) pend ++ r)) as (fl & Hr & Hfl);
      [done | by eapply net_ok_lookup | done | unfold stages; by rewrite Ho | |].
    + rewrite Hf, H1. solve_Permutation.
    + exists (d <| flights := fl |>). split; [done|]. split; [done|]. split; [done|].
      change (fl ≡ₚ at_place (Waiting 0) pend ++
        net_flights (n <| n_nodes := <[k := a']> (n_nodes n) |>)).
      rewrite H2, Hfl. solve_Permutation.
  - eapply net_simulated_silent; [done.. |]. by eapply net_flights_handover.
  - eapply net_simulated_silent; [done.. |].
    set (n1 := n <| n_poller := Some i |>).
    change (net_flights (n1 <| n_nodes := <[k := a']> (n_nodes n1) |>) ≡ₚ net_flights n).
    destruct (net_flights_node n1 k a Ha) as (r & H1 & ->).
    assert (Hx : net_flights n1 ≡ₚ (Waiting (S k), i) :: net_flights n).
    { unfold net_flights. subst n1. cbn. rewrite Hp, <- Hl. cbn. solve_Permutation. }
    rewrite H1, (gives_flights _ _ _ k Hg) in Hx. cbn in Hx.
    by apply Permutation_cons_inv in Hx.
  - destruct Hrel as (Ho & Hk & Hf).
    assert (Hfl : flights d ≡ₚ (Waiting (length (n_nodes n)), i) ::
      at_place (Waiting 0) pend ++ net_flights (n <| n_poller := None |>)).
    { rewrite Hf. unfold net_flights. cbn. rewrite Hp. cbn. solve_Permutation. }
    eexists. split; [apply rtc_once; eapply step_output; [done | | exact Hfl]|].
    + unfold stages. rewrite Ho. apply lookup_ge_None_2. by rewrite (Forall2_length _ _ _ Hok).
    + split; [done|]. split; [cbn; by rewrite Hk | done].
Qed.

(** ** The whole relayer *)

(** Batch sizes and concurrencies are positive: what [NewPipelineOpts] makes of a
    configuration without negative numbers. *)
Definition opts_ok (o : PipelineOptions) : Prop :=
  1 <= TimeoutBatchSize o /\ 1 <= RecvBatchSize o /\ 1 <= AckBatchSize o /\
  1 <= TimeoutBatchConcurrency o /\ 1 <= RecvBatchConcurrency o /\ 1 <= AckBatchConcurrency o.

Definition cfg_positive : Prop := forall t opts, NewPipelineOpts cfg t = inr opts -> opts_ok opts.

Definition stage_ok (st : stage W) : Prop :=
  match st with Batched _ size _ conc => 1 <= size /\ 1 <= conc | _ => True end.

Lemma NewPipeline_ok c opts : opts_ok opts -> Forall stage_ok (NewPipeline c opts).
Proof.
  intros (? & ? & ? & ? & ? & ?). unfold NewPipeline, gasStage.
  destruct priceClient; [|repeat constructor; done].
  repeat case_match; repeat constructor; done.
Qed.

Lemma new_net_ok c opts : opts_ok opts -> net_ok c (new_net c opts).
Proof.
  intros Ho. unfold net_ok, new_net. cbn -[NewPipeline]. apply Forall2_fmap_r.
  eapply Forall_Forall2_diag, Forall_impl; [by apply NewPipeline_ok|].
  intros [| |]; cbn; [done | intros [? ?]; split_and!; [done | lia | constructor..] | done].
Qed.

(** The state of System a state of the channels stands for: the same database and
    rows to submit, pipelines with the same options and keys and the same bag of
    transfers, the one being sent to the input included. *)
Record refines (ch : Channels W) (r : Relayer W) : Prop := {
  ref_sys : sys r = c_sys ch;
  ref_snapshot : snapshot r = c_snapshot ch;
  ref_nets : forall c,
    option_Forall2 (net_rel (pending (c_pushing ch) c)) (c_nets ch !! c) (manager r !! c);
}.

Definition nets_ok (ch : Channels W) : Prop :=
  (forall c n, c_nets ch !! c = Some n -> opts_ok (n_opts n) /\ net_ok c n) /\
  (forall c i, c_pushing ch = Some (c, i) -> is_Some (c_nets ch !! c)).

Lemma new_net_flights c opts : net_flights (new_net c opts) = [].
Proof.
  assert (H : forall k (sts : list (stage W)), nodes_flights k (new_node <$> sts) = []).
  { intros k sts. revert k. induction sts as [|[] sts IH]; intros k; [done | cbn; apply IH..]. }
  unfold net_flights, new_net. cbn -[NewPipeline]. by rewrite H.
Qed.

Lemma net_Pipeline_sim (nets : gmap Connection net) (m : Manager) t :
  (forall c, option_Forall2 (net_rel []) (nets !! c) (m !! c)) ->
  match net_Pipeline nets t, Pipeline m t with
  | inl e, inl e' => e = e'
  | inr (n, nets'), inr (d, m') =>
      net_rel [] n d /\ forall c, option_Forall2 (net_rel []) (nets' !! c) (m' !! c)
  | _, _ => False
  end.
Proof.
  intros H. unfold net_Pipeline, Pipeline. destruct (H (newPipelineKey t)) as [n d Hr|]; [done|].
  unfold newPipelineForTransfer. destruct (NewPipelineOpts cfg t) as [e|opts]; [done|]. cbn.
  assert (Hnew : net_rel [] (new_net (newPipelineKey t) opts) (NewPipelineDeduper opts)).
  { split; [done|]. split; [done|]. by rewrite new_net_flights. }
  split; [done|]. intros c. destruct (decide (newPipelineKey t = c)) as [<-|N].
  - rewrite !lookup_insert_eq. by constructor.
  - by rewrite !lookup_insert_ne.
Qed.

Lemma net_SubmitTransfer_sim (nets : gmap Connection net) (m : Manager) t :
  (forall c, option_Forall2 (net_rel []) (nets !! c) (m !! c)) ->
  let '(err, nets', pushing) := net_SubmitTransfer nets t in
  let '(err', m') := SubmitTransfer m t in
  err = err' /\ forall c, option_Forall2 (net_rel (pending pushing c)) (nets' !! c) (m' !! c).
Proof.
  intros H. pose proof (net_Pipeline_sim nets m t H) as Hp.
  unfold net_SubmitTransfer, SubmitTransfer.
  destruct (net_Pipeline nets t) as [e|[n nets']], (Pipeline m t) as [e'|[d m']];
    try done; [by subst|]. destruct Hp as [(Ho & Hk & Hf) Hm]. unfold Push. rewrite Hk.
  case_bool_decide; [done|]. split; [done|]. intros c. cbn [pending].
  destruct (decide (newPipelineKey t = c)) as [<-|N].
  - rewrite !lookup_insert_eq. constructor. split; [done|]. split; [done|].
    cbn. rewrite Hf. cbn. by rewrite Permutation_app_comm.
  - by rewrite !lookup_insert_ne.
Qed.

Lemma net_submitUnfinished_sim nets m r s nets' pushing s' :
  (forall c, option_Forall2 (net_rel []) (nets !! c) (m !! c)) ->
  net_submitUnfinished nets r s = (Ok (nets', pushing), s') ->
  exists m', submitUnfinished m r s = (Ok m', s') /\
    forall c, option_Forall2 (net_rel (pending pushing c)) (nets' !! c) (m' !! c).
Proof.
  intros H. pose proof (net_SubmitTransfer_sim nets m (NewIBCV2Transfer r) H) as Hs.
  unfold net_submitUnfinished, submitUnfinished, bind.
  destruct (AlertOnExcessiveRelayLatency _ s) as [[[]|e|] s1]; [|done..].
  destruct (net_SubmitTransfer nets _) as [[err nets1] p1], (SubmitTransfer m _) as [err' m1].
  destruct Hs as [-> Hs]. destruct err' as [e|]; [destruct (negb _)|];
    try (intros [= <- <- <-]; by exists m1).
  destruct (try _ s1) as [[x|e'|] s2]; [|done..]. intros [= <- <- <-]. by exists m1.
Qed.

(** The pipelines a submission leaves: those there were, with the same stages, and
    the one made for the transfer. *)
Lemma net_submitUnfinished_nets nets r s nets' pushing s' :
  net_submitUnfinished nets r s = (Ok (nets', pushing), s') ->
  (forall c n', nets' !! c = Some n' ->
     (exists n, nets !! c = Some n /\ n_opts n' = n_opts n /\ n_nodes n' = n_nodes n) \/
     (exists t opts, NewPipelineOpts cfg t = inr opts /\ n_opts n' = opts /\
        n_nodes n' = n_nodes (new_net c opts))) /\
  (forall c i, pushing = Some (c, i) -> is_Some (nets' !! c)).
Proof.
  unfold net_submitUnfinished, bind. set (t := NewIBCV2Transfer r).
  destruct (AlertOnExcessiveRelayLatency t s) as [[[]|e|] s1]; [|done..].
  destruct (net_SubmitTransfer nets t) as [[err nets1] p1] eqn:Es. intros Hr.
  assert (nets' = nets1 /\ pushing = p1) as [-> ->].
  { destruct err as [e|]; [destruct (negb _)|]; try (by inversion Hr).
    destruct (try _ s1) as [[x|e'|] s2]; by inversion Hr. }
  clear Hr. revert Es. unfold net_SubmitTransfer, net_Pipeline, newPipelineForTransfer.
  destruct (nets !! newPipelineKey t) as [n|] eqn:En; [|destruct (NewPipelineOpts cfg t) as [e|opts] eqn:Eo];
    [case_bool_decide | | case_bool_decide]; intros [= <- <- <-];
    (split; [|first [by intros ? ? [=] | intros ? ? [= <- <-]; by rewrite lookup_insert_eq]]);
    try (intros c n' Hn'; left; by eauto);
    intros c n' Hn'; repeat (apply lookup_insert_Some in Hn' as [[<- <-]|[? Hn']]); cbn -[NewPipeline];
    eauto 10.
Qed.

Lemma nets_ok_step (ch ch' : Channels W) :
  cfg_positive -> nets_ok ch -> chan_step extra ch ch' -> nets_ok ch'.
Proof.
  intros Hcfg [Hn Hp] Hs. destruct Hs as [s s' m sn pushing _ _ | s s' m rows _
    | s s' m m' r sn pushing Hrun | ? ? [s s' m sn pushing c n n' Hc Hns | s m sn c i n Hc Hlt]]; try done.
  - apply net_submitUnfinished_nets in Hrun as [Hm' Hpu]. split; [|done]. cbn in *.
    intros c n' Hc. destruct (Hm' c n' Hc) as [(n & Hcn & Ho & Hnn)|(t & opts & Eo & Ho & Hnn)].
    + unfold net_ok. rewrite Ho, Hnn. by apply Hn.
    + unfold net_ok. rewrite Ho, Hnn. apply Hcfg in Eo. split; [done|]. by apply new_net_ok.
  - cbn in *. split; cbn.
    + intros c' n'' [[<- <-]|[N H']]%lookup_insert_Some; [|by apply Hn].
      destruct (Hn _ _ Hc) as [Ho Hok]. split; [by destruct Hns | by eapply net_ok_step].
    + intros c' i' H'. apply lookup_insert_is_Some'. right. by eapply Hp.
  - cbn in *. split; cbn; [|done].
    intros c' n'' [[<- <-]|[N H']]%lookup_insert_Some; [|by apply Hn]. by apply Hn in Hc.
Qed.

Lemma chan_step_sim ch ch' r :
  nets_ok ch -> refines ch r -> chan_step extra ch ch' -> exists r', rtc step r r' /\ refines ch' r'.
Proof.
  intros [Hn Hp] [Hsys Hsn Hnets] Hs. destruct r as [sy m sn0]. cbn in *.
  destruct Hs as [s s' nets sn pushing Hw Hpe | s s' nets rows Hq
    | s s' nets nets' row sn pushing Hrun
    | ? ? [s s' nets sn pushing c n n' Hc Hns | s nets sn c i n Hc Hlt]]; cbn in *; subst.
  - exists (mkRelayer s' m sn). split; [|done]. by apply rtc_once, step_env.
  - exists (mkRelayer s' m rows). split; [|done]. by apply rtc_once, step_snapshot.
  - apply (net_submitUnfinished_sim _ m) in Hrun as (m' & Hrun & Hm'); [|done].
    exists (mkRelayer s' m' sn). split; [|done]. by apply rtc_once, step_submit.
  - pose proof (Hnets c) as Hrel. rewrite Hc in Hrel. inversion Hrel as [? d Hr Hx Hd|]; subst.
    destruct (net_step_sim (pending pushing c) m sn c d (locks pushing c) s n s' n') as (d' & Hst & Hr');
      [done | by apply Hn | done | done|].
    exists (mkRelayer s' (<[c := d']> m) sn). split; [done|]. split; [done..|]. intros c'. cbn.
    destruct (decide (c = c')) as [<-|N]; [rewrite !lookup_insert_eq; by constructor|].
    rewrite !lookup_insert_ne by done. apply Hnets.
  - exists (mkRelayer s m sn). split; [done|]. split; [done..|]. intros c'. cbn.
    specialize (Hnets c'). cbn in Hnets. destruct (decide (c = c')) as [<-|N].
    + rewrite lookup_insert_eq. rewrite Hc in Hnets. inversion Hnets as [? d (Ho & Hk & Hf) Hx Hd|]; subst.
      constructor. split; [done|]. split; [done|]. rewrite Hf. unfold net_flights. cbn.
      rewrite !at_place_app. cbn. solve_Permutation.
    + by rewrite lookup_insert_ne.
Qed.

Lemma reachable_rtc r r' : reachable (W:=W) r -> rtc step r r' -> reachable r'.
Proof. intros Hr Hs. induction Hs as [|r r1 r2 H1 _ IH]; [done|]. apply IH. by eapply reach_step. Qed.

Lemma chan_reachable_refines ch :
  cfg_positive -> chan_reachable extra ch -> nets_ok ch /\ exists r, reachable r /\ refines ch r.
Proof.
  intros Hcfg. induction 1 as [[s nets sn pushing] (Hw & Hn & Hs & Hp)|ch ch' _ [Hok (r & Hr & Href)] Hstep].
  - cbn in *. subst. split; [split; [intros c n; cbn; by rewrite lookup_empty | done]|].
    exists (mkRelayer s ∅ []). split; [by apply reach_init|]. split; [done..|].
    intros c. cbn. rewrite !lookup_empty. constructor.
  - split; [by eapply nets_ok_step|]. destruct (chan_step_sim ch ch' r Hok Href Hstep) as (r' & Hrs & Hr').
    exists r'. split; [by eapply reachable_rtc | done].
Qed.

(** C3: the goroutines and channels of the pipelines implement the transition system of
    the file System.  Every reachable state of the goroutines stands for a reachable
    state there, with the same database, the same rows to submit, and pipelines with
    the same options, the same keys and the same transfers in flight at the same
    stages; and every move of a goroutine, from any such pair, is matched by a sequence
    of steps there. *)
Theorem channels_refine ch :
  cfg_positive -> chan_reachable extra ch ->
  (exists r, reachable r /\ refines ch r) /\
  forall r ch', refines ch r -> chan_step extra ch ch' -> exists r', rtc step r r' /\ refines ch' r'.
Proof.
  intros Hcfg Hr. destruct (chan_reachable_refines ch Hcfg Hr) as [Hok Hex]. split; [done|].
  intros r ch' Href Hs. by eapply chan_step_sim.
Qed.

End Refinement.
