(* ===== verification/ChannelProgress.v ===== *)
(** * The pipelines drain

    Deadlock and termination of the goroutines of the file Channels.  A measure
    bounds the moves the pipelines can make on the transfers they hold, and a
    pipeline that holds a transfer can move, as long as the deduper holds no more keys
    than the input channel has room for.  With a full input the send blocks under the
    deduper's lock, and a full pipeline stands still. *)

From S2P Require Import Prelude Db Transfer Config World Logic Processors ProcessorSpecs BatchProcessors.
From S2P Require Import BatchSpecs Middleware Pipeline Dispatcher System Channels ChannelRefinement.
#[local] Open Scope nat_scope.

(** ** The measure *)

(** What a transfer costs when it is ready to leave a stage with [r] stages behind it. *)
Definition leaving (r : nat) : nat := 2 + 10 * r.
Arguments leaving : simpl never.

Definition routing_weight (w : nat) (r : routing) : nat :=
  match r with
  | Receiving => 0
  | Received _ => w + 8
  | SendingToBatch _ => w + 7
  | SendingOut _ => w
  end.

Definition node_weight (w : nat) (a : node) : nat :=
  match a with
  | NSingle f => length (processing f) * (w + 1) + length (results f) * w
  | NBatch b =>
      routing_weight w (router b) + length (collecting b) * (w + 6) +
      length (default [] (collected b)) * (w + 5) + length (default [] (forwarding b)) * (w + 4) +
      length (concat (bufferedBatches b)) * (w + 3) +
      length (concat (processing (batchsResults b))) * (w + 2) +
      length (concat (results (batchsResults b))) * (w + 1) + length (draining b) * w
  end.

Fixpoint nodes_weight (l : list node) : nat :=
  match l with
  | [] => 0
  | a :: l' => node_weight (leaving (length l')) a + nodes_weight l'
  end.

Definition net_weight (n : net) : nat :=
  let w := leaving (length (n_nodes n)) in
  length (n_input n) * (w + 1) + length (option_list (n_emitter n)) * w + nodes_weight (n_nodes n) +
  length (option_list (n_poller n)).

Definition chan_weight {W} (ch : Channels W) : nat :=
  sum_list_with (fun '(_, n) => net_weight n) (map_to_list (c_nets ch)) +
  match c_pushing ch with
  | Some (c, _) => match c_nets ch !! c with Some n => leaving (length (n_nodes n)) + 2 | None => 0 end
  | None => 0
  end.

Lemma nodes_weight_insert l k a : l !! k = Some a ->
  exists rest, nodes_weight l = node_weight (leaving (length l - S k)) a + rest /\
    forall a', nodes_weight (<[k := a']> l) = node_weight (leaving (length l - S k)) a' + rest.
Proof.
  revert k. induction l as [|x l IH]; intros [|k] Hk; cbn in Hk; simplify_eq.
  - exists (nodes_weight l). cbn. rewrite Nat.sub_0_r. done.
  - destruct (IH k Hk) as (rest & H1 & H2). exists (node_weight (leaving (length l)) x + rest).
    change (length (x :: l) - S (S k)) with (length l - S k). cbn [nodes_weight].
    split; [lia|]. intros a'. change (<[S k := a']> (x :: l)) with (x :: <[k := a']> l).
    cbn [nodes_weight]. rewrite length_insert, H2. lia.
Qed.

Lemma weight_insert (m : gmap Connection net) c n n' : m !! c = Some n ->
  sum_list_with (fun '(_, n) => net_weight n) (map_to_list (<[c := n']> m)) + net_weight n =
  sum_list_with (fun '(_, n) => net_weight n) (map_to_list m) + net_weight n'.
Proof.
  intros Hc. rewrite <- (map_to_list_delete m c n Hc). rewrite <- insert_delete_eq.
  rewrite map_to_list_insert by apply lookup_delete_eq. cbn. lia.
Qed.

Section Progress.
Context {W : Type} {E : Env W}.
Context (extra : nat).

Lemma gives_weight w a i a' : gives a i a' -> node_weight w a = w + node_weight w a'.
Proof.
  destruct 1 as [[pr res] l1 i l2 H|b i H|b i rest H]; try destruct b; cbn in *; subst; cbn;
    rewrite ?length_app; cbn; lia.
Qed.

Lemma takes_weight w (st : stage W) a i a' :
  takes extra st a i a' -> node_weight w a' <= node_weight w a + w + 8.
Proof.
  destruct 1 as [p [pr res] i H|rs re [pr res] i H|p size dur conc b i H]; try destruct b; cbn in *;
    subst; cbn; rewrite ?length_app; cbn; lia.
Qed.

Lemma works_weight w (st : stage W) s a s' a' : StageSpec st -> node_ok st a ->
  works extra st s a s' a' -> node_weight w a' < node_weight w a.
Proof.
  intros Hspec Hok Hw. red in Hspec. destruct Hw as
    [st s s' f l1 i l2 o Hl Hp | p size dur conc s s' b i batched Hr Hp
    | p size dur conc s b i Hr Hn Hlt | p size dur conc s b Hne Hn | p size dur conc s b batch Hb Hn
    | p size dur conc s b batch Hb Hlt | p size dur conc s b batch rest Hb Hroom
    | p size dur conc s s' b l1 batch l2 o Hb Hp | p size dur conc s b l1 batch l2 Hb Hd ];
    [destruct f as [pr res] | destruct b as [r co cd fw bu [pr res] dr] ..]; cbn in *; subst; cbn.
  - rewrite !length_app. cbn. destruct o; cbn; lia.
  - destruct batched; cbn; lia.
  - rewrite !length_app. cbn. lia.
  - destruct co; cbn; [done | lia].
  - destruct Hok as (_ & _ & Hb & _). apply Forall_cons in Hb as [[Hb _] _]. destruct batch; cbn; [done | lia].
  - destruct Hok as (_ & _ & Hb & _). rewrite !Forall_app in Hb. cbn in Hb. rewrite Forall_cons in Hb.
    destruct Hb as (_ & [[Hb _] _] & _). rewrite concat_snoc, length_app. destruct batch; cbn; [done | lia].
  - destruct Hok as (_ & _ & Hb & _). rewrite !Forall_app, Forall_cons in Hb.
    destruct Hb as (_ & _ & [[Hb _] _] & _). rewrite concat_snoc, !length_app. destruct batch; cbn; [done | lia].
  - destruct Hok as (_ & _ & Hb & _). rewrite !Forall_app, Forall_cons in Hb.
    destruct Hb as (_ & _ & _ & _ & [Hb _] & _). apply process_batch_length in Hp; [|done].
    rewrite !concat_app, !length_app. cbn. rewrite length_app.
    assert (length (concat (option_list o)) <= length batch).
    { destruct o as [out|]; cbn; [|lia]. apply Forall_cons in Hp as [Hp _]. rewrite app_nil_r. lia. }
    destruct batch; [done|]. cbn in *. nia.
  - destruct Hok as (_ & _ & _ & Hb). apply Forall_app in Hb as [_ Hb]. apply Forall_cons in Hb as [Hb _].
    rewrite !concat_app, !length_app. cbn. rewrite length_app. destruct batch; cbn; [done | lia].
Qed.

(** ** Every move of a pipeline makes it lighter *)

Lemma leaving_next r : leaving (S r) = leaving r + 10.
Proof. unfold leaving. lia. Qed.

Lemma net_step_weight c locked s n s' n' : net_ok c n ->
  net_step extra c locked s n s' n' ->
  length (n_nodes n') = length (n_nodes n) /\ net_weight n' < net_weight n.
Proof.
  intros Hok Hs. destruct Hs as [s n i rest Hi He | s n i st a a' rest He Hst Hn Ht | s s' n k st a a' Hst Hn Hw
    | s n k st a b i a' b' Ha Hb Hst Hg Ht | s n k a i a' Ha Hl Hg Hp | s n i Hp Hl];
    unfold net_weight; cbn; rewrite ?length_insert; split; try done.
  - rewrite Hi, He. cbn. lia.
  - by rewrite Hn.
  - rewrite Hn, He. change (length (option_list (Some i))) with 1. cbn [length nodes_weight]. rewrite leaving_next.
    pose proof (takes_weight (leaving (length rest)) _ _ _ _ Ht). lia.
  - destruct (nodes_weight_insert _ _ _ Hn) as (rest & -> & ->).
    pose proof (works_weight (leaving (length (n_nodes n) - S k)) _ _ _ _ _
      (Forall_lookup_1 _ _ _ _ (NewPipeline_spec _ _) Hst) (net_ok_lookup _ _ _ _ _ Hok Hst Hn) Hw). lia.
  - destruct (nodes_weight_insert _ _ _ Ha) as (r1 & Hw1 & Hw1'). specialize (Hw1' a').
    assert (Hb' : <[k := a']> (n_nodes n) !! S k = Some b) by (rewrite list_lookup_insert_ne by lia; done).
    destruct (nodes_weight_insert _ _ _ Hb') as (r2 & Hw2 & Hw2'). rewrite Hw2'. rewrite length_insert in *.
    apply lookup_lt_Some in Hb. replace (length (n_nodes n) - S k) with (S (length (n_nodes n) - S (S k))) in * by lia.
    rewrite leaving_next in *. apply (gives_weight (leaving (length (n_nodes n) - S (S k)) + 10)) in Hg.
    apply (takes_weight (leaving (length (n_nodes n) - S (S k)))) in Ht. lia.
  - destruct (nodes_weight_insert _ _ _ Ha) as (rest & -> & ->). rewrite Hp. change (length (option_list (Some i))) with 1. change (length (option_list (@None IBCV2Transfer))) with 0.
    apply (gives_weight (leaving (length (n_nodes n) - S k))) in Hg. unfold leaving in *. lia.
  - rewrite Hp. cbn. lia.
Qed.

Lemma pipe_step_weight (ch ch' : Channels W) : nets_ok ch -> pipe_step extra ch ch' -> chan_weight ch' < chan_weight ch.
Proof.
  intros [Hn _] Hs. destruct Hs as [s s' m sn pushing c n n' Hc Hns | s m sn c i n Hc Hlt];
    unfold chan_weight; cbn in *.
  - destruct (Hn _ _ Hc) as [_ Hok]. destruct (net_step_weight _ _ _ _ _ _ Hok Hns) as [Hl Hw].
    pose proof (weight_insert m c n n' Hc) as Hi. destruct pushing as [[c' i]|]; [|lia].
    destruct (decide (c = c')) as [<-|N]; [rewrite lookup_insert_eq, Hc, Hl; lia|].
    rewrite lookup_insert_ne by done. lia.
  - rewrite Hc. match goal with |- context [<[c := ?x]> m] => set (n' := x) end.
    pose proof (weight_insert m c n n' Hc) as Hi.
    assert (Hw : net_weight n' = net_weight n + (leaving (length (n_nodes n)) + 1)).
    { unfold net_weight, n'. cbn. rewrite length_app. cbn. lia. }
    lia.
Qed.

(** ** A pipeline that holds a transfer can move *)

Lemma process_returns {A} (P : A -> M W A) C i s :
  (forall s', P i s <> (Panic, s')) -> (forall e s, exists s', C i e s = (Ok tt, s')) ->
  exists o s', process P C i s = (Ok o, s').
Proof.
  intros HP HC. unfold process, bind, try. destruct (P i s) as [[o|e|] s1]; cbn; [eauto | | by destruct (HP s1)].
  destruct (HC e s1) as [s2 ->]. cbn. eauto.
Qed.

Lemma process_transfer_returns (st : stage W) i s : StageSpec st ->
  (forall p a b c, st <> Batched p a b c) -> exists o s', process_transfer st i s = (Ok o, s').
Proof.
  intros Hspec Hnb. red in Hspec. destruct st as [p|p a b c|rs re]; cbn; [|by destruct (Hnb p a b c)|].
  - apply process_returns; [|intros e s1; apply cancel_returns].
    intros s' H. by apply (wp_run _ _ _ _ _ (MW_outcome p i s)) in H.
  - apply process_returns; [|intros e s1; eexists; reflexivity].
    intros s' H. apply (wp_run _ _ _ _ _ (StateFinisher_outcome rs re i s)) in H.
    destruct (finishable rs re i); [by destruct H as (x & [=] & _) | by destruct H].
Qed.

Lemma process_batch_returns p `{!BatchProcessorSpec p} batch (s : Sys W) :
  exists o s', process_batch p batch s = (Ok o, s').
Proof.
  apply process_returns.
  - intros s' H. by apply (wp_run _ _ _ _ _ (BatchMW_outcome p batch s)) in H.
  - intros e s1. destruct (bcancel_returns batch e s1) as ([] & s2 & H). eauto.
Qed.

Lemma toBatch_returns p `{!BatchProcessorSpec p} i (s : Sys W) : exists b s', toBatch p i s = (Ok b, s').
Proof.
  unfold toBatch. case_match; [by eexists _, _|]. apply bshould_returns.
Qed.

Lemma node_progress k (st : stage W) a s : StageSpec st -> stage_ok st -> node_ok st a ->
  node_flights k a <> [] ->
  (exists s' a', works extra st s a s' a') \/ (exists i a', gives a i a').
Proof.
  intros Hspec Hst Hok Hne. destruct a as [f|b].
  - destruct f as [[|i pr] [|i' res]]; [done | right | left | left];
      [by eexists _, _; apply (gives_result _ [])|..];
      (destruct (process_transfer_returns st i s) as (o & s' & Ho);
        [done | by destruct st | eexists _, _; by eapply (works_process _ _ _ _ _ [])]).
  - destruct st as [|p size dur conc|]; try done. red in Hspec. cbn in Hst.
    destruct b as [r co cd fw bu [pr res] dr]. cbn in Hok, Hne.
    destruct dr as [|i dr]; [|right; eexists _, _; by eapply gives_drained].
    destruct res as [|batch res]; [|left; eexists _, _; by eapply (works_drain _ _ _ _ _ _ _ [] batch)].
    destruct pr as [|batch pr].
    2:{ destruct (process_batch_returns p batch s) as (o & s' & Ho).
        left. eexists _, _. by eapply (works_process_batch _ _ _ _ _ _ _ _ [] batch). }
    destruct bu as [|batch bu].
    2:{ left. eexists _, _. eapply works_take_batch; [done|]. unfold has_room. cbn. lia. }
    destruct fw as [batch|]; [left; eexists _, _; by eapply works_buffer|].
    destruct cd as [batch|]; [left; eexists _, _; by eapply works_forward|].
    destruct co as [|i co]; [|left; eexists _, _; by eapply works_collected].
    destruct r as [|i|i|i]; [done | | right; eexists _, _; by eapply gives_routed |].
    + destruct (toBatch_returns p i s) as (b & s' & Hb). left. eexists _, _. by eapply works_route.
    + left. eexists _, _. eapply works_collect; [done | done|]. cbn. lia.
Qed.

Lemma node_flights_nil k k' a : node_flights k a = [] -> node_flights k' a = [].
Proof.
  intros H. apply (fmap_nil_inv snd). transitivity (snd <$> node_flights k a); [|by rewrite H].
  destruct a as [f|b]; cbn; unfold at_place; rewrite !fmap_app, <- !list_fmap_compose; [done|].
  by destruct (router b).
Qed.

Lemma idle_takes k (st : stage W) b i : stage_ok st -> node_ok st b -> node_flights k b = [] ->
  exists b', takes extra st b i b'.
Proof.
  intros Hst Hok Hf. destruct b as [[pr res]|b].
  - apply app_eq_nil in Hf as [Hp%fmap_nil_inv Hr%fmap_nil_inv]. cbn in *. subst.
    destruct st; try done; eexists; constructor; unfold has_room, concurrency; cbn; lia.
  - apply app_eq_nil in Hf as [Hr _]. destruct st as [|p size dur conc|]; try done.
    eexists. apply takes_batched. by destruct (router b).
Qed.

(** A move of the stages, whatever surrounds them: inside one of them, from one to the
    next, or out of the last one. *)
Inductive nodes_move (sts : list (stage W)) (s : Sys W) (nodes : list node) : Prop :=
  | move_work k st a s' a' :
      sts !! k = Some st -> nodes !! k = Some a -> works extra st s a s' a' -> nodes_move sts s nodes
  | move_handover k st a b i a' b' :
      nodes !! k = Some a -> nodes !! S k = Some b -> sts !! S k = Some st ->
      gives a i a' -> takes extra st b i b' -> nodes_move sts s nodes
  | move_leave k a i a' :
      nodes !! k = Some a -> S k = length nodes -> gives a i a' -> nodes_move sts s nodes.

(** From the output backwards: a move, or nothing in the last [j] stages. *)
Lemma nodes_progress sts s nodes j : Forall StageSpec sts -> Forall stage_ok sts -> Forall2 node_ok sts nodes ->
  nodes_move sts s nodes \/
  (forall k a, length nodes - j <= k -> nodes !! k = Some a -> node_flights k a = []).
Proof.
  intros Hspec Hsts Hok. induction j as [|j [IH|IH]]; [|by left|].
  { right. intros k a Hk Ha. apply lookup_lt_Some in Ha. lia. }
  destruct (decide (length nodes <= j)) as [Hj|Hj].
  { right. intros k a Hk. apply IH. lia. }
  set (k := length nodes - S j). destruct (lookup_lt_is_Some_2 nodes k) as [a Ha]; [lia|].
  destruct (decide (length (node_flights k a) = 0)) as [Hf%length_zero_iff_nil|Hf].
  { right. intros k' a' Hk' Ha'. destruct (decide (k' = k)) as [->|N]; [congruence|].
    apply IH; [lia | done]. }
  left. destruct (Forall2_lookup_r _ _ _ _ _ Hok Ha) as (st & Hst & Hna).
  destruct (node_progress k st a s (Forall_lookup_1 _ _ _ _ Hspec Hst) (Forall_lookup_1 _ _ _ _ Hsts Hst) Hna)
    as [(s' & a' & Hw)|(i & a' & Hg)].
  - intros E0. by rewrite E0 in Hf.
  - eapply move_work; [exact Hst | exact Ha | exact Hw].
  - destruct (decide (S k = length nodes)) as [Hl|Hl]; [eapply move_leave; [exact Ha | exact Hl | exact Hg]|].
    destruct (lookup_lt_is_Some_2 nodes (S k)) as [b Hb]; [lia|].
    destruct (Forall2_lookup_r _ _ _ _ _ Hok Hb) as (st' & Hst' & Hnb).
    destruct (idle_takes (S k) st' b i) as [b' Ht];
      [by eapply Forall_lookup_1 | done | apply IH; [lia | done]|].
    eapply move_handover; [exact Ha | exact Hb | exact Hst' | exact Hg | exact Ht].
Qed.

Lemma nodes_flights_nil k l :
  (forall j a, l !! j = Some a -> node_flights (k + j) a = []) -> nodes_flights k l = [].
Proof.
  revert k. induction l as [|a l IH]; intros k H; [done|]. cbn.
  rewrite <- (Nat.add_0_r k) at 1. rewrite (H 0 a eq_refl). cbn. apply IH.
  intros j a' Ha'. specialize (H (S j) a' Ha'). by rewrite Nat.add_succ_r in H.
Qed.

(** With its deduper unlocked, a pipeline that holds a transfer can move. *)
Lemma net_progress c n s : opts_ok (n_opts n) -> net_ok c n -> net_flights n <> [] ->
  exists s' n', net_step extra c false s n s' n'.
Proof.
  intros Ho Hok Hne. destruct (n_poller n) as [i|] eqn:Hp; [eexists _, _; by eapply net_delete|].
  destruct (nodes_progress (NewPipeline c (n_opts n)) s (n_nodes n) (length (n_nodes n))) as [H|Hidle];
    [apply NewPipeline_spec | by apply NewPipeline_ok | done | |].
  { destruct H as [k st a s' a' H1 H2 H3|k st a b i a' b' H1 H2 H3 H4 H5|k a i a' H1 H2 H3]; eexists _, _;
      [exact (net_work _ _ _ _ _ _ _ _ _ _ H1 H2 H3) | exact (net_handover _ _ _ _ _ _ _ _ _ _ _ _ H1 H2 H3 H4 H5)
      | exact (net_poll _ _ _ _ _ _ _ _ _ H1 H2 H3 Hp)]. }
  assert (Hall : forall k a, n_nodes n !! k = Some a -> node_flights k a = []).
  { intros k a. apply Hidle. lia. }
  destruct (n_emitter n) as [i|] eqn:He.
  - destruct (n_nodes n) as [|a rest] eqn:Hn; [apply Forall2_length in Hok; by rewrite Hn in Hok|].
    eassert (Ha : n_nodes n !! 0 = Some a) by by rewrite Hn.
    destruct (Forall2_lookup_r _ _ _ _ _ Hok Ha) as (st & Hst & Hna).
    destruct (idle_takes 0 st a i) as [a' Ht];
      [by eapply Forall_lookup_1; [by apply NewPipeline_ok|] | done | by apply (Hall 0)|].
    eexists _, _. by eapply net_first.
  - destruct (n_input n) as [|i rest] eqn:Hi; [|eexists _, _; by eapply net_emit].
    exfalso. apply Hne. unfold net_flights. rewrite Hi, He, Hp. cbn.
    rewrite nodes_flights_nil; [done|]. by intros k a Ha%Hall.
Qed.

(** ** The keys of the deduper bound what a pipeline holds *)

Lemma flights_bound ch c n : cfg_positive -> chan_reachable extra ch -> c_nets ch !! c = Some n ->
  length (pending (c_pushing ch) c) + length (net_flights n) <= size (n_keys n).
Proof.
  intros Hcfg Hr Hc. destruct (chan_reachable_refines extra ch Hcfg Hr) as (_ & r & Hreach & Href).
  pose proof (ref_nets _ _ Href c) as Hn. rewrite Hc in Hn.
  inversion Hn as [? d (Ho & Hk & Hf) Hx Hd|]; subst.
  destruct (inv_pipelines _ (reachable_inv _ Hreach) c d) as [Hnd Hin]; [done|].
  assert (Hl : length (pending (c_pushing ch) c) + length (net_flights n) =
               length (newTransferKey <$> (flights d).*2)).
  { rewrite !length_fmap, Hf, length_app. unfold at_place. by rewrite length_fmap. }
  rewrite Hl, <- (size_list_to_set (C:=gset transferKey)) by done. apply subseteq_size.
  intros k Hkin%elem_of_list_to_set. apply list_elem_of_fmap in Hkin as (t & -> & Ht).
  destruct (Hin t Ht) as (_ & H & _). by rewrite <- Hk.
Qed.

Definition drained (ch : Channels W) : Prop :=
  c_pushing ch = None /\ forall c n, c_nets ch !! c = Some n -> net_flights n = [].

(** No deduper holds more keys than its input channel has room for. *)
Definition few_keys (ch : Channels W) : Prop :=
  forall c n, c_nets ch !! c = Some n -> (Z.of_nat (size (n_keys n)) <= inputBufferSize)%Z.

Lemma pipe_progress ch : cfg_positive -> chan_reachable extra ch -> few_keys ch ->
  drained ch \/ exists ch', pipe_step extra ch ch'.
Proof.
  intros Hcfg Hr Hk. destruct (chan_reachable_refines extra ch Hcfg Hr) as [[Hn Hp] _].
  pose proof (fun c n => flights_bound ch c n Hcfg Hr) as Hb.
  destruct ch as [s m sn [[c i]|]]; cbn in *.
  - right. destruct (Hp c i eq_refl) as [n Hc]. specialize (Hb c n Hc). specialize (Hk c n Hc).
    rewrite decide_True in Hb by done. eexists. eapply pipe_send; [done|].
    unfold net_flights, at_place in Hb. rewrite length_app, length_fmap, length_app in Hb. cbn in Hb. lia.
  - destruct (decide (map_Forall (fun _ n => length (net_flights n) = 0) m)) as [Hd|Hd].
    + left. split; [done|]. intros c n Hc. apply length_zero_iff_nil. by apply (Hd c n).
    + right. apply map_not_Forall in Hd as (c & n & Hc & Hd); [|apply _].
      destruct (Hn c n Hc) as [Ho Hok]. destruct (net_progress c n s Ho Hok) as (s' & n' & Hs).
      { intros E0. by rewrite E0 in Hd. }
      eexists. by eapply pipe_net.
Qed.

Lemma few_keys_step (ch ch' : Channels W) : few_keys ch -> pipe_step extra ch ch' -> few_keys ch'.
Proof.
  intros Hk Hs. destruct Hs as [s s' m sn pushing c n n' Hc Hns | s m sn c i n Hc Hlt];
    intros c' n''; cbn; intros [[<- <-]|[N H']]%lookup_insert_Some; try (by eapply Hk).
  - specialize (Hk c n Hc). destruct Hns; try done. cbn.
    assert (size (n_keys n ∖ {[newTransferKey i]}) <= size (n_keys n))
      by (apply subseteq_size; set_solver). lia.
  - by apply (Hk c n).
Qed.

(** C5: the pipelines drain.  In a reachable state of the goroutines where no deduper
    holds more keys than the input channel has room for, the pipelines can make only
    so many moves by themselves, whatever the scheduling, and until everything in
    flight has left and the dispatcher's send has completed some goroutine can move:
    there is no deadlock, and every run of the pipelines ends with all of them empty.
    No move panics. *)
Theorem pipelines_drain ch k ch' :
  cfg_positive -> chan_reachable extra ch -> few_keys ch ->
  nsteps (pipe_step extra) k ch ch' ->
  k <= chan_weight ch /\ (drained ch' \/ exists ch'', pipe_step extra ch' ch'').
Proof.
  intros Hcfg Hr Hk Hs. revert Hr Hk. induction Hs as [ch|k ch ch1 ch' H1 _ IH]; intros Hr Hk.
  - split; [lia | by apply pipe_progress].
  - destruct (chan_reachable_refines extra ch Hcfg Hr) as [Hok _].
    pose proof (pipe_step_weight ch ch1 Hok H1) as Hw.
    destruct IH as [IH1 IH2]; [by eapply chan_reach_step, chan_pipe | by eapply few_keys_step|].
    split; [lia | done].
Qed.

(** ** A full pipeline stands still *)

(** No goroutine of the stage can move on its own, and it takes nothing. *)
Definition node_full (st : stage W) (a : node) : Prop :=
  match a with
  | NSingle f => processing f = [] /\ ~ has_room extra concurrency f
  | NBatch b => exists i, router b = SendingOut i /\ collecting b = [] /\ collected b = None /\
      forwarding b = None /\ bufferedBatches b = [] /\ batchsResults b = mkFanout [] []
  end.

Lemma full_stuck (st : stage W) a : node_full st a ->
  (forall s s' a', ~ works extra st s a s' a') /\ (forall i a', ~ takes extra st a i a').
Proof.
  destruct a as [[pr res]|[r co cd fw bu fa dr]]; cbn.
  - intros [-> Hr]. split; [intros s s' a' Hw | intros i a' Ht].
    + inversion Hw as [? ? ? ? l1 ? ? ? Hl| | | | | | | |]; subst. by destruct l1.
    + by inversion Ht.
  - intros (i & -> & -> & -> & -> & -> & ->). split; [intros s s' a' Hw | intros i' a' Ht].
    + inversion Hw; subst; cbn in *; try done; by destruct l1.
    + by inversion Ht.
Qed.

(** A pipeline whose input is full, whose stages are full and whose output has been
    polled, while the dispatcher sends to it: the dispatcher waits for room in the
    input, the goroutine of the deduper for the lock the dispatcher holds, and no
    goroutine of the pipeline can move.  What the rest of the relayer does changes
    nothing about it. *)
Definition jammed (c : Connection) (ch : Channels W) : Prop :=
  exists n i, c_pushing ch = Some (c, i) /\ c_nets ch !! c = Some n /\
    (inputBufferSize <= Z.of_nat (length (n_input n)))%Z /\
    is_Some (n_emitter n) /\ is_Some (n_poller n) /\
    Forall2 node_full (NewPipeline c (n_opts n)) (n_nodes n).

Lemma jammed_for_ever c ch ch' : jammed c ch -> rtc (chan_step extra) ch ch' ->
  jammed c ch' /\ c_pushing ch' = c_pushing ch /\ c_nets ch' !! c = c_nets ch !! c.
Proof.
  intros Hj Hs. induction Hs as [|ch ch1 ch' H1 _ IH]; [done|].
  assert (H : jammed c ch1 /\ c_pushing ch1 = c_pushing ch /\ c_nets ch1 !! c = c_nets ch !! c);
    [|destruct H as (Hj1 & <- & <-); by apply IH].
  clear IH. destruct Hj as (n & i & Hpu & Hc & Hin & [e He] & [o Ho] & Hfull).
  assert (Hat : forall k a, n_nodes n !! k = Some a -> exists st,
    NewPipeline c (n_opts n) !! k = Some st /\ node_full st a).
  { intros k a Ha. destruct (Forall2_lookup_r _ _ _ _ _ Hfull Ha) as (st & ? & ?). eauto. }
  assert (Hkeep : forall ch1 : Channels W, c_pushing ch1 = c_pushing ch -> c_nets ch1 !! c = c_nets ch !! c ->
    jammed c ch1 /\ c_pushing ch1 = c_pushing ch /\ c_nets ch1 !! c = c_nets ch !! c).
  { intros ch2 H2 H3. split; [|done]. exists n, i. rewrite H2, H3. split_and!; eauto. }
  destruct H1 as [s s' m sn pushing _ _ | s s' m rows _ | s s' m m' r sn pushing Hrun
    | ? ? [s s' m sn pushing c' n' n'' Hc' Hns | s m sn c' i' n' Hc' Hlt]]; cbn -[NewPipeline] in *; try done.
  - by apply Hkeep.
  - apply Hkeep; [done|]. cbn. destruct (decide (c' = c)) as [->|N]; [|by rewrite lookup_insert_ne].
    exfalso. assert (n' = n) as -> by congruence. subst pushing. cbn in Hns.
    rewrite bool_decide_true in Hns by done.
    inversion Hns as [? ? ? ? ? He'|? ? ? st a ? ? ? Hst Hn Ht|? ? ? k st a ? Hst Ha Hw
      |? ? k st a b ? ? ? Ha Hb Hst Hg Ht|? ? ? ? ? ? ? ? ? Hp|? ? ? ? Hl]; subst; try congruence.
    + destruct (Hat 0 a) as (st' & Hst' & Hf); [by rewrite Hn|].
      assert (st' = st) as -> by congruence. by eapply (proj2 (full_stuck _ _ Hf)).
    + destruct (Hat k a) as (st' & Hst' & Hf); [done|].
      assert (st' = st) as -> by congruence. by eapply (proj1 (full_stuck _ _ Hf)).
    + destruct (Hat (S k) b) as (st' & Hst' & Hf); [done|].
      assert (st' = st) as -> by congruence. by eapply (proj2 (full_stuck _ _ Hf)).
  - exfalso. injection Hpu as -> ->. assert (n' = n) as -> by congruence. lia.
Qed.

End Progress.
