(* ===== verification/Shutdown.v ===== *)
(** * Closing a pipeline

    [PipelineDeduper.Close] and [Pipeline.Close] of [src/relayer/ibcv2/pipeline.go], which
    the dispatcher calls through [IBCV2PipelineManager.Close] once its context is done:
    the input is closed, the stages cancel what they hold or finish it, their channels
    close one after the other, the deduper's goroutine ends, and [Close] returns.  The
    goroutines are those of the file Channels; the context of the pipeline is done and
    nobody sends to it any more. *)

From S2P Require Import Prelude Db Transfer Config World Logic Processors ProcessorSpecs BatchProcessors.
From S2P Require Import BatchSpecs Middleware Pipeline Dispatcher System Channels ChannelRefinement ChannelProgress.
#[local] Open Scope nat_scope.

(** The emitter: reading the input, sending what it read (nil from the closed input), or
    through, its channel closed.  With its context done it sends once at most. *)
Inductive emitting :=
  | Reading
  | Sending (i : option IBCV2Transfer)
  | Through.

(** A pipeline that is being closed: the stages with the number of their channels that are
    closed, and whether the deduper's goroutine has ended. *)
Record closing := mkClosing {
  cl_keys : gset transferKey;
  cl_input : list IBCV2Transfer;
  cl_emitter : emitting;
  cl_nodes : list (node * nat);
  cl_poller : option IBCV2Transfer;
  cl_ended : bool;
}.

#[export] Instance eta_closing : Eta closing := fun c =>
  mkClosing (cl_keys c) (cl_input c) (cl_emitter c) (cl_nodes c) (cl_poller c) (cl_ended c).

(** The input of a pipeline is closed. *)
Definition Pipeline_Close (n : net) : closing :=
  mkClosing (n_keys n) (n_input n)
    (match n_emitter n with Some i => Sending (Some i) | None => Reading end)
    ((fun a => (a, 0)) <$> n_nodes n) (n_poller n) false.

Section Shutdown.
Context {W : Type} {E : Env W}.
Context (extra : nat) (sts : list (stage W)).

(** The channels of a stage: the output of a single stage; [toBatch], the collector's
    output, [bufferedBatches], [batchsResults] and [out] of a batch stage. *)
Definition channels (st : stage W) : nat := match st with Batched _ _ _ _ => 5 | _ => 1 end.

(** When the goroutine that closes the next channel of a stage gets to it: its own input
    is closed ([upstream] is, for the first) and it holds nothing. *)
Definition may_close (a : node) (k : nat) (upstream : bool) : Prop :=
  match a, k with
  | NSingle f, 0 => upstream = true /\ processing f = [] /\ results f = []
  | NBatch b, 0 => upstream = true /\ router b = Receiving
  | NBatch b, 1 => collecting b = [] /\ collected b = None
  | NBatch b, 2 => forwarding b = None
  | NBatch b, 3 => bufferedBatches b = [] /\ processing (batchsResults b) = [] /\ results (batchsResults b) = []
  | NBatch b, 4 => draining b = []
  | _, _ => False
  end.

(** [ProcessConcurrently] with its context done: an input is cancelled, not processed. *)
Definition cancel_transfer (st : stage W) (i : IBCV2Transfer) (e : error) : M W unit :=
  match st with
  | Single p => MW_Cancel p (Some i) e
  | Finisher _ _ => StateFinisher_Cancel i e
  | Batched _ _ _ _ => panic
  end.

Inductive cancels : stage W -> Sys W -> node -> Sys W -> node -> Prop :=
  | cancels_transfer st s s' f l1 i l2 :
      processing f = l1 ++ i :: l2 -> cancel_transfer st i (ESentinel context_Canceled) s = (Ok tt, s') ->
      cancels st s (NSingle f) s' (NSingle (f <| processing := l1 ++ l2 |>))
  | cancels_batch p size dur conc s s' b l1 batch l2 :
      processing (batchsResults b) = l1 ++ batch :: l2 ->
      BatchMW_Cancel p batch (ESentinel context_Canceled) s = (Ok tt, s') ->
      cancels (Batched p size dur conc) s (NBatch b) s'
        (NBatch (b <| batchsResults := mkFanout (l1 ++ l2) (results (batchsResults b)) |>)).

(** The channel a stage receives from is closed. *)
Definition upstream_closed (c : closing) (k : nat) : bool :=
  match k with
  | O => match cl_emitter c with Through => true | _ => false end
  | S k' => match sts !! k', (cl_nodes c).*2 !! k' with
            | Some st, Some j => bool_decide (j = channels st)
            | _, _ => false
            end
  end.

Inductive down_step : Sys W * closing -> Sys W * closing -> Prop :=
  | down_read s c :
      cl_emitter c = Reading ->
      down_step (s, c) (s, c <| cl_input := tail (cl_input c) |> <| cl_emitter := Sending (head (cl_input c)) |>)
  | down_stop s c :
      cl_emitter c = Reading -> down_step (s, c) (s, c <| cl_emitter := Through |>)
  | down_first s c i st a a' j rest :
      cl_emitter c = Sending (Some i) -> sts !! 0 = Some st -> cl_nodes c = (a, j) :: rest ->
      takes extra st a i a' ->
      down_step (s, c) (s, c <| cl_emitter := Through |> <| cl_nodes := (a', j) :: rest |>)
  | down_nil s s' c p f j rest :
      cl_emitter c = Sending None -> sts !! 0 = Some (Single p) -> cl_nodes c = (NSingle f, j) :: rest ->
      has_room extra concurrency f -> MW_Cancel p None (ESentinel context_Canceled) s = (Ok tt, s') ->
      down_step (s, c) (s', c <| cl_emitter := Through |>)
  | down_work s s' c k st a a' j :
      sts !! k = Some st -> cl_nodes c !! k = Some (a, j) ->
      (works extra st s a s' a' \/ cancels st s a s' a') ->
      down_step (s, c) (s', c <| cl_nodes := <[k := (a', j)]> (cl_nodes c) |>)
  | down_handover s c k st a b i a' b' ja jb :
      cl_nodes c !! k = Some (a, ja) -> cl_nodes c !! S k = Some (b, jb) -> sts !! S k = Some st ->
      gives a i a' -> takes extra st b i b' ->
      down_step (s, c) (s, c <| cl_nodes := <[S k := (b', jb)]> (<[k := (a', ja)]> (cl_nodes c)) |>)
  | down_poll s c k a i a' j :
      cl_nodes c !! k = Some (a, j) -> S k = length (cl_nodes c) -> gives a i a' -> cl_poller c = None ->
      cl_ended c = false ->
      down_step (s, c) (s, c <| cl_nodes := <[k := (a', j)]> (cl_nodes c) |> <| cl_poller := Some i |>)
  | down_delete s c i :
      cl_poller c = Some i ->
      down_step (s, c) (s, c <| cl_keys := cl_keys c ∖ {[ newTransferKey i ]} |> <| cl_poller := None |>)
  | down_close s c k a j :
      cl_nodes c !! k = Some (a, j) -> may_close a j (upstream_closed c k) ->
      down_step (s, c) (s, c <| cl_nodes := <[k := (a, S j)]> (cl_nodes c) |>)
  | down_end s c :
      upstream_closed c (length (cl_nodes c)) = true -> cl_poller c = None -> cl_ended c = false ->
      down_step (s, c) (s, c <| cl_ended := true |>).

(** Moves of the pipeline while the rest of the relayer does as it pleases with the
    database and the chains. *)
Definition closing_step (c c' : closing) : Prop := exists s s', down_step (s, c) (s', c').

(** ** The channels close in order *)

(** What is empty once [j] channels of a stage are closed. *)
Definition closed_ok (a : node) (j : nat) : Prop :=
  match a with
  | NSingle f => 1 <= j -> processing f = [] /\ results f = []
  | NBatch b =>
      (1 <= j -> router b = Receiving) /\ (2 <= j -> collecting b = [] /\ collected b = None) /\
      (3 <= j -> forwarding b = None) /\
      (4 <= j -> bufferedBatches b = [] /\ batchsResults b = mkFanout [] []) /\
      (5 <= j -> draining b = [])
  end.

Definition closing_ok (c : closing) : Prop :=
  Forall2 node_ok sts (cl_nodes c).*1 /\
  forall k st a j, sts !! k = Some st -> cl_nodes c !! k = Some (a, j) ->
    j <= channels st /\ closed_ok a j /\ (1 <= j -> upstream_closed c k = true).

Lemma app_cons_ne {A} (l1 : list A) x l2 : l1 ++ x :: l2 <> [].
Proof. by destruct l1. Qed.

(** The goroutines of a stage fill nothing behind a closed channel. *)
Lemma works_closed st s a s' a' j : works extra st s a s' a' -> closed_ok a j -> closed_ok a' j.
Proof.
  intros Hw. destruct Hw; try destruct b as [r co cd fw bu [pr res] dr]; try destruct f as [pr res]; cbn in *; subst.
  - intros C Hj. destruct (C Hj) as [C1 _]. by destruct (app_cons_ne _ _ _ C1).
  - intros (C1 & C2 & C3 & C4 & C5). split_and!; try done. intros Hj. by specialize (C1 Hj).
  - intros (C1 & C2 & C3 & C4 & C5).
    assert (j = 0) as -> by (destruct j; [done|]; specialize (C1 ltac:(lia)); done). split_and!; lia.
  - intros (C1 & C2 & C3 & C4 & C5). split_and!; try done. intros Hj. by destruct (C2 Hj).
  - intros (C1 & C2 & C3 & C4 & C5). split_and!; try done; intros Hj; destruct C2; done || lia.
  - intros (C1 & C2 & C3 & C4 & C5). split_and!; try done. intros Hj. specialize (C3 ltac:(lia)). done.
  - intros (C1 & C2 & C3 & C4 & C5). split_and!; try done. intros Hj. by destruct (C4 Hj).
  - intros (C1 & C2 & C3 & C4 & C5). split_and!; try done. intros Hj. destruct (C4 Hj) as [_ [= C _]].
    by destruct (app_cons_ne _ _ _ C).
  - intros (C1 & C2 & C3 & C4 & C5). split_and!; try done; intros Hj; destruct C4 as [_ [= _ C]]; try lia;
      by destruct (app_cons_ne _ _ _ C).
Qed.

Lemma cancels_closed st s a s' a' j : cancels st s a s' a' -> closed_ok a j -> closed_ok a' j.
Proof.
  intros Hc. destruct Hc; try destruct b as [r co cd fw bu [pr res] dr]; try destruct f as [pr res]; cbn in *; subst.
  - intros C Hj. destruct (C Hj) as [C1 _]. by destruct (app_cons_ne _ _ _ C1).
  - intros (C1 & C2 & C3 & C4 & C5). split_and!; try done. intros Hj. destruct (C4 Hj) as [_ [= C _]].
    by destruct (app_cons_ne _ _ _ C).
Qed.

(** No stage sends on its output once that is closed. *)
Lemma gives_open st a i a' j : node_ok st a -> gives a i a' -> closed_ok a j -> j <= channels st ->
  j < channels st /\ closed_ok a' j.
Proof.
  intros Hok Hg. destruct Hg; destruct st; try done; try destruct b as [r co cd fw bu [pr res] dr];
    try destruct f as [pr res]; cbn in *; subst.
  1,2: intros C Hj; assert (j = 0) as -> by (destruct j; [done|]; destruct (C ltac:(lia)) as [_ C1]; by destruct (app_cons_ne _ _ _ C1));
    split; lia.
  - intros (C1 & C2 & C3 & C4 & C5) Hj.
    assert (j = 0) as -> by (destruct j; [done|]; specialize (C1 ltac:(lia)); done). split_and!; lia.
  - intros (C1 & C2 & C3 & C4 & C5) Hj. split_and!; try done.
    + destruct (decide (j = 5)) as [->|N]; [by specialize (C5 ltac:(lia)) | lia].
    + intros H. by specialize (C5 H).
Qed.

Lemma closed_ok_0 a : closed_ok a 0.
Proof. destruct a; cbn; [lia|]. split_and!; lia. Qed.

Lemma may_close_ok st a j up : node_ok st a -> closed_ok a j -> may_close a j up ->
  S j <= channels st /\ closed_ok a (S j) /\ (j = 0 -> up = true).
Proof.
  intros Hok Hc Hm. destruct a as [f|b].
  - destruct st; try done; destruct j; try done; cbn in *; destruct Hm as (? & ? & ?); split_and!; try done; lia.
  - destruct st; try done. cbn in Hc. destruct Hc as (C1 & C2 & C3 & C4 & C5), b as [r co cd fw bu [pr res] dr].
    do 5 (try destruct j as [|j]); cbn in *; try done; try destruct Hm as (? & ? & ?); try destruct Hm;
      subst; split_and!; try done; try lia; intros; try (apply C1; lia); try (apply C2; lia); try (apply C3; lia);
      try (apply C4; lia).
Qed.

(** Closed channels stay closed. *)
Lemma upstream_closed_mono c c' :
  (cl_emitter c = Through -> cl_emitter c' = Through) ->
  (forall k st j, sts !! k = Some st -> (cl_nodes c).*2 !! k = Some j -> j = channels st ->
    (cl_nodes c').*2 !! k = Some j) ->
  forall k, upstream_closed c k = true -> upstream_closed c' k = true.
Proof.
  intros He Hn [|k]; cbn.
  - destruct (cl_emitter c); [done..|]. by rewrite He.
  - destruct (sts !! k) as [st|] eqn:Hst; [|done]. destruct ((cl_nodes c).*2 !! k) as [j|] eqn:Hj; [|done].
    intros ->%bool_decide_eq_true. by rewrite (Hn k st (channels st)), bool_decide_true.
Qed.

(** A stage changes, its closed channels do not. *)
Lemma closing_ok_update c c' k st a a' j : closing_ok c ->
  (cl_emitter c = Through -> cl_emitter c' = Through) -> cl_nodes c' = <[k := (a', j)]> (cl_nodes c) ->
  sts !! k = Some st -> cl_nodes c !! k = Some (a, j) -> node_ok st a' -> closed_ok a' j -> closing_ok c'.
Proof.
  intros [Hn Hc] He Hc' Hst Ha Hok Hcl.
  assert (Hup : forall k, upstream_closed c k = true -> upstream_closed c' k = true).
  { apply upstream_closed_mono; [done|]. intros k' st' j' _ Hj' _.
    rewrite Hc', list_fmap_insert. cbn. rewrite list_insert_id; [done|]. by rewrite list_lookup_fmap, Ha. }
  split.
  - rewrite Hc', list_fmap_insert. cbn. rewrite <- (list_insert_id sts k st Hst). by apply Forall2_insert.
  - intros k' st' a1 j1 Hst' Ha1. rewrite Hc' in Ha1.
    apply list_lookup_insert_Some in Ha1 as [(-> & [= <- <-] & _)|[N Ha1]].
    + destruct (Hc k' st' a j Hst' Ha) as (? & ? & ?). auto.
    + destruct (Hc k' st' a1 j1 Hst' Ha1) as (? & ? & ?). auto.
Qed.

Lemma closing_ok_lookup c k st a j : closing_ok c -> sts !! k = Some st -> cl_nodes c !! k = Some (a, j) -> node_ok st a.
Proof. intros [Hn _] Hst Ha. eapply Forall2_lookup_lr; [done | done|]. by rewrite list_lookup_fmap, Ha. Qed.

Lemma closing_ok_stage c k a j : closing_ok c -> cl_nodes c !! k = Some (a, j) -> exists st, sts !! k = Some st.
Proof.
  intros [Hn _] Ha. apply lookup_lt_is_Some. rewrite (Forall2_length _ _ _ Hn), length_fmap.
  by eapply lookup_lt_Some.
Qed.

Lemma closing_ok_same c c' : (cl_emitter c = Through -> cl_emitter c' = Through) -> cl_nodes c' = cl_nodes c -> closing_ok c -> closing_ok c'.
Proof.
  intros He Hn [H1 H2]. split; [by rewrite Hn|]. intros k st a j Hst Ha. rewrite Hn in Ha.
  destruct (H2 k st a j Hst Ha) as (? & ? & H). split_and!; try done. intros Hj%H. revert Hj.
  apply upstream_closed_mono; [done | by rewrite Hn].
Qed.

(** A stage that can still be sent to has closed nothing. *)
Lemma open_upstream c k st a j : closing_ok c -> sts !! k = Some st -> cl_nodes c !! k = Some (a, j) ->
  upstream_closed c k <> true -> j = 0.
Proof. intros [_ Hc] Hst Ha Hup. destruct (Hc _ _ _ _ Hst Ha) as (_ & _ & H). destruct j; [done|]. destruct Hup. apply H. lia. Qed.

Lemma giver_open c k a i a' j : closing_ok c -> cl_nodes c !! k = Some (a, j) -> gives a i a' ->
  exists st, sts !! k = Some st /\ j < channels st /\ closed_ok a' j /\ node_ok st a'.
Proof.
  intros Hok Ha Hg. destruct (closing_ok_stage _ _ _ _ Hok Ha) as [st Hst].
  pose proof (closing_ok_lookup _ _ _ _ _ Hok Hst Ha) as Hna. destruct (proj2 Hok _ _ _ _ Hst Ha) as (Hj & Hcl & _).
  destruct (gives_open _ _ _ _ _ Hna Hg Hcl Hj). exists st. split_and!; try done. by eapply gives_ok.
Qed.

Lemma cancels_ok st s a s' a' : cancels st s a s' a' -> node_ok st a -> node_ok st a'.
Proof.
  destruct 1 as [st s s' f l1 i l2 Hl Hc|p size dur conc s s' b l1 batch l2 Hl Hc]; [by destruct st|].
  destruct b as [r co cd fw bu [pr res] dr]. cbn in *. subst. intros (? & ? & Hf & ?). split_and!; try done.
  rewrite !Forall_app, Forall_cons in *. naive_solver.
Qed.

(** What is cancelled at shutdown keeps its row: a later pass of the dispatcher, after a
    restart, reads it again. *)
Lemma cancels_tables st s a s' a' : StageSpec st -> cancels st s a s' a' -> tables s' = tables s.
Proof.
  intros Hsp Hc. red in Hsp. destruct Hc as [st s s' f l1 i l2 Hl Hc|p size dur conc s s' b l1 batch l2 Hl Hc].
  - destruct st as [p|p size dur conc|rs re]; cbn in Hc; [|done|by injection Hc as <-].
    pose proof (cancel_db i (ESentinel context_Canceled) s) as Hd. by rewrite Hc in Hd.
  - pose proof (bcancel_db batch (ESentinel context_Canceled) s) as Hd. unfold BatchMW_Cancel in Hc. by rewrite Hc in Hd.
Qed.

Context (Hspec : Forall StageSpec sts).

Lemma closing_ok_close c k a j : closing_ok c -> cl_nodes c !! k = Some (a, j) ->
  may_close a j (upstream_closed c k) -> closing_ok (c <| cl_nodes := <[k := (a, S j)]> (cl_nodes c) |>).
Proof.
  intros Hok Ha Hm. destruct (closing_ok_stage _ _ _ _ Hok Ha) as [st Hst].
  pose proof (closing_ok_lookup _ _ _ _ _ Hok Hst Ha) as Hna. destruct Hok as [Hn Hc].
  destruct (Hc _ _ _ _ Hst Ha) as (Hj & Hcl & Hup). destruct (may_close_ok _ _ _ _ Hna Hcl Hm) as (Hj' & Hcl' & Hup').
  set (c' := c <| cl_nodes := _ |>).
  assert (Hmono : forall k, upstream_closed c k = true -> upstream_closed c' k = true).
  { apply upstream_closed_mono; [done|]. intros k' st' j' Hst' Hk' ->. cbn. rewrite list_fmap_insert. cbn.
    rewrite list_lookup_insert_ne; [done|]. intros <-. rewrite list_lookup_fmap, Ha in Hk'.
    injection Hk' as ->. assert (st' = st) as -> by congruence. lia. }
  split; cbn.
  - rewrite list_fmap_insert. cbn. rewrite list_insert_id; [done|]. by rewrite list_lookup_fmap, Ha.
  - intros k' st' a1 j1 Hst' [(-> & [= <- <-] & _)|[N Ha1]]%list_lookup_insert_Some.
    + assert (st' = st) as -> by congruence. split_and!; try done. intros _. apply Hmono.
      destruct j; [by apply Hup' | apply Hup; lia].
    + destruct (Hc k' st' a1 j1 Hst' Ha1) as (? & ? & ?). auto.
Qed.

Lemma closing_ok_step c c' : closing_ok c -> closing_step c c' -> closing_ok c'.
Proof.
  intros Hok (s0 & s0' & Hs). inversion Hs as
    [s c1 He | s c1 He | s c1 i st a a' j rest He Hst Hn Ht | s s' c1 p f j rest He Hst Hn Hr Hc
    | s s' c1 k st a a' j Hst Ha Hw | s c1 k st a b i a' b' ja jb Ha Hb Hst Hg Ht
    | s c1 k a i a' j Ha Hl Hg Hp Hend | s c1 i Hp | s c1 k a j Ha Hm | s c1 Hu Hp Hend]; subst; clear Hs.
  - by apply (closing_ok_same c); [rewrite He|..].
  - by apply (closing_ok_same c); [rewrite He|..].
  - assert (Ha : cl_nodes c !! 0 = Some (a, j)) by by rewrite Hn.
    assert (j = 0) as -> by (eapply open_upstream; [done | done | done|]; cbn; by rewrite He).
    eapply (closing_ok_update c _ 0 st a a' 0); try done; [by cbn; rewrite Hn| | by apply closed_ok_0].
    eapply takes_ok; [done|]. by eapply closing_ok_lookup.
  - by apply (closing_ok_same c); [rewrite He|..].
  - destruct (proj2 Hok _ _ _ _ Hst Ha) as (_ & Hcl & _). pose proof (closing_ok_lookup _ _ _ _ _ Hok Hst Ha) as Hna.
    pose proof (Forall_lookup_1 _ _ _ _ Hspec Hst) as Hsp.
    eapply (closing_ok_update c _ k st a a' j); try done;
      destruct Hw; by eauto using works_ok, cancels_ok, works_closed, cancels_closed.
  - destruct (giver_open _ _ _ _ _ _ Hok Ha Hg) as (st0 & Hst0 & Hj & Hcl & Hna).
    assert (jb = 0) as ->.
    { eapply (open_upstream c (S k)); try done. cbn. rewrite Hst0, list_lookup_fmap, Ha. cbn. rewrite bool_decide_eq_true. lia. }
    set (c1 := c <| cl_nodes := <[k := (a', ja)]> (cl_nodes c) |>).
    assert (Hok1 : closing_ok c1) by by eapply (closing_ok_update c c1 k st0 a a' ja).
    assert (Hb1 : cl_nodes c1 !! S k = Some (b, 0)) by (cbn; rewrite list_lookup_insert_ne by lia; done).
    eapply (closing_ok_update c1 _ (S k) st b b' 0); try done; [| by apply closed_ok_0].
    eapply takes_ok; [done|]. by eapply closing_ok_lookup.
  - destruct (giver_open _ _ _ _ _ _ Hok Ha Hg) as (st0 & Hst0 & Hj & Hcl & Hna).
    by eapply (closing_ok_update c _ k st0 a a' j).
  - by apply (closing_ok_same c).
  - by apply closing_ok_close.
  - by apply (closing_ok_same c).
Qed.

(** ** Closing ends *)

Definition emitting_weight (w : nat) (e : emitting) : nat :=
  match e with Reading => w + 1 | Sending _ => w | Through => 0 end.

Definition open_channels (l : list (node * nat)) : nat := sum_list_with (fun '(_, j) => 5 - j) l.
Arguments open_channels : simpl never.

Definition closing_weight (c : closing) : nat :=
  emitting_weight (leaving (length (cl_nodes c))) (cl_emitter c) + nodes_weight (cl_nodes c).*1 +
  length (option_list (cl_poller c)) + open_channels (cl_nodes c) + (if cl_ended c then 0 else 1).

Lemma open_channels_insert l k a j j' a' : l !! k = Some (a, j) ->
  open_channels (<[k := (a', j')]> l) + (5 - j) = open_channels l + (5 - j').
Proof.
  revert k. unfold open_channels. induction l as [|[x m] l IH]; intros [|k] Hk; cbn -[Nat.sub] in *; simplify_eq; [lia|].
  rewrite <- !Nat.add_assoc. f_equal. exact (IH k Hk).
Qed.

Lemma nodes_insert (l : list (node * nat)) k a j : l !! k = Some (a, j) ->
  exists rest, nodes_weight l.*1 = node_weight (leaving (length l - S k)) a + rest /\
    forall a', nodes_weight (<[k := (a', j)]> l).*1 = node_weight (leaving (length l - S k)) a' + rest.
Proof.
  intros Hk. destruct (nodes_weight_insert l.*1 k a) as (rest & H1 & H2); [by rewrite list_lookup_fmap, Hk|].
  rewrite length_fmap in *. exists rest. split; [done|]. intros a'. by rewrite list_fmap_insert, H2.
Qed.

Lemma cancels_weight w st s a s' a' : node_ok st a -> cancels st s a s' a' -> node_weight w a' < node_weight w a.
Proof.
  intros Hok Hc. destruct Hc as [st s s' f l1 i l2 Hl Hc|p size dur conc s s' b l1 batch l2 Hl Hc].
  - destruct f as [pr res]. cbn in *. subst. rewrite !length_app. cbn. lia.
  - destruct b as [r co cd fw bu [pr res] dr]. cbn in *. subst. destruct Hok as (_ & _ & Hb & _).
    rewrite !Forall_app, Forall_cons in Hb. destruct Hb as (_ & _ & _ & _ & [Hb _] & _).
    rewrite !concat_app, !length_app. cbn. rewrite length_app. destruct batch; [done|]. cbn. nia.
Qed.

Lemma closing_step_weight c c' : closing_ok c -> closing_step c c' -> closing_weight c' < closing_weight c.
Proof.
  intros Hok (s0 & s0' & Hs). inversion Hs as
    [s c1 He | s c1 He | s c1 i st a a' j rest He Hst Hn Ht | s s' c1 p f j rest He Hst Hn Hr Hc
    | s s' c1 k st a a' j Hst Ha Hw | s c1 k st a b i a' b' ja jb Ha Hb Hst Hg Ht
    | s c1 k a i a' j Ha Hl Hg Hp Hend | s c1 i Hp | s c1 k a j Ha Hm | s c1 Hu Hp Hend]; subst; clear Hs;
    unfold closing_weight; cbn -[leaving]; rewrite ?length_insert.
  - rewrite He. cbn. lia.
  - rewrite He. cbn. lia.
  - rewrite He, Hn. cbn. rewrite length_fmap, leaving_next.
    pose proof (takes_weight extra (leaving (length rest)) _ _ _ _ Ht).
    change (open_channels ((a', j) :: rest)) with (open_channels ((a, j) :: rest)). lia.
  - rewrite He. cbn. rewrite Hn. unfold leaving. lia.
  - destruct (nodes_insert _ _ _ _ Ha) as (rest & -> & ->).
    pose proof (open_channels_insert _ _ _ _ j a' Ha).
    pose proof (closing_ok_lookup _ _ _ _ _ Hok Hst Ha) as Hna.
    assert (node_weight (leaving (length (cl_nodes c) - S k)) a' < node_weight (leaving (length (cl_nodes c) - S k)) a).
    { destruct Hw; [eapply works_weight; [by eapply Forall_lookup_1 | done | done] | by eapply cancels_weight]. }
    lia.
  - destruct (nodes_insert _ _ _ _ Ha) as (r1 & Hw1 & Hw1'). specialize (Hw1' a').
    assert (Hb' : <[k := (a', ja)]> (cl_nodes c) !! S k = Some (b, jb)) by (rewrite list_lookup_insert_ne by lia; done).
    destruct (nodes_insert _ _ _ _ Hb') as (r2 & Hw2 & Hw2'). rewrite Hw2'. rewrite length_insert in *.
    pose proof (open_channels_insert _ _ _ _ ja a' Ha). pose proof (open_channels_insert _ _ _ _ jb b' Hb').
    apply lookup_lt_Some in Hb. replace (length (cl_nodes c) - S k) with (S (length (cl_nodes c) - S (S k))) in * by lia.
    rewrite leaving_next in *. apply (gives_weight (leaving (length (cl_nodes c) - S (S k)) + 10)) in Hg.
    apply (takes_weight extra (leaving (length (cl_nodes c) - S (S k)))) in Ht. lia.
  - destruct (nodes_insert _ _ _ _ Ha) as (rest & -> & ->). rewrite Hp. cbn [option_list length].
    pose proof (open_channels_insert _ _ _ _ j a' Ha).
    apply (gives_weight (leaving (length (cl_nodes c) - S k))) in Hg. unfold leaving in *. lia.
  - rewrite Hp. cbn. lia.
  - destruct (nodes_insert _ _ _ _ Ha) as (rest & Hr & _).
    rewrite list_fmap_insert, list_insert_id by (by rewrite list_lookup_fmap, Ha).
    pose proof (open_channels_insert _ _ _ _ (S j) a Ha).
    destruct (closing_ok_stage _ _ _ _ Hok Ha) as [st Hst].
    destruct (may_close_ok _ _ _ _ (closing_ok_lookup _ _ _ _ _ Hok Hst Ha) (proj1 (proj2 (proj2 Hok _ _ _ _ Hst Ha))) Hm)
      as (Hj & _). assert (channels st <= 5) by (destruct st; cbn; lia). lia.
  - rewrite Hend. lia.
Qed.

(** ** Until [Close] returns, some goroutine can move *)

Context (Hsts : Forall stage_ok sts) (first_stage : exists p, sts !! 0 = Some (Single p)).

(** An idle stage closes its next channel when it may. *)
Lemma idle_may_close k st a j : node_ok st a -> node_flights k a = [] -> j < channels st -> may_close a j true.
Proof.
  intros Hok Hf Hj. destruct a as [[pr res]|[r co cd fw bu [pr res] dr]]; cbn in Hf.
  - apply app_eq_nil in Hf as [?%fmap_nil_inv ?%fmap_nil_inv]. destruct st; try done; cbn in Hj; by destruct j; [|lia].
  - destruct st as [|p size dur conc|]; try done. cbn in *. destruct Hok as (_ & _ & Hb & Hres).
    apply app_eq_nil in Hf as [Hr Hf]. apply app_eq_nil in Hf as [Hf%fmap_nil_inv Hd%fmap_nil_inv].
    apply app_eq_nil in Hd as [Hd ->]. unfold batching in Hf. cbn in Hf.
    rewrite !Forall_app in Hb. destruct Hb as (Hb1 & Hb2 & Hb3 & Hb4).
    repeat (apply app_eq_nil in Hf as [? Hf]). subst.
    assert (Hr' : r = Receiving) by by destruct r.
    assert (Hone : forall o, Forall (batch_ok size) (option_list o) -> default [] o = [] -> o = None).
    { intros [o|] Ho E0; [|done]. apply Forall_cons in Ho as [[Ho _] _]. done. }
    assert (Hne : forall l, Forall (batch_ok size) l -> concat l = [] -> l = []).
    { intros [|[|x y] l] Hl Hc; [done| |done]. apply Forall_cons in Hl as [[Hl _] _]. done. }
    assert (Hresne : res = []).
    { destruct res as [|[|x y] l]; [done| |done]. by apply Forall_cons in Hres as [Hres _]. }
    do 5 (destruct j as [|j]; [cbn; by auto|]). lia.
Qed.
Lemma fst_lookup {A B} (l : list (A * B)) k a : l.*1 !! k = Some a -> exists b, l !! k = Some (a, b).
Proof. rewrite list_lookup_fmap. destruct (l !! k) as [[a' b]|]; [|done]. intros [= <-]. eauto. Qed.

(** A move of the stages is a move of the pipeline. *)
Lemma nodes_move_down s c : nodes_move extra sts s (cl_nodes c).*1 -> cl_poller c = None -> cl_ended c = false ->
  exists s' c', down_step (s, c) (s', c').
Proof.
  intros Hm Hp He. destruct Hm as [k st a s' a' Hst Ha Hw|k st a b i a' b' Ha Hb Hst Hg Ht|k a i a' Ha Hl Hg].
  - apply fst_lookup in Ha as [j Ha]. eexists _, _. by eapply down_work; [| |left].
  - apply fst_lookup in Ha as [ja Ha]. apply fst_lookup in Hb as [jb Hb]. eexists _, _.
    exact (down_handover _ _ _ _ _ _ _ _ _ _ _ Ha Hb Hst Hg Ht).
  - apply fst_lookup in Ha as [j Ha]. rewrite length_fmap in Hl. eexists _, _.
    exact (down_poll _ _ _ _ _ _ _ Ha Hl Hg Hp He).
Qed.

(** With empty stages, the channels close from the input to the output. *)
Lemma idle_closes s c k : closing_ok c -> cl_emitter c = Through ->
  (forall k a j, cl_nodes c !! k = Some (a, j) -> node_flights k a = []) -> k <= length (cl_nodes c) ->
  (exists s' c', down_step (s, c) (s', c')) \/ upstream_closed c k = true.
Proof.
  intros Hok He Hidle. induction k as [|k IH]; intros Hk; [right; cbn; by rewrite He|].
  destruct (IH ltac:(lia)) as [H|Hup]; [by left|].
  destruct (lookup_lt_is_Some_2 (cl_nodes c) k) as [[a j] Ha]; [lia|].
  destruct (closing_ok_stage _ _ _ _ Hok Ha) as [st Hst]. destruct (proj2 Hok _ _ _ _ Hst Ha) as (Hj & _).
  destruct (decide (j = channels st)) as [->|N].
  - right. cbn. rewrite Hst, list_lookup_fmap, Ha. cbn. by apply bool_decide_true.
  - left. eexists s, _. eapply (down_close s c k); [done|]. rewrite Hup.
    eapply idle_may_close; [by eapply closing_ok_lookup | by eapply Hidle | lia].
Qed.

Lemma closing_progress s c : closing_ok c -> cl_ended c = false -> exists s' c', down_step (s, c) (s', c').
Proof.
  intros Hok He. destruct (cl_poller c) as [i|] eqn:Hp; [eexists _, _; by eapply down_delete|].
  destruct (nodes_progress extra sts s (cl_nodes c).*1 (length (cl_nodes c).*1) Hspec Hsts (proj1 Hok)) as [Hm|Hidle];
    [by apply nodes_move_down|].
  assert (Hall : forall k a j, cl_nodes c !! k = Some (a, j) -> node_flights k a = []).
  { intros k a j Ha. apply Hidle; [lia|]. by rewrite list_lookup_fmap, Ha. }
  clear Hidle. destruct first_stage as [p Hst].
  destruct (cl_nodes c !! 0) as [[a j]|] eqn:Ha.
  2:{ apply lookup_ge_None in Ha. apply lookup_lt_Some in Hst. pose proof (Forall2_length _ _ _ (proj1 Hok)) as Hl.
      rewrite length_fmap in Hl. lia. }
  assert (Hn : exists rest, cl_nodes c = (a, j) :: rest) by (destruct (cl_nodes c); [done|]; injection Ha as ->; eauto).
  destruct Hn as [rest Hn]. pose proof (closing_ok_lookup _ _ _ _ _ Hok Hst Ha) as Hna.
  specialize (Hall 0 a j Ha) as Hf.
  destruct (cl_emitter c) as [|[i|]|] eqn:Hem.
  - eexists _, _. by eapply down_stop.
  - destruct (idle_takes extra 0 (Single p) a i I Hna Hf) as [a' Ht]. eexists _, _. by eapply down_first.
  - destruct a as [[pr res]|b]; [|done]. apply app_eq_nil in Hf as [Hpr%fmap_nil_inv Hres%fmap_nil_inv]. cbn in *. subst.
    eexists _, _. eapply down_nil; [done | done | done | | done]. unfold has_room, concurrency. cbn. lia.
  - destruct (idle_closes s c (length (cl_nodes c)) Hok Hem Hall) as [H|H]; [lia | done|].
    eexists _, _. by eapply down_end.
Qed.

Lemma closing_run c k c' : closing_ok c -> nsteps closing_step k c c' ->
  closing_ok c' /\ k + closing_weight c' <= closing_weight c.
Proof.
  intros Hok Hs. revert Hok. induction Hs as [c|k c c1 c' H1 _ IH]; intros Hok; [by split; [|lia]|].
  destruct IH as [H2 H3]; [by eapply closing_ok_step|]. pose proof (closing_step_weight _ _ Hok H1). split; [done | lia].
Qed.

End Shutdown.

(** ** Closing a pipeline of the relayer *)

Section Closing.
Context {W : Type} {E : Env W}.
Context (extra : nat).

Lemma NewPipeline_first c opts : exists p : IBCV2Processor W, NewPipeline c opts !! 0 = Some (Single p).
Proof. eexists. reflexivity. Qed.

Lemma Pipeline_Close_ok c n : net_ok c n -> closing_ok (NewPipeline c (n_opts n)) (Pipeline_Close n).
Proof.
  intros Hok. split.
  - cbn. rewrite <- list_fmap_compose. unfold compose. cbn. by rewrite list_fmap_id.
  - intros k st a j Hst Ha. cbn in Ha. rewrite list_lookup_fmap in Ha. destruct (n_nodes n !! k); [|done].
    injection Ha as <- <-. split_and!; [lia | by apply closed_ok_0 | lia].
Qed.

(** C6: a pipeline closes.  When the dispatcher has stopped and closes a pipeline of a
    reachable state of the goroutines, the goroutines of the pipeline can make only so
    many moves, whatever the scheduling and whatever the rest of the relayer does to the
    database and the chains in between; until the deduper's goroutine has ended, which
    is what [Close] waits for, some goroutine can move, and no stage sends on its
    output channel once that is closed. *)
Theorem close_returns ch c n k cl :
  cfg_positive -> chan_reachable extra ch -> c_pushing ch = None -> c_nets ch !! c = Some n ->
  nsteps (closing_step extra (NewPipeline c (n_opts n))) k (Pipeline_Close n) cl ->
  k <= closing_weight (Pipeline_Close n) /\
  (cl_ended cl = true \/ forall s, exists s' cl', down_step extra (NewPipeline c (n_opts n)) (s, cl) (s', cl')) /\
  (forall m st a j i a', NewPipeline c (n_opts n) !! m = Some st -> cl_nodes cl !! m = Some (a, j) ->
    gives a i a' -> j < channels st).
Proof.
  intros Hcfg Hr _ Hc Hs. destruct (chan_reachable_refines extra ch Hcfg Hr) as [[Hnets _] _].
  destruct (Hnets c n Hc) as [Ho Hok].
  destruct (closing_run extra _ (NewPipeline_spec c _) _ k cl (Pipeline_Close_ok c n Hok) Hs) as [Hok' Hw].
  split_and!; [lia | |].
  - destruct (cl_ended cl) eqn:He; [by left|]. right. intros s.
    by apply closing_progress; [apply NewPipeline_spec | apply NewPipeline_ok | apply NewPipeline_first|..].
  - intros m st a j i a' Hst Ha Hg. destruct (giver_open _ _ _ _ _ _ _ Hok' Ha Hg) as (st' & Hst' & Hj & _).
    by assert (st' = st) as -> by congruence.
Qed.

End Closing.
