(* ===== verification/Trace.v ===== *)
(** * Traces and the clock

    [sysrel R m]: running [m] relates the whole system state before and after by
    [R].  Two relations are used: what a program adds to the trace ([emits]), and,
    for a world whose clock does not run backwards, the passing of time ([later]).
    Together they order the transactions a pipeline hands to the chains. *)

From S2P Require Import Prelude Db Transfer Config World Logic Processors ProcessorSpecs BatchProcessors.
From S2P Require Import BatchSpecs Middleware Pipeline.

Definition sysrel {W A} (R : Sys W -> Sys W -> Prop) (m : M W A) : Prop :=
  forall s, R s (snd (m s)).

Lemma wp_sysrel {W A} R (m : M W A) s : sysrel R m -> wp m (fun _ s' => R s s') s.
Proof. intros H. apply H. Qed.

(** What the calls of an environment do to the world. *)
Definition xstep {W A} (okw : W -> W -> Prop) (x : X W A) : Prop := forall w, okw w (snd (x w)).

Record client_steps {W} (okw : W -> W -> Prop) (c : BridgeClient W) : Prop := {
  cs_received a b : xstep okw (IsPacketReceived c a b);
  cs_committed a b : xstep okw (IsPacketCommitted c a b);
  cs_recv a b n t : xstep okw (FindRecvTx c a b n t);
  cs_ack a b n : xstep okw (FindAckTx c a b n);
  cs_timeout a b n : xstep okw (FindTimeoutTx c a b n);
  cs_deliver tx a : xstep okw (DeliverTx c tx a);
  cs_status h n a b : xstep okw (PacketWriteAckStatus c h n a b);
  cs_retry h e t : xstep okw (ShouldRetryTx c h e t);
  cs_wait : xstep okw (WaitForChain c);
  cs_txfinal h o : xstep okw (IsTxFinalized c h o);
  cs_timefinal t o : xstep okw (IsTimestampFinalized c t o);
  cs_fee h : xstep okw (TxFee c h);
}.

Class EnvSteps {W} {E : Env W} (okw : W -> W -> Prop) : Prop := {
  es_preorder :: PreOrder okw;
  es_clock w : okw w (snd (clock w));
  es_exec : xstep okw db_exec;
  es_begin : xstep okw tx_begin;
  es_commit w : okw w (snd (tx_commit w));
  es_rollback : xstep okw tx_rollback;
  es_relay req : xstep okw (RelayByTx req);
  es_price p id n a : priceClient = Some p -> xstep okw (GetCoinUsdValue p id n a);
  es_client id c : clients !! id = Some c -> client_steps okw c;
}.

#[export] Instance any_steps {W} {E : Env W} : EnvSteps (fun _ _ => True).
Proof. split; try done. Qed.

(** A relation the steps of a program respect: it composes, does not look at the
    tables, and holds across steps [okw] of the world and events [ok]. *)
Class SysRel {W} (okw : W -> W -> Prop) (ok : event -> Prop) (R : Sys W -> Sys W -> Prop) : Prop := {
  sysrel_preorder :: PreOrder R;
  sysrel_step s w d : okw (world s) w -> R s (mkSys w d (trace s));
  sysrel_event s e : ok e -> R s (mkSys (world s) (tables s) (trace s ++ [e]));
}.

Section Rules.
Context {W : Type} {E : Env W} {okw : W -> W -> Prop} {ok : event -> Prop} {R : Sys W -> Sys W -> Prop}.
Context `{HE : !EnvSteps okw} `{HR : !SysRel okw ok R}.

Lemma sysrel_ret {A} (a : A) : sysrel R (ret a).
Proof. intros s. reflexivity. Qed.
Lemma sysrel_fail {A} e : sysrel (A:=A) R (fail e).
Proof. intros s. reflexivity. Qed.
Lemma sysrel_panic {A} : sysrel (A:=A) R panic.
Proof. intros s. reflexivity. Qed.
Lemma sysrel_emit e : ok e -> sysrel R (emit e).
Proof. intros He s. by apply sysrel_event. Qed.

Lemma sysrel_bind {A B} (m : M W A) (f : A -> M W B) :
  sysrel R m -> (forall a, sysrel R (f a)) -> sysrel R (bind m f).
Proof.
  intros Hm Hf s. unfold bind. specialize (Hm s).
  destruct (m s) as [[a|e|] s'] eqn:Em; cbn in *; [|done..]. etrans; [exact Hm | apply Hf].
Qed.

Lemma sysrel_try {A} (m : M W A) : sysrel R m -> sysrel R (try m).
Proof. intros Hm s. unfold try. specialize (Hm s). by destruct (m s) as [[a|e|] s']. Qed.

Lemma sysrel_wrap {A} msg (m : M W A) : sysrel R m -> sysrel R (wrap msg m).
Proof. intros Hm s. unfold wrap. specialize (Hm s). by destruct (m s) as [[a|e|] s']. Qed.

Lemma sysrel_call {A} (x : X W A) : xstep okw x -> sysrel R (call x).
Proof.
  intros Hx s. unfold call. specialize (Hx (world s)).
  destruct (x (world s)) as [[e|a] w]; by apply sysrel_step.
Qed.

Lemma sysrel_for_each {A} (f : A -> M W unit) l :
  (forall x, sysrel R (f x)) -> sysrel R (for_each f l).
Proof.
  intros Hf. induction l as [|x l IH]; cbn; [apply sysrel_ret|]. by apply sysrel_bind.
Qed.

Lemma sysrel_Now : sysrel R Now.
Proof.
  intros s. unfold Now. pose proof (es_clock (world s)) as H.
  destruct (clock (world s)). by apply sysrel_step.
Qed.

Lemma sysrel_sql {A} (q : db.Stmt A) : sysrel R (sql q).
Proof.
  intros s. unfold sql. pose proof (es_exec (world s)) as H.
  destruct (db_exec (world s)) as [[e|now] w]; [by apply sysrel_step|].
  destruct (q now (tables s)) as [[e|a] d]; by apply sysrel_step.
Qed.

(** A client the manager returns is one of the environment's. *)
Lemma sysrel_with_client {B} msg id (f : BridgeClient W -> M W B) :
  (forall c, client_steps okw c -> sysrel R (f c)) -> sysrel R (bind (wrap msg (GetClient id)) f).
Proof.
  intros Hf s. unfold bind, wrap, GetClient.
  destruct (clients !! id) as [c|] eqn:Ec; [apply Hf; by eapply es_client | reflexivity].
Qed.

Lemma sysrel_ExecTx fn : sysrel R fn -> sysrel R (ExecTx fn).
Proof.
  intros Hf s. unfold ExecTx. pose proof (es_begin (world s)) as Hb.
  destruct (tx_begin (world s)) as [[e|?] w]; [by apply sysrel_step|].
  specialize (Hf (mkSys w (tables s) (trace s))).
  assert (Hs : forall s1 w2 d, R (mkSys w (tables s) (trace s)) s1 -> okw (world s1) w2 ->
    R s (mkSys w2 d (trace s1))).
  { intros s1 w2 d H1 H2. etrans; [by apply (sysrel_step s w (tables s))|].
    etrans; [exact H1 | by apply sysrel_step]. }
  destruct (fn _) as [[a|e|] s1]; cbn in *.
  - pose proof (es_commit (world s1)). destruct (tx_commit (world s1)) as [[|e applied] w2]; by apply Hs.
  - pose proof (es_rollback (world s1)). destruct (tx_rollback (world s1)) as [[e2|?] w2]; by apply Hs.
  - apply Hs; [done | reflexivity].
Qed.

End Rules.

(** [sysrel_go] follows the program; what a call does to the world is looked up in
    the environment, events are left to the hints. *)
Ltac xstep_tac :=
  first [ assumption | (intros ?; exact I) | by apply es_relay | by eapply es_price
        | by eauto using cs_received, cs_committed, cs_recv, cs_ack, cs_timeout, cs_deliver,
            cs_status, cs_retry, cs_wait, cs_txfinal, cs_timefinal, cs_fee ].

Ltac sysrel_step1 :=
  lazymatch goal with
  | |- sysrel _ (bind (wrap _ (GetClient _)) _) => apply sysrel_with_client; intros ? ?
  | |- sysrel _ (bind _ _) => apply sysrel_bind; [|intros ?]
  | |- sysrel _ (ret _) => apply sysrel_ret
  | |- sysrel _ (fail _) => apply sysrel_fail
  | |- sysrel _ panic => apply sysrel_panic
  | |- sysrel _ (emit _) => apply sysrel_emit; solve [auto with relayer]
  | |- sysrel _ (try _) => apply sysrel_try
  | |- sysrel _ (wrap _ _) => apply sysrel_wrap
  | |- sysrel _ (call _) => apply sysrel_call; xstep_tac
  | |- sysrel _ Now => apply sysrel_Now
  | |- sysrel _ (ExecTx _) => apply sysrel_ExecTx
  | |- sysrel _ (for_each _ _) => apply sysrel_for_each; intros ?
  | |- sysrel _ (sql _) => apply sysrel_sql
  | |- sysrel _ (match ?x with _ => _ end) => destruct x eqn:?
  | |- sysrel _ ?m => let h := get_head m in unfold h
  end; cbv beta zeta.
Ltac sysrel_go := repeat sysrel_step1.

(** ** The trace *)

(** The program only adds events [ok] to the trace. *)
Definition emits {W} (ok : event -> Prop) (s s' : Sys W) : Prop :=
  exists l, trace s' = trace s ++ l /\ Forall ok l.

#[export] Instance emits_sysrel {W} ok : SysRel (fun _ _ => True) ok (emits (W:=W) ok).
Proof.
  split.
  - split; [intros s; exists []; by rewrite app_nil_r|].
    intros s1 s2 s3 (l1 & H1 & F1) (l2 & H2 & F2). exists (l1 ++ l2).
    rewrite H2, H1, app_assoc. split; [done | by apply Forall_app].
  - intros s w d _. exists []. by rewrite app_nil_r.
  - intros s e He. exists [e]. split; [done | by constructor].
Qed.

(** The calls that reach another system: the proof service and the chains. *)
Definition outgoing (e : event) : Prop :=
  match e with CallRelayByTx _ | CallDeliverTx _ _ _ => True | _ => False end.

#[export] Instance outgoing_dec e : Decision (outgoing e).
Proof. destruct e; cbn; apply _. Defined.

Definition silent (e : event) : Prop := ~ outgoing e.

Definition calls (l : list event) : list event := filter outgoing l.

Lemma calls_silent l : Forall silent l -> calls l = [].
Proof. induction 1 as [|e l He _ IH]; [done|]. unfold calls. by rewrite filter_cons_False. Qed.

Lemma calls_app l1 l2 : calls (l1 ++ l2) = calls l1 ++ calls l2.
Proof. apply filter_app. Qed.

Lemma emits_calls {W} (s s' : Sys W) :
  emits silent s s' -> exists l, trace s' = trace s ++ l /\ calls l = [].
Proof. intros (l & H & F). exists l. split; [done | by apply calls_silent]. Qed.

#[export] Hint Extern 1 (silent _) => (intros []) : relayer.

(** ** The outgoing calls of a program *)

Section Outgoing.
Context {W : Type} {E : Env W}.

(** The calls the run of [m] from [s] made. *)
Definition made (s s' : Sys W) (l : list event) : Prop :=
  exists l0, trace s' = trace s ++ l0 /\ calls l0 = l.

Lemma made_trans s1 s2 s3 l1 l2 : made s1 s2 l1 -> made s2 s3 l2 -> made s1 s3 (l1 ++ l2).
Proof.
  intros (k1 & H1 & <-) (k2 & H2 & <-). exists (k1 ++ k2). rewrite H2, H1, app_assoc.
  split; [done | apply calls_app].
Qed.

Lemma made_silent s s' : emits silent s s' -> made s s' [].
Proof. apply emits_calls. Qed.

Lemma made_silent_r s1 s2 s3 l : made s1 s2 l -> emits silent s2 s3 -> made s1 s3 l.
Proof.
  intros H1 H2%made_silent. rewrite <- (app_nil_r l). by eapply made_trans.
Qed.

Lemma made_functional s s' l l' : made s s' l -> made s s' l' -> l = l'.
Proof. intros (k & H & <-) (k' & H' & <-). rewrite H in H'. apply app_inv_head in H'. by subst. Qed.

Lemma silent_RecordTransactionSubmitted b c : sysrel (emits silent) (RecordTransactionSubmitted (W:=W) b c).
Proof. sysrel_go. Qed.

End Outgoing.

(** ** Stages

    Every stage respects a relation that holds across silent events, except for the
    Process of a batch processor, which makes the outgoing calls. *)

Class ProcessorRel {W} (R : Sys W -> Sys W -> Prop) (p : IBCV2Processor W) : Prop := {
  prel_should t : sysrel R (ShouldProcess p t);
  prel_process t : sysrel R (Process p t);
  prel_cancel t e : sysrel R (Cancel p t e);
}.

Class BatchProcessorRel {W} (R : Sys W -> Sys W -> Prop) (p : IBCV2BatchProcessor W) : Prop := {
  brel_should t : sysrel R (BShouldProcess p t);
  brel_cancel ts e : sysrel R (BCancel p ts e);
}.

Section Stages.
Context {W : Type} {E : Env W} {okw : W -> W -> Prop} {ok : event -> Prop} {R : Sys W -> Sys W -> Prop}.
Context `{HE : !EnvSteps okw} `{HR : !SysRel okw ok R}.
Context (ok_silent : forall e, silent e -> ok e).

Hint Extern 1 (ok _) => (apply ok_silent; intros []) : relayer.

Tactic Notation "rel_tac" reference(new) := split; intros; unfold new; cbn [ShouldProcess Process Cancel BShouldProcess BCancel]; sysrel_go.

Lemma CheckRecvPacketDelivery_rel : ProcessorRel R NewCheckRecvPacketDeliveryProcessor.
Proof. rel_tac NewCheckRecvPacketDeliveryProcessor. Qed.
Lemma CheckPacketCommitment_rel : ProcessorRel R NewCheckPacketCommitmentProcessor.
Proof. rel_tac NewCheckPacketCommitmentProcessor. Qed.
Lemma CheckSendFinality_rel o : ProcessorRel R (NewCheckSendFinalityProcessor o).
Proof. rel_tac NewCheckSendFinalityProcessor. Qed.
Lemma CheckTimeoutFinality_rel o : ProcessorRel R (NewCheckTimeoutFinalityProcessor o).
Proof. rel_tac NewCheckTimeoutFinalityProcessor. Qed.
Lemma RetryRecvPacket_rel c : ProcessorRel R (NewRetryRecvPacketProcessor c).
Proof. rel_tac NewRetryRecvPacketProcessor. Qed.
Lemma RetryAckPacket_rel c : ProcessorRel R (NewRetryAckPacketProcessor c).
Proof. rel_tac NewRetryAckPacketProcessor. Qed.
Lemma RetryTimeoutPacket_rel c : ProcessorRel R (NewRetryTimeoutPacketProcessor c).
Proof. rel_tac NewRetryTimeoutPacketProcessor. Qed.
Lemma RecvTxGasCalculator_rel p id n : priceClient = Some p -> ProcessorRel R (NewRecvTxGasCalculatorProcessor p id n).
Proof. intros Hp. rel_tac NewRecvTxGasCalculatorProcessor. Qed.
Lemma AckTxGasCalculator_rel p id n : priceClient = Some p -> ProcessorRel R (NewAckTxGasCalculatorProcessor p id n).
Proof. intros Hp. rel_tac NewAckTxGasCalculatorProcessor. Qed.
Lemma TimeoutTxGasCalculator_rel p id n : priceClient = Some p -> ProcessorRel R (NewTimeoutTxGasCalculatorProcessor p id n).
Proof. intros Hp. rel_tac NewTimeoutTxGasCalculatorProcessor. Qed.
Lemma WaitForWriteAck_rel : ProcessorRel R NewWaitForWriteAckPacketProcessor.
Proof. rel_tac NewWaitForWriteAckPacketProcessor. Qed.
Lemma CheckWriteAckFinality_rel rs re o : ProcessorRel R (NewCheckWriteAckFinalityProcessor rs re o).
Proof. rel_tac NewCheckWriteAckFinalityProcessor. Qed.

Lemma BatchRecvPacket_rel c : BatchProcessorRel R (NewBatchRecvPacketProcessor c).
Proof. rel_tac NewBatchRecvPacketProcessor. Qed.
Lemma BatchAckPacket_rel c rs re : BatchProcessorRel R (NewBatchAckPacketProcessor c rs re).
Proof. rel_tac NewBatchAckPacketProcessor. Qed.
Lemma BatchTimeoutPacket_rel c : BatchProcessorRel R (NewBatchTimeoutPacketProcessor c).
Proof. rel_tac NewBatchTimeoutPacketProcessor. Qed.

Lemma sysrel_RecordTransferState t st : sysrel R (RecordTransferState t st).
Proof. sysrel_go. Qed.

Lemma MW_rel p i : ProcessorRel R p -> sysrel R (MW_Process p i).
Proof.
  intros [H1 H2 H3]. destruct i as [t|]; [|apply sysrel_panic]. unfold MW_Process, MW_Cancel.
  repeat first [apply H1 | apply H2 | apply H3 | apply sysrel_RecordTransferState | sysrel_step1].
Qed.

Lemma BatchMW_split_rel p batch : BatchProcessorRel R p -> sysrel R (BatchMW_split p batch).
Proof.
  intros [H1 H2]. induction batch as [|t batch IH]; [apply sysrel_ret|]. cbn [BatchMW_split].
  repeat first [apply IH | apply H1 | apply H2 | apply sysrel_RecordTransferState | sysrel_step1].
Qed.

Lemma BatchMW_rel p batch :
  BatchProcessorRel R p -> (forall ts, sysrel R (BProcess p ts)) -> sysrel R (BatchMW_Process p batch).
Proof.
  intros Hp Hb. unfold BatchMW_Process. apply sysrel_bind; [by apply BatchMW_split_rel|].
  destruct Hp as [H1 H2].
  intros [np tp]. repeat first [apply Hb | apply H2 | sysrel_step1].
Qed.

Lemma StateFinisher_rel rs re t : sysrel R (StateFinisher_Process rs re t).
Proof.
  unfold StateFinisher_Process.
  destruct (GetTimeoutTxHash t), (GetWriteAckStatus t) as [[[]|] ?], (GetAckTxHash t); cbn; sysrel_go.
Qed.

Lemma toBatch_rel p t : BatchProcessorRel R p -> sysrel R (toBatch p t).
Proof. intros [H1 _]. unfold toBatch. case_match; [apply sysrel_ret | apply H1]. Qed.

(** Stages but the batched ones. *)
Definition StageRel (st : stage W) : Prop :=
  match st with
  | Single p => ProcessorRel R p
  | Batched p _ _ _ => BatchProcessorRel R p
  | Finisher _ _ => True
  end.

Lemma gasStage_rel id dec new :
  (forall pr i d, priceClient = Some pr -> ProcessorRel R (new pr i d)) ->
  Forall StageRel (gasStage id dec new).
Proof.
  intros H. unfold gasStage. destruct priceClient eqn:Ep; [|constructor].
  case_match; constructor; [by apply H | constructor].
Qed.

Lemma run_stage_rel st t :
  StageRel st -> (forall p a b c, st = Batched p a b c -> forall ts, sysrel R (BProcess p ts)) ->
  sysrel R (run_stage st t).
Proof.
  destruct st as [p|p a b c|rs re]; intros Hst Hb; cbn [run_stage].
  - by apply MW_rel.
  - apply sysrel_bind; [by apply toBatch_rel|]. intros []; [|apply sysrel_ret].
    apply sysrel_bind; [apply BatchMW_rel; eauto|].
    intros [|t' []]; first [apply sysrel_ret | apply sysrel_panic].
  - apply StateFinisher_rel.
Qed.

Lemma run_stages_rel sts t :
  Forall StageRel sts ->
  Forall (fun st => forall p a b c, st = Batched p a b c -> forall ts, sysrel R (BProcess p ts)) sts ->
  sysrel R (run_stages sts t).
Proof.
  intros H. revert t. induction H as [|st sts Hst _ IH]; intros t Hb; cbn; [apply sysrel_ret|].
  inversion Hb; subst. apply sysrel_bind; [by apply run_stage_rel | intros; by apply IH].
Qed.

End Stages.

(** ** Time

    A world whose clock does not run backwards: [wtime] is the time that has passed
    in it, a reading lies between the time before and after it, and no call takes
    time back. *)

Class MonotoneClock {W} {E : Env W} (wtime : W -> Z) : Prop := {
  mc_steps :: EnvSteps (fun w w' => wtime w <= wtime w');
  mc_clock w : wtime w <= fst (clock w) <= wtime (snd (clock w));
}.

Section Time.
Context {W : Type} {E : Env W} (wtime : W -> Z) `{HM : !MonotoneClock wtime}.

Definition later (s s' : Sys W) : Prop := wtime (world s) <= wtime (world s').

#[export] Instance later_sysrel : SysRel (fun w w' => wtime w <= wtime w') (fun _ => True) later.
Proof.
  split; unfold later.
  - split; [intros s; lia | intros s1 s2 s3; lia].
  - done.
  - done.
Qed.

Lemma BatchRecvPacket_later c ts : sysrel later (BProcess (NewBatchRecvPacketProcessor c) ts).
Proof.
  cbn. unfold BatchRecvPacket_Process. destruct (collectTxIDs _ _ _ _) as [[? ?] ?]. sysrel_go.
Qed.

Lemma BatchAckPacket_later c rs re ts : sysrel later (BProcess (NewBatchAckPacketProcessor c rs re) ts).
Proof.
  cbn. unfold BatchAckPacket_Process. destruct (collectTxIDs _ _ _ _) as [[? ?] ?]. sysrel_go.
Qed.

Lemma BatchTimeoutPacket_later c ts : sysrel later (BProcess (NewBatchTimeoutPacketProcessor c) ts).
Proof.
  cbn. unfold BatchTimeoutPacket_Process. destruct (collectTxIDs _ _ _ _) as [[? ?] ?]. sysrel_go.
Qed.

(** A stage takes its time. *)
Lemma NewPipeline_later c opts : Forall (fun st => forall t, sysrel later (run_stage st t)) (NewPipeline c opts).
Proof.
  assert (Hs : forall p, ProcessorRel later p -> forall t, sysrel later (run_stage (Single p) t)).
  { intros p Hp t. by apply MW_rel. }
  assert (Hb : forall p a b d, BatchProcessorRel later p -> (forall ts, sysrel later (BProcess p ts)) ->
    forall t, sysrel later (run_stage (Batched p a b d) t)).
  { intros p a b d Hp Hpr t. apply run_stage_rel; [done | exact Hp|]. by intros ? ? ? ? [= <- _ _ _]. }
  assert (Hg : forall id dec new,
    (forall pr i n, priceClient = Some pr -> ProcessorRel later (new pr i n)) ->
    Forall (fun st => forall t, sysrel later (run_stage st t)) (gasStage id dec new)).
  { intros id dec new H. unfold gasStage. destruct priceClient eqn:Ep; [|constructor].
    case_match; constructor; [apply Hs; by apply H | constructor]. }
  unfold NewPipeline. repeat (apply Forall_app; split);
    first [ apply Hg; intros; first [by apply TimeoutTxGasCalculator_rel | by apply RecvTxGasCalculator_rel
                                    | by apply AckTxGasCalculator_rel]
          | repeat constructor ];
    first [ apply Hs; first [ by apply CheckRecvPacketDelivery_rel | by apply CheckPacketCommitment_rel
                            | by apply CheckSendFinality_rel | by apply CheckTimeoutFinality_rel
                            | by apply RetryRecvPacket_rel | by apply RetryAckPacket_rel
                            | by apply RetryTimeoutPacket_rel | by apply WaitForWriteAck_rel
                            | by apply CheckWriteAckFinality_rel ]
          | apply Hb; first [ by apply BatchRecvPacket_rel | by apply BatchAckPacket_rel
                            | by apply BatchTimeoutPacket_rel | intros; apply BatchRecvPacket_later
                            | intros; apply BatchAckPacket_later | intros; apply BatchTimeoutPacket_later ]
          | intros; by apply StateFinisher_rel ].
Qed.

Lemma run_stages_later sts t :
  Forall (fun st => forall t, sysrel later (run_stage st t)) sts -> sysrel later (run_stages sts t).
Proof.
  intros H. revert t. induction H as [|st sts Hst _ IH]; intros t; cbn; [apply sysrel_ret|].
  by apply sysrel_bind.
Qed.

End Time.
