(* ===== verification/TestWorld.v ===== *)
(** * A concrete world

    An instance of [Env] whose clock ticks a second per reading, whose database
    always answers, and whose two chains answer with fixed values: the witnesses
    evaluate the model in it. *)

From S2P Require Import Prelude Db Transfer Config World Logic Processors ProcessorSpecs BatchProcessors.
From S2P Require Import BatchSpecs Middleware Pipeline Dispatcher System Trace.

Module TestWorld.

Definition answer {A} (a : A) : X Z A := fun w => (inr a, w).
Definition refuse {A} (e : error) : X Z A := fun w => (inl e, w).

Definition tx (h : string) (t : Z) : BridgeTx := mkBridgeTx h t "relayer1".

(** A chain: what it says of a packet and of the transactions sent to it. *)
Record script := mkScript {
  says_received : bool;
  says_committed : bool;
  says_finalized : bool;
  says_timeout_finalized : bool;
  says_retry : error + bool;
  says_write_ack : error + db.Ibcv2WriteAckStatus;
  delivers : error + BridgeTx;
  finds : list PacketInfo;
}.

#[export] Instance eta_script : Eta script := fun s =>
  mkScript (says_received s) (says_committed s) (says_finalized s) (says_timeout_finalized s)
    (says_retry s) (says_write_ack s) (delivers s) (finds s).

Definition client (s : script) : BridgeClient Z := {|
  IsPacketReceived := fun _ _ => answer (says_received s);
  IsPacketCommitted := fun _ _ => answer (says_committed s);
  FindRecvTx := fun _ _ _ _ => answer (tx "aa" 1000);
  FindAckTx := fun _ _ _ => answer (tx "bb" 2000);
  FindTimeoutTx := fun _ _ _ => refuse (ESentinel ErrTxNotFound);
  DeliverTx := fun _ _ w => (delivers s, w);
  PacketWriteAckStatus := fun _ _ _ _ w => (says_write_ack s, w);
  SendPacketsFromTx := fun _ _ => answer (finds s);
  ShouldRetryTx := fun _ _ _ w => (says_retry s, w);
  WaitForChain := answer tt;
  IsTxFinalized := fun _ _ => answer (says_finalized s);
  IsTimestampFinalized := fun _ _ => answer (says_timeout_finalized s);
  ClientChainType := ChainTypeCOSMOS;
  SignerGasTokenBalance := answer 100;
  TxFee := fun _ => answer (Some 7);
  TxExecutionStatus := fun _ => answer (mkTxExecutionStatus TxExecutionStatusSuccess "");
  GetTransactionSender := fun _ => answer "sender";
|}.

Definition happy : script := {|
  says_received := false;
  says_committed := true;
  says_finalized := true;
  says_timeout_finalized := true;
  says_retry := inr false;
  says_write_ack := inr db.Ibcv2WriteAckStatusSUCCESS;
  delivers := inr (tx "cc" 3000);
  finds := [];
|}.

Definition chain_config (id : string) : ChainConfig :=
  mkChainConfig id id ChainTypeCOSMOS "testnet" None None None "atom" None 6 ∅
    (Some (mkIBCV2Config ∅ None 0 0 0 0 0 0 0 0 0 true true)) [].

Definition config0 : Config :=
  mkConfig (mkPostgresConfig "h" "5432" "db" false "")
    [("src", chain_config "src"); ("dst", chain_config "dst")] "" ":1"
    (mkCoingeckoConfig "" 0 "" 0) (mkIBCV2ProofAPIConfig "" false) no_signing.

Definition env_with (c : Config) (src dst : script) : Env Z := {|
  clock := fun w => (w, w + Second);
  db_exec := fun w => (inr w, w);
  tx_begin := answer tt;
  tx_commit := fun w => (Committed, w);
  tx_rollback := answer tt;
  clients := <["src" := client src]> (<["dst" := client dst]> ∅);
  RelayByTx := fun _ => answer (mkRelayByTxResponse [1; 2] "router");
  priceClient := None;
  cfg := NewConfigReader c;
|}.

Definition env : script -> script -> Env Z := env_with config0.

(** The same chains, the source without its ibcv2 section. *)
Definition config_bad : Config :=
  mkConfig (mkPostgresConfig "h" "5432" "db" false "")
    [("src", mkChainConfig "src" "src" ChainTypeCOSMOS "testnet" None None None "atom" None 6 ∅ None []);
     ("dst", chain_config "dst")] "" ":1"
    (mkCoingeckoConfig "" 0 "" 0) (mkIBCV2ProofAPIConfig "" false) no_signing.

(** A database with one packet, sequence 7 from client c-0 of chain src. *)
Definition db1 : db.DB :=
  snd (db.InsertIBCV2Transfer "src" "dst" "0xAB" (Some 5000) 7 "c-0" "c-1" (Some (1000 * Second)) 0
         db.empty_DB).

Definition sys0 (now : Z) : Sys Z := mkSys now db1 [].

Definition row1 : db.Ibcv2Transfer :=
  db.mkTransfer 1 (Some 0) (Some 0) db.Ibcv2RelayStatusPENDING None "src" "dst" "0xAB" (Some 5000) 7
    "c-0" "c-1" (Some (1000 * Second)) None None None None None None None None None None None None
    None None None None None.

Lemma db1_row : db.ibcv2_transfers db1 = {[ 1 := row1 ]}.
Proof. vm_compute. reflexivity. Qed.

Lemma db1_wf : db.wf_db db1.
Proof. apply db.InsertIBCV2Transfer_wf; [unfold in_int32; lia | apply db.wf_empty_DB]. Qed.

Definition conn : Connection := mkConnection "src" "c-0" "dst" "c-1".
Definition opts : PipelineOptions := NewDefaultPipelineOpts.

Definition t1 : IBCV2Transfer := NewIBCV2Transfer row1.

(** The clock of this world moves forward only. *)
#[export] Instance env_monotone src dst : MonotoneClock (E:=env src dst) (fun w => w).
Proof.
  split; [|intros w; cbn; unfold Second, Millisecond, Microsecond; lia].
  split.
  - split; [intros w; lia | intros w1 w2 w3; lia].
  - intros w. cbn. unfold Second, Millisecond, Microsecond. lia.
  - intros w. cbn. lia.
  - intros w. cbn. lia.
  - intros w. cbn. lia.
  - intros w. cbn. lia.
  - intros req w. cbn. lia.
  - intros p id n a Hp. by cbn in Hp.
  - intros id c Hc. assert (exists sc, c = client sc) as [sc ->].
    { cbn in Hc. apply lookup_insert_Some in Hc as [[_ <-]|[_ [[_ <-]|[_ Hc]]%lookup_insert_Some]];
        [eauto..|]. by rewrite lookup_empty in Hc. }
    split; intros; intros w; cbn; lia.
Qed.

(** The default options do not relay success acks: the packet is received, its write
    ack found and the transfer completes without an ack. *)
Example happy_run :
  let '(r, s) := run_stages (W:=Z) (E:=env happy happy) (NewPipeline (E:=env happy happy) conn opts)
                   (NewIBCV2Transfer row1) (sys0 (10 * Second)) in
  match r with
  | Ok t => State t = db.Ibcv2RelayStatusCOMPLETEWITHWRITEACKSUCCESS /\ RecvTxHash t = Some "cc"
            /\ (db.Status <$> db.ibcv2_transfers (tables s) !! 1)
               = Some db.Ibcv2RelayStatusCOMPLETEWITHWRITEACKSUCCESS
  | _ => False
  end.
Proof. vm_compute. split_and!; reflexivity. Qed.

End TestWorld.
