(* ===== verification/BatchStore.v ===== *)
(** * The transaction of a batch

    What [BatchRecvPacket_store] and its siblings leave in the database: on success
    the rows of the unmarked transfers carry the transaction and nothing else of
    them changed, one PENDING submission was inserted if there is any such transfer,
    and it is mapped to exactly those transfers; on failure the tables are as
    before, unless a COMMIT that failed was applied. *)

From S2P Require Import Prelude Db Transfer Config World Logic Processors ProcessorSpecs BatchProcessors.
From S2P Require Import BatchSpecs Middleware Pipeline Dispatcher System Trace TestWorld.

(** The rows the keys select are rewritten by [f], at some time; the others stay. *)
Definition rows_set (f : Z -> db.Ibcv2Transfer -> db.Ibcv2Transfer) (ks : list db.PacketKey)
    (m m' : gmap Z db.Ibcv2Transfer) : Prop :=
  forall i, match m !! i, m' !! i with
            | Some r, Some r' =>
                if bool_decide (db.row_key r ∈ ks) then exists now, r' = f now r else r' = r
            | None, None => True
            | _, _ => False
            end.

(** The submission of a delivered transaction. *)
Definition new_submission (sid : Z) (tx : BridgeTx) (chainID : string)
    (ty : db.Ibcv2RelayerTxSubmissionType) : db.Ibcv2RelayerTxSubmission :=
  db.mkTxSubmission sid (Hash tx) chainID ty (RelayerAddress tx) (Some (pg_timestamp (Timestamp tx)))
    None None None db.Ibcv2RelayerTxSubmissionStatusPENDING None.

(** What a stored batch adds to the tables. *)
Definition stored (f : Z -> db.Ibcv2Transfer -> db.Ibcv2Transfer) (tx : BridgeTx) (chainID : string)
    (ty : db.Ibcv2RelayerTxSubmissionType) (ts : list IBCV2Transfer) (d d' : db.DB) : Prop :=
  rows_set f (packet_key <$> relayed ts) (db.ibcv2_transfers d) (db.ibcv2_transfers d') /\
  db.ibcv2_relay_requests d' = db.ibcv2_relay_requests d /\
  if bool_decide (relayed ts = [])
  then db.ibcv2_relayer_tx_submissions d' = db.ibcv2_relayer_tx_submissions d /\
       db.ibcv2_transfer_tx_submissions d' = db.ibcv2_transfer_tx_submissions d
  else exists sid, db.ibcv2_relayer_tx_submissions_id_seq d < sid /\
       db.ibcv2_relayer_tx_submissions d' =
         <[sid := new_submission sid tx chainID ty]> (db.ibcv2_relayer_tx_submissions d) /\
       db.ibcv2_transfer_tx_submissions d' =
         list_to_set ((fun t => (ID t, sid)) <$> relayed ts) ∪ db.ibcv2_transfer_tx_submissions d.

(** The outcome of storing a batch. *)
Definition store_result {W} `{Env W} (f : Z -> db.Ibcv2Transfer -> db.Ibcv2Transfer) (tx : BridgeTx)
    (chainID : string) (ty : db.Ibcv2RelayerTxSubmissionType) (ts : list IBCV2Transfer) (d : db.DB)
    (r : res unit) (s' : Sys W) : Prop :=
  match r with
  | Ok _ => stored f tx chainID ty ts d (tables s')
  | Fail _ => same_rows d (tables s') \/
              stored f tx chainID ty ts d (tables s') /\
              exists w e, tx_commit w = (CommitFailed e true, world s')
  | Panic => False
  end.

Section Exact.
Context {W : Type} {E : Env W}.
Context (f : Z -> db.Ibcv2Transfer -> db.Ibcv2Transfer).
Context (f_key : forall now r, db.row_key (f now r) = db.row_key r).
Context (f_absorb : forall n1 n2 r, f n2 (f n1 r) = f n2 r).

Lemma rows_set_refl m : rows_set f [] m m.
Proof. intros i. destruct (m !! i); [|done]. by rewrite bool_decide_false by apply not_elem_of_nil. Qed.

Lemma rows_set_cons k ks now d m' :
  rows_set f ks (db.ibcv2_transfers (db.update_where k (f now) d)) m' ->
  rows_set f (k :: ks) (db.ibcv2_transfers d) m'.
Proof.
  intros H i. specialize (H i). rewrite db.lookup_update_where in H.
  destruct (db.ibcv2_transfers d !! i) as [r|]; cbn in H; [|exact H].
  destruct (m' !! i) as [r'|]; [|done].
  destruct (decide (db.row_key r = k)) as [Hk|Hk].
  - rewrite (bool_decide_true (db.row_key r = k)) in H by done. rewrite f_key in H.
    rewrite (bool_decide_true (_ ∈ k :: ks)) by (rewrite Hk; left).
    case_bool_decide; [destruct H as [n ->]; exists n; by rewrite f_absorb | eauto].
  - rewrite (bool_decide_false (db.row_key r = k)) in H by done.
    assert (Hiff : db.row_key r ∈ k :: ks <-> db.row_key r ∈ ks) by (rewrite elem_of_cons; tauto).
    by rewrite (bool_decide_ext _ _ Hiff).
Qed.

Lemma update_rows_exact msg ts s :
  wp (update_rows f msg ts) (fun r s' =>
    match r with
    | Ok _ => rows_set f (packet_key <$> relayed ts) (db.ibcv2_transfers (tables s)) (db.ibcv2_transfers (tables s')) /\
              same_others (tables s) (tables s') /\
              db.ibcv2_relayer_tx_submissions_id_seq (tables s') = db.ibcv2_relayer_tx_submissions_id_seq (tables s)
    | Fail _ => True
    | Panic => False
    end) s.
Proof.
  revert s. induction ts as [|t ts IH]; intros s; [apply wp_ret; split; [apply rows_set_refl | done]|].
  change (update_rows f msg (t :: ts)) with
    ((if errored t then ret tt else wrap msg (sql (upd f (packet_key t)))) ;; update_rows f msg ts).
  unfold relayed. destruct (errored t) eqn:Et.
  - rewrite filter_cons_False by (rewrite Et; done). apply wp_bind, wp_ret, IH.
  - rewrite filter_cons_True by done. apply wp_bind, wp_wrap, wp_update; [done|].
    intros now w Hexec. eapply wp_mono; [|apply IH]. intros [[]|e|] s' H; [|done..].
    cbn [tables] in H. destruct H as (H1 & H2 & H3). split; [eapply rows_set_cons; exact H1 | done].
Qed.

Lemma mappings_exact sid ts s :
  wp (insertTransferTxSubmissionMappings sid ts) (fun r s' =>
    match r with
    | Ok _ => tables s' = (tables s) <| db.ibcv2_transfer_tx_submissions :=
        list_to_set ((fun t => (ID t, sid)) <$> relayed ts) ∪ db.ibcv2_transfer_tx_submissions (tables s) |>
    | Fail _ => True
    | Panic => False
    end) s.
Proof.
  unfold insertTransferTxSubmissionMappings. revert s. induction ts as [|t ts IH]; intros s; cbn [for_each].
  { apply wp_ret. destruct s as [w d tr]; destruct d; cbn. f_equal. set_solver. }
  unfold relayed. apply wp_bind. destruct (errored t) eqn:Et.
  { rewrite filter_cons_False by (rewrite Et; done). apply wp_ret, IH. }
  rewrite filter_cons_True by done. case_bool_decide; [done|].
  apply wp_wrap, wp_sql; [done|]. intros now w r d Hexec Hq.
  assert (Hd : r = inr tt -> d = (tables s) <| db.ibcv2_transfer_tx_submissions :=
     {[ (ID t, sid) ]} ∪ db.ibcv2_transfer_tx_submissions (tables s) |>).
  { intros ->. unfold db.InsertIBCV2TransferTxSubmission in Hq. case_bool_decide as Hin.
    - injection Hq as <-. destruct (tables s); cbn in *. f_equal. unfold GetID in Hin. set_solver.
    - destruct (db.ibcv2_transfers (tables s) !! GetID t), (db.ibcv2_relayer_tx_submissions (tables s) !! sid);
        [by injection Hq as <- | done..]. }
  destruct r as [e|[]]; [done|]. rewrite (Hd eq_refl).
  eapply wp_mono; [|apply IH]. intros [[]|e|] s' H'; [|done..]. rewrite H'. cbn.
  unfold relayed. f_equal. set_solver.
Qed.

Lemma store_exact msg0 msg1 msg2 msg3 ts tx chainID ty s :
  wp (store f msg0 msg1 msg2 msg3
        (db.InsertIBCV2RelayerTxSubmission (Hash tx) chainID ty (RelayerAddress tx)
           (Some (Timestamp tx)) db.Ibcv2RelayerTxSubmissionStatusPENDING) ts)
    (store_result f tx chainID ty ts (tables s)) s.
Proof.
  unfold store. apply wp_wrap, wp_ExecTx; [by left|]. intros u w Hb.
  assert (Hroll : forall d, same_rows (tables s) (rolled_back (tables s) d)) by done.
  assert (Hcommit : forall s1, stored f tx chainID ty ts (tables s) (tables s1) ->
    forall c w2, tx_commit (world s1) = (c, w2) ->
    match c with
    | Committed => stored f tx chainID ty ts (tables s) (tables s1)
    | CommitFailed e applied =>
        let d := if applied then tables s1 else rolled_back (tables s) (tables s1) in
        same_rows (tables s) d \/
        stored f tx chainID ty ts (tables s) d /\ exists w e, tx_commit w = (CommitFailed e true, w2)
    end).
  { intros s1 H1 [|e []] w2 Hc; cbn; [done | right; eauto | by left]. }
  apply wp_bind. eapply wp_mono; [|apply update_rows_exact].
  intros [[]|e|] s1 H1; cbn beta iota; [|intros; left; apply Hroll|done].
  cbn [tables] in H1. destruct H1 as (H1 & (H2 & H3 & H4) & H5).
  destruct (decide (relayed ts = [])) as [Hr|Hr].
  { rewrite bool_decide_true by (change (length (relayed ts) = 0%nat); by rewrite Hr).
    apply wp_ret. apply Hcommit. split; [done|]. split; [done|]. by rewrite bool_decide_true. }
  rewrite bool_decide_false by (intros ?%nil_length_inv; done).
  apply wp_bind, wp_wrap, wp_sql; [intros; left; apply Hroll|].
  intros now w1 r d Hexec Hq. destruct r as [e|sid]; [intros; left; apply Hroll|].
  assert (Hins : sid = db.ibcv2_relayer_tx_submissions_id_seq (tables s) + 1 /\
    d = (tables s1) <| db.ibcv2_relayer_tx_submissions_id_seq := sid |>
                    <| db.ibcv2_relayer_tx_submissions :=
                         <[sid := new_submission sid tx chainID ty]> (db.ibcv2_relayer_tx_submissions (tables s)) |>).
  { unfold db.InsertIBCV2RelayerTxSubmission in Hq. destruct (db.nextval _) as [id|] eqn:En; [|done].
    case_bool_decide; [done|]. injection Hq as <- <-. apply db.nextval_Some in En as [-> _].
    rewrite H5. split; [done|]. cbn. by rewrite H3. }
  destruct Hins as [-> ->]. apply wp_wrap. eapply wp_mono; [|apply mappings_exact].
  intros [[]|e|] s2 H6; cbn beta iota; [|intros; left; apply Hroll|done].
  cbn [tables] in H6. apply Hcommit. rewrite H6. split; [done|]. split; [done|].
  rewrite bool_decide_false by done. cbn.
  eexists. split; [|split; [reflexivity|]]; [lia | by rewrite H4].
Qed.

End Exact.

(** What the updates of the three processors make of a row. *)
Definition recv_row (tx : BridgeTx) (now : Z) (r : db.Ibcv2Transfer) : db.Ibcv2Transfer :=
  r <| db.UpdatedAt := Some now |> <| db.RecvTxHash := Some (Hash tx) |>
    <| db.RecvTxTime := Some (pg_timestamp (Timestamp tx)) |>
    <| db.RecvTxRelayerAddress := Some (RelayerAddress tx) |>.
Definition ack_row (tx : BridgeTx) (now : Z) (r : db.Ibcv2Transfer) : db.Ibcv2Transfer :=
  r <| db.UpdatedAt := Some now |> <| db.AckTxHash := Some (Hash tx) |>
    <| db.AckTxTime := Some (pg_timestamp (Timestamp tx)) |>
    <| db.AckTxRelayerAddress := Some (RelayerAddress tx) |>.
Definition timeout_row (tx : BridgeTx) (now : Z) (r : db.Ibcv2Transfer) : db.Ibcv2Transfer :=
  r <| db.UpdatedAt := Some now |> <| db.TimeoutTxHash := Some (Hash tx) |>
    <| db.TimeoutTxTime := Some (pg_timestamp (Timestamp tx)) |>
    <| db.TimeoutTxRelayerAddress := Some (RelayerAddress tx) |>.

Section Stores.
Context {W : Type} {E : Env W}.

Lemma batch_recv_store_exact c tx ts (s : Sys W) :
  wp (BatchRecvPacket_store c tx ts)
    (store_result (recv_row tx) tx (destinationChainID c) db.Ibcv2RelayerTxSubmissionTypeRECVPACKET ts
       (tables s)) s.
Proof. by apply store_exact. Qed.
Lemma batch_ack_store_exact c tx ts (s : Sys W) :
  wp (BatchAckPacket_store c tx ts)
    (store_result (ack_row tx) tx (sourceChainID c) db.Ibcv2RelayerTxSubmissionTypeACKPACKET ts
       (tables s)) s.
Proof. by apply store_exact. Qed.
Lemma batch_timeout_store_exact c tx ts (s : Sys W) :
  wp (BatchTimeoutPacket_store c tx ts)
    (store_result (timeout_row tx) tx (sourceChainID c) db.Ibcv2RelayerTxSubmissionTypeTIMEOUTPACKET ts
       (tables s)) s.
Proof. by apply store_exact. Qed.

(** C8: the transaction of a batch is atomic.  If it returns no error, the rows of the
    unmarked transfers, and only those, carry the transaction that was sent (in the
    recv columns for a recv batch, the ack columns for an ack batch, the timeout
    columns for a timeout batch), and if there is any such transfer one PENDING
    submission of it, on the chain it was sent to, was inserted under a fresh id and
    mapped to exactly those transfers; if it returns an error, every table has the
    rows it had, unless the COMMIT that failed was applied. *)
Theorem batch_stores_atomic c tx ts (s : Sys W) :
  wp (BatchRecvPacket_store c tx ts)
    (store_result (recv_row tx) tx (destinationChainID c) db.Ibcv2RelayerTxSubmissionTypeRECVPACKET ts
       (tables s)) s /\
  wp (BatchAckPacket_store c tx ts)
    (store_result (ack_row tx) tx (sourceChainID c) db.Ibcv2RelayerTxSubmissionTypeACKPACKET ts
       (tables s)) s /\
  wp (BatchTimeoutPacket_store c tx ts)
    (store_result (timeout_row tx) tx (sourceChainID c) db.Ibcv2RelayerTxSubmissionTypeTIMEOUTPACKET ts
       (tables s)) s.
Proof. split_and!; [apply batch_recv_store_exact | apply batch_ack_store_exact | apply batch_timeout_store_exact]. Qed.

End Stores.
