(* ===== verification/Delivery.v ===== *)
(** * What the batch processors send

    The outgoing calls of the three batch processors: one request to the proof
    service, for exactly the packets of the batch that were not marked, and at most
    one transaction to the chain the packets are relayed to. *)

From S2P Require Import Prelude Db Transfer Config World Logic Processors ProcessorSpecs BatchProcessors.
From S2P Require Import BatchSpecs Middleware Pipeline Dispatcher System Trace TestWorld.

Section Calls.
Context {W : Type} {E : Env W}.

(** The calls after the request: a transaction handed to [chainID], or none. *)
Definition delivery (chainID : string) (l : list event) : Prop :=
  l = [] \/ exists tx to, l = [CallDeliverTx chainID tx to].

Lemma made_event (s : Sys W) e :
  outgoing e -> made s (mkSys (world s) (tables s) (trace s ++ [e])) [e].
Proof.
  intros He. exists [e]. split; [done|]. unfold calls. by rewrite filter_cons_True.
Qed.

Lemma made_same (s s' : Sys W) : trace s' = trace s -> made s s' [].
Proof. intros H. exists []. by rewrite H, app_nil_r. Qed.

Lemma relay_by_tx_calls req (s : Sys W) :
  wp (relay_by_tx req) (fun _ s' => made s s' [CallRelayByTx req]) s.
Proof.
  unfold relay_by_tx. wp_run; (eapply (made_trans _ _ _ [_] []); [by apply made_event | by apply made_same]).
Qed.

Lemma submit_calls chainID client tx to msg (s : Sys W) :
  wp (submit chainID client tx to msg) (fun _ s' => made s s' [CallDeliverTx chainID tx to]) s.
Proof.
  unfold submit. apply wp_bind, wp_try.
  assert (Hd : wp (deliver chainID client tx to) (fun r s' => r <> Panic /\ made s s' [CallDeliverTx chainID tx to]) s).
  { unfold deliver. wp_run;
      (split; [done|]; eapply (made_trans _ _ _ [_] []); [by apply made_event | by apply made_same]). }
  eapply wp_mono; [|exact Hd]. intros [a|e|] s1 [Hp H1]; [| |done].
  - apply wp_bind. eapply wp_mono; [|apply wp_sysrel, silent_RecordTransactionSubmitted].
    intros [[]|e|] s2 H2; eapply made_silent_r; done.
  - apply wp_bind. eapply wp_mono; [|apply wp_sysrel, silent_RecordTransactionSubmitted].
    intros [[]|e'|] s2 H2; eapply made_silent_r; done.
Qed.

Lemma submission_calls req chainID msg1 msg2 msg3 (st : BridgeTx -> M W unit) s :
  (forall tx, sysrel (emits silent) (st tx)) ->
  wp (let* resp := wrap msg1 (relay_by_tx req) in
      let* client := wrap msg2 (GetClient chainID) in
      waitIfEVM client ;;
      let* tx := submit chainID client (Tx resp) (Address resp) msg3 in
      st tx ;;
      ret tx)
    (fun r s' => exists l, made s s' (CallRelayByTx req :: l) /\ delivery chainID l /\
                           (forall a, r = Ok a -> l <> [])) s.
Proof.
  intros Hst. apply wp_bind, wp_wrap. eapply wp_mono; [|apply relay_by_tx_calls].
  assert (Hstop : forall (r : res BridgeTx) s', made s s' [CallRelayByTx req] ->
    (forall a, r <> Ok a) -> exists l, made s s' (CallRelayByTx req :: l) /\ delivery chainID l /\
      (forall a, r = Ok a -> l <> [])).
  { intros r s' H1 H2. exists []. split; [done|]. split; [by left|]. intros a Ha. by destruct (H2 a). }
  intros [resp|e|] s1 H1; cbn beta iota; [|apply Hstop; done..].
  apply wp_bind, wp_wrap, wp_GetClient; [|intros _; apply Hstop; done].
  intros client Hc. apply wp_bind.
  assert (Hw : sysrel (emits silent) (waitIfEVM client)) by sysrel_go.
  eapply wp_mono; [|apply wp_sysrel, Hw].
  intros [[]|e|] s2 H2; [|apply Hstop; [by eapply made_silent_r | done]..].
  apply wp_bind. eapply wp_mono; [|apply submit_calls].
  assert (Hend : forall (r : res BridgeTx) s3 s4, made s2 s3 [CallDeliverTx chainID (Tx resp) (Address resp)] ->
    emits silent s3 s4 -> exists l, made s s4 (CallRelayByTx req :: l) /\ delivery chainID l /\
      (forall a, r = Ok a -> l <> [])).
  { intros r s3 s4 H3 H4. eexists [_]. split; [|split; [right; eauto | done]].
    eapply made_silent_r; [|exact H4].
    eapply (made_trans _ _ _ [_] [_]); [by eapply made_silent_r | exact H3]. }
  intros [tx|e|] s3 H3; [|by eapply Hend..].
  apply wp_bind. eapply wp_mono; [|apply wp_sysrel, (Hst tx)].
  intros [[]|e|] s4 H4; [apply wp_ret|..]; by eapply Hend.
Qed.

Lemma mappings_silent sid ts : sysrel (emits silent) (insertTransferTxSubmissionMappings (W:=W) sid ts).
Proof. sysrel_go. Qed.
Lemma BatchRecvPacket_store_silent c tx ts : sysrel (emits silent) (BatchRecvPacket_store (W:=W) c tx ts).
Proof. unfold BatchRecvPacket_store. repeat first [apply mappings_silent | sysrel_step1]. Qed.
Lemma BatchAckPacket_store_silent c tx ts : sysrel (emits silent) (BatchAckPacket_store (W:=W) c tx ts).
Proof. unfold BatchAckPacket_store. repeat first [apply mappings_silent | sysrel_step1]. Qed.
Lemma BatchTimeoutPacket_store_silent c tx ts : sysrel (emits silent) (BatchTimeoutPacket_store (W:=W) c tx ts).
Proof. unfold BatchTimeoutPacket_store. repeat first [apply mappings_silent | sysrel_step1]. Qed.

(** The ids of a request: the decoded hashes of the transfers relayed, each once. *)
Definition request_ids (getHash : IBCV2Transfer -> error + string) (ts : list IBCV2Transfer)
    (ids : list (list Z)) : Prop :=
  exists hs, NoDup hs /\ Forall2 (fun h id => hex_DecodeString (TrimPrefix0x h) = Some id) hs ids /\
    forall h, h ∈ hs <-> exists t, t ∈ relayed ts /\ getHash t = inr h.

Section Assigned.
Context (getHash : IBCV2Transfer -> error + string) (msg : string).
Context (getHash_visible : forall t e, getHash t = inl e -> visible e).
Context (g : BridgeTx -> IBCV2Transfer -> IBCV2Transfer).
Context (g_seq : forall tx t, GetPacketSequenceNumber (g tx t) = GetPacketSequenceNumber t).
Context (g_hash : forall tx t, getHash (g tx t) = getHash t).
Context (g_error : forall tx t, ProcessingError (g tx t) = ProcessingError t).

Lemma relayed_assign tx ts :
  relayed (assign g tx <$> ts) = g tx <$> relayed ts.
Proof.
  unfold relayed. induction ts as [|t ts IH]; [done|]. cbn [fmap list_fmap].
  unfold assign at 1. destruct (errored t) eqn:Et.
  - rewrite !filter_cons_False by (by rewrite Et). exact IH.
  - rewrite !filter_cons_True; [|done|unfold errored in *; by rewrite g_error]. cbn. f_equal. exact IH.
Qed.

(** Collecting, the request and the assignment together. *)
Lemma batch_request batch ids seqs ts (m : M W BridgeTx) (mk : list (list Z) -> list Z -> RelayByTxRequest)
    chainID s :
  Forall (fun t => ProcessingError t = None) batch ->
  collectTxIDs getHash msg ∅ batch = (ids, seqs, ts) ->
  wp m (fun r s' => exists l, made s s' (CallRelayByTx (mk ids seqs) :: l) /\ delivery chainID l /\
                                (forall a, r = Ok a -> l <> [])) s ->
  wp (let* result := try m in
      match result with
      | inl err => ret (ts, Some err)
      | inr tx => ret (assign g tx <$> ts, None)
      end)
    (fun r s' => r <> Panic -> exists out err ids l,
       r = Ok (out, err) /\ made s s' (CallRelayByTx (mk ids (GetPacketSequenceNumber <$> relayed out)) :: l) /\
       delivery chainID l /\ (err = None -> l <> []) /\ request_ids getHash out ids) s.
Proof.
  intros Hb Hc Hm.
  destruct (collectTxIDs_request getHash msg getHash_visible ∅ batch ids seqs ts) as (Hs & hs & Hnd & Hf & Hh & _);
    [eapply Forall_impl; [exact Hb|]; intros t Ht; unfold errored; by rewrite Ht | set_solver | done |].
  assert (Hids : request_ids getHash ts ids).
  { exists hs. split; [done|]. split; [done|]. intros h. rewrite Hh. set_solver. }
  apply wp_bind, wp_try. eapply wp_mono; [|exact Hm].
  intros [tx|e|] s' (l & Hl & Hd & Hr); cbn beta iota; [| |done].
  - apply wp_ret. intros _. exists (assign g tx <$> ts), None, ids, l. split; [done|].
    rewrite relayed_assign, <- list_fmap_compose.
    rewrite (list_fmap_ext _ GetPacketSequenceNumber) by (intros; apply g_seq).
    rewrite <- Hs. split; [done|]. split; [done|]. split; [intros _; by eapply Hr|].
    destruct Hids as (hs' & ? & ? & Hx). exists hs'. split; [done|]. split; [done|]. intros h.
    rewrite Hx, relayed_assign. split; intros (t & Ht & Et).
    + exists (g tx t). split; [by apply list_elem_of_fmap_2 | by rewrite g_hash].
    + apply list_elem_of_fmap in Ht as (t0 & -> & Ht0). exists t0. by rewrite g_hash in Et.
  - apply wp_ret. intros _. exists ts, (Some e), ids, l. rewrite <- Hs. done.
Qed.

End Assigned.

(** What a batch processor's run returned and sent. *)
Definition sent (getHash : IBCV2Transfer -> error + string) (mk : list (list Z) -> list Z -> RelayByTxRequest)
    (chainID : string) (batch : list IBCV2Transfer) (s : Sys W)
    (r : res (list IBCV2Transfer * option error)) (s' : Sys W) : Prop :=
  exists out err ids l,
    r = Ok (out, err) /\ Forall2 same_transfer batch out /\
    made s s' (CallRelayByTx (mk ids (GetPacketSequenceNumber <$> relayed out)) :: l) /\
    delivery chainID l /\ (err = None -> l <> []) /\ request_ids getHash out ids.

Lemma sent_intro getHash mk chainID (p : IBCV2BatchProcessor W) batch s :
  BatchProcessorSpec p ->
  wp (BProcess p batch) (fun r s' => r <> Panic -> exists out err ids l,
       r = Ok (out, err) /\ made s s' (CallRelayByTx (mk ids (GetPacketSequenceNumber <$> relayed out)) :: l) /\
       delivery chainID l /\ (err = None -> l <> []) /\ request_ids getHash out ids) s ->
  wp (BProcess p batch) (sent getHash mk chainID batch s) s.
Proof.
  intros Hp H. eapply wp_mono; [|apply wp_and; [exact H | apply (bprocess_outcome batch s)]].
  intros r s' [H1 H2]. destruct r as [[out err]|e|]; [|done..].
  destruct (H1 ltac:(done)) as (out' & err' & ids & l & [= <- <-] & ? & ? & ? & ?).
  exists out, err, ids, l. split; [done|]. split; [apply H2 | done].
Qed.

Lemma sourceTxHashOf_visible t e : sourceTxHashOf t = inl e -> visible e.
Proof. done. Qed.

Tactic Notation "sent_tac" constr(p) reference(h) constr(process) constr(vis) constr(g) constr(silent_store) :=
  match goal with
  | |- wp _ (sent ?getHash ?mk ?chainID ?batch ?s) _ =>
      apply (sent_intro getHash mk chainID p); [apply _|];
      change (BProcess p batch) with (process batch); unfold h;
      destruct (collectTxIDs _ _ _ _) as [[ids seqs] ts] eqn:Ec;
      eapply (batch_request getHash _ vis g (fun _ _ => eq_refl) (fun _ _ => eq_refl) (fun _ _ => eq_refl) batch ids seqs ts _ mk chainID s); [done | exact Ec |];
      apply submission_calls; intros; apply silent_store
  end.

Lemma batch_recv_calls c batch s :
  Forall (fun t => ProcessingError t = None) batch ->
  wp (BatchRecvPacket_Process c batch)
    (sent sourceTxHashOf
       (fun ids seqs => mkRelayByTxRequest (sourceChainID c) (destinationChainID c) ids []
                          (sourceClientID c) (destinationClientID c) seqs [])
       (destinationChainID c) batch s) s.
Proof.
  intros Hb. sent_tac (NewBatchRecvPacketProcessor c) BatchRecvPacket_Process (BatchRecvPacket_Process (W:=W) c) sourceTxHashOf_visible assign_recv BatchRecvPacket_store_silent.
Qed.

Lemma batch_ack_calls c batch s :
  Forall (fun t => ProcessingError t = None) batch ->
  wp (BatchAckPacket_Process c batch)
    (sent writeAckTxHashOf
       (fun ids seqs => mkRelayByTxRequest (destinationChainID c) (sourceChainID c) ids []
                          (destinationClientID c) (sourceClientID c) [] seqs)
       (sourceChainID c) batch s) s.
Proof.
  intros Hb. sent_tac (NewBatchAckPacketProcessor c true true) BatchAckPacket_Process (BatchAckPacket_Process (W:=W) c) writeAckTxHashOf_visible assign_ack BatchAckPacket_store_silent.
Qed.

Lemma batch_timeout_calls c batch s :
  Forall (fun t => ProcessingError t = None) batch ->
  wp (BatchTimeoutPacket_Process c batch)
    (sent sourceTxHashOf
       (fun ids seqs => mkRelayByTxRequest (destinationChainID c) (sourceChainID c) [] ids
                          (destinationClientID c) (sourceClientID c) [] seqs)
       (sourceChainID c) batch s) s.
Proof.
  intros Hb. sent_tac (NewBatchTimeoutPacketProcessor c) BatchTimeoutPacket_Process (BatchTimeoutPacket_Process (W:=W) c) sourceTxHashOf_visible assign_timeout BatchTimeoutPacket_store_silent.
Qed.

(** C9: a batch of live transfers sends the proof service one request with the sequence
    of every transfer it did not mark and, once each, the decoded transactions they were
    found in (the source transactions for a recv or a timeout, the transactions of the
    write acks for an ack); a recv goes from the source to the destination chain of the
    connection, an ack and a timeout the other way.  The batch hands at most one
    transaction to the chain it relays to, and did hand it one when it reports no error.
    It comes back with the same transfers, in order. *)
Theorem batches_sent c batch s :
  Forall (fun t => ProcessingError t = None) batch ->
  wp (BatchRecvPacket_Process c batch)
    (sent sourceTxHashOf
       (fun ids seqs => mkRelayByTxRequest (sourceChainID c) (destinationChainID c) ids []
                          (sourceClientID c) (destinationClientID c) seqs [])
       (destinationChainID c) batch s) s /\
  wp (BatchAckPacket_Process c batch)
    (sent writeAckTxHashOf
       (fun ids seqs => mkRelayByTxRequest (destinationChainID c) (sourceChainID c) ids []
                          (destinationClientID c) (sourceClientID c) [] seqs)
       (sourceChainID c) batch s) s /\
  wp (BatchTimeoutPacket_Process c batch)
    (sent sourceTxHashOf
       (fun ids seqs => mkRelayByTxRequest (destinationChainID c) (sourceChainID c) [] ids
                          (destinationClientID c) (sourceClientID c) [] seqs)
       (sourceChainID c) batch s) s.
Proof. intros Hb. split_and!; [by apply batch_recv_calls | by apply batch_ack_calls | by apply batch_timeout_calls]. Qed.

End Calls.

Import TestWorld.

Lemma batches_sent_witness :
  let E := env happy happy in
  let t := t1 <| WriteAckTxHash := Some "0xab" |> in
  Forall (fun t => ProcessingError t = None) [t] /\
  wp (BatchRecvPacket_Process conn [t])
    (sent sourceTxHashOf
       (fun ids seqs => mkRelayByTxRequest "src" "dst" ids [] "c-0" "c-1" seqs []) "dst" [t]
       (sys0 (10 * Second))) (sys0 (10 * Second)).
Proof.
  intros E t. split; [by repeat constructor|].
  exact (proj1 (batches_sent conn [t] (sys0 (10 * Second)) ltac:(by repeat constructor))).
Defined.
