(* ===== verification/StageTheorems.v ===== *)
(** * Properties of the stages

    The functional behaviour of the stages that decide when a packet is relayed
    again, when it is done, and what the configuration has to do with it. *)

From S2P Require Import Prelude Db Transfer Config World Logic Processors ProcessorSpecs BatchProcessors.
From S2P Require Import BatchSpecs Middleware Pipeline Dispatcher System Trace TestWorld.

Section Stages.
Context {W : Type} {E : Env W}.

(** ** Done *)

(** The ack stage takes exactly the received transfers with a known write-ack
    status that are not complete: whenever the finisher would still wait for an ack,
    the batch is asked to deliver it, and never otherwise. *)
Lemma ack_stage_takes_incomplete rs re t st (s : Sys W) :
  ProcessingError t = None -> is_Some (RecvTxHash t) -> is_Some (WriteAckTxHash t) ->
  WriteAckStatus t = Some st ->
  BatchAckPacket_ShouldProcess rs re t s = (Ok (negb (IsComplete t rs re)), s).
Proof.
  intros He [h Hr] [h' Hw] Hst. unfold BatchAckPacket_ShouldProcess, IsComplete, GetWriteAckTxHash,
    GetWriteAckStatus, GetAckTxHash, GetTimeoutTxHash, GetRecvTxHash.
  rewrite He, Hr, Hw, Hst. destruct (AckTxHash t), (TimeoutTxHash t), st, rs, re; done.
Qed.

Lemma final_state_finished t : db.finished (final_state t) = true.
Proof. unfold final_state. by destruct (TimeoutTxHash t), (AckTxHash t), (WriteAckStatus t) as [[]|]. Qed.

Lemma unfinished_elem now d rows i r :
  db.GetUnfinishedIBCV2Transfers now d = (inr rows, d) -> db.ibcv2_transfers d !! i = Some r ->
  r ∈ rows -> db.finished (db.Status r) = false.
Proof. intros [= <-] _ [H _]%list_elem_of_filter. done. Qed.

(** C11: the finisher never fails.  It leaves every transfer alone, in memory and in
    the database, that is not complete (or is complete with no write-ack status to
    name).  A complete one gets the state its hashes and its write-ack status
    determine; either that status is written to its row, and to no other, and the
    dispatcher's query no longer returns the row, or the write failed and the
    transfer carries the error with the tables unchanged. *)
Theorem finisher_ends_transfer rs re t s i r :
  db.wf_db (tables s) -> db.ibcv2_transfers (tables s) !! i = Some r -> db.row_key r = packet_key t ->
  match StateFinisher_Process rs re t s with
  | (Ok t', s') =>
      if finishable rs re t then
        State t' = final_state t /\
        ((exists now, ProcessingError t' = None /\
           let r' := r <| db.UpdatedAt := Some now |> <| db.Status := final_state t |> in
           db.ibcv2_transfers (tables s') = <[i := r']> (db.ibcv2_transfers (tables s)) /\
           forall now' rows, db.GetUnfinishedIBCV2Transfers now' (tables s') = (inr rows, tables s') ->
             r' ∉ rows) \/
         (exists e, ProcessingError t' = Some e /\ visible e /\ tables s' = tables s))
      else t' = t /\ s' = s
  | _ => False
  end.
Proof.
  intros Hw Hr Hk. pose proof (StateFinisher_outcome rs re t s) as H. unfold wp in H.
  destruct (StateFinisher_Process rs re t s) as [res s']. cbn [fst snd] in H.
  destruct (finishable rs re t); [|by destruct H as [-> ->]].
  destruct H as (e & -> & He). split; [done|]. destruct e as [e|]; [right; by exists e|].
  left. destruct He as (now & He). exists now. split; [done|]. rewrite He.
  assert (Hrows : db.ibcv2_transfers (db.update_where (packet_key t)
            (fun r => r <| db.UpdatedAt := Some now |> <| db.Status := final_state t |>) (tables s)) =
          <[i := r <| db.UpdatedAt := Some now |> <| db.Status := final_state t |>]> (db.ibcv2_transfers (tables s)))
    by exact (db.update_where_one_row _ _ _ _ _ Hw Hr Hk).
  split; [done|]. intros now' rows Hq Hin.
  pose proof (unfinished_elem _ _ _ i _ Hq ltac:(by rewrite Hrows, lookup_insert_eq) Hin) as Hf.
  cbn in Hf. by rewrite final_state_finished in Hf.
Qed.

(** ** Retries *)

(** What asking a chain whether to retry leads to: keep waiting, pass its error on,
    or clear the transaction from the row and end with [retrying]; a clear that
    fails leaves the tables as they were. *)
Definition retry_result (answer : error + bool) (clear : db.Ibcv2Transfer -> db.Ibcv2Transfer)
    (retrying : sentinel) (t : IBCV2Transfer) (d : db.DB) (r : res IBCV2Transfer) (s' : Sys W) : Prop :=
  match answer with
  | inr false => r = Ok t /\ tables s' = d
  | inl e => (exists msg, r = Fail (EWrap msg e)) /\ tables s' = d
  | inr true =>
      r = Fail (ESentinel retrying) /\ tables s' = db.update_where (packet_key t) clear d \/
      (exists msg e, r = Fail (EWrap msg e)) /\ tables s' = d
  end.

Ltac retry_tac :=
  wp_run; match goal with Hx : ShouldRetryTx _ _ _ _ _ = _ |- _ => rewrite Hx end;
  unfold retry_result; cbn [fst];
  try match goal with Hb : negb ?a = _ |- _ => destruct a; try discriminate Hb end; eauto 10.

Lemma retry_recv_outcome c client h tm t s :
  clients !! c = Some client -> RecvTxHash t = Some h -> RecvTxTime t = Some tm ->
  wp (RetryRecvPacket_Process c t)
    (retry_result (fst (ShouldRetryTx client h (2 * Minute) tm (world s)))
       (fun r => r <| db.RecvTxHash := None |> <| db.RecvTxTime := None |>)
       ErrRetryingRecvPacket t (tables s)) s.
Proof.
  intros Hc Hh Ht. unfold RetryRecvPacket_Process, GetRecvTxHash, GetRecvTxTime, GetClient.
  rewrite Hc, Hh, Ht. cbn [deref negb]. change RetryRecvExpiry with (2 * Minute).
  retry_tac.
Qed.

Lemma retry_ack_outcome c client h tm t s :
  clients !! c = Some client -> AckTxHash t = Some h -> AckTxTime t = Some tm ->
  wp (RetryAckPacket_Process c t)
    (retry_result (fst (ShouldRetryTx client h (2 * Minute) tm (world s)))
       (fun r => r <| db.AckTxHash := None |> <| db.AckTxTime := None |>)
       ErrRetryingAckPacket t (tables s)) s.
Proof.
  intros Hc Hh Ht. unfold RetryAckPacket_Process, GetAckTxHash, GetAckTxTime, GetClient.
  rewrite Hc, Hh, Ht. cbn [deref negb]. change RetryAckExpiry with (2 * Minute).
  retry_tac.
Qed.

Lemma retry_timeout_outcome c client h tm t s :
  clients !! c = Some client -> TimeoutTxHash t = Some h -> TimeoutTxTime t = Some tm ->
  wp (RetryTimeoutPacket_Process c t)
    (retry_result (fst (ShouldRetryTx client h (2 * Minute) tm (world s)))
       (fun r => r <| db.TimeoutTxHash := None |> <| db.TimeoutTxTime := None |>)
       ErrRetryingTimeoutPacket t (tables s)) s.
Proof.
  intros Hc Hh Ht. unfold RetryTimeoutPacket_Process, GetTimeoutTxHash, GetTimeoutTxTime, GetClient.
  rewrite Hc, Hh, Ht. cbn [deref negb]. change RetryTimeoutExpiry with (2 * Minute).
  retry_tac.
Qed.

(** C15: the retry check of a recv, ack or timeout transaction asks its chain (the
    destination for a recv, the source otherwise) about the stored hash and time with an
    expiry of two minutes, and clears the columns of that transaction in the row exactly
    when the chain says so; it ends with the sentinel of the stage then. *)
Theorem retry_outcomes c client h tm t s :
  clients !! c = Some client ->
  (RecvTxHash t = Some h -> RecvTxTime t = Some tm ->
   wp (RetryRecvPacket_Process c t)
     (retry_result (fst (ShouldRetryTx client h (2 * Minute) tm (world s)))
        (fun r => r <| db.RecvTxHash := None |> <| db.RecvTxTime := None |>)
        ErrRetryingRecvPacket t (tables s)) s) /\
  (AckTxHash t = Some h -> AckTxTime t = Some tm ->
   wp (RetryAckPacket_Process c t)
     (retry_result (fst (ShouldRetryTx client h (2 * Minute) tm (world s)))
        (fun r => r <| db.AckTxHash := None |> <| db.AckTxTime := None |>)
        ErrRetryingAckPacket t (tables s)) s) /\
  (TimeoutTxHash t = Some h -> TimeoutTxTime t = Some tm ->
   wp (RetryTimeoutPacket_Process c t)
     (retry_result (fst (ShouldRetryTx client h (2 * Minute) tm (world s)))
        (fun r => r <| db.TimeoutTxHash := None |> <| db.TimeoutTxTime := None |>)
        ErrRetryingTimeoutPacket t (tables s)) s).
Proof.
  intros Hc. split_and!; intros Hh Ht;
    [by apply retry_recv_outcome | by apply retry_ack_outcome | by apply retry_timeout_outcome].
Qed.

(** A retried packet is relayed again: with the recv columns of its row cleared,
    the transfer the dispatcher reloads passes the recv stage's test whenever it has
    not timed out, and its row is still returned by the dispatcher's query if it was
    unfinished. *)
Lemma retried_recv_is_eligible d t i r now (s : Sys W) :
  db.wf_db d -> db.ibcv2_transfers d !! i = Some r -> db.row_key r = packet_key t ->
  db.finished (db.Status r) = false ->
  exists r', db.ibcv2_transfers (snd (db.ClearRecvTx (packet_key t) now d)) !! i = Some r' /\
    (forall rows now', db.GetUnfinishedIBCV2Transfers now' (snd (db.ClearRecvTx (packet_key t) now d))
                        = (inr rows, snd (db.ClearRecvTx (packet_key t) now d)) -> r' ∈ rows) /\
    BatchRecvPacket_ShouldProcess (NewIBCV2Transfer r') s =
      (Ok (negb (IsTimedOut (fst (clock (world s))) (NewIBCV2Transfer r))),
       mkSys (snd (clock (world s))) (tables s) (trace s)).
Proof.
  intros Hw Hr Hk Hf. cbn [db.ClearRecvTx snd].
  exists (r <| db.RecvTxHash := None |> <| db.RecvTxTime := None |>).
  assert (Hr' : db.ibcv2_transfers (db.update_where (packet_key t)
     (fun r => r <| db.RecvTxHash := None |> <| db.RecvTxTime := None |>) d) !! i
     = Some (r <| db.RecvTxHash := None |> <| db.RecvTxTime := None |>)).
  { apply (db.lookup_update_where_eq _ (fun r => r <| db.RecvTxHash := None |> <| db.RecvTxTime := None |>) d i r Hr Hk). }
  split; [exact Hr'|]. split.
  - intros rows now' [= <-]. apply list_elem_of_filter. split; [exact Hf|].
    apply list_elem_of_fmap. exists (i, r <| db.RecvTxHash := None |> <| db.RecvTxTime := None |>).
    split; [done|]. by apply elem_of_map_to_list.
  - unfold BatchRecvPacket_ShouldProcess, bind, Now. cbn. by destruct (clock (world s)).
Qed.

(** ** The write ack *)


(** When the source chain no longer has a packet's commitment, the transfer gets
    the ack transaction or the timeout transaction that was found, in memory and in
    its row, exactly when one of the two searches succeeds; if both or neither do, or
    the write fails, it gets an error and the tables stay. *)
Lemma commitment_outcome client t s w1 w2 w3 ack timeout :
  clients !! GetSourceChainID t = Some client ->
  IsPacketCommitted client (GetPacketSourceClientID t) (GetPacketSequenceNumber t) (world s) = (inr false, w1) ->
  FindAckTx client (GetPacketSourceClientID t) (GetPacketDestinationClientID t)
    (GetPacketSequenceNumber t) w1 = (ack, w2) ->
  FindTimeoutTx client (GetPacketSourceClientID t) (GetPacketDestinationClientID t)
    (GetPacketSequenceNumber t) w2 = (timeout, w3) ->
  wp (CheckPacketCommitment_Process t) (fun r s' =>
    (exists e, r = Fail e /\ tables s' = tables s) \/
    exists now tx, 
      (ack = inr tx /\ (exists e, timeout = inl e) /\
       r = Ok (t <| AckTxHash := Some (Hash tx) |> <| AckTxTime := Some (Timestamp tx) |>
                 <| AckTxRelayerAddress := Some (RelayerAddress tx) |>) /\
       tables s' = snd (db.UpdateTransferAckTx (Some (Hash tx)) (Some (Timestamp tx))
                          (Some (RelayerAddress tx)) (packet_key t) now (tables s))) \/
      (timeout = inr tx /\ (exists e, ack = inl e) /\
       r = Ok (t <| TimeoutTxHash := Some (Hash tx) |> <| TimeoutTxTime := Some (Timestamp tx) |>
                 <| TimeoutTxRelayerAddress := Some (RelayerAddress tx) |>) /\
       tables s' = snd (db.UpdateTransferTimeoutTx (Some (Hash tx)) (Some (Timestamp tx))
                          (Some (RelayerAddress tx)) (packet_key t) now (tables s)))) s.
Proof.
  intros Hc H1 H2 H3. unfold CheckPacketCommitment_Process, GetClient. rewrite Hc.
  apply wp_bind, wp_wrap, wp_ret, wp_bind, wp_wrap, wp_call. rewrite H1. intros r w [= <- <-].
  apply wp_bind, wp_try, wp_call. cbn [world]. rewrite H2. intros r w [= <- <-].
  destruct ack as [e1|tx1]; cbn beta iota;
    (apply wp_bind, wp_try, wp_call; cbn [world]; rewrite H3; intros r w [= <- <-];
     destruct timeout as [e2|tx2]; cbn beta iota; wp_run); eauto 10; right; eauto 12.
Qed.

(** The time at which a write ack was found finalized is never stored: the update
    names no packet, so as long as every row names a client, processing the check
    leaves every table as it was, although the transfer in memory is given the time. *)
Lemma write_ack_finality_not_stored o t s :
  (forall i r, db.ibcv2_transfers (tables s) !! i = Some r -> db.PacketSourceClientID r <> "") ->
  tables (snd (CheckWriteAckFinality_Process o t s)) = tables s.
Proof.
  intros Hrows.
  assert (H : wp (CheckWriteAckFinality_Process o t) (fun _ s' => tables s' = tables s) s); [|exact H].
  unfold CheckWriteAckFinality_Process. wp_run; try done.
  all: destruct (tables s) as [m ? ? ? ? ? ?] eqn:Ed; unfold db.update_where; cbn in *; f_equal;
    rewrite <- (map_fmap_id m) at 2; apply map_fmap_ext; intros i r Hr; cbn;
    rewrite bool_decide_false; [done|]; unfold db.row_key, zero_key; intros [= _ Hx _];
    by apply (Hrows i r).
Qed.

End Stages.

(** ** The theorems at work *)

Import TestWorld.

(** A received transfer: its recv transaction and the time of it are known. *)
Definition t_recv : IBCV2Transfer := t1 <| RecvTxHash := Some "cc" |> <| RecvTxTime := Some 3000 |>.

Lemma ack_stage_takes_incomplete_witness :
  let E := env happy happy in
  let t := t_recv <| WriteAckTxHash := Some "cc" |> <| WriteAckStatus := Some db.Ibcv2WriteAckStatusERROR |> in
  BatchAckPacket_ShouldProcess (W:=Z) false true t (sys0 0) = (Ok true, sys0 0).
Proof. intros E t. apply (ack_stage_takes_incomplete false true t db.Ibcv2WriteAckStatusERROR); done. Defined.

Lemma finisher_ends_transfer_witness :
  let E := env happy happy in
  let t := t_recv <| TimeoutTxHash := Some "dd" |> in
  finishable false true t = true /\
  match StateFinisher_Process false true t (sys0 0) with
  | (Ok t', s') => State t' = db.Ibcv2RelayStatusCOMPLETEWITHTIMEOUT
  | _ => False
  end.
Proof.
  intros E t. split; [reflexivity|].
  pose proof (finisher_ends_transfer false true t (sys0 0) 1 row1 db1_wf
                ltac:(cbn [sys0 tables]; by rewrite db1_row) eq_refl) as H.
  destruct (StateFinisher_Process false true t (sys0 0)) as [[t'|e|] s']; [|done..].
  change (finishable false true t) with true in H. apply H.
Defined.

Lemma retry_outcomes_witness :
  let E := env happy (happy <| says_retry := inr true |>) in
  wp (W:=Z) (RetryRecvPacket_Process "dst" t_recv)
    (retry_result (inr true) (fun r => r <| db.RecvTxHash := None |> <| db.RecvTxTime := None |>)
       ErrRetryingRecvPacket t_recv db1) (sys0 0).
Proof.
  intros E.
  exact (proj1 (retry_outcomes "dst" (client (happy <| says_retry := inr true |>)) "cc" 3000 t_recv (sys0 0)
           eq_refl) eq_refl eq_refl).
Defined.

Lemma retried_recv_is_eligible_witness :
  let E := env happy happy in
  db.finished (db.Status row1) = false /\
  exists r', db.ibcv2_transfers (snd (db.ClearRecvTx (packet_key t1) 9 db1)) !! 1 = Some r' /\
    fst (BatchRecvPacket_ShouldProcess (NewIBCV2Transfer r') (sys0 (10 * Second))) = Ok true.
Proof.
  intros E. split; [reflexivity|].
  destruct (retried_recv_is_eligible db1 t1 1 row1 9 (sys0 (10 * Second)) db1_wf
              ltac:(by rewrite db1_row) eq_refl eq_refl) as (r' & Hr' & _ & Hs).
  exists r'. split; [exact Hr'|]. rewrite Hs. reflexivity.
Defined.


Lemma commitment_outcome_witness :
  let E := env (happy <| says_committed := false |>) happy in
  wp (W:=Z) (CheckPacketCommitment_Process t1) (fun r _ =>
    (exists e, r = Fail e) \/ exists t', r = Ok t' /\ AckTxHash t' = Some "bb") (sys0 0).
Proof.
  intros E.
  eapply wp_mono; [|apply (commitment_outcome (client (happy <| says_committed := false |>)) t1 (sys0 0) 0 0 0
                             (inr (tx "bb" 2000)) (inl (ESentinel ErrTxNotFound))); reflexivity].
  intros r s' [(e & -> & _)|(now & x & [([= <-] & _ & -> & _)|(H & _)])]; [eauto | right; eauto | discriminate H].
Defined.

Lemma write_ack_finality_not_stored_witness :
  let E := env happy happy in
  let t := t_recv <| WriteAckTxHash := Some "cc" |> in
  match CheckWriteAckFinality_Process None t (sys0 5) with
  | (Ok t', s') => WriteAckTxFinalizedTime t' = Some 5 /\ tables s' = db1
  | _ => False
  end.
Proof.
  intros E t.
  pose proof (write_ack_finality_not_stored None t (sys0 5)) as H.
  assert (Hok : match CheckWriteAckFinality_Process None t (sys0 5) with
                | (Ok t', _) => WriteAckTxFinalizedTime t' = Some 5 | _ => False end) by (vm_compute; reflexivity).
  destruct (CheckWriteAckFinality_Process None t (sys0 5)) as [[t'|e|] s']; [|done..].
  split; [exact Hok|]. apply H. intros i r Hr. cbn [sys0 tables] in Hr. rewrite db1_row in Hr.
  apply lookup_singleton_Some in Hr as [_ <-]. discriminate.
Defined.

(** The finality of a timeout is not checked in every run that submits one: a
    packet that times out by the relayer's clock between the finality stage and the
    timeout stage is timed out although the destination chain has not finalized its
    timeout. *)
Lemma timeout_finality_race :
  let E := env happy (happy <| says_timeout_finalized := false |>) in
  match run_stages (NewPipeline conn opts) t1 (sys0 (999 * Second)) with
  | (Ok t, s') =>
      TimeoutTxHash t = Some "cc" /\
      fst (call (IsTimestampFinalized (client (happy <| says_timeout_finalized := false |>))
                   (GetPacketTimeoutTimestamp t1) None) (sys0 0)) = Ok false /\
      exists tx to, CallDeliverTx "src" tx to ∈ trace s'
  | _ => False
  end.
Proof. 
  vm_compute. split; [reflexivity|]. split; [reflexivity|]. eexists _, _.
  repeat (first [apply list_elem_of_here | apply list_elem_of_further]).
Qed.
