(* ===== verification/DispatchTheorems.v ===== *)
(** * Properties of the dispatcher

    What a pass over the unfinished rows does to the pipelines and to the rows, when
    the deduper refuses a transfer, and the options pipelines are made with. *)

From S2P Require Import Prelude Db Transfer Config World Logic Processors ProcessorSpecs BatchProcessors.
From S2P Require Import BatchSpecs Middleware Pipeline Dispatcher System Trace TestWorld.

Section Dispatch.
Context {W : Type} {E : Env W}.

(** A manager grows: its pipelines stay, with their options, and keep their keys. *)
Definition grows (m m' : Manager) : Prop :=
  forall c d, m !! c = Some d ->
    exists d', m' !! c = Some d' /\ dp_opts d' = dp_opts d /\ inPipeline d ⊆ inPipeline d'.

#[local] Instance grows_preorder : PreOrder grows.
Proof.
  split; [intros m c d H; eauto|]. intros m1 m2 m3 H1 H2 c d H.
  destruct (H1 c d H) as (d2 & Hd2 & O2 & I2). destruct (H2 c d2 Hd2) as (d3 & Hd3 & O3 & I3).
  exists d3. split; [done|]. split; [congruence | set_solver].
Qed.

(** The packet's key is held by the deduper of its pipeline. *)
Definition held (m : Manager) (t : IBCV2Transfer) : Prop :=
  exists d, m !! newPipelineKey t = Some d /\ newTransferKey t ∈ inPipeline d.

Lemma held_grows m m' t : grows m m' -> held m t -> held m' t.
Proof.
  intros Hg (d & Hd & Hk). destruct (Hg _ _ Hd) as (d' & Hd' & _ & Hi). exists d'. set_solver.
Qed.

Lemma Pipeline_grows m t d m1 :
  Pipeline m t = inr (d, m1) -> grows m m1 /\ m1 !! newPipelineKey t = Some d.
Proof.
  unfold Pipeline. destruct (m !! newPipelineKey t) as [d0|] eqn:Em; [by intros [= <- <-]|].
  destruct (newPipelineForTransfer t) as [e|d0]; [done|]. intros [= <- <-].
  split; [|by rewrite lookup_insert_eq]. intros c d Hc. exists d.
  split; [|done]. rewrite lookup_insert_ne; [done | congruence].
Qed.

Lemma SubmitTransfer_grows m t :
  grows m (snd (SubmitTransfer m t)) /\
  (held (snd (SubmitTransfer m t)) t \/ exists e, newPipelineForTransfer t = inl e).
Proof.
  destruct (SubmitTransfer_cases m t) as [(e & He & _ & ->)|[(d & m1 & Hp & Hk & ->)|(d & m1 & Hp & Hk & ->)]];
    cbn [snd]; [split; [reflexivity | eauto]|..]; apply Pipeline_grows in Hp as [Hg Hd].
  - split; [done|]. left. exists d. done.
  - split; [|left; eexists; rewrite lookup_insert_eq; split; [done|]; cbn; set_solver].
    etrans; [exact Hg|]. intros c d' Hc. destruct (decide (c = newPipelineKey t)) as [->|N].
    + eexists. rewrite lookup_insert_eq. split; [done|]. cbn.
      assert (d' = d) as -> by congruence. split; [done | set_solver].
    + exists d'. by rewrite lookup_insert_ne.
Qed.

(** One turn of the loop: it returns, or the latency alert panics. *)
Lemma submitUnfinished_cases m r s :
  (exists s1, AlertOnExcessiveRelayLatency (NewIBCV2Transfer r) s = (Panic, s1) /\
              submitUnfinished m r s = (Panic, s1)) \/
  (exists s', submitUnfinished m r s = (Ok (snd (SubmitTransfer m (NewIBCV2Transfer r))), s') /\
     (tables s' = tables s \/
      exists e now, newPipelineForTransfer (NewIBCV2Transfer r) = inl e /\
        tables s' = snd (db.UpdateTransferState db.Ibcv2RelayStatusFAILED
                           (packet_key (NewIBCV2Transfer r)) now (tables s)))).
Proof.
  unfold submitUnfinished, bind. set (t := NewIBCV2Transfer r).
  pose proof (dbrel_Alert eq t s) as Hd.
  assert (Hnf : forall e s1, AlertOnExcessiveRelayLatency t s <> (Fail e, s1)).
  { intros e s1 H. assert (Hw : wp (AlertOnExcessiveRelayLatency t) (fun r _ => forall e, r <> Fail e) s).
    { unfold AlertOnExcessiveRelayLatency, sinceExceeds, ongoingRelayType. wp_run; done. }
    unfold wp in Hw. rewrite H in Hw. by apply (Hw e). }
  destruct (AlertOnExcessiveRelayLatency t s) as [[[]|e|] s1]; [|by destruct (Hnf e s1)|left; eauto].
  right. cbn [snd] in Hd. rewrite Hd.
  destruct (SubmitTransfer_cases m t) as [(e & He & _ & ->)|[(d & m1 & Hp & Hk & ->)|(d & m1 & Hp & Hk & ->)]];
    cbn [snd]; [|exists s1; split; [done | by left]..].
  assert (Hni : errors_Is e ErrTransferAlreadyInPipeline = false) by by apply NewPipelineOpts_visible in He.
  cbn [errors_Is]. rewrite Hni. cbn [negb]. unfold try, sql.
  destruct (db_exec (world s1)) as [[err|now] w]; [eexists; split; [done | by left]|].
  eexists. split; [reflexivity|]. right. exists e, now. done.
Qed.

Lemma submitAll_grows rows m s m' s' :
  submitAll m rows s = (Ok m', s') ->
  grows m m' /\ forall r, r ∈ rows ->
    held m' (NewIBCV2Transfer r) \/ exists e, newPipelineForTransfer (NewIBCV2Transfer r) = inl e.
Proof.
  revert m s. induction rows as [|r rows IH]; intros m s H; cbn in H.
  { injection H as <- <-. split; [reflexivity | by intros r ?%not_elem_of_nil]. }
  unfold bind in H.
  destruct (submitUnfinished_cases m r s) as [(s1 & _ & Hr)|(s1 & Hr & _)]; rewrite Hr in H; [done|].
  destruct (IH _ _ H) as [Hg Hall]. destruct (SubmitTransfer_grows m (NewIBCV2Transfer r)) as [Hg1 Hh].
  split; [by etrans|]. intros r' [->|Hin]%elem_of_cons; [|by apply Hall].
  destruct Hh as [Hh|Hh]; [left; by eapply held_grows | by right].
Qed.

(** C12: after a dispatcher pass every row that was unfinished when it was read is in
    flight: the deduper of its connection's pipeline holds its packet, unless no
    pipeline can be configured for it.  The pass takes no packet and no pipeline
    away. *)
Theorem dispatch_puts_in_flight m s m' s' i r :
  SubmitWaitingUnfinishedTransfers m s = (Ok m', s') ->
  db.ibcv2_transfers (tables s) !! i = Some r -> db.finished (db.Status r) = false ->
  grows m m' /\
  (held m' (NewIBCV2Transfer r) \/ exists e, newPipelineForTransfer (NewIBCV2Transfer r) = inl e).
Proof.
  intros H Hr Hf. unfold SubmitWaitingUnfinishedTransfers, bind, wrap, sql in H.
  destruct (db_exec (world s)) as [[e|now] w]; [done|]. cbn in H.
  apply submitAll_grows in H as [Hg Hall]. split; [done|]. apply Hall, list_elem_of_filter.
  split; [done|]. apply list_elem_of_fmap. exists (i, r). split; [done|]. by apply elem_of_map_to_list.
Qed.

(** ** Rows the dispatcher gives up on *)

Definition failed_row (now : Z) (r : db.Ibcv2Transfer) : db.Ibcv2Transfer :=
  r <| db.UpdatedAt := Some now |> <| db.Status := db.Ibcv2RelayStatusFAILED |>.

(** Each row is as it was or, if it cannot have a pipeline, marked as failed. *)
Definition gives_up (d d' : db.DB) : Prop :=
  forall i r, db.ibcv2_transfers d !! i = Some r ->
    db.ibcv2_transfers d' !! i = Some r \/
    exists e now, newPipelineForTransfer (NewIBCV2Transfer r) = inl e /\
      db.ibcv2_transfers d' !! i = Some (failed_row now r).

Lemma newPipelineForTransfer_failed now r :
  newPipelineForTransfer (NewIBCV2Transfer (failed_row now r)) = newPipelineForTransfer (NewIBCV2Transfer r).
Proof. done. Qed.

Lemma gives_up_trans d1 d2 d3 : gives_up d1 d2 -> gives_up d2 d3 -> gives_up d1 d3.
Proof.
  intros H1 H2 i r Hr. destruct (H1 i r Hr) as [Hr2|(e & now & He & Hr2)]; [by apply H2|].
  right. destruct (H2 i _ Hr2) as [Hr3|(e' & now' & _ & Hr3)]; [eauto|].
  exists e, now'. split; [done|]. rewrite Hr3. done.
Qed.

Lemma gives_up_refl d : gives_up d d.
Proof. intros i r Hr. by left. Qed.

Lemma gives_up_persist d d' : gives_up d d' -> persist d d'.
Proof.
  intros H i r Hr. destruct (H i r Hr) as [H1|(e & now & _ & H1)]; [eauto|]. exists (failed_row now r). done.
Qed.

Lemma newPipelineForTransfer_identity r r' :
  row_identity r' = row_identity r ->
  newPipelineForTransfer (NewIBCV2Transfer r') = newPipelineForTransfer (NewIBCV2Transfer r).
Proof.
  intros Hid.
  assert (Hs : db.SourceChainID r' = db.SourceChainID r) by (unfold row_identity in Hid; congruence).
  assert (Hd : db.DestinationChainID r' = db.DestinationChainID r) by (unfold row_identity in Hid; congruence).
  unfold newPipelineForTransfer, NewPipelineOpts, GetSourceChainID, GetDestinationChainID. cbn.
  by rewrite Hs, Hd.
Qed.

Lemma gives_up_update d r r0 i now e :
  db.wf_db d -> db.ibcv2_transfers d !! i = Some r0 -> row_identity r0 = row_identity r ->
  newPipelineForTransfer (NewIBCV2Transfer r) = inl e ->
  gives_up d (snd (db.UpdateTransferState db.Ibcv2RelayStatusFAILED (packet_key (NewIBCV2Transfer r)) now d)).
Proof.
  intros Hw Hr Hid He j r' Hr'. cbn [db.UpdateTransferState snd].
  rewrite <- (identity_packet_key _ _ (identity_row _ _ Hid)).
  rewrite packet_key_NewIBCV2Transfer by by eapply db.wf_transfer_seq.
  rewrite (db.update_where_one_row _ _ d i r0 Hw Hr eq_refl).
  destruct (decide (i = j)) as [->|N]; [|left; by rewrite lookup_insert_ne].
  right. assert (r' = r0) as -> by congruence. exists e, now.
  split; [by rewrite (newPipelineForTransfer_identity _ _ Hid) | by rewrite lookup_insert_eq].
Qed.

Lemma submitAll_gives_up rows m s x s' :
  db.wf_db (tables s) ->
  (forall r, r ∈ rows -> exists i r0, db.ibcv2_transfers (tables s) !! i = Some r0 /\ row_identity r0 = row_identity r) ->
  submitAll m rows s = (x, s') -> gives_up (tables s) (tables s').
Proof.
  revert m s. induction rows as [|r rows IH]; intros m s Hw Hrows H; cbn in H.
  { injection H as _ <-. apply gives_up_refl. }
  pose proof (submitUnfinished_wf m r s Hw) as [Hw1 _]. unfold bind in H.
  destruct (submitUnfinished_cases m r s) as [(s1 & Ha & Hr)|(s1 & Hr & Ht)]; rewrite Hr in H, Hw1; cbn in Hw1.
  - injection H as _ <-. pose proof (dbrel_Alert eq (NewIBCV2Transfer r) s) as Hd.
    rewrite Ha in Hd. cbn in Hd. rewrite Hd. apply gives_up_refl.
  - assert (Hg : gives_up (tables s) (tables s1)).
    { destruct Ht as [->|(e & now & He & ->)]; [apply gives_up_refl|].
      destruct (Hrows r) as (i & r0 & Hr0 & Hid); [left|]. by eapply gives_up_update. }
    eapply gives_up_trans; [exact Hg|]. eapply IH; [done | | exact H].
    intros r' Hin. destruct (Hrows r') as (i & r0 & Hr0 & Hid); [by right|].
    destruct (gives_up_persist _ _ Hg i r0 Hr0) as (r1 & Hr1 & Hid1). exists i, r1. split; congruence.
Qed.

(** C13: a dispatcher pass, however it ends, changes a row only to mark it FAILED, and
    only when no pipeline can be configured for the row's chains: a transfer is never
    given up for any other reason. *)
Theorem dispatch_fails_only_misconfigured m s x s' :
  db.wf_db (tables s) -> SubmitWaitingUnfinishedTransfers m s = (x, s') ->
  forall i r, db.ibcv2_transfers (tables s) !! i = Some r ->
    db.ibcv2_transfers (tables s') !! i = Some r \/
    exists e now, newPipelineForTransfer (NewIBCV2Transfer r) = inl e /\
      db.ibcv2_transfers (tables s') !! i =
        Some (r <| db.UpdatedAt := Some now |> <| db.Status := db.Ibcv2RelayStatusFAILED |>).
Proof.
  intros Hw H. unfold SubmitWaitingUnfinishedTransfers, bind, wrap, sql in H.
  destruct (db_exec (world s)) as [[e|now] w]; [injection H as _ <-; by left|]. cbn in H.
  apply submitAll_gives_up in H; [exact H | done |]. intros r [_ Hr]%list_elem_of_filter.
  apply list_elem_of_fmap in Hr as ([i r'] & -> & Hr). exists i, r'. by apply elem_of_map_to_list in Hr.
Qed.

(** One transfer whose source chain is configured without an ibcv2 section (its
    destination being configured) stops the dispatcher: the pass panics in the
    latency alert, before the transfer can be marked FAILED, whatever else is
    waiting. *)
Lemma dispatch_panics_without_ibcv2 m s now w i r src dst :
  db_exec (world s) = (inr now, w) ->
  db.ibcv2_transfers (tables s) !! i = Some r -> db.finished (db.Status r) = false ->
  GetChainConfig cfg (db.SourceChainID r) = inr src -> GetChainConfig cfg (db.DestinationChainID r) = inr dst ->
  IBCV2 src = None ->
  fst (SubmitWaitingUnfinishedTransfers m s) = Panic.
Proof.
  intros Hexec Hr Hf Hsrc Hdst Hnone.
  unfold SubmitWaitingUnfinishedTransfers, bind, wrap, sql. rewrite Hexec. cbn.
  assert (Hin : r ∈ filter (fun r => db.finished (db.Status r) = false)
                  (map_to_list (db.ibcv2_transfers (tables s))).*2).
  { apply list_elem_of_filter. split; [done|]. apply list_elem_of_fmap. exists (i, r).
    split; [done|]. by apply elem_of_map_to_list. }
  revert Hin. generalize (filter (fun r => db.finished (db.Status r) = false)
                            (map_to_list (db.ibcv2_transfers (tables s))).*2) as rows.
  intros rows. generalize (mkSys w (tables s) (trace s)) as s1. revert m.
  induction rows as [|r0 rows IH]; intros m s1 Hin; [by apply not_elem_of_nil in Hin|].
  cbn [submitAll]. unfold bind at 1. apply elem_of_cons in Hin as [<-|Hin].
  - unfold submitUnfinished, bind at 1, AlertOnExcessiveRelayLatency, GetSourceChainID, GetDestinationChainID.
    cbn [NewIBCV2Transfer SourceChainID DestinationChainID]. by rewrite Hsrc, Hdst, Hnone.
  - destruct (submitUnfinished_cases m r0 s1) as [(s2 & _ & ->)|(s2 & -> & _)]; [done | by apply IH].
Qed.

(** The deduper lets a packet into its pipeline once: submitting it again, also as
    a freshly loaded transfer, is refused with ErrTransferAlreadyInPipeline and
    changes nothing, until the transfer is polled off the pipeline's output; then
    the deduper no longer holds it. *)
Lemma submit_once m t m' t' :
  SubmitTransfer m t = (None, m') -> identity t' = identity t ->
  SubmitTransfer m' t' = (Some (ESentinel ErrTransferAlreadyInPipeline), m') /\
  exists d, m' !! newPipelineKey t = Some d /\ newTransferKey t' ∉ inPipeline (Polled d t).
Proof.
  intros H Hid. apply identity_keys_eq in Hid as [Hp Hk].
  destruct (SubmitTransfer_grows m t) as [_ Hh]. rewrite H in Hh. cbn [snd] in Hh.
  assert (Hd : exists d, m' !! newPipelineKey t = Some d /\ newTransferKey t ∈ inPipeline d).
  { destruct Hh as [Hh|(e & He)]; [exact Hh|].
    destruct (SubmitTransfer_cases m t) as [(e' & _ & _ & Hs)|[(d & m1 & _ & _ & Hs)|(d & m1 & Hpl & _ & Hs)]];
      rewrite Hs in H; simplify_eq. eexists. rewrite lookup_insert_eq. split; [done|]. cbn. set_solver. }
  destruct Hd as (d & Hd & Hin). split.
  - unfold SubmitTransfer, Pipeline, Push. rewrite Hp, Hd, Hk. by rewrite bool_decide_true.
  - exists d. split; [done|]. rewrite Hk. cbn. set_solver.
Qed.

(** The options of a pipeline exist exactly for configured pairs of chains that
    both have an ibcv2 section, and then none of their batch sizes, timeouts and
    concurrencies is zero: a zero in the configuration is replaced by its default. *)
Lemma pipeline_opts_nonzero r t :
  match NewPipelineOpts r t with
  | inl _ =>
      (exists e, GetIBCV2Config r (GetSourceChainID t) = inl e) \/
      (exists e, GetIBCV2Config r (GetDestinationChainID t) = inl e) \/
      GetIBCV2Config r (GetSourceChainID t) = inr None \/ GetIBCV2Config r (GetDestinationChainID t) = inr None
  | inr o =>
      (exists src dst, GetIBCV2Config r (GetSourceChainID t) = inr (Some src) /\
         GetIBCV2Config r (GetDestinationChainID t) = inr (Some dst) /\
         ShouldRelaySuccessAcks o = cfg_ShouldRelaySuccessAcks src /\
         ShouldRelayErrorAcks o = cfg_ShouldRelayErrorAcks src) /\
      Forall (fun z => z <> 0)
        [AckBatchSize o; AckBatchTimeout o; AckBatchConcurrency o;
         RecvBatchSize o; RecvBatchTimeout o; RecvBatchConcurrency o;
         TimeoutBatchSize o; TimeoutBatchTimeout o; TimeoutBatchConcurrency o]
  end.
Proof.
  unfold NewPipelineOpts, GetIBCV2Config.
  destruct (GetChainConfig r (GetSourceChainID t)) as [|src]; [eauto|].
  destruct (GetChainConfig r (GetDestinationChainID t)) as [|dst]; [eauto|].
  destruct (IBCV2 src) as [isrc|]; [|eauto]. destruct (IBCV2 dst) as [idst|]; [|eauto].
  split; [eauto 10|]. repeat constructor; cbn; unfold or_default; case_bool_decide; cbn; done.
Qed.

End Dispatch.

(** ** The theorems at work *)

Import TestWorld.

Lemma dispatch_puts_in_flight_witness :
  let E := env happy happy in
  match SubmitWaitingUnfinishedTransfers ∅ (sys0 (10 * Second)) with
  | (Ok m', _) => held m' t1
  | _ => False
  end.
Proof.
  intros E.
  assert (Hok : match SubmitWaitingUnfinishedTransfers ∅ (sys0 (10 * Second)) with (Ok _, _) => True | _ => False end)
    by (vm_compute; exact I).
  destruct (SubmitWaitingUnfinishedTransfers ∅ (sys0 (10 * Second))) as [[m'|e|] s'] eqn:H; [|done..].
  destruct (dispatch_puts_in_flight ∅ (sys0 (10 * Second)) m' s' 1 row1 H ltac:(cbn [sys0 tables]; by rewrite db1_row)
              eq_refl) as [_ [Hh|[e He]]]; [exact Hh|]. vm_compute in He. discriminate He.
Defined.

Lemma dispatch_fails_only_misconfigured_witness :
  let E := env happy happy in
  let '(x, s') := SubmitWaitingUnfinishedTransfers ∅ (sys0 (10 * Second)) in
  db.ibcv2_transfers (tables s') !! 1 = Some row1.
Proof.
  intros E. destruct (SubmitWaitingUnfinishedTransfers ∅ (sys0 (10 * Second))) as [x s'] eqn:H.
  destruct (dispatch_fails_only_misconfigured ∅ (sys0 (10 * Second)) x s' db1_wf H 1 row1
              ltac:(cbn [sys0 tables]; by rewrite db1_row)) as [Hr|(e & now & He & _)]; [exact Hr|].
  vm_compute in He. discriminate He.
Defined.

Lemma dispatch_panics_without_ibcv2_witness :
  let E := env_with config_bad happy happy in
  fst (SubmitWaitingUnfinishedTransfers ∅ (sys0 (10 * Second))) = Panic.
Proof.
  intros E.
  apply (dispatch_panics_without_ibcv2 ∅ (sys0 (10 * Second)) (10 * Second) (10 * Second) 1 row1
           (mkChainConfig "src" "src" ChainTypeCOSMOS "testnet" None None None "atom" None 6 ∅ None [])
           (chain_config "dst")); first [reflexivity | cbn [sys0 tables]; by rewrite db1_row].
Defined.

Lemma submit_once_witness :
  let E := env happy happy in
  let m' := snd (SubmitTransfer ∅ t1) in
  SubmitTransfer m' t1 = (Some (ESentinel ErrTransferAlreadyInPipeline), m').
Proof.
  intros E m'. assert (H : fst (SubmitTransfer ∅ t1) = None) by (vm_compute; reflexivity).
  destruct (submit_once ∅ t1 m' t1) as [H1 _]; [|reflexivity | exact H1].
  unfold m'. rewrite <- H. apply surjective_pairing.
Defined.

(** The pass of the dispatcher as steps of the system: the packet is in flight. *)
Lemma in_flight_unique_witness :
  let E := env happy happy in
  exists s d, reachable s /\ manager s !! conn = Some d /\ flights d !! 0%nat = Some (Waiting 0, t1).
Proof.
  intros E.
  set (s0 := mkRelayer (sys0 (10 * Second)) ∅ []).
  assert (Hstep : exists s1, submitUnfinished ∅ row1 (sys0 (10 * Second)) =
                    (Ok (snd (SubmitTransfer ∅ t1)), s1)).
  { destruct (submitUnfinished_cases ∅ row1 (sys0 (10 * Second))) as [(s1 & Ha & _)|(s1 & Hs & _)]; [|eauto].
    assert (Hx : match AlertOnExcessiveRelayLatency t1 (sys0 (10 * Second)) with (Ok _, _) => True | _ => False end)
      by (vm_compute; exact I). change (NewIBCV2Transfer row1) with t1 in Ha. rewrite Ha in Hx. destruct Hx. }
  destruct Hstep as [s1 Hs1].
  assert (Hreach : reachable (mkRelayer s1 (snd (SubmitTransfer ∅ t1)) [])).
  { eapply reach_step; [eapply reach_step; [apply (reach_init s0)|]|].
    - split; [apply db1_wf | done].
    - apply (step_snapshot (sys0 (10 * Second)) (sys0 (10 * Second)) ∅ [row1]).
      unfold sql. cbn [sys0 world tables trace]. vm_compute. reflexivity.
    - apply step_submit. exact Hs1. }
  exists (mkRelayer s1 (snd (SubmitTransfer ∅ t1)) []), (snd (Push (NewPipelineDeduper
    (match NewPipelineOpts cfg t1 with inr o => o | inl _ => opts end)) t1)).
  assert (Hm : manager (mkRelayer s1 (snd (SubmitTransfer ∅ t1)) []) !! conn =
    Some (snd (Push (NewPipelineDeduper (match NewPipelineOpts cfg t1 with inr o => o | inl _ => opts end)) t1)))
    by (vm_compute; reflexivity).
  split; [exact Hreach|]. split; [exact Hm|].
  destruct (in_flight_unique _ conn conn _ _ 0%nat 0%nat (Waiting 0) (Waiting 0) t1 t1 Hreach Hm Hm
              eq_refl eq_refl eq_refl) as [_ _].
  reflexivity.
Defined.
