(* ===== verification/ChannelTheorems.v ===== *)
(** * The goroutines of a configured relayer

    When the configuration makes the batch sizes and concurrencies positive, the
    state in which the next submission jams a pipeline, and the goroutines of the
    concrete world with one transfer on its way into a pipeline. *)

From S2P Require Import Prelude Db Transfer Config World Logic Processors ProcessorSpecs BatchProcessors.
From S2P Require Import BatchSpecs Middleware Pipeline Dispatcher System Trace TestWorld DispatchTheorems.
From S2P Require Import Channels ChannelRefinement ChannelProgress Shutdown.
Import TestWorld.

(** The numbers of an ibcv2 section are not negative. *)
Definition ibcv2_nonneg (i : IBCV2Config) : Prop :=
  0 <= cfg_AckBatchSize i /\ 0 <= cfg_AckBatchConcurrency i /\ 0 <= cfg_RecvBatchSize i /\
  0 <= cfg_RecvBatchConcurrency i /\ 0 <= cfg_TimeoutBatchSize i /\ 0 <= cfg_TimeoutBatchConcurrency i.

Lemma or_default_pos v d : 0 <= v -> 1 <= d -> 1 <= or_default v d.
Proof. unfold or_default. intros. case_bool_decide; cbn; lia. Qed.

(** A number left out of the configuration, or set to zero, becomes a positive default. *)
Lemma cfg_positive_nonneg {W} {E : Env W} :
  (forall id c i, GetChainConfig cfg id = inr c -> IBCV2 c = Some i -> ibcv2_nonneg i) -> cfg_positive.
Proof.
  intros H t opts. unfold NewPipelineOpts.
  destruct (GetChainConfig cfg (GetSourceChainID t)) as [|c1] eqn:E1; [done|].
  destruct (GetChainConfig cfg (GetDestinationChainID t)) as [|c2] eqn:E2; [done|].
  destruct (IBCV2 c1) as [i1|] eqn:I1; [|done]. destruct (IBCV2 c2) as [i2|] eqn:I2; [|done].
  intros [= <-]. destruct (H _ _ _ E1 I1) as (? & ? & ? & ? & ? & ?).
  destruct (H _ _ _ E2 I2) as (? & ? & ? & ? & ? & ?).
  split_and!; cbn; apply or_default_pos; try done.
Qed.

(** Everything but the dispatcher's send is in place: the next transfer the deduper
    accepts jams the pipeline, before its goroutine can remove a key. *)
Lemma submit_jams {W} {E : Env W} extra c n i s m r sn s' m' :
  m !! c = Some n -> inputBufferSize <= Z.of_nat (length (n_input n)) ->
  is_Some (n_emitter n) -> is_Some (n_poller n) ->
  Forall2 (node_full extra) (NewPipeline c (n_opts n)) (n_nodes n) ->
  net_submitUnfinished m r s = (Ok (m', Some (c, i)), s') ->
  jammed extra c (mkChannels s' m' sn (Some (c, i))).
Proof.
  intros Hc Hin He Hp Hfull Hrun.
  assert (Hm' : exists n', m' !! c = Some n' /\ n_input n' = n_input n /\ n_emitter n' = n_emitter n /\
    n_poller n' = n_poller n /\ n_opts n' = n_opts n /\ n_nodes n' = n_nodes n).
  { revert Hrun. unfold net_submitUnfinished, bind. set (t := NewIBCV2Transfer r).
    destruct (AlertOnExcessiveRelayLatency t s) as [[[]|e|] s1]; [|done..].
    destruct (net_SubmitTransfer m t) as [[err nets1] p1] eqn:Es. intros Hr.
    assert (nets1 = m' /\ p1 = Some (c, i)) as [-> ->].
    { destruct err as [e|]; [destruct (negb _)|]; try (by inversion Hr).
      destruct (try _ s1) as [[x|e'|] s2]; by inversion Hr. }
    revert Es. unfold net_SubmitTransfer. destruct (net_Pipeline m t) as [e|[n1 m1]] eqn:Ep; [done|].
    case_bool_decide; [done|]. intros [= _ <- Hk _]. rewrite Hk, lookup_insert_eq.
    revert Ep. unfold net_Pipeline. rewrite Hk, Hc. intros [= -> _]. eexists. done. }
  destruct Hm' as (n' & Hn' & H1 & H2 & H3 & H4 & H5). exists n', i. cbn.
  rewrite H1, H2, H3, H4, H5. done.
Qed.

(** ** Witnesses *)

Lemma test_positive src dst : cfg_positive (E:=env src dst).
Proof.
  apply cfg_positive_nonneg. intros id c i Hc Hi.
  apply GetChainConfig_elem in Hc as [Hc _]; [|by apply (bool_decide_unpack _); vm_compute].
  cbn in Hc. rewrite !elem_of_cons in Hc. destruct Hc as [->|[->|Hc%not_elem_of_nil]]; [..|done];
    cbn in Hi; injection Hi as <-; by split_and!.
Qed.

Definition ch0 : Channels Z := mkChannels (sys0 (10 * Second)) ∅ [] None.

Definition submitted (src dst : script) : Channels Z :=
  match net_submitUnfinished (E:=env src dst) ∅ row1 (sys0 (10 * Second)) with
  | (Ok (m, p), s) => mkChannels s m [] p
  | _ => ch0
  end.

Lemma submitted_reachable extra : chan_reachable (E:=env happy happy) extra (submitted happy happy).
Proof.
  eapply chan_reach_step; [eapply chan_reach_step; [apply (chan_reach_init _ ch0)|]|].
  - split; [apply db1_wf | done].
  - apply (chan_snapshot _ (sys0 (10 * Second)) (sys0 (10 * Second)) ∅ [row1]).
    unfold sql. cbn [sys0 world tables trace]. vm_compute. reflexivity.
  - unfold submitted. destruct (net_submitUnfinished ∅ row1 _) as [[[m p]|e|] s] eqn:Er;
      [by apply chan_submit|..]; exfalso;
      assert (H : match net_submitUnfinished (E:=env happy happy) ∅ row1 (sys0 (10 * Second)) with
                  | (Ok _, _) => True | _ => False end) by (vm_compute; exact I); by rewrite Er in H.
Qed.

Lemma channels_refine_witness :
  let E := env happy happy in
  chan_reachable 1 (submitted happy happy) /\
  exists r, reachable r /\ refines (submitted happy happy) r.
Proof.
  intros E. split; [apply submitted_reachable|].
  apply (channels_refine 1 (submitted happy happy) (test_positive happy happy) (submitted_reachable 1)).
Defined.

Lemma submitted_few_keys : few_keys (submitted happy happy).
Proof.
  intros c n Hc. assert (H : map_Forall (fun _ n => Z.of_nat (size (n_keys n)) <= inputBufferSize)
    (c_nets (submitted happy happy))) by (apply (bool_decide_unpack _); vm_compute; exact I).
  exact (H c n Hc).
Qed.

Lemma submitted_sends : exists ch' n, pipe_step (E:=env happy happy) 1 (submitted happy happy) ch' /\
  c_pushing ch' = None /\ c_nets ch' !! conn = Some n /\ n_emitter n = None.
Proof.
  destruct (submitted happy happy) as [s m sn p] eqn:Es.
  assert (Hp : c_pushing (submitted happy happy) = Some (conn, t1)) by (vm_compute; reflexivity).
  assert (Hn : match c_nets (submitted happy happy) !! conn with
               | Some n => n_input n = [] /\ n_emitter n = None | None => False end) by (vm_compute; done).
  rewrite Es in Hp, Hn. cbn in Hp, Hn. subst p. destruct (m !! conn) as [n|] eqn:Hm; [|done]. destruct Hn as [Hi He].
  eexists _, _. split_and!; [eapply pipe_send; [exact Hm | by rewrite Hi] | done | apply lookup_insert_eq | done].
Qed.

Lemma pipelines_drain_witness :
  let E := env happy happy in
  exists ch', pipe_step 1 (submitted happy happy) ch' /\
    (1 <= chan_weight (submitted happy happy))%nat /\ (drained ch' \/ exists ch'', pipe_step 1 ch' ch'').
Proof.
  intros E. destruct submitted_sends as (ch' & n & Hs & _). exists ch'. split; [exact Hs|].
  apply (pipelines_drain 1 (submitted happy happy) 1 ch' (test_positive happy happy)
           (submitted_reachable 1) submitted_few_keys).
  apply nsteps_once. exact Hs.
Defined.

Lemma close_returns_witness :
  let E := env happy happy in
  exists ch n cl, chan_reachable 1 ch /\ c_nets ch !! conn = Some n /\
    closing_step 1 (NewPipeline conn (n_opts n)) (Pipeline_Close n) cl /\
    (1 <= closing_weight (Pipeline_Close n))%nat.
Proof.
  intros E. destruct submitted_sends as (ch & n & Hs & Hp & Hn & He).
  assert (Hr : chan_reachable 1 ch) by (eapply chan_reach_step; [apply submitted_reachable | by apply chan_pipe]).
  eassert (Hc : closing_step 1 (NewPipeline conn (n_opts n)) (Pipeline_Close n) _).
  { exists (c_sys ch), (c_sys ch). apply down_read. cbn. by rewrite He. }
  eexists ch, n, _. split; [exact Hr|]. split; [exact Hn|]. split; [exact Hc|].
  exact (proj1 (close_returns 1 ch conn n 1 _ (test_positive happy happy) Hr Hp Hn (nsteps_once _ _ Hc))).
Defined.
