(* ===== verification/RelayTheorems.v ===== *)
(** * Properties of relaying

    The properties of the pipeline, its stages and the finisher, stated on the
    definitions that translate the code, each with a witness in the concrete world
    of TestWorld. *)

From S2P Require Import Prelude Db Transfer Config World Logic Processors ProcessorSpecs BatchProcessors.
From S2P Require Import BatchSpecs Middleware Pipeline Dispatcher System Trace TestWorld.

Section Theorems.
Context {W : Type} {E : Env W}.

(** Whatever the timeout stage sends, it sends after the packet's timeout. *)
Lemma timeout_sent_late (wtime : W -> Z) c a b d t s0 t1 s1 :
  MonotoneClock wtime ->
  run_stage (Batched (NewBatchTimeoutPacketProcessor c) a b d) t s0 = (Ok t1, s1) ->
  ~ made s0 s1 [] -> PacketTimeoutTimestamp t < wtime (world s1).
Proof.
  intros HM Hrun Hmade. cbn [run_stage] in Hrun. unfold bind at 1, toBatch in Hrun.
  case_bool_decide as He; cbn in Hrun;
    [|injection Hrun as _ <-; destruct Hmade; exists []; by rewrite app_nil_r].
  unfold BatchTimeoutPacket_ShouldProcess, bind at 1 in Hrun.
  destruct (GetRecvTxHash t) as [h1 rh], (GetAckTxHash t) as [h2 ah], (GetTimeoutTxHash t) as [h3 th].
  unfold bind at 1, Now in Hrun. pose proof (mc_clock (world s0)) as Hc.
  destruct (clock (world s0)) as [now w]. cbn [ret fst snd] in Hrun, Hc.
  destruct (IsTimedOut now t) eqn:Et; cbn in Hrun;
    [|injection Hrun as _ <-; destruct Hmade; exists []; cbn; by rewrite app_nil_r].
  apply bool_decide_eq_true in Et. unfold GetPacketTimeoutTimestamp in Et.
  destruct (negb rh && negb ah && negb th);
    [|injection Hrun as _ <-; destruct Hmade; exists []; cbn; by rewrite app_nil_r].
  set (s := mkSys w (tables s0) (trace s0)) in *.
  assert (Hl : sysrel (later wtime) (BatchMW_Process (NewBatchTimeoutPacketProcessor c) [t])).
  { apply BatchMW_rel; [done | by apply BatchTimeoutPacket_rel | intros; by apply BatchTimeoutPacket_later]. }
  specialize (Hl s). unfold bind in Hrun.
  destruct (BatchMW_Process _ [t] s) as [[out|e|] s']; [|done..]. cbn in Hl. unfold later in Hl. cbn in Hl.
  destruct out as [|t' []]; [done | injection Hrun as _ <-; lia | done].
Qed.

(** After the packet's timeout the recv stage sends nothing. *)
Lemma recv_not_sent_late (wtime : W -> Z) c a b d t s r s' :
  MonotoneClock wtime -> PacketTimeoutTimestamp t < wtime (world s) ->
  run_stage (Batched (NewBatchRecvPacketProcessor c) a b d) t s = (r, s') -> made s s' [].
Proof.
  intros HM Hpast Hrun. cbn [run_stage] in Hrun. unfold bind at 1, toBatch in Hrun.
  case_bool_decide as He; cbn in Hrun; [|injection Hrun as _ <-; exists []; by rewrite app_nil_r].
  unfold BatchRecvPacket_ShouldProcess in Hrun. destruct (GetRecvTxHash t) as [h []]; cbn in Hrun.
  { injection Hrun as _ <-. exists []. by rewrite app_nil_r. }
  unfold bind at 1, Now in Hrun. pose proof (mc_clock (world s)) as Hc.
  destruct (clock (world s)) as [now w]. cbn in Hrun, Hc.
  assert (Hto : IsTimedOut now t = true).
  { apply bool_decide_eq_true. unfold GetPacketTimeoutTimestamp. lia. }
  rewrite Hto in Hrun. cbn in Hrun. injection Hrun as _ <-. exists []. cbn. by rewrite app_nil_r.
Qed.


(** A stage that errors a transfer takes it out of the run: whatever stages of
    the pipeline follow, they return the transfer and the whole system state as the
    failing stage left them. *)
Lemma errored_transfer_skips_rest c opts l1 l2 r s t s1 e :
  NewPipeline c opts = l1 ++ l2 ->
  run_stages l1 (NewIBCV2Transfer r) s = (Ok t, s1) -> ProcessingError t = Some e ->
  run_stages (NewPipeline c opts) (NewIBCV2Transfer r) s = (Ok t, s1).
Proof.
  intros Hl Hrun He.
  assert (Hspec : Forall StageSpec l1).
  { pose proof (NewPipeline_spec c opts) as H. rewrite Hl in H. by apply Forall_app in H as [? _]. }
  pose proof (wp_run _ _ _ _ _ (run_stages_outcome l1 (NewIBCV2Transfer r) s Hspec) Hrun) as (_ & Hok & _).
  assert (Hv : visible e) by (apply (Hok (err_ok_None (NewIBCV2Transfer r) eq_refl)); done).
  rewrite Hl, run_stages_app. unfold bind. rewrite Hrun. apply run_stages_errored.
  unfold Error. by rewrite He.
Qed.

(** C10: a batched stage of the pipeline loses and duplicates nothing: unless the
    context is cancelled it returns the packets it was given, in some order; each
    comes back with a visible error or, for a batch of distinct packets that agreed
    with their rows, in agreement with its row. *)
Theorem batch_stage_keeps_transfers c opts p size dur conc batch s :
  Batched p size dur conc ∈ NewPipeline c opts ->
  match BatchMW_Process p batch s with
  | (Ok out, s') =>
      identity <$> out ≡ₚ identity <$> batch /\
      (Forall err_ok batch -> Forall err_ok out) /\
      (NoDup (packet_key <$> batch) -> Forall err_ok batch -> Forall (live_sync (tables s)) batch ->
       Forall (live_sync (tables s')) out)
  | (Fail e, _) => errors_Is e context_Canceled = true
  | (Panic, _) => False
  end.
Proof.
  intros Hin.
  pose proof (NewPipeline_spec c opts) as Hp. rewrite Forall_forall in Hp.
  specialize (Hp _ Hin). red in Hp.
  pose proof (BatchMW_outcome p batch s) as H. unfold wp in H.
  by destruct (BatchMW_Process p batch s) as [[out|e|] s'].
Qed.

(** C7: with a clock that does not run backwards, a run that sends anything out at
    the timeout stage sends nothing out at the recv stage that follows: a packet is
    not received after its timeout was submitted, whatever the stages in between do. *)
Theorem timeout_excludes_recv (wtime : W -> Z) c opts l1 l2 l3 a1 b1 c1 a2 b2 c2 t s0 t1 s1 t2 s2 r s3 :
  MonotoneClock wtime ->
  NewPipeline c opts = l1 ++ Batched (NewBatchTimeoutPacketProcessor c) a1 b1 c1 :: l2 ++
                          Batched (NewBatchRecvPacketProcessor c) a2 b2 c2 :: l3 ->
  run_stage (Batched (NewBatchTimeoutPacketProcessor c) a1 b1 c1) t s0 = (Ok t1, s1) ->
  ~ made s0 s1 [] ->
  run_stages l2 t1 s1 = (Ok t2, s2) ->
  run_stage (Batched (NewBatchRecvPacketProcessor c) a2 b2 c2) t2 s2 = (r, s3) ->
  made s2 s3 [].
Proof.
  intros HM Hsplit H1 Hmade H2 H3.
  pose proof (NewPipeline_spec c opts) as Hspec. pose proof (NewPipeline_later wtime c opts) as Hlater.
  rewrite Hsplit in Hspec, Hlater.
  apply Forall_app in Hspec as [_ [Hst [Hspec2 _]%Forall_app]%Forall_cons].
  apply Forall_app in Hlater as [_ [Hlt [Hlater2 _]%Forall_app]%Forall_cons].
  assert (Hpast : PacketTimeoutTimestamp t < wtime (world s1)) by by eapply timeout_sent_late.
  pose proof (wp_run _ _ _ _ _ (run_stage_outcome _ t s0 Hst) H1) as (Hid1 & _).
  pose proof (wp_run _ _ _ _ _ (run_stages_outcome _ t1 s1 Hspec2) H2) as (Hid2 & _).
  pose proof (run_stages_later wtime l2 t1 Hlater2 s1) as Hw. rewrite H2 in Hw. cbn in Hw.
  assert (Ht : PacketTimeoutTimestamp t2 = PacketTimeoutTimestamp t) by (unfold identity in *; congruence).
  eapply recv_not_sent_late; [done | | exact H3]. unfold later in Hw. lia.
Qed.

End Theorems.

(** ** The theorems at work *)

Import TestWorld.


(** The send is not final yet: the third stage errors the transfer. *)
Lemma errored_transfer_skips_rest_witness :
  let E := env (happy <| says_finalized := false |>) happy in
  match run_stages (take 3 (NewPipeline conn opts)) t1 (sys0 (10 * Second)) with
  | (Ok t, s1) => is_Some (ProcessingError t) /\
      run_stages (NewPipeline conn opts) t1 (sys0 (10 * Second)) = (Ok t, s1)
  | _ => False
  end.
Proof.
  intros E.
  assert (He : match run_stages (take 3 (NewPipeline conn opts)) t1 (sys0 (10 * Second)) with
               | (Ok t, _) => exists e, ProcessingError t = Some e | _ => False end)
    by (vm_compute; eexists; reflexivity).
  destruct (run_stages (take 3 _) t1 _) as [[t|e|] s1] eqn:Hrun; [|done..].
  destruct He as [e He]. split; [by rewrite He|].
  apply (errored_transfer_skips_rest conn opts (take 3 (NewPipeline conn opts)) (drop 3 (NewPipeline conn opts))
           row1 (sys0 (10 * Second)) t s1 e); [by rewrite take_drop | exact Hrun | exact He].
Defined.

Lemma batch_stage_keeps_transfers_witness :
  let E := env happy happy in
  match BatchMW_Process (NewBatchRecvPacketProcessor conn) [t1] (sys0 (10 * Second)) with
  | (Ok out, s') => Forall (live_sync (tables s')) out
  | _ => False
  end.
Proof.
  intros E.
  pose proof (batch_stage_keeps_transfers conn opts (NewBatchRecvPacketProcessor conn) 50 (10 * Second) 50
                [t1] (sys0 (10 * Second)) ltac:(do 6 right; left)) as H.
  assert (Hok : match BatchMW_Process (NewBatchRecvPacketProcessor conn) [t1] (sys0 (10 * Second)) with
                | (Ok _, _) => True | _ => False end) by (vm_compute; exact I).
  destruct (BatchMW_Process _ [t1] _) as [[out|e|] s']; [|done..].
  apply H; [apply NoDup_singleton | by repeat constructor | constructor; [|constructor]].
  intros _. cbn [tables sys0]. apply (in_sync_NewIBCV2Transfer _ 1); [apply db1_wf | by rewrite db1_row].
Defined.

(** The packet has timed out: the timeout is submitted and the recv stage is silent. *)
Lemma timeout_excludes_recv_witness :
  let E := env happy happy in
  match run_stage (Batched (NewBatchTimeoutPacketProcessor conn) 50 Minute 10) t1 (sys0 (2000 * Second)) with
  | (Ok ta, s1) =>
      ~ made (sys0 (2000 * Second)) s1 [] /\
      match run_stages [Single (NewRetryTimeoutPacketProcessor "src")] ta s1 with
      | (Ok tb, s2) =>
          made s2 (snd (run_stage (Batched (NewBatchRecvPacketProcessor conn) 50 (10 * Second) 50) tb s2)) []
      | _ => False
      end
  | _ => False
  end.
Proof.
  intros E.
  assert (H1 : match run_stage (Batched (NewBatchTimeoutPacketProcessor conn) 50 Minute 10) t1 (sys0 (2000 * Second)) with
    | (Ok ta, s1) => calls (trace s1) <> [] /\
        match run_stages [Single (NewRetryTimeoutPacketProcessor "src")] ta s1 with (Ok _, _) => True | _ => False end
    | _ => False end).
  { vm_compute. split; [discriminate | exact I]. }
  destruct (run_stage _ t1 _) as [[ta|e|] s1] eqn:Hrun; [|done..]. destruct H1 as [Hc H2].
  assert (Hm : ~ made (sys0 (2000 * Second)) s1 []).
  { intros (l & Hl & Hcl). apply Hc. rewrite Hl. exact Hcl. }
  split; [exact Hm|].
  destruct (run_stages _ ta s1) as [[tb|e|] s2] eqn:Hrun2; [|done..].
  destruct (run_stage (Batched (NewBatchRecvPacketProcessor conn) _ _ _) tb s2) as [r s3] eqn:Hrun3.
  apply (timeout_excludes_recv (E:=E) (fun w => w) conn opts (take 4 (NewPipeline conn opts))
           [Single (NewRetryTimeoutPacketProcessor "src")] (drop 7 (NewPipeline conn opts))
           50 Minute 10 50 (10 * Second) 50 t1 (sys0 (2000 * Second)) ta s1 tb s2 r s3);
    [apply env_monotone | reflexivity | exact Hrun | exact Hm | exact Hrun2 | exact Hrun3].
Defined.
