(* ===== verification/Cooperation.v ===== *)
(** * A packet that is relayed

    What the surroundings have to do for a packet to get through: the database
    answers, the chains of the packet answer what is asked of them and agree with each
    other, transactions are executed and final, and the packet does not time out
    while it is being processed.  In such surroundings one run through the pipeline
    takes a transfer from whatever its row says to its final state. *)

From S2P Require Import Prelude Db Transfer Config World Logic Processors ProcessorSpecs BatchProcessors.
From S2P Require Import BatchSpecs Middleware Pipeline Dispatcher System Trace TestWorld StageTheorems.

(** A hash the batch processors can decode. *)
Definition hex_ok (h : string) : Prop := is_Some (hex_DecodeString (TrimPrefix0x h)).

(** ** Cooperation *)

Section Cooperation.
Context {W : Type} {E : Env W}.

(** [G]: the worlds the surroundings stay in.  A call answers in them. *)
Definition answers (G : W -> Prop) {A} (x : X W A) (P : A -> Prop) : Prop :=
  forall w, G w -> exists a w', x w = (inr a, w') /\ P a /\ G w'.

(** Searching for what ended a packet's commitment finds its ack or its timeout. *)
Definition one_found {A} (ack timeout : error + A) : Prop :=
  match ack, timeout with inr _, inl _ | inl _, inr _ => True | _, _ => False end.

(** The surroundings of the packet of [t]: [late], whether its timeout has passed,
    [received], whether its destination has it, [fresh], the hashes the chains give to
    new transactions. *)
Record Cooperative (t : IBCV2Transfer) (late received : bool) (fresh : string -> Prop) (G : W -> Prop)
    (src dst : BridgeClient W) : Prop := {
  co_src : clients !! SourceChainID t = Some src;
  co_dst : clients !! DestinationChainID t = Some dst;
  co_clock : forall w, G w -> G (snd (clock w)) /\ IsTimedOut (fst (clock w)) t = late;
  co_exec : answers G db_exec (fun _ => True);
  co_begin : answers G tx_begin (fun _ => True);
  co_commit : forall w, G w -> exists w', tx_commit w = (Committed, w') /\ G w';
  co_received : answers G (IsPacketReceived dst (PacketDestinationClientID t) (PacketSequenceNumber t))
    (fun b => b = received);
  co_find_recv : received = true ->
    answers G (FindRecvTx dst (PacketSourceClientID t) (PacketDestinationClientID t) (PacketSequenceNumber t)
      (PacketTimeoutTimestamp t)) (fun tx => hex_ok (Hash tx));
  co_committed : answers G (IsPacketCommitted src (PacketSourceClientID t) (PacketSequenceNumber t)) (fun _ => True);
  co_search : forall w, G w ->
    let '(ack, w1) := FindAckTx src (PacketSourceClientID t) (PacketDestinationClientID t) (PacketSequenceNumber t) w in
    let '(timeout, w2) :=
      FindTimeoutTx src (PacketSourceClientID t) (PacketDestinationClientID t) (PacketSequenceNumber t) w1 in
    G w2 /\ one_found ack timeout /\ (late = true -> received = false -> exists e, ack = inl e);
  co_final : forall h off, answers G (IsTxFinalized src h off) (fun b => b = true) /\
    answers G (IsTxFinalized dst h off) (fun b => b = true);
  co_timestamp : forall off, answers G (IsTimestampFinalized dst (PacketTimeoutTimestamp t) off) (fun b => b = true);
  co_retry : forall h e at_, answers G (ShouldRetryTx src h e at_) (fun b => b = false) /\
    answers G (ShouldRetryTx dst h e at_) (fun b => b = false);
  co_write_ack : forall h, answers G (PacketWriteAckStatus dst h (PacketSequenceNumber t) (PacketSourceClientID t)
    (PacketDestinationClientID t)) (fun _ => True);
  co_relay : forall req, answers G (RelayByTx req) (fun _ => True);
  co_wait : answers G (WaitForChain src) (fun _ => True) /\ answers G (WaitForChain dst) (fun _ => True);
  co_deliver : forall tx to, answers G (DeliverTx src tx to) (fun tx => hex_ok (Hash tx) /\ fresh (Hash tx)) /\
    answers G (DeliverTx dst tx to) (fun tx => hex_ok (Hash tx) /\ fresh (Hash tx));
  co_fee : forall h, answers G (TxFee src h) (fun _ => True) /\ answers G (TxFee dst h) (fun _ => True);
  co_price : forall p id dec fee, priceClient = Some p -> answers G (GetCoinUsdValue p id dec fee) (fun _ => True);
}.

(** What the row of the packet has to say for itself: hashes that can be decoded, a
    write ack with its status, and no ack without a recv once the timeout has passed. *)
Definition row_sane (late : bool) (t : IBCV2Transfer) : Prop :=
  hex_ok (SourceTxHash t) /\ (forall h, RecvTxHash t = Some h -> hex_ok h) /\
  (forall h, WriteAckTxHash t = Some h -> hex_ok h /\ is_Some (WriteAckStatus t)) /\
  (late = true -> is_Some (AckTxHash t) -> is_Some (RecvTxHash t)).

(** ** Running in such surroundings *)

Context (t0 : IBCV2Transfer) (late received : bool) (fresh : string -> Prop) (G : W -> Prop).
Context (src dst : BridgeClient W) (Hco : Cooperative t0 late received fresh G src dst).

Lemma coop_call {A} (x : X W A) P Q (s : Sys W) : answers G x P -> G (world s) ->
  (forall a w, P a -> G w -> Q (Ok a) (mkSys w (tables s) (trace s))) -> wp (call x) Q s.
Proof.
  intros Hx Hg HQ. apply wp_call. intros r w Hr. destruct (Hx _ Hg) as (a & w' & Ha & HP & Hg').
  rewrite Ha in Hr. injection Hr as <- <-. by apply HQ.
Qed.

Lemma coop_now Q s : G (world s) ->
  (forall now w, IsTimedOut now t0 = late -> G w -> Q (Ok now) (mkSys w (tables s) (trace s))) -> wp Now Q s.
Proof.
  intros Hg HQ. apply wp_Now. intros now w Hc. destruct (co_clock _ _ _ _ _ _ _ Hco _ Hg) as [H1 H2].
  rewrite Hc in H1, H2. by apply HQ.
Qed.

Lemma coop_sql {A} (q : db.Stmt A) Q s : G (world s) ->
  (forall now w, G w -> match q now (tables s) with
                        | (inr a, d) => Q (Ok a) (mkSys w d (trace s))
                        | (inl e, d) => Q (Fail e) (mkSys w d (trace s))
                        end) -> wp (sql q) Q s.
Proof.
  intros Hg HQ. destruct (co_exec _ _ _ _ _ _ _ Hco _ Hg) as (now & w & Hx & _ & Hg').
  apply wp_sql; [intros e w' He; congruence|]. intros now' w' r d He Hq. rewrite Hx in He.
  injection He as <- <-. specialize (HQ now w Hg'). by rewrite Hq in HQ.
Qed.

Lemma coop_update k f Q s : G (world s) ->
  (forall now w, G w -> Q (Ok tt) (mkSys w (db.update_where k (f now) (tables s)) (trace s))) ->
  wp (sql (fun now d => (inr tt, db.update_where k (f now) d))) Q s.
Proof. intros Hg HQ. by apply coop_sql. Qed.

(** The transfer on its way: [done] are the kinds of transactions submitted for it. *)
Record ready (done : list db.Ibcv2RelayerTxSubmissionType) (t : IBCV2Transfer) (s : Sys W) : Prop := {
  rd_good : G (world s);
  rd_error : ProcessingError t = None;
  rd_state : State t <> db.Ibcv2RelayStatusFAILED;
  rd_id : identity t = identity t0;
  rd_row : is_Some (db.ibcv2_transfers (tables s) !! ID t0);
  rd_seq : db.ibcv2_relayer_tx_submissions_id_seq (tables s) + (3 - Z.of_nat (length done)) <= max_int32;
  rd_subs : forall i b, db.ibcv2_relayer_tx_submissions (tables s) !! i = Some b ->
    db.sub_TxType b ∈ done \/ ~ fresh (db.sub_TxHash b);
}.

(** What the stages decide by. *)
Definition hashes (t : IBCV2Transfer) :=
  (RecvTxHash t, AckTxHash t, TimeoutTxHash t, WriteAckTxHash t, WriteAckStatus t).

Definition fields (t : IBCV2Transfer) := (hashes t, (RecvTxTime t, AckTxTime t, TimeoutTxTime t)).

Definition passes (done : list db.Ibcv2RelayerTxSubmissionType) (P : IBCV2Transfer -> Prop)
    (r : res IBCV2Transfer) (s' : Sys W) : Prop :=
  exists t', r = Ok t' /\ ready done t' s' /\ P t'.

Lemma row_update k f (d : db.DB) i :
  is_Some (db.ibcv2_transfers d !! i) -> is_Some (db.ibcv2_transfers (db.update_where k f d) !! i).
Proof. rewrite db.lookup_update_where. intros [r ->]. cbn. eauto. Qed.

Lemma ready_update done t t' w tr tr' d k f : ready done t (mkSys w d tr) -> forall w', G w' ->
  identity t' = identity t -> ProcessingError t' = None -> State t' <> db.Ibcv2RelayStatusFAILED ->
  ready done t' (mkSys w' (db.update_where k f d) tr').
Proof. intros [H1 H2 H3 H4 H5 H6 H7] w' Hw Hi He Hs. split; cbn in *; try done; [congruence | by apply row_update]. Qed.

Lemma ready_same done t t' w tr tr' d : ready done t (mkSys w d tr) -> forall w', G w' ->
  identity t' = identity t -> ProcessingError t' = None -> State t' <> db.Ibcv2RelayStatusFAILED ->
  ready done t' (mkSys w' d tr').
Proof. intros [H1 H2 H3 H4 H5 H6 H7] w' Hw Hi He Hs. split; cbn in *; try done. congruence. Qed.

Lemma ready_Error done t s : ready done t s -> Error t = "".
Proof. intros H. unfold Error. by rewrite (rd_error _ _ _ H). Qed.

(** A stage of the pipeline that processes one transfer at a time. *)
Lemma MW_ready p done t s P : ProcState p <> db.Ibcv2RelayStatusFAILED -> ready done t s ->
  wp (ShouldProcess p t) (fun r s1 => exists b, r = Ok b /\ ready done t s1 /\
    if b : bool then forall t1 s2, fields t1 = fields t -> ready done t1 s2 -> wp (Process p t1) (passes done P) s2
    else P t) s ->
  wp (run_stage (Single p) t) (passes done P) s.
Proof.
  intros Hst Hr Hs. cbn. rewrite bool_decide_true by by eapply ready_Error. cbn.
  rewrite bool_decide_false by exact (rd_state _ _ _ Hr). apply wp_bind.
  eapply wp_mono; [|exact Hs]. intros r s1 (b & -> & Hr1 & Hb). destruct b; cbn; [|apply wp_ret; by exists t].
  apply wp_bind, wp_try, coop_sql; [by apply Hr1|]. intros now w Hw. destruct s1 as [w1 d1 tr1]. cbn.
  unfold RecordTransferState. apply wp_bind, wp_emit. cbn. apply wp_bind, wp_try.
  eapply wp_mono; [|apply Hb; [done|]; eapply ready_update; [exact Hr1 | exact Hw | done | exact (rd_error _ _ _ Hr1) | exact Hst]].
  intros r s2 (t' & -> & H). apply wp_ret. by exists t'.
Qed.

(** One step of a program whose calls are answered. *)
Lemma coop_client id c Q s : clients !! id = Some c -> Q (Ok c) s -> wp (GetClient id) Q s.
Proof. intros Hc HQ. apply wp_GetClient; [intros c' Hc'; congruence | congruence]. Qed.

(** [t] is the packet of [t0]: what is asked about it is what [Hco] answers. *)
Ltac enter :=
  lazymatch goal with
  | Hr : ready _ ?t ?s |- _ =>
      let H := fresh "Hid" in pose proof (rd_id _ _ _ Hr) as H; unfold identity in H;
      injection H as ?HID ?HSourceChainID ?HDestinationChainID ?HSourceTxHash ?HSourceTxTime ?HSequence ?HSourceClient
        ?HDestClient ?HTimeout;
      let Hg := fresh "Hg" in pose proof (rd_good _ _ _ Hr) as Hg; destruct s as [?w ?d ?tr]; cbn [world] in Hg
  end.

Ltac getters :=
  unfold GetSourceChainID, GetDestinationChainID, GetPacketSourceClientID, GetPacketDestinationClientID,
    GetPacketSequenceNumber, GetPacketTimeoutTimestamp, GetSourceTxHash, GetRecvTxHash, GetAckTxHash, GetTimeoutTxHash,
    GetWriteAckTxHash, GetRecvTxTime, GetAckTxTime, GetTimeoutTxTime, GetWriteAckStatus,
    GetRecvGasCostUSD, GetAckGasCostUSD, GetTimeoutGasCostUSD in *.

Ltac same_packet :=
  getters; repeat match goal with
  | H : ?f ?t = ?f t0 |- context [?f ?t] => rewrite H
  end.

Local Notation co f := (f _ _ _ _ _ _ _ Hco) (only parsing).

Ltac by_negb := repeat match goal with
  | H : negb _ = true |- _ => apply negb_true_iff in H
  | H : negb _ = false |- _ => apply negb_false_iff in H
  end; congruence.

Ltac coop_answer :=
  first [ exact (co co_src) | exact (co co_dst) | exact (co co_received) | apply (co co_find_recv); by_negb
        | exact (co co_committed) | apply (co co_final) | apply (co co_timestamp) | apply (co co_retry)
        | apply (co co_write_ack) | apply (co co_relay) | apply (co co_wait) | apply (co co_deliver) | apply (co co_fee)
        | eapply (co co_price); eassumption ].

(** What is known of a field decides a test. *)
Ltac known :=
  getters; repeat match goal with
  | H : ?f ?t = Some _ |- context [?f ?t] => rewrite H
  | H : ?f ?t = None |- context [?f ?t] => rewrite H
  end; cbn beta iota zeta delta [deref negb andb orb].

Ltac coop_step :=
  lazymatch goal with
  | |- wp (call _) _ _ => eapply coop_call; [same_packet; coop_answer | assumption | let Ha := fresh "Ha" in intros ?a ?w Ha ?Hg; cbv beta in Ha;
      try lazymatch type of Ha with ?x = true => subst x | ?x = false => subst x end]
  | |- wp (GetClient _) _ _ => eapply coop_client; [same_packet; coop_answer|]
  | |- wp Now _ _ => apply coop_now; [assumption | intros ?now ?w ?Hlate ?Hg]
  | |- wp (sql ?q) _ _ =>
      first [let h := get_head q in unfold h; apply coop_update | apply coop_sql]; [assumption | intros ?now ?w ?Hg]
  | |- wp (match _ with _ => _ end) _ _ => first [progress known | wp_step]
  | _ => wp_step
  end; cbn beta iota zeta delta [negb]; cbn [world tables trace].

Ltac leave :=
  lazymatch goal with
  | Hr : ready _ _ _ |- passes _ _ (Ok ?t') _ => exists t'; split; [done|]; split;
      [first [eapply ready_update; [exact Hr | assumption | reflexivity | exact (rd_error _ _ _ Hr) | exact (rd_state _ _ _ Hr)]
             | eapply ready_same; [exact Hr | assumption | reflexivity | exact (rd_error _ _ _ Hr) | exact (rd_state _ _ _ Hr)]]
      | cbn]
  end.

(** The tests of the stages only read the transfer and the clock. *)
Ltac decided := eexists; split; [reflexivity|]; split;
  [eapply ready_same; [eassumption | assumption | reflexivity | by eapply rd_error | by eapply rd_state]|].
Ltac decide_by := repeat coop_step; decided.

(** On to the body of the stage, with a transfer that differs in its state only. *)
Ltac process :=
  lazymatch goal with
  | Hr : ready _ _ _ |- _ =>
      clear Hr; let t1 := fresh "t" in let s1 := fresh "s" in intros t1 s1 Hf Hr;
      unfold fields, hashes in Hf; injection Hf as ?HR ?HA ?HT ?HW ?HS ?HRT ?HAT ?HTT;
      repeat match goal with H : ?f t1 = ?f ?t, H' : ?f ?t = _ |- _ => rewrite H' in H end; enter
  end.

(** Stages that leave the hashes alone. *)
Definition quiet (p : IBCV2Processor W) : Prop := forall done t s, ready done t s ->
  wp (run_stage (Single p) t) (passes done (fun t' => hashes t' = hashes t)) s.

Ltac same_hashes := unfold hashes in *; cbn; congruence.

Ltac begin :=
  intros dn t s Hr; apply MW_ready; [discriminate | exact Hr|];
  cbn -[passes wp]; enter.

Ltac quiet_go := process; repeat coop_step; leave; same_hashes.

Lemma quiet_send_finality off : quiet (NewCheckSendFinalityProcessor off).
Proof. begin. decide_by. destruct (negb _); [quiet_go | done]. Qed.

Lemma quiet_timeout_finality off : quiet (NewCheckTimeoutFinalityProcessor off).
Proof. begin. decide_by. destruct (_ && _); [quiet_go | done]. Qed.

Lemma quiet_retry_timeout : quiet (NewRetryTimeoutPacketProcessor (SourceChainID t0)).
Proof.
  begin. destruct (TimeoutTxHash t) eqn:HT, (TimeoutTxTime t) eqn:HTT; decide_by; cbn; try done. quiet_go.
Qed.

Lemma quiet_retry_recv : quiet (NewRetryRecvPacketProcessor (DestinationChainID t0)).
Proof.
  begin. destruct (RecvTxHash t) eqn:HR, (RecvTxTime t) eqn:HRT, (WriteAckTxHash t) eqn:HW; decide_by; cbn; try done. quiet_go.
Qed.

Lemma quiet_retry_ack : quiet (NewRetryAckPacketProcessor (SourceChainID t0)).
Proof.
  begin. destruct (AckTxHash t) eqn:HA, (AckTxTime t) eqn:HAT; decide_by; cbn; try done. quiet_go.
Qed.

Lemma quiet_gas_timeout pr id dec : priceClient = Some pr -> quiet (NewTimeoutTxGasCalculatorProcessor pr id dec).
Proof.
  intros Hpr. begin. destruct (TimeoutTxHash t) eqn:HT; decide_by; cbn; try done; quiet_go.
Qed.

Lemma quiet_gas_recv pr id dec : priceClient = Some pr -> quiet (NewRecvTxGasCalculatorProcessor pr id dec).
Proof.
  intros Hpr. begin. destruct (RecvTxHash t) eqn:HR; decide_by; cbn; try done; quiet_go.
Qed.

Lemma quiet_gas_ack pr id dec : priceClient = Some pr -> quiet (NewAckTxGasCalculatorProcessor pr id dec).
Proof.
  intros Hpr. begin. destruct (AckTxHash t) eqn:HA; decide_by; cbn; try done; quiet_go.
Qed.

Lemma quiet_write_ack_finality rs re off : quiet (NewCheckWriteAckFinalityProcessor rs re off).
Proof.
  begin. destruct (WriteAckTxHash t) eqn:HW, (WriteAckStatus t) eqn:HS; decide_by; cbn; try done.
  destruct (_ || _); [quiet_go | done].
Qed.

(** ** The stages that find or send something *)

Definition hashed (t : IBCV2Transfer) : Prop :=
  (forall h, RecvTxHash t = Some h -> hex_ok h) /\
  (forall h, WriteAckTxHash t = Some h -> hex_ok h /\ is_Some (WriteAckStatus t)).

Definition sane (t : IBCV2Transfer) : Prop :=
  hashed t /\ (late = true -> is_Some (AckTxHash t) -> is_Some (RecvTxHash t)).

(** The packet was looked for on the destination. *)
Definition seen (t : IBCV2Transfer) : Prop :=
  sane t /\ (RecvTxHash t = None -> AckTxHash t = None -> TimeoutTxHash t = None -> received = false).

(** It is timed out when it has to be. *)
Definition timed (t : IBCV2Transfer) : Prop :=
  hashed t /\ (RecvTxHash t = None -> TimeoutTxHash t = None -> late = false).

(** It is received, or timed out. *)
Definition delivered (t : IBCV2Transfer) : Prop :=
  hashed t /\ (RecvTxHash t = None -> is_Some (TimeoutTxHash t)).

(** Its write ack is known, or it is timed out. *)
Definition written (t : IBCV2Transfer) : Prop :=
  hashed t /\ (is_Some (TimeoutTxHash t) \/ is_Some (RecvTxHash t) /\ is_Some (WriteAckTxHash t)).

Definition over (rs re : bool) (t : IBCV2Transfer) : Prop :=
  hashed t /\ (is_Some (TimeoutTxHash t) \/ is_Some (RecvTxHash t) /\ is_Some (WriteAckTxHash t) /\
    (is_Some (AckTxHash t) \/ exists st, WriteAckStatus t = Some st /\ ack_required rs re st = false)).

Ltac enter_stage := apply MW_ready; [discriminate | eassumption|]; cbn -[passes wp]; enter.

(** The facts above are about the hashes. *)
Ltac by_hashes :=
  unfold over, written, delivered, timed, seen, sane, hashed in *; cbn in *;
  repeat match goal with
  | H : ?f ?t1 = ?x, H' : context [?f ?t1] |- _ => progress rewrite H in H'
  | H : _ /\ _ |- _ => destruct H
  end;
  repeat match goal with H : ?f ?t1 = _ |- context [?f ?t1] => rewrite H end;
  split_and!; intros; simplify_eq; eauto 6; try done; try congruence; try by_negb;
  try (apply not_true_is_false; intros ?; naive_solver).

Lemma find_recv dn t s : ready dn t s -> sane t ->
  wp (run_stage (Single NewCheckRecvPacketDeliveryProcessor) t) (passes dn seen) s.
Proof.
  intros Hr Hs. enter_stage.
  destruct (RecvTxHash t) eqn:HR, (AckTxHash t) eqn:HA, (TimeoutTxHash t) eqn:HT; decide_by; cbn;
    try (split; [exact Hs | congruence]).
  process. repeat coop_step; leave; by_hashes.
Qed.

(** What the commitment check may find. *)
Lemma find_end dn t s (P : IBCV2Transfer -> Prop) : ready dn t s ->
  (forall t1, hashes t1 = hashes t -> P t1) ->
  (forall t1 h, AckTxHash t = None -> TimeoutTxHash t = None -> ~ (late = true /\ received = false) ->
     hashes t1 = (RecvTxHash t, Some h, None, WriteAckTxHash t, WriteAckStatus t) -> P t1) ->
  (forall t1 h, AckTxHash t = None -> TimeoutTxHash t = None ->
     hashes t1 = (RecvTxHash t, None, Some h, WriteAckTxHash t, WriteAckStatus t) -> P t1) ->
  wp (run_stage (Single NewCheckPacketCommitmentProcessor) t) (passes dn P) s.
Proof.
  intros Hr H0 H1 H2. enter_stage.
  destruct (AckTxHash t) eqn:HA, (TimeoutTxHash t) eqn:HT; decide_by; cbn; try by apply H0. process.
  do 7 coop_step. getters. destruct a; [coop_step; leave; apply H0; same_hashes|].
  same_packet. pose proof (co co_search _ Hg1) as Hs.
  apply wp_bind, wp_try, wp_call. intros ack w2 Hack. cbn [world] in Hack. rewrite Hack in Hs.
  destruct (FindTimeoutTx src _ _ _ w2) as [timeout w3] eqn:Htimeout. destruct Hs as (Hg3 & Hone & Hl).
  destruct ack as [e|ack], timeout as [e'|timeout]; try done;
    (apply wp_bind, wp_try, wp_call; intros x w4 Hx; cbn [world] in Hx; rewrite Htimeout in Hx; injection Hx as <- <-);
    repeat coop_step; leave; [apply (H2 _ (Hash timeout)) | apply (H1 _ (Hash ack))]; try done; try same_hashes.
  intros [Hla Hre]. by destruct (Hl Hla Hre).
Qed.

Lemma find_end_seen dn t s : ready dn t s -> seen t ->
  wp (run_stage (Single NewCheckPacketCommitmentProcessor) t) (passes dn seen) s.
Proof.
  intros Hr Hs. apply find_end; [done|..]; unfold hashes.
  - intros t1 [= HR HA HT HW HS]. by_hashes.
  - intros t1 h HA HT Hno [= HR HA1 HT1 HW HS]. destruct Hs as [[Hh _] Hre].
    assert (is_Some (RecvTxHash t) \/ late = false) as Hl.
    { destruct (RecvTxHash t) eqn:HR0; [by left|]. right. destruct late eqn:El; [|done]. destruct Hno; auto. }
    split; [split; [by_hashes|] | congruence]. intros Hla _. rewrite HR. destruct Hl; [done | congruence].
  - intros t1 h HA HT [= HR HA1 HT1 HW HS]. by_hashes.
Qed.

Lemma find_end_written dn t s : ready dn t s -> written t ->
  wp (run_stage (Single NewCheckPacketCommitmentProcessor) t) (passes dn written) s.
Proof.
  intros Hr Hs. apply find_end; [done|..]; unfold hashes.
  - intros t1 [= HR HA HT HW HS]. by_hashes.
  - intros t1 h HA HT Hno [= HR HA1 HT1 HW HS]. by_hashes.
  - intros t1 h HA HT [= HR HA1 HT1 HW HS]. by_hashes.
Qed.

Lemma wait_ack dn t s : ready dn t s -> delivered t ->
  wp (run_stage (Single NewWaitForWriteAckPacketProcessor) t) (passes dn written) s.
Proof.
  intros Hr Hs. enter_stage.
  destruct (RecvTxHash t) eqn:HR, (WriteAckTxHash t) eqn:HW, (TimeoutTxHash t) eqn:HT; decide_by; cbn;
    try (by_hashes; fail).
  process. repeat coop_step; leave; by_hashes.
Qed.

(** ** Batches of one *)

Lemma ready_more dn ty t s : ready dn t s -> ready (ty :: dn) t s.
Proof.
  intros [H1 H2 H3 H4 H5 H6 H7]. split; try done; [cbn [length] in *; lia|].
  intros i b Hb. destruct (H7 i b Hb); [left; by right | by right].
Qed.

Lemma BatchMW_ready p a b c dn ty t s (should : bool) P :
  BProcState p <> db.Ibcv2RelayStatusFAILED -> ready dn t s ->
  (forall s1, ready dn t s1 -> wp (BShouldProcess p t) (fun r s2 => r = Ok should /\ ready dn t s2) s1) ->
  (if should then forall t1 s2, fields t1 = fields t -> ready dn t1 s2 ->
     wp (BProcess p [t1]) (fun r s' => exists t', r = Ok ([t'], None) /\ ready (ty :: dn) t' s' /\ P t') s2
   else P t) ->
  wp (run_stage (Batched p a b c) t) (passes (ty :: dn) P) s.
Proof.
  intros Hst Hr Hs Hb. cbn. unfold toBatch. rewrite bool_decide_true by by eapply ready_Error. cbn.
  apply wp_bind. eapply wp_mono; [|by apply Hs]. intros r s1 [-> Hr1].
  destruct should; [|apply wp_ret; exists t; split_and!; [done | by apply ready_more | done]].
  apply wp_bind. unfold BatchMW_Process. apply wp_bind. cbn.
  rewrite bool_decide_true by by eapply ready_Error. cbn.
  rewrite bool_decide_false by exact (rd_state _ _ _ Hr). apply wp_bind.
  eapply wp_mono; [|by apply Hs]. intros r s2 [-> Hr2]. cbn.
  apply wp_bind, wp_try, coop_sql; [by apply Hr2|]. intros now w Hw. destruct s2 as [w2 d2 tr2]. cbn.
  unfold RecordTransferState. apply wp_bind, wp_emit. cbn. apply wp_bind, wp_ret. apply wp_ret. apply wp_bind.
  eapply wp_mono; [|apply Hb; [done|]; eapply ready_update;
    [exact Hr2 | exact Hw | done | exact (rd_error _ _ _ Hr) | exact Hst]].
  intros r s3 (t' & -> & Hr3 & HP). cbn. apply wp_ret, wp_ret. by exists t'.
Qed.

Context (Hid : ID t0 <> 0).

Lemma insert_fresh hash chain ty addr at_ st now d :
  db.ibcv2_relayer_tx_submissions_id_seq d + 1 <= max_int32 ->
  (forall i b, db.ibcv2_relayer_tx_submissions d !! i = Some b -> db.sub_TxHash b = hash -> db.sub_TxType b <> ty) ->
  exists b, db.sub_TxType b = ty /\
    let id := db.ibcv2_relayer_tx_submissions_id_seq d + 1 in
    db.InsertIBCV2RelayerTxSubmission hash chain ty addr (Some at_) st now d =
      (inr id, d <| db.ibcv2_relayer_tx_submissions_id_seq := id |>
                 <| db.ibcv2_relayer_tx_submissions := <[id := b]> (db.ibcv2_relayer_tx_submissions d) |>).
Proof.
  intros Hs Hn. unfold db.InsertIBCV2RelayerTxSubmission, db.nextval. rewrite bool_decide_true by done. cbn.
  rewrite bool_decide_false; [by eexists; split; [|reflexivity]|].
  intros (i & b & Hb & _ & Hh & Ht). by eapply Hn.
Qed.

(** The database transaction that records a submission. *)
Lemma store_ready m0 m1 m2 m3 f hash chain ty addr at_ dn t s :
  ready dn t s -> fresh hash -> ty ∉ dn -> (length dn < 3)%nat ->
  wp (wrap m0 (ExecTx (
        for_each (fun transfer => if errored transfer then ret tt
          else wrap m1 (sql (fun now d => (inr tt, db.update_where (packet_key transfer) (f now) d)))) [t] ;;
        let submittedTransferCount := length (filter (fun t => errored t = false) [t]) in
        if bool_decide (submittedTransferCount = 0%nat) then ret tt else
        let* submissionID := wrap m2 (sql (db.InsertIBCV2RelayerTxSubmission hash chain ty addr (Some at_)
                                             db.Ibcv2RelayerTxSubmissionStatusPENDING)) in
        wrap m3 (insertTransferTxSubmissionMappings submissionID [t]))))
    (fun r s' => r = Ok tt /\ ready (ty :: dn) t s') s.
Proof.
  intros Hr Hf Hn Hl. assert (He : errored t = false) by (unfold errored; by rewrite (rd_error _ _ _ Hr)).
  destruct (co co_begin _ (rd_good _ _ _ Hr)) as (u & w & Hb & _ & Hg). apply wp_wrap, wp_ExecTx; [congruence|].
  intros u' w' Hb'. rewrite Hb in Hb'. injection Hb' as <- <-. cbn [for_each]. rewrite He, filter_cons_True by done.
  apply wp_bind, wp_bind, wp_wrap, coop_update; [exact Hg|]. intros now w1 Hg1. apply wp_ret. cbn [length].
  rewrite bool_decide_false by done. apply wp_bind, wp_wrap, coop_sql; [exact Hg1|]. intros now2 w2 Hg2.
  cbn [world tables trace]. set (d1 := db.update_where _ _ _).
  assert (H1 : ready dn t (mkSys w1 d1 (trace s))).
  { destruct s as [w0 d0 tr0]. eapply ready_update; [exact Hr | exact Hg1 | done | by eapply rd_error | by eapply rd_state]. }
  destruct H1 as [_ E1 E2 E3 Hrow Hseq Hsubs]. cbn [tables] in *. clearbody d1.
  destruct (insert_fresh hash chain ty addr at_ db.Ibcv2RelayerTxSubmissionStatusPENDING now2 d1) as (b & Hty & Hins);
    [lia | intros i b0 Hb0 <-; destruct (Hsubs i b0 Hb0); [by intros <- | done] |].
  rewrite Hins. cbn [fst snd]. unfold insertTransferTxSubmissionMappings. cbn [for_each]. rewrite He.
  assert (Hi : ID t = ID t0) by (unfold identity in E3; congruence).
  rewrite bool_decide_false by (unfold GetID; congruence).
  set (d2 := d1 <| db.ibcv2_relayer_tx_submissions_id_seq := _ |> <| db.ibcv2_relayer_tx_submissions := _ |>).
  assert (H2 : forall w3 tr3 m, G w3 -> ready (ty :: dn) t (mkSys w3 (d2 <| db.ibcv2_transfer_tx_submissions := m |>) tr3)).
  { intros w3 tr3 m Hg3. split; try done; cbn; [lia|].
    intros i b' [[_ <-]|[_ Hb1]]%lookup_insert_Some; [left; rewrite Hty; by left|].
    destruct (Hsubs i b' Hb1); [left; by right | by right]. }
  apply wp_wrap, wp_bind, wp_wrap, coop_sql; [exact Hg2|]. intros now3 w3 Hg3. cbn [world tables trace].
  assert (H3 : exists m, db.InsertIBCV2TransferTxSubmission (GetID t) (db.ibcv2_relayer_tx_submissions_id_seq d1 + 1) now3 d2 =
    (inr tt, d2 <| db.ibcv2_transfer_tx_submissions := m |>)).
  { unfold db.InsertIBCV2TransferTxSubmission, GetID. rewrite Hi. case_bool_decide; [by eexists|].
    destruct Hrow as [r Hrow]. cbn. rewrite Hrow, lookup_insert_eq. by eexists. }
  destruct H3 as (m & ->). apply wp_ret. intros c w4 Hc. destruct (co co_commit _ Hg3) as (w5 & Hc' & Hg5).
  cbn [world] in Hc. rewrite Hc' in Hc. injection Hc as <- <-. by split; [|apply H2].
Qed.

Definition conn0 : Connection := newPipelineKey t0.

Lemma collect_one getHash msg t h id : getHash t = inr h -> hex_DecodeString (TrimPrefix0x h) = Some id ->
  collectTxIDs getHash msg ∅ [t] = ([id], [GetPacketSequenceNumber t], [t]).
Proof. intros Hh Hd. cbn. rewrite Hh, Hd. by rewrite bool_decide_false by set_solver. Qed.

Lemma coop_wait_evm client Q s : answers G (WaitForChain client) (fun _ => True) -> G (world s) ->
  (forall w, G w -> Q (Ok tt) (mkSys w (tables s) (trace s))) -> wp (waitIfEVM client) Q s.
Proof.
  intros Hw Hg HQ. unfold waitIfEVM. case_bool_decide; [|destruct s; by apply wp_ret, HQ].
  apply wp_wrap. eapply coop_call; [exact Hw | done|]. intros [] w _. apply HQ.
Qed.

Lemma coop_submit chain client tx to msg P Q s : answers G (DeliverTx client tx to) P -> G (world s) ->
  (forall tx w tr, P tx -> G w -> Q (Ok tx) (mkSys w (tables s) tr)) -> wp (submit chain client tx to msg) Q s.
Proof.
  intros Hd Hg HQ. unfold submit, deliver. apply wp_bind, wp_try, wp_bind, wp_emit.
  eapply coop_call; [exact Hd | exact Hg|]. intros bt w HP Hw. cbn. unfold RecordTransactionSubmitted.
  apply wp_bind. case_match; apply wp_emit, wp_ret; by apply HQ.
Qed.

(** From the request for the proof to the recorded transaction. *)
Lemma one_sent req chain client m1 m2 m3 (st : BridgeTx -> M W unit) asg ty dn t s P :
  ready dn t s -> clients !! chain = Some client -> client = src \/ client = dst ->
  (forall tx s1, ready dn t s1 -> fresh (Hash tx) -> wp (st tx) (fun r s' => r = Ok tt /\ ready (ty :: dn) t s') s1) ->
  (forall tx, hex_ok (Hash tx) -> P (asg tx t)) ->
  (forall tx, identity (asg tx t) = identity t /\ ProcessingError (asg tx t) = ProcessingError t /\
     State (asg tx t) = State t) ->
  wp (let* result := try (
        let* resp := wrap m1 (relay_by_tx req) in
        let* cl := wrap m2 (GetClient chain) in
        waitIfEVM cl ;;
        let* tx := submit chain cl (Tx resp) (Address resp) m3 in
        st tx ;;
        ret tx) in
      match result with
      | inl err => ret ([t], Some err)
      | inr tx => ret ((fun transfer => if errored transfer then transfer else asg tx transfer) <$> [t], None)
      end) (fun r s' => exists t', r = Ok ([t'], None) /\ ready (ty :: dn) t' s' /\ P t') s.
Proof.
  intros Hr Hc Hsd Hst HP Hasg. enter.
  assert (Hwait : answers G (WaitForChain client) (fun _ => True)) by (destruct Hsd as [-> | ->]; apply (co co_wait)).
  assert (Hdel : forall tx to, answers G (DeliverTx client tx to) (fun tx => hex_ok (Hash tx) /\ fresh (Hash tx)))
    by (intros; destruct Hsd as [-> | ->]; apply (co co_deliver)).
  apply wp_bind, wp_try, wp_bind, wp_wrap. unfold relay_by_tx. coop_step. coop_step. coop_step.
  apply wp_bind, wp_wrap. eapply coop_client; [exact Hc|].
  apply wp_bind, coop_wait_evm; [exact Hwait | done|]. intros w1 Hg1. cbn [world tables trace].
  apply wp_bind. eapply coop_submit; [apply Hdel | exact Hg1|]. intros tx w2 tr2 [Hx Hf] Hg2. cbn [world tables trace].
  apply wp_bind. eapply wp_mono; [|apply Hst; [|exact Hf]].
  - intros r s' [-> Hr']. apply wp_ret, wp_ret. destruct (Hasg tx) as (Hi & He & Hsn). destruct s' as [w3 d3 tr3].
    cbn. unfold errored. rewrite (rd_error _ _ _ Hr). exists (asg tx t). split; [done|]. split; [|by apply HP].
    eapply ready_same; [exact Hr' | exact (rd_good _ _ _ Hr') | done | rewrite He; exact (rd_error _ _ _ Hr)
      | rewrite Hsn; exact (rd_state _ _ _ Hr)].
  - eapply ready_same; [exact Hr | exact Hg2 | done | exact (rd_error _ _ _ Hr) | exact (rd_state _ _ _ Hr)].
Qed.

Lemma late_of t now : PacketTimeoutTimestamp t = PacketTimeoutTimestamp t0 -> IsTimedOut now t = IsTimedOut now t0.
Proof. unfold IsTimedOut, GetPacketTimeoutTimestamp. by intros ->. Qed.

(** The test of a batch stage, which comes to the same at every reading of the clock. *)
Ltac answer_should :=
  let Hr := fresh "Hr" in intros ? Hr; cbn; enter; repeat coop_step;
  (split; [try (rewrite late_of by assumption);
           repeat match goal with H : IsTimedOut _ t0 = late |- _ => rewrite H end;
           cbn; rewrite ?andb_false_r, ?andb_true_r; reflexivity
          | eapply ready_same; [exact Hr | assumption | reflexivity | by eapply rd_error | by eapply rd_state]]).

Lemma send_timeout a b dur dn t s : ready dn t s -> hex_ok (SourceTxHash t0) ->
  db.Ibcv2RelayerTxSubmissionTypeTIMEOUTPACKET ∉ dn -> (length dn < 3)%nat -> seen t ->
  wp (run_stage (Batched (NewBatchTimeoutPacketProcessor conn0) a b dur) t)
    (passes (db.Ibcv2RelayerTxSubmissionTypeTIMEOUTPACKET :: dn) timed) s.
Proof.
  intros Hr [id Hhex] Hn Hl Hs.
  destruct (RecvTxHash t) eqn:HR, (AckTxHash t) eqn:HA, (TimeoutTxHash t) eqn:HT.
  1-7: apply (BatchMW_ready _ _ _ _ _ _ _ _ false); [done | done | answer_should |].
  1-7: by_hashes.
  apply (BatchMW_ready _ _ _ _ _ _ _ _ late); [done | done | answer_should |].
  assert (Hcase : late = false -> timed t) by (intros ?; by_hashes).
  destruct late eqn:Elate in |- *; [|by apply Hcase]. clear Hcase.
  process. cbn [BProcess NewBatchTimeoutPacketProcessor]. unfold BatchTimeoutPacket_Process.
  rewrite (collect_one _ _ _ (SourceTxHash t1) id) by (done || by rewrite HSourceTxHash).
  apply (one_sent _ _ src _ _ _ _ assign_timeout); [exact Hr | exact (co co_src) | by left | | | done].
  - intros tx s1 Hr1 Hf. by apply (store_ready _ _ _ _ (fun now r => _)).
  - intros tx Hx. unfold assign_timeout. by_hashes.
Qed.

Lemma send_recv a b dur dn t s : ready dn t s -> hex_ok (SourceTxHash t0) ->
  db.Ibcv2RelayerTxSubmissionTypeRECVPACKET ∉ dn -> (length dn < 3)%nat -> timed t ->
  wp (run_stage (Batched (NewBatchRecvPacketProcessor conn0) a b dur) t)
    (passes (db.Ibcv2RelayerTxSubmissionTypeRECVPACKET :: dn) delivered) s.
Proof.
  intros Hr [id Hhex] Hn Hl Hs. destruct (RecvTxHash t) eqn:HR.
  { apply (BatchMW_ready _ _ _ _ _ _ _ _ false); [done | done | answer_should |]. by_hashes. }
  apply (BatchMW_ready _ _ _ _ _ _ _ _ (negb late)); [done | done | answer_should |].
  assert (Hcase : late = true -> delivered t).
  { intros Hla. destruct Hs as [Hh Hs]. split; [done|]. intros _.
    destruct (TimeoutTxHash t); [done|]. specialize (Hs HR eq_refl). congruence. }
  destruct late eqn:Elate in |- *; cbn [negb]; [by apply Hcase|]. clear Hcase.
  process. cbn [BProcess NewBatchRecvPacketProcessor]. unfold BatchRecvPacket_Process.
  rewrite (collect_one _ _ _ (SourceTxHash t1) id) by (done || by rewrite HSourceTxHash).
  apply (one_sent _ _ dst _ _ _ _ assign_recv); [exact Hr | exact (co co_dst) | by right | | | done].
  - intros tx s1 Hr1 Hf. by apply (store_ready _ _ _ _ (fun now r => _)).
  - intros tx Hx. unfold assign_recv. by_hashes.
Qed.

Lemma ack_refused rs re st :
  (isErrorAck (Some st) && negb re) || (isSuccessAck (Some st) && negb rs) = negb (ack_required rs re st).
Proof. by destruct st, rs, re. Qed.

(** Whether the ack of a transfer is sent. *)
Definition ack_sent (rs re : bool) (t : IBCV2Transfer) : bool :=
  match WriteAckTxHash t, WriteAckStatus t, AckTxHash t, TimeoutTxHash t with
  | Some _, Some st, None, None => ack_required rs re st
  | _, _, _, _ => false
  end.

Lemma BatchAckPacket_should rs re t (s : Sys W) :
  wp (BatchAckPacket_ShouldProcess rs re t) (fun r s' => r = Ok (ack_sent rs re t) /\ s' = s) s.
Proof.
  unfold BatchAckPacket_ShouldProcess, ack_sent. getters.
  destruct (WriteAckTxHash t), (WriteAckStatus t) as [st|], (AckTxHash t), (TimeoutTxHash t); cbn;
    try (by apply wp_ret); rewrite ack_refused; destruct (ack_required rs re st); by apply wp_ret.
Qed.

Lemma send_ack rs re a b dur dn t s : ready dn t s ->
  db.Ibcv2RelayerTxSubmissionTypeACKPACKET ∉ dn -> (length dn < 3)%nat -> written t ->
  wp (run_stage (Batched (NewBatchAckPacketProcessor conn0 rs re) a b dur) t)
    (passes (db.Ibcv2RelayerTxSubmissionTypeACKPACKET :: dn) (over rs re)) s.
Proof.
  intros Hr Hn Hl [Hh Hw].
  apply (BatchMW_ready _ _ _ _ _ _ _ _ (ack_sent rs re t)); [done | done | |].
  { intros s1 Hr1. eapply wp_mono; [|apply BatchAckPacket_should]. by intros r s2 [-> ->]. }
  destruct (ack_sent rs re t) eqn:Hsent; unfold ack_sent in Hsent.
  - destruct (WriteAckTxHash t) as [h|] eqn:HW; [|done]. destruct Hh as [Hh1 Hh2].
    destruct (Hh2 h HW) as [[id Hhex] Hst].
    process. cbn [BProcess NewBatchAckPacketProcessor]. unfold BatchAckPacket_Process.
    rewrite (collect_one _ _ _ h id) by (unfold writeAckTxHashOf; getters; by rewrite ?HW0).
    apply (one_sent _ _ src _ _ _ _ assign_ack); [exact Hr | exact (co co_src) | by left | | | done].
    + intros tx s1 Hr1 Hf. by apply (store_ready _ _ _ _ (fun now r => _)).
    + intros tx Hx. unfold assign_ack. by_hashes. destruct Hw as [Hw|[Hw _]]; [by left | right; by eauto].
  - split; [done|]. destruct Hw as [Hw|(Hw1 & Hw2)]; [by left|].
    destruct (TimeoutTxHash t); [by left | right]. destruct Hw2 as [h HW]. rewrite HW in Hsent.
    destruct (proj2 (proj2 Hh h HW)) as [st Hst]. rewrite Hst in Hsent. rewrite HW, Hst. split_and!; [done..|].
    destruct (AckTxHash t); [by left | right]. by exists st.
Qed.

(** ** From stage to stage *)

(** Stages that take a transfer of which [P] holds to one of which [Q] holds. *)
Definition goes dn (P : IBCV2Transfer -> Prop) (sts : list (stage W)) dn' Q : Prop :=
  forall t s, ready dn t s -> P t -> wp (run_stages sts t) (passes dn' Q) s.

Lemma goes_nil dn P : goes dn P [] dn P.
Proof. intros t s Hr HP. apply wp_ret. by exists t. Qed.

Lemma goes_cons dn dn' dn'' (P Q R : IBCV2Transfer -> Prop) st sts :
  (forall t s, ready dn t s -> P t -> wp (run_stage st t) (passes dn' Q) s) ->
  goes dn' Q sts dn'' R -> goes dn P (st :: sts) dn'' R.
Proof.
  intros H1 H2 t s Hr HP. apply wp_bind. eapply wp_mono; [|by apply H1].
  intros r s' (t' & -> & Hr' & HQ). by apply H2.
Qed.

Lemma goes_app dn dn' dn'' P Q R l1 l2 : goes dn P l1 dn' Q -> goes dn' Q l2 dn'' R -> goes dn P (l1 ++ l2) dn'' R.
Proof.
  intros H1 H2 t s Hr HP. unfold wp. rewrite run_stages_app. apply wp_bind.
  eapply wp_mono; [|by apply H1]. intros r s' (t' & -> & Hr' & HQ). by apply H2.
Qed.

(** A quiet stage keeps what is known of the hashes. *)
Class ByHashes (P : IBCV2Transfer -> Prop) : Prop := by_hashes_of : forall t t', hashes t' = hashes t -> P t -> P t'.

Ltac by_hashes_tac :=
  intros t t' [= HR HA HT HW HS]; unfold over, written, delivered, timed, seen, sane, hashed; by rewrite ?HR, ?HA, ?HT, ?HW, ?HS.

#[local] Instance seen_by_hashes : ByHashes seen. Proof. by_hashes_tac. Qed.
#[local] Instance timed_by_hashes : ByHashes timed. Proof. by_hashes_tac. Qed.
#[local] Instance delivered_by_hashes : ByHashes delivered. Proof. by_hashes_tac. Qed.
#[local] Instance written_by_hashes : ByHashes written. Proof. by_hashes_tac. Qed.
#[local] Instance over_by_hashes rs re : ByHashes (over rs re). Proof. by_hashes_tac. Qed.

Lemma goes_quiet p dn dn' P `{!ByHashes P} sts Q : quiet p -> goes dn P sts dn' Q -> goes dn P (Single p :: sts) dn' Q.
Proof.
  intros Hp. apply goes_cons. intros t s Hr HP. eapply wp_mono; [|by apply Hp].
  intros r s' (t' & -> & Hr' & Hh). exists t'. split_and!; [done..|]. by eapply by_hashes_of.
Qed.

Lemma goes_gas id dec new dn P `{!ByHashes P} :
  (forall pr, priceClient = Some pr -> quiet (new pr id dec)) -> goes dn P (gasStage id dec new) dn P.
Proof.
  intros Hq. unfold gasStage. destruct priceClient as [pr|]; [|apply goes_nil].
  case_match; [|apply goes_nil]. apply goes_quiet; [done | by apply Hq | apply goes_nil].
Qed.

(** A complete transfer is given its final state. *)
Definition completed (rs re : bool) (t : IBCV2Transfer) : Prop := IsComplete t rs re = true /\ State t = final_state t.

Lemma goes_finisher rs re dn : goes dn (over rs re) [Finisher rs re] dn (completed rs re).
Proof.
  intros t s Hr [Hh Ho]. assert (Hc : IsComplete t rs re = true).
  { apply IsComplete_spec. split; [by eapply rd_error | tauto]. }
  assert (Hs : TimeoutTxHash t = None -> is_Some (WriteAckStatus t)).
  { intros HT. rewrite HT in Ho. destruct Ho as [[? [=]]|(_ & [h HW] & _)]. by destruct (proj2 Hh h HW). }
  cbn [run_stages run_stage]. apply wp_bind. pose proof (ready_Error _ _ _ Hr) as He. enter.
  unfold StateFinisher_Process. rewrite Hc, bool_decide_true by done. cbn [negb]. clear Ho Hh He.
  destruct (TimeoutTxHash t) eqn:HT; [|destruct (Hs eq_refl) as [[] HS]; destruct (AckTxHash t) eqn:HA];
    unfold isErrorAck, isSuccessAck; repeat coop_step; (eexists; split; [done|]; split;
      [eapply ready_update; [exact Hr | assumption | reflexivity | exact (rd_error _ _ _ Hr) | done]
      | split; [exact Hc | unfold final_state; cbn; by rewrite ?HT, ?HA, ?HS]]).
Qed.

(** The whole pipeline. *)
Lemma goes_pipeline opts : hex_ok (SourceTxHash t0) ->
  exists dn, goes [] sane (NewPipeline conn0 opts) dn (completed (ShouldRelaySuccessAcks opts) (ShouldRelayErrorAcks opts)).
Proof.
  intros Hx. eexists. unfold NewPipeline.
  apply (goes_app _ [db.Ibcv2RelayerTxSubmissionTypeTIMEOUTPACKET] _ _ timed).
  { eapply goes_cons; [exact (find_recv _)|]. eapply goes_cons; [exact (find_end_seen _)|].
    apply goes_quiet; [apply _ | apply quiet_send_finality|].
    apply goes_quiet; [apply _ | apply quiet_timeout_finality|].
    eapply goes_cons; [intros; apply send_timeout; [done | done | set_solver | cbn; lia | done]|].
    apply goes_quiet; [apply _ | apply quiet_retry_timeout | apply goes_nil]. }
  eapply goes_app; [apply goes_gas; [apply _ | intros; by apply quiet_gas_timeout]|].
  eapply goes_app.
  { eapply goes_cons; [intros; apply send_recv; [done | done | set_solver | cbn; lia | done]|].
    apply goes_quiet; [apply _ | apply quiet_retry_recv | apply goes_nil]. }
  eapply goes_app; [apply goes_gas; [apply _ | intros; by apply quiet_gas_recv]|].
  eapply goes_app.
  { eapply goes_cons; [exact (wait_ack _)|].
    apply goes_quiet; [apply _ | apply quiet_write_ack_finality|].
    eapply goes_cons; [exact (find_end_written _)|].
    eapply goes_cons; [intros; apply send_ack; [done | set_solver | cbn; lia | done]|].
    apply goes_quiet; [apply _ | apply quiet_retry_ack | apply goes_nil]. }
  eapply goes_app; [apply goes_gas; [apply _ | intros; by apply quiet_gas_ack] | apply goes_finisher].
Qed.

End Cooperation.

(** ** The theorem *)

Lemma final_state_not_failed t : final_state t <> db.Ibcv2RelayStatusFAILED.
Proof. unfold final_state. by destruct (TimeoutTxHash t), (AckTxHash t), (WriteAckStatus t) as [[]|]. Qed.


(** ** The theorem at work *)

Import TestWorld.

(** The chains of [TestWorld] with a clock that stands still. *)
Definition still : Env Z := {|
  clock := fun w => (w, w);
  db_exec := fun w => (inr w, w);
  tx_begin := answer tt;
  tx_commit := fun w => (Committed, w);
  tx_rollback := answer tt;
  clients := <["src" := client happy]> (<["dst" := client happy]> ∅);
  RelayByTx := fun _ => answer (mkRelayByTxResponse [1; 2] "router");
  priceClient := None;
  cfg := NewConfigReader config0;
|}.

Lemma still_cooperative :
  Cooperative (E:=still) t1 false false (eq "cc") (eq (10 * Second)) (client happy) (client happy).
Proof.
  split; try done; try (intros; repeat split; intros w <-; do 2 eexists; repeat split; done).
  - intros w <-. by split.
  - intros w <-. by eexists.
  - intros bt to. split; intros w <-; do 2 eexists; (split_and!; [done | by eexists | done | done]).
Qed.


(** Why a late packet with an ack has to have its recv.  The packet is not received yet
    when the first stage looks, received and acknowledged by someone else when the second
    one looks, and past its timeout after that.  The row keeps the ack and no recv: the
    first stage looks for a recv only where there is no ack, the recv stage only sends
    one before the timeout, so no run completes the transfer. *)
Definition ends_acked (s : Sys Z) (next : Sys Z -> Prop) : Prop :=
  let E := env (happy <| says_committed := false |>) happy in
  match db.ibcv2_transfers (tables s) !! 1 with
  | Some r =>
      match run_stages (NewPipeline conn opts) (NewIBCV2Transfer r) s with
      | (Ok t, s') => ProcessingError t = None /\ AckTxHash t = Some "bb" /\ RecvTxHash t = None /\
          (db.finished ∘ db.Status <$> db.ibcv2_transfers (tables s') !! 1) = Some false /\ next s'
      | _ => False
      end
  | None => False
  end.

Example acked_row_left_behind :
  ends_acked (sys0 (997 * Second)) (fun s1 => ends_acked s1 (fun s2 => ends_acked s2 (fun _ => True))).
Proof. vm_compute. repeat split. Qed.
