(* ===== verification/CostTracker.v ===== *)
(** * The cost tracker of submitted transactions

    [src/relayer/ibcv2/tx_submission_cost_tracker.go]: pending submissions are polled
    oldest first, a batch at a time; one that is too old is marked EXPIRED, the
    others get the execution status and the fee their chain reports.  [numeric_Scan]
    stands for [pgtype.Numeric.Scan] on the decimal text of an integer. *)

From stdpp Require Import sorting.
From S2P Require Import Prelude Db Transfer Config World Logic Processors TestWorld.
Open Scope Z_scope.

Record SubmittedTxCostTracker := mkTracker {
  pollInterval : Z;
  batchSize : Z;
  attemptExpiry : Z;
}.

Definition NewSubmittedTxCostTracker (pollInterval batchSize attemptExpiry : Z) : SubmittedTxCostTracker :=
  mkTracker (if bool_decide (pollInterval <= 0) then 5 * Second else pollInterval)
    (if bool_decide (batchSize <= 0) then 100 else batchSize) attemptExpiry.

Section Tracker.
Context {W : Type} {E : Env W}.
Context (numeric_Scan : string -> error + db.Numeric).

Definition bigIntToNumeric (value : Z) : error + db.Numeric := numeric_Scan (pretty value).

Definition getGasCostUSD (chainID : string) (amount : Z) : M W (option db.Numeric) :=
  if bool_decide (amount = 0) then ret (Some (db.mkNumeric (Some 0) 0)) else
  match priceClient with
  | None => ret None
  | Some price =>
      match GetChainConfig cfg chainID with
      | inl err => fail (EWrap "getting chain config for chain" err)
      | inr chainConfig =>
          match GasTokenCoingeckoID chainConfig with
          | None => ret None
          | Some id =>
              if bool_decide (id = "") || bool_decide (GasTokenDecimals chainConfig = 0) then ret None
              else call (GetCoinUsdValue price id (GasTokenDecimals chainConfig) (Some amount))
          end
      end
  end.

Definition resolveGasCosts (submission : db.Ibcv2RelayerTxSubmission) (client : BridgeClient W)
    : M W (Z * option db.Numeric) :=
  let* fee := wrap "unable to get native gas cost" (call (TxFee client (db.sub_TxHash submission))) in
  let gasCostAmount := default 0 fee in
  let* usd := try (getGasCostUSD (db.sub_ChainID submission) gasCostAmount) in
  match usd with
  | inl _ => logf LWarn "unable to get usd gas cost, continuing without" ;; ret (gasCostAmount, None)
  | inr gasCostUSD => ret (gasCostAmount, gasCostUSD)
  end.

Definition recordResolvedSubmissionMetrics (submission : db.Ibcv2RelayerTxSubmission)
    (executionStatus : string) (gasCostAmount : Z) : M W unit :=
  let chainConfig := fst (chainConfigOrFallback (db.sub_ChainID submission)) in
  emit (AddTransactionConfirmed (bool_decide (executionStatus = "SUCCESS")) (db.sub_ChainID submission)
          (ChainName chainConfig) (Environment chainConfig)) ;;
  emit (AddTransactionGasCost (db.sub_ChainID submission) (ChainName chainConfig)
          (Environment chainConfig) gasCostAmount (GasTokenDecimals chainConfig)).

(** [submission.SubmittedAt.Time.Add(t.attemptExpiry).Before(time.Now())]: the clock
    is read only for a pending submission with a time. *)
Definition isExpired (t : SubmittedTxCostTracker) (submission : db.Ibcv2RelayerTxSubmission) : M W bool :=
  if bool_decide (db.sub_Status submission = db.Ibcv2RelayerTxSubmissionStatusPENDING) then
    match db.sub_SubmittedAt submission with
    | Some at_ => let* now := Now in ret (time_Before (at_ + attemptExpiry t) now)
    | None => ret false
    end
  else ret false.

Definition trackSubmission (t : SubmittedTxCostTracker) (submission : db.Ibcv2RelayerTxSubmission)
    : M W unit :=
  let* expired := isExpired t submission in
  if expired : bool then
    wrap "marking submission expired"
      (sql (db.ExpirePendingIBCV2RelayerTxSubmission (db.sub_ID submission)))
  else
  let* client := wrap "getting bridge client for chain" (GetClient (db.sub_ChainID submission)) in
  let* executionStatus :=
    wrap "getting execution status for tx" (call (TxExecutionStatus client (db.sub_TxHash submission))) in
  let* '(gasCostAmount, gasCostUSD) :=
    wrap "resolving gas costs for tx" (resolveGasCosts submission client) in
  let* gasCostNumeric :=
    match bigIntToNumeric gasCostAmount with
    | inl err => fail (EWrap "converting gas cost to numeric for submission" err)
    | inr n => ret n
    end in
  wrap "updating gas costs for submission"
    (sql (db.UpdateIBCV2RelayerTxSubmissionTracking (Some gasCostNumeric) gasCostUSD
            (ExecStatus executionStatus)
            (if bool_decide (ErrorMessage executionStatus = "") then None
             else Some (ErrorMessage executionStatus))
            (db.sub_ID submission))) ;;
  recordResolvedSubmissionMetrics submission (ExecStatus executionStatus) gasCostAmount.

(** The body of the loop of [Track]. *)
Definition trackOne (t : SubmittedTxCostTracker) (submission : db.Ibcv2RelayerTxSubmission) : M W unit :=
  let* err := try (trackSubmission t submission) in
  match err with
  | inl _ => logf LError "submitted tx gas cost not ready yet"
  | inr _ => ret tt
  end.

Definition Track (t : SubmittedTxCostTracker) : M W unit :=
  let* submissions :=
    wrap "getting unresolved submitted txs"
      (sql (db.GetUnresolvedIBCV2RelayerTxSubmissions (batchSize t))) in
  for_each (trackOne t) submissions.

(** ** Properties *)

(** What one call of [trackSubmission] may make of the tables: nothing, the
    submission expired, or the submission resolved as its chain says. *)
Inductive tracked_as (sub : db.Ibcv2RelayerTxSubmission) (d : db.DB) : db.DB -> Prop :=
  | track_nothing : tracked_as sub d d
  | track_expired now :
      tracked_as sub d (snd (db.ExpirePendingIBCV2RelayerTxSubmission (db.sub_ID sub) now d))
  | track_resolved now amount usd st err :
      tracked_as sub d (db.update_submission (fun s => bool_decide (db.sub_ID s = db.sub_ID sub))
        (fun s => s <| db.sub_ResolvedAt := Some now |> <| db.sub_GasCostAmount := amount |>
                    <| db.sub_GasCostUsd := usd |> <| db.sub_Status := st |>
                    <| db.sub_ExecutionError := err |>) d).

Lemma trackSubmission_db t sub : dbrel (tracked_as sub) (trackSubmission t sub).
Proof.
  intros s.
  assert (H : wp (trackSubmission t sub) (fun r s' => tracked_as sub (tables s) (tables s')) s); [|exact H].
  unfold trackSubmission, isExpired, resolveGasCosts, getGasCostUSD, recordResolvedSubmissionMetrics.
  repeat first
    [ lazymatch goal with
      | |- wp (sql (db.ExpirePendingIBCV2RelayerTxSubmission _)) _ _ =>
          apply wp_sql; [intros ? ? ? | intros ?now ? r d' ? [= <- <-]]
      | |- wp (sql (db.UpdateIBCV2RelayerTxSubmissionTracking _ _ _ _ _)) _ _ =>
          apply wp_sql; [intros ? ? ? | intros ?now ? r d' ? Hq;
            unfold db.UpdateIBCV2RelayerTxSubmissionTracking in Hq;
            destruct (db.submissionStatus _); injection Hq as <- <-]
      end; cbn [world tables trace]
    | wp_step ].
  all: first [apply track_nothing | apply track_expired | apply track_resolved].
Qed.

(** What a submission's row keeps for good. *)
Definition sub_identity (s : db.Ibcv2RelayerTxSubmission) :=
  (db.sub_ID s, db.sub_TxHash s, db.sub_ChainID s, db.sub_TxType s, db.sub_RelayerAddress s,
   db.sub_SubmittedAt s).

(** Rows are resolved only for the ids [ids]; the other tables stay. *)
Definition resolves (ids : list Z) (d d' : db.DB) : Prop :=
  db.ibcv2_transfers d' = db.ibcv2_transfers d /\
  db.ibcv2_relay_requests d' = db.ibcv2_relay_requests d /\
  db.ibcv2_transfer_tx_submissions d' = db.ibcv2_transfer_tx_submissions d /\
  forall i s0, db.ibcv2_relayer_tx_submissions d !! i = Some s0 ->
    exists s1, db.ibcv2_relayer_tx_submissions d' !! i = Some s1 /\ sub_identity s1 = sub_identity s0 /\
      (s1 = s0 \/ db.sub_ID s0 ∈ ids /\ is_Some (db.sub_ResolvedAt s1)).

Lemma resolves_refl ids d : resolves ids d d.
Proof. split_and!; [done..|]. eauto. Qed.

Lemma resolves_trans ids ids' d1 d2 d3 :
  resolves ids d1 d2 -> resolves ids' d2 d3 -> resolves (ids ++ ids') d1 d3.
Proof.
  intros (A1 & A2 & A3 & A) (B1 & B2 & B3 & B). split_and!; [congruence..|]. intros i s0 H0.
  destruct (A i s0 H0) as (s1 & H1 & I1 & C1). destruct (B i s1 H1) as (s2 & H2 & I2 & C2).
  exists s2. split; [done|]. split; [congruence|]. rewrite elem_of_app.
  assert (db.sub_ID s1 = db.sub_ID s0) by (unfold sub_identity in I1; congruence).
  destruct C1 as [->|[C1 R1]], C2 as [->|[C2 R2]]; auto; right; split; auto; congruence.
Qed.

Lemma update_submission_resolves p f d id :
  (forall s, p s = true -> db.sub_ID s = id) ->
  (forall s, sub_identity (f s) = sub_identity s /\ is_Some (db.sub_ResolvedAt (f s))) ->
  resolves [id] d (db.update_submission p f d).
Proof.
  intros Hp Hf. split_and!; [done..|]. intros i s0 H0. cbn. rewrite lookup_fmap, H0. cbn.
  eexists. split; [done|]. destruct (p s0) eqn:Ep; [|eauto]. split; [apply Hf|]. right.
  split; [apply list_elem_of_singleton; auto | apply Hf].
Qed.

Lemma tracked_as_resolves sub d d' : tracked_as sub d d' -> resolves [db.sub_ID sub] d d'.
Proof.
  intros [|now|now amount usd st err]; [apply resolves_refl|..];
    (apply update_submission_resolves; [|done]); intros s Hs;
    rewrite ?andb_true_iff, ?bool_decide_eq_true in Hs; tauto.
Qed.

Lemma track_all_resolves t l : 
  dbrel (resolves (db.sub_ID <$> l)) (for_each (trackOne t) l).
Proof.
  induction l as [|sub l IH]; [intros s; apply resolves_refl|]. intros s.
  cbn [for_each]. unfold bind at 1, trackOne at 1, bind at 1, try.
  pose proof (tracked_as_resolves _ _ _ (trackSubmission_db t sub s)) as H.
  assert (Hrest : forall s1, resolves [db.sub_ID sub] (tables s) (tables s1) ->
    resolves (db.sub_ID <$> sub :: l) (tables s)
      (tables (snd (for_each (trackOne t) l s1)))).
  { intros s1 H1. apply (resolves_trans [_] _ _ (tables s1)); [done | apply IH]. }
  destruct (trackSubmission t sub s) as [[[]|e|] s1]; cbn [ret logf emit]; [by apply Hrest..|].
  apply (resolves_trans [_] _ _ (tables s1)); [done | apply resolves_refl].
Qed.

(** C21: a pass of the tracker resolves only submissions that were PENDING when it
    started and among the first [batchSize] it selects; it keeps what identifies
    them, and every other submission, the transfers, the relay requests and the
    mappings as they were. *)
Theorem track_resolves_pending t now s :
  db.wf_db (tables s) -> 0 <= batchSize t ->
  exists selected, db.GetUnresolvedIBCV2RelayerTxSubmissions (batchSize t) now (tables s) = (inr selected, tables s) /\
    (length selected <= Z.to_nat (batchSize t))%nat /\
    let d' := tables (snd (Track t s)) in
    db.ibcv2_transfers d' = db.ibcv2_transfers (tables s) /\
    db.ibcv2_relay_requests d' = db.ibcv2_relay_requests (tables s) /\
    db.ibcv2_transfer_tx_submissions d' = db.ibcv2_transfer_tx_submissions (tables s) /\
    forall i s0, db.ibcv2_relayer_tx_submissions (tables s) !! i = Some s0 ->
      exists s1, db.ibcv2_relayer_tx_submissions d' !! i = Some s1 /\ sub_identity s1 = sub_identity s0 /\
        (s1 = s0 \/ s0 ∈ selected /\ db.sub_Status s0 = db.Ibcv2RelayerTxSubmissionStatusPENDING /\
                    is_Some (db.sub_ResolvedAt s1)).
Proof.
  intros Hw Hb. unfold db.GetUnresolvedIBCV2RelayerTxSubmissions at 1. rewrite bool_decide_false by lia.
  set (l := take _ _). exists l. split; [done|]. split; [unfold l; rewrite length_take; lia|].
  assert (Hl : forall x, x ∈ l -> db.sub_Status x = db.Ibcv2RelayerTxSubmissionStatusPENDING /\
                 db.ibcv2_relayer_tx_submissions (tables s) !! db.sub_ID x = Some x).
  { intros x Hx. apply elem_of_take in Hx as (k & Hx & _). apply list_elem_of_lookup_2 in Hx.
    unfold db.by_submission in Hx. rewrite merge_sort_Permutation in Hx.
    apply list_elem_of_filter in Hx as [Hx1 Hx]. split; [done|].
    apply list_elem_of_fmap in Hx as ([i x'] & -> & Hx). apply elem_of_map_to_list in Hx. cbn.
    by destruct (db.wf_submission_id _ Hw _ _ Hx) as [-> _]. }
  assert (Hres : resolves (db.sub_ID <$> l) (tables s) (tables (snd (Track t s)))).
  { unfold Track, bind, wrap, sql. destruct (db_exec (world s)) as [[e|now'] w]; [apply resolves_refl|].
    unfold db.GetUnresolvedIBCV2RelayerTxSubmissions. rewrite bool_decide_false by lia.
    apply (track_all_resolves t l (mkSys w (tables s) (trace s))). }
  destruct Hres as (H1 & H2 & H3 & H4). split_and!; [done..|]. intros i s0 H0.
  destruct (H4 i s0 H0) as (s1 & Hs1 & Hid & Hc). exists s1. split; [done|]. split; [done|].
  destruct Hc as [->|[Hin Hr]]; [by left|]. right.
  apply list_elem_of_fmap in Hin as (x & Ex & Hx). destruct (Hl x Hx) as [Hp Hlx].
  destruct (db.wf_submission_id _ Hw _ _ H0) as [Hid0 _].
  assert (x = s0) as -> by congruence. done.
Qed.

#[local] Instance submitted_before_total : Total db.submitted_before.
Proof. intros s s'. unfold db.submitted_before. lia. Qed.
#[local] Instance submitted_before_trans : Transitive db.submitted_before.
Proof. intros s1 s2 s3. unfold db.submitted_before. lia. Qed.

(** The tracker works on the oldest pending submissions first: a pending
    submission it leaves out was submitted no earlier than any it selects, and one is
    left out only when the batch is full. *)
Lemma tracker_oldest_first limit now d selected i s0 :
  db.GetUnresolvedIBCV2RelayerTxSubmissions limit now d = (inr selected, d) ->
  db.ibcv2_relayer_tx_submissions d !! i = Some s0 ->
  db.sub_Status s0 = db.Ibcv2RelayerTxSubmissionStatusPENDING -> s0 ∉ selected ->
  Z.of_nat (length selected) = limit /\ forall s1, s1 ∈ selected -> db.submitted_before s1 s0.
Proof.
  unfold db.GetUnresolvedIBCV2RelayerTxSubmissions. case_bool_decide as Hl; [done|].
  intros [= Hsel] H0 Hp Hn. set (f := filter _ _) in Hsel. set (l := db.by_submission f) in *.
  assert (Hin : s0 ∈ l).
  { unfold l, db.by_submission. rewrite merge_sort_Permutation. apply list_elem_of_filter.
    split; [done|]. apply list_elem_of_fmap. exists (i, s0). split; [done|]. by apply elem_of_map_to_list. }
  assert (Hsorted : StronglySorted db.submitted_before l).
  { apply (StronglySorted_merge_sort db.submitted_before). }
  rewrite <- (take_drop (Z.to_nat limit) l), elem_of_app, Hsel in Hin.
  destruct Hin as [Hin|Hin]; [done|]. split.
  - rewrite <- Hsel, length_take.
    assert (0 < length (drop (Z.to_nat limit) l))%nat by (destruct (drop _ l); [by apply not_elem_of_nil in Hin | cbn; lia]).
    rewrite length_drop in H. lia.
  - intros s1 Hs1. rewrite <- (take_drop (Z.to_nat limit) l), Hsel in Hsorted.
    by eapply StronglySorted_app_1_elem_of.
Qed.

(** A pending submission older than the expiry is marked EXPIRED without asking
    its chain: nothing else of it and no other submission changes, and only a failing
    statement keeps it pending. *)
Lemma tracker_expires t sub at_ s :
  db.sub_Status sub = db.Ibcv2RelayerTxSubmissionStatusPENDING -> db.sub_SubmittedAt sub = Some at_ ->
  at_ + attemptExpiry t < fst (clock (world s)) ->
  wp (trackSubmission t sub) (fun r s' =>
    trace s' = trace s /\
    ((exists e, r = Fail e /\ tables s' = tables s) \/
     exists now, r = Ok tt /\ tables s' = snd (db.ExpirePendingIBCV2RelayerTxSubmission (db.sub_ID sub) now (tables s)))) s.
Proof.
  intros Hp Ha Hlt. unfold trackSubmission, isExpired. rewrite bool_decide_true, Ha by done.
  apply wp_bind, wp_bind, wp_Now. intros now w Hc. rewrite Hc in Hlt. cbn in Hlt. apply wp_ret.
  unfold time_Before. rewrite bool_decide_true by done.
  apply wp_wrap, wp_sql; [eauto|]. intros now' w' r d Hexec [= <- <-]. eauto.
Qed.

Lemma getGasCostUSD_pure id amount (s : Sys W) :
  wp (getGasCostUSD id amount) (fun r s' => r <> Panic /\ tables s' = tables s /\ trace s' = trace s) s.
Proof. unfold getGasCostUSD. wp_run; done. Qed.

(** A submission's row once its chain reported [es] and a fee of [n]. *)
Definition resolved_row (now : Z) (n : db.Numeric) (usd : option db.Numeric)
    (st : db.Ibcv2RelayerTxSubmissionStatus) (es : TxExecutionStatusT)
    (s : db.Ibcv2RelayerTxSubmission) : db.Ibcv2RelayerTxSubmission :=
  s <| db.sub_ResolvedAt := Some now |> <| db.sub_GasCostAmount := Some n |>
    <| db.sub_GasCostUsd := usd |> <| db.sub_Status := st |>
    <| db.sub_ExecutionError := if bool_decide (ErrorMessage es = "") then None
                                else Some (ErrorMessage es) |>.

(** C22: a submission that is not expired is resolved as soon as its chain reports an
    execution status and a fee: it gets that status, the fee (0 for none) and the
    error text if there is any, whether or not a price for the fee can be had, so a
    failing price service delays no resolution. *)
Theorem tracker_resolves t sub at_ s client es fee n st w1 w2 :
  db.sub_Status sub = db.Ibcv2RelayerTxSubmissionStatusPENDING -> db.sub_SubmittedAt sub = Some at_ ->
  fst (clock (world s)) <= at_ + attemptExpiry t ->
  clients !! db.sub_ChainID sub = Some client ->
  TxExecutionStatus client (db.sub_TxHash sub) (snd (clock (world s))) = (inr es, w1) ->
  TxFee client (db.sub_TxHash sub) w1 = (inr fee, w2) ->
  bigIntToNumeric (default 0 fee) = inr n -> db.submissionStatus (ExecStatus es) = Some st ->
  (forall w, exists now w', db_exec w = (inr now, w')) ->
  wp (trackSubmission t sub) (fun r s' =>
    r = Ok tt /\ exists now usd,
      tables s' = db.update_submission (fun s => bool_decide (db.sub_ID s = db.sub_ID sub))
        (resolved_row now n usd st es) (tables s)) s.
Proof.
  intros Hp Ha Hle Hcl Hes Hfee Hn Hst Hdb. unfold trackSubmission, isExpired.
  rewrite bool_decide_true, Ha by done.
  apply wp_bind, wp_bind, wp_Now. intros now0 w0 Hc. rewrite Hc in Hle, Hes. cbn in Hle, Hes. apply wp_ret.
  unfold time_Before. rewrite bool_decide_false by lia.
  apply wp_bind, wp_wrap, wp_GetClient; [|congruence]. intros c Hc'. assert (c = client) as -> by congruence.
  apply wp_bind, wp_wrap, wp_call. cbn [world]. rewrite Hes. intros r w [= <- <-].
  apply wp_bind, wp_wrap. unfold resolveGasCosts. apply wp_bind, wp_wrap, wp_call. cbn [world]. rewrite Hfee.
  intros r w [= <- <-]. apply wp_bind, wp_try. cbn [tables trace].
  eapply wp_mono; [|apply getGasCostUSD_pure]. cbn [tables].
  assert (Hend : forall usd (s1 : Sys W), tables s1 = tables s ->
    wp (let* gasCostNumeric :=
          match bigIntToNumeric (default 0 fee) with
          | inl err => fail (EWrap "converting gas cost to numeric for submission" err)
          | inr n => ret n
          end in
        wrap "updating gas costs for submission"
          (sql (db.UpdateIBCV2RelayerTxSubmissionTracking (Some gasCostNumeric) usd (ExecStatus es)
             (if bool_decide (ErrorMessage es = "") then None else Some (ErrorMessage es)) (db.sub_ID sub))) ;;
        recordResolvedSubmissionMetrics sub (ExecStatus es) (default 0 fee))
      (fun r s' => r = Ok tt /\ exists now usd,
         tables s' = db.update_submission (fun s => bool_decide (db.sub_ID s = db.sub_ID sub))
           (resolved_row now n usd st es) (tables s)) s1).
  { intros usd s1 Ht. rewrite Hn. apply wp_bind, wp_ret, wp_bind, wp_wrap, wp_sql.
    - intros e w' He. destruct (Hdb (world s1)) as (? & ? & Hx). congruence.
    - intros now w' r d _. unfold db.UpdateIBCV2RelayerTxSubmissionTracking. rewrite Hst, Ht. intros [= <- <-].
      unfold recordResolvedSubmissionMetrics. apply wp_bind, wp_emit, wp_emit. split; [done|]. by exists now, usd. }
  intros [usd|e|] s1 (Hnp & Ht & _); [| |done]; [|apply wp_bind, wp_emit]; apply wp_ret; by apply Hend.
Qed.

End Tracker.

(** ** The theorems at work *)

Import TestWorld.

Definition scan0 (s : string) : error + db.Numeric := inr (db.mkNumeric (Some 7) 0).

(** A pending submission of a recv transaction, submitted at second 100. *)
Definition sub1 : db.Ibcv2RelayerTxSubmission :=
  db.mkTxSubmission 1 "cc" "dst" db.Ibcv2RelayerTxSubmissionTypeRECVPACKET "relayer1" (Some (100 * Second))
    None None None db.Ibcv2RelayerTxSubmissionStatusPENDING None.

Definition db_sub : db.DB :=
  snd (db.InsertIBCV2RelayerTxSubmission "cc" "dst" db.Ibcv2RelayerTxSubmissionTypeRECVPACKET "relayer1"
         (Some (100 * Second)) db.Ibcv2RelayerTxSubmissionStatusPENDING 0 db.empty_DB).

Lemma db_sub_row : db.ibcv2_relayer_tx_submissions db_sub = {[ 1 := sub1 ]}.
Proof. vm_compute. reflexivity. Qed.

Definition tracker0 : SubmittedTxCostTracker := NewSubmittedTxCostTracker 0 0 Hour.

Lemma track_resolves_pending_witness :
  let E := env happy happy in
  exists s1, db.ibcv2_relayer_tx_submissions (tables (snd (Track scan0 tracker0 (mkSys (200 * Second) db_sub [])))) !! 1
    = Some s1 /\ sub_identity s1 = sub_identity sub1.
Proof.
  intros E.
  destruct (track_resolves_pending scan0 tracker0 0 (mkSys (200 * Second) db_sub []))
    as (sel & _ & _ & _ & _ & _ & H);
    [apply db.InsertIBCV2RelayerTxSubmission_wf, db.wf_empty_DB | vm_compute; discriminate|].
  destruct (H 1 sub1 ltac:(cbn [tables]; by rewrite db_sub_row)) as (s1 & H1 & H2 & _). eauto.
Defined.

Lemma tracker_expires_witness :
  let E := env happy happy in
  wp (trackSubmission scan0 tracker0 sub1) (fun r s' => r = Ok tt \/ tables s' = db_sub)
    (mkSys (10000 * Second) db_sub []).
Proof.
  intros E. eapply wp_mono; [|apply (tracker_expires scan0 tracker0 sub1 (100 * Second)); reflexivity].
  intros r s' (_ & [(e & _ & H)|(now & -> & _)]); auto.
Defined.

Lemma tracker_resolves_witness :
  let E := env happy happy in
  wp (trackSubmission scan0 tracker0 sub1) (fun r _ => r = Ok tt) (mkSys (200 * Second) db_sub []).
Proof.
  intros E. eapply wp_mono; [|apply (tracker_resolves scan0 tracker0 sub1 (100 * Second)
    (mkSys (200 * Second) db_sub []) (client happy) (mkTxExecutionStatus TxExecutionStatusSuccess "") (Some 7)
    (db.mkNumeric (Some 7) 0) db.Ibcv2RelayerTxSubmissionStatusSUCCESS (201 * Second) (201 * Second));
    first [reflexivity | discriminate | intros w; by exists w, w]].
  by intros r s' [-> _].
Defined.
