(* ===== verification/RelayerApi.v ===== *)
(** * The relayer's API

    [src/relayerapi/services/relayerapi/service.go]: Relay checks a transaction and
    records its packets to be relayed, Status reports on them.  The address list is
    [src/shared/utils/validate_address_list.go].  An error with a gRPC status is
    [EStatus]; the texts are the constant parts of the formats. *)

From stdpp Require Import sorting.
From S2P Require Import Prelude Db Transfer Config World Logic Processors TestWorld.
From Stdlib Require Import Ascii.
Open Scope Z_scope.

(** ** The address list *)

Definition OFACAddresses : list string :=
  ["0x04dba1194ee10112fe6c3207c0687def0e78bacf";
   "0x08723392ed15743cc38513c4925f5e6be5c17243";
   "0x08b2efdcd8822efe5ad0eae55517cf5dc544251";
   "0x0931ca4d13bb4ba75d9b7132ab690265d749a5e7";
   "0x098b716b8aaf21512996dc57eb0615e2383e2f96";
   "0x0ee5067b06776a89ccc7dc8ee369984ad7db5e06";
   "0x12de548f79a50d2bd05481c8515c1ef5183666a9";
   "0x1967d8af5bd86a497fb3dd7899a020e47560daaf";
   "0x1999ef52700c34de7ec2b68a28aafb37db0c5ade";
   "0x19f8f2b0915daa12a3f5c9cf01df9e24d53794f7";
   "0x19aa5fe80d33a56d56c78e82ea5e50e5d80b4dff";
   "0x1da5821544e25c636c1417ba96ade4cf6d2f9b5a";
   "0x21b8d56bda776bbe68655a16895afd96f5534fed";
   "0x2f389ce8bd8ff92de3402ffce4691d17fc4f6535";
   "0x308ed4b7b49797e1a98d3818bff6fe5385410370";
   "0x35fb6f6db4fb05e6a4ce86f2c93691425626d4b1";
   "0x39d908dac893cbcb53cc86e0ecc369aa4def1a29";
   "0x3ad9db589d201a710ed237c829c7860ba86510fc";
   "0x3cffd56b47b7b41c56258d9c7731abadc360e073";
   "0x3cbded43efdaf0fc77b9c55f6fc9988fcc9b757d";
   "0x3e37627deaa754090fbfbb8bd226c1ce66d255e9";
   "0x43fa21d92141ba9db43052492e0deee5aa5f0a93";
   "0x48549a34ae37b12f6a30566245176994e17c6b4a";
   "0x4f47bc496083c727c5fbe3ce9cdf2b0f6496270c";
   "0x502371699497d08d5339c870851898d6d72521dd";
   "0x530a64c0ce595026a4a556b703644228179e2d57";
   "0x532b77b33a040587e9fd1800088225f99b8b0e8a";
   "0x53b6936513e738f44fb50d2b9476730c0ab3bfc1";
   "0x5512d943ed1f7c8a43f3435c85f7ab68b30121b0";
   "0x57ec89a0c056163a0314e413320f9b3abe761259";
   "0x5a14e72060c11313e38738009254a90968f58f51";
   "0x5a7a51bfb49f190e5a6060a5bc6052ac14a3b59f";
   "0x5d5b5dafecbf31bdb08bfd3edad4f2694372d0ef";
   "0x5f48c2a71b2cc96e3f0ccae4e39318ff0dc375b2";
   "0x67d40ee1a85bf4a4bb7ffae16de985e8427b6b45";
   "0x6be0ae71e6c41f2f9d0d1a3b8d0f75e6f6a0b46e";
   "0x6f1ca141a28907f78ebaa64fb83a9088b02a8352";
   "0x72a5843cc08275c8171e582972aa4fda8c397b2a";
   "0x797d7ae72ebddcdea2a346c1834e04d1f8df102b";
   "0x7ced75026204ac29c34bea98905d4c949f27361e";
   "0x7db418b5d567a4e0e8c59ad71be1fce48f3e6107";
   "0x7f19720a857f834887fc9a7bc0a0fbe7fc7f8102";
   "0x7f367cc41522ce07553e823bf3be79a889debe1b";
   "0x7ff9cfad3877f21d41da833e2f775db0569ee3d9";
   "0x83e5bc4ffa856bb84bb88581f5dd62a433a25e0d";
   "0x8576acc5c05d6ce88f4e49bf65bdf0c62f91353c";
   "0x8dce2aac0de82bdcaf6b4373b79f94331b8e4995";
   "0x901bb9583b24d97e995513c6778dc6888ab6870e";
   "0x931546d9e66836abf687d2bc64b30407bac8c568";
   "0x961c5be54a2ffc17cf4cb021d863c42dacd47fc1";
   "0x97b1043abd9e6fc31681635166d430a458d14f9c";
   "0x983a81ca6fb1e441266d2fbcb7d8e530ac2e05a2";
   "0x9c2bc757b66f24d60f016b6237f8cdd414a879fa";
   "0x9f4cda013e354b8fc285bf4b9a60460cee7f7ea9";
   "0xd8500c631dc32fa18645b7436344a99e4825e10e";
   "0xe950dc316b836e4eefb8308bf32bf7c72a1358ff";
   "0xefe301d259f525ca1ba74a7977b80d5b060b3cca";
   "0xf7b31119c2682c88d88d455dbb9d5932c65cf1be";
   "0xa0e1c89ef1a489c9c7de96311ed5ce5d32c20e4b";
   "0xa7e5d5a720f06526557c513402f2e6b5fa20b008";
   "0xb338962b92cd818d6aef0a32a9ecd01212a71f33";
   "0xb6f5ec1a0a9cd1526536d3f0426c429529471f40";
   "0xc103b7dc095c904b92081eef0c1640081ec01c10";
   "0xc2a3829f459b3edd87791c74cd45402ba0a20be3";
   "0xc455f7fd3e0e12afd51fba5c106909934d8a0e4a";
   "0xd0975b32cea532eadddfc9c60481976e39db3472";
   "0xd5ed34b52ac4ab84d8fa8a231a3218bbf01ed510";
   "0xd882cfc20f52f2599d84b8e8d58c7fb62cfe344b";
   "0xdb2720ebad55399117ddb4c4a4afd9a4ccada8fe";
   "0xdcbefbfeccce100cce9e4b153c4e15cb885643193";
   "0xe1d865c3d669dcc8c57c8d023140cb204e672ee4";
   "0xe1e4c5e5ed8f03ae61b581e2def126025f2b9401";
   "0xe3d35f68383732649669aa990832e017340dbca5";
   "0xe7aa314c77f4233c18c6cc84384a9247c0cf367b";
   "0xed6e0a7e4ac94d976eebfb82ccf777a3c6bad921";
   "0xf3701f445b6bdafedbca97d1e477357839e4120d";
   "0xf4377eda661e04b6dda78969796ed31658d602d4"].

Definition OFACAddressMap : gmap string unit := list_to_map ((fun a => (a, tt)) <$> OFACAddresses).

#[local] Opaque OFACAddressMap.

(** [codes] *)
Definition codes_OK : Z := 0.
Definition codes_InvalidArgument : Z := 3.
Definition codes_NotFound : Z := 5.
Definition codes_FailedPrecondition : Z := 9.
Definition codes_Internal : Z := 13.
Definition codes_Unavailable : Z := 14.

Fixpoint ValidateNoOFACAddress (addressList : list string) : option error :=
  match addressList with
  | [] => None
  | address :: rest =>
      match OFACAddressMap !! address with
      | Some _ => Some (EStatus codes_InvalidArgument "Address is in the OFAC Sanctioned Digital Currency Addresses list")
      | None => ValidateNoOFACAddress rest
      end
  end.

(** [strings.ToLower] on the ASCII text of an address. *)
Definition ascii_lower (c : ascii) : ascii :=
  let n := nat_of_ascii c in
  if bool_decide (65 <= Z.of_nat n <= 90) then ascii_of_nat (n + 32) else c.
Definition ToLower (s : string) : string := string_map ascii_lower s.

(** Whether the lower-cased sender is a key of the map. *)
Definition isBlacklisted (transactionSender : string) : bool :=
  match OFACAddressMap !! ToLower transactionSender with Some _ => true | None => false end.

(** [errors.As(err, &pgErr)]: the code of the first PostgreSQL error in the tree. *)
Fixpoint pg_code (e : error) : option string :=
  match e with
  | EPg c _ => Some c
  | EWrap _ e' => pg_code e'
  | EWrap2 _ e1 _ e2 => match pg_code e1 with Some c => Some c | None => pg_code e2 end
  | _ => None
  end.

Definition ErrCodeDuplicateKey : string := "23505".

(** ** Status *)

Inductive TransferState :=
  | TRANSFER_STATE_PENDING
  | TRANSFER_STATE_COMPLETE
  | TRANSFER_STATE_FAILED.

Record TransactionInfo := mkTransactionInfo {
  TxHash : string;
  ChainId : string;
}.

Record PacketStatus := mkPacketStatus {
  ps_State : TransferState;
  ps_SequenceNumber : Z;
  ps_SourceClientId : string;
  ps_SendTx : TransactionInfo;
  ps_RecvTx : option TransactionInfo;
  ps_AckTx : option TransactionInfo;
  ps_TimeoutTx : option TransactionInfo;
}.

Definition mapDBStatusToProto (s : db.Ibcv2RelayStatus) : TransferState :=
  match s with
  | db.Ibcv2RelayStatusCOMPLETEWITHACK
  | db.Ibcv2RelayStatusCOMPLETEWITHTIMEOUT
  | db.Ibcv2RelayStatusCOMPLETEWITHWRITEACKSUCCESS
  | db.Ibcv2RelayStatusCOMPLETEWITHWRITEACKERROR => TRANSFER_STATE_COMPLETE
  | db.Ibcv2RelayStatusFAILED => TRANSFER_STATE_FAILED
  | _ => TRANSFER_STATE_PENDING
  end.

Definition toTxInfo (hash : option string) (chainID : string) : option TransactionInfo :=
  match hash with
  | None => None
  | Some h => Some (mkTransactionInfo h chainID)
  end.

Definition packetStatus (t : db.Ibcv2Transfer) : PacketStatus := {|
  ps_State := mapDBStatusToProto (db.Status t);
  ps_SequenceNumber := to_uint64 (db.PacketSequenceNumber t);
  ps_SourceClientId := db.PacketSourceClientID t;
  ps_SendTx := mkTransactionInfo (db.SourceTxHash t) (db.SourceChainID t);
  ps_RecvTx := toTxInfo (db.RecvTxHash t) (db.DestinationChainID t);
  ps_AckTx := toTxInfo (db.AckTxHash t) (db.SourceChainID t);
  ps_TimeoutTx := toTxInfo (db.TimeoutTxHash t) (db.SourceChainID t);
|}.

#[local] Opaque isBlacklisted.

Section Api.
Context {W : Type} {E : Env W}.

Definition Status (txHash chainID : string) : M W (list PacketStatus) :=
  if bool_decide (txHash = "") || bool_decide (chainID = "")
  then fail (EStatus codes_InvalidArgument "tx_hash and chain_id are required") else
  let* request := try (sql (db.GetRelayRequest chainID txHash)) in
  match request with
  | inl err =>
      if errors_Is err pgx_ErrNoRows
      then fail (EStatus codes_NotFound "transaction not submitted to relayer")
      else fail (EStatus codes_Internal "failed to query relay request")
  | inr _ =>
      let* transfers := try (sql (db.GetTransfersBySourceTx chainID txHash)) in
      match transfers with
      | inl _ => fail (EStatus codes_Internal "failed to query transfers")
      | inr transfers => ret (packetStatus <$> transfers)
      end
  end.

(** ** Relay *)

(** The record of one packet; a packet for an unknown client is skipped. *)
Definition insertPacket (sourceChainID txHash : string) (packet : PacketInfo) : M W unit :=
  match GetClientCounterpartyChainID cfg sourceChainID (SourceClient packet) with
  | inl _ => logf LWarn "skipping packet with unknown destination"
  | inr destChainID =>
      wrap "inserting packet sequence"
        (sql (db.InsertIBCV2Transfer sourceChainID destChainID txHash (Some (PacketTimestamp packet))
                (to_int32 (Sequence packet)) (SourceClient packet) (DestinationClient packet)
                (Some (TimeoutTimestamp packet)))) ;;
      logf LInfo "submitted packet to be relayed"
  end.

Definition persistRequest (sourceChainID txHash : string) (packets : list PacketInfo) : M W unit :=
  ExecTx (
    let* inserted := try (sql (db.InsertRelayRequest sourceChainID txHash)) in
    match inserted with
    | inl err =>
        if bool_decide (pg_code err = Some ErrCodeDuplicateKey) then fail (ESentinel errAlreadySubmitted)
        else fail (EWrap "inserting relay request" err)
    | inr _ => for_each (insertPacket sourceChainID txHash) packets
    end).

Definition Relay (txHash chainID : string) : M W unit :=
  if bool_decide (txHash = "") || bool_decide (chainID = "")
  then fail (EStatus codes_InvalidArgument "tx_hash and chain_id are required") else
  let sourceChainID := chainID in
  logf LInfo "received relay request" ;;
  let* client := try (GetClient sourceChainID) in
  match client with
  | inl _ =>
      emit (AddRelayRequest codes_InvalidArgument) ;;
      fail (EStatus codes_InvalidArgument "unsupported chain")
  | inr client =>
  let* execStatus := try (call (TxExecutionStatus client txHash)) in
  match execStatus with
  | inl err =>
      if errors_Is err ErrTxNotFound then
        emit (AddRelayRequest codes_NotFound) ;;
        fail (EStatus codes_NotFound "tx not found on chain")
      else
        emit (AddRelayRequest codes_Unavailable) ;;
        fail (EStatus codes_Unavailable (Error_text err))
  | inr execStatus =>
  if negb (bool_decide (ExecStatus execStatus = TxExecutionStatusSuccess)) then
    emit (AddRelayRequest codes_FailedPrecondition) ;;
    fail (EStatus codes_FailedPrecondition "tx on chain did not succeed on chain")
  else
  (if bool_decide (ClientChainType client = ChainTypeEVM) then
     let* transactionSender :=
       wrap "checking OFAC Blacklist - error getting transaction sender"
         (call (GetTransactionSender client txHash)) in
     if isBlacklisted transactionSender
     then fail (EStatus codes_InvalidArgument "Transaction sender is blacklisted - cannot relay")
     else ret tt
   else ret tt) ;;
  let* packets := try (call (SendPacketsFromTx client sourceChainID txHash)) in
  match packets with
  | inl _ => fail (EStatus codes_Internal "failed to get packets from tx")
  | inr packets =>
  logf LInfo "found packets in transaction" ;;
  let* txErr := try (persistRequest sourceChainID txHash packets) in
  match txErr with
  | inl err =>
      if errors_Is err errAlreadySubmitted then emit (AddRelayRequest codes_OK) ;; ret tt
      else
        emit (AddRelayRequest codes_Internal) ;;
        fail (EStatus codes_Internal "failed to persist relay submission")
  | inr _ => emit (AddRelayRequest codes_OK) ;; ret tt
  end end end end.

(** ** Properties *)

(** The row Relay records for a packet. *)
Definition packet_row (id now : Z) (sourceChainID destChainID txHash : string) (p : PacketInfo)
    : db.Ibcv2Transfer :=
  db.mkTransfer id (Some now) (Some now) db.Ibcv2RelayStatusPENDING None sourceChainID destChainID txHash
    (Some (pg_timestamp (PacketTimestamp p))) (to_int32 (Sequence p)) (SourceClient p) (DestinationClient p)
    (Some (pg_timestamp (TimeoutTimestamp p))) None None None None None None None None None None None None
    None None None None None.

(** The transfers and requests after the packets of a transaction were recorded:
    every old row is there unchanged, every packet for a known client has a PENDING
    row, and there is no other new row. *)
Definition recorded (sourceChainID txHash : string) (packets : list PacketInfo) (d d' : db.DB) : Prop :=
  db.ibcv2_transfers d ⊆ db.ibcv2_transfers d' /\
  db.ibcv2_relay_requests d ⊆ db.ibcv2_relay_requests d' /\
  (forall p dest, p ∈ packets ->
     GetClientCounterpartyChainID cfg sourceChainID (SourceClient p) = inr dest ->
     exists i now, db.ibcv2_transfers d' !! i = Some (packet_row i now sourceChainID dest txHash p)) /\
  (forall i r, db.ibcv2_transfers d' !! i = Some r -> db.ibcv2_transfers d !! i = None ->
     exists p dest now, p ∈ packets /\
       GetClientCounterpartyChainID cfg sourceChainID (SourceClient p) = inr dest /\
       r = packet_row i now sourceChainID dest txHash p).

Lemma recorded_nil c h d : recorded c h [] d d.
Proof. split_and!; [done | done | by intros ? ? ?%not_elem_of_nil | intros; congruence]. Qed.

Lemma InsertIBCV2Transfer_row c dest h p now d d' :
  db.wf_db d ->
  db.InsertIBCV2Transfer c dest h (Some (PacketTimestamp p)) (to_int32 (Sequence p)) (SourceClient p)
    (DestinationClient p) (Some (TimeoutTimestamp p)) now d = (inr tt, d') ->
  exists id, db.ibcv2_transfers d !! id = None /\
    db.ibcv2_transfers d' = <[id := packet_row id now c dest h p]> (db.ibcv2_transfers d) /\
    db.ibcv2_relay_requests d' = db.ibcv2_relay_requests d.
Proof.
  intros Hw. unfold db.InsertIBCV2Transfer. destruct (db.nextval _) as [id|] eqn:En; [|done].
  apply db.nextval_Some in En as [En _]. cbn. case_bool_decide; [done|]. intros [= <-].
  exists id. split; [|done]. destruct (db.ibcv2_transfers d !! id) eqn:Er; [|done].
  apply (db.wf_transfer_id _ Hw) in Er. lia.
Qed.

Lemma recorded_cons_skip c h p packets d d' e :
  GetClientCounterpartyChainID cfg c (SourceClient p) = inl e ->
  recorded c h packets d d' -> recorded c h (p :: packets) d d'.
Proof.
  intros He (R1 & R2 & R3 & R4). split_and!; [done | done | |].
  - intros p' dest [->|Hin]%elem_of_cons Hd; [congruence | by apply R3].
  - intros i r H1 H2. destruct (R4 i r H1 H2) as (p' & dest & now & ? & ?). exists p', dest, now. set_solver.
Qed.

Lemma recorded_cons c h p packets dest id now d d1 d' :
  GetClientCounterpartyChainID cfg c (SourceClient p) = inr dest ->
  db.ibcv2_transfers d !! id = None ->
  db.ibcv2_transfers d1 = <[id := packet_row id now c dest h p]> (db.ibcv2_transfers d) ->
  db.ibcv2_relay_requests d1 = db.ibcv2_relay_requests d ->
  recorded c h packets d1 d' -> recorded c h (p :: packets) d d'.
Proof.
  intros Hd Hid Ht Hr (R1 & R2 & R3 & R4). rewrite Ht in R1.
  assert (Hsub : db.ibcv2_transfers d ⊆ db.ibcv2_transfers d').
  { etrans; [|exact R1]. by apply insert_subseteq. }
  assert (Hrow : db.ibcv2_transfers d' !! id = Some (packet_row id now c dest h p)).
  { eapply lookup_weaken; [|exact R1]. by rewrite lookup_insert_eq. }
  split_and!; [done | by rewrite <- Hr | |].
  - intros p' dest' [->|Hin]%elem_of_cons Hd'; [|by apply R3].
    assert (dest' = dest) as -> by congruence. eauto.
  - intros i r H1 H2. destruct (decide (i = id)) as [->|N].
    + exists p, dest, now. split; [left|]. split; [done | congruence].
    + destruct (R4 i r H1) as (p' & dest' & now' & ? & ?); [rewrite Ht, lookup_insert_ne; done|].
      exists p', dest', now'. set_solver.
Qed.

Lemma insertPackets_recorded c h packets s :
  db.wf_db (tables s) ->
  wp (for_each (insertPacket c h) packets) (fun r s' =>
    match r with
    | Ok _ => recorded c h packets (tables s) (tables s')
    | Fail _ => True
    | Panic => False
    end) s.
Proof.
  revert s. induction packets as [|p packets IH]; intros s Hw; cbn [for_each];
    [apply wp_ret, recorded_nil|].
  apply wp_bind. unfold insertPacket at 1.
  destruct (GetClientCounterpartyChainID cfg c (SourceClient p)) as [e|dest] eqn:Hd.
  - apply wp_emit. eapply wp_mono; [|by apply IH]. intros [[]|?|] s' H; [|done..].
    by eapply recorded_cons_skip.
  - apply wp_bind, wp_wrap, wp_sql; [done|]. intros now w [e|[]] d _ Hq; [done|]. apply wp_emit.
    destruct (InsertIBCV2Transfer_row _ _ _ _ _ _ _ Hw Hq) as (id & H1 & H2 & H3).
    eapply wp_mono; [|apply IH; cbn [tables]].
    + intros [[]|?|] s' H; [|done..]. by eapply recorded_cons.
    + pose proof (db.InsertIBCV2Transfer_wf c dest h (Some (PacketTimestamp p)) (to_int32 (Sequence p))
        (SourceClient p) (DestinationClient p) (Some (TimeoutTimestamp p)) (to_int32_range _) now (tables s) Hw) as Hw'.
      rewrite Hq in Hw'. exact Hw'.
Qed.

Lemma InsertRelayRequest_row c h now d d' :
  db.wf_db d -> db.InsertRelayRequest c h now d = (inr tt, d') ->
  db.ibcv2_transfers d' = db.ibcv2_transfers d /\ db.ibcv2_relay_requests d ⊆ db.ibcv2_relay_requests d' /\
  exists i r, db.ibcv2_relay_requests d' !! i = Some r /\ db.rr_SourceChainID r = c /\ db.rr_SourceTxHash r = h.
Proof.
  intros Hw. unfold db.InsertRelayRequest. destruct (db.nextval _) as [id|] eqn:En; [|done].
  apply db.nextval_Some in En as [En _]. cbn. case_bool_decide as Hex; intros [= <-]; cbn.
  - split; [done|]. split; [done|]. destruct Hex as (i & r & Hr & Hx). eauto.
  - split; [done|]. split; [|exists id; eexists; by rewrite lookup_insert_eq].
    apply insert_subseteq. destruct (_ !! id) eqn:Er; [|done]. apply (db.wf_request_id _ Hw) in Er. lia.
Qed.

(** The errors of the database driver are not the API's own: none is its sentinel,
    and a statement that could not be executed reports neither a duplicate key nor
    that it found no row. *)
Class DriverErrors : Prop := {
  de_exec w e w' : db_exec w = (inl e, w') ->
    errors_Is e errAlreadySubmitted = false /\ pg_code e <> Some ErrCodeDuplicateKey /\
    errors_Is e pgx_ErrNoRows = false;
  de_begin w e w' : tx_begin w = (inl e, w') -> errors_Is e errAlreadySubmitted = false;
  de_commit w e b w' : tx_commit w = (CommitFailed e b, w') -> errors_Is e errAlreadySubmitted = false;
  de_rollback w e w' : tx_rollback w = (inl e, w') -> errors_Is e errAlreadySubmitted = false;
}.

Lemma InsertIBCV2Transfer_errors c dest h st n c1 c2 pt now d e d' :
  db.InsertIBCV2Transfer c dest h st n c1 c2 pt now d = (inl e, d') -> errors_Is e errAlreadySubmitted = false.
Proof.
  unfold db.InsertIBCV2Transfer. intros H. repeat (case_match; simplify_eq/=; try done).
Qed.

Lemma insertPackets_errors `{!DriverErrors} c h packets s :
  wp (for_each (insertPacket c h) packets) (fun r _ =>
    forall e, r = Fail e -> errors_Is e errAlreadySubmitted = false) s.
Proof.
  revert s. induction packets as [|p packets IH]; intros s; cbn [for_each]; [by apply wp_ret|].
  apply wp_bind. unfold insertPacket at 1.
  destruct (GetClientCounterpartyChainID cfg c (SourceClient p)) as [e|dest]; [apply wp_emit, IH|].
  apply wp_bind, wp_wrap, wp_sql.
  - intros e w He e' [= <-]. cbn. by apply de_exec in He as [? _].
  - intros now w [e|[]] d _ Hq; [|apply wp_emit, IH]. intros e' [= <-]. cbn. by eapply InsertIBCV2Transfer_errors.
Qed.

(** What storing a request adds to the tables. *)
Definition request_stored (c h : string) (packets : list PacketInfo) (d d' : db.DB) : Prop :=
  recorded c h packets d d' /\
  exists i r, db.ibcv2_relay_requests d' !! i = Some r /\ db.rr_SourceChainID r = c /\ db.rr_SourceTxHash r = h.

Lemma request_stored_intro c h packets d d1 d' now :
  db.wf_db d -> db.InsertRelayRequest c h now d = (inr tt, d1) -> recorded c h packets d1 d' ->
  request_stored c h packets d d'.
Proof.
  intros Hw Hq (R1 & R2 & R3 & R4).
  destruct (InsertRelayRequest_row _ _ _ _ _ Hw Hq) as (H1 & H2 & i & r & H3 & H4).
  rewrite H1 in *. split; [split_and!; [done | by etrans | done | done]|].
  exists i, r. split; [|done]. by eapply lookup_weaken.
Qed.

Lemma persistRequest_outcome `{!DriverErrors} c h packets s :
  db.wf_db (tables s) ->
  wp (persistRequest c h packets) (fun r s' =>
    match r with
    | Ok _ => request_stored c h packets (tables s) (tables s')
    | Fail e => errors_Is e errAlreadySubmitted = false /\
        (same_rows (tables s) (tables s') \/ request_stored c h packets (tables s) (tables s'))
    | Panic => False
    end) s.
Proof.
  intros Hw. unfold persistRequest. apply wp_ExecTx.
  { intros e w He. split; [by eapply de_begin | by left]. }
  intros u w Hb. cbn [tables].
  assert (Hfail : forall e d w1, errors_Is e errAlreadySubmitted = false -> forall rb w2, tx_rollback w1 = (rb, w2) ->
    errors_Is (match rb with inl rbErr => EWrap2 "tx err" e ", rb err" rbErr | inr _ => e end) errAlreadySubmitted = false
    /\ (same_rows (tables s) (rolled_back (tables s) d) \/ request_stored c h packets (tables s) (rolled_back (tables s) d))).
  { intros e d w1 He [rb|?] w2 Hrb; (split; [|by left]); [|done]. cbn. rewrite He. by eapply de_rollback. }
  apply wp_bind, wp_try, wp_sql.
  { intros e w1 He. cbn beta iota. apply de_exec in He as (He1 & He2 & _). rewrite bool_decide_false by done.
    apply wp_fail. cbn [world tables]. by apply Hfail. }
  cbn [world tables trace]. intros now w1 [e|[]] d Hexec Hq.
  { assert (e = db.sequence_exhausted) as ->.
    { unfold db.InsertRelayRequest in Hq. destruct (db.nextval _); [by case_bool_decide|]. by injection Hq. }
    cbn beta iota. rewrite bool_decide_false by done. apply wp_fail. by apply Hfail. }
  pose proof (db.InsertRelayRequest_wf c h now (tables s) Hw) as Hw1. rewrite Hq in Hw1. cbn in Hw1.
  eapply wp_mono; [|apply wp_and; [by apply (insertPackets_recorded c h packets (mkSys w1 d (trace s)))
                                 | apply insertPackets_errors]].
  intros [[]|e|] s1 [H1 H2]; cbn in H1; [|apply Hfail; by apply H2|done].
  assert (Hst : request_stored c h packets (tables s) (tables s1)) by by eapply request_stored_intro.
  intros [|e []] w2 Hc; cbn [tables]; [done|..]; (split; [by eapply de_commit|]); [by right | by left].
Qed.

(** A transaction Relay accepts in [w], with the packets its chain finds in it: it
    succeeded and, on an EVM chain, its sender is not on the address list. *)
Definition accepted (txHash chainID : string) (w : W) (packets : list PacketInfo) : Prop :=
  txHash <> "" /\ chainID <> "" /\
  exists client es w1 w2 w3,
    clients !! chainID = Some client /\
    TxExecutionStatus client txHash w = (inr es, w1) /\ ExecStatus es = TxExecutionStatusSuccess /\
    (if bool_decide (ClientChainType client = ChainTypeEVM)
     then exists sender, GetTransactionSender client txHash w1 = (inr sender, w2) /\ isBlacklisted sender = false
     else w2 = w1) /\
    SendPacketsFromTx client chainID txHash w2 = (inr packets, w3).

Lemma Relay_outcome `{!DriverErrors} txHash chainID s :
  db.wf_db (tables s) ->
  wp (Relay txHash chainID) (fun r s' =>
    let stored := exists packets, accepted txHash chainID (world s) packets /\
                    request_stored chainID txHash packets (tables s) (tables s') in
    match r with
    | Ok _ => stored
    | Fail _ => same_rows (tables s) (tables s') \/ stored
    | Panic => False
    end) s.
Proof.
  intros Hw. unfold Relay. case_bool_decide as He1; [by left|]. case_bool_decide as He2; [by left|]. cbn [orb].
  apply wp_bind, wp_emit, wp_bind, wp_try, wp_GetClient; [|intros _; cbn beta iota; apply wp_bind, wp_emit, wp_fail; by left].
  intros client Hc. cbn beta iota. apply wp_bind, wp_try, wp_call. intros [e|es] w1 H1; cbn beta iota.
  { destruct (errors_Is e ErrTxNotFound); apply wp_bind, wp_emit, wp_fail; by left. }
  case_bool_decide as Hs; cbn [negb]; [|apply wp_bind, wp_emit, wp_fail; by left].
  apply wp_bind. cbn [world tables trace].
  eapply (wp_mono _ (fun r s1 => tables s1 = tables s /\ r <> Panic /\
    (r = Ok tt -> if bool_decide (ClientChainType client = ChainTypeEVM)
       then exists sender, GetTransactionSender client txHash w1 = (inr sender, world s1) /\ isBlacklisted sender = false
       else world s1 = w1))).
  2:{ case_bool_decide as Hevm; [|by apply wp_ret].
      apply wp_bind, wp_wrap, wp_call. cbn [world]. intros [e|sender] w2 H2; [done|].
      destruct (isBlacklisted sender) eqn:Hb; [clear Hb; by apply wp_fail|]. apply wp_ret.
      split; [reflexivity|]. split; [discriminate|]. intros _. exists sender. split; [exact H2 | exact Hb]. }
  intros [[]|e|] s1 (Ht & Hp & Hevm); [|by left; rewrite Ht|done]. specialize (Hevm eq_refl).
  apply wp_bind, wp_try, wp_call. intros [e|packets] w2 H2; cbn beta iota; [apply wp_fail; left; by rewrite <- Ht|].
  apply wp_bind, wp_emit, wp_bind, wp_try. cbn [world tables trace].
  eapply wp_mono; [|apply (persistRequest_outcome chainID txHash packets); cbn [tables]; by rewrite Ht].
  cbn [tables]. rewrite Ht.
  assert (Hacc : accepted txHash chainID (world s) packets).
  { split; [exact He1|]. split; [exact He2|]. exists client, es, w1, (world s1), w2. split_and!; assumption. }
  intros [[]|e|] s2 Hr; cbn beta iota; [|destruct Hr as [-> [Hr|Hr]]|done].
  - apply wp_bind, wp_emit, wp_ret. exists packets. split; assumption.
  - apply wp_bind, wp_emit, wp_fail. by left.
  - apply wp_bind, wp_emit, wp_fail. right. exists packets. split; assumption.
Qed.


(** ** Status *)

Lemma GetRelayRequest_cases c h now d r d' :
  db.GetRelayRequest c h now d = (r, d') ->
  d' = d /\
  let requested := exists i q, db.ibcv2_relay_requests d !! i = Some q /\
                     db.rr_SourceChainID q = c /\ db.rr_SourceTxHash q = h in
  match r with inl e => e = ESentinel pgx_ErrNoRows /\ ~ requested | inr _ => requested end.
Proof.
  unfold db.GetRelayRequest. intros [= <- <-]. split; [done|]. destruct (filter _ _) as [|q l] eqn:Hf.
  - split; [done|]. intros (i & q & Hq & Hk). apply (not_elem_of_nil q). rewrite <- Hf.
    apply list_elem_of_filter. split; [done|]. apply list_elem_of_fmap.
    exists (i, q). split; [done|]. by apply elem_of_map_to_list.
  - assert (Hin : q ∈ q :: l) by left. rewrite <- Hf in Hin. apply list_elem_of_filter in Hin as [Hk Hin].
    apply list_elem_of_fmap in Hin as ([i q'] & -> & Hin%elem_of_map_to_list). eauto.
Qed.

(** The rows of a filtered table, by their ids. *)
Lemma filter_rows {A B} (P : A -> Prop) `{!forall x, Decision (P x)} (f : A -> B) (l : list (Z * A)) (m : gmap Z A) :
  NoDup l.*1 -> (forall i x, (i, x) ∈ l -> m !! i = Some x) ->
  exists ids, NoDup ids /\
    (forall i, i ∈ ids <-> exists x, (i, x) ∈ l /\ P x) /\
    (Some <$> (f <$> filter P l.*2)) = ((fun i => f <$> m !! i) <$> ids).
Proof.
  induction l as [|[i x] l IH]; intros Hn Hm; [exists []; set_solver|]. cbn in Hn. apply NoDup_cons in Hn as [Hi Hn].
  destruct IH as (ids & I1 & I2 & I3); [done | set_solver|]. rewrite fmap_cons, filter_cons. cbn [snd].
  destruct (decide (P x)) as [Hx|Hx].
  - exists (i :: ids). split_and!.
    + apply NoDup_cons. split; [|done]. intros (y & Hy & _)%I2. apply Hi, list_elem_of_fmap. by exists (i, y).
    + set_solver.
    + cbn. rewrite (Hm i x) by set_solver. cbn. by f_equal.
  - exists ids. split_and!; [done | set_solver | done].
Qed.

Lemma source_rows c h d :
  exists ids, NoDup ids /\
    (forall i, i ∈ ids <-> exists t, db.ibcv2_transfers d !! i = Some t /\
                             db.SourceChainID t = c /\ db.SourceTxHash t = h) /\
    (Some <$> (packetStatus <$> filter (fun r => db.SourceChainID r = c /\ db.SourceTxHash r = h)
                 (map_to_list (db.ibcv2_transfers d)).*2))
      = ((fun i => packetStatus <$> db.ibcv2_transfers d !! i) <$> ids).
Proof.
  destruct (filter_rows (fun r => db.SourceChainID r = c /\ db.SourceTxHash r = h) packetStatus
    (map_to_list (db.ibcv2_transfers d)) (db.ibcv2_transfers d)) as (ids & H1 & H2 & H3).
  - apply NoDup_fst_map_to_list.
  - by intros i x ?%elem_of_map_to_list.
  - exists ids. split_and!; [done | | done]. intros i. rewrite H2. by setoid_rewrite elem_of_map_to_list.
Qed.

Lemma Status_outcome `{!DriverErrors} txHash chainID s :
  wp (Status txHash chainID) (fun r s' =>
    tables s' = tables s /\ trace s' = trace s /\
    let requested := exists i q, db.ibcv2_relay_requests (tables s) !! i = Some q /\
                       db.rr_SourceChainID q = chainID /\ db.rr_SourceTxHash q = txHash in
    match r with
    | Ok l => requested /\ exists ids, NoDup ids /\
        (forall i, i ∈ ids <-> exists t, db.ibcv2_transfers (tables s) !! i = Some t /\
                                 db.SourceChainID t = chainID /\ db.SourceTxHash t = txHash) /\
        (Some <$> l) = ((fun i => packetStatus <$> db.ibcv2_transfers (tables s) !! i) <$> ids)
    | Fail e => (e = EStatus codes_InvalidArgument "tx_hash and chain_id are required" /\ (txHash = "" \/ chainID = "")) \/
                (e = EStatus codes_NotFound "transaction not submitted to relayer" /\ ~ requested) \/
                (exists text, e = EStatus codes_Internal text)
    | Panic => False
    end) s.
Proof.
  unfold Status. case_bool_decide as H1; [by split_and!; [..|left; auto]|].
  case_bool_decide as H2; [by split_and!; [..|left; auto]|]. cbn [orb].
  apply wp_bind, wp_try, wp_sql.
  { intros e w He. cbn beta iota. apply de_exec in He as (_ & _ & ->). apply wp_fail. eauto 10. }
  intros now w [e|q] d _ Hq; apply GetRelayRequest_cases in Hq as [-> Hq]; cbn beta iota.
  { destruct Hq as [-> Hq]. cbn. apply wp_fail. auto 10. }
  apply wp_bind, wp_try, wp_sql; cbn [world tables trace].
  { intros e w' _. cbn beta iota. apply wp_fail. eauto 10. }
  intros now' w' r d' _ [= <- <-]. apply wp_ret. split; [done|]. split; [done|]. split; [done|].
  apply source_rows.
Qed.

(** C18: after a Relay that returned without an error, Status of the same transaction
    never answers NotFound: it reports every packet of the transaction for a known
    client as pending, under its client and with no receive, acknowledgement or
    timeout transaction, or it answers Internal because the database did not execute
    a query. *)
Theorem relay_then_status `{!DriverErrors} txHash chainID s s' :
  db.wf_db (tables s) -> Relay txHash chainID s = (Ok tt, s') ->
  wp (Status txHash chainID) (fun r _ =>
    match r with
    | Ok l => exists packets, accepted txHash chainID (world s) packets /\
        forall p dest, p ∈ packets ->
          GetClientCounterpartyChainID cfg chainID (SourceClient p) = inr dest ->
          mkPacketStatus TRANSFER_STATE_PENDING (to_uint64 (to_int32 (Sequence p))) (SourceClient p)
            (mkTransactionInfo txHash chainID) None None None ∈ l
    | Fail e => exists text, e = EStatus codes_Internal text
    | Panic => False
    end) s'.
Proof.
  intros Hw Hrun. pose proof (Relay_outcome txHash chainID s Hw) as Hr. unfold wp in Hr. rewrite Hrun in Hr. cbn in Hr.
  destruct Hr as (packets & Ha & (_ & _ & Hrows & _) & Hreq).
  eapply wp_mono; [|apply (Status_outcome txHash chainID s')].
  intros [l|e|] s2 (_ & _ & Hs); [|destruct Hs as [[_ Hs]|[[_ Hs]|Hs]]|done].
  - exists packets. split; [done|]. intros p dest Hp Hd. destruct (Hrows p dest Hp Hd) as (i & now & Hi).
    destruct Hs as (_ & ids & _ & Hids & Hl).
    apply (list_elem_of_fmap_inj Some). rewrite Hl. apply list_elem_of_fmap. exists i. split; [by rewrite Hi|].
    apply Hids. eexists. by split; [exact Hi|].
  - destruct Ha as (? & ? & _). naive_solver.
  - naive_solver.
  - done.
Qed.

(** ** A transaction recorded before *)

Definition key_taken (k : db.PacketKey) (d : db.DB) : Prop :=
  exists i r, db.ibcv2_transfers d !! i = Some r /\ db.row_key r = k.

Lemma insertPackets_taken c h packets p dest s :
  p ∈ packets -> GetClientCounterpartyChainID cfg c (SourceClient p) = inr dest -> db.wf_db (tables s) ->
  key_taken (db.mkPacketKey c (SourceClient p) (to_int32 (Sequence p))) (tables s) ->
  wp (for_each (insertPacket c h) packets) (fun r _ => exists e, r = Fail e) s.
Proof.
  intros Hp Hd. revert s. induction packets as [|q packets IH]; intros s Hw Hk; [by apply not_elem_of_nil in Hp|].
  cbn [for_each]. apply wp_bind. unfold insertPacket at 1.
  destruct (GetClientCounterpartyChainID cfg c (SourceClient q)) as [e|dest'] eqn:Hq.
  { apply wp_emit. apply elem_of_cons in Hp as [->|Hp]; [congruence | by apply IH]. }
  apply wp_bind, wp_wrap, wp_sql; [eauto|]. intros now w [e|[]] d _ Hi; [eauto|]. apply wp_emit.
  destruct (InsertIBCV2Transfer_row _ _ _ _ _ _ _ Hw Hi) as (id & Hid & Ht & _).
  destruct Hk as (i & r & Hr & Hkey). apply elem_of_cons in Hp as [->|Hp].
  - exfalso. unfold db.InsertIBCV2Transfer in Hi. destruct (db.nextval _); [|done]. cbn in Hi.
    rewrite bool_decide_true in Hi; [done|]. exists i, r. split; [exact Hr | exact Hkey].
  - apply (IH Hp).
    + pose proof (db.InsertIBCV2Transfer_wf c dest' h (Some (PacketTimestamp q)) (to_int32 (Sequence q))
        (SourceClient q) (DestinationClient q) (Some (TimeoutTimestamp q)) (to_int32_range _) now (tables s) Hw) as Hw'.
      rewrite Hi in Hw'. exact Hw'.
    + exists i, r. cbn [tables]. rewrite Ht, lookup_insert_ne; [done | congruence].
Qed.

Lemma persistRequest_taken `{!DriverErrors} c h packets p dest s :
  p ∈ packets -> GetClientCounterpartyChainID cfg c (SourceClient p) = inr dest -> db.wf_db (tables s) ->
  key_taken (db.mkPacketKey c (SourceClient p) (to_int32 (Sequence p))) (tables s) ->
  wp (persistRequest c h packets) (fun r s' =>
    same_rows (tables s) (tables s') /\ exists e, r = Fail e) s.
Proof.
  intros Hp Hd Hw Hk. unfold persistRequest.
  assert (Hback : forall d, same_rows (tables s) (rolled_back (tables s) d)) by done.
  apply wp_ExecTx; [intros; split; [done | eauto]|]. intros u w _. cbn [tables].
  apply wp_bind, wp_try, wp_sql.
  { intros e w1 He. cbn beta iota. apply de_exec in He as (_ & He & _). rewrite bool_decide_false by done.
    apply wp_fail. eauto. }
  cbn [world tables trace]. intros now w1 [e|[]] d _ Hq; cbn beta iota.
  { case_bool_decide; apply wp_fail; eauto. }
  pose proof (db.InsertRelayRequest_wf c h now (tables s) Hw) as Hw1. rewrite Hq in Hw1.
  destruct (InsertRelayRequest_row _ _ _ _ _ Hw Hq) as (Ht & _).
  eapply wp_mono; [|apply (insertPackets_taken c h packets p dest); [done | done | done |]].
  - intros r s1 [e ->]. eauto.
  - destruct Hk as (i & r & Hr & ?). exists i, r. cbn [tables]. by rewrite Ht.
Qed.

(** C19: asking again to relay a transaction one of whose packets is recorded already
    is answered with an Internal error, and stores nothing: the insert of the packet
    hits the unique key of the transfers, and the branch for a transaction already
    submitted is not taken, as the insert of the request ignores a duplicate. *)
Theorem relay_repeated_is_internal `{!DriverErrors} txHash chainID packets p dest s :
  db.wf_db (tables s) -> accepted txHash chainID (world s) packets -> p ∈ packets ->
  GetClientCounterpartyChainID cfg chainID (SourceClient p) = inr dest ->
  key_taken (db.mkPacketKey chainID (SourceClient p) (to_int32 (Sequence p))) (tables s) ->
  wp (Relay txHash chainID) (fun r s' =>
    r = Fail (EStatus codes_Internal "failed to persist relay submission") /\
    same_rows (tables s) (tables s') /\ exists l, trace s' = l ++ [AddRelayRequest codes_Internal]) s.
Proof.
  intros Hw (He1 & He2 & client & es & w1 & w2 & w3 & Hc & H1 & Hs & Hevm & H2) Hp Hd Hk. unfold Relay.
  rewrite !bool_decide_false by done. cbn [orb]. apply wp_bind, wp_emit, wp_bind, wp_try, wp_GetClient; [|congruence].
  intros ? Hc'. assert (c = client) as -> by congruence. cbn beta iota. apply wp_bind, wp_try, wp_call.
  cbn [world tables trace]. intros r ? H1'. rewrite H1 in H1'. injection H1' as <- <-. cbn beta iota.
  rewrite (bool_decide_true _ Hs). cbn [negb].
  apply wp_bind. eapply (wp_mono _ (fun r s1 => tables s1 = tables s /\ r = Ok tt /\ world s1 = w2)).
  2:{ revert Hevm. case_bool_decide as Ht; [|intros ->; by apply wp_ret]. intros (sender & H3 & Hb).
      apply wp_bind, wp_wrap, wp_call. cbn [world]. intros r ? H3'. rewrite H3 in H3'. injection H3' as <- <-.
      rewrite Hb. clear Hb. by apply wp_ret. }
  intros r s1 (Ht & -> & Hw2). cbn beta iota. apply wp_bind, wp_try, wp_call. rewrite Hw2.
  intros r ? H2'. rewrite H2 in H2'. injection H2' as <- <-. cbn beta iota.
  apply wp_bind, wp_emit, wp_bind, wp_try. cbn [world tables trace].
  eapply wp_mono; [|apply wp_and; [apply (persistRequest_outcome chainID txHash packets)
    | apply (persistRequest_taken chainID txHash packets p dest); [done | done | |]]; cbn [tables]; by rewrite Ht].
  cbn [tables]. rewrite Ht. intros r s2 [Ho [Hsame [e ->]]]. cbn beta iota. destruct Ho as [-> _].
  apply wp_bind, wp_emit, wp_fail. split; [done|]. split; [done|]. by eexists.
Qed.

End Api.

(** ** Sequence numbers *)

Lemma to_uint32_int32 z : to_uint32 (to_int32 z) = to_uint32 z.
Proof.
  unfold to_int32, to_uint32, wrapS, wrapU. change (32 - 1) with 31.
  by rewrite Zminus_mod_idemp_l, Z.add_simpl_r.
Qed.

Lemma to_int32_mod z1 z2 : to_int32 z1 = to_int32 z2 <-> z1 mod 2 ^ 32 = z2 mod 2 ^ 32.
Proof.
  split; intros H.
  - change (to_uint32 z1 = to_uint32 z2). by rewrite <- (to_uint32_int32 z1), <- (to_uint32_int32 z2), H.
  - unfold to_int32, wrapS. by rewrite <- (Zplus_mod_idemp_l z1), <- (Zplus_mod_idemp_l z2), H.
Qed.

(** C20: the sequence number of a recorded packet, a uint64 kept in an int32 column.
    The relay pipeline reads it back unchanged exactly when it fits 32 bits; Status
    reports it unchanged exactly when it is below 2^31 or, sign extended, within 2^31
    of 2^64; and two packets of a client share a row's key exactly when their numbers
    agree modulo 2^32. *)
Theorem recorded_sequence id now c dest h p q :
  0 <= Sequence p < 2 ^ 64 -> 0 <= Sequence q < 2 ^ 64 ->
  let row := packet_row id now c dest h p in
  (PacketSequenceNumber (NewIBCV2Transfer row) = Sequence p <-> Sequence p < 2 ^ 32) /\
  (ps_SequenceNumber (packetStatus row) = Sequence p <->
     Sequence p < 2 ^ 31 \/ 2 ^ 64 - 2 ^ 31 <= Sequence p) /\
  (db.row_key row = db.row_key (packet_row id now c dest h q) <->
     SourceClient p = SourceClient q /\ Sequence p mod 2 ^ 32 = Sequence q mod 2 ^ 32).
Proof.
  intros Hp Hq. cbn. unfold db.row_key. cbn. split_and!.
  - rewrite to_uint32_int32. unfold to_uint32, wrapU. Z.to_euclidean_division_equations. lia.
  - unfold to_uint64, to_int32, wrapU, wrapS. change (32 - 1) with 31. Z.to_euclidean_division_equations. lia.
  - rewrite <- to_int32_mod. split; [by intros [= H1 H2] | intros [H1 H2]; by rewrite H1, H2].
Qed.

(** ** The address list *)

#[local] Transparent OFACAddressMap isBlacklisted.

Lemma OFACAddressMap_lookup a : is_Some (OFACAddressMap !! a) <-> a ∈ OFACAddresses.
Proof.
  unfold OFACAddressMap. rewrite <- elem_of_dom, dom_list_to_map, elem_of_list_to_set.
  rewrite <- list_fmap_compose. unfold compose. by rewrite list_fmap_id.
Qed.

#[local] Opaque OFACAddressMap.

(** The entries that are not the text of a 20-byte address. *)
Definition malformed : list string :=
  ["0x08b2efdcd8822efe5ad0eae55517cf5dc544251"; "0xdcbefbfeccce100cce9e4b153c4e15cb885643193"].

Lemma OFACAddresses_lengths :
  Forall (fun a => a ∈ malformed \/ (String.length a = 42%nat /\ ToLower a = a)) OFACAddresses.
Proof. apply (bool_decide_unpack _). vm_compute. exact I. Qed.

Lemma ToLower_length a : String.length (ToLower a) = String.length a.
Proof. unfold ToLower. induction a as [|c a IH]; cbn; [done|]. by rewrite IH. Qed.

(** The check of a sender, on the text of a 20-byte address: it is refused exactly
    when some entry of the list other than the two malformed ones equals it up to
    case.  The two entries of 39 and 41 digits refuse no sender. *)
Lemma blacklist_iff a :
  String.length a = 42%nat ->
  isBlacklisted a = true <-> exists b, b ∈ OFACAddresses /\ b ∉ malformed /\ ToLower b = ToLower a.
Proof.
  intros Ha. transitivity (ToLower a ∈ OFACAddresses).
  - rewrite <- OFACAddressMap_lookup. unfold isBlacklisted.
    destruct (OFACAddressMap !! _) as [u|];
      [split; [intros _; by exists u | reflexivity] | split; [discriminate | by intros [? ?]]].
  - pose proof OFACAddresses_lengths as Hl. rewrite Forall_forall in Hl. split.
    + intros H. exists (ToLower a). split; [done|].
      assert (Hm : ToLower a ∉ malformed).
      { intros Hm. pose proof (ToLower_length a) as Hn. rewrite Ha in Hn. unfold malformed in Hm.
        apply elem_of_cons in Hm as [Hm|Hm%list_elem_of_singleton]; rewrite Hm in Hn; discriminate Hn. }
      split; [done|]. destruct (Hl _ H) as [?|[_ ?]]; [by destruct Hm | done].
    + intros (b & Hb & Hm & <-). destruct (Hl _ Hb) as [?|[_ ->]]; [by destruct Hm | done].
Qed.

Lemma blacklist_iff_witness :
  isBlacklisted "0x098B716B8Aaf21512996dC57EB0615e2383E2f96" = true <->
  exists b, b ∈ OFACAddresses /\ b ∉ malformed /\
    ToLower b = ToLower "0x098B716B8Aaf21512996dC57EB0615e2383E2f96".
Proof. apply blacklist_iff. reflexivity. Defined.

(** The check of a list of addresses refuses it exactly when an address of the
    list is, in the case it was given, an entry. *)
Lemma validate_iff l :
  (ValidateNoOFACAddress l = None <-> forall a, a ∈ l -> a ∉ OFACAddresses) /\
  (forall e, ValidateNoOFACAddress l = Some e ->
     e = EStatus codes_InvalidArgument "Address is in the OFAC Sanctioned Digital Currency Addresses list").
Proof.
  induction l as [|a l [IH1 IH2]]; [split; [split; [intros _ a Ha; by apply not_elem_of_nil in Ha | done] | done]|]. cbn [ValidateNoOFACAddress].
  pose proof (OFACAddressMap_lookup a) as Ha. destruct (OFACAddressMap !! a) as [[]|].
  - split; [|by intros e [= <-]]. split; [done|]. intros H. destruct (H a); [by left | by apply Ha].
  - split; [|done]. rewrite IH1. split; [|intros H a' Ha'; apply H; by right]. intros H a' [->|?]%elem_of_cons; [|by apply H].
    intros [x Hx]%Ha. done.
Qed.

(** ** Witnesses *)

Module ApiWorld.
Import TestWorld.

(** The chains of [TestWorld], with client c-0 of src known to lead to dst and a
    transaction with a packet of it and a packet of an unknown client. *)
Definition src_config : ChainConfig :=
  mkChainConfig "src" "src" ChainTypeCOSMOS "testnet" None None None "atom" None 6 ∅
    (Some (mkIBCV2Config {[ "c-0" := "dst" ]} None 0 0 0 0 0 0 0 0 0 true true)) [].

Definition config1 : Config :=
  mkConfig (mkPostgresConfig "h" "5432" "db" false "")
    [("src", src_config); ("dst", chain_config "dst")] "" ":1"
    (mkCoingeckoConfig "" 0 "" 0) (mkIBCV2ProofAPIConfig "" false) no_signing.

Definition packet8 : PacketInfo := mkPacketInfo 8 "c-0" "c-1" (1000 * Second) 5000.
Definition packet9 : PacketInfo := mkPacketInfo 9 "c-7" "c-1" (1000 * Second) 5000.
Definition sender_chain : script := happy <| finds := [packet8; packet9] |>.

Definition E1 : Env Z := env_with config1 sender_chain happy.

#[export] Instance E1_errors : DriverErrors (E:=E1).
Proof. by split. Qed.

Definition after_relay : Sys Z := snd (Relay (E:=E1) "0xCD" "src" (sys0 (10 * Second))).


Lemma relay_then_status_witness :
  exists l, fst (Status (E:=E1) "0xCD" "src" after_relay) = Ok l /\
    exists packets, accepted (E:=E1) "0xCD" "src" (10 * Second) packets /\
      (packet8 ∈ packets ->
       mkPacketStatus TRANSFER_STATE_PENDING 8 "c-0" (mkTransactionInfo "0xCD" "src") None None None ∈ l).
Proof.
  assert (Hrun : Relay (E:=E1) "0xCD" "src" (sys0 (10 * Second)) = (Ok tt, after_relay))
    by (vm_compute; reflexivity).
  pose proof (relay_then_status (E:=E1) "0xCD" "src" (sys0 (10 * Second)) after_relay db1_wf Hrun) as H.
  unfold wp in H.
  assert (Hl : exists l, fst (Status (E:=E1) "0xCD" "src" after_relay) = Ok l)
    by (eexists; vm_compute; reflexivity).
  destruct Hl as [l Hl]. rewrite Hl in H. exists l. split; [exact Hl|].
  destruct H as (packets & Ha & Hp). exists packets. split; [exact Ha|].
  intros Hin. apply (Hp packet8 "dst" Hin). vm_compute. reflexivity.
Defined.

(** A packet with the sequence number of the row in [db1]. *)
Definition packet7 : PacketInfo := mkPacketInfo 7 "c-0" "c-1" (1000 * Second) 5000.
Definition E2 : Env Z := env_with config1 (happy <| finds := [packet9; packet7] |>) happy.

#[export] Instance E2_errors : DriverErrors (E:=E2).
Proof. by split. Qed.

Lemma relay_repeated_is_internal_witness :
  fst (Relay (E:=E2) "0xAB" "src" (sys0 (10 * Second)))
    = Fail (EStatus codes_Internal "failed to persist relay submission").
Proof.
  apply (relay_repeated_is_internal (E:=E2) "0xAB" "src" [packet9; packet7] packet7 "dst" (sys0 (10 * Second))).
  - exact db1_wf.
  - split; [discriminate|]. split; [discriminate|].
    exists (client (happy <| finds := [packet9; packet7] |>)), (mkTxExecutionStatus TxExecutionStatusSuccess ""),
      (10 * Second), (10 * Second), (10 * Second). split_and!; reflexivity.
  - right. left.
  - vm_compute. reflexivity.
  - exists 1, row1. split; [exact (f_equal (lookup 1) db1_row) | reflexivity].
Defined.

Lemma recorded_sequence_witness :
  PacketSequenceNumber (NewIBCV2Transfer (packet_row 1 0 "src" "dst" "0xCD" packet8)) = 8.
Proof. apply (recorded_sequence 1 0 "src" "dst" "0xCD" packet8 packet9); cbn; lia. Defined.

End ApiWorld.
