(* ===== verification/SideCalls.v ===== *)
(** * The API and the cost tracker beside the relayer

    The API server and the cost tracker write the tables while the pipelines run.
    Here their calls are shown to be environment steps of [System.step], so that what
    holds in every reachable state of the relayer holds with them running. *)

From S2P Require Import Prelude Db Transfer Config World Logic Processors ProcessorSpecs BatchProcessors.
From S2P Require Import BatchSpecs Middleware Pipeline Dispatcher System TestWorld CostTracker RelayerApi.

(** Tables as another part of the program may leave them. *)
Definition side_step (d d' : db.DB) : Prop := wf_step d d' /\ (db.wf_db d -> persist d d').

#[export] Instance side_step_steprel : StepRel side_step.
Proof.
  split.
  - split; [intros d; split; [reflexivity|]; intros _; reflexivity|].
    intros d1 d2 d3 [W1 P1] [W2 P2]. split; [by etrans|].
    intros W. transitivity d2; [by apply P1 | by apply P2, (W1 W)].
  - intros d d' [W P]. split; [by apply steprel_rollback|]. intros ? i r Hr. eauto.
Qed.

Lemma side_same_transfers {A} (q : db.Stmt A) now d :
  db.wf_stmt q -> db.ibcv2_transfers (snd (q now d)) = db.ibcv2_transfers d ->
  db.ibcv2_transfers_id_seq d <= db.ibcv2_transfers_id_seq (snd (q now d)) ->
  db.ibcv2_relay_requests_id_seq d <= db.ibcv2_relay_requests_id_seq (snd (q now d)) ->
  db.ibcv2_relayer_tx_submissions_id_seq d <= db.ibcv2_relayer_tx_submissions_id_seq (snd (q now d)) ->
  side_step d (snd (q now d)).
Proof.
  intros Hq Ht ???. split; [intros W; split; [by apply Hq | done]|].
  intros _ i r Hr. exists r. by rewrite Ht.
Qed.

Lemma side_InsertRelayRequest c h now d : side_step d (snd (db.InsertRelayRequest c h now d)).
Proof.
  apply side_same_transfers; [apply db.InsertRelayRequest_wf|..];
    unfold db.InsertRelayRequest; destruct (db.nextval _) as [id|] eqn:En; try done;
    apply db.nextval_Some in En as [En _]; case_bool_decide; cbn; try done; lia.
Qed.

Lemma side_InsertIBCV2Transfer c dest h st n c1 c2 pt now d :
  in_int32 n -> side_step d (snd (db.InsertIBCV2Transfer c dest h st n c1 c2 pt now d)).
Proof.
  intros Hn. split.
  - intros W. split; [by apply db.InsertIBCV2Transfer_wf|]. unfold db.InsertIBCV2Transfer.
    destruct (db.nextval _) as [id|] eqn:En; [|done]. apply db.nextval_Some in En as [En _].
    destruct st, pt; cbn; try (split; lia). case_bool_decide; cbn; lia.
  - intros W i r Hr. exists r. split; [|done]. unfold db.InsertIBCV2Transfer.
    destruct (db.nextval _) as [id|] eqn:En; [|done]. apply db.nextval_Some in En as [En _].
    destruct st, pt; try done. cbn. case_bool_decide; [done|]. cbn. rewrite lookup_insert_ne; [done|].
    intros ->. apply (db.wf_transfer_id _ W) in Hr. lia.
Qed.

Lemma side_Expire id now d : side_step d (snd (db.ExpirePendingIBCV2RelayerTxSubmission id now d)).
Proof. apply side_same_transfers; [auto with relayer | done..]. Qed.

Lemma side_Tracking a u st e id now d :
  side_step d (snd (db.UpdateIBCV2RelayerTxSubmissionTracking a u st e id now d)).
Proof.
  apply side_same_transfers; [apply db.UpdateIBCV2RelayerTxSubmissionTracking_wf|..];
    unfold db.UpdateIBCV2RelayerTxSubmissionTracking; by destruct (db.submissionStatus st).
Qed.

Lemma side_GetUnresolved n now d :
  side_step d (snd (db.GetUnresolvedIBCV2RelayerTxSubmissions n now d)).
Proof. unfold db.GetUnresolvedIBCV2RelayerTxSubmissions. case_bool_decide; reflexivity. Qed.

#[export] Hint Extern 2 (dbrel side_step (sql _)) =>
  (apply dbrel_sql; intros ? ?;
   first [reflexivity | apply side_InsertRelayRequest | apply side_InsertIBCV2Transfer, to_int32_range
         | apply side_Expire | apply side_Tracking | apply side_GetUnresolved]) : relayer.

Section Side.
Context {W : Type} {E : Env W}.

Lemma Relay_side txHash chainID : dbrel side_step (Relay txHash chainID).
Proof. dbrel_go. Qed.

Lemma Status_side txHash chainID : dbrel side_step (Status txHash chainID).
Proof. dbrel_go. Qed.

Lemma Track_side scan t : dbrel side_step (Track scan t).
Proof. dbrel_go. Qed.

Lemma side_reachable {A} (m : M W A) (s : Sys W) mgr sn :
  dbrel side_step m -> reachable (mkRelayer s mgr sn) -> reachable (mkRelayer (snd (m s)) mgr sn).
Proof.
  intros Hm Hr. destruct (Hm s) as [Hw Hp]. eapply reach_step; [exact Hr|]. apply step_env; [done|].
  apply Hp. exact (inv_wf _ (reachable_inv _ Hr)).
Qed.


End Side.

