(* ===== verification/Once.v ===== *)
(** * One call per key ([src/shared/bridges/ibcv2/once.go])

    The bridge clients ask a node for a transaction through [OnceWithKey]: callers that
    ask for the same key share one call and its result, until a deadline passes that
    is short for an error and long for a value.

    The state is the map from keys to pointers and the objects the pointers lead to.
    [Do] is a call that runs alone, in the program monad, as the bridge clients use it;
    [step] interleaves the calls of any number of goroutines, the two critical sections
    and the shared action being separate steps.  Both are made of the same functions on
    the state.  The state of a component lives in a part of the world, reached by a
    [Lens]. *)

From S2P Require Import Prelude Db Transfer Config World Logic.

(** ** Parts of the world *)

Record Lens (W S : Type) := mkLens {
  view : W -> S;
  set : S -> W -> W;
}.
Arguments mkLens {W S} view set.
Arguments view {W S} l w.
Arguments set {W S} l s w.

(** [view] gives what [set] put there. *)
Class Lawful {W S} (L : Lens W S) : Prop := {
  view_set s w : view L (set L s w) = s;
  set_view w : set L (view L w) w = w;
  set_set s s' w : set L s (set L s' w) = set L s w;
}.

Definition gets {W S} (L : Lens W S) : M W S := fun s => (Ok (view L (world s)), s).
Definition puts {W S} (L : Lens W S) (x : S) : M W unit := fun s =>
  (Ok tt, mkSys (set L x (world s)) (tables s) (trace s)).
Definition modify {W S} (L : Lens W S) (f : S -> S) : M W unit :=
  let* x := gets L in puts L (f x).

Lemma wp_gets {W S} (L : Lens W S) Q s : Q (Ok (view L (world s))) s -> wp (gets L) Q s.
Proof. done. Qed.
Lemma wp_puts {W S} (L : Lens W S) x Q s :
  Q (Ok tt) (mkSys (set L x (world s)) (tables s) (trace s)) -> wp (puts L x) Q s.
Proof. done. Qed.
Lemma wp_modify {W S} (L : Lens W S) f Q s :
  Q (Ok tt) (mkSys (set L (f (view L (world s))) (world s)) (tables s) (trace s)) -> wp (modify L f) Q s.
Proof. done. Qed.

(** ** Data *)

(** A key of [map[any]*onceWithTimeout]: the clients use strings, [Do] also a pointer. *)
Inductive any_key :=
  | AnyString (s : string)
  | AnyOnce (p : nat).

#[export] Instance any_key_eq_dec : EqDecision any_key.
Proof. solve_decision. Defined.
#[export] Instance any_key_countable : Countable any_key.
Proof.
  refine (inj_countable' (fun k => match k with AnyString s => inl s | AnyOnce p => inr p end)
    (fun k => match k with inl s => AnyString s | inr p => AnyOnce p end) _). by intros [].
Defined.

(** The action of [sync.OnceValues]: not called yet, running in a call, or done. *)
Inductive action_state (T : Type) :=
  | NotCalled
  | Running
  | Returned (r : res T).
Arguments NotCalled {T}.
Arguments Running {T}.
Arguments Returned {T} r.

Record onceWithTimeout (T : Type) := mkOnceWithTimeout {
  once : action_state T;
  errorTimeout : Z;
  successTimeout : Z;
  once_err : option error;
}.
Arguments mkOnceWithTimeout {T} once errorTimeout successTimeout once_err.
Arguments once {T} o.
Arguments errorTimeout {T} o.
Arguments successTimeout {T} o.
Arguments once_err {T} o.

#[export] Instance eta_once {T} : Eta (onceWithTimeout T) := fun o =>
  mkOnceWithTimeout (once o) (errorTimeout o) (successTimeout o) (once_err o).

(** A pointer is an index of [heap]. *)
Record OnceWithKey (T : Type) := mkOnceWithKey {
  onces : gmap any_key nat;
  heap : list (onceWithTimeout T);
  key_successTimeout : Z;
  key_errorTimeout : Z;
}.
Arguments mkOnceWithKey {T} onces heap key_successTimeout key_errorTimeout.
Arguments onces {T} o.
Arguments heap {T} o.
Arguments key_successTimeout {T} o.
Arguments key_errorTimeout {T} o.

#[export] Instance eta_onceWithKey {T} : Eta (OnceWithKey T) := fun o =>
  mkOnceWithKey (onces o) (heap o) (key_successTimeout o) (key_errorTimeout o).

Definition NewOnceWithKey {T} (sucessTimeout errorTimeout : Z) : OnceWithKey T :=
  mkOnceWithKey ∅ [] sucessTimeout errorTimeout.

(** ** Functions on the state; a clock reading is an argument *)

Definition newOnceWithTimeout {T} (o : OnceWithKey T) (now1 now2 : Z) : onceWithTimeout T :=
  mkOnceWithTimeout NotCalled (now1 + key_errorTimeout o) (now2 + key_successTimeout o) None.

(** [IsTimedOut], with its two readings. *)
Definition timedOut {T} (now1 now2 : Z) (o : onceWithTimeout T) : bool :=
  let errorTimeout := negb (time_Before now1 (errorTimeout o)) && bool_decide (is_Some (once_err o)) in
  let successTimeout := negb (time_Before now2 (successTimeout o)) && bool_decide (once_err o = None) in
  errorTimeout || successTimeout.

(** [o.onces[key] = newOnceWithTimeout(...)] *)
Definition create {T} (key : any_key) (now1 now2 : Z) (o : OnceWithKey T) : OnceWithKey T :=
  o <| onces := <[key := length (heap o)]> (onces o) |>
    <| heap := heap o ++ [newOnceWithTimeout o now1 now2] |>.

Definition set_once {T} (p : nat) (a : action_state T) (o : OnceWithKey T) : OnceWithKey T :=
  o <| heap := alter (fun x => x <| once := a |>) p (heap o) |>.

Definition SetError {T} (p : nat) (err : error) (o : OnceWithKey T) : OnceWithKey T :=
  o <| heap := alter (fun x => x <| once_err := Some err |>) p (heap o) |>.

(** [delete(o.onces, once)]: the key is the pointer. *)
Definition delete_once {T} (p : nat) (o : OnceWithKey T) : OnceWithKey T :=
  o <| onces := delete (AnyOnce p) (onces o) |>.

(** ** A call that runs alone *)

Section Do.
Context {W : Type} {E : Env W} {T : Type} (L : Lens W (OnceWithKey T)).

Definition IsTimedOut (p : nat) : M W bool :=
  let* now1 := Now in
  let* now2 := Now in
  let* o := gets L in
  match heap o !! p with
  | Some x => ret (timedOut now1 now2 x)
  | None => panic
  end.

Definition record_once (p : nat) (r : res T) : M W (error + T) :=
  modify L (set_once p (Returned r)) ;;
  match r with
  | Ok v => ret (inr v)
  | Fail e => ret (inl e)
  | Panic => panic
  end.

(** [once.once()] of [sync.OnceValues]: the first call runs the action and records
    what it returned, or that it panicked; later ones repeat that.  No other call is
    running it: a call that finds it running would wait for itself. *)
Definition call_once (p : nat) (action : M W T) : M W (error + T) :=
  let* o := gets L in
  match once <$> heap o !! p with
  | Some (Returned (Ok v)) => ret (inr v)
  | Some (Returned (Fail e)) => ret (inl e)
  | Some NotCalled =>
      modify L (set_once p Running) ;;
      fun s => let '(r, s') := action s in record_once p r s'
  | _ => panic
  end.

(** The first critical section of [Do]: the pointer to work with. *)
Definition acquire (key : any_key) : M W nat :=
  let* o := gets L in
  let* stale := match onces o !! key with None => ret true | Some p => IsTimedOut p end in
  if stale : bool then
    let* now1 := Now in
    let* now2 := Now in
    modify L (create key now1 now2) ;;
    ret (length (heap o))
  else match onces o !! key with Some p => ret p | None => panic end.

Definition Do (key : any_key) (action : M W T) : M W T :=
  let* p := acquire key in
  let* value := call_once p action in
  match value with inl err => modify L (SetError p err) | inr _ => ret tt end ;;
  let* timedOut := IsTimedOut p in
  (if timedOut : bool then modify L (delete_once p) else ret tt) ;;
  match value with inl err => fail err | inr v => ret v end.

End Do.

(** ** Calls that interleave *)

Section Concurrent.
Context {T : Type}.

(** Where a call of [Do] is: it has its pointer, runs the action, has the result, has
    recorded an error, or has returned. *)
Inductive pc :=
  | Acquired (p : nat)
  | Calling (p : nat)
  | Got (p : nat) (r : error + T)
  | Recorded (p : nat) (r : error + T)
  | Done (p : nat) (r : error + T).

(** [calls] is indexed by the calls made so far, [created] records for every object of
    the heap the key and the reading it was made at. *)
Record conc := mkConc {
  now : Z;
  cache : OnceWithKey T;
  calls : gmap nat (string * pc);
  created : list (string * Z);
}.

#[export] Instance eta_conc : Eta conc := fun c => mkConc (now c) (cache c) (calls c) (created c).

Definition to_res (r : error + T) : res T := match r with inl e => Fail e | inr v => Ok v end.

(** A new call: its first critical section. *)
Inductive call_step : conc -> conc -> Prop :=
  | call_shared c t k p x n1 n2 :
      calls c !! t = None ->
      onces (cache c) !! AnyString k = Some p -> heap (cache c) !! p = Some x ->
      now c <= n1 <= n2 -> timedOut n1 n2 x = false ->
      call_step c (c <| now := n2 |> <| calls := <[t := (k, Acquired p)]> (calls c) |>)
  | call_created c t k n1 n2 n3 n4 :
      calls c !! t = None ->
      now c <= n1 <= n2 -> n2 <= n3 <= n4 ->
      (forall p x, onces (cache c) !! AnyString k = Some p -> heap (cache c) !! p = Some x ->
         timedOut n1 n2 x = true) ->
      call_step c (c <| now := n4 |> <| cache := create (AnyString k) n3 n4 (cache c) |>
                     <| calls := <[t := (k, Acquired (length (heap (cache c))))]> (calls c) |>
                     <| created := created c ++ [(k, n3)] |>).

(** The steps of a call until it returns. *)
Inductive inner_step : conc -> conc -> Prop :=
  | step_start c t k p x :
      calls c !! t = Some (k, Acquired p) -> heap (cache c) !! p = Some x -> once x = NotCalled ->
      inner_step c (c <| cache := set_once p Running (cache c) |>
                      <| calls := <[t := (k, Calling p)]> (calls c) |>)
  | step_finish c t k p r :
      calls c !! t = Some (k, Calling p) ->
      inner_step c (c <| cache := set_once p (Returned (to_res r)) (cache c) |>
                      <| calls := <[t := (k, Got p r)]> (calls c) |>)
  | step_join c t k p x r :
      calls c !! t = Some (k, Acquired p) -> heap (cache c) !! p = Some x ->
      once x = Returned (to_res r) ->
      inner_step c (c <| calls := <[t := (k, Got p r)]> (calls c) |>)
  | step_record c t k p r :
      calls c !! t = Some (k, Got p r) ->
      inner_step c (c <| cache := match r with inl e => SetError p e (cache c) | inr _ => cache c end |>
                      <| calls := <[t := (k, Recorded p r)]> (calls c) |>)
  | step_clean c t k p r x n1 n2 :
      calls c !! t = Some (k, Recorded p r) -> heap (cache c) !! p = Some x ->
      now c <= n1 <= n2 ->
      inner_step c (c <| now := n2 |>
                      <| cache := if timedOut n1 n2 x then delete_once p (cache c) else cache c |>
                      <| calls := <[t := (k, Done p r)]> (calls c) |>).

Definition conc_step (c c' : conc) : Prop := call_step c c' \/ inner_step c c'.

Definition conc_initial (success error : Z) (c : conc) : Prop :=
  cache c = NewOnceWithKey success error /\ calls c = ∅ /\ created c = [].

Inductive conc_reachable (success error : Z) : conc -> Prop :=
  | conc_init c : conc_initial success error c -> conc_reachable success error c
  | conc_next c c' : conc_reachable success error c -> conc_step c c' -> conc_reachable success error c'.

(** ** The invariant *)

Definition pointer (x : pc) : nat :=
  match x with Acquired p | Calling p | Got p _ | Recorded p _ | Done p _ => p end.

Definition result (x : pc) : option (error + T) :=
  match x with Acquired _ | Calling _ => None | Got _ r | Recorded _ r | Done _ r => Some r end.

(** What the objects and the map say of the keys and the times. *)
Record objects_ok (success error : Z) (c : conc) : Prop := {
  oo_success : key_successTimeout (cache c) = success;
  oo_error : key_errorTimeout (cache c) = error;
  oo_length : length (created c) = length (heap (cache c));
  oo_key k p : onces (cache c) !! k = Some p -> exists s n, k = AnyString s /\ created c !! p = Some (s, n);
  oo_last i s n : created c !! i = Some (s, n) ->
    exists p, onces (cache c) !! AnyString s = Some p /\ (i <= p)%nat;
  oo_time i s n x : created c !! i = Some (s, n) -> heap (cache c) !! i = Some x ->
    n <= now c /\ errorTimeout x = n + error /\ n + success <= successTimeout x;
  oo_space i j s n n' : (i < j)%nat -> created c !! i = Some (s, n) -> created c !! j = Some (s, n') ->
    n + Z.min success error <= n';
}.

(** What the calls say of the objects. *)
Record calls_ok (c : conc) : Prop := {
  co_created t k x : calls c !! t = Some (k, x) -> exists n, created c !! pointer x = Some (k, n);
  co_result t k x r o : calls c !! t = Some (k, x) -> result x = Some r ->
    heap (cache c) !! pointer x = Some o -> once o = Returned (to_res r);
  co_calling t k p o : calls c !! t = Some (k, Calling p) -> heap (cache c) !! p = Some o -> once o = Running;
  co_running p o : heap (cache c) !! p = Some o -> once o = Running ->
    exists t k, calls c !! t = Some (k, Calling p);
  co_one t t' k k' p : calls c !! t = Some (k, Calling p) -> calls c !! t' = Some (k', Calling p) -> t = t';
  co_values p o r : heap (cache c) !! p = Some o -> once o = Returned r -> exists r0, r = to_res r0;
}.

(** Steps that keep the times, the keys and the objects. *)
Definition same_objects (c c' : conc) : Prop :=
  key_successTimeout (cache c') = key_successTimeout (cache c) /\
  key_errorTimeout (cache c') = key_errorTimeout (cache c) /\
  created c' = created c /\ onces (cache c') = onces (cache c) /\ now c <= now c' /\
  length (heap (cache c')) = length (heap (cache c)) /\
  forall i x', heap (cache c') !! i = Some x' -> exists x, heap (cache c) !! i = Some x /\
    errorTimeout x' = errorTimeout x /\ successTimeout x' = successTimeout x.

Lemma same_objects_ok success error c c' :
  same_objects c c' -> objects_ok success error c -> objects_ok success error c'.
Proof.
  intros (E1 & E2 & E3 & E4 & Hn & El & Ht) [O1 O2 O3 O4 O5 O6 O7].
  split; rewrite ?E1, ?E2, ?E3, ?E4, ?El; try done.
  intros i s n x' Hi Hx'. destruct (Ht _ _ Hx') as (x & Hx & -> & ->).
  destruct (O6 i s n x Hi Hx). lia.
Qed.

Lemma heap_alter (f : onceWithTimeout T -> onceWithTimeout T) p (h : list (onceWithTimeout T)) i x' :
  (forall x, errorTimeout (f x) = errorTimeout x /\ successTimeout (f x) = successTimeout x) ->
  alter f p h !! i = Some x' ->
  exists x, h !! i = Some x /\ errorTimeout x' = errorTimeout x /\ successTimeout x' = successTimeout x.
Proof.
  intros Hf. destruct (decide (p = i)) as [->|N].
  - rewrite list_lookup_alter_eq. destruct (h !! i) as [x|]; [|done]. intros [= <-]. exists x. split; [done | apply Hf].
  - rewrite list_lookup_alter_ne by done. eauto.
Qed.

Lemma inner_same_objects success error c c' :
  objects_ok success error c -> inner_step c c' -> same_objects c c'.
Proof.
  intros O Hs. revert O.
  destruct Hs as [? t k p x|? t k p r|? t k p x r|? t k p r|? t k p r x n1 n2 ? ? Hn]; intros O; cbn.
  - split_and!; try done; [apply length_alter|]. intros i x'. by apply heap_alter.
  - split_and!; try done; [apply length_alter|]. intros i x'. by apply heap_alter.
  - split_and!; try done. eauto.
  - destruct r; split_and!; try done; [apply length_alter| |]; cbn;
      [|intros i x' ?; by exists x']. intros i x'. by apply heap_alter.
  - destruct (timedOut n1 n2 x); split_and!; cbn; try done; try lia; try (intros i x' ?; by exists x').
    apply delete_id. destruct (onces _ !! AnyOnce p) as [q|] eqn:Hq; [|done].
    destruct (oo_key _ _ _ O _ _ Hq) as (? & ? & ? & _). done.
Qed.

Lemma call_objects_ok success error c c' :
  objects_ok success error c -> call_step c c' -> objects_ok success error c'.
Proof.
  intros O Hs. revert O.
  destruct Hs as [c t k p x n1 n2 _ _ _ Hn _|c t k n1 n2 n3 n4 _ Hn1 Hn2 Hstale]; intros O.
  { apply (same_objects_ok _ _ c); [|done]. split_and!; cbn; try done; [lia|]. eauto. }
  destruct O as [O1 O2 O3 O4 O5 O6 O7].
  assert (Hlast : (created c ++ [(k, n3)]) !! length (heap (cache c)) = Some (k, n3)).
  { rewrite <- O3. by apply list_lookup_middle. }
  assert (Hold : forall i s n, (created c ++ [(k, n3)]) !! i = Some (s, n) ->
    created c !! i = Some (s, n) \/ i = length (heap (cache c)) /\ s = k /\ n = n3).
  { intros i s n Hi. apply lookup_snoc_Some in Hi as [[_ Hi]|[Hi [= -> ->]]]; [by left|]. right. by rewrite <- O3. }
  split; cbn; try done.
  - rewrite !length_app. cbn. lia.
  - intros k' p [[<- <-]|[N Hk]]%lookup_insert_Some; [by eexists _, _|].
    destruct (O4 _ _ Hk) as (s & n & -> & Hs). exists s, n. split; [done|]. by apply lookup_app_l_Some.
  - intros i s n Hi. destruct (Hold i s n Hi) as [Hi'|(-> & -> & ->)].
    + destruct (decide (s = k)) as [->|N].
      * exists (length (heap (cache c))). rewrite lookup_insert_eq. split; [done|].
        apply lookup_lt_Some in Hi'. lia.
      * rewrite lookup_insert_ne by congruence. by apply (O5 _ _ n).
    + rewrite lookup_insert_eq. by eexists.
  - intros i s n x Hi Hx. destruct (Hold i s n Hi) as [Hi'|(-> & -> & ->)].
    + rewrite lookup_app_l in Hx by (apply lookup_lt_Some in Hi'; lia).
      destruct (O6 _ _ _ _ Hi' Hx). lia.
    + rewrite list_lookup_middle in Hx by done. injection Hx as <-. cbn. lia.
  - intros i j s n n' Hij Hi Hj.
    destruct (Hold i s n Hi) as [Hi'|(-> & _)]; [|apply lookup_lt_Some in Hj; rewrite length_app in Hj; cbn in Hj; lia].
    destruct (Hold j s n' Hj) as [Hj'|(-> & -> & ->)]; [by apply (O7 i j s)|].
    destruct (O5 _ _ _ Hi') as (p & Hp & Hip).
    destruct (O4 _ _ Hp) as (s' & np & [= <-] & Hsp).
    destruct (heap (cache c) !! p) as [x|] eqn:Hx;
      [|apply lookup_ge_None in Hx; apply lookup_lt_Some in Hsp; lia].
    specialize (Hstale p x Hp Hx). destruct (O6 _ _ _ _ Hsp Hx) as (Hnp & He & Hsu).
    assert (np + Z.min success error <= n3).
    { unfold timedOut, time_Before in Hstale.
      apply orb_true_iff in Hstale as [[Hx1 _]%andb_true_iff|[Hx1 _]%andb_true_iff];
        rewrite negb_true_iff, bool_decide_eq_false in Hx1; lia. }
    destruct (decide (i = p)) as [->|N]; [congruence || (assert (n = np) as -> by congruence; lia)|].
    assert (n + Z.min success error <= np) by (apply (O7 i p k); [lia | done..]). lia.
Qed.

Lemma lookup_alter_once (f : onceWithTimeout T -> onceWithTimeout T) p (h : list (onceWithTimeout T)) i (o' : onceWithTimeout T) :
  alter f p h !! i = Some o' -> exists o, h !! i = Some o /\ o' = (if decide (p = i) then f o else o).
Proof.
  destruct (decide (p = i)) as [->|N].
  - rewrite list_lookup_alter_eq. destruct (h !! i) as [x|]; [|done]. intros [= <-]. eauto.
  - rewrite list_lookup_alter_ne by done. eauto.
Qed.

(** Case analysis on which call and which object is meant. *)
Ltac once_cases :=
  repeat match goal with
  | H : <[_ := _]> _ !! _ = Some _ |- _ => apply lookup_insert_Some in H as [[? ?]|[? ?]]
  | H : alter _ _ _ !! _ = Some _ |- _ => apply lookup_alter_once in H as (? & ? & ?)
  | H : context [decide (?a = ?b)] |- _ => destruct (decide (a = b))
  | H : heap (if ?b then _ else _) !! _ = _ |- _ => destruct b
  | H : heap (match ?r with inl _ => _ | inr _ => _ end) !! _ = _ |- _ => destruct r
  | _ => progress simplify_eq/=
  end.

(** Instances of the call invariants for the calls and objects at hand. *)
Ltac once_facts :=
  repeat match goal with
  | C2 : (forall t k x r o, calls ?c !! t = Some (k, x) -> result x = Some r -> _ -> _),
    H : calls ?c !! ?t = Some (?k, ?y), Ho : heap (cache ?c) !! ?p = Some ?o |- _ =>
      let F := fresh "F" in pose proof (fun r => C2 t k y r o H) as F; cbn in F;
      specialize (F _ eq_refl Ho); lazymatch type of F with ?P => lazymatch goal with | _ : P, _ : P |- _ => fail | _ => idtac end end
  | C3 : (forall t k p o, calls ?c !! t = Some (k, Calling p) -> _ -> once o = Running),
    H : calls ?c !! ?t = Some (?k, Calling ?p), Ho : heap (cache ?c) !! ?p = Some ?o |- _ =>
      let F := fresh "F" in pose proof (C3 t k p o H Ho) as F;
      lazymatch type of F with ?P => lazymatch goal with | _ : P, _ : P |- _ => fail | _ => idtac end end
  end.

Lemma inner_calls_ok success error c c' :
  objects_ok success error c -> calls_ok c -> inner_step c c' -> calls_ok c'.
Proof.
  intros O C Hs. revert O C.
  destruct Hs as [c t k p x Ht Hx Hn|c t k p r Ht|c t k p x r Ht Hx Hr|c t k p r Ht|c t k p r x n1 n2 Ht Hx _];
    intros O [C1 C2 C3 C4 C5 C6]; pose proof (C1 _ _ _ Ht) as Hc; cbn in Hc.
  all: split; cbn; [intros t' k' []|intros t' k' [] r' o|..]; intros; once_cases; try by eauto.
  all: once_facts; try congruence.
  all: try match goal with
    | C5 : (forall t t' k k' p, _ -> _ -> t = t'), H : ?t <> ?t', H1 : calls _ !! ?t = Some (_, Calling _),
      H2 : calls _ !! ?t' = Some (_, Calling _) |- _ => destruct H; exact (C5 _ _ _ _ _ H1 H2)
    end.
  all: try match goal with
    | C1 : (forall t k x, _ -> exists n, created _ !! pointer x = _), H : calls _ !! _ = Some _ |- exists n, created _ !! _ = _ => exact (C1 _ _ _ H)
    | C4 : (forall p o, _ -> once o = Running -> _) |- exists _ _, <[?t := _]> _ !! _ = Some (_, Calling ?q) =>
        solve [exists t; eexists; rewrite lookup_insert_eq; reflexivity
          | edestruct (C4 q) as (t2 & k2 & H2); [eassumption | eassumption |];
            exists t2, k2; rewrite lookup_insert_ne; [done | congruence]]
    end.
  all: assumption.
Qed.

Lemma call_calls_ok success error c c' :
  objects_ok success error c -> calls_ok c -> call_step c c' -> calls_ok c'.
Proof.
  intros O C Hs. revert O C.
  destruct Hs as [c t k p x n1 n2 Ht Hp Hx Hn _|c t k n1 n2 n3 n4 Ht Hn1 Hn2 Hstale]; intros O [C1 C2 C3 C4 C5 C6].
  - split; cbn.
    + intros t' k' y Hy. once_cases; [|by eapply C1].
      destruct (oo_key _ _ _ O _ _ Hp) as (s & n & [= <-] & Hs). eauto.
    + intros t' k' y r o Hy Hr Ho. once_cases. by eapply C2.
    + intros t' k' q o Hy Ho. once_cases. by eapply C3.
    + intros q o Ho Hr. destruct (C4 q o Ho Hr) as (t2 & k2 & H2). exists t2, k2.
      rewrite lookup_insert_ne; [done | congruence].
    + intros t1 t2 k1 k2 q H1 H2. once_cases. by eapply C5.
    + done.
  - assert (Hnew : forall i o, (heap (cache c) ++ [newOnceWithTimeout (cache c) n3 n4]) !! i = Some o ->
      heap (cache c) !! i = Some o \/ i = length (heap (cache c)) /\ once o = NotCalled).
    { intros i o [[_ H]|[-> <-]]%lookup_snoc_Some; auto. }
    assert (Hlen := oo_length _ _ _ O).
    assert (Hold : forall t' k' y, calls c !! t' = Some (k', y) -> (pointer y < length (heap (cache c)))%nat).
    { intros t' k' y Hy. destruct (C1 _ _ _ Hy) as (n & Hn). apply lookup_lt_Some in Hn. lia. }
    split; cbn.
    + intros t' k' y Hy. once_cases.
      * exists n3. rewrite <- Hlen. by apply list_lookup_middle.
      * destruct (C1 _ _ _ H0) as (n & Hn). exists n. by apply lookup_app_l_Some.
    + intros t' k' y r o Hy Hr Ho. once_cases. specialize (Hold _ _ _ H0).
      apply Hnew in Ho as [Ho|[Ho _]]; [by eapply C2 | lia].
    + intros t' k' q o Hy Ho. once_cases. specialize (Hold _ _ _ H0). cbn in Hold.
      apply Hnew in Ho as [Ho|[Ho _]]; [by eapply C3 | lia].
    + intros q o Ho Hr. apply Hnew in Ho as [Ho|[_ Ho]]; [|congruence].
      destruct (C4 q o Ho Hr) as (t2 & k2 & H2). exists t2, k2. rewrite lookup_insert_ne; [done | congruence].
    + intros t1 t2 k1 k2 q H1 H2. once_cases. by eapply C5.
    + intros q o r Ho Hr. apply Hnew in Ho as [Ho|[_ Ho]]; [by eapply C6 | congruence].
Qed.

Lemma reachable_ok success error c :
  conc_reachable success error c -> objects_ok success error c /\ calls_ok c.
Proof.
  induction 1 as [c (E1 & E2 & E3)|c c' _ [O C] [Hs|Hs]].
  - split; split; rewrite ?E1, ?E2, ?E3; try done; intros *; rewrite ?lookup_empty; done.
  - split; [by eapply call_objects_ok | by eapply call_calls_ok].
  - split; [|by eapply inner_calls_ok]. eapply same_objects_ok; [|done]. by eapply inner_same_objects.
Qed.

(** C26: the calls of [Do], interleaved in any way.  Calls that share an object return
    the same result, which the one run of its action returned; no two goroutines run
    an action of the same object; and the objects made for a key, hence the runs of an
    action for it, are made at least the shorter of the two timeouts apart. *)
Theorem once_shares success error c :
  conc_reachable success error c ->
  (forall t t' k k' x x' r r', calls c !! t = Some (k, x) -> calls c !! t' = Some (k', x') ->
     pointer x = pointer x' -> result x = Some r -> result x' = Some r' -> k = k' /\ r = r') /\
  (forall t t' k k' p, calls c !! t = Some (k, Calling p) -> calls c !! t' = Some (k', Calling p) -> t = t') /\
  (forall i j k n n', (i < j)%nat -> created c !! i = Some (k, n) -> created c !! j = Some (k, n') ->
     n + Z.min success error <= n').
Proof.
  intros Hr. destruct (reachable_ok _ _ _ Hr) as [O C]. split_and!.
  - intros t t' k k' x x' r r' H1 H2 Hp Hr1 Hr2.
    destruct (co_created _ C _ _ _ H1) as (n & Hn). destruct (co_created _ C _ _ _ H2) as (n' & Hn').
    rewrite <- Hp in Hn'. split; [congruence|].
    destruct (heap (cache c) !! pointer x) as [o|] eqn:Ho.
    + pose proof (co_result _ C _ _ _ _ _ H1 Hr1 Ho) as F1.
      rewrite Hp in Ho. pose proof (co_result _ C _ _ _ _ _ H2 Hr2 Ho) as F2.
      rewrite F1 in F2. destruct r, r'; cbn in F2; congruence.
    + apply lookup_ge_None in Ho. apply lookup_lt_Some in Hn. rewrite (oo_length _ _ _ O) in Hn. lia.
  - intros t t' k k' p. apply (co_one _ C).
  - apply (oo_space _ _ _ O).
Qed.

(** ** No call waits for ever *)

Definition rank (x : pc) : nat :=
  match x with Acquired _ => 4 | Calling _ => 3 | Got _ _ => 2 | Recorded _ _ => 1 | Done _ _ => 0 end.

(** The steps the calls made so far can still take. *)
Definition pending (c : conc) : nat := map_fold (fun _ kx n => (rank kx.2 + n)%nat) 0%nat (calls c).

Lemma pending_insert (m : gmap nat (string * pc)) t k x x' :
  m !! t = Some (k, x) ->
  (map_fold (fun _ kx n => (rank kx.2 + n)%nat) 0%nat (<[t := (k, x')]> m) + rank x
   = map_fold (fun _ kx n => (rank kx.2 + n)%nat) 0%nat m + rank x')%nat.
Proof.
  intros Ht. rewrite <- (insert_delete_eq m t (k, x')).
  rewrite <- (insert_delete_id m t (k, x) Ht) at 2.
  rewrite !map_fold_insert_L; try (by rewrite lookup_delete_eq); cbn; lia.
Qed.

Lemma inner_decreases c c' :
  inner_step c c' -> (pending c' < pending c)%nat.
Proof.
  intros Hs. unfold pending.
  destruct Hs as [c t k p x Ht|c t k p r Ht|c t k p x r Ht|c t k p r Ht|c t k p r x n1 n2 Ht]; cbn.
  all: match goal with H : calls _ !! ?t = _ |- context [<[?t := (_, ?y)]> _] =>
    pose proof (pending_insert _ _ _ _ y H) as Hp end;
    cbn in Hp; lia.
Qed.

Lemma pending_bound c : (pending c <= 4 * size (calls c))%nat.
Proof.
  unfold pending. induction (calls c) as [|t [k x] m Ht IH] using map_ind; [by rewrite map_fold_empty|].
  rewrite map_fold_insert_L, map_size_insert_None by (done || (intros; cbn; lia)).
  cbn. destruct x; cbn; lia.
Qed.

Lemma inner_progress success error c t k x :
  conc_reachable success error c -> calls c !! t = Some (k, x) -> (0 < rank x)%nat ->
  exists c', inner_step c c'.
Proof.
  intros Hr Ht Hx. destruct (reachable_ok _ _ _ Hr) as [O C].
  destruct (co_created _ C _ _ _ Ht) as (n & Hn).
  destruct (heap (cache c) !! pointer x) as [o|] eqn:Ho;
    [|apply lookup_ge_None in Ho; apply lookup_lt_Some in Hn; rewrite (oo_length _ _ _ O) in Hn; lia].
  destruct x as [p|p|p r|p r|p r]; cbn in *; [| | | |lia].
  - destruct (once o) as [| |r] eqn:Eo.
    + eexists. by eapply step_start.
    + destruct (co_running _ C _ _ Ho Eo) as (t' & k' & Ht'). eexists.
      by apply (step_finish _ t' k' p (inl (ENew ""))).
    + destruct (co_values _ C _ _ _ Ho Eo) as (r0 & ->). eexists. by eapply step_join.
  - eexists. by apply (step_finish _ t k p (inl (ENew ""))).
  - eexists. by eapply step_record.
  - eexists. eapply (step_clean _ t k p r o (now c) (now c)); [done | done | lia].
Qed.

Lemma inner_finishes success error c :
  conc_reachable success error c ->
  exists c', rtc inner_step c c' /\ forall t k x, calls c' !! t = Some (k, x) -> rank x = 0%nat.
Proof.
  remember (pending c) as n eqn:En. revert c En. induction n as [n IH] using lt_wf_ind. intros c -> Hr.
  destruct (decide (map_Exists (fun _ kx => (0 < rank kx.2)%nat) (calls c))) as [(t & [k x] & Ht & Hx)|Hno].
  - destruct (inner_progress _ _ _ _ _ _ Hr Ht Hx) as (c1 & Hs).
    destruct (IH (pending c1) (inner_decreases _ _ Hs) c1 eq_refl) as (c' & Hc' & Hd);
      [eapply conc_next; [done | by right]|].
    exists c'. split; [by eapply rtc_l | done].
  - exists c. split; [done|]. intros t k x Ht. destruct (rank x) eqn:Ex; [done|]. destruct Hno.
    exists t, (k, x). cbn. split; [done | lia].
Qed.


(** The map keeps an entry for every key that was ever asked for. *)
Lemma once_never_shrinks success error c c' :
  conc_reachable success error c -> conc_step c c' -> dom (onces (cache c)) ⊆ dom (onces (cache c')).
Proof.
  intros Hr [Hs|Hs].
  - destruct Hs; cbn; [done|]. set_solver.
  - destruct (reachable_ok _ _ _ Hr) as [O _].
    destruct (inner_same_objects _ _ _ _ O Hs) as (_ & _ & _ & -> & _). done.
Qed.

End Concurrent.
Arguments pc : clear implicits.
Arguments conc : clear implicits.

(** ** A call that runs alone, specified *)

Section DoSpec.
Context {W : Type} {E : Env W} {T : Type} (L : Lens W (OnceWithKey T)) `{!Lawful L}.
Context (clock_local : forall w, view L (snd (clock w)) = view L w).

(** Every result kept for a key satisfies [P]. *)
Definition once_ok (P : string -> error + T -> Prop) (o : OnceWithKey T) : Prop :=
  forall k p, onces o !! k = Some p -> exists s x r,
    k = AnyString s /\ heap o !! p = Some x /\ once x = Returned (to_res r) /\ P s r.

Lemma once_ok_new P success error : once_ok P (NewOnceWithKey success error).
Proof. intros k p H. cbn in H. by rewrite lookup_empty in H. Qed.

Lemma once_ok_SetError P p e o : once_ok P o -> once_ok P (SetError p e o).
Proof.
  intros H k q Hk. destruct (H k q Hk) as (s & x & r & -> & Hx & Ho & Hr). cbn.
  destruct (decide (p = q)) as [->|N].
  - exists s, (x <| once_err := Some e |>), r. rewrite list_lookup_alter_eq, Hx. done.
  - exists s, x, r. by rewrite list_lookup_alter_ne.
Qed.

Lemma once_ok_delete P p o : once_ok P o -> once_ok P (delete_once p o).
Proof. intros H k q Hk. cbn in Hk. apply lookup_delete_Some in Hk as [_ Hk]. by apply H. Qed.

Lemma once_ok_finish P k r now1 now2 o :
  once_ok P o -> P k r ->
  once_ok P (set_once (length (heap o)) (Returned (to_res r))
    (set_once (length (heap o)) Running (create (AnyString k) now1 now2 o))).
Proof.
  intros H Hr k' q Hk. cbn in *. apply lookup_insert_Some in Hk as [[<- <-]|[N Hk]].
  - rewrite !list_lookup_alter_eq, list_lookup_middle by done. by eexists k, _, r.
  - destruct (H k' q Hk) as (s & x & r' & -> & Hx & Ho & Hr'). exists s, x, r'.
    assert (q < length (heap o))%nat by by eapply lookup_lt_Some.
    rewrite !list_lookup_alter_ne, lookup_app_l by lia. done.
Qed.

Lemma wp_raw {A B} (m : M W A) (k : res A -> M W B) Q s :
  wp m (fun r s' => wp (k r) Q s') s -> wp (fun s => let '(r, s') := m s in k r s') Q s.
Proof. unfold wp. by destruct (m s). Qed.

(** Running a part of [Do] that only reads the clock. *)
Definition quiet (s s' : Sys W) : Prop :=
  view L (world s') = view L (world s) /\ tables s' = tables s /\ trace s' = trace s.

Lemma wp_IsTimedOut p x Q s :
  heap (view L (world s)) !! p = Some x ->
  (forall b s', quiet s s' -> Q (Ok b) s') -> wp (IsTimedOut L p) Q s.
Proof.
  intros Hx HQ. unfold IsTimedOut.
  apply wp_bind, wp_Now. intros n1 w1 H1. apply wp_bind, wp_Now. cbn [world]. intros n2 w2 H2.
  apply wp_bind, wp_gets. cbn [world].
  assert (Hv : view L w2 = view L (world s)).
  { pose proof (clock_local (world s)) as G1. pose proof (clock_local w1) as G2.
    rewrite H1 in G1. rewrite H2 in G2. cbn in *. congruence. }
  rewrite Hv, Hx. apply wp_ret, HQ. by split.
Qed.

Lemma wp_acquire P k Q s :
  once_ok P (view L (world s)) ->
  (forall p x r s', quiet s s' -> heap (view L (world s)) !! p = Some x -> once x = Returned (to_res r) -> P k r ->
     Q (Ok p) s') ->
  (forall now1 now2 s', view L (world s') = create (AnyString k) now1 now2 (view L (world s)) ->
     tables s' = tables s -> trace s' = trace s -> Q (Ok (length (heap (view L (world s))))) s') ->
  wp (acquire L (AnyString k)) Q s.
Proof.
  intros Hok Hhit Hnew. unfold acquire. apply wp_bind, wp_gets.
  assert (Hcreate : forall s1, quiet s s1 -> wp (let* now1 := Now in let* now2 := Now in
    modify L (create (AnyString k) now1 now2) ;; ret (length (heap (view L (world s))))) Q s1).
  { intros s1 (Hv & Ht & Htr). apply wp_bind, wp_Now. intros n1 w1 H1. apply wp_bind, wp_Now. cbn [world].
    intros n2 w2 H2. apply wp_bind, wp_modify, wp_ret. cbn [world].
    pose proof (clock_local (world s1)) as G1. pose proof (clock_local w1) as G2. rewrite H1 in G1. rewrite H2 in G2.
    cbn [snd] in *. apply (Hnew n1 n2); cbn [world tables trace]; [rewrite view_set; congruence | done | done]. }
  destruct (onces _ !! AnyString k) as [p|] eqn:Hk.
  - destruct (Hok _ _ Hk) as (s0 & x & r & [= <-] & Hx & Ho & Hr).
    apply wp_bind. eapply wp_IsTimedOut; [exact Hx|]. intros [] s1 Hq; [by apply Hcreate|].
    apply wp_ret. by eapply Hhit.
  - apply wp_bind, wp_ret. by apply Hcreate.
Qed.

(** The end of a call of [Do], once it has a result. *)
Lemma wp_Do_end P k r p o Q s : heap (view L (world s)) !! p = Some o -> P k r -> once_ok P (view L (world s)) ->
  (forall s', once_ok P (view L (world s')) -> tables s' = tables s -> trace s' = trace s -> Q (to_res r) s') ->
  wp (let* timedOut := IsTimedOut L p in
      (if timedOut : bool then modify L (delete_once p) else ret tt) ;;
      match r with inl err => fail err | inr v => ret v end) Q s.
Proof.
  intros Ho Hr Hok HQ. apply wp_bind. eapply wp_IsTimedOut; [exact Ho|]. intros b s3 (Hv & Ht3 & Htr3).
  assert (Hret : forall s4, once_ok P (view L (world s4)) -> tables s4 = tables s -> trace s4 = trace s ->
    wp (match r with inl err => fail err | inr v => ret v end) Q s4).
  { intros s4 ???. destruct r as [e|v]; [apply wp_fail | apply wp_ret]; by apply HQ. }
  apply wp_bind. destruct b; [apply wp_modify|apply wp_ret]; apply Hret; cbn [world tables trace];
    [rewrite view_set, Hv; by apply once_ok_delete | congruence | congruence | by rewrite Hv | congruence..].
Qed.

Lemma wp_Do_finish P k r p o Q s : heap (view L (world s)) !! p = Some o -> P k r -> once_ok P (view L (world s)) ->
  (forall s', once_ok P (view L (world s')) -> tables s' = tables s -> trace s' = trace s -> Q (to_res r) s') ->
  wp (match r with inl err => modify L (SetError p err) | inr _ => ret tt end ;;
      let* timedOut := IsTimedOut L p in
      (if timedOut : bool then modify L (delete_once p) else ret tt) ;;
      match r with inl err => fail err | inr v => ret v end) Q s.
Proof.
  intros Ho Hr Hok HQ. apply wp_bind. destruct r as [e|v]; [apply wp_modify|apply wp_ret].
  - eapply (wp_Do_end P k (inl e)); cbn; [rewrite view_set; cbn; rewrite list_lookup_alter_eq, Ho; done | done
      | rewrite view_set; by apply once_ok_SetError | done].
  - by eapply (wp_Do_end P k (inr v)).
Qed.

(** A call of [Do] whose action is a call [x] into the world: the result is kept or
    freshly made, in both cases one that [x] gave in some world. *)
Lemma wp_Do P k (x : X W T) Q s :
  once_ok P (view L (world s)) ->
  (forall w, view L (snd (x w)) = view L w) -> (forall w, P k (fst (x w))) ->
  (forall r s', P k r -> once_ok P (view L (world s')) -> tables s' = tables s -> trace s' = trace s ->
     Q (to_res r) s') ->
  wp (Do L (AnyString k) (call x)) Q s.
Proof.
  intros Hok Hx HP HQ. unfold Do.
  assert (Hend : forall p o r s1, heap (view L (world s1)) !! p = Some o -> P k r ->
    once_ok P (view L (world s1)) -> tables s1 = tables s -> trace s1 = trace s ->
    wp (match r with inl err => modify L (SetError p err) | inr _ => ret tt end ;;
        let* timedOut := IsTimedOut L p in
        (if timedOut : bool then modify L (delete_once p) else ret tt) ;;
        match r with inl err => fail err | inr v => ret v end) Q s1).
  { intros p o r s1 Ho Hr Hok1 Ht Htr. eapply (wp_Do_finish P k); [done | done | done|].
    intros s2 ? Ht2 Htr2. apply HQ; [done | done | congruence | congruence]. }
  apply wp_bind. eapply wp_acquire; [exact Hok|..].
  - intros p o r s1 (Hv & Ht & Htr) Ho Hr HPr. apply wp_bind. unfold call_once. apply wp_bind, wp_gets.
    rewrite Hv, Ho. cbn. rewrite Hr.
    destruct r as [e|v]; apply wp_ret; [apply (Hend p o (inl e)) | apply (Hend p o (inr v))]; rewrite ?Hv; done.
  - intros n1 n2 s1 Hv Ht Htr. apply wp_bind. unfold call_once. apply wp_bind, wp_gets.
    rewrite Hv. cbn. rewrite list_lookup_middle by done. cbn. apply wp_bind, wp_modify.
    apply (wp_raw (call x) (record_once L _)), wp_call. cbn [world tables trace]. intros r w Hr.
    pose proof (HP (set L (set_once (length (heap (view L (world s)))) Running (view L (world s1))) (world s1))) as HPr.
    pose proof (Hx (set L (set_once (length (heap (view L (world s)))) Running (view L (world s1))) (world s1))) as Hvr.
    rewrite Hr in HPr, Hvr. cbn in HPr, Hvr. rewrite view_set, Hv in Hvr.
    assert (Hfin : forall r0, r = r0 -> forall s2, s2 = mkSys (set L (set_once (length (heap (view L (world s))))
        (Returned (to_res r0)) (view L w)) w) (tables s1) (trace s1) ->
      wp (match r0 with inl err => modify L (SetError (length (heap (view L (world s)))) err) | inr _ => ret tt end ;;
          let* timedOut := IsTimedOut L (length (heap (view L (world s)))) in
          (if timedOut : bool then modify L (delete_once (length (heap (view L (world s))))) else ret tt) ;;
          match r0 with inl err => fail err | inr v => ret v end) Q s2).
    { intros r0 -> s2 ->. eapply Hend; cbn; [|done | |done | done]; rewrite view_set, Hvr; cbn.
      - by rewrite !list_lookup_alter_eq, list_lookup_middle.
      - by apply once_ok_finish. }
    destruct r as [e|v]; unfold record_once; apply wp_bind, wp_modify; cbn beta iota; cbn [world tables trace];
      apply wp_ret; cbn beta iota; [exact (Hfin (inl e) eq_refl _ eq_refl) | exact (Hfin (inr v) eq_refl _ eq_refl)].
Qed.

End DoSpec.

(** ** The theorems at work: two calls for one key *)

Module OnceWorld.

Definition c0 : conc unit := mkConc 0 (NewOnceWithKey 60 5) ∅ [].
Definition c1 : conc unit :=
  mkConc 4 (create (AnyString "tx") 3 4 (NewOnceWithKey 60 5)) {[ 1%nat := ("tx", Acquired 0) ]} [("tx", 3)].
Definition c2 : conc unit :=
  mkConc 7 (create (AnyString "tx") 3 4 (NewOnceWithKey 60 5))
    {[ 1%nat := ("tx", Acquired 0); 2%nat := ("tx", Acquired 0) ]} [("tx", 3)].

Lemma c2_reachable : conc_reachable 60 5 c2.
Proof.
  eapply (conc_next _ _ c1); [eapply (conc_next _ _ c0); [by apply conc_init|]|]; left.
  - apply (call_created c0 1 "tx" 1 2 3 4); [done | cbn; lia | lia | done].
  - apply (call_shared c1 2 "tx" 0 (newOnceWithTimeout (NewOnceWithKey 60 5) 3 4) 6 7); try done; cbn; lia.
Qed.

Lemma once_shares_witness :
  conc_reachable 60 5 c2 /\
  forall i j k n n', (i < j)%nat -> created c2 !! i = Some (k, n) -> created c2 !! j = Some (k, n') -> n + 5 <= n'.
Proof. split; [exact c2_reachable | exact (proj2 (proj2 (once_shares 60 5 c2 c2_reachable)))]. Defined.


End OnceWorld.
