(* ===== verification/GoLib.v ===== *)
(** * What the clients use of Go's library

    Strings, numbers in text, Unix times, and values that are an error or a result
    brought into the program monad. *)

From S2P Require Import Prelude Db Transfer Config World Logic Once.
From Stdlib Require Import Ascii.
Open Scope Z_scope.

(** [strings.Contains] *)
Fixpoint strings_Contains (s sub : string) : bool :=
  String.prefix sub s || match s with EmptyString => false | String _ s' => strings_Contains s' sub end.

(** [strings.ReplaceAll(s, "/", "//")] *)
Fixpoint double_slashes (s : string) : string :=
  match s with
  | EmptyString => EmptyString
  | String "/" s' => String "/" (String "/" (double_slashes s'))
  | String c s' => String c (double_slashes s')
  end.

(** [strconv.Atoi]: the decimal text of an int. *)
Definition strconv_Atoi (s : string) : option Z :=
  match SetString10 s with
  | Some n => if bool_decide (min_int64 <= n <= max_int64) then Some n else None
  | None => None
  end.

(** [time.Unix(int64(sec), 0)] *)
Definition time_Unix (sec : Z) : Z := to_int64 sec * Second.

(** [strings.Join(l, sep)] *)
Fixpoint strings_Join (l : list string) (sep : string) : string :=
  match l with
  | [] => ""
  | [x] => x
  | x :: l' => x +:+ sep +:+ strings_Join l' sep
  end.

(** [strings.ToLower] and [strings.TrimSpace] of ASCII text *)
Fixpoint strings_ToLower (s : string) : string :=
  match s with
  | EmptyString => EmptyString
  | String c s' =>
      let n := nat_of_ascii c in
      String (if bool_decide (65 <= n <= 90)%nat then ascii_of_nat (n + 32) else c) (strings_ToLower s')
  end.

Definition is_space (c : ascii) : bool :=
  let n := nat_of_ascii c in bool_decide (9 <= n <= 13)%nat || bool_decide (n = 32%nat).

Fixpoint drop_spaces (l : list ascii) : list ascii :=
  match l with c :: l' => if is_space c then drop_spaces l' else l | [] => [] end.

Definition strings_TrimSpace (s : string) : string :=
  String.string_of_list_ascii (reverse (drop_spaces (reverse (drop_spaces (String.list_ascii_of_string s))))).

(** [v, err := f(...)] for a function without effects. *)
Definition of_sum {W A} (r : error + A) : M W A := match r with inl e => fail e | inr a => ret a end.

Lemma wp_of_sum {W A} (r : error + A) Q (s : Sys W) :
  match r with inl e => Q (Fail e) s | inr a => Q (Ok a) s end -> wp (of_sum r) Q s.
Proof. by destruct r. Qed.

(** A method of a client as the rest of the program sees it: its own log lines and
    metrics are not part of the caller's trace, and it has no access to the tables.  A
    panic is not caught by anything and ends the program; here it is an error of its
    own. *)
Definition panicked : error := ENew "panic".

Definition as_X {W A} (m : M W A) : X W A := fun w =>
  match m (mkSys w db.empty_DB []) with
  | (Ok a, s) => (inr a, world s)
  | (Fail e, s) => (inl e, world s)
  | (Panic, s) => (inl panicked, world s)
  end.
