(* ===== verification/EvmClient.v ===== *)
(** * The bridge client of EVM chains ([src/shared/bridges/ibcv2/evm_bridge_client.go])

    Every method of [EVMBridgeClient], over a node ([EVMNode]: the ethclient and the
    contract bindings, which answer or fail at every call) and the pure functions of
    go-ethereum it uses ([EVMLib]: hashing, hexadecimal, the router's ABI).  What the
    client keeps between calls is a part of the world: the time of its last submission
    and the two [OnceWithKey].  [bridge] is the client as the rest of the program uses
    it. *)

From S2P Require Import Prelude Db Transfer Config World Logic Once GoLib GoFloat.

(** ** Data of go-ethereum *)

Definition bytes : Type := list Z.

Record EthLog := mkEthLog {
  Topics : list bytes;
  Log_Data : bytes;
  Log_TxHash : bytes;
  Log_BlockNumber : Z;
}.

Record Receipt := mkReceipt {
  Receipt_Status : Z;
  Receipt_BlockNumber : Z;
  Logs : list (option EthLog);
  GasUsed : Z;
  EffectiveGasPrice : Z;
}.

Record Header := mkHeader {
  Header_Number : Z;
  Header_Time : Z;
  BaseFee : option Z;
}.

Record FilterQuery := mkFilterQuery {
  Addresses : list bytes;
  Filter_Topics : list (list bytes);
}.

(** A packet in an event of the router, and the events the client parses. *)
Record RouterPacket := mkRouterPacket {
  Packet_Sequence : Z;
  Packet_SourceClient : string;
  Packet_DestClient : string;
  Packet_TimeoutTimestamp : Z;
}.

Record WriteAcknowledgement := mkWriteAcknowledgement {
  WriteAck_Packet : RouterPacket;
  Acknowledgements : list bytes;
  WriteAck_Raw : EthLog;
}.

Record DynamicFeeTx := mkDynamicFeeTx {
  tx_To : bytes;
  tx_Nonce : Z;
  tx_GasFeeCap : Z;
  tx_GasTipCap : Z;
  tx_Gas : Z;
  tx_Data : bytes;
}.

Record SignedTx := mkSignedTx {
  signed_inner : DynamicFeeTx;
  signature : bytes;
}.

Record SendTransferMsg := mkSendTransferMsg {
  st_Denom : bytes;
  st_Amount : Z;
  st_Receiver : string;
  st_SourceClient : string;
  st_DestPort : string;
  st_TimeoutTimestamp : Z;
  st_Memo : string;
}.

(** [bridge_client.go]: the state of a light client. *)
Record TendermintClientState := mkTendermintClientState {
  TrustingPeriod : Z;
  LatestHeight : Z;
}.

Record ClientStateT := mkClientState {
  WasmLatestExecutionBlockNumber : option Z;
  Tendermint : option TendermintClientState;
}.

(** [sha256("UNIVERSAL_ERROR_ACKNOWLEDGEMENT")] *)
Definition ErrorAcknowledgement : bytes := 
  [71; 116; 212; 165; 117; 153; 63; 150; 59; 28; 6; 87; 55; 54; 97; 122;
   69; 122; 190; 248; 88; 145; 120; 219; 141; 16; 201; 75; 74; 181; 17; 171].

(** ** What the client calls *)

(** The ethclient, the bindings of the contracts and the signer: each call may change
    the world and fail.  A nil receipt without an error is possible. *)
Record EVMNode (W : Type) := mkEVMNode {
  TransactionReceipt : bytes -> X W (option Receipt);
  HeaderByNumber : option Z -> X W Header;
  FilterLogs : FilterQuery -> X W (list EthLog);
  TransactionByHash : bytes -> X W SignedTx;
  SuggestGasTipCap : X W Z;
  PendingCodeAt : bytes -> X W bytes;
  EstimateGas : bytes -> bytes -> bytes -> X W Z;
  PendingNonceAt : bytes -> X W Z;
  NonceAt : bytes -> X W Z;
  SendTransaction : SignedTx -> X W unit;
  BalanceAt : bytes -> X W Z;
  GetCommitment : bytes -> X W bytes;
  Router_GetClient : string -> X W bytes;
  Tendermint_ClientState : bytes -> X W (Z * Z);
  Allowance : bytes -> bytes -> bytes -> X W Z;
  Approve : bytes -> bytes -> Z -> X W bytes;
  ICS20_SendTransfer : bytes -> SendTransferMsg -> X W bytes;
  IFT_Transfer : bytes -> string -> string -> Z -> Z -> X W bytes;
  SignTx : bytes -> DynamicFeeTx -> X W SignedTx;
  (** [time.After] and a tick of a ticker, or [ctx.Done()] *)
  wait : Z -> X W unit;
}.
Arguments TransactionReceipt {W} e.
Arguments HeaderByNumber {W} e.
Arguments FilterLogs {W} e.
Arguments TransactionByHash {W} e.
Arguments SuggestGasTipCap {W} e.
Arguments PendingCodeAt {W} e.
Arguments EstimateGas {W} e.
Arguments PendingNonceAt {W} e.
Arguments NonceAt {W} e.
Arguments SendTransaction {W} e.
Arguments BalanceAt {W} e.
Arguments GetCommitment {W} e.
Arguments Router_GetClient {W} e.
Arguments Tendermint_ClientState {W} e.
Arguments Allowance {W} e.
Arguments Approve {W} e.
Arguments ICS20_SendTransfer {W} e.
Arguments IFT_Transfer {W} e.
Arguments SignTx {W} e.
Arguments wait {W} e.

(** Functions without effects of go-ethereum and of the generated bindings. *)
Record EVMLib := mkEVMLib {
  HexToHash : string -> bytes;
  Hash_String : bytes -> string;
  HexToAddress : string -> bytes;
  Address_String : bytes -> string;
  Keccak256Hash : bytes -> bytes;
  Router_GetAbi : error + (string -> bytes);
  MakeTopics : bytes -> string -> Z -> error + list (list bytes);
  ParseWriteAcknowledgement : EthLog -> error + WriteAcknowledgement;
  ParseAckPacket : EthLog -> error + EthLog;
  ParseTimeoutPacket : EthLog -> error + EthLog;
  ParseSendPacket : EthLog -> error + RouterPacket;
  Signed_Hash : SignedTx -> bytes;
  Sender : Z -> SignedTx -> error + bytes;
  NewContract : string -> bytes -> error + unit;
}.

(** ** The client *)

Record EVMBridgeClient := mkEVMBridgeClient {
  chainID : string;
  routerAddress : bytes;
  signerAddress : bytes;
  txSubmissionDelay : Z;
  gasFeeCapMultiplier : option float;
  gasTipCapMultiplier : option float;
}.

Record EVMState := mkEVMState {
  lastSubmissionTime : Z;
  txOnce : OnceWithKey (option Receipt);
  latestTimestampOnce : OnceWithKey Z;
}.

#[export] Instance eta_EVMState : Eta EVMState := fun s =>
  mkEVMState (lastSubmissionTime s) (txOnce s) (latestTimestampOnce s).

Definition lens_txOnce {W} (L : Lens W EVMState) : Lens W (OnceWithKey (option Receipt)) :=
  mkLens (fun w => txOnce (view L w)) (fun o w => set L ((view L w) <| txOnce := o |>) w).
Definition lens_latestTimestampOnce {W} (L : Lens W EVMState) : Lens W (OnceWithKey Z) :=
  mkLens (fun w => latestTimestampOnce (view L w)) (fun o w => set L ((view L w) <| latestTimestampOnce := o |>) w).

#[export] Instance lens_txOnce_lawful {W} (L : Lens W EVMState) `{!Lawful L} : Lawful (lens_txOnce L).
Proof.
  split; intros; cbn; rewrite ?view_set; try done.
  - destruct (view L w) eqn:Ev; cbn. rewrite <- Ev. apply set_view.
  - by rewrite set_set.
Qed.
#[export] Instance lens_latest_lawful {W} (L : Lens W EVMState) `{!Lawful L} : Lawful (lens_latestTimestampOnce L).
Proof.
  split; intros; cbn; rewrite ?view_set; try done.
  - destruct (view L w) eqn:Ev; cbn. rewrite <- Ev. apply set_view.
  - by rewrite set_set.
Qed.

Definition maxPendingAndConfirmedNonceDifference : Z := 5.

(** [rpc.FinalizedBlockNumber] *)
Definition FinalizedBlockNumber : Z := -3.

(** [common.BytesToHash] and [common.BytesToAddress] of bytes that are all zero. *)
Definition zero_hash : bytes := replicate 32 0.
Definition zero_address : bytes := replicate 20 0.

(** The value of [encodePacked]: the arguments the client passes, each written out. *)
Inductive packed :=
  | PackedBytes (bz : bytes)
  | PackedByte (b : Z)
  | PackedString (s : string).

Definition string_bytes (s : string) : bytes :=
  (fun c => Z.of_nat (Ascii.nat_of_ascii c)) <$> String.list_ascii_of_string s.

Fixpoint encodePacked (values : list packed) : bytes :=
  match values with
  | [] => []
  | PackedBytes v :: rest => v ++ encodePacked rest
  | PackedByte v :: rest => v :: encodePacked rest
  | PackedString v :: rest => string_bytes v ++ encodePacked rest
  end.

(** [sdk.Uint64ToBigEndian] *)
Definition Uint64ToBigEndian (n : Z) : bytes :=
  (fun i => Z.shiftr n (8 * i) mod 256) <$> [7; 6; 5; 4; 3; 2; 1; 0].

Definition commitmentPath (clientID : string) (kind sequence : Z) : bytes :=
  encodePacked [PackedString clientID; PackedByte kind; PackedBytes (Uint64ToBigEndian sequence)].

Module EVM.
Section Methods.
Context {W : Type} {E : Env W} (lib : EVMLib) (node : EVMNode W) (c : EVMBridgeClient) (L : Lens W EVMState).

Definition IsPacketReceived (packetDestinationClientID : string) (sequence : Z) : M W bool :=
  let hashedPath := Keccak256Hash lib (commitmentPath packetDestinationClientID 2 sequence) in
  let* commitment := wrap "getting commitment for packet with destination client id"
                       (call (GetCommitment node hashedPath)) in
  ret (negb (bool_decide (commitment = zero_hash))).

Definition IsPacketCommitted (packetSourceClientID : string) (sequence : Z) : M W bool :=
  let hashedPath := Keccak256Hash lib (commitmentPath packetSourceClientID 1 sequence) in
  let* commitment := wrap "getting commitment for packet with source client id"
                       (call (GetCommitment node hashedPath)) in
  ret (negb (bool_decide (commitment = zero_hash))).

Definition txSigner (hash : bytes) : M W string :=
  match SetString10 (chainID c) with
  | None => fail (ENew "could not convert chain id to *big.Int")
  | Some id =>
      let* tx := wrap "getting transaction for hash" (call (TransactionByHash node hash)) in
      let* sender := wrap "getting transaction sender" (of_sum (Sender lib id tx)) in
      ret (Address_String lib sender)
  end.

(** What the three searches share: the one log of an event, its block and its signer. *)
Definition findTx (eventName clientID : string) (sequence : Z) (parse : EthLog -> error + EthLog)
    (filtering expected parsing noSigner : string) : M W BridgeTx :=
  let* events := wrap "getting ics26 router abi" (of_sum (Router_GetAbi lib)) in
  let* topics := wrap "creating topics for filter logs query"
                   (of_sum (MakeTopics lib (events eventName) clientID sequence)) in
  let* logs := wrap filtering (call (FilterLogs node (mkFilterQuery [routerAddress c] topics))) in
  match logs with
  | [] => fail (ESentinel ErrTxNotFound)
  | [log] =>
      let* raw := wrap parsing (of_sum (parse log)) in
      let* header := wrap "getting block header at height"
                       (call (HeaderByNumber node (Some (to_int64 (Log_BlockNumber raw))))) in
      let* signer := try (txSigner (Log_TxHash raw)) in
      match signer with inl _ => logf LError noSigner | inr _ => ret tt end ;;
      ret (mkBridgeTx (Hash_String lib (Log_TxHash raw)) (time_Unix (Header_Time header))
             (match signer with inl _ => "" | inr signer => signer end))
  | _ => fail (ENew expected)
  end.

Definition FindRecvTx (sourceClientID destinationClientID : string) (sequence timeoutTimestamp : Z) : M W BridgeTx :=
  findTx "WriteAcknowledgement" destinationClientID sequence
    (fun log => match ParseWriteAcknowledgement lib log with inl e => inl e | inr ack => inr (WriteAck_Raw ack) end)
    "filtering for write ack logs" "expected to receive 1 log for write ack" "parsing write ack"
    "found recv tx but could not determine the tx's signer, ignoring error and continuing".

Definition FindAckTx (sourceClientID destinationClientID : string) (sequence : Z) : M W BridgeTx :=
  findTx "AckPacket" sourceClientID sequence (ParseAckPacket lib)
    "filtering ack logs" "expected to receive 1 log for ack packet" "parsing ack packet log"
    "found ack tx but could not determine the tx's signer, ignoring error and continuing".

Definition FindTimeoutTx (sourceClientID destinationClientID : string) (sequence : Z) : M W BridgeTx :=
  findTx "TimeoutPacket" sourceClientID sequence (ParseTimeoutPacket lib)
    "filtering for timeout logs" "expected to receive 1 log for timeout" "parsing timeout packet"
    "found timeout tx but could not determine the tx's signer, ignoring error and continuing".

(** ** Submitting *)

Definition selectNonceWithFallback (pendingNonce confirmedNonce : Z) : M W Z :=
  if bool_decide (confirmedNonce < pendingNonce)
     && bool_decide (maxPendingAndConfirmedNonceDifference < pendingNonce - confirmedNonce) then
    logf LWarn "pending nonce too far ahead of confirmed nonce, falling back to confirmed nonce" ;;
    emit (AddTransactionNonceReplaced (chainID c)) ;;
    ret confirmedNonce
  else ret pendingNonce.

(** [new(big.Float).SetInt] has at least 64 bits of precision, [big.NewFloat] 53. *)
Definition adjustGas (multiplier : option float) (amount : Z) : Z :=
  match multiplier with
  | None => amount
  | Some m => big_Int (big_Mul (Z.max 64 (BitLen (Z.abs amount))) (float_of_Z amount) m)
  end.
Definition adjustGasFeeCap (gasFeeCap : Z) : Z := adjustGas (gasFeeCapMultiplier c) gasFeeCap.
Definition adjustGasTipCap (gasTipCap : Z) : Z := adjustGas (gasTipCapMultiplier c) gasTipCap.

Definition newTx (bz : bytes) (address : string) : M W DynamicFeeTx :=
  let to := HexToAddress lib address in
  let* head := wrap "getting latest block header" (call (HeaderByNumber node None)) in
  let* gasTipCap := wrap "getting suggested gas price for chain" (call (SuggestGasTipCap node)) in
  match BaseFee head with
  | None => panic
  | Some baseFee =>
  let gasFeeCap := gasTipCap + baseFee * 2 in
  let* code := wrap "getting pending code at for address" (call (PendingCodeAt node to)) in
  if bool_decide (code = []) then fail (ENew "code no length response when getting pending code for address") else
  let* gasLimit := wrap "estimating gas to deliver msg" (call (EstimateGas node (signerAddress c) to bz)) in
  let* pendingNonce := wrap "getting pending nonce for address" (call (PendingNonceAt node (signerAddress c))) in
  let* confirmedNonce := wrap "getting confirmed nonce for address" (call (NonceAt node (signerAddress c))) in
  let* nonce := selectNonceWithFallback pendingNonce confirmedNonce in
  ret (mkDynamicFeeTx to nonce (adjustGasFeeCap gasFeeCap) (adjustGasTipCap gasTipCap) gasLimit bz)
  end.

Definition signAndSubmitData (bz : bytes) (address : string) : M W bytes :=
  let* tx := wrap "creating tx to sign and submit" (newTx bz address) in
  let* signedTx := wrap "signing tx with address" (call (SignTx node (signerAddress c) tx)) in
  wrap "sending signed transaction" (call (SendTransaction node signedTx)) ;;
  ret (Signed_Hash lib signedTx).

(** The deferred function: the submission time moves when no error was assigned, which
    includes a wait that was cancelled. *)
Definition recordSubmission : M W unit :=
  let* now := Now in modify L (fun s => s <| lastSubmissionTime := now |>).

Definition DeliverTx (bz : bytes) (address : string) : M W BridgeTx :=
  let* s := gets L in
  let* now := Now in
  let* waited := try (call (wait node (time_Sub (lastSubmissionTime s + txSubmissionDelay c) now))) in
  match waited with
  | inl err => recordSubmission ;; fail err
  | inr _ =>
      let* hash := wrap "signing and submitting data" (signAndSubmitData bz address) in
      let* now := Now in
      recordSubmission ;;
      ret (mkBridgeTx (Hash_String lib hash) now (Address_String lib (signerAddress c)))
  end.

(** ** Receipts *)

(** The receipt of a transaction, one request per hash at a time. *)
Definition receiptOnce (txHash : string) : M W (option Receipt) :=
  Do (lens_txOnce L) (AnyString txHash) (call (TransactionReceipt node (HexToHash lib txHash))).

(** [receipt.Field] of a nil receipt panics. *)
Definition deref {A} (p : option A) : M W A := match p with Some a => ret a | None => panic end.

Fixpoint writeAckStatus (events : string -> bytes) (sequence : Z) (sourceClientID destClientID : string)
    (logs : list (option EthLog)) : M W db.Ibcv2WriteAckStatus :=
  match logs with
  | [] => fail (ESentinel ErrWriteAckNotFoundForPacket)
  | None :: rest => writeAckStatus events sequence sourceClientID destClientID rest
  | Some log :: rest =>
      match Topics log with
      | [] => writeAckStatus events sequence sourceClientID destClientID rest
      | topic :: _ =>
          if negb (bool_decide (events "WriteAcknowledgement" = topic))
          then writeAckStatus events sequence sourceClientID destClientID rest else
          let* writeAck := wrap "parsing write packet event from log" (of_sum (ParseWriteAcknowledgement lib log)) in
          let packet := WriteAck_Packet writeAck in
          if bool_decide (Packet_Sequence packet = sequence)
             && bool_decide (Packet_SourceClient packet = sourceClientID)
             && bool_decide (Packet_DestClient packet = destClientID)
          then match Acknowledgements writeAck with
               | [ack] => if bool_decide (ack = ErrorAcknowledgement)
                          then ret db.Ibcv2WriteAckStatusERROR else ret db.Ibcv2WriteAckStatusSUCCESS
               | _ => ret db.Ibcv2WriteAckStatusSUCCESS
               end
          else writeAckStatus events sequence sourceClientID destClientID rest
      end
  end.

Definition PacketWriteAckStatus (hash : string) (sequence : Z) (sourceClientID destClientID : string)
    : M W db.Ibcv2WriteAckStatus :=
  let* events := wrap "getting ics26 router abi" (of_sum (Router_GetAbi lib)) in
  let* receipt := try (receiptOnce hash) in
  match receipt with
  | inl err =>
      if strings_Contains (Error_text err) "not found" then fail (ESentinel ErrTxNotFound)
      else fail (EWrap "getting transaction receipt" err)
  | inr receipt =>
      let* receipt := deref receipt in
      writeAckStatus events sequence sourceClientID destClientID (Logs receipt)
  end.

Fixpoint sendPackets (events : string -> bytes) (logs : list (option EthLog)) : M W (list RouterPacket) :=
  match logs with
  | [] => ret []
  | None :: rest => sendPackets events rest
  | Some log :: rest =>
      match Topics log with
      | [] => sendPackets events rest
      | topic :: _ =>
          if negb (bool_decide (events "SendPacket" = topic)) then sendPackets events rest else
          let* packet := wrap "parsing send packet event" (of_sum (ParseSendPacket lib log)) in
          let* packets := sendPackets events rest in
          ret (packet :: packets)
      end
  end.

Definition packetInfo (timestamp : Z) (p : RouterPacket) : PacketInfo :=
  mkPacketInfo (Packet_Sequence p) (Packet_SourceClient p) (Packet_DestClient p)
    (time_Unix (Packet_TimeoutTimestamp p)) timestamp.

Definition SendPacketsFromTx (sourceChainID txHash : string) : M W (list PacketInfo) :=
  let* events := wrap "getting contract ics26RouterABI for ics_26 router" (of_sum (Router_GetAbi lib)) in
  let* receipt := wrap "getting transaction receipt for tx" (call (TransactionReceipt node (HexToHash lib txHash))) in
  let* receipt := deref receipt in
  let* packets := sendPackets events (Logs receipt) in
  match packets with
  | [] => ret []
  | _ =>
      let* header := wrap "getting block header for height"
                       (call (HeaderByNumber node (Some (Receipt_BlockNumber receipt)))) in
      ret (packetInfo (time_Unix (Header_Time header)) <$> packets)
  end.

Definition ShouldRetryTx (txHash : string) (expiry sentTs : Z) : M W bool :=
  let* receipt := try (receiptOnce txHash) in
  match receipt with
  | inl err =>
      if strings_Contains (Error_text err) "not found" then
        let* header := wrap "getting latest block header" (call (HeaderByNumber node None)) in
        let headerTs := time_Unix (Header_Time header) in
        let expiresAt := sentTs + expiry in
        if time_Before expiresAt headerTs then ret true else fail (ESentinel ErrTxNotFound)
      else fail (EWrap "could not get transaction receipt for tx" err)
  | inr receipt =>
      let* receipt := deref receipt in
      ret (negb (bool_decide (Receipt_Status receipt = 1)))
  end.

Definition TxFee (txHash : string) : M W (option Z) :=
  let* receipt := wrap "getting transaction receipt for tx hash" (receiptOnce txHash) in
  let* receipt := deref receipt in
  ret (Some (EffectiveGasPrice receipt * GasUsed receipt)).

Definition TxExecutionStatus (txHash : string) : M W TxExecutionStatusT :=
  let* receipt := try (receiptOnce txHash) in
  match receipt with
  | inl err =>
      if errors_Is err ethereum_NotFound then fail (EWrap2 "" (ESentinel ErrTxNotFound) ": " err)
      else fail (EWrap "getting transaction receipt for tx hash" err)
  | inr receipt =>
      let* receipt := deref receipt in
      if bool_decide (Receipt_Status receipt = 1) then ret (mkTxExecutionStatus TxExecutionStatusSuccess "")
      else ret (mkTxExecutionStatus TxExecutionStatusFailed "evm transaction execution failed")
  end.

(** ** Finality and time *)

Definition IsTxFinalized (txHash : string) (offset : option Z) : M W bool :=
  let* receipt := try (call (TransactionReceipt node (HexToHash lib txHash))) in
  match receipt with
  | inl err =>
      if strings_Contains (Error_text err) "not found" then fail (ESentinel ErrTxNotFound)
      else fail (EWrap "getting receipt for tx" err)
  | inr receipt =>
      let* receipt := deref receipt in
      match offset with
      | None =>
          let* finalizedHeader := wrap "getting finalized block height"
                                    (call (HeaderByNumber node (Some FinalizedBlockNumber))) in
          ret (bool_decide (to_int64 (Receipt_BlockNumber receipt) <= Header_Number finalizedHeader))
      | Some offset =>
          let* latestHeader := wrap "getting latest block height" (call (HeaderByNumber node None)) in
          let txBlockNumber := to_uint64 (Receipt_BlockNumber receipt) in
          let latestBlockNumber := to_uint64 (Header_Number latestHeader) in
          ret (bool_decide (txBlockNumber <= latestBlockNumber)
               && bool_decide (offset <= latestBlockNumber - txBlockNumber))
      end
  end.

Definition IsTimestampFinalized (timestamp : Z) (offset : option Z) : M W bool :=
  let isFinal header := negb (time_Before (time_Unix (Header_Time header)) timestamp) in
  match offset with
  | None =>
      let* header := wrap "getting finalized block header"
                       (call (HeaderByNumber node (Some FinalizedBlockNumber))) in
      ret (isFinal header)
  | Some offset =>
      let* latestHeader := wrap "getting latest block height" (call (HeaderByNumber node None)) in
      if bool_decide (to_uint64 (Header_Number latestHeader) < offset) then ret false else
      let finalizedHeight := to_uint64 (Header_Number latestHeader) - offset in
      let* header := wrap "getting block header at height"
                       (call (HeaderByNumber node (Some (to_int64 finalizedHeight)))) in
      ret (isFinal header)
  end.

Definition LatestOnChainTimestamp : M W Z :=
  Do (lens_latestTimestampOnce L) (AnyString "key")
    (let* header := wrap "getting latest header on chain" (call (HeaderByNumber node None)) in
     ret (time_Unix (Header_Time header))).

Definition TimestampAtHeight (height : Z) : M W Z :=
  let* header := wrap "getting block header at height" (call (HeaderByNumber node (Some (to_int64 height)))) in
  ret (time_Unix (Header_Time header)).

Definition SignerGasTokenBalance : M W Z := call (BalanceAt node (signerAddress c)).

Definition GetTransactionSender (hash : string) : M W string := txSigner (HexToHash lib hash).

(** ** Loops on a ticker

    [ticks] bounds the number of ticks looked at; [false] is a loop that is still
    waiting then. *)

Fixpoint waitForChain (ticks : nat) (tick now : Z) : M W bool :=
  match ticks with
  | O => ret false
  | S ticks =>
      call (wait node tick) ;;
      let* latest := wrap "getting latest block header" (call (HeaderByNumber node None)) in
      if time_After (time_Unix (Header_Time latest)) now then ret true else
      let* since := Since now in
      (if bool_decide (30 * Second < since)
       then logf LWarn "latest header time is behind current time, waiting... (already been waiting for >30s)"
       else logf LDebug "latest header time is behind current time, waiting...") ;;
      waitForChain ticks Second now
  end.

Definition WaitForChain (ticks : nat) : M W bool :=
  let* now := Now in waitForChain ticks Millisecond now.

Fixpoint waitForTx (ticks : nat) (start : Z) (hash : string) : M W bool :=
  match ticks with
  | O => ret false
  | S ticks =>
      call (wait node (3 * Second)) ;;
      let* receipt := try (call (TransactionReceipt node (HexToHash lib hash))) in
      match receipt with
      | inl _ => waitForTx ticks start hash
      | inr (Some _) => ret true
      | inr None =>
          let* since := Since start in
          if bool_decide (Minute < since) then fail (ENew "timeout after waiting for transaction receipt")
          else waitForTx ticks start hash
      end
  end.

Definition WaitForTx (ticks : nat) (hash : string) : M W bool :=
  let* start := Now in waitForTx ticks start hash.

(** A wait for a transaction that the context ends after [ticks] ticks. *)
Definition waitOrTimeout (b : bool) : M W unit :=
  if b then ret tt else fail (ESentinel context_DeadlineExceeded).

Definition SendTransfer (ticks : nat) (ics20Address clientID denom receiver : string) (amount : Z)
    (memo : string) (timeout : Z) : M W string :=
  let transferAddress := HexToAddress lib ics20Address in
  wrap "creating ics20 transfer contract binding" (of_sum (NewContract lib "ics20_transfer" transferAddress)) ;;
  wrap "creating erc20 contract for denom" (of_sum (NewContract lib "erc20" (HexToAddress lib denom))) ;;
  let* currentApproval := wrap "getting current allowance for ics20 transfer"
    (call (Allowance node (HexToAddress lib denom) (signerAddress c) transferAddress)) in
  (if bool_decide (currentApproval < amount) then
     let* tx := wrap "approving to be spent by ics20 transfer"
                  (call (Approve node (HexToAddress lib denom) transferAddress amount)) in
     wrap "waiting for receipt of erc20 approval tx"
       (let* done := WaitForTx ticks (Hash_String lib tx) in waitOrTimeout done)
   else ret tt) ;;
  let* now := Now in
  let msg := mkSendTransferMsg (HexToAddress lib denom) amount receiver clientID "transfer"
               (to_uint64 ((now + timeout) / Second)) memo in
  let* tx := wrap "sending transfer" (call (ICS20_SendTransfer node transferAddress msg)) in
  wrap "waiting for receipt of send transfer tx"
    (let* done := WaitForTx ticks (Hash_String lib tx) in waitOrTimeout done) ;;
  ret (Hash_String lib tx).

Definition IFTTransfer (ticks : nat) (iftAddress clientID receiver : string) (amount timeout : Z) : M W string :=
  let address := HexToAddress lib iftAddress in
  wrap "creating ift contract binding" (of_sum (NewContract lib "ift" address)) ;;
  let* now := Now in
  let timeoutTimestamp := to_uint64 ((now + timeout) / Second) in
  let* tx := wrap "sending ift transfer" (call (IFT_Transfer node address clientID receiver amount timeoutTimestamp)) in
  wrap "waiting for receipt of ift transfer tx"
    (let* done := WaitForTx ticks (Hash_String lib tx) in waitOrTimeout done) ;;
  ret (Hash_String lib tx).

Definition ClientState (clientID : string) : M W ClientStateT :=
  let* addr := wrap "getting client" (call (Router_GetClient node clientID)) in
  if bool_decide (addr = zero_address) then fail (ENew "could not find client") else
  wrap "creating new instance of sp1 ics07 tendermint contract"
    (of_sum (NewContract lib "sp1_ics07_tendermint" addr)) ;;
  let* '(trustingPeriod, revisionHeight) :=
    wrap "getting tendermint client state" (call (Tendermint_ClientState node addr)) in
  ret (mkClientState None (Some (mkTendermintClientState (to_int64 (trustingPeriod * Second)) revisionHeight))).

(** The client as the interface the rest of the program uses. *)
Definition bridge (ticks : nat) : BridgeClient W := {|
  World.IsPacketReceived := fun id seq => as_X (IsPacketReceived id seq);
  World.IsPacketCommitted := fun id seq => as_X (IsPacketCommitted id seq);
  World.FindRecvTx := fun src dst seq ts => as_X (FindRecvTx src dst seq ts);
  World.FindAckTx := fun src dst seq => as_X (FindAckTx src dst seq);
  World.FindTimeoutTx := fun src dst seq => as_X (FindTimeoutTx src dst seq);
  World.DeliverTx := fun bz address => as_X (DeliverTx bz address);
  World.PacketWriteAckStatus := fun hash seq src dst => as_X (PacketWriteAckStatus hash seq src dst);
  World.SendPacketsFromTx := fun chain hash => as_X (SendPacketsFromTx chain hash);
  World.ShouldRetryTx := fun hash expiry sentTs => as_X (ShouldRetryTx hash expiry sentTs);
  World.WaitForChain := as_X (let* done := WaitForChain ticks in waitOrTimeout done);
  World.IsTxFinalized := fun hash offset => as_X (IsTxFinalized hash offset);
  World.IsTimestampFinalized := fun ts offset => as_X (IsTimestampFinalized ts offset);
  ClientChainType := ChainTypeEVM;
  World.SignerGasTokenBalance := as_X SignerGasTokenBalance;
  World.TxFee := fun hash => as_X (TxFee hash);
  World.TxExecutionStatus := fun hash => as_X (TxExecutionStatus hash);
  World.GetTransactionSender := fun hash => as_X (GetTransactionSender hash);
|}.

End Methods.

(** [NewEVMBridgeClient]: the signer must give an address of 20 bytes. *)
Definition NewEVMBridgeClient (lib : EVMLib) (chainID ics26RouterContractAddress : string) (signerAddress : bytes)
    (gasFeeCapMultiplier gasTipCapMultiplier : option float) (txSubmissionDelay : option Z)
    : error + (EVMBridgeClient * EVMState) :=
  let delay := default (2 * Second) txSubmissionDelay in
  let routerAddress := HexToAddress lib ics26RouterContractAddress in
  match NewContract lib "ics26_router" routerAddress with
  | inl err => inl (EWrap "creating contract binding for ics26 router" err)
  | inr _ =>
      if negb (bool_decide (length signerAddress = 20%nat)) then inl (ENew "invalid signer address length") else
      inr (mkEVMBridgeClient chainID routerAddress signerAddress delay gasFeeCapMultiplier gasTipCapMultiplier,
           mkEVMState zero_time (NewOnceWithKey Minute (5 * Second))
             (NewOnceWithKey (12 * Second) (200 * Millisecond)))
  end.

End EVM.
