(* ===== verification/CosmosClient.v ===== *)
(** * The bridge client of Cosmos chains ([src/shared/bridges/ibcv2/cosmos_bridge_client.go])

    Every method of [CosmosBridgeClient], over a node ([CosmosNode]: the CometBFT RPC
    client, the gRPC queries and the signer) and the functions of the Cosmos SDK it uses
    ([CosmosLib]: protobuf, bech32, coins, the transaction codec).  As for EVM chains what the
    client keeps is a part of the world, and [bridge] is the client as the rest of the
    program uses it. *)

From S2P Require Import Prelude Db Transfer Config World Logic BatchProcessors Once GoLib GoFloat EvmClient.

(** ** Data of the Cosmos SDK *)

Record Attribute := mkAttribute {
  Key : string;
  Value : string;
}.

Record Event := mkEvent {
  Event_Type : string;
  Attributes : list Attribute;
}.

Record ResultTx := mkResultTx {
  Tx_Hash : bytes;
  Tx_Height : Z;
  Tx_Code : Z;
  Tx_Log : string;
  Tx_Events : list Event;
  Tx_Bytes : bytes;
}.

Record ResultTxSearch := mkResultTxSearch {
  TotalCount : Z;
  Txs : list ResultTx;
}.

(** The messages the client tells apart. *)
Inductive Msg :=
  | MsgUpdateClient (body : bytes)
  | MsgRecvPacket (signer : string) (body : bytes)
  | MsgAcknowledgement (signer : string) (body : bytes)
  | MsgTimeout (signer : string) (body : bytes)
  | MsgOther (typeURL : string) (body : bytes).

Definition isUpdateClient (m : Msg) : bool := match m with MsgUpdateClient _ => true | _ => false end.

Definition Coin : Type := string * Z.

(** The part of a transaction that its builder sets before it is signed. *)
Record CosmosTx := mkCosmosTx {
  tx_Msgs : list Msg;
  tx_GasLimit : Z;
  tx_Fee : list Coin;
}.

(** A decoded transaction; [decoded_Fee] is [None] when it is not a [sdk.FeeTx]. *)
Record DecodedTx := mkDecodedTx {
  decoded_Msgs : list Msg;
  decoded_Fee : option (list Coin);
}.

#[export] Instance eta_PacketInfo : Eta PacketInfo := fun p =>
  mkPacketInfo (Sequence p) (SourceClient p) (DestinationClient p) (TimeoutTimestamp p) (PacketTimestamp p).

Record ResultBroadcastTx := mkResultBroadcastTx {
  Broadcast_Code : Z;
  Broadcast_Log : string;
  Broadcast_Hash : bytes;
}.

(** ** What the client calls *)

(** An [sdk.Tx] and a [client.TxBuilder] are pointers to objects of the SDK. *)
Definition Ref : Type := nat.

Record SignatureV2 := mkSignatureV2 {
  sig_PubKey : bytes;
  sig_Mode : Z;
  sig_Signature : bytes;
  sig_Sequence : Z;
}.

Record SignerData := mkSignerData {
  data_ChainID : string;
  data_AccountNumber : Z;
  data_Sequence : Z;
}.

(** [client.TxConfig], the methods of the builders it makes, and the two functions of the
    SDK that work on them. *)
Record TxConfig (W : Type) := mkTxConfig {
  NewTxBuilder : W -> Ref * W;
  WrapTxBuilder : Ref -> X W Ref;
  SetMsgs : Ref -> list Msg -> X W unit;
  SetGasLimit : Ref -> Z -> W -> W;
  SetFeeAmount : Ref -> list Coin -> W -> W;
  SetSignatures : Ref -> SignatureV2 -> X W unit;
  GetTx : Ref -> W -> Ref * W;
  TxEncoder : Ref -> X W bytes;
  TxJSONEncoder : Ref -> X W bytes;
  DefaultMode : Z;
  GetSignBytesAdapter : Z -> SignerData -> Ref -> X W bytes;
  SignWithPrivKey : Z -> SignerData -> Ref -> bytes -> Z -> X W SignatureV2;
}.
Arguments NewTxBuilder {W} t.
Arguments WrapTxBuilder {W} t.
Arguments SetMsgs {W} t.
Arguments SetGasLimit {W} t.
Arguments SetFeeAmount {W} t.
Arguments SetSignatures {W} t.
Arguments GetTx {W} t.
Arguments TxEncoder {W} t.
Arguments TxJSONEncoder {W} t.
Arguments DefaultMode {W} t.
Arguments GetSignBytesAdapter {W} t.
Arguments SignWithPrivKey {W} t.

Record CosmosNode (W : Type) := mkCosmosNode {
  PacketReceipt : string -> Z -> X W bool;
  PacketCommitment : string -> Z -> X W unit;
  TxSearch : string -> X W ResultTxSearch;
  (** the time of the header at a height or the latest one, nil included *)
  Header : option Z -> X W (option Z);
  Tx : bytes -> X W (option ResultTx);
  AccountInfo : string -> X W (option (Z * Z));
  Simulate : bytes -> X W (option Z);
  BroadcastTxSync : bytes -> X W ResultBroadcastTx;
  Balance : string -> string -> X W (option Z);
  QueryClientState : string -> X W (option (string * option bytes));
  SignerAddress : W -> bytes * W;
  (** [signer.Sign] of a [CosmosTransaction] of this transaction, account number and
      sequence: the transaction in what it returns, [None] when that is of another type *)
  Sign : string -> Ref -> Z -> Z -> X W (option Ref);
  txConfig : TxConfig W;
  (** [time.After] and a tick of a ticker, or [ctx.Done()] *)
  cosmos_wait : Z -> X W unit;
  Sleep : Z -> W -> W;
}.
Arguments PacketReceipt {W} c.
Arguments PacketCommitment {W} c.
Arguments TxSearch {W} c.
Arguments Header {W} c.
Arguments Tx {W} c.
Arguments AccountInfo {W} c.
Arguments Simulate {W} c.
Arguments BroadcastTxSync {W} c.
Arguments Balance {W} c.
Arguments QueryClientState {W} c.
Arguments SignerAddress {W} c.
Arguments Sign {W} c.
Arguments txConfig {W} c.
Arguments cosmos_wait {W} c.
Arguments Sleep {W} c.

Record CosmosLib := mkCosmosLib {
  HexBytes_String : bytes -> string;
  Bech32 : string -> bytes -> error + string;
  UnmarshalTxBody : bytes -> error + list bytes;
  UnpackAny : bytes -> error + Msg;
  UnmarshalAcknowledgement : bytes -> error + list bytes;
  UnmarshalWasmState : bytes -> error + bytes;
  JSONWasmState : bytes -> error + Z;
  TxDecoder : bytes -> error + DecodedTx;
  (** [sdk.NewCoin] and [sdk.NewCoins]: [None] when they panic *)
  NewCoin : string -> Z -> option Coin;
  NewCoins : list Coin -> option (list Coin);
  (** [Coins.AmountOf]: [None] when it panics; the amount may be a nil [Int] *)
  AmountOf : list Coin -> string -> option (option Z);
  (** [status.FromError]: the code of a gRPC status *)
  FromError : error -> option Z;
  (** the conversion of a float64 that is not below [2 ^ 64] *)
  uint64_of_large_float : Z -> Z;
}.

(** ** The client *)

Record CosmosBridgeClient := mkCosmosBridgeClient {
  chainID : string;
  prefix : string;
  gasPrice : float;
  feeDenom : string;
  feeAmount : Z;
  txSubmissionDelay : Z;
}.

Record CosmosState := mkCosmosState {
  txOnce : OnceWithKey (option ResultTx);
  lastSubmissionTime : Z;
  latestTimestampOnce : OnceWithKey Z;
}.

#[export] Instance eta_CosmosState : Eta CosmosState := fun s =>
  mkCosmosState (txOnce s) (lastSubmissionTime s) (latestTimestampOnce s).

Definition lens_txOnce {W} (L : Lens W CosmosState) : Lens W (OnceWithKey (option ResultTx)) :=
  mkLens (fun w => txOnce (view L w)) (fun o w => set L ((view L w) <| txOnce := o |>) w).
Definition lens_latestTimestampOnce {W} (L : Lens W CosmosState) : Lens W (OnceWithKey Z) :=
  mkLens (fun w => latestTimestampOnce (view L w)) (fun o w => set L ((view L w) <| latestTimestampOnce := o |>) w).

#[export] Instance lens_cosmos_txOnce_lawful {W} (L : Lens W CosmosState) `{!Lawful L} : Lawful (lens_txOnce L).
Proof.
  split; intros; cbn; rewrite ?view_set; try done.
  - destruct (view L w) eqn:Ev; cbn. rewrite <- Ev. apply set_view.
  - by rewrite set_set.
Qed.
#[export] Instance lens_cosmos_latest_lawful {W} (L : Lens W CosmosState) `{!Lawful L} :
  Lawful (lens_latestTimestampOnce L).
Proof.
  split; intros; cbn; rewrite ?view_set; try done.
  - destruct (view L w) eqn:Ev; cbn. rewrite <- Ev. apply set_view.
  - by rewrite set_set.
Qed.

(** ** Event queries *)

Definition attributeKeyPacketSourceClient : string := "packet_source_client".
Definition attributeKeyPacketDestClient : string := "packet_dest_client".
Definition attributeKeyPacketSequence : string := "packet_sequence".
Definition attributeKeyPacketTimeoutTimestamp : string := "packet_timeout_timestamp".
Definition eventTypeRecvPacket : string := "recv_packet".
Definition eventTypeAckPacket : string := "acknowledge_packet".
Definition eventTypeTimeoutPacket : string := "timeout_packet".
Definition eventTypeWriteAck : string := "write_acknowledgement".
Definition eventTypeSendPacket : string := "send_packet".

Definition quoted (event key value : string) : string := event +:+ "." +:+ key +:+ "='" +:+ value +:+ "'".
Definition numeric (event key : string) (value : Z) : string := event +:+ "." +:+ key +:+ "=" +:+ pretty value.

Definition packetQuery (event sourceClientID destClientID : string) (sequence : Z) (more : list string) : string :=
  strings_Join ([quoted event attributeKeyPacketSourceClient sourceClientID;
                 quoted event attributeKeyPacketDestClient destClientID;
                 numeric event attributeKeyPacketSequence sequence] ++ more) " AND ".

(** [codes.NotFound] *)
Definition codes_NotFound : Z := 5.

Definition hexError : error := ENew "encoding/hex: invalid".

Module Cosmos.
Section Methods.
Context {W : Type} {E : Env W} (lib : CosmosLib) (node : CosmosNode W) (c : CosmosBridgeClient) (L : Lens W CosmosState).

(** ** Queries *)

Definition IsPacketReceived (destinationClientID : string) (sequence : Z) : M W bool :=
  wrap "querying for packet receipt" (call (PacketReceipt node destinationClientID sequence)).

Definition IsPacketCommitted (sourceClientID : string) (sequence : Z) : M W bool :=
  let* resp := try (call (PacketCommitment node sourceClientID sequence)) in
  match resp with
  | inl err =>
      if bool_decide (FromError lib err = Some codes_NotFound) then ret false
      else fail (EWrap "querying for packet commitment" err)
  | inr _ => ret true
  end.

(** The signer of the first packet message. *)
Fixpoint firstSigner (msgs : list Msg) : option string :=
  match msgs with
  | [] => None
  | MsgRecvPacket signer _ :: _ | MsgAcknowledgement signer _ :: _ | MsgTimeout signer _ :: _ => Some signer
  | _ :: rest => firstSigner rest
  end.

Definition txSigner (result : ResultTx) : error + string :=
  match TxDecoder lib (Tx_Bytes result) with
  | inl err => inl (EWrap "decoding tx result" err)
  | inr decoded =>
      match firstSigner (decoded_Msgs decoded) with
      | Some signer => inr signer
      | None => inl (ENew "expected recv packet, ack packet, or timeout packet msg but found none")
      end
  end.

(** A header that must not be nil. *)
Definition headerAt (height : option Z) (fetching isNil : string) : M W Z :=
  let* header := wrap fetching (call (CosmosClient.Header node height)) in
  match header with
  | None => fail (ENew isNil)
  | Some t => ret t
  end.

(** What the three searches share: the one transaction of a query, its block and its signer. *)
Definition findTx (query searching fetching isNil noSigner : string) : M W BridgeTx :=
  let* searchResult := wrap searching (call (TxSearch node query)) in
  if bool_decide (TotalCount searchResult = 0) then fail (ESentinel ErrTxNotFound) else
  if negb (bool_decide (TotalCount searchResult = 1)) then fail (ENew "expected only 1 tx") else
  match Txs searchResult with
  | [] => panic
  | tx :: _ =>
      let* timestamp := headerAt (Some (Tx_Height tx)) fetching isNil in
      match txSigner tx with inl _ => logf LError noSigner | inr _ => ret tt end ;;
      ret (mkBridgeTx (HexBytes_String lib (Tx_Hash tx)) timestamp
             (match txSigner tx with inl _ => "" | inr signer => signer end))
  end.

Definition FindRecvTx (sourceClientID destClientID : string) (sequence timeoutTimestamp : Z) : M W BridgeTx :=
  findTx (packetQuery eventTypeRecvPacket sourceClientID destClientID sequence
            [numeric eventTypeRecvPacket attributeKeyPacketTimeoutTimestamp (timeoutTimestamp / Second)])
    "searching for recv tx" "fetching block header at recv tx height"
    "fetched block header at recv tx height without err but header was nil"
    "found recv tx but could not determine the tx's signer, ignoring error and continuing".

Definition FindAckTx (sourceClientID destClientID : string) (sequence : Z) : M W BridgeTx :=
  findTx (packetQuery eventTypeAckPacket sourceClientID destClientID sequence [])
    "searching for ack tx" "fetching block header at ack tx height"
    "fetched block header at ack tx height without err but header was nil"
    "found ack tx but could not determine the tx's signer, ignoring error and continuing".

Definition FindTimeoutTx (sourceClientID destClientID : string) (sequence : Z) : M W BridgeTx :=
  findTx (packetQuery eventTypeTimeoutPacket sourceClientID destClientID sequence [])
    "searching for timeout tx" "fetching block header at timeout tx height"
    "fetched block header at timeout tx height without err but header was nil"
    "found timeout tx but could not determine the tx's signer, ignoring error and continuing".

(** ** Submitting *)

(** A call that has no error to return. *)
Definition step {A} (f : W -> A * W) : M W A := fun s =>
  let '(a, w) := f (world s) in (Ok a, mkSys w (tables s) (trace s)).

Definition Address : M W bytes := step (SignerAddress node).

(** The signer's address in the chain's prefix; the text of the error asks for the
    address once more. *)
Definition bech32Address : M W string :=
  let* address := Address in
  match Bech32 lib (prefix c) address with
  | inl err => Address ;; fail (EWrap "converting and encoding signer address to bech32" err)
  | inr a => ret a
  end.

(** A call that panics on [None]. *)
Definition must {A} (p : option A) : M W A := match p with Some a => ret a | None => panic end.

Definition getTxFee (gasLimit : Z) : M W Coin :=
  if bool_decide (feeDenom c = "") then fail (ENew "fee denom not set for chain") else
  if float_pos (gasPrice c) && bool_decide (0 < feeAmount c)
  then fail (ENew "gas price and fee amount cannot both be set for chain") else
  if float_pos (gasPrice c) then
    let fee := big_Int (big_Mul 64 (gasPrice c) (float_of_Z (to_int64 gasLimit))) in
    must (NewCoin lib (feeDenom c) (fee + 1))
  else if bool_decide (0 < feeAmount c) then must (NewCoin lib (feeDenom c) (feeAmount c))
  else must (NewCoin lib (feeDenom c) 0).

(** [uint64(math.Ceil(float64(gasUsed) * 1.5))] *)
Definition gasLimitOf (gasUsed : Z) : Z :=
  let limit := math_Ceil (big_Mul 53 (round 53 (float_of_Z gasUsed)) (mkFloat 3 (-1))) in
  if bool_decide (limit < 2 ^ 64) then limit else uint64_of_large_float lib limit.

(** Signing what the builder holds, and encoding the result; the type assertion on it
    panics. *)
Definition signAndEncode (txBuilder : Ref) (account : Z * Z) : M W bytes :=
  let* tx := step (GetTx (txConfig node) txBuilder) in
  let* signedTx := wrap "signing tx" (call (Sign node (chainID c) tx account.1 account.2)) in
  let* signedTx := must signedTx in
  wrap "encoding signed tx" (call (TxEncoder (txConfig node) signedTx)).

Definition getEstimatedGasLimit (txBuilder : Ref) (account : Z * Z) : M W Z :=
  let* signedTxBytes := signAndEncode txBuilder account in
  let* res := wrap "simulating tx to get estimated gas usage" (call (Simulate node signedTxBytes)) in
  match res with
  | None => fail (ENew "got nil gas info after simulating tx")
  | Some gasUsed => ret (gasLimitOf gasUsed)
  end.

Definition signAndSubmitMessages (msgs : list Msg) : M W bytes :=
  let* address := bech32Address in
  let* account := wrap "getting account info for cosmos signer" (call (AccountInfo node address)) in
  match account with
  | None => fail (ENew "got no info for cosmos signer account")
  | Some accountInfo =>
      let* txBuilder := step (NewTxBuilder (txConfig node)) in
      wrap "setting message in tx" (call (SetMsgs (txConfig node) txBuilder msgs)) ;;
      let* gasLimit := wrap "getting estimated gas limit for tx" (getEstimatedGasLimit txBuilder accountInfo) in
      step (fun w => (tt, SetGasLimit (txConfig node) txBuilder gasLimit w)) ;;
      (if bool_decide (feeDenom c = "") then ret tt
       else
         let* fee := wrap "getting tx fee" (getTxFee gasLimit) in
         let* fees := must (NewCoins lib [fee]) in
         step (fun w => (tt, SetFeeAmount (txConfig node) txBuilder fees w))) ;;
      let* signedTxBytes := signAndEncode txBuilder accountInfo in
      let* result := wrap "broadcasting tx synchronously from signer" (call (BroadcastTxSync node signedTxBytes)) in
      if bool_decide (Broadcast_Code result = 0) then ret (Broadcast_Hash result)
      else fail (ENew "broadcasting cosmos tx from signer returned error code")
  end.

Fixpoint unpackMsgs (anys : list bytes) : error + list Msg :=
  match anys with
  | [] => inr []
  | any :: rest =>
      match UnpackAny lib any with
      | inl err => inl (EWrap "unpacking msg into sdk.Msg" err)
      | inr m => match unpackMsgs rest with inl err => inl err | inr msgs => inr (m :: msgs) end
      end
  end.

Definition sleep (d : Z) : M W unit := fun s => (Ok tt, mkSys (Sleep node d (world s)) (tables s) (trace s)).

(** The loop over the messages when more than one updates a client. *)
Fixpoint submitUpdates (msgs nonClientUpdateMsgs : list Msg) : M W (list Msg) :=
  match msgs with
  | [] => ret nonClientUpdateMsgs
  | m :: rest =>
      if negb (isUpdateClient m) then submitUpdates rest (nonClientUpdateMsgs ++ [m]) else
      wrap "submitting individual update client message" (signAndSubmitMessages [m]) ;;
      logf LInfo "submitted individual client update, sleeping to submit next tx" ;;
      sleep (txSubmissionDelay c) ;;
      submitUpdates rest nonClientUpdateMsgs
  end.

Definition signAndSubmit (bz : bytes) : M W bytes :=
  let* messages := wrap "unmarshaling tx bytes" (of_sum (UnmarshalTxBody lib bz)) in
  if bool_decide (messages = []) then fail (ENew "no messages to relay") else
  let* msgs := of_sum (unpackMsgs messages) in
  let numClientUpdates := length (filter isUpdateClient msgs) in
  let* msgs :=
    (if bool_decide (1 < numClientUpdates)%nat then
       logf LWarn "found update client messages tx, submitting them on chain individually" ;;
       let* nonClientUpdateMsgs := submitUpdates msgs [] in
       logf LInfo "submitted all individual client updates" ;;
       ret nonClientUpdateMsgs
     else ret msgs) in
  signAndSubmitMessages msgs.

Definition recordSubmission : M W unit :=
  let* now := Now in modify L (fun s => s <| lastSubmissionTime := now |>).

Definition DeliverTx (bz : bytes) (address : string) : M W BridgeTx :=
  let* s := gets L in
  let* now := Now in
  let* waited := try (call (cosmos_wait node (time_Sub (lastSubmissionTime s + txSubmissionDelay c) now))) in
  match waited with
  | inl err => recordSubmission ;; fail err
  | inr _ =>
      let* address := bech32Address in
      let* hash := wrap "signing and submitting recv tx" (signAndSubmit bz) in
      let* now := Now in
      recordSubmission ;;
      ret (mkBridgeTx (HexBytes_String lib hash) now address)
  end.

(** ** Results of transactions *)

(** [hex.DecodeString] of a hash. *)
Definition decodeHash (txHash : string) : error + bytes :=
  match hex_DecodeString txHash with Some bz => inr bz | None => inl hexError end.

(** The result of a transaction, one request per hash at a time. *)
Definition resultOnce (txHash : string) (hashBytes : bytes) : M W (option ResultTx) :=
  Do (lens_txOnce L) (AnyString txHash) (call (CosmosClient.Tx node hashBytes)).

Definition parseWriteAckStatusForPacket (writeAckEvent : Event) : error + db.Ibcv2WriteAckStatus :=
  match list_find (fun a => Key a = "encoded_acknowledgement_hex") (Attributes writeAckEvent) with
  | None => inr db.Ibcv2WriteAckStatusUNKNOWN
  | Some (_, attribute) =>
      match hex_DecodeString (Value attribute) with
      | None => inl (EWrap2 "" (ESentinel ErrWriteAckDecoding) ":" hexError)
      | Some protoAckBytes =>
          match UnmarshalAcknowledgement lib protoAckBytes with
          | inl err => inl (EWrap2 "" (ESentinel ErrWriteAckDecoding) ":" err)
          | inr [ack] =>
              inr (if bool_decide (ack = ErrorAcknowledgement)
                   then db.Ibcv2WriteAckStatusERROR else db.Ibcv2WriteAckStatusSUCCESS)
          | inr _ => inr db.Ibcv2WriteAckStatusSUCCESS
          end
      end
  end.

Definition hasAttribute (key value : string) (attributes : list Attribute) : bool :=
  existsb (fun a => bool_decide (Key a = key) && bool_decide (Value a = value)) attributes.

(** [strconv.Itoa(int(sequence))] for the sequence. *)
Definition writeAckMatches (sequence : Z) (sourceClientID destClientID : string) (event : Event) : bool :=
  bool_decide (Event_Type event = eventTypeWriteAck)
  && hasAttribute attributeKeyPacketSequence (pretty (to_int64 sequence)) (Attributes event)
  && hasAttribute attributeKeyPacketSourceClient sourceClientID (Attributes event)
  && hasAttribute attributeKeyPacketDestClient destClientID (Attributes event).

Definition PacketWriteAckStatus (hash : string) (sequence : Z) (sourceClientID destClientID : string)
    : M W db.Ibcv2WriteAckStatus :=
  let* hashBytes := wrap "hex decoding tx hash string" (of_sum (decodeHash hash)) in
  let* txResult := try (resultOnce hash hashBytes) in
  match txResult with
  | inl err =>
      if strings_Contains (Error_text err) "not found" then fail (ESentinel ErrTxNotFound)
      else fail (EWrap "getting tx's result" err)
  | inr txResult =>
      let* txResult := must txResult in
      match list_find (writeAckMatches sequence sourceClientID destClientID) (Tx_Events txResult) with
      | Some (_, event) => of_sum (parseWriteAckStatusForPacket event)
      | None => fail (ESentinel ErrWriteAckNotFoundForPacket)
      end
  end.

(** The attributes of one [send_packet] event, the later ones over the earlier. *)
Fixpoint readPacket (attributes : list Attribute) (packet : PacketInfo) : error + PacketInfo :=
  match attributes with
  | [] => inr packet
  | a :: rest =>
      if bool_decide (Key a = attributeKeyPacketSequence) then
        match strconv_Atoi (Value a) with
        | None => inl (ENew "converting packet sequence to int")
        | Some sequence => readPacket rest (packet <| Sequence := to_uint64 sequence |>)
        end
      else if bool_decide (Key a = attributeKeyPacketSourceClient) then
        readPacket rest (packet <| SourceClient := Value a |>)
      else if bool_decide (Key a = attributeKeyPacketDestClient) then
        readPacket rest (packet <| DestinationClient := Value a |>)
      else if bool_decide (Key a = attributeKeyPacketTimeoutTimestamp) then
        match strconv_Atoi (Value a) with
        | None => inl (ENew "converting attribute timeout ts to int")
        | Some unixts => readPacket rest (packet <| TimeoutTimestamp := time_Unix unixts |>)
        end
      else readPacket rest packet
  end.

(** [var packet PacketInfo] *)
Definition zeroPacket : PacketInfo := mkPacketInfo 0 "" "" zero_time zero_time.

Fixpoint sendPackets (events : list Event) : error + list PacketInfo :=
  match events with
  | [] => inr []
  | event :: rest =>
      if negb (bool_decide (Event_Type event = eventTypeSendPacket)) then sendPackets rest else
      match readPacket (Attributes event) zeroPacket with
      | inl err => inl err
      | inr packet =>
          match sendPackets rest with
          | inl err => inl err
          | inr packets =>
              if bool_decide (SourceClient packet = "") || bool_decide (DestinationClient packet = "")
              then inr packets else inr (packet :: packets)
          end
      end
  end.

Definition SendPacketsFromTx (sourceChainID txHash : string) : M W (list PacketInfo) :=
  let* hashBytes := wrap "hex decoding tx hash" (of_sum (decodeHash txHash)) in
  let* txResult := wrap "getting tx result" (call (CosmosClient.Tx node hashBytes)) in
  let* txResult := must txResult in
  let* packets := of_sum (sendPackets (Tx_Events txResult)) in
  match packets with
  | [] => ret []
  | _ =>
      let* timestamp := headerAt (Some (Tx_Height txResult)) "getting header for height" "got nil header at height" in
      ret ((fun packet => packet <| PacketTimestamp := timestamp |>) <$> packets)
  end.

Definition ShouldRetryTx (txHash : string) (expiry sentTs : Z) : M W bool :=
  let* txHashBytes := wrap "decoding hex tx hash to bytes" (of_sum (decodeHash txHash)) in
  let* resp := try (resultOnce txHash txHashBytes) in
  match resp with
  | inl err =>
      if strings_Contains (Error_text err) "not found" then
        let* headerTs := headerAt None "getting latest block header"
                           "fetched block header at latest height without err but header was nil" in
        let expiresAt := sentTs + expiry in
        if time_Before expiresAt headerTs then ret true else fail (ESentinel ErrTxNotFound)
      else fail (EWrap "fetching tx on chain" err)
  | inr resp =>
      let* resp := must resp in
      ret (negb (bool_decide (Tx_Code resp = 0)))
  end.

Definition TxFee (txHash : string) : M W (option Z) :=
  let* hashBytes := wrap "hex decoding tx hash string" (of_sum (decodeHash txHash)) in
  let* result := wrap "getting results for tx hash" (resultOnce txHash hashBytes) in
  let* result := must result in
  let* decodedTx := wrap "decoding tx result" (of_sum (TxDecoder lib (Tx_Bytes result))) in
  match decoded_Fee decodedTx with
  | None => fail (ENew "could not convert decoded tx to sdk.FeeTx")
  | Some coins =>
      let* fee := must (AmountOf lib coins (feeDenom c)) in
      ret (Some (default 0 fee))
  end.

Definition TxExecutionStatus (txHash : string) : M W TxExecutionStatusT :=
  let* hashBytes := wrap "hex decoding tx hash string" (of_sum (decodeHash txHash)) in
  let* result := try (resultOnce txHash hashBytes) in
  match result with
  | inl err =>
      if strings_Contains (Error_text err) "not found" then fail (EWrap2 "" (ESentinel ErrTxNotFound) ": " err)
      else fail (EWrap "getting results for tx hash" err)
  | inr result =>
      let* result := must result in
      if bool_decide (Tx_Code result = 0) then ret (mkTxExecutionStatus TxExecutionStatusSuccess "")
      else ret (mkTxExecutionStatus TxExecutionStatusFailed (Tx_Log result))
  end.

(** ** Finality and time *)

Definition IsTxFinalized (txHash : string) (offset : option Z) : M W bool := ret true.

Definition IsTimestampFinalized (timestamp : Z) (offset : option Z) : M W bool :=
  let* headerTs := headerAt None "getting latest header" "got nil header when fetching latest header" in
  ret (time_After headerTs timestamp).

Definition LatestOnChainTimestamp : M W Z :=
  Do (lens_latestTimestampOnce L) (AnyString "key")
    (headerAt None "getting latest header" "got nil header when fetching latest header").

Definition TimestampAtHeight (height : Z) : M W Z :=
  headerAt (Some (to_int64 height)) "fetching block header at height"
    "fetched block header at height without err but header was nil".

Definition SignerGasTokenBalance : M W Z :=
  let* address := bech32Address in
  let* balance := wrap "getting balance for signer on chain" (call (Balance node address (feeDenom c))) in
  match balance with
  | None => fail (ENew "got nil balance for signer on chain")
  | Some amount => ret amount
  end.

Definition GetTransactionSender (hash : string) : M W string := fail (ENew "GetTransactionSender not implemented").

(** [panic("unimplemented")] *)
Definition SendTransfer (ics20Address clientID denom receiver : string) (amount : Z) (memo : string)
    (timeout : Z) : M W string := panic.
Definition IFTTransfer (iftAddress clientID receiver : string) (amount timeout : Z) : M W string := panic.

Definition ClientState (clientID : string) : M W ClientStateT :=
  let* state := wrap "querying for state of client" (call (QueryClientState node clientID)) in
  match state with
  | None => fail (ENew "got nil client state")
  | Some (_, None) => fail (ENew "got nil client state value")
  | Some (typeUrl, Some value) =>
      if bool_decide (typeUrl = "/ibc.lightclients.wasm.v1.ClientState") then
        let* data := wrap "proto decoding full wasm client state" (of_sum (UnmarshalWasmState lib value)) in
        let* number := wrap "json decoding wasm client state data" (of_sum (JSONWasmState lib data)) in
        ret (mkClientState (Some number) None)
      else fail (ENew "unsupported client state type url")
  end.

(** ** Loops on a ticker, bounded as for EVM chains *)

Fixpoint waitForChain (ticks : nat) (tick now : Z) : M W bool :=
  match ticks with
  | O => ret false
  | S ticks =>
      call (cosmos_wait node tick) ;;
      let* latest := headerAt None "getting latest block header" "latest header was nil" in
      if time_After latest now then ret true else
      let* since := Since now in
      (if bool_decide (30 * Second < since)
       then logf LWarn "latest header time is behind current time, waiting... (already been waiting for >30s)"
       else logf LDebug "latest header time is behind current time, waiting...") ;;
      waitForChain ticks Second now
  end.

Definition WaitForChain (ticks : nat) : M W bool :=
  let* now := Now in waitForChain ticks Millisecond now.

Fixpoint waitForTx (ticks : nat) (start : Z) (hashBytes : bytes) : M W bool :=
  match ticks with
  | O => ret false
  | S ticks =>
      call (cosmos_wait node (3 * Second)) ;;
      let* result := try (call (CosmosClient.Tx node hashBytes)) in
      match result with
      | inl err =>
          if strings_Contains (Error_text err) "not found" then waitForTx ticks start hashBytes
          else fail (EWrap "getting tx result" err)
      | inr (Some _) => ret true
      | inr None =>
          let* since := Since start in
          if bool_decide (Minute < since) then fail (ENew "timeout after waiting for transaction result")
          else waitForTx ticks start hashBytes
      end
  end.

Definition WaitForTx (ticks : nat) (hash : string) : M W bool :=
  let* hashBytes := wrap "hex decoding tx hash string" (of_sum (decodeHash hash)) in
  let* start := Now in waitForTx ticks start hashBytes.

(** The client as the interface the rest of the program uses. *)
Definition bridge (ticks : nat) : BridgeClient W := {|
  World.IsPacketReceived := fun id seq => as_X (IsPacketReceived id seq);
  World.IsPacketCommitted := fun id seq => as_X (IsPacketCommitted id seq);
  World.FindRecvTx := fun src dst seq ts => as_X (FindRecvTx src dst seq ts);
  World.FindAckTx := fun src dst seq => as_X (FindAckTx src dst seq);
  World.FindTimeoutTx := fun src dst seq => as_X (FindTimeoutTx src dst seq);
  World.DeliverTx := fun bz address => as_X (DeliverTx bz address);
  World.PacketWriteAckStatus := fun hash seq src dst => as_X (PacketWriteAckStatus hash seq src dst);
  World.SendPacketsFromTx := fun chain hash => as_X (SendPacketsFromTx chain hash);
  World.ShouldRetryTx := fun hash expiry sentTs => as_X (ShouldRetryTx hash expiry sentTs);
  World.WaitForChain := as_X (let* done := WaitForChain ticks in EVM.waitOrTimeout done);
  World.IsTxFinalized := fun hash offset => as_X (IsTxFinalized hash offset);
  World.IsTimestampFinalized := fun ts offset => as_X (IsTimestampFinalized ts offset);
  ClientChainType := ChainTypeCOSMOS;
  World.SignerGasTokenBalance := as_X SignerGasTokenBalance;
  World.TxFee := fun hash => as_X (TxFee hash);
  World.TxExecutionStatus := fun hash => as_X (TxExecutionStatus hash);
  World.GetTransactionSender := fun hash => as_X (GetTransactionSender hash);
|}.

End Methods.

Definition NewCosmosBridgeClient (chainID prefix : string) (gasPrice : float) (feeDenom : string)
    (feeAmount : Z) (txSubmissionDelay : option Z) : CosmosBridgeClient * CosmosState :=
  let delay := default (2 * Second) txSubmissionDelay in
  (mkCosmosBridgeClient chainID prefix gasPrice feeDenom feeAmount delay,
   mkCosmosState (NewOnceWithKey Minute (5 * Second)) zero_time
     (NewOnceWithKey (6 * Second) (200 * Millisecond))).

End Cosmos.
