(* ===== verification/Signers.v ===== *)
(** * Signers

    The signers of [src/shared/signing] and [src/relayer/ibcv2/remote_*_signer.go], and
    the client of the remote signing service
    ([src/shared/signing/signer_service/signer_manager.go]).  Cryptography, the SDKs and
    the service are arguments ([SignerLib], [TxConfig]); the bearer token every request
    carries is not shown. *)

From S2P Require Import Prelude Db Transfer Config World Logic Once GoLib EvmClient CosmosClient.
From Stdlib Require Import Ascii.
Open Scope Z_scope.

(** ** Transactions *)

(** [CosmosTransaction] *)
Record CosmosTransaction (W : Type) := mkCosmosTransaction {
  ct_Tx : Ref;
  ct_AccountNumber : Z;
  ct_Sequence : Z;
  ct_TxConfig : TxConfig W;
}.
Arguments mkCosmosTransaction {W}.
Arguments ct_Tx {W} c.
Arguments ct_AccountNumber {W} c.
Arguments ct_Sequence {W} c.
Arguments ct_TxConfig {W} c.

Record SolanaTransaction := mkSolanaTransaction {
  sol_Message : bytes;
  sol_Signatures : list bytes;
}.

(** What implements the interface [Transaction]: go-ethereum's transactions, here with
    an empty signature before they are signed, and those of the Cosmos SDK. *)
Inductive Transaction (W : Type) :=
  | EthereumTransaction (tx : SignedTx)
  | CosmosTransaction_ (tx : CosmosTransaction W).
Arguments EthereumTransaction {W}.
Arguments CosmosTransaction_ {W}.

(** ** The signing service *)

Inductive PubKeyType := PubKeyType_Cosmos | PubKeyType_Ethereum.

Inductive SignPayload :=
  | SignRequest_CosmosTransaction (signDocBytes : bytes)
  | SignRequest_EvmTransaction (chainID : string) (txBytes : bytes)
  | SignRequest_SolanaTransaction (transaction : string).

Record SignRequest := mkSignRequest {
  WalletId : string;
  Payload : SignPayload;
}.

Inductive SignResponse :=
  | CosmosSignature (signature : bytes)
  | EvmSignature (r s v : bytes)
  | SolanaSignature (signature : bytes)
  | NoSignature.

(** The getters of the generated code give nothing for another kind of signature. *)
Definition GetCosmosSignature (r : SignResponse) : bytes := match r with CosmosSignature s => s | _ => [] end.
Definition GetEvmSignature (r : SignResponse) : bytes * bytes * bytes :=
  match r with EvmSignature r s v => (r, s, v) | _ => ([], [], []) end.
Definition GetSolanaSignature (r : SignResponse) : bytes := match r with SolanaSignature s => s | _ => [] end.

(** What the signers call. *)
Record SignerLib (W : Type) := mkSignerLib {
  (** the signing service; the public key of a wallet, empty when it has none *)
  sc_Sign : SignRequest -> X W SignResponse;
  sc_GetWallet : string -> PubKeyType -> X W bytes;
  (** [secp256k1]: [PubKey.Address] panics on a key of a wrong length *)
  secp_PubKey : bytes -> bytes;
  secp_Address : bytes -> option bytes;
  (** go-ethereum; the Cancun signer refuses some chain IDs with a panic *)
  ecdsa_PublicKey : bytes -> bytes;
  PubkeyToAddress : bytes -> bytes;
  UnmarshalPubkey : bytes -> error + bytes;
  CancunSigner_Hash : option Z -> SignedTx -> option bytes;
  eth_SignTx : SignedTx -> Z -> bytes -> option (error + SignedTx);
  WithSignature : SignedTx -> option Z -> bytes -> error + SignedTx;
  Ecrecover : bytes -> bytes -> error + bytes;
  eth_MarshalBinary : SignedTx -> error + bytes;
  eth_MarshalJSON : SignedTx -> error + bytes;
  (** solana-go *)
  PrivateKeyFromBase58 : string -> error + bytes;
  solana_PublicKey : bytes -> bytes;
  ToBase64 : SolanaTransaction -> error + string;
  SignatureFromBytes : bytes -> bytes;
  (** a line of the standard input *)
  ReadString : X W string;
}.
Arguments sc_Sign {W} s.
Arguments sc_GetWallet {W} s.
Arguments secp_PubKey {W} s.
Arguments secp_Address {W} s.
Arguments ecdsa_PublicKey {W} s.
Arguments PubkeyToAddress {W} s.
Arguments UnmarshalPubkey {W} s.
Arguments CancunSigner_Hash {W} s.
Arguments eth_SignTx {W} s.
Arguments WithSignature {W} s.
Arguments Ecrecover {W} s.
Arguments eth_MarshalBinary {W} s.
Arguments eth_MarshalJSON {W} s.
Arguments PrivateKeyFromBase58 {W} s.
Arguments solana_PublicKey {W} s.
Arguments ToBase64 {W} s.
Arguments SignatureFromBytes {W} s.
Arguments ReadString {W} s.

(** The signers that sign without asking; the client manager builds the first four. *)
Inductive Signer (W : Type) :=
  | RemoteEVMSigner (walletID chainID : string)
  | RemoteCosmosSigner (walletID chainID : string) (txConfig : TxConfig W)
  | LocalEthereumSigner (privateKey : bytes)
  | LocalCosmosSigner (privateKey : bytes)
  | LocalSolanaSigner (privateKey : bytes)
  | NopSigner.
Arguments RemoteEVMSigner {W}.
Arguments RemoteCosmosSigner {W}.
Arguments LocalEthereumSigner {W}.
Arguments LocalCosmosSigner {W}.
Arguments LocalSolanaSigner {W}.
Arguments NopSigner {W}.

(** [SIGN_MODE_DIRECT] *)
Definition SIGN_MODE_DIRECT : Z := 1.

Module Signing.
Section Signing.
Context {W : Type} (lib : SignerLib W).

(** ** The client of the service *)

Definition GetWallet (id : string) (ty : PubKeyType) : M W bytes := call (sc_GetWallet lib id ty).

Definition SignCosmosTransaction (txb : Ref) (accountNumber sequence : Z) (chainID signerWalletID : string)
    (txConfig : TxConfig W) : M W Ref :=
  let* tx := Cosmos.step (GetTx txConfig txb) in
  let* signDocBz := wrap "getting bytes to sign"
    (call (GetSignBytesAdapter txConfig SIGN_MODE_DIRECT (mkSignerData chainID accountNumber sequence) tx)) in
  let* signResp := wrap "failed to sign transaction. Error"
    (call (sc_Sign lib (mkSignRequest signerWalletID (SignRequest_CosmosTransaction signDocBz)))) in
  let* wallet := try (call (sc_GetWallet lib signerWalletID PubKeyType_Cosmos)) in
  match wallet with
  | inl err =>
      logf LError "failed to get wallet from signer to retrieve public key" ;;
      fail (EWrap "failed to get wallet from signer to retrieve public key. Error" err)
  | inr pubKeyBytes =>
      call (SetSignatures txConfig txb
              (mkSignatureV2 pubKeyBytes SIGN_MODE_DIRECT (GetCosmosSignature signResp) sequence)) ;;
      Cosmos.step (GetTx txConfig txb)
  end.

Definition SignSolanaTransaction (signerWalletID : string) (tx : SolanaTransaction) : M W SolanaTransaction :=
  let* base64Tx := wrap "failed to convert solana transaction to base64 while signing. Error"
    (of_sum (ToBase64 lib tx)) in
  let* signResp := wrap "failed to sign transaction. Error"
    (call (sc_Sign lib (mkSignRequest signerWalletID (SignRequest_SolanaTransaction base64Tx)))) in
  ret (mkSolanaTransaction (sol_Message tx)
         (sol_Signatures tx ++ [SignatureFromBytes lib (GetSolanaSignature signResp)])).

(** The chain ID that is not a number is a nil big.Int. *)
Definition RemoteSignerToBindSignerFn (chainID signerWalletID : string) (tx : SignedTx) : M W SignedTx :=
  let* txBytes := wrap "failed to marshal transaction" (of_sum (eth_MarshalBinary lib tx)) in
  let* signResp := wrap "failed to sign transaction. Error"
    (call (sc_Sign lib (mkSignRequest signerWalletID (SignRequest_EvmTransaction chainID txBytes)))) in
  let chainIDInt := SetString10 chainID in
  let* hash := Cosmos.must (CancunSigner_Hash lib chainIDInt tx) in
  let '(r, s, v) := GetEvmSignature signResp in
  let sig := r ++ s ++ v in
  wrap "failed to get public key from evm signature. Error" (of_sum (Ecrecover lib hash sig)) ;;
  wrap "failed to set signature on evm tx. Error" (of_sum (WithSignature lib tx chainIDInt sig)).

(** ** Signing *)

(** The key's info is set with an empty signature first, so that the bytes to sign have
    it. *)
Definition SignCosmosTx (privateKey : bytes) (txConfig : TxConfig W) (chainID : string)
    (accountNumber sequence : Z) (tx : Ref) : M W Ref :=
  let* txBuilder := call (WrapTxBuilder txConfig tx) in
  call (SetSignatures txConfig txBuilder (mkSignatureV2 (secp_PubKey lib privateKey) (DefaultMode txConfig) [] sequence)) ;;
  let* signature := call (SignWithPrivKey txConfig (DefaultMode txConfig)
                            (mkSignerData chainID accountNumber sequence) txBuilder privateKey sequence) in
  call (SetSignatures txConfig txBuilder signature) ;;
  Cosmos.step (GetTx txConfig txBuilder).

Definition signedCosmos (t : CosmosTransaction W) (signedTx : Ref) : option (Transaction W) :=
  Some (CosmosTransaction_ (mkCosmosTransaction signedTx (ct_AccountNumber t) (ct_Sequence t) (ct_TxConfig t))).

Definition LocalCosmosSigner_Sign (privateKey : bytes) (chainID : string) (tx : Transaction W)
    : M W (option (Transaction W)) :=
  match tx with
  | CosmosTransaction_ t =>
      let* signedTx := SignCosmosTx privateKey (ct_TxConfig t) chainID (ct_AccountNumber t) (ct_Sequence t) (ct_Tx t) in
      ret (signedCosmos t signedTx)
  | _ => fail (ENew "unsupported transaction type")
  end.

Definition LocalEthereumSigner_Sign (privateKey : bytes) (chainID : string) (tx : Transaction W)
    : M W (option (Transaction W)) :=
  match tx with
  | EthereumTransaction t =>
      match SetString10 chainID with
      | None => fail (ENew "invalid chain ID")
      | Some intChainID =>
          let* signed := Cosmos.must (eth_SignTx lib t intChainID privateKey) in
          let* signedTx := of_sum signed in
          ret (Some (EthereumTransaction signedTx))
      end
  | _ => fail (ENew "unsupported transaction type")
  end.

Definition RemoteCosmosSigner_Sign (walletID : string) (txConfig : TxConfig W) (chainID : string) (tx : Transaction W)
    : M W (option (Transaction W)) :=
  match tx with
  | CosmosTransaction_ t =>
      let* txBuilder := wrap "wrapping tx as builder" (call (WrapTxBuilder txConfig (ct_Tx t))) in
      let* signedTx := wrap "remote signing failed"
        (SignCosmosTransaction txBuilder (ct_AccountNumber t) (ct_Sequence t) chainID walletID txConfig) in
      ret (signedCosmos t signedTx)
  | _ => fail (ENew "expected CosmosTransaction")
  end.

Definition RemoteEVMSigner_Sign (walletID chainID : string) (tx : Transaction W) : M W (option (Transaction W)) :=
  match tx with
  | EthereumTransaction t =>
      let* signedTx := wrap "remote EVM signing failed" (RemoteSignerToBindSignerFn chainID walletID t) in
      ret (Some (EthereumTransaction signedTx))
  | _ => fail (ENew "expected *types.Transaction")
  end.

(** [Signer.Sign]; [None] is a nil transaction. *)
Definition Sign (signer : Signer W) (chainID : string) (tx : Transaction W) : M W (option (Transaction W)) :=
  match signer with
  | LocalCosmosSigner privateKey => LocalCosmosSigner_Sign privateKey chainID tx
  | LocalEthereumSigner privateKey => LocalEthereumSigner_Sign privateKey chainID tx
  | RemoteCosmosSigner walletID _ txConfig => RemoteCosmosSigner_Sign walletID txConfig chainID tx
  | RemoteEVMSigner walletID _ => RemoteEVMSigner_Sign walletID chainID tx
  | LocalSolanaSigner _ => ret None
  | NopSigner => ret (Some tx)
  end.

Definition RemoteCosmosSigner_Address (walletID : string) : M W bytes :=
  let* wallet := try (GetWallet walletID PubKeyType_Cosmos) in
  match wallet with
  | inl _ => ret []
  | inr pubkey => Cosmos.must (secp_Address lib pubkey)
  end.

Definition RemoteEVMSigner_Address (walletID : string) : M W bytes :=
  let* wallet := try (GetWallet walletID PubKeyType_Ethereum) in
  match wallet with
  | inl _ => ret []
  | inr pubkey =>
      match UnmarshalPubkey lib pubkey with
      | inl _ => ret []
      | inr pubKey => ret (PubkeyToAddress lib pubKey)
      end
  end.

(** [Signer.Address] *)
Definition Address (signer : Signer W) : M W bytes :=
  match signer with
  | LocalCosmosSigner privateKey => Cosmos.must (secp_Address lib (secp_PubKey lib privateKey))
  | LocalEthereumSigner privateKey => ret (PubkeyToAddress lib (ecdsa_PublicKey lib privateKey))
  | RemoteCosmosSigner walletID _ _ => RemoteCosmosSigner_Address walletID
  | RemoteEVMSigner walletID _ => RemoteEVMSigner_Address walletID
  | LocalSolanaSigner privateKey => ret (solana_PublicKey lib privateKey)
  | NopSigner => ret []
  end.

Definition NewLocalSolanaSigner (privateKeyBase58 : string) : error + Signer W :=
  match PrivateKeyFromBase58 lib privateKeyBase58 with
  | inl err => inl (EWrap "failed to parse private key" err)
  | inr privateKey => inr (LocalSolanaSigner privateKey)
  end.

(** [bind.SignerFn] of a signer. *)
Definition EthereumSignerToBindSignerFn (signer : Signer W) (chainID : string) (tx : SignedTx) : M W SignedTx :=
  let* signedTx := Sign signer chainID (EthereumTransaction tx) in
  match signedTx with
  | Some (EthereumTransaction rawTx) => ret rawTx
  | _ => fail (ENew "invalid transaction type")
  end.

(** ** Asking first *)

Definition MarshalJSON (tx : Transaction W) : M W bytes :=
  match tx with
  | EthereumTransaction t => of_sum (eth_MarshalJSON lib t)
  | CosmosTransaction_ t => call (TxJSONEncoder (ct_TxConfig t) (ct_Tx t))
  end.

(** [promptYesNo], for a number of lines read; [None] while it is still asking. *)
Fixpoint promptYesNo (reads : nat) : M W (option bool) :=
  match reads with
  | O => ret None
  | S reads =>
      let* response := try (call (ReadString lib)) in
      match response with
      | inl _ => promptYesNo reads
      | inr response =>
          let response := strings_ToLower (strings_TrimSpace response) in
          if bool_decide (response = "y") || bool_decide (response = "yes") then ret (Some true) else
          if bool_decide (response = "n") || bool_decide (response = "no") then ret (Some false) else
          promptYesNo reads
      end
  end.

(** [ConsoleSigner.Sign] around another signer; [None] while it is still asking. *)
Definition ConsoleSigner_Sign (reads : nat) (signer : Signer W) (chainID : string) (tx : Transaction W)
    : M W (option (option (Transaction W))) :=
  MarshalJSON tx ;;
  let* answer := promptYesNo reads in
  match answer with
  | None => ret None
  | Some false => fail (ENew "user abandoned transaction")
  | Some true => let* signed := Sign signer chainID tx in ret (Some signed)
  end.

End Signing.
End Signing.
