(* ===== verification/ClientContract.v ===== *)
(** * What a bridge client promises of [ShouldRetryTx]

    [RetryContract] is the promise the retry stages rely on: a client says that a
    transaction is to be sent again only when its chain executed it and it failed, or
    when the chain's time passed its expiry.  Both bridge clients keep it over a node
    that tells the truth, whatever results their caches hold. *)

From S2P Require Import Prelude Db Transfer Config World Logic Processors ProcessorSpecs BatchProcessors.
From S2P Require Import StageTheorems Once GoLib GoFloat EvmClient CosmosClient.

(** [executed h] is what the chain does with the transaction [h], if it ever executes
    it; [seen] holds of the times of the latest blocks the node reports. *)
Class RetryContract {W} (b : BridgeClient W) (inv : W -> Prop) (executed : string -> option bool)
    (seen : Z -> Prop) : Prop := {
  retry_inv : forall h expiry sent w, inv w -> inv (snd (World.ShouldRetryTx b h expiry sent w));
  retry_sound : forall h expiry sent w, inv w -> fst (World.ShouldRetryTx b h expiry sent w) = inr true ->
    executed h = Some false \/ exists ts, seen ts /\ sent + expiry < ts;
  retry_settled : forall h expiry sent w, inv w -> fst (World.ShouldRetryTx b h expiry sent w) = inr false ->
    executed h = Some true;
}.

(** What a computation leaves in a state is what its method gives the caller. *)
Definition outcome_X {A} (r : res A) : error + A :=
  match r with Ok a => inr a | Fail e => inl e | Panic => inl panicked end.

Lemma as_X_wp {W A} (m : M W A) (Q : error + A -> W -> Prop) w :
  wp m (fun r s => Q (outcome_X r) (world s)) (mkSys w db.empty_DB []) ->
  Q (fst (as_X m w)) (snd (as_X m w)).
Proof. unfold wp, as_X. by destruct (m _) as [[a|e|] s]. Qed.

(** The decision on an answer to the lookup, and on the latest block when there is none:
    [answers] and [headers] are what the node may say. *)
Definition retry_decision {T} (failed : T -> bool) (a : error + option T) (headers : error + Z -> Prop)
    (expiresAt : Z) (r : error + bool) : Prop :=
  match a with
  | inr (Some x) => r = inr (failed x)
  | inr None => r = inl panicked
  | inl err =>
      if strings_Contains (Error_text err) "not found" then
        exists h, headers h /\
          match h with
          | inr ts => r = if time_Before expiresAt ts then inr true else inl (ESentinel ErrTxNotFound)
          | inl e => r = inl e
          end
      else exists msg, r = inl (EWrap msg err)
  end.

(** ** The EVM client *)

Section EVM.
Context {W : Type} {E : Env W} (lib : EVMLib) (node : EVMNode W) (c : EVMBridgeClient) (L : Lens W EVMState) (ticks : nat).
Context `{!Lawful L}.

(** The clock and the node do not reach into the client's own memory. *)
Record evm_local : Prop := {
  evm_clock_local : forall w, view L (snd (clock w)) = view L w;
  evm_receipt_local : forall h w, view L (snd (TransactionReceipt node h w)) = view L w;
  evm_header_local : forall n w, view L (snd (HeaderByNumber node n w)) = view L w;
}.

Context (Hlocal : evm_local).
Context (P : string -> error + option Receipt -> Prop).
Context (HP : forall h w, P h (fst (TransactionReceipt node (HexToHash lib h) w))).

(** Every kept receipt is one the node gave. *)
Definition evm_inv (w : W) : Prop := once_ok P (EvmClient.txOnce (view L w)).

Lemma wp_receiptOnce h Q s :
  evm_inv (world s) ->
  (forall r s', P h r -> evm_inv (world s') -> Q (to_res r) s') ->
  wp (EVM.receiptOnce lib node L h) Q s.
Proof.
  intros Hok HQ. apply (wp_Do (EvmClient.lens_txOnce L)) with (P := P); [|exact Hok | | exact (HP h) |].
  - intros w. cbn. by rewrite evm_clock_local.
  - intros w. cbn. by rewrite evm_receipt_local.
  - intros r s' Hr Hok' _ _. by apply HQ.
Qed.

Definition evm_header_answer (a : error + EvmClient.Header) : error + Z :=
  match a with inl e => inl (EWrap "getting latest block header" e) | inr h => inr (time_Unix (Header_Time h)) end.

Lemma evm_retry_spec h expiry sent w :
  evm_inv w ->
  evm_inv (snd (World.ShouldRetryTx (EVM.bridge lib node c L ticks) h expiry sent w)) /\
  exists a, P h a /\
    retry_decision (fun rc => negb (bool_decide (Receipt_Status rc = 1))) a
      (fun x => exists w', x = evm_header_answer (fst (HeaderByNumber node None w')))
      (sent + expiry) (fst (World.ShouldRetryTx (EVM.bridge lib node c L ticks) h expiry sent w)).
Proof.
  intros Hok. cbn [World.ShouldRetryTx EVM.bridge]. unfold EVM.ShouldRetryTx.
  apply (as_X_wp _ (fun r w' => evm_inv w' /\ exists a, P h a /\ retry_decision _ a _ _ r)).
  apply wp_bind, wp_try, wp_receiptOnce; [exact Hok|]. intros a s Ha Hs.
  destruct a as [err|[rc|]]; cbn [to_res].
  - destruct (strings_Contains _ _) eqn:Enf.
    + apply wp_bind, wp_wrap, wp_call. intros hd w' Hhd.
      assert (Hw' : evm_inv w').
      { unfold evm_inv. pose proof (evm_header_local Hlocal None (world s)) as Hl. rewrite Hhd in Hl. cbn in Hl. by rewrite Hl. }
      destruct hd as [e|hd]; [|destruct (time_Before _ _) eqn:Eb]; (split; [exact Hw'|]);
        exists (inl err); (split; [done|]); unfold retry_decision; rewrite Enf;
        eexists; (split; [exists (world s); by rewrite Hhd|]); cbn; rewrite ?Eb; done.
    + apply wp_fail. split; [done|]. exists (inl err). split; [done|]. unfold retry_decision. rewrite Enf. by eexists.
  - apply wp_bind, wp_ret, wp_ret. split; [done|]. by exists (inr (Some rc)).
  - apply wp_bind, wp_panic. split; [done|]. by exists (inr None).
Qed.

End EVM.

(** ** The Cosmos client *)

Section Cosmos.
Context {W : Type} {E : Env W} (lib : CosmosLib) (node : CosmosNode W) (c : CosmosBridgeClient) (L : Lens W CosmosState) (ticks : nat).
Context `{!Lawful L}.

Record cosmos_local : Prop := {
  cosmos_clock_local : forall w, view L (snd (clock w)) = view L w;
  cosmos_tx_local : forall h w, view L (snd (CosmosClient.Tx node h w)) = view L w;
  cosmos_header_local : forall n w, view L (snd (CosmosClient.Header node n w)) = view L w;
}.

Context (Hlocal : cosmos_local).
Context (P : string -> error + option ResultTx -> Prop).
Context (HP : forall h bz w, hex_DecodeString h = Some bz -> P h (fst (CosmosClient.Tx node bz w))).

Definition cosmos_inv (w : W) : Prop := once_ok P (CosmosClient.txOnce (view L w)).

Lemma wp_resultOnce h bz Q s :
  hex_DecodeString h = Some bz -> cosmos_inv (world s) ->
  (forall r s', P h r -> cosmos_inv (world s') -> Q (to_res r) s') ->
  wp (Cosmos.resultOnce node L h bz) Q s.
Proof.
  intros Hbz Hok HQ.
  apply (wp_Do (CosmosClient.lens_txOnce L)) with (P := P); [|exact Hok | | by intros w; apply HP |].
  - intros w. cbn. by rewrite cosmos_clock_local.
  - intros w. cbn. by rewrite cosmos_tx_local.
  - intros r s' Hr Hok' _ _. by apply HQ.
Qed.

Definition cosmos_header_answer (a : error + option Z) : error + Z :=
  match a with
  | inl e => inl (EWrap "getting latest block header" e)
  | inr None => inl (ENew "fetched block header at latest height without err but header was nil")
  | inr (Some ts) => inr ts
  end.

Lemma cosmos_retry_spec h expiry sent w :
  cosmos_inv w ->
  cosmos_inv (snd (World.ShouldRetryTx (Cosmos.bridge lib node c L ticks) h expiry sent w)) /\
  match hex_DecodeString h with
  | None => exists e, fst (World.ShouldRetryTx (Cosmos.bridge lib node c L ticks) h expiry sent w) = inl e
  | Some _ => exists a, P h a /\
      retry_decision (fun tx => negb (bool_decide (Tx_Code tx = 0))) a
        (fun x => exists w', x = cosmos_header_answer (fst (CosmosClient.Header node None w')))
        (sent + expiry) (fst (World.ShouldRetryTx (Cosmos.bridge lib node c L ticks) h expiry sent w))
  end.
Proof.
  intros Hok. cbn [World.ShouldRetryTx Cosmos.bridge]. unfold Cosmos.ShouldRetryTx, Cosmos.decodeHash.
  destruct (hex_DecodeString h) as [bz|] eqn:Ehex; [|by split; [|eexists]].
  apply (as_X_wp _ (fun r w' => cosmos_inv w' /\ exists a, P h a /\ retry_decision _ a _ _ r)).
  apply wp_bind, wp_wrap, wp_of_sum, wp_bind, wp_try, wp_resultOnce; [done | exact Hok|]. intros a s Ha Hs.
  destruct a as [err|[tx|]]; cbn [to_res].
  - destruct (strings_Contains _ _) eqn:Enf.
    + unfold Cosmos.headerAt. apply wp_bind, wp_bind, wp_wrap, wp_call. intros hd w' Hhd.
      assert (Hw' : cosmos_inv w').
      { unfold cosmos_inv. pose proof (cosmos_header_local Hlocal None (world s)) as Hl. rewrite Hhd in Hl. cbn in Hl. by rewrite Hl. }
      destruct hd as [e|[hd|]]; [|apply wp_ret; destruct (time_Before _ _) eqn:Eb | apply wp_fail];
        (split; [exact Hw'|]); exists (inl err); (split; [done|]); unfold retry_decision; rewrite Enf;
        eexists; (split; [exists (world s); by rewrite Hhd|]); cbn; rewrite ?Eb; done.
    + apply wp_fail. split; [done|]. exists (inl err). split; [done|]. unfold retry_decision. rewrite Enf. by eexists.
  - apply wp_bind, wp_ret, wp_ret. split; [done|]. by exists (inr (Some tx)).
  - apply wp_bind, wp_panic. split; [done|]. by exists (inr None).
Qed.

End Cosmos.

(** ** The contract *)

(** An answer that says what the chain did, if it says that it did something. *)
Definition truthful {T} (ok : T -> bool) (executed : string -> option bool) (h : string)
    (a : error + option T) : Prop := forall x, a = inr (Some x) -> executed h = Some (ok x).

Lemma retry_decision_true {T} (ok : T -> bool) executed h a headers expiresAt seen r :
  truthful ok executed h a -> (forall ts, headers (inr ts) -> seen ts) ->
  retry_decision (fun x => negb (ok x)) a headers expiresAt r ->
  match r with
  | inr true => executed h = Some false \/ exists ts, seen ts /\ expiresAt < ts
  | inr false => executed h = Some true
  | inl _ => True
  end.
Proof.
  intros Ht Hs Hd. unfold retry_decision in Hd.
  destruct a as [err|[x|]]; [destruct (strings_Contains _ _)| |].
  - destruct Hd as ([e|ts] & Hh & ->); [done|]. unfold time_Before.
    case_bool_decide; [|done]. right. exists ts. auto.
  - by destruct Hd as [msg ->].
  - subst r. rewrite (Ht x eq_refl). destruct (ok x); cbn; auto.
  - by subst r.
Qed.

Section Kept.
Context {W : Type} {E : Env W} (executed : string -> option bool) (seen : Z -> Prop) (ticks : nat).

Section EVM.
Context (lib : EVMLib) (node : EVMNode W) (c : EVMBridgeClient) (L : Lens W EVMState) `{!Lawful L}.

(** A node that reports what the chain executed, and blocks of known times. *)
Record evm_honest : Prop := {
  evm_honest_local : evm_local node L;
  evm_honest_receipt : forall h w,
    truthful (fun rc => bool_decide (Receipt_Status rc = 1)) executed h
      (fst (TransactionReceipt node (HexToHash lib h) w));
  evm_honest_header : forall w hd, fst (HeaderByNumber node None w) = inr hd -> seen (time_Unix (Header_Time hd));
}.

Lemma evm_keeps_contract :
  evm_honest ->
  RetryContract (EVM.bridge lib node c L ticks)
    (evm_inv L (truthful (fun rc => bool_decide (Receipt_Status rc = 1)) executed)) executed seen.
Proof.
  intros [Hl Hr Hh].
  assert (Hseen : forall ts, (exists w, inr ts = evm_header_answer (fst (HeaderByNumber node None w))) -> seen ts).
  { intros ts [w Hw]. destruct (fst (HeaderByNumber node None w)) as [e|hd] eqn:Ehd; simplify_eq/=. by eapply Hh. }
  split; intros h expiry sent w Hinv;
    destruct (evm_retry_spec lib node c L ticks Hl _ Hr h expiry sent w Hinv) as [Hk (a & Ha & Hd)];
    [done|..]; intros Hres; rewrite Hres in Hd; exact (retry_decision_true _ _ _ _ _ _ _ _ Ha Hseen Hd).
Qed.

End EVM.

Section Cosmos.
Context (lib : CosmosLib) (node : CosmosNode W) (c : CosmosBridgeClient) (L : Lens W CosmosState) `{!Lawful L}.

Record cosmos_honest : Prop := {
  cosmos_honest_local : cosmos_local node L;
  cosmos_honest_tx : forall h bz w, hex_DecodeString h = Some bz ->
    truthful (fun tx => bool_decide (Tx_Code tx = 0)) executed h (fst (CosmosClient.Tx node bz w));
  cosmos_honest_header : forall w ts, fst (CosmosClient.Header node None w) = inr (Some ts) -> seen ts;
}.

Lemma cosmos_keeps_contract :
  cosmos_honest ->
  RetryContract (Cosmos.bridge lib node c L ticks)
    (cosmos_inv L (truthful (fun tx => bool_decide (Tx_Code tx = 0)) executed)) executed seen.
Proof.
  intros [Hl Hr Hh].
  assert (Hseen : forall ts, (exists w, inr ts = cosmos_header_answer (fst (CosmosClient.Header node None w))) -> seen ts).
  { intros ts [w Hw]. destruct (fst (CosmosClient.Header node None w)) as [e|[hd|]] eqn:Ehd; simplify_eq/=. by eapply Hh. }
  split; intros h expiry sent w Hinv;
    destruct (cosmos_retry_spec lib node c L ticks Hl _ Hr h expiry sent w Hinv) as [Hk Hd];
    [done|..]; intros Hres; rewrite Hres in Hd; (destruct (hex_DecodeString h); [|by destruct Hd]);
    destruct Hd as (a & Ha & Hd); exact (retry_decision_true _ _ _ _ _ _ _ _ Ha Hseen Hd).
Qed.

End Cosmos.


End Kept.

(** ** The contract at work in the retry stages *)

Section Stages.
Context {W : Type} {E : Env W}.

(** A stage that neither clears the row nor announces a retry. *)
Definition keeps_waiting (t : IBCV2Transfer) (d : db.DB) (r : res IBCV2Transfer) (s' : Sys W) : Prop :=
  tables s' = d /\ (r = Ok t \/ exists msg e, r = Fail (EWrap msg e)).

Lemma retry_result_waiting answer clear retrying t d r (s' : Sys W) :
  answer <> inr true -> retry_result answer clear retrying t d r s' -> keeps_waiting t d r s'.
Proof.
  intros Hn H. unfold retry_result in H. destruct answer as [e|[]]; [|done|].
  - destruct H as [[msg ->] ?]. split; [done|]. right. by eexists _, _.
  - destruct H as [-> ?]. split; auto.
Qed.

(** C23: with a client that keeps the retry contract, a transaction that the chain
    executed successfully, now or later, is not given up and sent again by any of the
    three retry stages as long as the blocks of the chain are at most two minutes later
    than the time it was sent: the row is left as it is. *)
Theorem successful_tx_not_resubmitted (b : BridgeClient W) inv executed seen c h tm t s :
  RetryContract b inv executed seen -> clients !! c = Some b -> inv (world s) ->
  executed h = Some true -> (forall ts, seen ts -> ts <= tm + 2 * Minute) ->
  (RecvTxHash t = Some h -> RecvTxTime t = Some tm ->
   wp (RetryRecvPacket_Process c t) (keeps_waiting t (tables s)) s) /\
  (AckTxHash t = Some h -> AckTxTime t = Some tm ->
   wp (RetryAckPacket_Process c t) (keeps_waiting t (tables s)) s) /\
  (TimeoutTxHash t = Some h -> TimeoutTxTime t = Some tm ->
   wp (RetryTimeoutPacket_Process c t) (keeps_waiting t (tables s)) s).
Proof.
  intros Hcon Hc Hinv He Hs.
  assert (Hn : fst (ShouldRetryTx b h (2 * Minute) tm (world s)) <> inr true).
  { intros Ht. destruct (retry_sound h _ _ _ Hinv Ht) as [H|(ts & Hts & H)]; [congruence|].
    specialize (Hs ts Hts). lia. }
  split_and!; intros Hh Htm; (eapply wp_mono; [intros r s'; by apply retry_result_waiting|]);
    [by apply retry_recv_outcome | by apply retry_ack_outcome | by apply retry_timeout_outcome].
Qed.

End Stages.

(** ** A transaction that is dead is sent again *)

(** Every answer about it is that it failed, or that it is not there while the chain is
    past its expiry. *)
Definition dead {T} (failed : T -> bool) (late : Prop) (a : error + option T) : Prop :=
  match a with
  | inr (Some x) => failed x = true
  | inr None => False
  | inl err => strings_Contains (Error_text err) "not found" = true /\ late
  end.

Lemma dead_is_retried {T} (failed : T -> bool) (late : Prop) a headers expiresAt r :
  dead failed late a ->
  (late -> forall x, headers x -> exists ts, x = inr ts /\ expiresAt < ts) ->
  retry_decision failed a headers expiresAt r -> r = inr true.
Proof.
  intros Hd Hl H. unfold dead, retry_decision in *. destruct a as [err|[x|]]; [|by rewrite Hd in H|done].
  destruct Hd as [Hn Hlate]. rewrite Hn in H. destruct H as (x & Hx & H).
  destruct (Hl Hlate x Hx) as (ts & -> & Hts). unfold time_Before in H. by rewrite bool_decide_true in H by done.
Qed.

Section Dead.
Context {W : Type} {E : Env W} (ticks : nat) (h : string) (expiry sent : Z).

(** C25: a transaction that cannot succeed any more is sent again.  If all the node says
    of it is that it failed, or that it is not found and the latest block is past the
    expiry, [ShouldRetryTx] answers true: for an EVM chain, and for a Cosmos chain when
    the hash is hexadecimal. *)
Theorem dead_tx_is_retried elib enode ec (EL : Lens W EVMState) clib cnode cc (CL : Lens W CosmosState) w :
  Lawful EL -> Lawful CL -> evm_local enode EL -> cosmos_local cnode CL ->
  (let late := forall w, exists hd, fst (HeaderByNumber enode None w) = inr hd /\
                 sent + expiry < time_Unix (Header_Time hd) in
   let failed rc := negb (bool_decide (Receipt_Status rc = 1)) in
   (forall w, dead failed late (fst (TransactionReceipt enode (HexToHash elib h) w))) ->
   evm_inv EL (fun h' a => h' = h -> dead failed late a) w ->
   fst (World.ShouldRetryTx (EVM.bridge elib enode ec EL ticks) h expiry sent w) = inr true) /\
  (let late := forall w, exists ts, fst (CosmosClient.Header cnode None w) = inr (Some ts) /\ sent + expiry < ts in
   let failed tx := negb (bool_decide (Tx_Code tx = 0)) in
   is_Some (hex_DecodeString h) ->
   (forall bz w, hex_DecodeString h = Some bz -> dead failed late (fst (CosmosClient.Tx cnode bz w))) ->
   cosmos_inv CL (fun h' a => h' = h -> dead failed late a) w ->
   fst (World.ShouldRetryTx (Cosmos.bridge clib cnode cc CL ticks) h expiry sent w) = inr true).
Proof.
  intros HEL HCL Hel Hcl. split.
  - intros late failed Hd Hinv.
    destruct (evm_retry_spec elib enode ec EL ticks Hel _ (fun h' w => fun Hh => eq_ind_r (fun h' => dead failed late
      (fst (TransactionReceipt enode (HexToHash elib h') w))) (Hd w) Hh) h expiry sent w Hinv) as [_ (a & Ha & H)].
    apply (dead_is_retried failed late) in H; [done | by apply Ha |].
    intros Hlate x [w' ->]. destruct (Hlate w') as (hd & -> & Hts). by eexists.
  - intros late failed [bz Hbz] Hd Hinv.
    assert (HP : forall h' bz w, hex_DecodeString h' = Some bz -> h' = h -> dead failed late (fst (CosmosClient.Tx cnode bz w))).
    { intros h' bz' w' Hh ->. by apply Hd. }
    destruct (cosmos_retry_spec clib cnode cc CL ticks Hcl _ HP h expiry sent w Hinv) as [_ H].
    rewrite Hbz in H. destruct H as (a & Ha & H).
    apply (dead_is_retried failed late) in H; [done | by apply Ha |].
    intros Hlate x [w' ->]. destruct (Hlate w') as (hd & -> & Hts). by eexists.
Qed.

End Dead.
