(* ===== verification/ClientWorld.v ===== *)
(** * A concrete world with the two bridge clients

    A node of each kind that answers with fixed values, the functions of the two
    libraries as simple stand-ins, the memory of both clients as parts of the world, and
    the clients built over them: the theorems about the clients are applied here. *)

From S2P Require Import Prelude Db Transfer Config World Logic Processors ProcessorSpecs BatchProcessors.
From S2P Require Import BatchSpecs Middleware Pipeline Dispatcher System Trace TestWorld StageTheorems.
From S2P Require Import Once GoLib GoFloat EvmClient CosmosClient ClientContract.

Module ClientWorld.

Record cworld := mkCWorld {
  cw_now : Z;
  cw_evm : EVMState;
  cw_cosmos : CosmosState;
}.

Definition evm_lens : Lens cworld EVMState :=
  mkLens cw_evm (fun s w => mkCWorld (cw_now w) s (cw_cosmos w)).
Definition cosmos_lens : Lens cworld CosmosState :=
  mkLens cw_cosmos (fun s w => mkCWorld (cw_now w) (cw_evm w) s).

#[export] Instance evm_lens_lawful : Lawful evm_lens.
Proof. by split; intros; try destruct w. Qed.
#[export] Instance cosmos_lens_lawful : Lawful cosmos_lens.
Proof. by split; intros; try destruct w. Qed.

Definition says {A} (r : error + A) : X cworld A := fun w => (r, w).
Definition tick (w : cworld) : Z * cworld :=
  (cw_now w, mkCWorld (cw_now w + Second) (cw_evm w) (cw_cosmos w)).

(** What a test says of the chain: its receipt for any transaction, the time of every
    block, the logs it finds and the nonces.  Block 10 is the latest, 8 the finalized
    one. *)
Record evm_script := mkEvmScript {
  receipt_of : error + option Receipt;
  header_time : cworld -> Z;
  logs_of : list EthLog;
  pending_nonce : Z;
  confirmed_nonce : Z;
}.

Definition evm_lib : EVMLib := {|
  HexToHash := string_bytes;
  Hash_String := fun _ => "hash";
  HexToAddress := string_bytes;
  Address_String := fun _ => "address";
  Keccak256Hash := fun bz => bz;
  Router_GetAbi := inr string_bytes;
  MakeTopics := fun event client seq => inr [[event]; [string_bytes client]];
  ParseWriteAcknowledgement := fun log => inr (mkWriteAcknowledgement (mkRouterPacket 1 "c-0" "c-1" 5) [Log_Data log] log);
  ParseAckPacket := inr;
  ParseTimeoutPacket := inr;
  ParseSendPacket := fun log => inr (mkRouterPacket (Log_BlockNumber log) "c-0" "c-1" 5);
  Signed_Hash := signature;
  Sender := fun _ _ => inr [];
  NewContract := fun _ _ => inr tt;
|}.

Definition evm_node (s : evm_script) : EVMNode cworld := {|
  TransactionReceipt := fun _ => says (receipt_of s);
  HeaderByNumber := fun n w =>
    (inr (mkHeader (match n with None => 10 | Some n => if bool_decide (n < 0) then 8 else n end)
            (header_time s w) (Some 7)), w);
  FilterLogs := fun _ => says (inr (logs_of s));
  TransactionByHash := fun _ => says (inl (ENew "not found"));
  SuggestGasTipCap := says (inr 1);
  PendingCodeAt := fun _ => says (inr [1]);
  EstimateGas := fun _ _ _ => says (inr 21000);
  PendingNonceAt := fun _ => says (inr (pending_nonce s));
  NonceAt := fun _ => says (inr (confirmed_nonce s));
  SendTransaction := fun _ => says (inr tt);
  BalanceAt := fun _ => says (inr 1);
  GetCommitment := fun _ => says (inr (replicate 32 1));
  Router_GetClient := fun _ => says (inr zero_address);
  Tendermint_ClientState := fun _ => says (inr (1, 1));
  Allowance := fun _ _ _ => says (inr 0);
  Approve := fun _ _ _ => says (inr []);
  ICS20_SendTransfer := fun _ _ => says (inr []);
  IFT_Transfer := fun _ _ _ _ _ => says (inr []);
  SignTx := fun _ tx => says (inr (mkSignedTx tx [1]));
  wait := fun _ w => (inr tt, snd (tick w));
|}.

Definition evm_client : EVMBridgeClient := mkEVMBridgeClient "1" [1] [2] Second None None.

Record cosmos_script := mkCosmosScript {
  result_of : error + option ResultTx;
  block_time : cworld -> Z;
  gas_used : Z;
}.

(** Denoms are the texts that are not empty. *)
Definition cosmos_lib : CosmosLib := {|
  HexBytes_String := fun _ => "ab";
  Bech32 := fun p _ => inr p;
  UnmarshalTxBody := fun bz => inr ((fun b => [b]) <$> bz);
  UnpackAny := fun bz => inr (if bool_decide (bz = [1]) then MsgUpdateClient bz else MsgRecvPacket "signer" bz);
  UnmarshalAcknowledgement := fun bz => inr [bz];
  UnmarshalWasmState := inr;
  JSONWasmState := fun _ => inr 5;
  TxDecoder := fun _ => inr (mkDecodedTx [] (Some [("atom", 3)]));
  NewCoin := fun d a => if bool_decide (d = "") || bool_decide (a < 0) || bool_decide (2 ^ 256 <= a) then None else Some (d, a);
  NewCoins := fun coins => Some (filter (fun c => c.2 <> 0) coins);
  AmountOf := fun coins d => if bool_decide (d = "") then None
                             else Some (snd <$> head (filter (fun c => c.1 = d) coins));
  FromError := fun e => match e with EStatus c _ => Some c | _ => None end;
  uint64_of_large_float := fun _ => 0;
|}.

(** Transactions whose content is not looked at. *)
Definition cosmos_txConfig : TxConfig cworld := {|
  NewTxBuilder := fun w => (0%nat, w);
  WrapTxBuilder := fun tx => says (inr tx);
  SetMsgs := fun _ _ => says (inr tt);
  SetGasLimit := fun _ _ w => w;
  SetFeeAmount := fun _ _ w => w;
  SetSignatures := fun _ _ => says (inr tt);
  GetTx := fun b w => (b, w);
  TxEncoder := fun _ => says (inr [1]);
  TxJSONEncoder := fun _ => says (inr [1]);
  DefaultMode := 1;
  GetSignBytesAdapter := fun _ _ _ => says (inr []);
  SignWithPrivKey := fun mode data _ key seq => says (inr (mkSignatureV2 key mode [] seq));
|}.

Definition cosmos_node (s : cosmos_script) : CosmosNode cworld := {|
  PacketReceipt := fun _ _ => says (inr false);
  PacketCommitment := fun _ _ => says (inr tt);
  TxSearch := fun _ => says (inr (mkResultTxSearch 0 []));
  CosmosClient.Header := fun _ w => (inr (Some (block_time s w)), w);
  CosmosClient.Tx := fun _ => says (result_of s);
  AccountInfo := fun _ => says (inr (Some (1, 2)));
  Simulate := fun _ => says (inr (Some (gas_used s)));
  BroadcastTxSync := fun _ => says (inr (mkResultBroadcastTx 0 "" [9]));
  Balance := fun _ _ => says (inr (Some 1));
  QueryClientState := fun _ => says (inr None);
  SignerAddress := fun w => ([2], w);
  Sign := fun _ tx _ _ => says (inr (Some tx));
  txConfig := cosmos_txConfig;
  cosmos_wait := fun _ w => (inr tt, snd (tick w));
  Sleep := fun d w => mkCWorld (cw_now w + d) (cw_evm w) (cw_cosmos w);
|}.

(** A gas price of 5/2. *)
Definition cosmos_client : CosmosBridgeClient :=
  mkCosmosBridgeClient "cosmos" "cosmos" (mkFloat 5 (-1)) "atom" 0 Second.

Definition w0 : cworld := mkCWorld 0
  (mkEVMState zero_time (NewOnceWithKey Minute (5 * Second)) (NewOnceWithKey (12 * Second) (200 * Millisecond)))
  (snd (Cosmos.NewCosmosBridgeClient "cosmos" "cosmos" (mkFloat 5 (-1)) "atom" 0 None)).

Definition base_env : Env cworld := {|
  clock := tick;
  db_exec := fun w => (inr (cw_now w), w);
  tx_begin := says (inr tt);
  tx_commit := fun w => (Committed, w);
  tx_rollback := says (inr tt);
  clients := ∅;
  RelayByTx := fun _ => says (inr (mkRelayByTxResponse [1; 2] "router"));
  priceClient := None;
  cfg := NewConfigReader TestWorld.config0;
|}.

(** The relayer with both clients. *)
Definition cenv (se : evm_script) (sc : cosmos_script) : Env cworld := {|
  clock := tick;
  db_exec := fun w => (inr (cw_now w), w);
  tx_begin := says (inr tt);
  tx_commit := fun w => (Committed, w);
  tx_rollback := says (inr tt);
  clients := <["src" := EVM.bridge (E:=base_env) evm_lib (evm_node se) evm_client evm_lens 100]>
    (<["dst" := Cosmos.bridge (E:=base_env) cosmos_lib (cosmos_node sc) cosmos_client cosmos_lens 100]> ∅);
  RelayByTx := fun _ => says (inr (mkRelayByTxResponse [1; 2] "router"));
  priceClient := None;
  cfg := NewConfigReader TestWorld.config0;
|}.

Lemma evm_node_local se : evm_local (E:=base_env) (evm_node se) evm_lens.
Proof. by split. Qed.
Lemma cosmos_node_local sc : cosmos_local (E:=base_env) (cosmos_node sc) cosmos_lens.
Proof. by split. Qed.

Definition receipt1 : Receipt := mkReceipt 1 5 [] 21000 9.
Definition result1 : ResultTx := mkResultTx [1] 5 0 "" [] [].
Definition good_evm : evm_script := mkEvmScript (inr (Some receipt1)) (fun _ => 100) [] 8 2.
Definition good_cosmos : cosmos_script := mkCosmosScript (inr (Some result1)) (fun _ => 100 * Second) 1000.

Lemma good_evm_honest :
  evm_honest (E:=base_env) (fun _ => Some true) (fun ts => ts = 100 * Second) evm_lib (evm_node good_evm) evm_lens.
Proof. split; [apply evm_node_local | by intros h w x [= <-] | by intros w hd [= <-]]. Qed.
Lemma good_cosmos_honest :
  cosmos_honest (E:=base_env) (fun _ => Some true) (fun ts => ts = 100 * Second) (cosmos_node good_cosmos) cosmos_lens.
Proof. split; [apply cosmos_node_local | by intros h bz w _ x [= <-] | by intros w ts [= <-]]. Qed.


Definition t_recv' : IBCV2Transfer := TestWorld.t1 <| RecvTxHash := Some "ab" |> <| RecvTxTime := Some (50 * Second) |>.

Lemma successful_tx_not_resubmitted_witness :
  let E := cenv good_evm good_cosmos in
  wp (RetryRecvPacket_Process "dst" t_recv') (keeps_waiting t_recv' TestWorld.db1) (mkSys w0 TestWorld.db1 []).
Proof.
  intros E.
  refine (proj1 (successful_tx_not_resubmitted _ _ _ _ "dst" "ab" (50 * Second) t_recv' (mkSys w0 TestWorld.db1 [])
    (cosmos_keeps_contract (E:=base_env) (fun _ => Some true) (fun ts => ts = 100 * Second) 100
       cosmos_lib (cosmos_node good_cosmos) cosmos_client cosmos_lens good_cosmos_honest)
    eq_refl _ eq_refl _) eq_refl eq_refl).
  - apply once_ok_new.
  - intros ts ->. vm_compute. discriminate.
Defined.

(** A transaction that is not found, at a chain that is past its expiry. *)
Definition gone_evm : evm_script := mkEvmScript (inl (ENew "not found")) (fun _ => 100) [] 8 2.
Definition failed_cosmos : cosmos_script := mkCosmosScript (inr (Some (mkResultTx [1] 5 4 "" [] []))) (fun _ => 0) 1000.

Lemma dead_tx_is_retried_witness :
  fst (World.ShouldRetryTx (EVM.bridge (E:=base_env) evm_lib (evm_node gone_evm) evm_client evm_lens 100) "ab" 0 0 w0)
    = inr true /\
  fst (World.ShouldRetryTx (Cosmos.bridge (E:=base_env) cosmos_lib (cosmos_node failed_cosmos) cosmos_client cosmos_lens 100)
    "ab" 0 0 w0) = inr true.
Proof.
  destruct (dead_tx_is_retried (E:=base_env) 100 "ab" 0 0 evm_lib (evm_node gone_evm) evm_client evm_lens
    cosmos_lib (cosmos_node failed_cosmos) cosmos_client cosmos_lens w0 _ _
    (evm_node_local gone_evm) (cosmos_node_local failed_cosmos)) as [He Hc].
  split; [apply He | apply Hc].
  - intros w. split; [reflexivity|]. intros w'. eexists. split; [reflexivity|]. vm_compute. reflexivity.
  - apply once_ok_new.
  - by eexists.
  - by intros bz w _.
  - apply once_ok_new.
Defined.

(** ** A packet from the EVM to the Cosmos chain, through the whole pipeline *)

(** The recv transaction carries the write ack of packet 7. *)
Definition acked_cosmos : cosmos_script :=
  mkCosmosScript (inr (Some (mkResultTx [1] 5 0 "" [mkEvent eventTypeWriteAck
    [mkAttribute attributeKeyPacketSequence "7"; mkAttribute attributeKeyPacketSourceClient "c-0";
     mkAttribute attributeKeyPacketDestClient "c-1"; mkAttribute "encoded_acknowledgement_hex" "01"]] [])))
    (fun _ => 100 * Second) 1000.

(** Both clients under the relay core: the recv is delivered by the Cosmos client, its
    write ack read from the events, and the transfer completes. *)
Example relayed_by_clients :
  let E := cenv good_evm acked_cosmos in
  let '(r, s) := run_stages (W:=cworld) (E:=E) (NewPipeline (E:=E) TestWorld.conn TestWorld.opts)
                   (NewIBCV2Transfer TestWorld.row1) (mkSys (mkCWorld (10 * Second) (cw_evm w0) (cw_cosmos w0)) TestWorld.db1 []) in
  match r with
  | Ok t => State t = db.Ibcv2RelayStatusCOMPLETEWITHWRITEACKSUCCESS /\ RecvTxHash t = Some "ab"
            /\ (db.Status <$> db.ibcv2_transfers (tables s) !! 1)
               = Some db.Ibcv2RelayStatusCOMPLETEWITHWRITEACKSUCCESS
  | _ => False
  end.
Proof. vm_compute. split_and!; reflexivity. Qed.

End ClientWorld.
