(* ===== verification/EvmTheorems.v ===== *)
(** * Theorems about the EVM bridge client

    The slots of packets in the router, the transactions it builds, finality against a
    chain, and its loops on a ticker. *)

From S2P Require Import Prelude Db Transfer Config World Logic Once GoLib GoFloat CosmosClient EvmClient.
From S2P Require Import ClientContract ClientWorld.

(** ** Slots *)

Lemma string_bytes_inj s s' : string_bytes s = string_bytes s' -> s = s'.
Proof.
  intros H. unfold string_bytes in H. apply list_fmap_eq_inj in H.
  - by rewrite <- (String.string_of_list_ascii_of_string s), H, String.string_of_list_ascii_of_string.
  - intros a b Hab. apply Nat2Z.inj in Hab. by rewrite <- (Ascii.ascii_nat_embedding a), Hab, Ascii.ascii_nat_embedding.
Qed.

(** [binary.BigEndian.Uint64] *)
Definition from_big_endian (bz : bytes) : Z := foldl (fun n b => 256 * n + b) 0 bz.

Lemma big_endian_roundtrip n : 0 <= n < 2 ^ 64 -> from_big_endian (Uint64ToBigEndian n) = n.
Proof.
  intros Hn. unfold from_big_endian, Uint64ToBigEndian. cbn -[Z.shiftr Z.mul Z.modulo].
  rewrite !Z.shiftr_div_pow2 by lia. change (8 * 7) with 56. change (8 * 6) with 48. change (8 * 5) with 40.
  change (8 * 4) with 32. change (8 * 3) with 24. change (8 * 2) with 16. change (8 * 1) with 8. change (8 * 0) with 0.
  rewrite Z.pow_0_r, Z.div_1_r. Z.to_euclidean_division_equations. lia.
Qed.

(** Two packets, or the receipt and the commitment of one, never share a slot of the
    router: their paths differ before they are hashed. *)
Lemma commitment_path_inj client client' kind kind' n n' :
  0 <= n < 2 ^ 64 -> 0 <= n' < 2 ^ 64 ->
  commitmentPath client kind n = commitmentPath client' kind' n' -> client = client' /\ kind = kind' /\ n = n'.
Proof.
  intros Hn Hn' H. unfold commitmentPath, encodePacked in H. rewrite !app_nil_r in H.
  apply app_inj_2 in H as [Hs H]; [|reflexivity].
  pose proof (f_equal (hd 0) H) as Hk. pose proof (f_equal (@tail Z) H) as Ht.
  change (Uint64ToBigEndian n = Uint64ToBigEndian n') in Ht.
  split; [by apply string_bytes_inj|]. split; [done|].
  by rewrite <- (big_endian_roundtrip n Hn), <- (big_endian_roundtrip n' Hn'), Ht.
Qed.

(** ** Transactions *)

Section Submit.
Context {W : Type} {E : Env W} (lib : EVMLib) (node : EVMNode W) (c : EVMBridgeClient).

(** What every transaction the client hands to its signer is like, for the nonces the
    node reports. *)
Definition well_built (pending confirmed : Z -> Prop) (bz : bytes) (to : bytes) (tx : DynamicFeeTx) : Prop :=
  tx_To tx = to /\ tx_Data tx = bz /\
  (exists p n, pending p /\ confirmed n /\ (tx_Nonce tx = p \/ tx_Nonce tx = n) /\
     (n <= p -> n <= tx_Nonce tx <= n + maxPendingAndConfirmedNonceDifference)) /\
  (gasFeeCapMultiplier c = None -> gasTipCapMultiplier c = None -> tx_GasTipCap tx <= tx_GasFeeCap tx).

Lemma wp_selectNonce p n Q (s : Sys W) :
  (forall nonce s', (nonce = p \/ nonce = n) ->
     (n <= p -> n <= nonce <= n + maxPendingAndConfirmedNonceDifference) -> Q (Ok nonce) s') ->
  wp (EVM.selectNonceWithFallback c p n) Q s.
Proof.
  intros HQ. unfold EVM.selectNonceWithFallback.
  destruct (bool_decide (n < p) && _) eqn:Eb.
  - apply andb_true_iff in Eb as [H1%bool_decide_eq_true H2%bool_decide_eq_true].
    apply wp_bind, wp_emit, wp_bind, wp_emit, wp_ret, HQ; [auto|]. unfold maxPendingAndConfirmedNonceDifference in *. lia.
  - apply wp_ret, HQ; [auto|]. intros Hle. apply andb_false_iff in Eb.
    destruct Eb as [H%bool_decide_eq_false|H%bool_decide_eq_false]; unfold maxPendingAndConfirmedNonceDifference in *; lia.
Qed.

Lemma newTx_well_built bz address (pending confirmed : Z -> Prop) s :
  (forall w p, fst (PendingNonceAt node (signerAddress c) w) = inr p -> pending p) ->
  (forall w n, fst (NonceAt node (signerAddress c) w) = inr n -> confirmed n) ->
  (forall w h b, fst (HeaderByNumber node None w) = inr h -> BaseFee h = Some b -> 0 <= b) ->
  wp (EVM.newTx lib node c bz address) (fun r _ => match r with
    | Ok tx => well_built pending confirmed bz (HexToAddress lib address) tx
    | _ => True end) s.
Proof.
  intros Hp Hn Hb. unfold EVM.newTx. apply wp_bind, wp_wrap, wp_call. intros [e|h] w1 H1; [done|].
  apply wp_bind, wp_wrap, wp_call. intros [e|tip] w2 H2; [done|].
  destruct (BaseFee h) as [base|] eqn:Ebase; [|by apply wp_panic].
  apply wp_bind, wp_wrap, wp_call. intros [e|code] w3 H3; [done|].
  case_bool_decide; [by apply wp_fail|].
  apply wp_bind, wp_wrap, wp_call. intros [e|gas] w4 H4; [done|].
  apply wp_bind, wp_wrap, wp_call. intros [e|p] w5 H5; [done|].
  apply wp_bind, wp_wrap, wp_call. intros [e|n] w6 H6; [done|].
  apply wp_bind, wp_selectNonce. intros nonce s' Ho Hr. apply wp_ret. split; [done|]. split; [done|]. split.
  - exists p, n. cbn [world] in *. split; [eapply Hp; by rewrite H5|]. split; [eapply Hn; by rewrite H6|]. by split.
  - intros Hf Ht. cbn. unfold EVM.adjustGasFeeCap, EVM.adjustGasTipCap. rewrite Hf, Ht. cbn.
    assert (0 <= base) by (eapply Hb; [by rewrite H1 | done]). lia.
Qed.


End Submit.

(** ** Finality *)

(** A chain at one moment: its latest and its finalized block, and the time of every
    block in seconds. *)
Record evm_chain := mkEvmChain {
  latest : Z;
  finalized : Z;
  time_at : Z -> Z;
}.

Record wf_chain (ch : evm_chain) : Prop := {
  chain_finalized : 0 <= finalized ch <= latest ch;
  chain_latest : latest ch < 2 ^ 63;
  chain_times : forall n, 0 <= n <= latest ch -> 0 <= time_at ch n < 2 ^ 63;
  chain_ordered : forall n m, 0 <= n -> n <= m -> m <= latest ch -> time_at ch n <= time_at ch m;
}.

(** A block that finality counts as final: the chain's own notion, or blocks of at least
    the given depth. *)
Definition final (ch : evm_chain) (offset : option Z) (n : Z) : Prop :=
  match offset with
  | None => n <= finalized ch
  | Some o => n + o <= latest ch
  end.

Section Finality.
Context {W : Type} {E : Env W} (lib : EVMLib) (node : EVMNode W) (ch : evm_chain).

(** The node shows this chain. *)
Record shows : Prop := {
  shows_latest : forall w, exists h, fst (HeaderByNumber node None w) = inr h /\
    Header_Number h = latest ch /\ Header_Time h = time_at ch (latest ch);
  shows_finalized : forall w, exists h, fst (HeaderByNumber node (Some FinalizedBlockNumber) w) = inr h /\
    Header_Number h = finalized ch /\ Header_Time h = time_at ch (finalized ch);
  shows_block : forall n w, 0 <= n <= latest ch -> exists h, fst (HeaderByNumber node (Some n) w) = inr h /\
    Header_Number h = n /\ Header_Time h = time_at ch n;
}.

Lemma to_int64_small n : - 2 ^ 63 <= n < 2 ^ 63 -> to_int64 n = n.
Proof. intros H. unfold to_int64, wrapS. rewrite Z.mod_small; lia. Qed.
Lemma to_uint64_small n : 0 <= n < 2 ^ 64 -> to_uint64 n = n.
Proof. intros H. unfold to_uint64, wrapU. by rewrite Z.mod_small. Qed.

Context (Hwf : wf_chain ch) (Hshows : shows).

Lemma wp_header n h Q s :
  (forall w, exists x, fst (HeaderByNumber node n w) = inr x /\ Header_Number x = h /\ Header_Time x = time_at ch h) ->
  (forall x s', Header_Number x = h -> Header_Time x = time_at ch h -> Q (Ok x) s') ->
  wp (call (HeaderByNumber node n)) Q s.
Proof.
  intros Hx HQ. apply wp_call. intros r w Hr. destruct (Hx (world s)) as (x & H1 & H2 & H3).
  rewrite Hr in H1. cbn in H1. subst r. by apply HQ.
Qed.

Lemma evm_tx_final h b rc offset s :
  0 <= b <= latest ch -> (forall o, offset = Some o -> 0 <= o < 2 ^ 64) -> Receipt_BlockNumber rc = b ->
  (forall w, fst (TransactionReceipt node (HexToHash lib h) w) = inr (Some rc)) ->
  wp (EVM.IsTxFinalized lib node h offset) (fun r _ => exists ok, r = Ok ok /\ (ok = true <-> final ch offset b)) s.
Proof.
  intros Hb Ho Hrc Hr. unfold EVM.IsTxFinalized. apply wp_bind, wp_try, wp_call. intros r w Hcall.
  pose proof (Hr (world s)) as Hr'. rewrite Hcall in Hr'. cbn in Hr'. subst r. apply wp_bind, wp_ret.
  destruct Hwf as [Hf Hl Ht _]. destruct offset as [o|].
  - apply wp_bind, wp_wrap. apply (wp_header _ (latest ch)); [apply Hshows|]. intros x s' Hx _. apply wp_ret.
    eexists. split; [done|]. rewrite Hx, Hrc, !to_uint64_small by lia. specialize (Ho o eq_refl).
    rewrite andb_true_iff, !bool_decide_eq_true. cbn. lia.
  - apply wp_bind, wp_wrap. apply (wp_header _ (finalized ch)); [apply Hshows|]. intros x s' Hx _. apply wp_ret.
    eexists. split; [done|]. rewrite Hx, Hrc, to_int64_small by lia. by rewrite bool_decide_eq_true.
Qed.

Lemma evm_timestamp_final ts offset s :
  (forall o, offset = Some o -> 0 <= o < 2 ^ 64) ->
  wp (EVM.IsTimestampFinalized node ts offset) (fun r _ => exists ok, r = Ok ok /\
    (ok = true <-> exists n, 0 <= n <= latest ch /\ final ch offset n /\ ts <= time_at ch n * Second)) s.
Proof.
  intros Ho. unfold EVM.IsTimestampFinalized. destruct Hwf as [Hf Hl Ht Hord].
  assert (Hfinal : forall m x ok, 0 <= m <= latest ch -> (forall n, 0 <= n <= latest ch -> final ch offset n <-> n <= m) ->
    Header_Time x = time_at ch m -> ok = negb (time_Before (time_Unix (Header_Time x)) ts) ->
    (ok = true <-> exists n, 0 <= n <= latest ch /\ final ch offset n /\ ts <= time_at ch n * Second)).
  { intros m x ok Hm Hfin Hx ->. rewrite Hx. unfold time_Before, time_Unix.
    specialize (Ht m Hm) as Htm. rewrite to_int64_small by lia. rewrite negb_true_iff, bool_decide_eq_false. split.
    - intros H. exists m. split; [done|]. split; [apply Hfin; lia|]. lia.
    - intros (n & Hn & Hfn & Hts). apply Hfin in Hfn; [|done]. specialize (Hord n m). unfold Second, Millisecond, Microsecond in *. nia. }
  destruct offset as [o|].
  - specialize (Ho o eq_refl). apply wp_bind, wp_wrap. apply (wp_header _ (latest ch)); [apply Hshows|].
    intros x s' Hx _. rewrite Hx, to_uint64_small by lia. case_bool_decide.
    + apply wp_ret. exists false. split; [done|]. split; [done|]. intros (n & Hn & Hfn & _). cbn in Hfn. lia.
    + apply wp_bind, wp_wrap. rewrite to_int64_small by lia.
      apply (wp_header _ (latest ch - o)); [intros w; apply Hshows; lia|]. intros y s2 Hy Hty. apply wp_ret.
      eexists. split; [done|]. eapply Hfinal; [| |exact Hty|done]; [lia|]. intros n Hn. cbn. lia.
  - apply wp_bind, wp_wrap. apply (wp_header _ (finalized ch)); [apply Hshows|]. intros y s2 Hy Hty. apply wp_ret.
    eexists. split; [done|]. eapply Hfinal; [| |exact Hty|done]; [lia|]. intros n Hn. cbn. lia.
Qed.

End Finality.

(** C29: finality on an EVM chain.  Against a node that shows a chain, a transaction
    counts as finalized exactly when its block is at or below the finalized one, or, with
    an offset, when at least that many blocks were built on it; a time counts as
    finalized exactly when some block that is final in the same sense is not earlier.
    Neither fails or panics, for every offset a uint64 can hold. *)
Theorem evm_finality {W} (lib : EVMLib) (node : EVMNode W) ch h rc ts offset s :
  wf_chain ch -> shows node ch -> (forall o, offset = Some o -> 0 <= o < 2 ^ 64) ->
  0 <= Receipt_BlockNumber rc <= latest ch ->
  (forall w, fst (TransactionReceipt node (HexToHash lib h) w) = inr (Some rc)) ->
  wp (EVM.IsTxFinalized lib node h offset) (fun r _ => exists ok, r = Ok ok /\
    (ok = true <-> final ch offset (Receipt_BlockNumber rc))) s /\
  wp (EVM.IsTimestampFinalized node ts offset) (fun r _ => exists ok, r = Ok ok /\
    (ok = true <-> exists n, 0 <= n <= latest ch /\ final ch offset n /\ ts <= time_at ch n * Second)) s.
Proof. intros Hw Hs Ho Hb Hr. split; [by eapply evm_tx_final | by apply evm_timestamp_final]. Qed.

(** ** Loops on a ticker *)

Section Wait.
Context {W : Type} {E : Env W} (lib : EVMLib) (node : EVMNode W).

(** The time of the latest block moves on by at least [d] with every tick until it is
    past [goal]. *)
Record evm_advances (chain_time : W -> Z) (d goal : Z) : Prop := {
  evm_wait_advances : forall t w, fst (wait node t w) = inr tt /\
    Z.min (chain_time w + d) (goal + 1) <= chain_time (snd (wait node t w));
  evm_header_advances : forall w, exists h, fst (HeaderByNumber node None w) = inr h /\
    time_Unix (Header_Time h) = chain_time w /\ chain_time w <= chain_time (snd (HeaderByNumber node None w));
  evm_clock_advances : forall w, chain_time w <= chain_time (snd (clock w));
}.

Lemma evm_waitForChain_ends chain_time d ticks : forall tick now s,
  evm_advances chain_time d now -> (0 < ticks)%nat -> now - chain_time (world s) < Z.of_nat ticks * d ->
  wp (EVM.waitForChain node ticks tick now) (fun r _ => r = Ok true) s.
Proof.
  induction ticks as [|ticks IH]; intros tick now s Ha Hpos Hlt; [lia|].
  cbn [EVM.waitForChain]. apply wp_bind, wp_call. intros r w Hw.
  destruct (evm_wait_advances _ _ _ Ha tick (world s)) as [H1 H2]. rewrite Hw in H1, H2. cbn in H1, H2. subst r.
  apply wp_bind, wp_wrap, wp_call. cbn [world]. intros r w' Hh.
  destruct (evm_header_advances _ _ _ Ha w) as (h & H3 & H4 & H5). rewrite Hh in H3, H5. cbn in H3, H5. subst r.
  unfold time_After. case_bool_decide as Hafter; [by apply wp_ret|].
  apply wp_bind. unfold Since. apply wp_bind, wp_Now. cbn [world]. intros t w'' Hc. apply wp_ret.
  pose proof (evm_clock_advances _ _ _ Ha w') as H6. rewrite Hc in H6. cbn in H6.
  assert (Hgo : forall s', world s' = w'' -> wp (EVM.waitForChain node ticks Second now) (fun r _ => r = Ok true) s').
  { intros s' Hs'. destruct ticks as [|ticks']; [exfalso; lia|]. apply IH; [done | lia | rewrite Hs'; nia]. }
  apply wp_bind. case_bool_decide; apply wp_emit; by apply Hgo.
Qed.

Lemma evm_waitForTx_waits ticks : forall start hash s,
  (forall t w, fst (wait node t w) = inr tt) ->
  (forall w, exists e, fst (TransactionReceipt node (HexToHash lib hash) w) = inl e) ->
  wp (EVM.waitForTx lib node ticks start hash) (fun r _ => r = Ok false) s.
Proof.
  induction ticks as [|ticks IH]; intros start hash s Hwait Hr; [by apply wp_ret|].
  cbn [EVM.waitForTx]. apply wp_bind, wp_call. intros r w Hw. specialize (Hwait (3 * Second) (world s)) as H1.
  rewrite Hw in H1. cbn in H1. subst r. apply wp_bind, wp_try, wp_call. cbn [world]. intros r w' Hr'.
  destruct (Hr w) as [e He]. rewrite Hr' in He. cbn in He. subst r. by apply IH.
Qed.

End Wait.

(** ** The theorems at work *)

Module EvmExamples.
Import ClientWorld.


Definition chain10 : evm_chain := mkEvmChain 10 8 (fun _ => 100).

Lemma evm_finality_witness :
  wp (EVM.IsTxFinalized evm_lib (evm_node good_evm) "ab" (Some 5)) (fun r _ => exists ok, r = Ok ok /\
    (ok = true <-> final chain10 (Some 5) 5)) (mkSys w0 db.empty_DB []).
Proof.
  apply (evm_finality evm_lib (evm_node good_evm) chain10 "ab" receipt1 0 (Some 5)).
  - split; cbn; lia.
  - split; [by intros w; eexists | by intros w; eexists |].
    intros n w Hn. eexists. split; [reflexivity|]. cbn in *. rewrite bool_decide_false by lia. done.
  - intros o [= <-]. lia.
  - cbn. lia.
  - done.
Defined.

End EvmExamples.
