(* ===== verification/Bindings.v ===== *)
(** * Contracts seen from Go

    The bindings of the contracts ([src/shared/contracts]) are generated from the ABI of
    each contract, which they carry in their metadata.  This file has the types of an
    ABI, the Go types they are bound to and the dynamic values that go through
    [bind.BoundContract]. *)

From S2P Require Import Prelude Db Transfer Config World Logic Once GoLib GoFloat EvmClient.

(** ** The types of an ABI *)

Inductive abi_type :=
  | Tuint (bits : Z)
  | Tbool
  | Taddress
  | Tstring
  | Tbytes
  | Tfixed (size : Z)
  | Ttuple (components : list (string * abi_type))
  | Tslice (elem : abi_type).

Record Argument := arg { arg_name : string; arg_type : abi_type }.
Record EventArgument := evarg { ev_name : string; ev_type : abi_type; ev_indexed : bool }.

Inductive Mutability := pure | view | nonpayable | payable.

(** The entries of an ABI in their order; the errors a contract may revert with are not
    bound to anything. *)
Inductive Entry :=
  | Constructor (inputs : list Argument)
  | Function (name : string) (inputs outputs : list Argument) (mutability : Mutability)
  | Event (name : string) (inputs : list EventArgument).

Definition ABI : Type := list Entry.

(** ** Go types and values *)

Inductive go_type :=
  | Guint (bits : Z)
  | Gbig
  | Gbool
  | Gaddress
  | Ghash
  | Gstring
  | Gbytes
  | Gfixed (size : Z)
  | Gstruct (fields : list (string * go_type))
  | Gslice (elem : go_type).

(** A value with its dynamic type, as in an [interface{}]. *)
Inductive value :=
  | VUint (bits n : Z)
  | VBig (n : Z)
  | VBool (b : bool)
  | VAddress (b : bytes)
  | VHash (b : bytes)
  | VString (s : string)
  | VBytes (b : bytes)
  | VFixed (size : Z) (b : bytes)
  | VStruct (fields : list value)
  | VSlice (elems : list value).

Fixpoint typed (g : go_type) (v : value) {struct g} : Prop :=
  match g, v with
  | Guint b, VUint b' _ => b = b'
  | Gbig, VBig _ | Gbool, VBool _ | Gaddress, VAddress _ | Ghash, VHash _ => True
  | Gstring, VString _ | Gbytes, VBytes _ => True
  | Gfixed n, VFixed n' _ => n = n'
  | Gstruct fs, VStruct vs =>
      (fix go fs vs := match fs, vs with
        | [], [] => True
        | (_, g) :: fs', v :: vs' => typed g v /\ go fs' vs'
        | _, _ => False
        end) fs vs
  | Gslice g, VSlice vs => Forall (typed g) vs
  | _, _ => False
  end.

(** A component called [clientId] is the field [ClientId] of its struct. *)
Definition field_name (s : string) : string :=
  match s with
  | String a s' =>
      let n := Ascii.nat_of_ascii a in
      if bool_decide (97 <= n <= 122)%nat then String (Ascii.ascii_of_nat (n - 32)) s' else s
  | EmptyString => ""
  end.

(** The Go type an ABI type is bound to: integers of 8, 16, 32 and 64 bits have their
    own, the others are big. *)
Fixpoint bind_type (t : abi_type) : go_type :=
  match t with
  | Tuint b => if bool_decide (b ∈ [8; 16; 32; 64]) then Guint b else Gbig
  | Tbool => Gbool
  | Taddress => Gaddress
  | Tstring => Gstring
  | Tbytes => Gbytes
  | Tfixed n => Gfixed n
  | Ttuple cs => Gstruct (List.map (fun c => match c with (n, t) => (field_name n, bind_type t) end) cs)
  | Tslice t => Gslice (bind_type t)
  end.

(** An indexed argument of a type without a fixed size is only known by its hash. *)
Definition topic_type (a : EventArgument) : go_type :=
  if ev_indexed a then
    match ev_type a with
    | Tstring | Tbytes | Ttuple _ | Tslice _ => Ghash
    | t => bind_type t
    end
  else bind_type (ev_type a).

(** The methods of an ABI under the names they are called by: of several with one name
    the second has a 0 after it, the third a 1. *)
Record Method := mkMethod { m_inputs : list go_type; m_outputs : list go_type }.

Definition method_key (used : list string) (name : string) : string :=
  if bool_decide (name ∈ used) then
    default name (List.find (fun k => negb (bool_decide (k ∈ used)))
                    ((fun n : nat => name +:+ pretty n) <$> seq 0 (length used)))
  else name.

Fixpoint methods (used : list string) (abi : ABI) : list (string * Method) :=
  match abi with
  | [] => []
  | Function name ins outs _ :: abi' =>
      let k := method_key used name in
      (k, mkMethod (bind_type ∘ arg_type <$> ins) (bind_type ∘ arg_type <$> outs)) :: methods (k :: used) abi'
  | _ :: abi' => methods used abi'
  end.

Fixpoint events (abi : ABI) : list (string * list (string * go_type)) :=
  match abi with
  | [] => []
  | Event name ins :: abi' => (name, (fun a => (field_name (ev_name a), topic_type a)) <$> ins) :: events abi'
  | _ :: abi' => events abi'
  end.

(** The types a filter may select the indexed arguments by. *)
Fixpoint rules (abi : ABI) : list (string * list go_type) :=
  match abi with
  | [] => []
  | Event name ins :: abi' => (name, bind_type ∘ ev_type <$> filter (fun a => ev_indexed a = true) ins) :: rules abi'
  | _ :: abi' => rules abi'
  end.

Fixpoint lookup_key {A} (k : string) (l : list (string * A)) : option A :=
  match l with
  | [] => None
  | (k', a) :: l' => if bool_decide (k = k') then Some a else lookup_key k l'
  end.

Definition Methods (abi : ABI) (k : string) : option Method := lookup_key k (methods [] abi).
Definition Rules (abi : ABI) (k : string) : option (list go_type) := lookup_key k (rules abi).
Definition Events (abi : ABI) (k : string) : option (list (string * go_type)) := lookup_key k (events abi).

(** ** The Go types of the bindings *)

(** What [abi.ConvertType] does with a dynamic value: [of_value] has no result where
    the type assertion panics. *)
Class GoType (A : Type) := {
  go_type_of : go_type;
  to_value : A -> value;
  of_value : value -> option A;
  to_typed : forall a, typed go_type_of (to_value a);
  of_to : forall a, of_value (to_value a) = Some a;
  of_typed : forall v, typed go_type_of v -> is_Some (of_value v);
}.
Arguments go_type_of A {_}.

Inductive uint (bits : Z) := Uint (n : Z).
Arguments Uint {bits} n.
Inductive bytesN (size : Z) := BytesN (b : bytes).
Arguments BytesN {size} b.
Inductive Address := Addr (b : bytes).
Inductive Hash32 := HashOf (b : bytes).
Inductive Bytes := ByteSlice (b : bytes).

(** [*big.Int] *)
Definition BigInt : Type := Z.

Definition of_uint {bits} (u : uint bits) : Z := let 'Uint n := u in n.
Definition of_bytesN {size} (b : bytesN size) : bytes := let 'BytesN b := b in b.
Definition of_Address (a : Address) : bytes := let 'Addr b := a in b.
Definition of_Bytes (a : Bytes) : bytes := let 'ByteSlice b := a in b.

Ltac go_type_tac :=
  first [ intros []; cbn; tauto
        | by intros []; cbn; rewrite ?bool_decide_true by done
        | intros []; cbn; try done; intros <-; by rewrite bool_decide_true
        | intros []; cbn; try done; by eexists ].

#[export, refine] Instance uint_GoType bits : GoType (uint bits) := {|
  go_type_of := Guint bits;
  to_value := fun u => let 'Uint n := u in VUint bits n;
  of_value := fun v => match v with VUint b n => if bool_decide (bits = b) then Some (Uint n) else None | _ => None end;
|}.
Proof. all: go_type_tac. Defined.

#[export, refine] Instance bytesN_GoType size : GoType (bytesN size) := {|
  go_type_of := Gfixed size;
  to_value := fun x => let 'BytesN b := x in VFixed size b;
  of_value := fun v => match v with VFixed n b => if bool_decide (size = n) then Some (BytesN b) else None | _ => None end;
|}.
Proof. all: go_type_tac. Defined.

#[export, refine] Instance BigInt_GoType : GoType BigInt := {|
  go_type_of := Gbig; to_value := VBig; of_value := fun v => match v with VBig n => Some n | _ => None end |}.
Proof. all: go_type_tac. Defined.

#[export, refine] Instance bool_GoType : GoType bool := {|
  go_type_of := Gbool; to_value := VBool; of_value := fun v => match v with VBool b => Some b | _ => None end |}.
Proof. all: go_type_tac. Defined.

#[export, refine] Instance string_GoType : GoType string := {|
  go_type_of := Gstring; to_value := VString; of_value := fun v => match v with VString s => Some s | _ => None end |}.
Proof. all: go_type_tac. Defined.

#[export, refine] Instance Address_GoType : GoType Address := {|
  go_type_of := Gaddress;
  to_value := fun x => let 'Addr b := x in VAddress b;
  of_value := fun v => match v with VAddress b => Some (Addr b) | _ => None end |}.
Proof. all: go_type_tac. Defined.

#[export, refine] Instance Hash32_GoType : GoType Hash32 := {|
  go_type_of := Ghash;
  to_value := fun x => let 'HashOf b := x in VHash b;
  of_value := fun v => match v with VHash b => Some (HashOf b) | _ => None end |}.
Proof. all: go_type_tac. Defined.

#[export, refine] Instance Bytes_GoType : GoType Bytes := {|
  go_type_of := Gbytes;
  to_value := fun x => let 'ByteSlice b := x in VBytes b;
  of_value := fun v => match v with VBytes b => Some (ByteSlice b) | _ => None end |}.
Proof. all: go_type_tac. Defined.

Lemma of_values {A} `{GoType A} (vs : list value) :
  Forall (typed (go_type_of A)) vs -> is_Some (mapM of_value vs).
Proof.
  induction 1 as [|v vs Hv _ [l IH]]; [by eexists|]. destruct (of_typed v Hv) as [a Ha].
  cbn. rewrite Ha. cbn. rewrite IH. by eexists.
Qed.

#[export, refine] Instance list_GoType A `{GoType A} : GoType (list A) := {|
  go_type_of := Gslice (go_type_of A);
  to_value := fun l => VSlice (to_value <$> l);
  of_value := fun v => match v with VSlice vs => mapM of_value vs | _ => None end |}.
Proof.
  - intros l. cbn. apply Forall_fmap, Forall_forall. intros a _. apply to_typed.
  - intros l. induction l as [|a l IH]; [done|]. cbn in *. rewrite of_to. cbn. by rewrite IH.
  - intros []; try done. apply of_values.
Defined.

(** A struct is converted field by field. *)
Ltac read_fields :=
  repeat match goal with |- context [@of_value ?A ?I ?v] =>
    let H := fresh "Hv" in assert (H : is_Some (@of_value A I v))
      by (apply of_typed; match goal with H : typed _ v |- _ => exact H end);
    destruct H as [? ->]; cbn [mbind option_bind] end; by eexists.

Ltac struct_tac :=
  first [ solve [intros x; cbn -[go_type_of to_value]; split_and!; first [apply to_typed | done]]
        | solve [intros []; cbn -[of_value to_value]; repeat (rewrite of_to; cbn -[of_value to_value]); done]
        | intros []; try done;
          repeat (match goal with vs : list value |- _ => destruct vs; cbn -[go_type_of of_value]; try (intros; tauto); try done end);
          intros Htyped; repeat match goal with H : typed _ _ /\ _ |- _ => destruct H end; read_fields ].
