(* ===== verification/BoundContracts.v ===== *)
(** * Bound contracts

    What the bindings are made of: [bind.BoundContract], the structs every binding has,
    and the shape of a binding for a call, a transaction, an event and a filter.
    [Bound] states what go-ethereum promises of a call whose arguments have the types
    the ABI gives the method, and nothing of any other call; a binding is [safe] when no
    conversion of it can panic on that promise. *)

From S2P Require Import Prelude Db Transfer Config World Logic Once GoLib GoFloat EvmClient Bindings.

(** ** Bound contracts *)

(** The types of go-ethereum the bindings only pass on. *)
Record Geth := mkGeth {
  CallOpts : Type;
  TransactOpts : Type;
  FilterOpts : Type;
  WatchOpts : Type;
  Transaction : Type;
}.

(** What the channels of a subscription give, in the order it is received: a log, or the
    end of the subscription, with its error. *)
Inductive received :=
  | RLog (log : EthLog)
  | REnd (err : option error).

(** [*bind.BoundContract]: calling a method, sending a transaction, filling the fields of
    a struct from a log, and subscribing to past or coming logs by the values of their
    indexed arguments. *)
Record BoundContract (W : Type) (T : Geth) := mkBoundContract {
  bound_Call : CallOpts T -> string -> list value -> W -> res (list value) * W;
  bound_Transact : TransactOpts T -> string -> list value -> W -> res (Transaction T) * W;
  bound_Transfer : TransactOpts T -> W -> res (Transaction T) * W;
  bound_UnpackLog : list (string * go_type) -> string -> EthLog -> res (list value);
  bound_FilterLogs : FilterOpts T -> string -> list (list value) -> W -> res (list received) * W;
  bound_WatchLogs : WatchOpts T -> string -> list (list value) -> W -> res unit * W;
}.
Arguments bound_Call {W T} b.
Arguments bound_Transact {W T} b.
Arguments bound_Transfer {W T} b.
Arguments bound_UnpackLog {W T} b.
Arguments bound_FilterLogs {W T} b.
Arguments bound_WatchLogs {W T} b.

Section Shapes.
Context {W : Type} {T : Geth}.
Local Notation Bound_ := (BoundContract W T).
Local Notation CallOpts := (CallOpts T).
Local Notation TransactOpts := (TransactOpts T).
Local Notation Transaction := (Transaction T).

(** What go-ethereum promises of a call of a method of the ABI with arguments of its
    types: an error, or results of the types the ABI gives them. *)
Class Bound (abi : ABI) (c : Bound_) : Prop := {
  call_documented : forall opts k m args w, Methods abi k = Some m -> Forall2 typed (m_inputs m) args ->
    match fst (bound_Call c opts k args w) with
    | Ok outs => Forall2 typed (m_outputs m) outs
    | Fail _ => True
    | Panic => False
    end;
  transact_documented : forall opts k m args w, Methods abi k = Some m -> Forall2 typed (m_inputs m) args ->
    fst (bound_Transact c opts k args w) <> Panic;
  unpack_documented : forall fields k log, Events abi k = Some fields ->
    match bound_UnpackLog c fields k log with
    | Ok vs => Forall2 typed (snd <$> fields) vs
    | Fail _ => True
    | Panic => False
    end;
  filter_documented : forall opts k tys rules w, Rules abi k = Some tys ->
    Forall2 (fun ty rule => Forall (typed ty) rule) tys rules ->
    fst (bound_FilterLogs c opts k rules w) <> Panic;
  watch_documented : forall opts k tys rules w, Rules abi k = Some tys ->
    Forall2 (fun ty rule => Forall (typed ty) rule) tys rules ->
    fst (bound_WatchLogs c opts k rules w) <> Panic;
}.

(** ** The structs every binding has *)

Record ContractCaller := mkContractCaller { caller_contract : Bound_ }.
Record ContractTransactor := mkContractTransactor { transactor_contract : Bound_ }.
Record ContractFilterer := mkContractFilterer { filterer_contract : Bound_ }.
Record Contract := mkContract {
  Contract_Caller : ContractCaller;
  Contract_Transactor : ContractTransactor;
  Contract_Filterer : ContractFilterer;
}.

(** Sessions carry the options of their calls, and the raw bindings name the method. *)
Record ContractSession := mkContractSession {
  session_Contract : Contract;
  session_CallOpts : CallOpts;
  session_TransactOpts : TransactOpts;
}.
Record ContractCallerSession := mkContractCallerSession {
  callerSession_Contract : ContractCaller;
  callerSession_CallOpts : CallOpts;
}.
Record ContractTransactorSession := mkContractTransactorSession {
  transactorSession_Contract : ContractTransactor;
  transactorSession_TransactOpts : TransactOpts;
}.
Record ContractRaw := mkContractRaw { raw_Contract : Contract }.
Record ContractCallerRaw := mkContractCallerRaw { callerRaw_Contract : ContractCaller }.
Record ContractTransactorRaw := mkContractTransactorRaw { transactorRaw_Contract : ContractTransactor }.

Definition ContractRaw_Call (r : ContractRaw) (opts : CallOpts) (method : string) (params : list value) :=
  bound_Call (caller_contract (Contract_Caller (raw_Contract r))) opts method params.
Definition ContractRaw_Transfer (r : ContractRaw) (opts : TransactOpts) :=
  bound_Transfer (transactor_contract (Contract_Transactor (raw_Contract r))) opts.
Definition ContractRaw_Transact (r : ContractRaw) (opts : TransactOpts) (method : string) (params : list value) :=
  bound_Transact (transactor_contract (Contract_Transactor (raw_Contract r))) opts method params.
Definition ContractCallerRaw_Call (r : ContractCallerRaw) (opts : CallOpts) (method : string) (params : list value) :=
  bound_Call (caller_contract (callerRaw_Contract r)) opts method params.
Definition ContractTransactorRaw_Transfer (r : ContractTransactorRaw) (opts : TransactOpts) :=
  bound_Transfer (transactor_contract (transactorRaw_Contract r)) opts.
Definition ContractTransactorRaw_Transact (r : ContractTransactorRaw) (opts : TransactOpts) (method : string)
    (params : list value) :=
  bound_Transact (transactor_contract (transactorRaw_Contract r)) opts method params.

(** Package [bind]: parsing the ABI of the metadata and binding a contract, with [None]
    for a nil backend. *)
Record BindLib (Backend : Type) := mkBindLib {
  GetAbi : ABI -> error + ABI;
  NewBoundContract : Address -> ABI -> option Backend -> option Backend -> option Backend -> Bound_;
}.

(** A parsed ABI is the one of the metadata, and a contract bound to it for everything
    does what a bound contract does. *)
Class Documented {Backend} (lib : BindLib Backend) : Prop := abi_documented :
  forall metadata parsed, GetAbi _ lib metadata = inr parsed -> parsed = metadata /\
    forall address b, Bound metadata (NewBoundContract _ lib address metadata (Some b) (Some b) (Some b)).

(** ** The shapes of a binding *)

(** A call without results. *)
Definition callNone (c : ContractCaller) (opts : CallOpts) (k : string) (params : list value) : W -> res unit * W := fun w =>
  match bound_Call (caller_contract c) opts k params w with
  | (Ok _, w') => (Ok tt, w')
  | (Fail err, w') => (Fail err, w')
  | (Panic, w') => (Panic, w')
  end.

(** [out0 := *abi.ConvertType(out[0], new(T)).( *T)] *)
Definition out0 {A} `{GoType A} (out : list value) : res A :=
  match out with
  | v :: _ => match of_value v with Some a => Ok a | None => Panic end
  | [] => Panic
  end.

(** A call with one result. *)
Definition callOut {A} `{GoType A} (c : ContractCaller) (opts : CallOpts) (k : string) (params : list value)
    : W -> res A * W := fun w =>
  match bound_Call (caller_contract c) opts k params w with
  | (Ok out, w') => (out0 out, w')
  | (Fail err, w') => (Fail err, w')
  | (Panic, w') => (Panic, w')
  end.

(** A call with several results. *)
Definition callOuts {A} (conv : list value -> option A) (c : ContractCaller) (opts : CallOpts) (k : string)
    (params : list value) : W -> res A * W := fun w =>
  match bound_Call (caller_contract c) opts k params w with
  | (Ok out, w') => (match conv out with Some a => Ok a | None => Panic end, w')
  | (Fail err, w') => (Fail err, w')
  | (Panic, w') => (Panic, w')
  end.

Definition transact (c : ContractTransactor) (opts : TransactOpts) (k : string) (params : list value)
    : W -> res Transaction * W := bound_Transact (transactor_contract c) opts k params.

(** An event struct: the fields filled from the log, and the log. *)
Class EventType (A : Type) := {
  event_fields : list (string * go_type);
  of_fields : EthLog -> list value -> option A;
  fields_typed : forall log vs, Forall2 typed (snd <$> event_fields) vs -> is_Some (of_fields log vs);
}.
Arguments event_fields A {_}.

(** [contract.UnpackLog(event, k, log)] and [event.Raw = log] *)
Definition unpack {A} `{EventType A} (c : Bound_) (k : string) (log : EthLog) : res A :=
  match bound_UnpackLog c (event_fields A) k log with
  | Ok vs => match of_fields log vs with Some event => Ok event | None => Panic end
  | Fail err => Fail err
  | Panic => Panic
  end.

Definition parse {A} `{EventType A} (c : ContractFilterer) (k : string) (log : EthLog) : res A :=
  unpack (filterer_contract c) k log.

(** The rule of an argument of a filter: the values one by one. *)
Definition rule {A} `{GoType A} (items : list A) : list value := to_value <$> items.

(** ** Safe bindings *)

(** A binding is safe when it panics for no arguments and in no world. *)
Class Safe (F : Type) := safe : F -> Prop.
#[export] Instance safe_op A : Safe (W -> res A * W) | 0 := fun f => forall w, fst (f w) <> Panic.
#[export] Instance safe_res A : Safe (res A) | 0 := fun r => r <> Panic.
#[export] Instance safe_fun A F `{Safe F} : Safe (A -> F) | 1 := fun f => forall a, safe (f a).

Record binding := Binding { binding_type : Type; binding_safe : Safe binding_type; the_binding : binding_type }.
Definition is_safe (b : binding) : Prop := @safe _ (binding_safe b) (the_binding b).

Lemma callNone_safe abi c opts k m params : Bound abi (caller_contract c) ->
  Methods abi k = Some m -> Forall2 typed (m_inputs m) params -> forall w, fst (callNone c opts k params w) <> Panic.
Proof.
  intros Hb Hm Ht w. unfold callNone. pose proof (call_documented opts k m params w Hm Ht) as H.
  by destruct (bound_Call _ _ _ _ _) as [[] ?].
Qed.

Lemma callOut_safe {A} `{GoType A} abi c opts k m params : Bound abi (caller_contract c) ->
  Methods abi k = Some m -> Forall2 typed (m_inputs m) params -> m_outputs m = [go_type_of A] ->
  forall w, fst (callOut (A:=A) c opts k params w) <> Panic.
Proof.
  intros Hb Hm Ht Ho w. unfold callOut. pose proof (call_documented opts k m params w Hm Ht) as Hc.
  rewrite Ho in Hc. destruct (bound_Call _ _ _ _ _) as [[out|e|] ?]; cbn in *; [|done..].
  inversion Hc as [|? v ? ? Hv _]; subst. cbn. by destruct (of_typed v Hv) as [a ->].
Qed.

Lemma callOuts_safe {A} (conv : list value -> option A) abi c opts k m params : Bound abi (caller_contract c) ->
  Methods abi k = Some m -> Forall2 typed (m_inputs m) params ->
  (forall outs, Forall2 typed (m_outputs m) outs -> is_Some (conv outs)) ->
  forall w, fst (callOuts conv c opts k params w) <> Panic.
Proof.
  intros Hb Hm Ht Ho w. unfold callOuts. pose proof (call_documented opts k m params w Hm Ht) as Hc.
  destruct (bound_Call _ _ _ _ _) as [[out|e|] ?]; cbn in *; [|done..]. by destruct (Ho out Hc) as [a ->].
Qed.

Lemma transact_safe abi c opts k m params : Bound abi (transactor_contract c) ->
  Methods abi k = Some m -> Forall2 typed (m_inputs m) params -> forall w, fst (transact c opts k params w) <> Panic.
Proof. intros Hb Hm Ht w. by eapply transact_documented. Qed.

Lemma rule_typed {A} `{GoType A} (items : list A) : Forall (typed (go_type_of A)) (rule items).
Proof. apply Forall_fmap, Forall_forall. intros a _. apply to_typed. Qed.

Lemma unpack_safe {A} `{EventType A} abi c k log : Bound abi c ->
  Events abi k = Some (event_fields A) -> unpack (A:=A) c k log <> Panic.
Proof.
  intros Hb Hk. unfold unpack. pose proof (unpack_documented _ k log Hk) as Hu.
  destruct (bound_UnpackLog _ _ _ _) as [vs|e|]; [|done..]. by destruct (fields_typed log vs Hu) as [a ->].
Qed.

End Shapes.
Arguments BindLib : clear implicits.
Arguments GetAbi {W T Backend} b.
Arguments NewBoundContract {W T Backend} b.
Arguments ContractCaller : clear implicits.
Arguments ContractTransactor : clear implicits.
Arguments ContractFilterer : clear implicits.
Arguments Contract : clear implicits.
Arguments ContractSession : clear implicits.
Arguments ContractCallerSession : clear implicits.
Arguments ContractTransactorSession : clear implicits.
Arguments event_fields A {_}.

(** The conversion of the fields of an event. *)
Ltac event_tac :=
  let Htyped := fresh "Htyped" in intros ? vs Htyped;
  repeat match type of Htyped with Forall2 _ (_ <$> _) _ => cbn [fmap list_fmap snd] in Htyped end;
  repeat match type of Htyped with Forall2 _ (_ :: _) _ =>
    apply Forall2_cons_inv_l in Htyped as (? & ? & ? & Htyped & ->) end;
  apply Forall2_nil_inv_l in Htyped as ->; cbn -[of_value]; read_fields.
