(* ===== verification/LogIterators.v ===== *)
(** * Iterating over logs and watching them

    The iterator that a filter of a binding returns and the loop behind a watch.  What
    their select statements receive is a list: an iterator without any more of it waits,
    and so does a watch. *)

From S2P Require Import Prelude Db Transfer Config World Logic Once GoLib GoFloat EvmClient Bindings BoundContracts.

(** The event of an iterator: nil, one that a log could not be unpacked into, or an
    unpacked one. *)
Inductive iterator_event (A : Type) :=
  | NoEvent
  | Unfilled
  | Unpacked (event : A).
Arguments NoEvent {A}.
Arguments Unfilled {A}.
Arguments Unpacked {A} event.

Record LogIterator (W : Type) (T : Geth) (A : Type) := mkLogIterator {
  it_Event : iterator_event A;
  it_contract : BoundContract W T;
  it_event : string;
  it_received : list received;
  it_unsubscribed : bool;
  it_done : bool;
  it_fail : option error;
}.
Arguments mkLogIterator {W T A}.
Arguments it_Event {W T A} l.
Arguments it_contract {W T A} l.
Arguments it_event {W T A} l.
Arguments it_received {W T A} l.
Arguments it_unsubscribed {W T A} l.
Arguments it_done {W T A} l.
Arguments it_fail {W T A} l.

#[export] Instance eta_LogIterator W T A : Eta (LogIterator W T A) := fun it =>
  mkLogIterator (it_Event it) (it_contract it) (it_event it) (it_received it) (it_unsubscribed it) (it_done it) (it_fail it).

Section LogIterators.
Context {W : Type} {T : Geth} {A : Type} `{EventType A}.
Local Notation Iterator := (LogIterator W T A).

(** A log is received: the event is new, and filled if the log can be unpacked. *)
Definition it_take (it : Iterator) (log : EthLog) (rest : list received) : res bool * Iterator :=
  let it := it <| it_received := rest |> in
  match unpack (it_contract it) (it_event it) log with
  | Ok event => (Ok true, it <| it_Event := Unpacked event |>)
  | Fail err => (Ok false, it <| it_Event := Unfilled |> <| it_fail := Some err |>)
  | Panic => (Panic, it <| it_Event := Unfilled |>)
  end.

(** The subscription has ended: whatever is available is delivered. *)
Definition it_deliver (it : Iterator) : res bool * Iterator :=
  match it_received it with
  | RLog log :: rest => it_take it log rest
  | _ => (Ok false, it)
  end.

(** [Next]; no result where it waits. *)
Definition it_Next (it : Iterator) : option (res bool * Iterator) :=
  match it_fail it with
  | Some _ => Some (Ok false, it)
  | None =>
      if it_done it then Some (it_deliver it) else
      match it_received it with
      | [] => None
      | RLog log :: rest => Some (it_take it log rest)
      | REnd err :: rest =>
          let it := it <| it_received := rest |> <| it_done := true |> <| it_fail := err |> in
          match err with
          | Some _ => Some (Ok false, it)
          | None => Some (it_deliver it)
          end
      end
  end.

Definition it_Error (it : Iterator) : option error := it_fail it.

Definition it_Close (it : Iterator) : option error * Iterator := (None, it <| it_unsubscribed := true |>).

(** [FilterX]: an iterator over the logs the rules select. *)
Definition filterLogs (c : ContractFilterer W T) (opts : FilterOpts T) (k : string) (rules : list (list value))
    : W -> res Iterator * W := fun w =>
  match bound_FilterLogs (filterer_contract c) opts k rules w with
  | (Ok logs, w') => (Ok (mkLogIterator NoEvent (filterer_contract c) k logs false false None), w')
  | (Fail err, w') => (Fail err, w')
  | (Panic, w') => (Panic, w')
  end.

(** ** Watching *)

(** What the loop of a watch receives: a log, the sink taking the event, the end of the
    subscription and quit. *)
Inductive watched :=
  | WLog (log : EthLog)
  | WSink
  | WEnd (err : option error)
  | WQuit.

Inductive watch_state :=
  | Watching
  | Ended (err : option error)
  | Panicked.

(** With [pending] the event the loop offers the sink.  An input that the select is not
    waiting for is not received. *)
Fixpoint watch_loop (c : BoundContract W T) (k : string) (pending : option A) (inputs : list watched) : list A * watch_state :=
  match inputs with
  | [] => ([], Watching)
  | i :: inputs' =>
      match i, pending with
      | WLog log, None =>
          match unpack c k log with
          | Ok event => watch_loop c k (Some event) inputs'
          | Fail err => ([], Ended (Some err))
          | Panic => ([], Panicked)
          end
      | WSink, Some event => let '(sent, st) := watch_loop c k None inputs' in (event :: sent, st)
      | WEnd err, _ => ([], Ended err)
      | WQuit, _ => ([], Ended None)
      | WLog _, Some _ | WSink, None => ([], Watching)
      end
  end.

(** [WatchX]: a subscription, which sends the events of the logs to the sink. *)
Definition watchLogs (c : ContractFilterer W T) (opts : WatchOpts T) (k : string) (rules : list (list value))
    : W -> res (list watched -> list A * watch_state) * W := fun w =>
  match bound_WatchLogs (filterer_contract c) opts k rules w with
  | (Ok _, w') => (Ok (watch_loop (filterer_contract c) k None), w')
  | (Fail err, w') => (Fail err, w')
  | (Panic, w') => (Panic, w')
  end.

(** ** What they deliver *)

(** Calling [Next] until it says that there is no more. *)
Fixpoint it_all (fuel : nat) (it : Iterator) : list A * Iterator :=
  match fuel with
  | O => ([], it)
  | S fuel =>
      match it_Next it with
      | Some (Ok true, it') =>
          let '(events, last) := it_all fuel it' in
          (match it_Event it' with Unpacked e => [e] | _ => [] end ++ events, last)
      | Some (_, it') => ([], it')
      | None => ([], it)
      end
  end.

Definition unpacks (c : BoundContract W T) (k : string) (log : EthLog) (e : A) : Prop := unpack c k log = Ok e.

Lemma it_all_delivers c k logs events e0 u (fuel : nat) :
  Forall2 (unpacks c k) logs events -> (length logs < fuel)%nat ->
  exists e, it_all fuel (mkLogIterator e0 c k (RLog <$> logs) u true None) =
    (events, mkLogIterator e c k [] u true None).
Proof.
  intros HF. revert e0 fuel. induction HF as [|log ev logs events Hu HF IH]; intros e0 [|fuel] Hf; cbn in Hf; try lia.
  - by exists e0.
  - cbn. unfold it_take. cbn. unfold unpacks in Hu. rewrite Hu. cbn.
    destruct (IH (Unpacked ev) fuel) as [e ->]; [lia|]. by exists e.
Qed.

(** An iterator delivers every log it is sent, in order, also those that are still there
    when the subscription has ended; but when it has ended with an error, these are
    left, and the error is reported. *)
Lemma iterator_delivers c k logs1 logs2 events1 events2 err u e0 (fuel : nat) :
  Forall2 (unpacks c k) logs1 events1 -> Forall2 (unpacks c k) logs2 events2 ->
  (length logs1 + length logs2 + 1 < fuel)%nat ->
  exists last, it_all fuel (mkLogIterator e0 c k ((RLog <$> logs1) ++ REnd err :: (RLog <$> logs2)) u false None) =
    (events1 ++ (if err is Some _ then [] else events2), last) /\ it_Error last = err /\ it_done last = true.
Proof.
  intros HF HF2. revert e0 fuel. induction HF as [|log ev logs events Hu HF IH]; intros e0 fuel Hf; cbn in Hf.
  - destruct fuel as [|fuel]; [lia|]. destruct err as [err|]; [by eexists|].
    cbn. destruct HF2 as [|log ev logs2 events2 Hu HF2]; [by eexists|].
    unfold it_deliver, it_take. cbn. unfold unpacks in Hu. rewrite Hu. cbn.
    destruct (it_all_delivers c k logs2 events2 (Unpacked ev) u fuel HF2) as [e ->]; [cbn in Hf; lia|]. by eexists.
  - destruct fuel as [|fuel]; [lia|]. cbn. unfold it_take. cbn. unfold unpacks in Hu. rewrite Hu. cbn.
    destruct (IH (Unpacked ev) fuel) as (last & -> & He & Hd); [lia|]. by eexists.
Qed.

(** A watch sends the sink every event it takes, in order, until it is told to quit. *)
Lemma watch_sends c k logs events :
  Forall2 (unpacks c k) logs events ->
  watch_loop c k None (concat ((fun log => [WLog log; WSink]) <$> logs) ++ [WQuit]) = (events, Ended None).
Proof.
  induction 1 as [|log ev logs events Hu _ IH]; [done|]. cbn. unfold unpacks in Hu. rewrite Hu. cbn in IH. by rewrite IH.
Qed.

(** ** Safety *)

Lemma filter_safe abi c opts k tys rules : Bound abi (filterer_contract c) -> Rules abi k = Some tys ->
  Forall2 (fun ty rule => Forall (typed ty) rule) tys rules -> forall w, fst (filterLogs c opts k rules w) <> Panic.
Proof.
  intros Hb Hk Hr w. unfold filterLogs. pose proof (filter_documented opts k tys rules w Hk Hr) as Hf.
  by destruct (bound_FilterLogs _ _ _ _ _) as [[] ?].
Qed.

Lemma watch_safe abi c opts k tys rules : Bound abi (filterer_contract c) -> Rules abi k = Some tys ->
  Forall2 (fun ty rule => Forall (typed ty) rule) tys rules -> forall w, fst (watchLogs c opts k rules w) <> Panic.
Proof.
  intros Hb Hk Hr w. unfold watchLogs. pose proof (watch_documented opts k tys rules w Hk Hr) as Hf.
  by destruct (bound_WatchLogs _ _ _ _ _) as [[] ?].
Qed.

(** [Next] does not panic on a contract bound to an ABI with the event. *)
Lemma it_Next_safe abi it : Bound abi (it_contract it) -> Events abi (it_event it) = Some (event_fields A) ->
  match it_Next it with Some (r, _) => r <> Panic | None => True end.
Proof.
  intros Hb Hk. unfold it_Next, it_deliver, it_take.
  assert (Hu : forall log, unpack (A:=A) (it_contract it) (it_event it) log <> Panic) by (intros; by eapply unpack_safe).
  destruct (it_fail it), (it_done it), (it_received it) as [|[log|[err|]] [|[log'|err'] rest]]; cbn; try done;
    match goal with |- context [unpack _ _ ?log] => specialize (Hu log); by destruct (unpack _ _ log) end.
Qed.

End LogIterators.

(** ** The bindings of a contract *)

(** The bindings of a contract one by one: the method is in the ABI under its name, its
    arguments are of the types of its inputs and the result is read as what it is. *)
Ltac args_tac := repeat constructor; match goal with |- typed _ (to_value ?a) => exact (to_typed a) end.
Ltac outs_tac :=
  let Ho := fresh "Ho" in intros outs Ho; cbn [m_outputs] in Ho;
  repeat match type of Ho with Forall2 _ (_ :: _) _ => apply Forall2_cons_inv_l in Ho as (? & ? & ? & Ho & ->) end;
  match goal with |- is_Some (?conv _) => unfold conv end; read_fields.
Ltac rules_tac := repeat first [apply List.Forall2_nil | apply List.Forall2_cons;
  [match goal with |- Forall _ (rule ?l) => exact (rule_typed l) end|]].
Ltac open_binding :=
  match goal with
  | |- fst (?f _) <> Panic => let h := get_head f in unfold h
  | |- ?f <> Panic => let h := get_head f in unfold h; unfold parse
  end.
Ltac bindings_tac abi :=
  repeat (apply Forall_cons; split); [..|apply Forall_nil; exact I];
  cbv [is_safe safe binding_safe the_binding safe_fun safe_op safe_res]; intros; open_binding;
  first [ eapply (callOut_safe abi); [eassumption | vm_compute; reflexivity | args_tac | vm_compute; reflexivity]
        | eapply (callOuts_safe _ abi); [eassumption | vm_compute; reflexivity | args_tac | outs_tac]
        | eapply (callNone_safe abi); [eassumption | vm_compute; reflexivity | args_tac]
        | eapply (transact_safe abi); [eassumption | vm_compute; reflexivity | args_tac]
        | eapply (unpack_safe abi); [eassumption | vm_compute; reflexivity]
        | eapply (filter_safe abi); [eassumption | vm_compute; reflexivity | rules_tac]
        | eapply (watch_safe abi); [eassumption | vm_compute; reflexivity | rules_tac] ].
