(* ===== verification/RouterBinding.v ===== *)
(** * The ICS26 router ([src/shared/contracts/ics26_router/ics26_router.go])

    The ABI the binding was generated from, the structs of its arguments and events, and
    the bindings of its methods, its transactions and its events, alone and in sessions. *)

From S2P Require Import Prelude Db Transfer Config World Logic Once GoLib GoFloat EvmClient Bindings.
From S2P Require Import BoundContracts LogIterators.

(** ** The ABI *)

Definition abi_Payload : abi_type := Ttuple [("sourcePort", Tstring); ("destPort", Tstring); ("version", Tstring);
    ("encoding", Tstring); ("value", Tbytes)].

Definition abi_Packet : abi_type := Ttuple [("sequence", Tuint 64); ("sourceClient", Tstring);
    ("destClient", Tstring); ("timeoutTimestamp", Tuint 64); ("payloads", Tslice abi_Payload)].

Definition abi_Height : abi_type := Ttuple [("revisionNumber", Tuint 32); ("revisionHeight", Tuint 32)].

Definition abi_MsgAckPacket : abi_type := Ttuple [("packet", abi_Packet); ("acknowledgement", Tbytes);
    ("proofAcked", Tbytes); ("proofHeight", abi_Height)].

Definition abi_CounterpartyInfo : abi_type := Ttuple [("clientId", Tstring); ("merklePrefix", Tslice Tbytes)].

Definition abi_MsgRecvPacket : abi_type := Ttuple [("packet", abi_Packet); ("proofCommitment", Tbytes);
    ("proofHeight", abi_Height)].

Definition abi_MsgSendPacket : abi_type := Ttuple [("sourceClient", Tstring); ("timeoutTimestamp", Tuint 64);
    ("payload", abi_Payload)].

Definition abi_MsgTimeoutPacket : abi_type := Ttuple [("packet", abi_Packet); ("proofTimeout", Tbytes);
    ("proofHeight", abi_Height)].

Definition ContractMetaData : ABI := [
  Constructor [];
  Function "CLIENT_ID_CUSTOMIZER_ROLE" [] [arg "" (Tfixed 32)] view;
  Function "DEFAULT_ADMIN_ROLE" [] [arg "" (Tfixed 32)] view;
  Function "PORT_CUSTOMIZER_ROLE" [] [arg "" (Tfixed 32)] view;
  Function "UPGRADE_INTERFACE_VERSION" [] [arg "" Tstring] view;
  Function "ackPacket" [arg "msg_" abi_MsgAckPacket] [] nonpayable;
  Function "addClient" [arg "clientId" Tstring; arg "counterpartyInfo" abi_CounterpartyInfo; arg "client" Taddress]
      [arg "" Tstring] nonpayable;
  Function "addClient" [arg "counterpartyInfo" abi_CounterpartyInfo; arg "client" Taddress] [arg "" Tstring]
      nonpayable;
  Function "addIBCApp" [arg "app" Taddress] [] nonpayable;
  Function "addIBCApp" [arg "portId" Tstring; arg "app" Taddress] [] nonpayable;
  Function "getClient" [arg "clientId" Tstring] [arg "" Taddress] view;
  Function "getCommitment" [arg "hashedPath" (Tfixed 32)] [arg "" (Tfixed 32)] view;
  Function "getCounterparty" [arg "clientId" Tstring] [arg "" abi_CounterpartyInfo] view;
  Function "getGovAdmin" [] [arg "" Taddress] view;
  Function "getIBCApp" [arg "portId" Tstring] [arg "" Taddress] view;
  Function "getLightClientMigratorRole" [arg "clientId" Tstring] [arg "" (Tfixed 32)] pure;
  Function "getNextClientSeq" [] [arg "" (Tuint 256)] view;
  Function "getRoleAdmin" [arg "role" (Tfixed 32)] [arg "" (Tfixed 32)] view;
  Function "getTimelockedAdmin" [] [arg "" Taddress] view;
  Function "grantClientIdCustomizerRole" [arg "account" Taddress] [] nonpayable;
  Function "grantLightClientMigratorRole" [arg "clientId" Tstring; arg "account" Taddress] [] nonpayable;
  Function "grantPortCustomizerRole" [arg "account" Taddress] [] nonpayable;
  Function "grantRole" [arg "role" (Tfixed 32); arg "account" Taddress] [] nonpayable;
  Function "hasRole" [arg "role" (Tfixed 32); arg "account" Taddress] [arg "" Tbool] view;
  Function "initialize" [arg "timelockedAdmin" Taddress; arg "customizer" Taddress] [] nonpayable;
  Function "isAdmin" [arg "account" Taddress] [arg "" Tbool] view;
  Function "isPacketReceiveSuccessful" [arg "packet" abi_Packet] [arg "" Tbool] view;
  Function "isPacketReceived" [arg "packet" abi_Packet] [arg "" Tbool] view;
  Function "migrateClient" [arg "subjectClientId" Tstring; arg "substituteClientId" Tstring] [] nonpayable;
  Function "multicall" [arg "data" (Tslice Tbytes)] [arg "results" (Tslice Tbytes)] nonpayable;
  Function "proxiableUUID" [] [arg "" (Tfixed 32)] view;
  Function "queryAckCommitment" [arg "clientId" Tstring; arg "sequence" (Tuint 64)] [arg "" (Tfixed 32)] view;
  Function "queryPacketCommitment" [arg "clientId" Tstring; arg "sequence" (Tuint 64)] [arg "" (Tfixed 32)] view;
  Function "queryPacketReceipt" [arg "clientId" Tstring; arg "sequence" (Tuint 64)] [arg "" (Tfixed 32)] view;
  Function "recvPacket" [arg "msg_" abi_MsgRecvPacket] [] nonpayable;
  Function "renounceRole" [arg "role" (Tfixed 32); arg "callerConfirmation" Taddress] [] nonpayable;
  Function "revokeClientIdCustomizerRole" [arg "account" Taddress] [] nonpayable;
  Function "revokeLightClientMigratorRole" [arg "clientId" Tstring; arg "account" Taddress] [] nonpayable;
  Function "revokePortCustomizerRole" [arg "account" Taddress] [] nonpayable;
  Function "revokeRole" [arg "role" (Tfixed 32); arg "account" Taddress] [] nonpayable;
  Function "sendPacket" [arg "msg_" abi_MsgSendPacket] [arg "" (Tuint 64)] nonpayable;
  Function "setGovAdmin" [arg "newGovAdmin" Taddress] [] nonpayable;
  Function "setTimelockedAdmin" [arg "newTimelockedAdmin" Taddress] [] nonpayable;
  Function "submitMisbehaviour" [arg "clientId" Tstring; arg "misbehaviourMsg" Tbytes] [] nonpayable;
  Function "supportsInterface" [arg "interfaceId" (Tfixed 4)] [arg "" Tbool] view;
  Function "timeoutPacket" [arg "msg_" abi_MsgTimeoutPacket] [] nonpayable;
  Function "updateClient" [arg "clientId" Tstring; arg "updateMsg" Tbytes] [arg "" (Tuint 8)] nonpayable;
  Function "upgradeClient" [arg "clientId" Tstring; arg "upgradeMsg" Tbytes] [] nonpayable;
  Function "upgradeToAndCall" [arg "newImplementation" Taddress; arg "data" Tbytes] [] payable;
  Event "AckPacket" [evarg "clientId" Tstring true; evarg "sequence" (Tuint 256) true;
      evarg "packet" abi_Packet false; evarg "acknowledgement" Tbytes false];
  Event "IBCAppAdded" [evarg "portId" Tstring false; evarg "app" Taddress false];
  Event "IBCAppRecvPacketCallbackError" [evarg "reason" Tbytes false];
  Event "ICS02ClientAdded" [evarg "clientId" Tstring false; evarg "counterpartyInfo" abi_CounterpartyInfo false];
  Event "ICS02ClientMigrated" [evarg "subjectClientId" Tstring false; evarg "substituteClientId" Tstring false];
  Event "ICS02MisbehaviourSubmitted" [evarg "clientId" Tstring false; evarg "misbehaviourMsg" Tbytes false];
  Event "Initialized" [evarg "version" (Tuint 64) false];
  Event "Noop" [];
  Event "RoleAdminChanged" [evarg "role" (Tfixed 32) true; evarg "previousAdminRole" (Tfixed 32) true;
      evarg "newAdminRole" (Tfixed 32) true];
  Event "RoleGranted" [evarg "role" (Tfixed 32) true; evarg "account" Taddress true; evarg "sender" Taddress true];
  Event "RoleRevoked" [evarg "role" (Tfixed 32) true; evarg "account" Taddress true; evarg "sender" Taddress true];
  Event "SendPacket" [evarg "clientId" Tstring true; evarg "sequence" (Tuint 256) true;
      evarg "packet" abi_Packet false];
  Event "TimeoutPacket" [evarg "clientId" Tstring true; evarg "sequence" (Tuint 256) true;
      evarg "packet" abi_Packet false];
  Event "Upgraded" [evarg "implementation" Taddress true];
  Event "WriteAcknowledgement" [evarg "clientId" Tstring true; evarg "sequence" (Tuint 256) true;
      evarg "packet" abi_Packet false; evarg "acknowledgements" (Tslice Tbytes) false]
].

(** ** Structs *)

Record IICS02ClientMsgsCounterpartyInfo := mkCounterpartyInfo {
  CounterpartyInfo_ClientId : string;
  CounterpartyInfo_MerklePrefix : list Bytes;
}.

#[export, refine] Instance IICS02ClientMsgsCounterpartyInfo_GoType : GoType IICS02ClientMsgsCounterpartyInfo := {|
  go_type_of := Gstruct [("ClientId", go_type_of string); ("MerklePrefix", go_type_of (list Bytes))];
  to_value := fun x => VStruct [to_value (CounterpartyInfo_ClientId x); to_value (CounterpartyInfo_MerklePrefix x)];
  of_value := fun v => match v with
    | VStruct [v0; v1] =>
        x0 ← of_value v0; x1 ← of_value v1; Some (mkCounterpartyInfo x0 x1)
    | _ => None
    end;
|}.
Proof. all: struct_tac. Defined.

Record IICS02ClientMsgsHeight := mkHeight {
  Height_RevisionNumber : uint 32;
  Height_RevisionHeight : uint 32;
}.

#[export, refine] Instance IICS02ClientMsgsHeight_GoType : GoType IICS02ClientMsgsHeight := {|
  go_type_of := Gstruct [("RevisionNumber", go_type_of (uint 32)); ("RevisionHeight", go_type_of (uint 32))];
  to_value := fun x => VStruct [to_value (Height_RevisionNumber x); to_value (Height_RevisionHeight x)];
  of_value := fun v => match v with
    | VStruct [v0; v1] =>
        x0 ← of_value v0; x1 ← of_value v1; Some (mkHeight x0 x1)
    | _ => None
    end;
|}.
Proof. all: struct_tac. Defined.

Record IICS26RouterMsgsPayload := mkPayload {
  Payload_SourcePort : string;
  Payload_DestPort : string;
  Payload_Version : string;
  Payload_Encoding : string;
  Payload_Value : Bytes;
}.

#[export, refine] Instance IICS26RouterMsgsPayload_GoType : GoType IICS26RouterMsgsPayload := {|
  go_type_of := Gstruct [("SourcePort", go_type_of string); ("DestPort", go_type_of string);
    ("Version", go_type_of string); ("Encoding", go_type_of string); ("Value", go_type_of Bytes)];
  to_value := fun x => VStruct [to_value (Payload_SourcePort x); to_value (Payload_DestPort x);
    to_value (Payload_Version x); to_value (Payload_Encoding x); to_value (Payload_Value x)];
  of_value := fun v => match v with
    | VStruct [v0; v1; v2; v3; v4] =>
        x0 ← of_value v0; x1 ← of_value v1; x2 ← of_value v2; x3 ← of_value v3; x4 ← of_value v4;
        Some (mkPayload x0 x1 x2 x3 x4)
    | _ => None
    end;
|}.
Proof. all: struct_tac. Defined.

Record IICS26RouterMsgsPacket := mkPacket {
  Packet_Sequence : uint 64;
  Packet_SourceClient : string;
  Packet_DestClient : string;
  Packet_TimeoutTimestamp : uint 64;
  Packet_Payloads : list IICS26RouterMsgsPayload;
}.

#[export, refine] Instance IICS26RouterMsgsPacket_GoType : GoType IICS26RouterMsgsPacket := {|
  go_type_of := Gstruct [("Sequence", go_type_of (uint 64)); ("SourceClient", go_type_of string);
    ("DestClient", go_type_of string); ("TimeoutTimestamp", go_type_of (uint 64));
    ("Payloads", go_type_of (list IICS26RouterMsgsPayload))];
  to_value := fun x => VStruct [to_value (Packet_Sequence x); to_value (Packet_SourceClient x);
    to_value (Packet_DestClient x); to_value (Packet_TimeoutTimestamp x); to_value (Packet_Payloads x)];
  of_value := fun v => match v with
    | VStruct [v0; v1; v2; v3; v4] =>
        x0 ← of_value v0; x1 ← of_value v1; x2 ← of_value v2; x3 ← of_value v3; x4 ← of_value v4;
        Some (mkPacket x0 x1 x2 x3 x4)
    | _ => None
    end;
|}.
Proof. all: struct_tac. Defined.

Record IICS26RouterMsgsMsgAckPacket := mkMsgAckPacket {
  MsgAckPacket_Packet : IICS26RouterMsgsPacket;
  MsgAckPacket_Acknowledgement : Bytes;
  MsgAckPacket_ProofAcked : Bytes;
  MsgAckPacket_ProofHeight : IICS02ClientMsgsHeight;
}.

#[export, refine] Instance IICS26RouterMsgsMsgAckPacket_GoType : GoType IICS26RouterMsgsMsgAckPacket := {|
  go_type_of := Gstruct [("Packet", go_type_of IICS26RouterMsgsPacket); ("Acknowledgement", go_type_of Bytes);
    ("ProofAcked", go_type_of Bytes); ("ProofHeight", go_type_of IICS02ClientMsgsHeight)];
  to_value := fun x => VStruct [to_value (MsgAckPacket_Packet x); to_value (MsgAckPacket_Acknowledgement x);
    to_value (MsgAckPacket_ProofAcked x); to_value (MsgAckPacket_ProofHeight x)];
  of_value := fun v => match v with
    | VStruct [v0; v1; v2; v3] =>
        x0 ← of_value v0; x1 ← of_value v1; x2 ← of_value v2; x3 ← of_value v3; Some (mkMsgAckPacket x0 x1 x2 x3)
    | _ => None
    end;
|}.
Proof. all: struct_tac. Defined.

Record IICS26RouterMsgsMsgRecvPacket := mkMsgRecvPacket {
  MsgRecvPacket_Packet : IICS26RouterMsgsPacket;
  MsgRecvPacket_ProofCommitment : Bytes;
  MsgRecvPacket_ProofHeight : IICS02ClientMsgsHeight;
}.

#[export, refine] Instance IICS26RouterMsgsMsgRecvPacket_GoType : GoType IICS26RouterMsgsMsgRecvPacket := {|
  go_type_of := Gstruct [("Packet", go_type_of IICS26RouterMsgsPacket); ("ProofCommitment", go_type_of Bytes);
    ("ProofHeight", go_type_of IICS02ClientMsgsHeight)];
  to_value := fun x => VStruct [to_value (MsgRecvPacket_Packet x); to_value (MsgRecvPacket_ProofCommitment x);
    to_value (MsgRecvPacket_ProofHeight x)];
  of_value := fun v => match v with
    | VStruct [v0; v1; v2] =>
        x0 ← of_value v0; x1 ← of_value v1; x2 ← of_value v2; Some (mkMsgRecvPacket x0 x1 x2)
    | _ => None
    end;
|}.
Proof. all: struct_tac. Defined.

Record IICS26RouterMsgsMsgSendPacket := mkMsgSendPacket {
  MsgSendPacket_SourceClient : string;
  MsgSendPacket_TimeoutTimestamp : uint 64;
  MsgSendPacket_Payload : IICS26RouterMsgsPayload;
}.

#[export, refine] Instance IICS26RouterMsgsMsgSendPacket_GoType : GoType IICS26RouterMsgsMsgSendPacket := {|
  go_type_of := Gstruct [("SourceClient", go_type_of string); ("TimeoutTimestamp", go_type_of (uint 64));
    ("Payload", go_type_of IICS26RouterMsgsPayload)];
  to_value := fun x => VStruct [to_value (MsgSendPacket_SourceClient x);
    to_value (MsgSendPacket_TimeoutTimestamp x); to_value (MsgSendPacket_Payload x)];
  of_value := fun v => match v with
    | VStruct [v0; v1; v2] =>
        x0 ← of_value v0; x1 ← of_value v1; x2 ← of_value v2; Some (mkMsgSendPacket x0 x1 x2)
    | _ => None
    end;
|}.
Proof. all: struct_tac. Defined.

Record IICS26RouterMsgsMsgTimeoutPacket := mkMsgTimeoutPacket {
  MsgTimeoutPacket_Packet : IICS26RouterMsgsPacket;
  MsgTimeoutPacket_ProofTimeout : Bytes;
  MsgTimeoutPacket_ProofHeight : IICS02ClientMsgsHeight;
}.

#[export, refine] Instance IICS26RouterMsgsMsgTimeoutPacket_GoType : GoType IICS26RouterMsgsMsgTimeoutPacket := {|
  go_type_of := Gstruct [("Packet", go_type_of IICS26RouterMsgsPacket); ("ProofTimeout", go_type_of Bytes);
    ("ProofHeight", go_type_of IICS02ClientMsgsHeight)];
  to_value := fun x => VStruct [to_value (MsgTimeoutPacket_Packet x); to_value (MsgTimeoutPacket_ProofTimeout x);
    to_value (MsgTimeoutPacket_ProofHeight x)];
  of_value := fun v => match v with
    | VStruct [v0; v1; v2] =>
        x0 ← of_value v0; x1 ← of_value v1; x2 ← of_value v2; Some (mkMsgTimeoutPacket x0 x1 x2)
    | _ => None
    end;
|}.
Proof. all: struct_tac. Defined.

(** ** Events *)

Record ContractAckPacket := mkContractAckPacket {
  AckPacket_ClientId : Hash32;
  AckPacket_Sequence : BigInt;
  AckPacket_Packet : IICS26RouterMsgsPacket;
  AckPacket_Acknowledgement : Bytes;
  AckPacket_Raw : EthLog;
}.

#[export, refine] Instance ContractAckPacket_EventType : EventType ContractAckPacket := {|
  event_fields := [("ClientId", go_type_of Hash32); ("Sequence", go_type_of BigInt);
    ("Packet", go_type_of IICS26RouterMsgsPacket); ("Acknowledgement", go_type_of Bytes)];
  of_fields := fun log vs => match vs with
    | [v0; v1; v2; v3] =>
        x0 ← of_value v0; x1 ← of_value v1; x2 ← of_value v2; x3 ← of_value v3;
        Some (mkContractAckPacket x0 x1 x2 x3 log)
    | _ => None
    end;
|}.
Proof. all: event_tac. Defined.

Record ContractIBCAppAdded := mkContractIBCAppAdded {
  IBCAppAdded_PortId : string;
  IBCAppAdded_App : Address;
  IBCAppAdded_Raw : EthLog;
}.

#[export, refine] Instance ContractIBCAppAdded_EventType : EventType ContractIBCAppAdded := {|
  event_fields := [("PortId", go_type_of string); ("App", go_type_of Address)];
  of_fields := fun log vs => match vs with
    | [v0; v1] =>
        x0 ← of_value v0; x1 ← of_value v1; Some (mkContractIBCAppAdded x0 x1 log)
    | _ => None
    end;
|}.
Proof. all: event_tac. Defined.

Record ContractIBCAppRecvPacketCallbackError := mkContractIBCAppRecvPacketCallbackError {
  IBCAppRecvPacketCallbackError_Reason : Bytes;
  IBCAppRecvPacketCallbackError_Raw : EthLog;
}.

#[export, refine] Instance ContractIBCAppRecvPacketCallbackError_EventType : EventType ContractIBCAppRecvPacketCallbackError := {|
  event_fields := [("Reason", go_type_of Bytes)];
  of_fields := fun log vs => match vs with
    | [v0] =>
        x0 ← of_value v0; Some (mkContractIBCAppRecvPacketCallbackError x0 log)
    | _ => None
    end;
|}.
Proof. all: event_tac. Defined.

Record ContractICS02ClientAdded := mkContractICS02ClientAdded {
  ICS02ClientAdded_ClientId : string;
  ICS02ClientAdded_CounterpartyInfo : IICS02ClientMsgsCounterpartyInfo;
  ICS02ClientAdded_Raw : EthLog;
}.

#[export, refine] Instance ContractICS02ClientAdded_EventType : EventType ContractICS02ClientAdded := {|
  event_fields := [("ClientId", go_type_of string);
    ("CounterpartyInfo", go_type_of IICS02ClientMsgsCounterpartyInfo)];
  of_fields := fun log vs => match vs with
    | [v0; v1] =>
        x0 ← of_value v0; x1 ← of_value v1; Some (mkContractICS02ClientAdded x0 x1 log)
    | _ => None
    end;
|}.
Proof. all: event_tac. Defined.

Record ContractICS02ClientMigrated := mkContractICS02ClientMigrated {
  ICS02ClientMigrated_SubjectClientId : string;
  ICS02ClientMigrated_SubstituteClientId : string;
  ICS02ClientMigrated_Raw : EthLog;
}.

#[export, refine] Instance ContractICS02ClientMigrated_EventType : EventType ContractICS02ClientMigrated := {|
  event_fields := [("SubjectClientId", go_type_of string); ("SubstituteClientId", go_type_of string)];
  of_fields := fun log vs => match vs with
    | [v0; v1] =>
        x0 ← of_value v0; x1 ← of_value v1; Some (mkContractICS02ClientMigrated x0 x1 log)
    | _ => None
    end;
|}.
Proof. all: event_tac. Defined.

Record ContractICS02MisbehaviourSubmitted := mkContractICS02MisbehaviourSubmitted {
  ICS02MisbehaviourSubmitted_ClientId : string;
  ICS02MisbehaviourSubmitted_MisbehaviourMsg : Bytes;
  ICS02MisbehaviourSubmitted_Raw : EthLog;
}.

#[export, refine] Instance ContractICS02MisbehaviourSubmitted_EventType : EventType ContractICS02MisbehaviourSubmitted := {|
  event_fields := [("ClientId", go_type_of string); ("MisbehaviourMsg", go_type_of Bytes)];
  of_fields := fun log vs => match vs with
    | [v0; v1] =>
        x0 ← of_value v0; x1 ← of_value v1; Some (mkContractICS02MisbehaviourSubmitted x0 x1 log)
    | _ => None
    end;
|}.
Proof. all: event_tac. Defined.

Record ContractInitialized := mkContractInitialized {
  Initialized_Version : uint 64;
  Initialized_Raw : EthLog;
}.

#[export, refine] Instance ContractInitialized_EventType : EventType ContractInitialized := {|
  event_fields := [("Version", go_type_of (uint 64))];
  of_fields := fun log vs => match vs with
    | [v0] =>
        x0 ← of_value v0; Some (mkContractInitialized x0 log)
    | _ => None
    end;
|}.
Proof. all: event_tac. Defined.

Record ContractNoop := mkContractNoop {
  Noop_Raw : EthLog;
}.

#[export, refine] Instance ContractNoop_EventType : EventType ContractNoop := {|
  event_fields := [];
  of_fields := fun log vs => match vs with
    | [] =>
        Some (mkContractNoop log)
    | _ => None
    end;
|}.
Proof. all: event_tac. Defined.

Record ContractRoleAdminChanged := mkContractRoleAdminChanged {
  RoleAdminChanged_Role : bytesN 32;
  RoleAdminChanged_PreviousAdminRole : bytesN 32;
  RoleAdminChanged_NewAdminRole : bytesN 32;
  RoleAdminChanged_Raw : EthLog;
}.

#[export, refine] Instance ContractRoleAdminChanged_EventType : EventType ContractRoleAdminChanged := {|
  event_fields := [("Role", go_type_of (bytesN 32)); ("PreviousAdminRole", go_type_of (bytesN 32));
    ("NewAdminRole", go_type_of (bytesN 32))];
  of_fields := fun log vs => match vs with
    | [v0; v1; v2] =>
        x0 ← of_value v0; x1 ← of_value v1; x2 ← of_value v2; Some (mkContractRoleAdminChanged x0 x1 x2 log)
    | _ => None
    end;
|}.
Proof. all: event_tac. Defined.

Record ContractRoleGranted := mkContractRoleGranted {
  RoleGranted_Role : bytesN 32;
  RoleGranted_Account : Address;
  RoleGranted_Sender : Address;
  RoleGranted_Raw : EthLog;
}.

#[export, refine] Instance ContractRoleGranted_EventType : EventType ContractRoleGranted := {|
  event_fields := [("Role", go_type_of (bytesN 32)); ("Account", go_type_of Address);
    ("Sender", go_type_of Address)];
  of_fields := fun log vs => match vs with
    | [v0; v1; v2] =>
        x0 ← of_value v0; x1 ← of_value v1; x2 ← of_value v2; Some (mkContractRoleGranted x0 x1 x2 log)
    | _ => None
    end;
|}.
Proof. all: event_tac. Defined.

Record ContractRoleRevoked := mkContractRoleRevoked {
  RoleRevoked_Role : bytesN 32;
  RoleRevoked_Account : Address;
  RoleRevoked_Sender : Address;
  RoleRevoked_Raw : EthLog;
}.

#[export, refine] Instance ContractRoleRevoked_EventType : EventType ContractRoleRevoked := {|
  event_fields := [("Role", go_type_of (bytesN 32)); ("Account", go_type_of Address);
    ("Sender", go_type_of Address)];
  of_fields := fun log vs => match vs with
    | [v0; v1; v2] =>
        x0 ← of_value v0; x1 ← of_value v1; x2 ← of_value v2; Some (mkContractRoleRevoked x0 x1 x2 log)
    | _ => None
    end;
|}.
Proof. all: event_tac. Defined.

Record ContractSendPacket := mkContractSendPacket {
  SendPacket_ClientId : Hash32;
  SendPacket_Sequence : BigInt;
  SendPacket_Packet : IICS26RouterMsgsPacket;
  SendPacket_Raw : EthLog;
}.

#[export, refine] Instance ContractSendPacket_EventType : EventType ContractSendPacket := {|
  event_fields := [("ClientId", go_type_of Hash32); ("Sequence", go_type_of BigInt);
    ("Packet", go_type_of IICS26RouterMsgsPacket)];
  of_fields := fun log vs => match vs with
    | [v0; v1; v2] =>
        x0 ← of_value v0; x1 ← of_value v1; x2 ← of_value v2; Some (mkContractSendPacket x0 x1 x2 log)
    | _ => None
    end;
|}.
Proof. all: event_tac. Defined.

Record ContractTimeoutPacket := mkContractTimeoutPacket {
  TimeoutPacket_ClientId : Hash32;
  TimeoutPacket_Sequence : BigInt;
  TimeoutPacket_Packet : IICS26RouterMsgsPacket;
  TimeoutPacket_Raw : EthLog;
}.

#[export, refine] Instance ContractTimeoutPacket_EventType : EventType ContractTimeoutPacket := {|
  event_fields := [("ClientId", go_type_of Hash32); ("Sequence", go_type_of BigInt);
    ("Packet", go_type_of IICS26RouterMsgsPacket)];
  of_fields := fun log vs => match vs with
    | [v0; v1; v2] =>
        x0 ← of_value v0; x1 ← of_value v1; x2 ← of_value v2; Some (mkContractTimeoutPacket x0 x1 x2 log)
    | _ => None
    end;
|}.
Proof. all: event_tac. Defined.

Record ContractUpgraded := mkContractUpgraded {
  Upgraded_Implementation : Address;
  Upgraded_Raw : EthLog;
}.

#[export, refine] Instance ContractUpgraded_EventType : EventType ContractUpgraded := {|
  event_fields := [("Implementation", go_type_of Address)];
  of_fields := fun log vs => match vs with
    | [v0] =>
        x0 ← of_value v0; Some (mkContractUpgraded x0 log)
    | _ => None
    end;
|}.
Proof. all: event_tac. Defined.

Record ContractWriteAcknowledgement := mkContractWriteAcknowledgement {
  WriteAcknowledgement_ClientId : Hash32;
  WriteAcknowledgement_Sequence : BigInt;
  WriteAcknowledgement_Packet : IICS26RouterMsgsPacket;
  WriteAcknowledgement_Acknowledgements : list Bytes;
  WriteAcknowledgement_Raw : EthLog;
}.

#[export, refine] Instance ContractWriteAcknowledgement_EventType : EventType ContractWriteAcknowledgement := {|
  event_fields := [("ClientId", go_type_of Hash32); ("Sequence", go_type_of BigInt);
    ("Packet", go_type_of IICS26RouterMsgsPacket); ("Acknowledgements", go_type_of (list Bytes))];
  of_fields := fun log vs => match vs with
    | [v0; v1; v2; v3] =>
        x0 ← of_value v0; x1 ← of_value v1; x2 ← of_value v2; x3 ← of_value v3;
        Some (mkContractWriteAcknowledgement x0 x1 x2 x3 log)
    | _ => None
    end;
|}.
Proof. all: event_tac. Defined.

(** ** Bindings *)

Section Bindings.
Context {W : Type} {T : Geth} {Backend : Type}.

Definition bindContract (lib : BindLib W T Backend) (address : Address)
    (caller transactor filterer : option Backend) : error + BoundContract W T :=
  match GetAbi lib ContractMetaData with
  | inl err => inl err
  | inr parsed => inr (NewBoundContract lib address parsed caller transactor filterer)
  end.

Definition NewContract (lib : BindLib W T Backend) (address : Address)
    (backend : Backend) : error + Contract W T :=
  match bindContract lib address (Some backend) (Some backend) (Some backend) with
  | inl err => inl err
  | inr contract => inr (mkContract (mkContractCaller contract) (mkContractTransactor contract) (mkContractFilterer contract))
  end.

Definition NewContractCaller (lib : BindLib W T Backend) (address : Address)
    (caller : Backend) : error + ContractCaller W T :=
  match bindContract lib address (Some caller) None None with
  | inl err => inl err
  | inr contract => inr (mkContractCaller contract)
  end.

Definition NewContractTransactor (lib : BindLib W T Backend) (address : Address)
    (transactor : Backend) : error + ContractTransactor W T :=
  match bindContract lib address None (Some transactor) None with
  | inl err => inl err
  | inr contract => inr (mkContractTransactor contract)
  end.

Definition NewContractFilterer (lib : BindLib W T Backend) (address : Address)
    (filterer : Backend) : error + ContractFilterer W T :=
  match bindContract lib address None None (Some filterer) with
  | inl err => inl err
  | inr contract => inr (mkContractFilterer contract)
  end.

(** Calls. *)
Section Calls.
Context (contract : ContractCaller W T) (opts : CallOpts T).

Definition CLIENTIDCUSTOMIZERROLE : W -> res (bytesN 32) * W :=
  callOut contract opts "CLIENT_ID_CUSTOMIZER_ROLE" [].

Definition DEFAULTADMINROLE : W -> res (bytesN 32) * W := callOut contract opts "DEFAULT_ADMIN_ROLE" [].

Definition PORTCUSTOMIZERROLE : W -> res (bytesN 32) * W := callOut contract opts "PORT_CUSTOMIZER_ROLE" [].

Definition UPGRADEINTERFACEVERSION : W -> res string * W := callOut contract opts "UPGRADE_INTERFACE_VERSION" [].

Definition GetClient (clientId : string) : W -> res Address * W :=
  callOut contract opts "getClient" [to_value clientId].

Definition GetCommitment (hashedPath : bytesN 32) : W -> res (bytesN 32) * W :=
  callOut contract opts "getCommitment" [to_value hashedPath].

Definition GetCounterparty (clientId : string) : W -> res IICS02ClientMsgsCounterpartyInfo * W :=
  callOut contract opts "getCounterparty" [to_value clientId].

Definition GetGovAdmin : W -> res Address * W := callOut contract opts "getGovAdmin" [].

Definition GetIBCApp (portId : string) : W -> res Address * W :=
  callOut contract opts "getIBCApp" [to_value portId].

Definition GetLightClientMigratorRole (clientId : string) : W -> res (bytesN 32) * W :=
  callOut contract opts "getLightClientMigratorRole" [to_value clientId].

Definition GetNextClientSeq : W -> res BigInt * W := callOut contract opts "getNextClientSeq" [].

Definition GetRoleAdmin (role : bytesN 32) : W -> res (bytesN 32) * W :=
  callOut contract opts "getRoleAdmin" [to_value role].

Definition GetTimelockedAdmin : W -> res Address * W := callOut contract opts "getTimelockedAdmin" [].

Definition HasRole (role : bytesN 32) (account : Address) : W -> res bool * W :=
  callOut contract opts "hasRole" [to_value role; to_value account].

Definition IsAdmin (account : Address) : W -> res bool * W := callOut contract opts "isAdmin" [to_value account].

Definition IsPacketReceiveSuccessful (packet : IICS26RouterMsgsPacket) : W -> res bool * W :=
  callOut contract opts "isPacketReceiveSuccessful" [to_value packet].

Definition IsPacketReceived (packet : IICS26RouterMsgsPacket) : W -> res bool * W :=
  callOut contract opts "isPacketReceived" [to_value packet].

Definition ProxiableUUID : W -> res (bytesN 32) * W := callOut contract opts "proxiableUUID" [].

Definition QueryAckCommitment (clientId : string) (sequence : uint 64) : W -> res (bytesN 32) * W :=
  callOut contract opts "queryAckCommitment" [to_value clientId; to_value sequence].

Definition QueryPacketCommitment (clientId : string) (sequence : uint 64) : W -> res (bytesN 32) * W :=
  callOut contract opts "queryPacketCommitment" [to_value clientId; to_value sequence].

Definition QueryPacketReceipt (clientId : string) (sequence : uint 64) : W -> res (bytesN 32) * W :=
  callOut contract opts "queryPacketReceipt" [to_value clientId; to_value sequence].

Definition SupportsInterface (interfaceId : bytesN 4) : W -> res bool * W :=
  callOut contract opts "supportsInterface" [to_value interfaceId].

End Calls.

(** Transactions. *)
Section Transactions.
Context (contract : ContractTransactor W T) (opts : TransactOpts T).

Definition AckPacket (msg_ : IICS26RouterMsgsMsgAckPacket) : W -> res (Transaction T) * W :=
  transact contract opts "ackPacket" [to_value msg_].

Definition AddClient (clientId : string) (counterpartyInfo : IICS02ClientMsgsCounterpartyInfo)
    (client : Address) : W -> res (Transaction T) * W :=
  transact contract opts "addClient" [to_value clientId; to_value counterpartyInfo; to_value client].

Definition AddClient0 (counterpartyInfo : IICS02ClientMsgsCounterpartyInfo) (client : Address) : W -> res
    (Transaction T) * W := transact contract opts "addClient0" [to_value counterpartyInfo; to_value client].

Definition AddIBCApp (app : Address) : W -> res (Transaction T) * W :=
  transact contract opts "addIBCApp" [to_value app].

Definition AddIBCApp0 (portId : string) (app : Address) : W -> res (Transaction T) * W :=
  transact contract opts "addIBCApp0" [to_value portId; to_value app].

Definition GrantClientIdCustomizerRole (account : Address) : W -> res (Transaction T) * W :=
  transact contract opts "grantClientIdCustomizerRole" [to_value account].

Definition GrantLightClientMigratorRole (clientId : string) (account : Address) : W -> res (Transaction T) * W :=
  transact contract opts "grantLightClientMigratorRole" [to_value clientId; to_value account].

Definition GrantPortCustomizerRole (account : Address) : W -> res (Transaction T) * W :=
  transact contract opts "grantPortCustomizerRole" [to_value account].

Definition GrantRole (role : bytesN 32) (account : Address) : W -> res (Transaction T) * W :=
  transact contract opts "grantRole" [to_value role; to_value account].

Definition Initialize (timelockedAdmin : Address) (customizer : Address) : W -> res (Transaction T) * W :=
  transact contract opts "initialize" [to_value timelockedAdmin; to_value customizer].

Definition MigrateClient (subjectClientId : string) (substituteClientId : string) : W -> res (Transaction T) * W :=
  transact contract opts "migrateClient" [to_value subjectClientId; to_value substituteClientId].

Definition Multicall (data : list Bytes) : W -> res (Transaction T) * W :=
  transact contract opts "multicall" [to_value data].

Definition RecvPacket (msg_ : IICS26RouterMsgsMsgRecvPacket) : W -> res (Transaction T) * W :=
  transact contract opts "recvPacket" [to_value msg_].

Definition RenounceRole (role : bytesN 32) (callerConfirmation : Address) : W -> res (Transaction T) * W :=
  transact contract opts "renounceRole" [to_value role; to_value callerConfirmation].

Definition RevokeClientIdCustomizerRole (account : Address) : W -> res (Transaction T) * W :=
  transact contract opts "revokeClientIdCustomizerRole" [to_value account].

Definition RevokeLightClientMigratorRole (clientId : string) (account : Address) : W -> res (Transaction T) * W :=
  transact contract opts "revokeLightClientMigratorRole" [to_value clientId; to_value account].

Definition RevokePortCustomizerRole (account : Address) : W -> res (Transaction T) * W :=
  transact contract opts "revokePortCustomizerRole" [to_value account].

Definition RevokeRole (role : bytesN 32) (account : Address) : W -> res (Transaction T) * W :=
  transact contract opts "revokeRole" [to_value role; to_value account].

Definition SendPacket (msg_ : IICS26RouterMsgsMsgSendPacket) : W -> res (Transaction T) * W :=
  transact contract opts "sendPacket" [to_value msg_].

Definition SetGovAdmin (newGovAdmin : Address) : W -> res (Transaction T) * W :=
  transact contract opts "setGovAdmin" [to_value newGovAdmin].

Definition SetTimelockedAdmin (newTimelockedAdmin : Address) : W -> res (Transaction T) * W :=
  transact contract opts "setTimelockedAdmin" [to_value newTimelockedAdmin].

Definition SubmitMisbehaviour (clientId : string) (misbehaviourMsg : Bytes) : W -> res (Transaction T) * W :=
  transact contract opts "submitMisbehaviour" [to_value clientId; to_value misbehaviourMsg].

Definition TimeoutPacket (msg_ : IICS26RouterMsgsMsgTimeoutPacket) : W -> res (Transaction T) * W :=
  transact contract opts "timeoutPacket" [to_value msg_].

Definition UpdateClient (clientId : string) (updateMsg : Bytes) : W -> res (Transaction T) * W :=
  transact contract opts "updateClient" [to_value clientId; to_value updateMsg].

Definition UpgradeClient (clientId : string) (upgradeMsg : Bytes) : W -> res (Transaction T) * W :=
  transact contract opts "upgradeClient" [to_value clientId; to_value upgradeMsg].

Definition UpgradeToAndCall (newImplementation : Address) (data : Bytes) : W -> res (Transaction T) * W :=
  transact contract opts "upgradeToAndCall" [to_value newImplementation; to_value data].

End Transactions.

(** Events. *)
Section Logs.
Context (contract : ContractFilterer W T) (log : EthLog).

Definition ParseAckPacket : res ContractAckPacket := parse contract "AckPacket" log.

Definition ParseIBCAppAdded : res ContractIBCAppAdded := parse contract "IBCAppAdded" log.

Definition ParseIBCAppRecvPacketCallbackError : res ContractIBCAppRecvPacketCallbackError :=
  parse contract "IBCAppRecvPacketCallbackError" log.

Definition ParseICS02ClientAdded : res ContractICS02ClientAdded := parse contract "ICS02ClientAdded" log.

Definition ParseICS02ClientMigrated : res ContractICS02ClientMigrated := parse contract "ICS02ClientMigrated" log.

Definition ParseICS02MisbehaviourSubmitted : res ContractICS02MisbehaviourSubmitted :=
  parse contract "ICS02MisbehaviourSubmitted" log.

Definition ParseInitialized : res ContractInitialized := parse contract "Initialized" log.

Definition ParseNoop : res ContractNoop := parse contract "Noop" log.

Definition ParseRoleAdminChanged : res ContractRoleAdminChanged := parse contract "RoleAdminChanged" log.

Definition ParseRoleGranted : res ContractRoleGranted := parse contract "RoleGranted" log.

Definition ParseRoleRevoked : res ContractRoleRevoked := parse contract "RoleRevoked" log.

Definition ParseSendPacket : res ContractSendPacket := parse contract "SendPacket" log.

Definition ParseTimeoutPacket : res ContractTimeoutPacket := parse contract "TimeoutPacket" log.

Definition ParseUpgraded : res ContractUpgraded := parse contract "Upgraded" log.

Definition ParseWriteAcknowledgement : res ContractWriteAcknowledgement :=
  parse contract "WriteAcknowledgement" log.

End Logs.

(** Iterators over past events. *)
Definition ContractAckPacketIterator (W : Type) (T : Geth) : Type := LogIterator W T ContractAckPacket.
Definition AckPacketIterator_Next (it : ContractAckPacketIterator W T) := it_Next it.
Definition AckPacketIterator_Error (it : ContractAckPacketIterator W T) := it_Error it.
Definition AckPacketIterator_Close (it : ContractAckPacketIterator W T) := it_Close it.

Definition ContractIBCAppAddedIterator (W : Type) (T : Geth) : Type := LogIterator W T ContractIBCAppAdded.
Definition IBCAppAddedIterator_Next (it : ContractIBCAppAddedIterator W T) := it_Next it.
Definition IBCAppAddedIterator_Error (it : ContractIBCAppAddedIterator W T) := it_Error it.
Definition IBCAppAddedIterator_Close (it : ContractIBCAppAddedIterator W T) := it_Close it.

Definition ContractIBCAppRecvPacketCallbackErrorIterator (W : Type) (T : Geth) : Type :=
  LogIterator W T ContractIBCAppRecvPacketCallbackError.
Definition IBCAppRecvPacketCallbackErrorIterator_Next (it : ContractIBCAppRecvPacketCallbackErrorIterator W T) := it_Next it.
Definition IBCAppRecvPacketCallbackErrorIterator_Error (it : ContractIBCAppRecvPacketCallbackErrorIterator W T) := it_Error it.
Definition IBCAppRecvPacketCallbackErrorIterator_Close (it : ContractIBCAppRecvPacketCallbackErrorIterator W T) := it_Close it.

Definition ContractICS02ClientAddedIterator (W : Type) (T : Geth) : Type :=
  LogIterator W T ContractICS02ClientAdded.
Definition ICS02ClientAddedIterator_Next (it : ContractICS02ClientAddedIterator W T) := it_Next it.
Definition ICS02ClientAddedIterator_Error (it : ContractICS02ClientAddedIterator W T) := it_Error it.
Definition ICS02ClientAddedIterator_Close (it : ContractICS02ClientAddedIterator W T) := it_Close it.

Definition ContractICS02ClientMigratedIterator (W : Type) (T : Geth) : Type :=
  LogIterator W T ContractICS02ClientMigrated.
Definition ICS02ClientMigratedIterator_Next (it : ContractICS02ClientMigratedIterator W T) := it_Next it.
Definition ICS02ClientMigratedIterator_Error (it : ContractICS02ClientMigratedIterator W T) := it_Error it.
Definition ICS02ClientMigratedIterator_Close (it : ContractICS02ClientMigratedIterator W T) := it_Close it.

Definition ContractICS02MisbehaviourSubmittedIterator (W : Type) (T : Geth) : Type :=
  LogIterator W T ContractICS02MisbehaviourSubmitted.
Definition ICS02MisbehaviourSubmittedIterator_Next (it : ContractICS02MisbehaviourSubmittedIterator W T) := it_Next it.
Definition ICS02MisbehaviourSubmittedIterator_Error (it : ContractICS02MisbehaviourSubmittedIterator W T) := it_Error it.
Definition ICS02MisbehaviourSubmittedIterator_Close (it : ContractICS02MisbehaviourSubmittedIterator W T) := it_Close it.

Definition ContractInitializedIterator (W : Type) (T : Geth) : Type := LogIterator W T ContractInitialized.
Definition InitializedIterator_Next (it : ContractInitializedIterator W T) := it_Next it.
Definition InitializedIterator_Error (it : ContractInitializedIterator W T) := it_Error it.
Definition InitializedIterator_Close (it : ContractInitializedIterator W T) := it_Close it.

Definition ContractNoopIterator (W : Type) (T : Geth) : Type := LogIterator W T ContractNoop.
Definition NoopIterator_Next (it : ContractNoopIterator W T) := it_Next it.
Definition NoopIterator_Error (it : ContractNoopIterator W T) := it_Error it.
Definition NoopIterator_Close (it : ContractNoopIterator W T) := it_Close it.

Definition ContractRoleAdminChangedIterator (W : Type) (T : Geth) : Type :=
  LogIterator W T ContractRoleAdminChanged.
Definition RoleAdminChangedIterator_Next (it : ContractRoleAdminChangedIterator W T) := it_Next it.
Definition RoleAdminChangedIterator_Error (it : ContractRoleAdminChangedIterator W T) := it_Error it.
Definition RoleAdminChangedIterator_Close (it : ContractRoleAdminChangedIterator W T) := it_Close it.

Definition ContractRoleGrantedIterator (W : Type) (T : Geth) : Type := LogIterator W T ContractRoleGranted.
Definition RoleGrantedIterator_Next (it : ContractRoleGrantedIterator W T) := it_Next it.
Definition RoleGrantedIterator_Error (it : ContractRoleGrantedIterator W T) := it_Error it.
Definition RoleGrantedIterator_Close (it : ContractRoleGrantedIterator W T) := it_Close it.

Definition ContractRoleRevokedIterator (W : Type) (T : Geth) : Type := LogIterator W T ContractRoleRevoked.
Definition RoleRevokedIterator_Next (it : ContractRoleRevokedIterator W T) := it_Next it.
Definition RoleRevokedIterator_Error (it : ContractRoleRevokedIterator W T) := it_Error it.
Definition RoleRevokedIterator_Close (it : ContractRoleRevokedIterator W T) := it_Close it.

Definition ContractSendPacketIterator (W : Type) (T : Geth) : Type := LogIterator W T ContractSendPacket.
Definition SendPacketIterator_Next (it : ContractSendPacketIterator W T) := it_Next it.
Definition SendPacketIterator_Error (it : ContractSendPacketIterator W T) := it_Error it.
Definition SendPacketIterator_Close (it : ContractSendPacketIterator W T) := it_Close it.

Definition ContractTimeoutPacketIterator (W : Type) (T : Geth) : Type :=
  LogIterator W T ContractTimeoutPacket.
Definition TimeoutPacketIterator_Next (it : ContractTimeoutPacketIterator W T) := it_Next it.
Definition TimeoutPacketIterator_Error (it : ContractTimeoutPacketIterator W T) := it_Error it.
Definition TimeoutPacketIterator_Close (it : ContractTimeoutPacketIterator W T) := it_Close it.

Definition ContractUpgradedIterator (W : Type) (T : Geth) : Type := LogIterator W T ContractUpgraded.
Definition UpgradedIterator_Next (it : ContractUpgradedIterator W T) := it_Next it.
Definition UpgradedIterator_Error (it : ContractUpgradedIterator W T) := it_Error it.
Definition UpgradedIterator_Close (it : ContractUpgradedIterator W T) := it_Close it.

Definition ContractWriteAcknowledgementIterator (W : Type) (T : Geth) : Type :=
  LogIterator W T ContractWriteAcknowledgement.
Definition WriteAcknowledgementIterator_Next (it : ContractWriteAcknowledgementIterator W T) := it_Next it.
Definition WriteAcknowledgementIterator_Error (it : ContractWriteAcknowledgementIterator W T) := it_Error it.
Definition WriteAcknowledgementIterator_Close (it : ContractWriteAcknowledgementIterator W T) := it_Close it.

(** Filters and watches. *)
Section Filters.
Context (contract : ContractFilterer W T).

Definition FilterAckPacket (opts : FilterOpts T) (clientId : list string) (sequence : list BigInt)
    : W -> res (ContractAckPacketIterator W T) * W :=
  filterLogs contract opts "AckPacket" [rule clientId; rule sequence].

Definition WatchAckPacket (opts : WatchOpts T) (clientId : list string) (sequence : list BigInt)
    : W -> res (list watched -> list ContractAckPacket * watch_state) * W :=
  watchLogs contract opts "AckPacket" [rule clientId; rule sequence].

Definition FilterIBCAppAdded (opts : FilterOpts T) : W -> res (ContractIBCAppAddedIterator W T) * W :=
  filterLogs contract opts "IBCAppAdded" [].

Definition WatchIBCAppAdded (opts : WatchOpts T)
    : W -> res (list watched -> list ContractIBCAppAdded * watch_state) * W :=
  watchLogs contract opts "IBCAppAdded" [].

Definition FilterIBCAppRecvPacketCallbackError (opts : FilterOpts T)
    : W -> res (ContractIBCAppRecvPacketCallbackErrorIterator W T) * W :=
  filterLogs contract opts "IBCAppRecvPacketCallbackError" [].

Definition WatchIBCAppRecvPacketCallbackError (opts : WatchOpts T)
    : W -> res (list watched -> list ContractIBCAppRecvPacketCallbackError * watch_state) * W :=
  watchLogs contract opts "IBCAppRecvPacketCallbackError" [].

Definition FilterICS02ClientAdded (opts : FilterOpts T) : W -> res (ContractICS02ClientAddedIterator W T) * W :=
  filterLogs contract opts "ICS02ClientAdded" [].

Definition WatchICS02ClientAdded (opts : WatchOpts T)
    : W -> res (list watched -> list ContractICS02ClientAdded * watch_state) * W :=
  watchLogs contract opts "ICS02ClientAdded" [].

Definition FilterICS02ClientMigrated (opts : FilterOpts T)
    : W -> res (ContractICS02ClientMigratedIterator W T) * W :=
  filterLogs contract opts "ICS02ClientMigrated" [].

Definition WatchICS02ClientMigrated (opts : WatchOpts T)
    : W -> res (list watched -> list ContractICS02ClientMigrated * watch_state) * W :=
  watchLogs contract opts "ICS02ClientMigrated" [].

Definition FilterICS02MisbehaviourSubmitted (opts : FilterOpts T)
    : W -> res (ContractICS02MisbehaviourSubmittedIterator W T) * W :=
  filterLogs contract opts "ICS02MisbehaviourSubmitted" [].

Definition WatchICS02MisbehaviourSubmitted (opts : WatchOpts T)
    : W -> res (list watched -> list ContractICS02MisbehaviourSubmitted * watch_state) * W :=
  watchLogs contract opts "ICS02MisbehaviourSubmitted" [].

Definition FilterInitialized (opts : FilterOpts T) : W -> res (ContractInitializedIterator W T) * W :=
  filterLogs contract opts "Initialized" [].

Definition WatchInitialized (opts : WatchOpts T)
    : W -> res (list watched -> list ContractInitialized * watch_state) * W :=
  watchLogs contract opts "Initialized" [].

Definition FilterNoop (opts : FilterOpts T) : W -> res (ContractNoopIterator W T) * W :=
  filterLogs contract opts "Noop" [].

Definition WatchNoop (opts : WatchOpts T) : W -> res (list watched -> list ContractNoop * watch_state) * W :=
  watchLogs contract opts "Noop" [].

Definition FilterRoleAdminChanged (opts : FilterOpts T) (role : list (bytesN 32)) (previousAdminRole : list (bytesN 32)) (newAdminRole : list (bytesN 32))
    : W -> res (ContractRoleAdminChangedIterator W T) * W :=
  filterLogs contract opts "RoleAdminChanged" [rule role; rule previousAdminRole; rule newAdminRole].

Definition WatchRoleAdminChanged (opts : WatchOpts T) (role : list (bytesN 32)) (previousAdminRole : list (bytesN 32)) (newAdminRole : list (bytesN 32))
    : W -> res (list watched -> list ContractRoleAdminChanged * watch_state) * W :=
  watchLogs contract opts "RoleAdminChanged" [rule role; rule previousAdminRole; rule newAdminRole].

Definition FilterRoleGranted (opts : FilterOpts T) (role : list (bytesN 32)) (account : list Address) (sender : list Address)
    : W -> res (ContractRoleGrantedIterator W T) * W :=
  filterLogs contract opts "RoleGranted" [rule role; rule account; rule sender].

Definition WatchRoleGranted (opts : WatchOpts T) (role : list (bytesN 32)) (account : list Address) (sender : list Address)
    : W -> res (list watched -> list ContractRoleGranted * watch_state) * W :=
  watchLogs contract opts "RoleGranted" [rule role; rule account; rule sender].

Definition FilterRoleRevoked (opts : FilterOpts T) (role : list (bytesN 32)) (account : list Address) (sender : list Address)
    : W -> res (ContractRoleRevokedIterator W T) * W :=
  filterLogs contract opts "RoleRevoked" [rule role; rule account; rule sender].

Definition WatchRoleRevoked (opts : WatchOpts T) (role : list (bytesN 32)) (account : list Address) (sender : list Address)
    : W -> res (list watched -> list ContractRoleRevoked * watch_state) * W :=
  watchLogs contract opts "RoleRevoked" [rule role; rule account; rule sender].

Definition FilterSendPacket (opts : FilterOpts T) (clientId : list string) (sequence : list BigInt)
    : W -> res (ContractSendPacketIterator W T) * W :=
  filterLogs contract opts "SendPacket" [rule clientId; rule sequence].

Definition WatchSendPacket (opts : WatchOpts T) (clientId : list string) (sequence : list BigInt)
    : W -> res (list watched -> list ContractSendPacket * watch_state) * W :=
  watchLogs contract opts "SendPacket" [rule clientId; rule sequence].

Definition FilterTimeoutPacket (opts : FilterOpts T) (clientId : list string) (sequence : list BigInt)
    : W -> res (ContractTimeoutPacketIterator W T) * W :=
  filterLogs contract opts "TimeoutPacket" [rule clientId; rule sequence].

Definition WatchTimeoutPacket (opts : WatchOpts T) (clientId : list string) (sequence : list BigInt)
    : W -> res (list watched -> list ContractTimeoutPacket * watch_state) * W :=
  watchLogs contract opts "TimeoutPacket" [rule clientId; rule sequence].

Definition FilterUpgraded (opts : FilterOpts T) (implementation : list Address)
    : W -> res (ContractUpgradedIterator W T) * W :=
  filterLogs contract opts "Upgraded" [rule implementation].

Definition WatchUpgraded (opts : WatchOpts T) (implementation : list Address)
    : W -> res (list watched -> list ContractUpgraded * watch_state) * W :=
  watchLogs contract opts "Upgraded" [rule implementation].

Definition FilterWriteAcknowledgement (opts : FilterOpts T) (clientId : list string) (sequence : list BigInt)
    : W -> res (ContractWriteAcknowledgementIterator W T) * W :=
  filterLogs contract opts "WriteAcknowledgement" [rule clientId; rule sequence].

Definition WatchWriteAcknowledgement (opts : WatchOpts T) (clientId : list string) (sequence : list BigInt)
    : W -> res (list watched -> list ContractWriteAcknowledgement * watch_state) * W :=
  watchLogs contract opts "WriteAcknowledgement" [rule clientId; rule sequence].

End Filters.

(** Sessions: the bindings with the options of the session. *)
Definition Session_CLIENTIDCUSTOMIZERROLE (s : ContractSession W T) :=
  CLIENTIDCUSTOMIZERROLE (Contract_Caller (session_Contract s)) (session_CallOpts s).
Definition Session_DEFAULTADMINROLE (s : ContractSession W T) :=
  DEFAULTADMINROLE (Contract_Caller (session_Contract s)) (session_CallOpts s).
Definition Session_PORTCUSTOMIZERROLE (s : ContractSession W T) :=
  PORTCUSTOMIZERROLE (Contract_Caller (session_Contract s)) (session_CallOpts s).
Definition Session_UPGRADEINTERFACEVERSION (s : ContractSession W T) :=
  UPGRADEINTERFACEVERSION (Contract_Caller (session_Contract s)) (session_CallOpts s).
Definition Session_GetClient (s : ContractSession W T) (clientId : string) :=
  GetClient (Contract_Caller (session_Contract s)) (session_CallOpts s) clientId.
Definition Session_GetCommitment (s : ContractSession W T) (hashedPath : bytesN 32) :=
  GetCommitment (Contract_Caller (session_Contract s)) (session_CallOpts s) hashedPath.
Definition Session_GetCounterparty (s : ContractSession W T) (clientId : string) :=
  GetCounterparty (Contract_Caller (session_Contract s)) (session_CallOpts s) clientId.
Definition Session_GetGovAdmin (s : ContractSession W T) :=
  GetGovAdmin (Contract_Caller (session_Contract s)) (session_CallOpts s).
Definition Session_GetIBCApp (s : ContractSession W T) (portId : string) :=
  GetIBCApp (Contract_Caller (session_Contract s)) (session_CallOpts s) portId.
Definition Session_GetLightClientMigratorRole (s : ContractSession W T) (clientId : string) :=
  GetLightClientMigratorRole (Contract_Caller (session_Contract s)) (session_CallOpts s) clientId.
Definition Session_GetNextClientSeq (s : ContractSession W T) :=
  GetNextClientSeq (Contract_Caller (session_Contract s)) (session_CallOpts s).
Definition Session_GetRoleAdmin (s : ContractSession W T) (role : bytesN 32) :=
  GetRoleAdmin (Contract_Caller (session_Contract s)) (session_CallOpts s) role.
Definition Session_GetTimelockedAdmin (s : ContractSession W T) :=
  GetTimelockedAdmin (Contract_Caller (session_Contract s)) (session_CallOpts s).
Definition Session_HasRole (s : ContractSession W T) (role : bytesN 32) (account : Address) :=
  HasRole (Contract_Caller (session_Contract s)) (session_CallOpts s) role account.
Definition Session_IsAdmin (s : ContractSession W T) (account : Address) :=
  IsAdmin (Contract_Caller (session_Contract s)) (session_CallOpts s) account.
Definition Session_IsPacketReceiveSuccessful (s : ContractSession W T) (packet : IICS26RouterMsgsPacket) :=
  IsPacketReceiveSuccessful (Contract_Caller (session_Contract s)) (session_CallOpts s) packet.
Definition Session_IsPacketReceived (s : ContractSession W T) (packet : IICS26RouterMsgsPacket) :=
  IsPacketReceived (Contract_Caller (session_Contract s)) (session_CallOpts s) packet.
Definition Session_ProxiableUUID (s : ContractSession W T) :=
  ProxiableUUID (Contract_Caller (session_Contract s)) (session_CallOpts s).
Definition Session_QueryAckCommitment (s : ContractSession W T) (clientId : string) (sequence : uint 64) :=
  QueryAckCommitment (Contract_Caller (session_Contract s)) (session_CallOpts s) clientId sequence.
Definition Session_QueryPacketCommitment (s : ContractSession W T) (clientId : string) (sequence : uint 64) :=
  QueryPacketCommitment (Contract_Caller (session_Contract s)) (session_CallOpts s) clientId sequence.
Definition Session_QueryPacketReceipt (s : ContractSession W T) (clientId : string) (sequence : uint 64) :=
  QueryPacketReceipt (Contract_Caller (session_Contract s)) (session_CallOpts s) clientId sequence.
Definition Session_SupportsInterface (s : ContractSession W T) (interfaceId : bytesN 4) :=
  SupportsInterface (Contract_Caller (session_Contract s)) (session_CallOpts s) interfaceId.
Definition Session_AckPacket (s : ContractSession W T) (msg_ : IICS26RouterMsgsMsgAckPacket) :=
  AckPacket (Contract_Transactor (session_Contract s)) (session_TransactOpts s) msg_.
Definition Session_AddClient (s : ContractSession W T) (clientId : string) (counterpartyInfo : IICS02ClientMsgsCounterpartyInfo) (client : Address) :=
  AddClient (Contract_Transactor (session_Contract s)) (session_TransactOpts s) clientId counterpartyInfo client.
Definition Session_AddClient0 (s : ContractSession W T) (counterpartyInfo : IICS02ClientMsgsCounterpartyInfo) (client : Address) :=
  AddClient0 (Contract_Transactor (session_Contract s)) (session_TransactOpts s) counterpartyInfo client.
Definition Session_AddIBCApp (s : ContractSession W T) (app : Address) :=
  AddIBCApp (Contract_Transactor (session_Contract s)) (session_TransactOpts s) app.
Definition Session_AddIBCApp0 (s : ContractSession W T) (portId : string) (app : Address) :=
  AddIBCApp0 (Contract_Transactor (session_Contract s)) (session_TransactOpts s) portId app.
Definition Session_GrantClientIdCustomizerRole (s : ContractSession W T) (account : Address) :=
  GrantClientIdCustomizerRole (Contract_Transactor (session_Contract s)) (session_TransactOpts s) account.
Definition Session_GrantLightClientMigratorRole (s : ContractSession W T) (clientId : string) (account : Address) :=
  GrantLightClientMigratorRole (Contract_Transactor (session_Contract s)) (session_TransactOpts s) clientId account.
Definition Session_GrantPortCustomizerRole (s : ContractSession W T) (account : Address) :=
  GrantPortCustomizerRole (Contract_Transactor (session_Contract s)) (session_TransactOpts s) account.
Definition Session_GrantRole (s : ContractSession W T) (role : bytesN 32) (account : Address) :=
  GrantRole (Contract_Transactor (session_Contract s)) (session_TransactOpts s) role account.
Definition Session_Initialize (s : ContractSession W T) (timelockedAdmin : Address) (customizer : Address) :=
  Initialize (Contract_Transactor (session_Contract s)) (session_TransactOpts s) timelockedAdmin customizer.
Definition Session_MigrateClient (s : ContractSession W T) (subjectClientId : string) (substituteClientId : string) :=
  MigrateClient (Contract_Transactor (session_Contract s)) (session_TransactOpts s) subjectClientId substituteClientId.
Definition Session_Multicall (s : ContractSession W T) (data : list Bytes) :=
  Multicall (Contract_Transactor (session_Contract s)) (session_TransactOpts s) data.
Definition Session_RecvPacket (s : ContractSession W T) (msg_ : IICS26RouterMsgsMsgRecvPacket) :=
  RecvPacket (Contract_Transactor (session_Contract s)) (session_TransactOpts s) msg_.
Definition Session_RenounceRole (s : ContractSession W T) (role : bytesN 32) (callerConfirmation : Address) :=
  RenounceRole (Contract_Transactor (session_Contract s)) (session_TransactOpts s) role callerConfirmation.
Definition Session_RevokeClientIdCustomizerRole (s : ContractSession W T) (account : Address) :=
  RevokeClientIdCustomizerRole (Contract_Transactor (session_Contract s)) (session_TransactOpts s) account.
Definition Session_RevokeLightClientMigratorRole (s : ContractSession W T) (clientId : string) (account : Address) :=
  RevokeLightClientMigratorRole (Contract_Transactor (session_Contract s)) (session_TransactOpts s) clientId account.
Definition Session_RevokePortCustomizerRole (s : ContractSession W T) (account : Address) :=
  RevokePortCustomizerRole (Contract_Transactor (session_Contract s)) (session_TransactOpts s) account.
Definition Session_RevokeRole (s : ContractSession W T) (role : bytesN 32) (account : Address) :=
  RevokeRole (Contract_Transactor (session_Contract s)) (session_TransactOpts s) role account.
Definition Session_SendPacket (s : ContractSession W T) (msg_ : IICS26RouterMsgsMsgSendPacket) :=
  SendPacket (Contract_Transactor (session_Contract s)) (session_TransactOpts s) msg_.
Definition Session_SetGovAdmin (s : ContractSession W T) (newGovAdmin : Address) :=
  SetGovAdmin (Contract_Transactor (session_Contract s)) (session_TransactOpts s) newGovAdmin.
Definition Session_SetTimelockedAdmin (s : ContractSession W T) (newTimelockedAdmin : Address) :=
  SetTimelockedAdmin (Contract_Transactor (session_Contract s)) (session_TransactOpts s) newTimelockedAdmin.
Definition Session_SubmitMisbehaviour (s : ContractSession W T) (clientId : string) (misbehaviourMsg : Bytes) :=
  SubmitMisbehaviour (Contract_Transactor (session_Contract s)) (session_TransactOpts s) clientId misbehaviourMsg.
Definition Session_TimeoutPacket (s : ContractSession W T) (msg_ : IICS26RouterMsgsMsgTimeoutPacket) :=
  TimeoutPacket (Contract_Transactor (session_Contract s)) (session_TransactOpts s) msg_.
Definition Session_UpdateClient (s : ContractSession W T) (clientId : string) (updateMsg : Bytes) :=
  UpdateClient (Contract_Transactor (session_Contract s)) (session_TransactOpts s) clientId updateMsg.
Definition Session_UpgradeClient (s : ContractSession W T) (clientId : string) (upgradeMsg : Bytes) :=
  UpgradeClient (Contract_Transactor (session_Contract s)) (session_TransactOpts s) clientId upgradeMsg.
Definition Session_UpgradeToAndCall (s : ContractSession W T) (newImplementation : Address) (data : Bytes) :=
  UpgradeToAndCall (Contract_Transactor (session_Contract s)) (session_TransactOpts s) newImplementation data.

Definition CallerSession_CLIENTIDCUSTOMIZERROLE (s : ContractCallerSession W T) :=
  CLIENTIDCUSTOMIZERROLE (callerSession_Contract s) (callerSession_CallOpts s).
Definition CallerSession_DEFAULTADMINROLE (s : ContractCallerSession W T) :=
  DEFAULTADMINROLE (callerSession_Contract s) (callerSession_CallOpts s).
Definition CallerSession_PORTCUSTOMIZERROLE (s : ContractCallerSession W T) :=
  PORTCUSTOMIZERROLE (callerSession_Contract s) (callerSession_CallOpts s).
Definition CallerSession_UPGRADEINTERFACEVERSION (s : ContractCallerSession W T) :=
  UPGRADEINTERFACEVERSION (callerSession_Contract s) (callerSession_CallOpts s).
Definition CallerSession_GetClient (s : ContractCallerSession W T) (clientId : string) :=
  GetClient (callerSession_Contract s) (callerSession_CallOpts s) clientId.
Definition CallerSession_GetCommitment (s : ContractCallerSession W T) (hashedPath : bytesN 32) :=
  GetCommitment (callerSession_Contract s) (callerSession_CallOpts s) hashedPath.
Definition CallerSession_GetCounterparty (s : ContractCallerSession W T) (clientId : string) :=
  GetCounterparty (callerSession_Contract s) (callerSession_CallOpts s) clientId.
Definition CallerSession_GetGovAdmin (s : ContractCallerSession W T) :=
  GetGovAdmin (callerSession_Contract s) (callerSession_CallOpts s).
Definition CallerSession_GetIBCApp (s : ContractCallerSession W T) (portId : string) :=
  GetIBCApp (callerSession_Contract s) (callerSession_CallOpts s) portId.
Definition CallerSession_GetLightClientMigratorRole (s : ContractCallerSession W T) (clientId : string) :=
  GetLightClientMigratorRole (callerSession_Contract s) (callerSession_CallOpts s) clientId.
Definition CallerSession_GetNextClientSeq (s : ContractCallerSession W T) :=
  GetNextClientSeq (callerSession_Contract s) (callerSession_CallOpts s).
Definition CallerSession_GetRoleAdmin (s : ContractCallerSession W T) (role : bytesN 32) :=
  GetRoleAdmin (callerSession_Contract s) (callerSession_CallOpts s) role.
Definition CallerSession_GetTimelockedAdmin (s : ContractCallerSession W T) :=
  GetTimelockedAdmin (callerSession_Contract s) (callerSession_CallOpts s).
Definition CallerSession_HasRole (s : ContractCallerSession W T) (role : bytesN 32) (account : Address) :=
  HasRole (callerSession_Contract s) (callerSession_CallOpts s) role account.
Definition CallerSession_IsAdmin (s : ContractCallerSession W T) (account : Address) :=
  IsAdmin (callerSession_Contract s) (callerSession_CallOpts s) account.
Definition CallerSession_IsPacketReceiveSuccessful (s : ContractCallerSession W T) (packet : IICS26RouterMsgsPacket) :=
  IsPacketReceiveSuccessful (callerSession_Contract s) (callerSession_CallOpts s) packet.
Definition CallerSession_IsPacketReceived (s : ContractCallerSession W T) (packet : IICS26RouterMsgsPacket) :=
  IsPacketReceived (callerSession_Contract s) (callerSession_CallOpts s) packet.
Definition CallerSession_ProxiableUUID (s : ContractCallerSession W T) :=
  ProxiableUUID (callerSession_Contract s) (callerSession_CallOpts s).
Definition CallerSession_QueryAckCommitment (s : ContractCallerSession W T) (clientId : string) (sequence : uint 64) :=
  QueryAckCommitment (callerSession_Contract s) (callerSession_CallOpts s) clientId sequence.
Definition CallerSession_QueryPacketCommitment (s : ContractCallerSession W T) (clientId : string) (sequence : uint 64) :=
  QueryPacketCommitment (callerSession_Contract s) (callerSession_CallOpts s) clientId sequence.
Definition CallerSession_QueryPacketReceipt (s : ContractCallerSession W T) (clientId : string) (sequence : uint 64) :=
  QueryPacketReceipt (callerSession_Contract s) (callerSession_CallOpts s) clientId sequence.
Definition CallerSession_SupportsInterface (s : ContractCallerSession W T) (interfaceId : bytesN 4) :=
  SupportsInterface (callerSession_Contract s) (callerSession_CallOpts s) interfaceId.

Definition TransactorSession_AckPacket (s : ContractTransactorSession W T) (msg_ : IICS26RouterMsgsMsgAckPacket) :=
  AckPacket (transactorSession_Contract s) (transactorSession_TransactOpts s) msg_.
Definition TransactorSession_AddClient (s : ContractTransactorSession W T) (clientId : string) (counterpartyInfo : IICS02ClientMsgsCounterpartyInfo) (client : Address) :=
  AddClient (transactorSession_Contract s) (transactorSession_TransactOpts s) clientId counterpartyInfo client.
Definition TransactorSession_AddClient0 (s : ContractTransactorSession W T) (counterpartyInfo : IICS02ClientMsgsCounterpartyInfo) (client : Address) :=
  AddClient0 (transactorSession_Contract s) (transactorSession_TransactOpts s) counterpartyInfo client.
Definition TransactorSession_AddIBCApp (s : ContractTransactorSession W T) (app : Address) :=
  AddIBCApp (transactorSession_Contract s) (transactorSession_TransactOpts s) app.
Definition TransactorSession_AddIBCApp0 (s : ContractTransactorSession W T) (portId : string) (app : Address) :=
  AddIBCApp0 (transactorSession_Contract s) (transactorSession_TransactOpts s) portId app.
Definition TransactorSession_GrantClientIdCustomizerRole (s : ContractTransactorSession W T) (account : Address) :=
  GrantClientIdCustomizerRole (transactorSession_Contract s) (transactorSession_TransactOpts s) account.
Definition TransactorSession_GrantLightClientMigratorRole (s : ContractTransactorSession W T) (clientId : string) (account : Address) :=
  GrantLightClientMigratorRole (transactorSession_Contract s) (transactorSession_TransactOpts s) clientId account.
Definition TransactorSession_GrantPortCustomizerRole (s : ContractTransactorSession W T) (account : Address) :=
  GrantPortCustomizerRole (transactorSession_Contract s) (transactorSession_TransactOpts s) account.
Definition TransactorSession_GrantRole (s : ContractTransactorSession W T) (role : bytesN 32) (account : Address) :=
  GrantRole (transactorSession_Contract s) (transactorSession_TransactOpts s) role account.
Definition TransactorSession_Initialize (s : ContractTransactorSession W T) (timelockedAdmin : Address) (customizer : Address) :=
  Initialize (transactorSession_Contract s) (transactorSession_TransactOpts s) timelockedAdmin customizer.
Definition TransactorSession_MigrateClient (s : ContractTransactorSession W T) (subjectClientId : string) (substituteClientId : string) :=
  MigrateClient (transactorSession_Contract s) (transactorSession_TransactOpts s) subjectClientId substituteClientId.
Definition TransactorSession_Multicall (s : ContractTransactorSession W T) (data : list Bytes) :=
  Multicall (transactorSession_Contract s) (transactorSession_TransactOpts s) data.
Definition TransactorSession_RecvPacket (s : ContractTransactorSession W T) (msg_ : IICS26RouterMsgsMsgRecvPacket) :=
  RecvPacket (transactorSession_Contract s) (transactorSession_TransactOpts s) msg_.
Definition TransactorSession_RenounceRole (s : ContractTransactorSession W T) (role : bytesN 32) (callerConfirmation : Address) :=
  RenounceRole (transactorSession_Contract s) (transactorSession_TransactOpts s) role callerConfirmation.
Definition TransactorSession_RevokeClientIdCustomizerRole (s : ContractTransactorSession W T) (account : Address) :=
  RevokeClientIdCustomizerRole (transactorSession_Contract s) (transactorSession_TransactOpts s) account.
Definition TransactorSession_RevokeLightClientMigratorRole (s : ContractTransactorSession W T) (clientId : string) (account : Address) :=
  RevokeLightClientMigratorRole (transactorSession_Contract s) (transactorSession_TransactOpts s) clientId account.
Definition TransactorSession_RevokePortCustomizerRole (s : ContractTransactorSession W T) (account : Address) :=
  RevokePortCustomizerRole (transactorSession_Contract s) (transactorSession_TransactOpts s) account.
Definition TransactorSession_RevokeRole (s : ContractTransactorSession W T) (role : bytesN 32) (account : Address) :=
  RevokeRole (transactorSession_Contract s) (transactorSession_TransactOpts s) role account.
Definition TransactorSession_SendPacket (s : ContractTransactorSession W T) (msg_ : IICS26RouterMsgsMsgSendPacket) :=
  SendPacket (transactorSession_Contract s) (transactorSession_TransactOpts s) msg_.
Definition TransactorSession_SetGovAdmin (s : ContractTransactorSession W T) (newGovAdmin : Address) :=
  SetGovAdmin (transactorSession_Contract s) (transactorSession_TransactOpts s) newGovAdmin.
Definition TransactorSession_SetTimelockedAdmin (s : ContractTransactorSession W T) (newTimelockedAdmin : Address) :=
  SetTimelockedAdmin (transactorSession_Contract s) (transactorSession_TransactOpts s) newTimelockedAdmin.
Definition TransactorSession_SubmitMisbehaviour (s : ContractTransactorSession W T) (clientId : string) (misbehaviourMsg : Bytes) :=
  SubmitMisbehaviour (transactorSession_Contract s) (transactorSession_TransactOpts s) clientId misbehaviourMsg.
Definition TransactorSession_TimeoutPacket (s : ContractTransactorSession W T) (msg_ : IICS26RouterMsgsMsgTimeoutPacket) :=
  TimeoutPacket (transactorSession_Contract s) (transactorSession_TransactOpts s) msg_.
Definition TransactorSession_UpdateClient (s : ContractTransactorSession W T) (clientId : string) (updateMsg : Bytes) :=
  UpdateClient (transactorSession_Contract s) (transactorSession_TransactOpts s) clientId updateMsg.
Definition TransactorSession_UpgradeClient (s : ContractTransactorSession W T) (clientId : string) (upgradeMsg : Bytes) :=
  UpgradeClient (transactorSession_Contract s) (transactorSession_TransactOpts s) clientId upgradeMsg.
Definition TransactorSession_UpgradeToAndCall (s : ContractTransactorSession W T) (newImplementation : Address) (data : Bytes) :=
  UpgradeToAndCall (transactorSession_Contract s) (transactorSession_TransactOpts s) newImplementation data.

(** All of them. *)
Definition bindings (c : Contract W T) : list binding := [
  Binding _ _ (CLIENTIDCUSTOMIZERROLE (Contract_Caller c)); Binding _ _ (DEFAULTADMINROLE (Contract_Caller c));
  Binding _ _ (PORTCUSTOMIZERROLE (Contract_Caller c)); Binding _ _ (UPGRADEINTERFACEVERSION (Contract_Caller c));
  Binding _ _ (GetClient (Contract_Caller c)); Binding _ _ (GetCommitment (Contract_Caller c));
  Binding _ _ (GetCounterparty (Contract_Caller c)); Binding _ _ (GetGovAdmin (Contract_Caller c));
  Binding _ _ (GetIBCApp (Contract_Caller c)); Binding _ _ (GetLightClientMigratorRole (Contract_Caller c));
  Binding _ _ (GetNextClientSeq (Contract_Caller c)); Binding _ _ (GetRoleAdmin (Contract_Caller c));
  Binding _ _ (GetTimelockedAdmin (Contract_Caller c)); Binding _ _ (HasRole (Contract_Caller c));
  Binding _ _ (IsAdmin (Contract_Caller c)); Binding _ _ (IsPacketReceiveSuccessful (Contract_Caller c));
  Binding _ _ (IsPacketReceived (Contract_Caller c)); Binding _ _ (ProxiableUUID (Contract_Caller c));
  Binding _ _ (QueryAckCommitment (Contract_Caller c)); Binding _ _ (QueryPacketCommitment (Contract_Caller c));
  Binding _ _ (QueryPacketReceipt (Contract_Caller c)); Binding _ _ (SupportsInterface (Contract_Caller c));
  Binding _ _ (AckPacket (Contract_Transactor c)); Binding _ _ (AddClient (Contract_Transactor c));
  Binding _ _ (AddClient0 (Contract_Transactor c)); Binding _ _ (AddIBCApp (Contract_Transactor c));
  Binding _ _ (AddIBCApp0 (Contract_Transactor c));
  Binding _ _ (GrantClientIdCustomizerRole (Contract_Transactor c));
  Binding _ _ (GrantLightClientMigratorRole (Contract_Transactor c));
  Binding _ _ (GrantPortCustomizerRole (Contract_Transactor c)); Binding _ _ (GrantRole (Contract_Transactor c));
  Binding _ _ (Initialize (Contract_Transactor c)); Binding _ _ (MigrateClient (Contract_Transactor c));
  Binding _ _ (Multicall (Contract_Transactor c)); Binding _ _ (RecvPacket (Contract_Transactor c));
  Binding _ _ (RenounceRole (Contract_Transactor c));
  Binding _ _ (RevokeClientIdCustomizerRole (Contract_Transactor c));
  Binding _ _ (RevokeLightClientMigratorRole (Contract_Transactor c));
  Binding _ _ (RevokePortCustomizerRole (Contract_Transactor c)); Binding _ _ (RevokeRole (Contract_Transactor c));
  Binding _ _ (SendPacket (Contract_Transactor c)); Binding _ _ (SetGovAdmin (Contract_Transactor c));
  Binding _ _ (SetTimelockedAdmin (Contract_Transactor c));
  Binding _ _ (SubmitMisbehaviour (Contract_Transactor c)); Binding _ _ (TimeoutPacket (Contract_Transactor c));
  Binding _ _ (UpdateClient (Contract_Transactor c)); Binding _ _ (UpgradeClient (Contract_Transactor c));
  Binding _ _ (UpgradeToAndCall (Contract_Transactor c)); Binding _ _ (ParseAckPacket (Contract_Filterer c));
  Binding _ _ (ParseIBCAppAdded (Contract_Filterer c));
  Binding _ _ (ParseIBCAppRecvPacketCallbackError (Contract_Filterer c));
  Binding _ _ (ParseICS02ClientAdded (Contract_Filterer c));
  Binding _ _ (ParseICS02ClientMigrated (Contract_Filterer c));
  Binding _ _ (ParseICS02MisbehaviourSubmitted (Contract_Filterer c));
  Binding _ _ (ParseInitialized (Contract_Filterer c)); Binding _ _ (ParseNoop (Contract_Filterer c));
  Binding _ _ (ParseRoleAdminChanged (Contract_Filterer c)); Binding _ _ (ParseRoleGranted (Contract_Filterer c));
  Binding _ _ (ParseRoleRevoked (Contract_Filterer c)); Binding _ _ (ParseSendPacket (Contract_Filterer c));
  Binding _ _ (ParseTimeoutPacket (Contract_Filterer c)); Binding _ _ (ParseUpgraded (Contract_Filterer c));
  Binding _ _ (ParseWriteAcknowledgement (Contract_Filterer c));
  Binding _ _ (FilterAckPacket (Contract_Filterer c)); Binding _ _ (WatchAckPacket (Contract_Filterer c));
  Binding _ _ (FilterIBCAppAdded (Contract_Filterer c)); Binding _ _ (WatchIBCAppAdded (Contract_Filterer c));
  Binding _ _ (FilterIBCAppRecvPacketCallbackError (Contract_Filterer c));
  Binding _ _ (WatchIBCAppRecvPacketCallbackError (Contract_Filterer c));
  Binding _ _ (FilterICS02ClientAdded (Contract_Filterer c));
  Binding _ _ (WatchICS02ClientAdded (Contract_Filterer c));
  Binding _ _ (FilterICS02ClientMigrated (Contract_Filterer c));
  Binding _ _ (WatchICS02ClientMigrated (Contract_Filterer c));
  Binding _ _ (FilterICS02MisbehaviourSubmitted (Contract_Filterer c));
  Binding _ _ (WatchICS02MisbehaviourSubmitted (Contract_Filterer c));
  Binding _ _ (FilterInitialized (Contract_Filterer c)); Binding _ _ (WatchInitialized (Contract_Filterer c));
  Binding _ _ (FilterNoop (Contract_Filterer c)); Binding _ _ (WatchNoop (Contract_Filterer c));
  Binding _ _ (FilterRoleAdminChanged (Contract_Filterer c));
  Binding _ _ (WatchRoleAdminChanged (Contract_Filterer c)); Binding _ _ (FilterRoleGranted (Contract_Filterer c));
  Binding _ _ (WatchRoleGranted (Contract_Filterer c)); Binding _ _ (FilterRoleRevoked (Contract_Filterer c));
  Binding _ _ (WatchRoleRevoked (Contract_Filterer c)); Binding _ _ (FilterSendPacket (Contract_Filterer c));
  Binding _ _ (WatchSendPacket (Contract_Filterer c)); Binding _ _ (FilterTimeoutPacket (Contract_Filterer c));
  Binding _ _ (WatchTimeoutPacket (Contract_Filterer c)); Binding _ _ (FilterUpgraded (Contract_Filterer c));
  Binding _ _ (WatchUpgraded (Contract_Filterer c)); Binding _ _ (FilterWriteAcknowledgement (Contract_Filterer c));
  Binding _ _ (WatchWriteAcknowledgement (Contract_Filterer c))].

Lemma router_bindings_safe (lib : BindLib W T Backend) address backend c :
  Documented lib -> NewContract lib address backend = inr c -> Forall is_safe (bindings c).
Proof.
  unfold NewContract, bindContract. intros Hl Hc. destruct (GetAbi lib ContractMetaData) as [err|parsed] eqn:Hp; [done|].
  injection Hc as <-. destruct (abi_documented _ _ Hp) as [-> Hb].
  specialize (Hb address backend). set (bc := NewBoundContract _ _ _ _ _ _) in *. clearbody bc. bindings_tac ContractMetaData.
Qed.

End Bindings.
