(* ===== verification/Ics20Binding.v ===== *)
(** * The ICS20 transfer contract ([src/shared/contracts/ics20_transfer/ics20_transfer.go])

    The ABI the binding was generated from, the structs of its arguments and events, and
    the bindings of its methods, its transactions and its events, alone and in sessions. *)

From S2P Require Import Prelude Db Transfer Config World Logic Once GoLib GoFloat EvmClient Bindings.
From S2P Require Import BoundContracts LogIterators.

(** ** The ABI *)

Definition abi_Payload : abi_type := Ttuple [("sourcePort", Tstring); ("destPort", Tstring); ("version", Tstring);
    ("encoding", Tstring); ("value", Tbytes)].

Definition abi_OnAcknowledgementPacketCallback : abi_type := Ttuple [("sourceClient", Tstring);
    ("destinationClient", Tstring); ("sequence", Tuint 64); ("payload", abi_Payload); ("acknowledgement", Tbytes);
    ("relayer", Taddress)].

Definition abi_OnRecvPacketCallback : abi_type := Ttuple [("sourceClient", Tstring); ("destinationClient", Tstring);
    ("sequence", Tuint 64); ("payload", abi_Payload); ("relayer", Taddress)].

Definition abi_SendTransferMsg : abi_type := Ttuple [("denom", Taddress); ("amount", Tuint 256);
    ("receiver", Tstring); ("sourceClient", Tstring); ("destPort", Tstring); ("timeoutTimestamp", Tuint 64);
    ("memo", Tstring)].

Definition abi_TokenPermissions : abi_type := Ttuple [("token", Taddress); ("amount", Tuint 256)].

Definition abi_PermitTransferFrom : abi_type := Ttuple [("permitted", abi_TokenPermissions); ("nonce", Tuint 256);
    ("deadline", Tuint 256)].

Definition ContractMetaData : ABI := [
  Constructor [];
  Function "DEFAULT_ADMIN_ROLE" [] [arg "" (Tfixed 32)] view;
  Function "DELEGATE_SENDER_ROLE" [] [arg "" (Tfixed 32)] view;
  Function "ERC20_CUSTOMIZER_ROLE" [] [arg "" (Tfixed 32)] view;
  Function "PAUSER_ROLE" [] [arg "" (Tfixed 32)] view;
  Function "TOKEN_OPERATOR_ROLE" [] [arg "" (Tfixed 32)] view;
  Function "UNPAUSER_ROLE" [] [arg "" (Tfixed 32)] view;
  Function "UPGRADE_INTERFACE_VERSION" [] [arg "" Tstring] view;
  Function "getEscrow" [arg "clientId" Tstring] [arg "" Taddress] view;
  Function "getEscrowBeacon" [] [arg "" Taddress] view;
  Function "getIBCERC20Beacon" [] [arg "" Taddress] view;
  Function "getPermit2" [] [arg "" Taddress] view;
  Function "getRoleAdmin" [arg "role" (Tfixed 32)] [arg "" (Tfixed 32)] view;
  Function "grantDelegateSenderRole" [arg "account" Taddress] [] nonpayable;
  Function "grantERC20CustomizerRole" [arg "account" Taddress] [] nonpayable;
  Function "grantPauserRole" [arg "account" Taddress] [] nonpayable;
  Function "grantRole" [arg "role" (Tfixed 32); arg "account" Taddress] [] nonpayable;
  Function "grantTokenOperatorRole" [arg "account" Taddress] [] nonpayable;
  Function "grantUnpauserRole" [arg "account" Taddress] [] nonpayable;
  Function "hasRole" [arg "role" (Tfixed 32); arg "account" Taddress] [arg "" Tbool] view;
  Function "ibcERC20Contract" [arg "denom" Tstring] [arg "" Taddress] view;
  Function "ibcERC20Denom" [arg "token" Taddress] [arg "" Tstring] view;
  Function "ics26" [] [arg "" Taddress] view;
  Function "initialize" [arg "ics26Router" Taddress; arg "escrowLogic" Taddress; arg "ibcERC20Logic" Taddress;
      arg "permit2" Taddress] [] nonpayable;
  Function "isTokenOperator" [arg "account" Taddress] [arg "" Tbool] view;
  Function "multicall" [arg "data" (Tslice Tbytes)] [arg "results" (Tslice Tbytes)] nonpayable;
  Function "onAcknowledgementPacket" [arg "msg_" abi_OnAcknowledgementPacketCallback] [] nonpayable;
  Function "onRecvPacket" [arg "msg_" abi_OnRecvPacketCallback] [arg "" Tbytes] nonpayable;
  Function "onTimeoutPacket" [arg "msg_" abi_OnRecvPacketCallback] [] nonpayable;
  Function "pause" [] [] nonpayable;
  Function "paused" [] [arg "" Tbool] view;
  Function "proxiableUUID" [] [arg "" (Tfixed 32)] view;
  Function "renounceRole" [arg "role" (Tfixed 32); arg "callerConfirmation" Taddress] [] nonpayable;
  Function "revokeDelegateSenderRole" [arg "account" Taddress] [] nonpayable;
  Function "revokeERC20CustomizerRole" [arg "account" Taddress] [] nonpayable;
  Function "revokePauserRole" [arg "account" Taddress] [] nonpayable;
  Function "revokeRole" [arg "role" (Tfixed 32); arg "account" Taddress] [] nonpayable;
  Function "revokeTokenOperatorRole" [arg "account" Taddress] [] nonpayable;
  Function "revokeUnpauserRole" [arg "account" Taddress] [] nonpayable;
  Function "sendTransfer" [arg "msg_" abi_SendTransferMsg] [arg "" (Tuint 64)] nonpayable;
  Function "sendTransferWithPermit2" [arg "msg_" abi_SendTransferMsg; arg "permit" abi_PermitTransferFrom;
      arg "signature" Tbytes] [arg "" (Tuint 64)] nonpayable;
  Function "sendTransferWithSender" [arg "msg_" abi_SendTransferMsg; arg "sender" Taddress] [arg "" (Tuint 64)]
      nonpayable;
  Function "setCustomERC20" [arg "denom" Tstring; arg "token" Taddress] [] nonpayable;
  Function "supportsInterface" [arg "interfaceId" (Tfixed 4)] [arg "" Tbool] view;
  Function "unpause" [] [] nonpayable;
  Function "upgradeEscrowTo" [arg "newEscrowLogic" Taddress] [] nonpayable;
  Function "upgradeIBCERC20To" [arg "newIBCERC20Logic" Taddress] [] nonpayable;
  Function "upgradeToAndCall" [arg "newImplementation" Taddress; arg "data" Tbytes] [] payable;
  Event "IBCERC20ContractCreated" [evarg "contractAddress" Taddress true; evarg "fullDenomPath" Tstring false];
  Event "Initialized" [evarg "version" (Tuint 64) false];
  Event "Paused" [evarg "account" Taddress false];
  Event "RoleAdminChanged" [evarg "role" (Tfixed 32) true; evarg "previousAdminRole" (Tfixed 32) true;
      evarg "newAdminRole" (Tfixed 32) true];
  Event "RoleGranted" [evarg "role" (Tfixed 32) true; evarg "account" Taddress true; evarg "sender" Taddress true];
  Event "RoleRevoked" [evarg "role" (Tfixed 32) true; evarg "account" Taddress true; evarg "sender" Taddress true];
  Event "Unpaused" [evarg "account" Taddress false];
  Event "Upgraded" [evarg "implementation" Taddress true]
].

(** ** Structs *)

Record IICS26RouterMsgsPayload := mkPayload {
  Payload_SourcePort : string;
  Payload_DestPort : string;
  Payload_Version : string;
  Payload_Encoding : string;
  Payload_Value : Bytes;
}.

#[export, refine] Instance IICS26RouterMsgsPayload_GoType : GoType IICS26RouterMsgsPayload := {|
  go_type_of := Gstruct [("SourcePort", go_type_of string); ("DestPort", go_type_of string);
    ("Version", go_type_of string); ("Encoding", go_type_of string); ("Value", go_type_of Bytes)];
  to_value := fun x => VStruct [to_value (Payload_SourcePort x); to_value (Payload_DestPort x);
    to_value (Payload_Version x); to_value (Payload_Encoding x); to_value (Payload_Value x)];
  of_value := fun v => match v with
    | VStruct [v0; v1; v2; v3; v4] =>
        x0 ← of_value v0; x1 ← of_value v1; x2 ← of_value v2; x3 ← of_value v3; x4 ← of_value v4;
        Some (mkPayload x0 x1 x2 x3 x4)
    | _ => None
    end;
|}.
Proof. all: struct_tac. Defined.

Record IIBCAppCallbacksOnAcknowledgementPacketCallback := mkOnAcknowledgementPacketCallback {
  OnAcknowledgementPacketCallback_SourceClient : string;
  OnAcknowledgementPacketCallback_DestinationClient : string;
  OnAcknowledgementPacketCallback_Sequence : uint 64;
  OnAcknowledgementPacketCallback_Payload : IICS26RouterMsgsPayload;
  OnAcknowledgementPacketCallback_Acknowledgement : Bytes;
  OnAcknowledgementPacketCallback_Relayer : Address;
}.

#[export, refine] Instance IIBCAppCallbacksOnAcknowledgementPacketCallback_GoType : GoType IIBCAppCallbacksOnAcknowledgementPacketCallback := {|
  go_type_of := Gstruct [("SourceClient", go_type_of string); ("DestinationClient", go_type_of string);
    ("Sequence", go_type_of (uint 64)); ("Payload", go_type_of IICS26RouterMsgsPayload);
    ("Acknowledgement", go_type_of Bytes); ("Relayer", go_type_of Address)];
  to_value := fun x => VStruct [to_value (OnAcknowledgementPacketCallback_SourceClient x);
    to_value (OnAcknowledgementPacketCallback_DestinationClient x);
    to_value (OnAcknowledgementPacketCallback_Sequence x); to_value (OnAcknowledgementPacketCallback_Payload x);
    to_value (OnAcknowledgementPacketCallback_Acknowledgement x);
    to_value (OnAcknowledgementPacketCallback_Relayer x)];
  of_value := fun v => match v with
    | VStruct [v0; v1; v2; v3; v4; v5] =>
        x0 ← of_value v0; x1 ← of_value v1; x2 ← of_value v2; x3 ← of_value v3; x4 ← of_value v4; x5 ← of_value v5;
        Some (mkOnAcknowledgementPacketCallback x0 x1 x2 x3 x4 x5)
    | _ => None
    end;
|}.
Proof. all: struct_tac. Defined.

Record IIBCAppCallbacksOnRecvPacketCallback := mkOnRecvPacketCallback {
  OnRecvPacketCallback_SourceClient : string;
  OnRecvPacketCallback_DestinationClient : string;
  OnRecvPacketCallback_Sequence : uint 64;
  OnRecvPacketCallback_Payload : IICS26RouterMsgsPayload;
  OnRecvPacketCallback_Relayer : Address;
}.

#[export, refine] Instance IIBCAppCallbacksOnRecvPacketCallback_GoType : GoType IIBCAppCallbacksOnRecvPacketCallback := {|
  go_type_of := Gstruct [("SourceClient", go_type_of string); ("DestinationClient", go_type_of string);
    ("Sequence", go_type_of (uint 64)); ("Payload", go_type_of IICS26RouterMsgsPayload);
    ("Relayer", go_type_of Address)];
  to_value := fun x => VStruct [to_value (OnRecvPacketCallback_SourceClient x);
    to_value (OnRecvPacketCallback_DestinationClient x); to_value (OnRecvPacketCallback_Sequence x);
    to_value (OnRecvPacketCallback_Payload x); to_value (OnRecvPacketCallback_Relayer x)];
  of_value := fun v => match v with
    | VStruct [v0; v1; v2; v3; v4] =>
        x0 ← of_value v0; x1 ← of_value v1; x2 ← of_value v2; x3 ← of_value v3; x4 ← of_value v4;
        Some (mkOnRecvPacketCallback x0 x1 x2 x3 x4)
    | _ => None
    end;
|}.
Proof. all: struct_tac. Defined.

Record IIBCAppCallbacksOnTimeoutPacketCallback := mkOnTimeoutPacketCallback {
  OnTimeoutPacketCallback_SourceClient : string;
  OnTimeoutPacketCallback_DestinationClient : string;
  OnTimeoutPacketCallback_Sequence : uint 64;
  OnTimeoutPacketCallback_Payload : IICS26RouterMsgsPayload;
  OnTimeoutPacketCallback_Relayer : Address;
}.

#[export, refine] Instance IIBCAppCallbacksOnTimeoutPacketCallback_GoType : GoType IIBCAppCallbacksOnTimeoutPacketCallback := {|
  go_type_of := Gstruct [("SourceClient", go_type_of string); ("DestinationClient", go_type_of string);
    ("Sequence", go_type_of (uint 64)); ("Payload", go_type_of IICS26RouterMsgsPayload);
    ("Relayer", go_type_of Address)];
  to_value := fun x => VStruct [to_value (OnTimeoutPacketCallback_SourceClient x);
    to_value (OnTimeoutPacketCallback_DestinationClient x); to_value (OnTimeoutPacketCallback_Sequence x);
    to_value (OnTimeoutPacketCallback_Payload x); to_value (OnTimeoutPacketCallback_Relayer x)];
  of_value := fun v => match v with
    | VStruct [v0; v1; v2; v3; v4] =>
        x0 ← of_value v0; x1 ← of_value v1; x2 ← of_value v2; x3 ← of_value v3; x4 ← of_value v4;
        Some (mkOnTimeoutPacketCallback x0 x1 x2 x3 x4)
    | _ => None
    end;
|}.
Proof. all: struct_tac. Defined.

Record IICS20TransferMsgsSendTransferMsg := mkSendTransferMsg {
  SendTransferMsg_Denom : Address;
  SendTransferMsg_Amount : BigInt;
  SendTransferMsg_Receiver : string;
  SendTransferMsg_SourceClient : string;
  SendTransferMsg_DestPort : string;
  SendTransferMsg_TimeoutTimestamp : uint 64;
  SendTransferMsg_Memo : string;
}.

#[export, refine] Instance IICS20TransferMsgsSendTransferMsg_GoType : GoType IICS20TransferMsgsSendTransferMsg := {|
  go_type_of := Gstruct [("Denom", go_type_of Address); ("Amount", go_type_of BigInt);
    ("Receiver", go_type_of string); ("SourceClient", go_type_of string); ("DestPort", go_type_of string);
    ("TimeoutTimestamp", go_type_of (uint 64)); ("Memo", go_type_of string)];
  to_value := fun x => VStruct [to_value (SendTransferMsg_Denom x); to_value (SendTransferMsg_Amount x);
    to_value (SendTransferMsg_Receiver x); to_value (SendTransferMsg_SourceClient x);
    to_value (SendTransferMsg_DestPort x); to_value (SendTransferMsg_TimeoutTimestamp x);
    to_value (SendTransferMsg_Memo x)];
  of_value := fun v => match v with
    | VStruct [v0; v1; v2; v3; v4; v5; v6] =>
        x0 ← of_value v0; x1 ← of_value v1; x2 ← of_value v2; x3 ← of_value v3; x4 ← of_value v4; x5 ← of_value v5;
        x6 ← of_value v6; Some (mkSendTransferMsg x0 x1 x2 x3 x4 x5 x6)
    | _ => None
    end;
|}.
Proof. all: struct_tac. Defined.

Record ISignatureTransferTokenPermissions := mkTokenPermissions {
  TokenPermissions_Token : Address;
  TokenPermissions_Amount : BigInt;
}.

#[export, refine] Instance ISignatureTransferTokenPermissions_GoType : GoType ISignatureTransferTokenPermissions := {|
  go_type_of := Gstruct [("Token", go_type_of Address); ("Amount", go_type_of BigInt)];
  to_value := fun x => VStruct [to_value (TokenPermissions_Token x); to_value (TokenPermissions_Amount x)];
  of_value := fun v => match v with
    | VStruct [v0; v1] =>
        x0 ← of_value v0; x1 ← of_value v1; Some (mkTokenPermissions x0 x1)
    | _ => None
    end;
|}.
Proof. all: struct_tac. Defined.

Record ISignatureTransferPermitTransferFrom := mkPermitTransferFrom {
  PermitTransferFrom_Permitted : ISignatureTransferTokenPermissions;
  PermitTransferFrom_Nonce : BigInt;
  PermitTransferFrom_Deadline : BigInt;
}.

#[export, refine] Instance ISignatureTransferPermitTransferFrom_GoType : GoType ISignatureTransferPermitTransferFrom := {|
  go_type_of := Gstruct [("Permitted", go_type_of ISignatureTransferTokenPermissions); ("Nonce", go_type_of BigInt);
    ("Deadline", go_type_of BigInt)];
  to_value := fun x => VStruct [to_value (PermitTransferFrom_Permitted x); to_value (PermitTransferFrom_Nonce x);
    to_value (PermitTransferFrom_Deadline x)];
  of_value := fun v => match v with
    | VStruct [v0; v1; v2] =>
        x0 ← of_value v0; x1 ← of_value v1; x2 ← of_value v2; Some (mkPermitTransferFrom x0 x1 x2)
    | _ => None
    end;
|}.
Proof. all: struct_tac. Defined.

(** ** Events *)

Record ContractIBCERC20ContractCreated := mkContractIBCERC20ContractCreated {
  IBCERC20ContractCreated_ContractAddress : Address;
  IBCERC20ContractCreated_FullDenomPath : string;
  IBCERC20ContractCreated_Raw : EthLog;
}.

#[export, refine] Instance ContractIBCERC20ContractCreated_EventType : EventType ContractIBCERC20ContractCreated := {|
  event_fields := [("ContractAddress", go_type_of Address); ("FullDenomPath", go_type_of string)];
  of_fields := fun log vs => match vs with
    | [v0; v1] =>
        x0 ← of_value v0; x1 ← of_value v1; Some (mkContractIBCERC20ContractCreated x0 x1 log)
    | _ => None
    end;
|}.
Proof. all: event_tac. Defined.

Record ContractInitialized := mkContractInitialized {
  Initialized_Version : uint 64;
  Initialized_Raw : EthLog;
}.

#[export, refine] Instance ContractInitialized_EventType : EventType ContractInitialized := {|
  event_fields := [("Version", go_type_of (uint 64))];
  of_fields := fun log vs => match vs with
    | [v0] =>
        x0 ← of_value v0; Some (mkContractInitialized x0 log)
    | _ => None
    end;
|}.
Proof. all: event_tac. Defined.

Record ContractPaused := mkContractPaused {
  Paused_Account : Address;
  Paused_Raw : EthLog;
}.

#[export, refine] Instance ContractPaused_EventType : EventType ContractPaused := {|
  event_fields := [("Account", go_type_of Address)];
  of_fields := fun log vs => match vs with
    | [v0] =>
        x0 ← of_value v0; Some (mkContractPaused x0 log)
    | _ => None
    end;
|}.
Proof. all: event_tac. Defined.

Record ContractRoleAdminChanged := mkContractRoleAdminChanged {
  RoleAdminChanged_Role : bytesN 32;
  RoleAdminChanged_PreviousAdminRole : bytesN 32;
  RoleAdminChanged_NewAdminRole : bytesN 32;
  RoleAdminChanged_Raw : EthLog;
}.

#[export, refine] Instance ContractRoleAdminChanged_EventType : EventType ContractRoleAdminChanged := {|
  event_fields := [("Role", go_type_of (bytesN 32)); ("PreviousAdminRole", go_type_of (bytesN 32));
    ("NewAdminRole", go_type_of (bytesN 32))];
  of_fields := fun log vs => match vs with
    | [v0; v1; v2] =>
        x0 ← of_value v0; x1 ← of_value v1; x2 ← of_value v2; Some (mkContractRoleAdminChanged x0 x1 x2 log)
    | _ => None
    end;
|}.
Proof. all: event_tac. Defined.

Record ContractRoleGranted := mkContractRoleGranted {
  RoleGranted_Role : bytesN 32;
  RoleGranted_Account : Address;
  RoleGranted_Sender : Address;
  RoleGranted_Raw : EthLog;
}.

#[export, refine] Instance ContractRoleGranted_EventType : EventType ContractRoleGranted := {|
  event_fields := [("Role", go_type_of (bytesN 32)); ("Account", go_type_of Address);
    ("Sender", go_type_of Address)];
  of_fields := fun log vs => match vs with
    | [v0; v1; v2] =>
        x0 ← of_value v0; x1 ← of_value v1; x2 ← of_value v2; Some (mkContractRoleGranted x0 x1 x2 log)
    | _ => None
    end;
|}.
Proof. all: event_tac. Defined.

Record ContractRoleRevoked := mkContractRoleRevoked {
  RoleRevoked_Role : bytesN 32;
  RoleRevoked_Account : Address;
  RoleRevoked_Sender : Address;
  RoleRevoked_Raw : EthLog;
}.

#[export, refine] Instance ContractRoleRevoked_EventType : EventType ContractRoleRevoked := {|
  event_fields := [("Role", go_type_of (bytesN 32)); ("Account", go_type_of Address);
    ("Sender", go_type_of Address)];
  of_fields := fun log vs => match vs with
    | [v0; v1; v2] =>
        x0 ← of_value v0; x1 ← of_value v1; x2 ← of_value v2; Some (mkContractRoleRevoked x0 x1 x2 log)
    | _ => None
    end;
|}.
Proof. all: event_tac. Defined.

Record ContractUnpaused := mkContractUnpaused {
  Unpaused_Account : Address;
  Unpaused_Raw : EthLog;
}.

#[export, refine] Instance ContractUnpaused_EventType : EventType ContractUnpaused := {|
  event_fields := [("Account", go_type_of Address)];
  of_fields := fun log vs => match vs with
    | [v0] =>
        x0 ← of_value v0; Some (mkContractUnpaused x0 log)
    | _ => None
    end;
|}.
Proof. all: event_tac. Defined.

Record ContractUpgraded := mkContractUpgraded {
  Upgraded_Implementation : Address;
  Upgraded_Raw : EthLog;
}.

#[export, refine] Instance ContractUpgraded_EventType : EventType ContractUpgraded := {|
  event_fields := [("Implementation", go_type_of Address)];
  of_fields := fun log vs => match vs with
    | [v0] =>
        x0 ← of_value v0; Some (mkContractUpgraded x0 log)
    | _ => None
    end;
|}.
Proof. all: event_tac. Defined.

(** ** Bindings *)

Section Bindings.
Context {W : Type} {T : Geth} {Backend : Type}.

Definition bindContract (lib : BindLib W T Backend) (address : Address)
    (caller transactor filterer : option Backend) : error + BoundContract W T :=
  match GetAbi lib ContractMetaData with
  | inl err => inl err
  | inr parsed => inr (NewBoundContract lib address parsed caller transactor filterer)
  end.

Definition NewContract (lib : BindLib W T Backend) (address : Address)
    (backend : Backend) : error + Contract W T :=
  match bindContract lib address (Some backend) (Some backend) (Some backend) with
  | inl err => inl err
  | inr contract => inr (mkContract (mkContractCaller contract) (mkContractTransactor contract) (mkContractFilterer contract))
  end.

Definition NewContractCaller (lib : BindLib W T Backend) (address : Address)
    (caller : Backend) : error + ContractCaller W T :=
  match bindContract lib address (Some caller) None None with
  | inl err => inl err
  | inr contract => inr (mkContractCaller contract)
  end.

Definition NewContractTransactor (lib : BindLib W T Backend) (address : Address)
    (transactor : Backend) : error + ContractTransactor W T :=
  match bindContract lib address None (Some transactor) None with
  | inl err => inl err
  | inr contract => inr (mkContractTransactor contract)
  end.

Definition NewContractFilterer (lib : BindLib W T Backend) (address : Address)
    (filterer : Backend) : error + ContractFilterer W T :=
  match bindContract lib address None None (Some filterer) with
  | inl err => inl err
  | inr contract => inr (mkContractFilterer contract)
  end.

(** Calls. *)
Section Calls.
Context (contract : ContractCaller W T) (opts : CallOpts T).

Definition DEFAULTADMINROLE : W -> res (bytesN 32) * W := callOut contract opts "DEFAULT_ADMIN_ROLE" [].

Definition DELEGATESENDERROLE : W -> res (bytesN 32) * W := callOut contract opts "DELEGATE_SENDER_ROLE" [].

Definition ERC20CUSTOMIZERROLE : W -> res (bytesN 32) * W := callOut contract opts "ERC20_CUSTOMIZER_ROLE" [].

Definition PAUSERROLE : W -> res (bytesN 32) * W := callOut contract opts "PAUSER_ROLE" [].

Definition TOKENOPERATORROLE : W -> res (bytesN 32) * W := callOut contract opts "TOKEN_OPERATOR_ROLE" [].

Definition UNPAUSERROLE : W -> res (bytesN 32) * W := callOut contract opts "UNPAUSER_ROLE" [].

Definition UPGRADEINTERFACEVERSION : W -> res string * W := callOut contract opts "UPGRADE_INTERFACE_VERSION" [].

Definition GetEscrow (clientId : string) : W -> res Address * W :=
  callOut contract opts "getEscrow" [to_value clientId].

Definition GetEscrowBeacon : W -> res Address * W := callOut contract opts "getEscrowBeacon" [].

Definition GetIBCERC20Beacon : W -> res Address * W := callOut contract opts "getIBCERC20Beacon" [].

Definition GetPermit2 : W -> res Address * W := callOut contract opts "getPermit2" [].

Definition GetRoleAdmin (role : bytesN 32) : W -> res (bytesN 32) * W :=
  callOut contract opts "getRoleAdmin" [to_value role].

Definition HasRole (role : bytesN 32) (account : Address) : W -> res bool * W :=
  callOut contract opts "hasRole" [to_value role; to_value account].

Definition IbcERC20Contract (denom : string) : W -> res Address * W :=
  callOut contract opts "ibcERC20Contract" [to_value denom].

Definition IbcERC20Denom (token : Address) : W -> res string * W :=
  callOut contract opts "ibcERC20Denom" [to_value token].

Definition Ics26 : W -> res Address * W := callOut contract opts "ics26" [].

Definition IsTokenOperator (account : Address) : W -> res bool * W :=
  callOut contract opts "isTokenOperator" [to_value account].

Definition Paused : W -> res bool * W := callOut contract opts "paused" [].

Definition ProxiableUUID : W -> res (bytesN 32) * W := callOut contract opts "proxiableUUID" [].

Definition SupportsInterface (interfaceId : bytesN 4) : W -> res bool * W :=
  callOut contract opts "supportsInterface" [to_value interfaceId].

End Calls.

(** Transactions. *)
Section Transactions.
Context (contract : ContractTransactor W T) (opts : TransactOpts T).

Definition GrantDelegateSenderRole (account : Address) : W -> res (Transaction T) * W :=
  transact contract opts "grantDelegateSenderRole" [to_value account].

Definition GrantERC20CustomizerRole (account : Address) : W -> res (Transaction T) * W :=
  transact contract opts "grantERC20CustomizerRole" [to_value account].

Definition GrantPauserRole (account : Address) : W -> res (Transaction T) * W :=
  transact contract opts "grantPauserRole" [to_value account].

Definition GrantRole (role : bytesN 32) (account : Address) : W -> res (Transaction T) * W :=
  transact contract opts "grantRole" [to_value role; to_value account].

Definition GrantTokenOperatorRole (account : Address) : W -> res (Transaction T) * W :=
  transact contract opts "grantTokenOperatorRole" [to_value account].

Definition GrantUnpauserRole (account : Address) : W -> res (Transaction T) * W :=
  transact contract opts "grantUnpauserRole" [to_value account].

Definition Initialize (ics26Router : Address) (escrowLogic : Address) (ibcERC20Logic : Address)
    (permit2 : Address) : W -> res (Transaction T) * W :=
  transact contract opts "initialize" [to_value ics26Router; to_value escrowLogic; to_value ibcERC20Logic; to_value permit2].

Definition Multicall (data : list Bytes) : W -> res (Transaction T) * W :=
  transact contract opts "multicall" [to_value data].

Definition OnAcknowledgementPacket (msg_ : IIBCAppCallbacksOnAcknowledgementPacketCallback) : W -> res
    (Transaction T) * W := transact contract opts "onAcknowledgementPacket" [to_value msg_].

Definition OnRecvPacket (msg_ : IIBCAppCallbacksOnRecvPacketCallback) : W -> res (Transaction T) * W :=
  transact contract opts "onRecvPacket" [to_value msg_].

Definition OnTimeoutPacket (msg_ : IIBCAppCallbacksOnTimeoutPacketCallback) : W -> res (Transaction T) * W :=
  transact contract opts "onTimeoutPacket" [to_value msg_].

Definition Pause : W -> res (Transaction T) * W := transact contract opts "pause" [].

Definition RenounceRole (role : bytesN 32) (callerConfirmation : Address) : W -> res (Transaction T) * W :=
  transact contract opts "renounceRole" [to_value role; to_value callerConfirmation].

Definition RevokeDelegateSenderRole (account : Address) : W -> res (Transaction T) * W :=
  transact contract opts "revokeDelegateSenderRole" [to_value account].

Definition RevokeERC20CustomizerRole (account : Address) : W -> res (Transaction T) * W :=
  transact contract opts "revokeERC20CustomizerRole" [to_value account].

Definition RevokePauserRole (account : Address) : W -> res (Transaction T) * W :=
  transact contract opts "revokePauserRole" [to_value account].

Definition RevokeRole (role : bytesN 32) (account : Address) : W -> res (Transaction T) * W :=
  transact contract opts "revokeRole" [to_value role; to_value account].

Definition RevokeTokenOperatorRole (account : Address) : W -> res (Transaction T) * W :=
  transact contract opts "revokeTokenOperatorRole" [to_value account].

Definition RevokeUnpauserRole (account : Address) : W -> res (Transaction T) * W :=
  transact contract opts "revokeUnpauserRole" [to_value account].

Definition SendTransfer (msg_ : IICS20TransferMsgsSendTransferMsg) : W -> res (Transaction T) * W :=
  transact contract opts "sendTransfer" [to_value msg_].

Definition SendTransferWithPermit2 (msg_ : IICS20TransferMsgsSendTransferMsg)
    (permit : ISignatureTransferPermitTransferFrom) (signature : Bytes) : W -> res (Transaction T) * W :=
  transact contract opts "sendTransferWithPermit2" [to_value msg_; to_value permit; to_value signature].

Definition SendTransferWithSender (msg_ : IICS20TransferMsgsSendTransferMsg) (sender : Address) : W -> res
    (Transaction T) * W := transact contract opts "sendTransferWithSender" [to_value msg_; to_value sender].

Definition SetCustomERC20 (denom : string) (token : Address) : W -> res (Transaction T) * W :=
  transact contract opts "setCustomERC20" [to_value denom; to_value token].

Definition Unpause : W -> res (Transaction T) * W := transact contract opts "unpause" [].

Definition UpgradeEscrowTo (newEscrowLogic : Address) : W -> res (Transaction T) * W :=
  transact contract opts "upgradeEscrowTo" [to_value newEscrowLogic].

Definition UpgradeIBCERC20To (newIBCERC20Logic : Address) : W -> res (Transaction T) * W :=
  transact contract opts "upgradeIBCERC20To" [to_value newIBCERC20Logic].

Definition UpgradeToAndCall (newImplementation : Address) (data : Bytes) : W -> res (Transaction T) * W :=
  transact contract opts "upgradeToAndCall" [to_value newImplementation; to_value data].

End Transactions.

(** Events. *)
Section Logs.
Context (contract : ContractFilterer W T) (log : EthLog).

Definition ParseIBCERC20ContractCreated : res ContractIBCERC20ContractCreated :=
  parse contract "IBCERC20ContractCreated" log.

Definition ParseInitialized : res ContractInitialized := parse contract "Initialized" log.

Definition ParsePaused : res ContractPaused := parse contract "Paused" log.

Definition ParseRoleAdminChanged : res ContractRoleAdminChanged := parse contract "RoleAdminChanged" log.

Definition ParseRoleGranted : res ContractRoleGranted := parse contract "RoleGranted" log.

Definition ParseRoleRevoked : res ContractRoleRevoked := parse contract "RoleRevoked" log.

Definition ParseUnpaused : res ContractUnpaused := parse contract "Unpaused" log.

Definition ParseUpgraded : res ContractUpgraded := parse contract "Upgraded" log.

End Logs.

(** Iterators over past events. *)
Definition ContractIBCERC20ContractCreatedIterator (W : Type) (T : Geth) : Type :=
  LogIterator W T ContractIBCERC20ContractCreated.
Definition IBCERC20ContractCreatedIterator_Next (it : ContractIBCERC20ContractCreatedIterator W T) := it_Next it.
Definition IBCERC20ContractCreatedIterator_Error (it : ContractIBCERC20ContractCreatedIterator W T) := it_Error it.
Definition IBCERC20ContractCreatedIterator_Close (it : ContractIBCERC20ContractCreatedIterator W T) := it_Close it.

Definition ContractInitializedIterator (W : Type) (T : Geth) : Type := LogIterator W T ContractInitialized.
Definition InitializedIterator_Next (it : ContractInitializedIterator W T) := it_Next it.
Definition InitializedIterator_Error (it : ContractInitializedIterator W T) := it_Error it.
Definition InitializedIterator_Close (it : ContractInitializedIterator W T) := it_Close it.

Definition ContractPausedIterator (W : Type) (T : Geth) : Type := LogIterator W T ContractPaused.
Definition PausedIterator_Next (it : ContractPausedIterator W T) := it_Next it.
Definition PausedIterator_Error (it : ContractPausedIterator W T) := it_Error it.
Definition PausedIterator_Close (it : ContractPausedIterator W T) := it_Close it.

Definition ContractRoleAdminChangedIterator (W : Type) (T : Geth) : Type :=
  LogIterator W T ContractRoleAdminChanged.
Definition RoleAdminChangedIterator_Next (it : ContractRoleAdminChangedIterator W T) := it_Next it.
Definition RoleAdminChangedIterator_Error (it : ContractRoleAdminChangedIterator W T) := it_Error it.
Definition RoleAdminChangedIterator_Close (it : ContractRoleAdminChangedIterator W T) := it_Close it.

Definition ContractRoleGrantedIterator (W : Type) (T : Geth) : Type := LogIterator W T ContractRoleGranted.
Definition RoleGrantedIterator_Next (it : ContractRoleGrantedIterator W T) := it_Next it.
Definition RoleGrantedIterator_Error (it : ContractRoleGrantedIterator W T) := it_Error it.
Definition RoleGrantedIterator_Close (it : ContractRoleGrantedIterator W T) := it_Close it.

Definition ContractRoleRevokedIterator (W : Type) (T : Geth) : Type := LogIterator W T ContractRoleRevoked.
Definition RoleRevokedIterator_Next (it : ContractRoleRevokedIterator W T) := it_Next it.
Definition RoleRevokedIterator_Error (it : ContractRoleRevokedIterator W T) := it_Error it.
Definition RoleRevokedIterator_Close (it : ContractRoleRevokedIterator W T) := it_Close it.

Definition ContractUnpausedIterator (W : Type) (T : Geth) : Type := LogIterator W T ContractUnpaused.
Definition UnpausedIterator_Next (it : ContractUnpausedIterator W T) := it_Next it.
Definition UnpausedIterator_Error (it : ContractUnpausedIterator W T) := it_Error it.
Definition UnpausedIterator_Close (it : ContractUnpausedIterator W T) := it_Close it.

Definition ContractUpgradedIterator (W : Type) (T : Geth) : Type := LogIterator W T ContractUpgraded.
Definition UpgradedIterator_Next (it : ContractUpgradedIterator W T) := it_Next it.
Definition UpgradedIterator_Error (it : ContractUpgradedIterator W T) := it_Error it.
Definition UpgradedIterator_Close (it : ContractUpgradedIterator W T) := it_Close it.

(** Filters and watches. *)
Section Filters.
Context (contract : ContractFilterer W T).

Definition FilterIBCERC20ContractCreated (opts : FilterOpts T) (contractAddress : list Address)
    : W -> res (ContractIBCERC20ContractCreatedIterator W T) * W :=
  filterLogs contract opts "IBCERC20ContractCreated" [rule contractAddress].

Definition WatchIBCERC20ContractCreated (opts : WatchOpts T) (contractAddress : list Address)
    : W -> res (list watched -> list ContractIBCERC20ContractCreated * watch_state) * W :=
  watchLogs contract opts "IBCERC20ContractCreated" [rule contractAddress].

Definition FilterInitialized (opts : FilterOpts T) : W -> res (ContractInitializedIterator W T) * W :=
  filterLogs contract opts "Initialized" [].

Definition WatchInitialized (opts : WatchOpts T)
    : W -> res (list watched -> list ContractInitialized * watch_state) * W :=
  watchLogs contract opts "Initialized" [].

Definition FilterPaused (opts : FilterOpts T) : W -> res (ContractPausedIterator W T) * W :=
  filterLogs contract opts "Paused" [].

Definition WatchPaused (opts : WatchOpts T) : W -> res (list watched -> list ContractPaused * watch_state) * W :=
  watchLogs contract opts "Paused" [].

Definition FilterRoleAdminChanged (opts : FilterOpts T) (role : list (bytesN 32)) (previousAdminRole : list (bytesN 32)) (newAdminRole : list (bytesN 32))
    : W -> res (ContractRoleAdminChangedIterator W T) * W :=
  filterLogs contract opts "RoleAdminChanged" [rule role; rule previousAdminRole; rule newAdminRole].

Definition WatchRoleAdminChanged (opts : WatchOpts T) (role : list (bytesN 32)) (previousAdminRole : list (bytesN 32)) (newAdminRole : list (bytesN 32))
    : W -> res (list watched -> list ContractRoleAdminChanged * watch_state) * W :=
  watchLogs contract opts "RoleAdminChanged" [rule role; rule previousAdminRole; rule newAdminRole].

Definition FilterRoleGranted (opts : FilterOpts T) (role : list (bytesN 32)) (account : list Address) (sender : list Address)
    : W -> res (ContractRoleGrantedIterator W T) * W :=
  filterLogs contract opts "RoleGranted" [rule role; rule account; rule sender].

Definition WatchRoleGranted (opts : WatchOpts T) (role : list (bytesN 32)) (account : list Address) (sender : list Address)
    : W -> res (list watched -> list ContractRoleGranted * watch_state) * W :=
  watchLogs contract opts "RoleGranted" [rule role; rule account; rule sender].

Definition FilterRoleRevoked (opts : FilterOpts T) (role : list (bytesN 32)) (account : list Address) (sender : list Address)
    : W -> res (ContractRoleRevokedIterator W T) * W :=
  filterLogs contract opts "RoleRevoked" [rule role; rule account; rule sender].

Definition WatchRoleRevoked (opts : WatchOpts T) (role : list (bytesN 32)) (account : list Address) (sender : list Address)
    : W -> res (list watched -> list ContractRoleRevoked * watch_state) * W :=
  watchLogs contract opts "RoleRevoked" [rule role; rule account; rule sender].

Definition FilterUnpaused (opts : FilterOpts T) : W -> res (ContractUnpausedIterator W T) * W :=
  filterLogs contract opts "Unpaused" [].

Definition WatchUnpaused (opts : WatchOpts T)
    : W -> res (list watched -> list ContractUnpaused * watch_state) * W :=
  watchLogs contract opts "Unpaused" [].

Definition FilterUpgraded (opts : FilterOpts T) (implementation : list Address)
    : W -> res (ContractUpgradedIterator W T) * W :=
  filterLogs contract opts "Upgraded" [rule implementation].

Definition WatchUpgraded (opts : WatchOpts T) (implementation : list Address)
    : W -> res (list watched -> list ContractUpgraded * watch_state) * W :=
  watchLogs contract opts "Upgraded" [rule implementation].

End Filters.

(** Sessions: the bindings with the options of the session. *)
Definition Session_DEFAULTADMINROLE (s : ContractSession W T) :=
  DEFAULTADMINROLE (Contract_Caller (session_Contract s)) (session_CallOpts s).
Definition Session_DELEGATESENDERROLE (s : ContractSession W T) :=
  DELEGATESENDERROLE (Contract_Caller (session_Contract s)) (session_CallOpts s).
Definition Session_ERC20CUSTOMIZERROLE (s : ContractSession W T) :=
  ERC20CUSTOMIZERROLE (Contract_Caller (session_Contract s)) (session_CallOpts s).
Definition Session_PAUSERROLE (s : ContractSession W T) :=
  PAUSERROLE (Contract_Caller (session_Contract s)) (session_CallOpts s).
Definition Session_TOKENOPERATORROLE (s : ContractSession W T) :=
  TOKENOPERATORROLE (Contract_Caller (session_Contract s)) (session_CallOpts s).
Definition Session_UNPAUSERROLE (s : ContractSession W T) :=
  UNPAUSERROLE (Contract_Caller (session_Contract s)) (session_CallOpts s).
Definition Session_UPGRADEINTERFACEVERSION (s : ContractSession W T) :=
  UPGRADEINTERFACEVERSION (Contract_Caller (session_Contract s)) (session_CallOpts s).
Definition Session_GetEscrow (s : ContractSession W T) (clientId : string) :=
  GetEscrow (Contract_Caller (session_Contract s)) (session_CallOpts s) clientId.
Definition Session_GetEscrowBeacon (s : ContractSession W T) :=
  GetEscrowBeacon (Contract_Caller (session_Contract s)) (session_CallOpts s).
Definition Session_GetIBCERC20Beacon (s : ContractSession W T) :=
  GetIBCERC20Beacon (Contract_Caller (session_Contract s)) (session_CallOpts s).
Definition Session_GetPermit2 (s : ContractSession W T) :=
  GetPermit2 (Contract_Caller (session_Contract s)) (session_CallOpts s).
Definition Session_GetRoleAdmin (s : ContractSession W T) (role : bytesN 32) :=
  GetRoleAdmin (Contract_Caller (session_Contract s)) (session_CallOpts s) role.
Definition Session_HasRole (s : ContractSession W T) (role : bytesN 32) (account : Address) :=
  HasRole (Contract_Caller (session_Contract s)) (session_CallOpts s) role account.
Definition Session_IbcERC20Contract (s : ContractSession W T) (denom : string) :=
  IbcERC20Contract (Contract_Caller (session_Contract s)) (session_CallOpts s) denom.
Definition Session_IbcERC20Denom (s : ContractSession W T) (token : Address) :=
  IbcERC20Denom (Contract_Caller (session_Contract s)) (session_CallOpts s) token.
Definition Session_Ics26 (s : ContractSession W T) :=
  Ics26 (Contract_Caller (session_Contract s)) (session_CallOpts s).
Definition Session_IsTokenOperator (s : ContractSession W T) (account : Address) :=
  IsTokenOperator (Contract_Caller (session_Contract s)) (session_CallOpts s) account.
Definition Session_Paused (s : ContractSession W T) :=
  Paused (Contract_Caller (session_Contract s)) (session_CallOpts s).
Definition Session_ProxiableUUID (s : ContractSession W T) :=
  ProxiableUUID (Contract_Caller (session_Contract s)) (session_CallOpts s).
Definition Session_SupportsInterface (s : ContractSession W T) (interfaceId : bytesN 4) :=
  SupportsInterface (Contract_Caller (session_Contract s)) (session_CallOpts s) interfaceId.
Definition Session_GrantDelegateSenderRole (s : ContractSession W T) (account : Address) :=
  GrantDelegateSenderRole (Contract_Transactor (session_Contract s)) (session_TransactOpts s) account.
Definition Session_GrantERC20CustomizerRole (s : ContractSession W T) (account : Address) :=
  GrantERC20CustomizerRole (Contract_Transactor (session_Contract s)) (session_TransactOpts s) account.
Definition Session_GrantPauserRole (s : ContractSession W T) (account : Address) :=
  GrantPauserRole (Contract_Transactor (session_Contract s)) (session_TransactOpts s) account.
Definition Session_GrantRole (s : ContractSession W T) (role : bytesN 32) (account : Address) :=
  GrantRole (Contract_Transactor (session_Contract s)) (session_TransactOpts s) role account.
Definition Session_GrantTokenOperatorRole (s : ContractSession W T) (account : Address) :=
  GrantTokenOperatorRole (Contract_Transactor (session_Contract s)) (session_TransactOpts s) account.
Definition Session_GrantUnpauserRole (s : ContractSession W T) (account : Address) :=
  GrantUnpauserRole (Contract_Transactor (session_Contract s)) (session_TransactOpts s) account.
Definition Session_Initialize (s : ContractSession W T) (ics26Router : Address) (escrowLogic : Address) (ibcERC20Logic : Address) (permit2 : Address) :=
  Initialize (Contract_Transactor (session_Contract s)) (session_TransactOpts s) ics26Router escrowLogic ibcERC20Logic permit2.
Definition Session_Multicall (s : ContractSession W T) (data : list Bytes) :=
  Multicall (Contract_Transactor (session_Contract s)) (session_TransactOpts s) data.
Definition Session_OnAcknowledgementPacket (s : ContractSession W T) (msg_ : IIBCAppCallbacksOnAcknowledgementPacketCallback) :=
  OnAcknowledgementPacket (Contract_Transactor (session_Contract s)) (session_TransactOpts s) msg_.
Definition Session_OnRecvPacket (s : ContractSession W T) (msg_ : IIBCAppCallbacksOnRecvPacketCallback) :=
  OnRecvPacket (Contract_Transactor (session_Contract s)) (session_TransactOpts s) msg_.
Definition Session_OnTimeoutPacket (s : ContractSession W T) (msg_ : IIBCAppCallbacksOnTimeoutPacketCallback) :=
  OnTimeoutPacket (Contract_Transactor (session_Contract s)) (session_TransactOpts s) msg_.
Definition Session_Pause (s : ContractSession W T) :=
  Pause (Contract_Transactor (session_Contract s)) (session_TransactOpts s).
Definition Session_RenounceRole (s : ContractSession W T) (role : bytesN 32) (callerConfirmation : Address) :=
  RenounceRole (Contract_Transactor (session_Contract s)) (session_TransactOpts s) role callerConfirmation.
Definition Session_RevokeDelegateSenderRole (s : ContractSession W T) (account : Address) :=
  RevokeDelegateSenderRole (Contract_Transactor (session_Contract s)) (session_TransactOpts s) account.
Definition Session_RevokeERC20CustomizerRole (s : ContractSession W T) (account : Address) :=
  RevokeERC20CustomizerRole (Contract_Transactor (session_Contract s)) (session_TransactOpts s) account.
Definition Session_RevokePauserRole (s : ContractSession W T) (account : Address) :=
  RevokePauserRole (Contract_Transactor (session_Contract s)) (session_TransactOpts s) account.
Definition Session_RevokeRole (s : ContractSession W T) (role : bytesN 32) (account : Address) :=
  RevokeRole (Contract_Transactor (session_Contract s)) (session_TransactOpts s) role account.
Definition Session_RevokeTokenOperatorRole (s : ContractSession W T) (account : Address) :=
  RevokeTokenOperatorRole (Contract_Transactor (session_Contract s)) (session_TransactOpts s) account.
Definition Session_RevokeUnpauserRole (s : ContractSession W T) (account : Address) :=
  RevokeUnpauserRole (Contract_Transactor (session_Contract s)) (session_TransactOpts s) account.
Definition Session_SendTransfer (s : ContractSession W T) (msg_ : IICS20TransferMsgsSendTransferMsg) :=
  SendTransfer (Contract_Transactor (session_Contract s)) (session_TransactOpts s) msg_.
Definition Session_SendTransferWithPermit2 (s : ContractSession W T) (msg_ : IICS20TransferMsgsSendTransferMsg) (permit : ISignatureTransferPermitTransferFrom) (signature : Bytes) :=
  SendTransferWithPermit2 (Contract_Transactor (session_Contract s)) (session_TransactOpts s) msg_ permit signature.
Definition Session_SendTransferWithSender (s : ContractSession W T) (msg_ : IICS20TransferMsgsSendTransferMsg) (sender : Address) :=
  SendTransferWithSender (Contract_Transactor (session_Contract s)) (session_TransactOpts s) msg_ sender.
Definition Session_SetCustomERC20 (s : ContractSession W T) (denom : string) (token : Address) :=
  SetCustomERC20 (Contract_Transactor (session_Contract s)) (session_TransactOpts s) denom token.
Definition Session_Unpause (s : ContractSession W T) :=
  Unpause (Contract_Transactor (session_Contract s)) (session_TransactOpts s).
Definition Session_UpgradeEscrowTo (s : ContractSession W T) (newEscrowLogic : Address) :=
  UpgradeEscrowTo (Contract_Transactor (session_Contract s)) (session_TransactOpts s) newEscrowLogic.
Definition Session_UpgradeIBCERC20To (s : ContractSession W T) (newIBCERC20Logic : Address) :=
  UpgradeIBCERC20To (Contract_Transactor (session_Contract s)) (session_TransactOpts s) newIBCERC20Logic.
Definition Session_UpgradeToAndCall (s : ContractSession W T) (newImplementation : Address) (data : Bytes) :=
  UpgradeToAndCall (Contract_Transactor (session_Contract s)) (session_TransactOpts s) newImplementation data.

Definition CallerSession_DEFAULTADMINROLE (s : ContractCallerSession W T) :=
  DEFAULTADMINROLE (callerSession_Contract s) (callerSession_CallOpts s).
Definition CallerSession_DELEGATESENDERROLE (s : ContractCallerSession W T) :=
  DELEGATESENDERROLE (callerSession_Contract s) (callerSession_CallOpts s).
Definition CallerSession_ERC20CUSTOMIZERROLE (s : ContractCallerSession W T) :=
  ERC20CUSTOMIZERROLE (callerSession_Contract s) (callerSession_CallOpts s).
Definition CallerSession_PAUSERROLE (s : ContractCallerSession W T) :=
  PAUSERROLE (callerSession_Contract s) (callerSession_CallOpts s).
Definition CallerSession_TOKENOPERATORROLE (s : ContractCallerSession W T) :=
  TOKENOPERATORROLE (callerSession_Contract s) (callerSession_CallOpts s).
Definition CallerSession_UNPAUSERROLE (s : ContractCallerSession W T) :=
  UNPAUSERROLE (callerSession_Contract s) (callerSession_CallOpts s).
Definition CallerSession_UPGRADEINTERFACEVERSION (s : ContractCallerSession W T) :=
  UPGRADEINTERFACEVERSION (callerSession_Contract s) (callerSession_CallOpts s).
Definition CallerSession_GetEscrow (s : ContractCallerSession W T) (clientId : string) :=
  GetEscrow (callerSession_Contract s) (callerSession_CallOpts s) clientId.
Definition CallerSession_GetEscrowBeacon (s : ContractCallerSession W T) :=
  GetEscrowBeacon (callerSession_Contract s) (callerSession_CallOpts s).
Definition CallerSession_GetIBCERC20Beacon (s : ContractCallerSession W T) :=
  GetIBCERC20Beacon (callerSession_Contract s) (callerSession_CallOpts s).
Definition CallerSession_GetPermit2 (s : ContractCallerSession W T) :=
  GetPermit2 (callerSession_Contract s) (callerSession_CallOpts s).
Definition CallerSession_GetRoleAdmin (s : ContractCallerSession W T) (role : bytesN 32) :=
  GetRoleAdmin (callerSession_Contract s) (callerSession_CallOpts s) role.
Definition CallerSession_HasRole (s : ContractCallerSession W T) (role : bytesN 32) (account : Address) :=
  HasRole (callerSession_Contract s) (callerSession_CallOpts s) role account.
Definition CallerSession_IbcERC20Contract (s : ContractCallerSession W T) (denom : string) :=
  IbcERC20Contract (callerSession_Contract s) (callerSession_CallOpts s) denom.
Definition CallerSession_IbcERC20Denom (s : ContractCallerSession W T) (token : Address) :=
  IbcERC20Denom (callerSession_Contract s) (callerSession_CallOpts s) token.
Definition CallerSession_Ics26 (s : ContractCallerSession W T) :=
  Ics26 (callerSession_Contract s) (callerSession_CallOpts s).
Definition CallerSession_IsTokenOperator (s : ContractCallerSession W T) (account : Address) :=
  IsTokenOperator (callerSession_Contract s) (callerSession_CallOpts s) account.
Definition CallerSession_Paused (s : ContractCallerSession W T) :=
  Paused (callerSession_Contract s) (callerSession_CallOpts s).
Definition CallerSession_ProxiableUUID (s : ContractCallerSession W T) :=
  ProxiableUUID (callerSession_Contract s) (callerSession_CallOpts s).
Definition CallerSession_SupportsInterface (s : ContractCallerSession W T) (interfaceId : bytesN 4) :=
  SupportsInterface (callerSession_Contract s) (callerSession_CallOpts s) interfaceId.

Definition TransactorSession_GrantDelegateSenderRole (s : ContractTransactorSession W T) (account : Address) :=
  GrantDelegateSenderRole (transactorSession_Contract s) (transactorSession_TransactOpts s) account.
Definition TransactorSession_GrantERC20CustomizerRole (s : ContractTransactorSession W T) (account : Address) :=
  GrantERC20CustomizerRole (transactorSession_Contract s) (transactorSession_TransactOpts s) account.
Definition TransactorSession_GrantPauserRole (s : ContractTransactorSession W T) (account : Address) :=
  GrantPauserRole (transactorSession_Contract s) (transactorSession_TransactOpts s) account.
Definition TransactorSession_GrantRole (s : ContractTransactorSession W T) (role : bytesN 32) (account : Address) :=
  GrantRole (transactorSession_Contract s) (transactorSession_TransactOpts s) role account.
Definition TransactorSession_GrantTokenOperatorRole (s : ContractTransactorSession W T) (account : Address) :=
  GrantTokenOperatorRole (transactorSession_Contract s) (transactorSession_TransactOpts s) account.
Definition TransactorSession_GrantUnpauserRole (s : ContractTransactorSession W T) (account : Address) :=
  GrantUnpauserRole (transactorSession_Contract s) (transactorSession_TransactOpts s) account.
Definition TransactorSession_Initialize (s : ContractTransactorSession W T) (ics26Router : Address) (escrowLogic : Address) (ibcERC20Logic : Address) (permit2 : Address) :=
  Initialize (transactorSession_Contract s) (transactorSession_TransactOpts s) ics26Router escrowLogic ibcERC20Logic permit2.
Definition TransactorSession_Multicall (s : ContractTransactorSession W T) (data : list Bytes) :=
  Multicall (transactorSession_Contract s) (transactorSession_TransactOpts s) data.
Definition TransactorSession_OnAcknowledgementPacket (s : ContractTransactorSession W T) (msg_ : IIBCAppCallbacksOnAcknowledgementPacketCallback) :=
  OnAcknowledgementPacket (transactorSession_Contract s) (transactorSession_TransactOpts s) msg_.
Definition TransactorSession_OnRecvPacket (s : ContractTransactorSession W T) (msg_ : IIBCAppCallbacksOnRecvPacketCallback) :=
  OnRecvPacket (transactorSession_Contract s) (transactorSession_TransactOpts s) msg_.
Definition TransactorSession_OnTimeoutPacket (s : ContractTransactorSession W T) (msg_ : IIBCAppCallbacksOnTimeoutPacketCallback) :=
  OnTimeoutPacket (transactorSession_Contract s) (transactorSession_TransactOpts s) msg_.
Definition TransactorSession_Pause (s : ContractTransactorSession W T) :=
  Pause (transactorSession_Contract s) (transactorSession_TransactOpts s).
Definition TransactorSession_RenounceRole (s : ContractTransactorSession W T) (role : bytesN 32) (callerConfirmation : Address) :=
  RenounceRole (transactorSession_Contract s) (transactorSession_TransactOpts s) role callerConfirmation.
Definition TransactorSession_RevokeDelegateSenderRole (s : ContractTransactorSession W T) (account : Address) :=
  RevokeDelegateSenderRole (transactorSession_Contract s) (transactorSession_TransactOpts s) account.
Definition TransactorSession_RevokeERC20CustomizerRole (s : ContractTransactorSession W T) (account : Address) :=
  RevokeERC20CustomizerRole (transactorSession_Contract s) (transactorSession_TransactOpts s) account.
Definition TransactorSession_RevokePauserRole (s : ContractTransactorSession W T) (account : Address) :=
  RevokePauserRole (transactorSession_Contract s) (transactorSession_TransactOpts s) account.
Definition TransactorSession_RevokeRole (s : ContractTransactorSession W T) (role : bytesN 32) (account : Address) :=
  RevokeRole (transactorSession_Contract s) (transactorSession_TransactOpts s) role account.
Definition TransactorSession_RevokeTokenOperatorRole (s : ContractTransactorSession W T) (account : Address) :=
  RevokeTokenOperatorRole (transactorSession_Contract s) (transactorSession_TransactOpts s) account.
Definition TransactorSession_RevokeUnpauserRole (s : ContractTransactorSession W T) (account : Address) :=
  RevokeUnpauserRole (transactorSession_Contract s) (transactorSession_TransactOpts s) account.
Definition TransactorSession_SendTransfer (s : ContractTransactorSession W T) (msg_ : IICS20TransferMsgsSendTransferMsg) :=
  SendTransfer (transactorSession_Contract s) (transactorSession_TransactOpts s) msg_.
Definition TransactorSession_SendTransferWithPermit2 (s : ContractTransactorSession W T) (msg_ : IICS20TransferMsgsSendTransferMsg) (permit : ISignatureTransferPermitTransferFrom) (signature : Bytes) :=
  SendTransferWithPermit2 (transactorSession_Contract s) (transactorSession_TransactOpts s) msg_ permit signature.
Definition TransactorSession_SendTransferWithSender (s : ContractTransactorSession W T) (msg_ : IICS20TransferMsgsSendTransferMsg) (sender : Address) :=
  SendTransferWithSender (transactorSession_Contract s) (transactorSession_TransactOpts s) msg_ sender.
Definition TransactorSession_SetCustomERC20 (s : ContractTransactorSession W T) (denom : string) (token : Address) :=
  SetCustomERC20 (transactorSession_Contract s) (transactorSession_TransactOpts s) denom token.
Definition TransactorSession_Unpause (s : ContractTransactorSession W T) :=
  Unpause (transactorSession_Contract s) (transactorSession_TransactOpts s).
Definition TransactorSession_UpgradeEscrowTo (s : ContractTransactorSession W T) (newEscrowLogic : Address) :=
  UpgradeEscrowTo (transactorSession_Contract s) (transactorSession_TransactOpts s) newEscrowLogic.
Definition TransactorSession_UpgradeIBCERC20To (s : ContractTransactorSession W T) (newIBCERC20Logic : Address) :=
  UpgradeIBCERC20To (transactorSession_Contract s) (transactorSession_TransactOpts s) newIBCERC20Logic.
Definition TransactorSession_UpgradeToAndCall (s : ContractTransactorSession W T) (newImplementation : Address) (data : Bytes) :=
  UpgradeToAndCall (transactorSession_Contract s) (transactorSession_TransactOpts s) newImplementation data.

(** All of them. *)
Definition bindings (c : Contract W T) : list binding := [
  Binding _ _ (DEFAULTADMINROLE (Contract_Caller c)); Binding _ _ (DELEGATESENDERROLE (Contract_Caller c));
  Binding _ _ (ERC20CUSTOMIZERROLE (Contract_Caller c)); Binding _ _ (PAUSERROLE (Contract_Caller c));
  Binding _ _ (TOKENOPERATORROLE (Contract_Caller c)); Binding _ _ (UNPAUSERROLE (Contract_Caller c));
  Binding _ _ (UPGRADEINTERFACEVERSION (Contract_Caller c)); Binding _ _ (GetEscrow (Contract_Caller c));
  Binding _ _ (GetEscrowBeacon (Contract_Caller c)); Binding _ _ (GetIBCERC20Beacon (Contract_Caller c));
  Binding _ _ (GetPermit2 (Contract_Caller c)); Binding _ _ (GetRoleAdmin (Contract_Caller c));
  Binding _ _ (HasRole (Contract_Caller c)); Binding _ _ (IbcERC20Contract (Contract_Caller c));
  Binding _ _ (IbcERC20Denom (Contract_Caller c)); Binding _ _ (Ics26 (Contract_Caller c));
  Binding _ _ (IsTokenOperator (Contract_Caller c)); Binding _ _ (Paused (Contract_Caller c));
  Binding _ _ (ProxiableUUID (Contract_Caller c)); Binding _ _ (SupportsInterface (Contract_Caller c));
  Binding _ _ (GrantDelegateSenderRole (Contract_Transactor c));
  Binding _ _ (GrantERC20CustomizerRole (Contract_Transactor c));
  Binding _ _ (GrantPauserRole (Contract_Transactor c)); Binding _ _ (GrantRole (Contract_Transactor c));
  Binding _ _ (GrantTokenOperatorRole (Contract_Transactor c));
  Binding _ _ (GrantUnpauserRole (Contract_Transactor c)); Binding _ _ (Initialize (Contract_Transactor c));
  Binding _ _ (Multicall (Contract_Transactor c)); Binding _ _ (OnAcknowledgementPacket (Contract_Transactor c));
  Binding _ _ (OnRecvPacket (Contract_Transactor c)); Binding _ _ (OnTimeoutPacket (Contract_Transactor c));
  Binding _ _ (Pause (Contract_Transactor c)); Binding _ _ (RenounceRole (Contract_Transactor c));
  Binding _ _ (RevokeDelegateSenderRole (Contract_Transactor c));
  Binding _ _ (RevokeERC20CustomizerRole (Contract_Transactor c));
  Binding _ _ (RevokePauserRole (Contract_Transactor c)); Binding _ _ (RevokeRole (Contract_Transactor c));
  Binding _ _ (RevokeTokenOperatorRole (Contract_Transactor c));
  Binding _ _ (RevokeUnpauserRole (Contract_Transactor c)); Binding _ _ (SendTransfer (Contract_Transactor c));
  Binding _ _ (SendTransferWithPermit2 (Contract_Transactor c));
  Binding _ _ (SendTransferWithSender (Contract_Transactor c));
  Binding _ _ (SetCustomERC20 (Contract_Transactor c)); Binding _ _ (Unpause (Contract_Transactor c));
  Binding _ _ (UpgradeEscrowTo (Contract_Transactor c)); Binding _ _ (UpgradeIBCERC20To (Contract_Transactor c));
  Binding _ _ (UpgradeToAndCall (Contract_Transactor c));
  Binding _ _ (ParseIBCERC20ContractCreated (Contract_Filterer c));
  Binding _ _ (ParseInitialized (Contract_Filterer c)); Binding _ _ (ParsePaused (Contract_Filterer c));
  Binding _ _ (ParseRoleAdminChanged (Contract_Filterer c)); Binding _ _ (ParseRoleGranted (Contract_Filterer c));
  Binding _ _ (ParseRoleRevoked (Contract_Filterer c)); Binding _ _ (ParseUnpaused (Contract_Filterer c));
  Binding _ _ (ParseUpgraded (Contract_Filterer c));
  Binding _ _ (FilterIBCERC20ContractCreated (Contract_Filterer c));
  Binding _ _ (WatchIBCERC20ContractCreated (Contract_Filterer c));
  Binding _ _ (FilterInitialized (Contract_Filterer c)); Binding _ _ (WatchInitialized (Contract_Filterer c));
  Binding _ _ (FilterPaused (Contract_Filterer c)); Binding _ _ (WatchPaused (Contract_Filterer c));
  Binding _ _ (FilterRoleAdminChanged (Contract_Filterer c));
  Binding _ _ (WatchRoleAdminChanged (Contract_Filterer c)); Binding _ _ (FilterRoleGranted (Contract_Filterer c));
  Binding _ _ (WatchRoleGranted (Contract_Filterer c)); Binding _ _ (FilterRoleRevoked (Contract_Filterer c));
  Binding _ _ (WatchRoleRevoked (Contract_Filterer c)); Binding _ _ (FilterUnpaused (Contract_Filterer c));
  Binding _ _ (WatchUnpaused (Contract_Filterer c)); Binding _ _ (FilterUpgraded (Contract_Filterer c));
  Binding _ _ (WatchUpgraded (Contract_Filterer c))].

Lemma ics20_bindings_safe (lib : BindLib W T Backend) address backend c :
  Documented lib -> NewContract lib address backend = inr c -> Forall is_safe (bindings c).
Proof.
  unfold NewContract, bindContract. intros Hl Hc. destruct (GetAbi lib ContractMetaData) as [err|parsed] eqn:Hp; [done|].
  injection Hc as <-. destruct (abi_documented _ _ Hp) as [-> Hb].
  specialize (Hb address backend). set (bc := NewBoundContract _ _ _ _ _ _) in *. clearbody bc. bindings_tac ContractMetaData.
Qed.

End Bindings.
