(* ===== verification/IftBinding.v ===== *)
(** * An IFT token ([src/shared/contracts/ift/ift.go])

    The ABI the binding was generated from, the structs of its arguments and events, and
    the bindings of its methods, its transactions and its events, alone and in sessions. *)

From S2P Require Import Prelude Db Transfer Config World Logic Once GoLib GoFloat EvmClient Bindings.
From S2P Require Import BoundContracts LogIterators.

(** ** The ABI *)

Definition abi_IFTBridge : abi_type := Ttuple [("clientId", Tstring); ("counterpartyIFTAddress", Tstring);
    ("iftSendCallConstructor", Taddress)].

Definition abi_PendingTransfer : abi_type := Ttuple [("sender", Taddress); ("amount", Tuint 256)].

Definition abi_Payload : abi_type := Ttuple [("sourcePort", Tstring); ("destPort", Tstring); ("version", Tstring);
    ("encoding", Tstring); ("value", Tbytes)].

Definition abi_OnAcknowledgementPacketCallback : abi_type := Ttuple [("sourceClient", Tstring);
    ("destinationClient", Tstring); ("sequence", Tuint 64); ("payload", abi_Payload); ("acknowledgement", Tbytes);
    ("relayer", Taddress)].

Definition abi_OnTimeoutPacketCallback : abi_type := Ttuple [("sourceClient", Tstring);
    ("destinationClient", Tstring); ("sequence", Tuint 64); ("payload", abi_Payload); ("relayer", Taddress)].

Definition ContractMetaData : ABI := [
  Function "allowance" [arg "owner" Taddress; arg "spender" Taddress] [arg "" (Tuint 256)] view;
  Function "approve" [arg "spender" Taddress; arg "value" (Tuint 256)] [arg "" Tbool] nonpayable;
  Function "balanceOf" [arg "account" Taddress] [arg "" (Tuint 256)] view;
  Function "decimals" [] [arg "" (Tuint 8)] view;
  Function "getIFTBridge" [arg "clientId" Tstring] [arg "" abi_IFTBridge] view;
  Function "getPendingTransfer" [arg "clientId" Tstring; arg "sequence" (Tuint 64)] [arg "" abi_PendingTransfer] view;
  Function "ics27" [] [arg "" Taddress] view;
  Function "iftMint" [arg "receiver" Taddress; arg "amount" (Tuint 256)] [] nonpayable;
  Function "iftTransfer" [arg "clientId" Tstring; arg "receiver" Tstring; arg "amount" (Tuint 256);
      arg "timeoutTimestamp" (Tuint 64)] [] nonpayable;
  Function "iftTransfer" [arg "clientId" Tstring; arg "receiver" Tstring; arg "amount" (Tuint 256)] [] nonpayable;
  Function "name" [] [arg "" Tstring] view;
  Function "onAckPacket" [arg "success" Tbool; arg "msg_" abi_OnAcknowledgementPacketCallback] [] nonpayable;
  Function "onTimeoutPacket" [arg "msg_" abi_OnTimeoutPacketCallback] [] nonpayable;
  Function "registerIFTBridge" [arg "clientId" Tstring; arg "counterpartyIFTAddress" Tstring;
      arg "iftSendCallConstructor" Taddress] [] nonpayable;
  Function "removeIFTBridge" [arg "clientId" Tstring] [] nonpayable;
  Function "supportsInterface" [arg "interfaceId" (Tfixed 4)] [arg "" Tbool] view;
  Function "symbol" [] [arg "" Tstring] view;
  Function "totalSupply" [] [arg "" (Tuint 256)] view;
  Function "transfer" [arg "to" Taddress; arg "value" (Tuint 256)] [arg "" Tbool] nonpayable;
  Function "transferFrom" [arg "from" Taddress; arg "to" Taddress; arg "value" (Tuint 256)] [arg "" Tbool] nonpayable;
  Event "Approval" [evarg "owner" Taddress true; evarg "spender" Taddress true; evarg "value" (Tuint 256) false];
  Event "IFTBridgeRegistered" [evarg "clientId" Tstring false; evarg "counterpartyIFTAddress" Tstring false;
      evarg "iftSendCallConstructor" Taddress false];
  Event "IFTBridgeRemoved" [evarg "clientId" Tstring false];
  Event "IFTMintReceived" [evarg "clientId" Tstring false; evarg "receiver" Taddress true;
      evarg "amount" (Tuint 256) false];
  Event "IFTTransferCompleted" [evarg "clientId" Tstring false; evarg "sequence" (Tuint 64) false;
      evarg "sender" Taddress true; evarg "amount" (Tuint 256) false];
  Event "IFTTransferInitiated" [evarg "clientId" Tstring false; evarg "sequence" (Tuint 64) false;
      evarg "sender" Taddress true; evarg "receiver" Tstring false; evarg "amount" (Tuint 256) false];
  Event "IFTTransferRefunded" [evarg "clientId" Tstring false; evarg "sequence" (Tuint 64) false;
      evarg "sender" Taddress true; evarg "amount" (Tuint 256) false];
  Event "Initialized" [evarg "version" (Tuint 64) false];
  Event "Transfer" [evarg "from" Taddress true; evarg "to" Taddress true; evarg "value" (Tuint 256) false]
].

(** ** Structs *)

Record IICS26RouterMsgsPayload := mkPayload {
  Payload_SourcePort : string;
  Payload_DestPort : string;
  Payload_Version : string;
  Payload_Encoding : string;
  Payload_Value : Bytes;
}.

#[export, refine] Instance IICS26RouterMsgsPayload_GoType : GoType IICS26RouterMsgsPayload := {|
  go_type_of := Gstruct [("SourcePort", go_type_of string); ("DestPort", go_type_of string);
    ("Version", go_type_of string); ("Encoding", go_type_of string); ("Value", go_type_of Bytes)];
  to_value := fun x => VStruct [to_value (Payload_SourcePort x); to_value (Payload_DestPort x);
    to_value (Payload_Version x); to_value (Payload_Encoding x); to_value (Payload_Value x)];
  of_value := fun v => match v with
    | VStruct [v0; v1; v2; v3; v4] =>
        x0 ← of_value v0; x1 ← of_value v1; x2 ← of_value v2; x3 ← of_value v3; x4 ← of_value v4;
        Some (mkPayload x0 x1 x2 x3 x4)
    | _ => None
    end;
|}.
Proof. all: struct_tac. Defined.

Record IIBCAppCallbacksOnAcknowledgementPacketCallback := mkOnAcknowledgementPacketCallback {
  OnAcknowledgementPacketCallback_SourceClient : string;
  OnAcknowledgementPacketCallback_DestinationClient : string;
  OnAcknowledgementPacketCallback_Sequence : uint 64;
  OnAcknowledgementPacketCallback_Payload : IICS26RouterMsgsPayload;
  OnAcknowledgementPacketCallback_Acknowledgement : Bytes;
  OnAcknowledgementPacketCallback_Relayer : Address;
}.

#[export, refine] Instance IIBCAppCallbacksOnAcknowledgementPacketCallback_GoType : GoType IIBCAppCallbacksOnAcknowledgementPacketCallback := {|
  go_type_of := Gstruct [("SourceClient", go_type_of string); ("DestinationClient", go_type_of string);
    ("Sequence", go_type_of (uint 64)); ("Payload", go_type_of IICS26RouterMsgsPayload);
    ("Acknowledgement", go_type_of Bytes); ("Relayer", go_type_of Address)];
  to_value := fun x => VStruct [to_value (OnAcknowledgementPacketCallback_SourceClient x);
    to_value (OnAcknowledgementPacketCallback_DestinationClient x);
    to_value (OnAcknowledgementPacketCallback_Sequence x); to_value (OnAcknowledgementPacketCallback_Payload x);
    to_value (OnAcknowledgementPacketCallback_Acknowledgement x);
    to_value (OnAcknowledgementPacketCallback_Relayer x)];
  of_value := fun v => match v with
    | VStruct [v0; v1; v2; v3; v4; v5] =>
        x0 ← of_value v0; x1 ← of_value v1; x2 ← of_value v2; x3 ← of_value v3; x4 ← of_value v4; x5 ← of_value v5;
        Some (mkOnAcknowledgementPacketCallback x0 x1 x2 x3 x4 x5)
    | _ => None
    end;
|}.
Proof. all: struct_tac. Defined.

Record IIBCAppCallbacksOnTimeoutPacketCallback := mkOnTimeoutPacketCallback {
  OnTimeoutPacketCallback_SourceClient : string;
  OnTimeoutPacketCallback_DestinationClient : string;
  OnTimeoutPacketCallback_Sequence : uint 64;
  OnTimeoutPacketCallback_Payload : IICS26RouterMsgsPayload;
  OnTimeoutPacketCallback_Relayer : Address;
}.

#[export, refine] Instance IIBCAppCallbacksOnTimeoutPacketCallback_GoType : GoType IIBCAppCallbacksOnTimeoutPacketCallback := {|
  go_type_of := Gstruct [("SourceClient", go_type_of string); ("DestinationClient", go_type_of string);
    ("Sequence", go_type_of (uint 64)); ("Payload", go_type_of IICS26RouterMsgsPayload);
    ("Relayer", go_type_of Address)];
  to_value := fun x => VStruct [to_value (OnTimeoutPacketCallback_SourceClient x);
    to_value (OnTimeoutPacketCallback_DestinationClient x); to_value (OnTimeoutPacketCallback_Sequence x);
    to_value (OnTimeoutPacketCallback_Payload x); to_value (OnTimeoutPacketCallback_Relayer x)];
  of_value := fun v => match v with
    | VStruct [v0; v1; v2; v3; v4] =>
        x0 ← of_value v0; x1 ← of_value v1; x2 ← of_value v2; x3 ← of_value v3; x4 ← of_value v4;
        Some (mkOnTimeoutPacketCallback x0 x1 x2 x3 x4)
    | _ => None
    end;
|}.
Proof. all: struct_tac. Defined.

Record IIFTMsgsIFTBridge := mkIFTBridge {
  IFTBridge_ClientId : string;
  IFTBridge_CounterpartyIFTAddress : string;
  IFTBridge_IftSendCallConstructor : Address;
}.

#[export, refine] Instance IIFTMsgsIFTBridge_GoType : GoType IIFTMsgsIFTBridge := {|
  go_type_of := Gstruct [("ClientId", go_type_of string); ("CounterpartyIFTAddress", go_type_of string);
    ("IftSendCallConstructor", go_type_of Address)];
  to_value := fun x => VStruct [to_value (IFTBridge_ClientId x); to_value (IFTBridge_CounterpartyIFTAddress x);
    to_value (IFTBridge_IftSendCallConstructor x)];
  of_value := fun v => match v with
    | VStruct [v0; v1; v2] =>
        x0 ← of_value v0; x1 ← of_value v1; x2 ← of_value v2; Some (mkIFTBridge x0 x1 x2)
    | _ => None
    end;
|}.
Proof. all: struct_tac. Defined.

Record IIFTMsgsPendingTransfer := mkPendingTransfer {
  PendingTransfer_Sender : Address;
  PendingTransfer_Amount : BigInt;
}.

#[export, refine] Instance IIFTMsgsPendingTransfer_GoType : GoType IIFTMsgsPendingTransfer := {|
  go_type_of := Gstruct [("Sender", go_type_of Address); ("Amount", go_type_of BigInt)];
  to_value := fun x => VStruct [to_value (PendingTransfer_Sender x); to_value (PendingTransfer_Amount x)];
  of_value := fun v => match v with
    | VStruct [v0; v1] =>
        x0 ← of_value v0; x1 ← of_value v1; Some (mkPendingTransfer x0 x1)
    | _ => None
    end;
|}.
Proof. all: struct_tac. Defined.

(** ** Events *)

Record ContractApproval := mkContractApproval {
  Approval_Owner : Address;
  Approval_Spender : Address;
  Approval_Value : BigInt;
  Approval_Raw : EthLog;
}.

#[export, refine] Instance ContractApproval_EventType : EventType ContractApproval := {|
  event_fields := [("Owner", go_type_of Address); ("Spender", go_type_of Address); ("Value", go_type_of BigInt)];
  of_fields := fun log vs => match vs with
    | [v0; v1; v2] =>
        x0 ← of_value v0; x1 ← of_value v1; x2 ← of_value v2; Some (mkContractApproval x0 x1 x2 log)
    | _ => None
    end;
|}.
Proof. all: event_tac. Defined.

Record ContractIFTBridgeRegistered := mkContractIFTBridgeRegistered {
  IFTBridgeRegistered_ClientId : string;
  IFTBridgeRegistered_CounterpartyIFTAddress : string;
  IFTBridgeRegistered_IftSendCallConstructor : Address;
  IFTBridgeRegistered_Raw : EthLog;
}.

#[export, refine] Instance ContractIFTBridgeRegistered_EventType : EventType ContractIFTBridgeRegistered := {|
  event_fields := [("ClientId", go_type_of string); ("CounterpartyIFTAddress", go_type_of string);
    ("IftSendCallConstructor", go_type_of Address)];
  of_fields := fun log vs => match vs with
    | [v0; v1; v2] =>
        x0 ← of_value v0; x1 ← of_value v1; x2 ← of_value v2; Some (mkContractIFTBridgeRegistered x0 x1 x2 log)
    | _ => None
    end;
|}.
Proof. all: event_tac. Defined.

Record ContractIFTBridgeRemoved := mkContractIFTBridgeRemoved {
  IFTBridgeRemoved_ClientId : string;
  IFTBridgeRemoved_Raw : EthLog;
}.

#[export, refine] Instance ContractIFTBridgeRemoved_EventType : EventType ContractIFTBridgeRemoved := {|
  event_fields := [("ClientId", go_type_of string)];
  of_fields := fun log vs => match vs with
    | [v0] =>
        x0 ← of_value v0; Some (mkContractIFTBridgeRemoved x0 log)
    | _ => None
    end;
|}.
Proof. all: event_tac. Defined.

Record ContractIFTMintReceived := mkContractIFTMintReceived {
  IFTMintReceived_ClientId : string;
  IFTMintReceived_Receiver : Address;
  IFTMintReceived_Amount : BigInt;
  IFTMintReceived_Raw : EthLog;
}.

#[export, refine] Instance ContractIFTMintReceived_EventType : EventType ContractIFTMintReceived := {|
  event_fields := [("ClientId", go_type_of string); ("Receiver", go_type_of Address);
    ("Amount", go_type_of BigInt)];
  of_fields := fun log vs => match vs with
    | [v0; v1; v2] =>
        x0 ← of_value v0; x1 ← of_value v1; x2 ← of_value v2; Some (mkContractIFTMintReceived x0 x1 x2 log)
    | _ => None
    end;
|}.
Proof. all: event_tac. Defined.

Record ContractIFTTransferCompleted := mkContractIFTTransferCompleted {
  IFTTransferCompleted_ClientId : string;
  IFTTransferCompleted_Sequence : uint 64;
  IFTTransferCompleted_Sender : Address;
  IFTTransferCompleted_Amount : BigInt;
  IFTTransferCompleted_Raw : EthLog;
}.

#[export, refine] Instance ContractIFTTransferCompleted_EventType : EventType ContractIFTTransferCompleted := {|
  event_fields := [("ClientId", go_type_of string); ("Sequence", go_type_of (uint 64));
    ("Sender", go_type_of Address); ("Amount", go_type_of BigInt)];
  of_fields := fun log vs => match vs with
    | [v0; v1; v2; v3] =>
        x0 ← of_value v0; x1 ← of_value v1; x2 ← of_value v2; x3 ← of_value v3;
        Some (mkContractIFTTransferCompleted x0 x1 x2 x3 log)
    | _ => None
    end;
|}.
Proof. all: event_tac. Defined.

Record ContractIFTTransferInitiated := mkContractIFTTransferInitiated {
  IFTTransferInitiated_ClientId : string;
  IFTTransferInitiated_Sequence : uint 64;
  IFTTransferInitiated_Sender : Address;
  IFTTransferInitiated_Receiver : string;
  IFTTransferInitiated_Amount : BigInt;
  IFTTransferInitiated_Raw : EthLog;
}.

#[export, refine] Instance ContractIFTTransferInitiated_EventType : EventType ContractIFTTransferInitiated := {|
  event_fields := [("ClientId", go_type_of string); ("Sequence", go_type_of (uint 64));
    ("Sender", go_type_of Address); ("Receiver", go_type_of string); ("Amount", go_type_of BigInt)];
  of_fields := fun log vs => match vs with
    | [v0; v1; v2; v3; v4] =>
        x0 ← of_value v0; x1 ← of_value v1; x2 ← of_value v2; x3 ← of_value v3; x4 ← of_value v4;
        Some (mkContractIFTTransferInitiated x0 x1 x2 x3 x4 log)
    | _ => None
    end;
|}.
Proof. all: event_tac. Defined.

Record ContractIFTTransferRefunded := mkContractIFTTransferRefunded {
  IFTTransferRefunded_ClientId : string;
  IFTTransferRefunded_Sequence : uint 64;
  IFTTransferRefunded_Sender : Address;
  IFTTransferRefunded_Amount : BigInt;
  IFTTransferRefunded_Raw : EthLog;
}.

#[export, refine] Instance ContractIFTTransferRefunded_EventType : EventType ContractIFTTransferRefunded := {|
  event_fields := [("ClientId", go_type_of string); ("Sequence", go_type_of (uint 64));
    ("Sender", go_type_of Address); ("Amount", go_type_of BigInt)];
  of_fields := fun log vs => match vs with
    | [v0; v1; v2; v3] =>
        x0 ← of_value v0; x1 ← of_value v1; x2 ← of_value v2; x3 ← of_value v3;
        Some (mkContractIFTTransferRefunded x0 x1 x2 x3 log)
    | _ => None
    end;
|}.
Proof. all: event_tac. Defined.

Record ContractInitialized := mkContractInitialized {
  Initialized_Version : uint 64;
  Initialized_Raw : EthLog;
}.

#[export, refine] Instance ContractInitialized_EventType : EventType ContractInitialized := {|
  event_fields := [("Version", go_type_of (uint 64))];
  of_fields := fun log vs => match vs with
    | [v0] =>
        x0 ← of_value v0; Some (mkContractInitialized x0 log)
    | _ => None
    end;
|}.
Proof. all: event_tac. Defined.

Record ContractTransfer := mkContractTransfer {
  Transfer_From : Address;
  Transfer_To : Address;
  Transfer_Value : BigInt;
  Transfer_Raw : EthLog;
}.

#[export, refine] Instance ContractTransfer_EventType : EventType ContractTransfer := {|
  event_fields := [("From", go_type_of Address); ("To", go_type_of Address); ("Value", go_type_of BigInt)];
  of_fields := fun log vs => match vs with
    | [v0; v1; v2] =>
        x0 ← of_value v0; x1 ← of_value v1; x2 ← of_value v2; Some (mkContractTransfer x0 x1 x2 log)
    | _ => None
    end;
|}.
Proof. all: event_tac. Defined.

(** ** Bindings *)

Section Bindings.
Context {W : Type} {T : Geth} {Backend : Type}.

Definition bindContract (lib : BindLib W T Backend) (address : Address)
    (caller transactor filterer : option Backend) : error + BoundContract W T :=
  match GetAbi lib ContractMetaData with
  | inl err => inl err
  | inr parsed => inr (NewBoundContract lib address parsed caller transactor filterer)
  end.

Definition NewContract (lib : BindLib W T Backend) (address : Address)
    (backend : Backend) : error + Contract W T :=
  match bindContract lib address (Some backend) (Some backend) (Some backend) with
  | inl err => inl err
  | inr contract => inr (mkContract (mkContractCaller contract) (mkContractTransactor contract) (mkContractFilterer contract))
  end.

Definition NewContractCaller (lib : BindLib W T Backend) (address : Address)
    (caller : Backend) : error + ContractCaller W T :=
  match bindContract lib address (Some caller) None None with
  | inl err => inl err
  | inr contract => inr (mkContractCaller contract)
  end.

Definition NewContractTransactor (lib : BindLib W T Backend) (address : Address)
    (transactor : Backend) : error + ContractTransactor W T :=
  match bindContract lib address None (Some transactor) None with
  | inl err => inl err
  | inr contract => inr (mkContractTransactor contract)
  end.

Definition NewContractFilterer (lib : BindLib W T Backend) (address : Address)
    (filterer : Backend) : error + ContractFilterer W T :=
  match bindContract lib address None None (Some filterer) with
  | inl err => inl err
  | inr contract => inr (mkContractFilterer contract)
  end.

(** Calls. *)
Section Calls.
Context (contract : ContractCaller W T) (opts : CallOpts T).

Definition Allowance (owner : Address) (spender : Address) : W -> res BigInt * W :=
  callOut contract opts "allowance" [to_value owner; to_value spender].

Definition BalanceOf (account : Address) : W -> res BigInt * W :=
  callOut contract opts "balanceOf" [to_value account].

Definition Decimals : W -> res (uint 8) * W := callOut contract opts "decimals" [].

Definition GetIFTBridge (clientId : string) : W -> res IIFTMsgsIFTBridge * W :=
  callOut contract opts "getIFTBridge" [to_value clientId].

Definition GetPendingTransfer (clientId : string) (sequence : uint 64) : W -> res IIFTMsgsPendingTransfer * W :=
  callOut contract opts "getPendingTransfer" [to_value clientId; to_value sequence].

Definition Ics27 : W -> res Address * W := callOut contract opts "ics27" [].

Definition Name : W -> res string * W := callOut contract opts "name" [].

Definition SupportsInterface (interfaceId : bytesN 4) : W -> res bool * W :=
  callOut contract opts "supportsInterface" [to_value interfaceId].

Definition Symbol : W -> res string * W := callOut contract opts "symbol" [].

Definition TotalSupply : W -> res BigInt * W := callOut contract opts "totalSupply" [].

End Calls.

(** Transactions. *)
Section Transactions.
Context (contract : ContractTransactor W T) (opts : TransactOpts T).

Definition Approve (spender : Address) (value : BigInt) : W -> res (Transaction T) * W :=
  transact contract opts "approve" [to_value spender; to_value value].

Definition IftMint (receiver : Address) (amount : BigInt) : W -> res (Transaction T) * W :=
  transact contract opts "iftMint" [to_value receiver; to_value amount].

Definition IftTransfer (clientId : string) (receiver : string) (amount : BigInt)
    (timeoutTimestamp : uint 64) : W -> res (Transaction T) * W :=
  transact contract opts "iftTransfer" [to_value clientId; to_value receiver; to_value amount; to_value timeoutTimestamp].

Definition IftTransfer0 (clientId : string) (receiver : string) (amount : BigInt) : W -> res (Transaction T) * W :=
  transact contract opts "iftTransfer0" [to_value clientId; to_value receiver; to_value amount].

Definition OnAckPacket (success : bool) (msg_ : IIBCAppCallbacksOnAcknowledgementPacketCallback) : W -> res
    (Transaction T) * W := transact contract opts "onAckPacket" [to_value success; to_value msg_].

Definition OnTimeoutPacket (msg_ : IIBCAppCallbacksOnTimeoutPacketCallback) : W -> res (Transaction T) * W :=
  transact contract opts "onTimeoutPacket" [to_value msg_].

Definition RegisterIFTBridge (clientId : string) (counterpartyIFTAddress : string)
    (iftSendCallConstructor : Address) : W -> res (Transaction T) * W :=
  transact contract opts "registerIFTBridge" [to_value clientId; to_value counterpartyIFTAddress; to_value iftSendCallConstructor].

Definition RemoveIFTBridge (clientId : string) : W -> res (Transaction T) * W :=
  transact contract opts "removeIFTBridge" [to_value clientId].

Definition Transfer (to : Address) (value : BigInt) : W -> res (Transaction T) * W :=
  transact contract opts "transfer" [to_value to; to_value value].

Definition TransferFrom (from : Address) (to : Address) (value : BigInt) : W -> res (Transaction T) * W :=
  transact contract opts "transferFrom" [to_value from; to_value to; to_value value].

End Transactions.

(** Events. *)
Section Logs.
Context (contract : ContractFilterer W T) (log : EthLog).

Definition ParseApproval : res ContractApproval := parse contract "Approval" log.

Definition ParseIFTBridgeRegistered : res ContractIFTBridgeRegistered := parse contract "IFTBridgeRegistered" log.

Definition ParseIFTBridgeRemoved : res ContractIFTBridgeRemoved := parse contract "IFTBridgeRemoved" log.

Definition ParseIFTMintReceived : res ContractIFTMintReceived := parse contract "IFTMintReceived" log.

Definition ParseIFTTransferCompleted : res ContractIFTTransferCompleted :=
  parse contract "IFTTransferCompleted" log.

Definition ParseIFTTransferInitiated : res ContractIFTTransferInitiated :=
  parse contract "IFTTransferInitiated" log.

Definition ParseIFTTransferRefunded : res ContractIFTTransferRefunded := parse contract "IFTTransferRefunded" log.

Definition ParseInitialized : res ContractInitialized := parse contract "Initialized" log.

Definition ParseTransfer : res ContractTransfer := parse contract "Transfer" log.

End Logs.

(** Iterators over past events. *)
Definition ContractApprovalIterator (W : Type) (T : Geth) : Type := LogIterator W T ContractApproval.
Definition ApprovalIterator_Next (it : ContractApprovalIterator W T) := it_Next it.
Definition ApprovalIterator_Error (it : ContractApprovalIterator W T) := it_Error it.
Definition ApprovalIterator_Close (it : ContractApprovalIterator W T) := it_Close it.

Definition ContractIFTBridgeRegisteredIterator (W : Type) (T : Geth) : Type :=
  LogIterator W T ContractIFTBridgeRegistered.
Definition IFTBridgeRegisteredIterator_Next (it : ContractIFTBridgeRegisteredIterator W T) := it_Next it.
Definition IFTBridgeRegisteredIterator_Error (it : ContractIFTBridgeRegisteredIterator W T) := it_Error it.
Definition IFTBridgeRegisteredIterator_Close (it : ContractIFTBridgeRegisteredIterator W T) := it_Close it.

Definition ContractIFTBridgeRemovedIterator (W : Type) (T : Geth) : Type :=
  LogIterator W T ContractIFTBridgeRemoved.
Definition IFTBridgeRemovedIterator_Next (it : ContractIFTBridgeRemovedIterator W T) := it_Next it.
Definition IFTBridgeRemovedIterator_Error (it : ContractIFTBridgeRemovedIterator W T) := it_Error it.
Definition IFTBridgeRemovedIterator_Close (it : ContractIFTBridgeRemovedIterator W T) := it_Close it.

Definition ContractIFTMintReceivedIterator (W : Type) (T : Geth) : Type :=
  LogIterator W T ContractIFTMintReceived.
Definition IFTMintReceivedIterator_Next (it : ContractIFTMintReceivedIterator W T) := it_Next it.
Definition IFTMintReceivedIterator_Error (it : ContractIFTMintReceivedIterator W T) := it_Error it.
Definition IFTMintReceivedIterator_Close (it : ContractIFTMintReceivedIterator W T) := it_Close it.

Definition ContractIFTTransferCompletedIterator (W : Type) (T : Geth) : Type :=
  LogIterator W T ContractIFTTransferCompleted.
Definition IFTTransferCompletedIterator_Next (it : ContractIFTTransferCompletedIterator W T) := it_Next it.
Definition IFTTransferCompletedIterator_Error (it : ContractIFTTransferCompletedIterator W T) := it_Error it.
Definition IFTTransferCompletedIterator_Close (it : ContractIFTTransferCompletedIterator W T) := it_Close it.

Definition ContractIFTTransferInitiatedIterator (W : Type) (T : Geth) : Type :=
  LogIterator W T ContractIFTTransferInitiated.
Definition IFTTransferInitiatedIterator_Next (it : ContractIFTTransferInitiatedIterator W T) := it_Next it.
Definition IFTTransferInitiatedIterator_Error (it : ContractIFTTransferInitiatedIterator W T) := it_Error it.
Definition IFTTransferInitiatedIterator_Close (it : ContractIFTTransferInitiatedIterator W T) := it_Close it.

Definition ContractIFTTransferRefundedIterator (W : Type) (T : Geth) : Type :=
  LogIterator W T ContractIFTTransferRefunded.
Definition IFTTransferRefundedIterator_Next (it : ContractIFTTransferRefundedIterator W T) := it_Next it.
Definition IFTTransferRefundedIterator_Error (it : ContractIFTTransferRefundedIterator W T) := it_Error it.
Definition IFTTransferRefundedIterator_Close (it : ContractIFTTransferRefundedIterator W T) := it_Close it.

Definition ContractInitializedIterator (W : Type) (T : Geth) : Type := LogIterator W T ContractInitialized.
Definition InitializedIterator_Next (it : ContractInitializedIterator W T) := it_Next it.
Definition InitializedIterator_Error (it : ContractInitializedIterator W T) := it_Error it.
Definition InitializedIterator_Close (it : ContractInitializedIterator W T) := it_Close it.

Definition ContractTransferIterator (W : Type) (T : Geth) : Type := LogIterator W T ContractTransfer.
Definition TransferIterator_Next (it : ContractTransferIterator W T) := it_Next it.
Definition TransferIterator_Error (it : ContractTransferIterator W T) := it_Error it.
Definition TransferIterator_Close (it : ContractTransferIterator W T) := it_Close it.

(** Filters and watches. *)
Section Filters.
Context (contract : ContractFilterer W T).

Definition FilterApproval (opts : FilterOpts T) (owner : list Address) (spender : list Address)
    : W -> res (ContractApprovalIterator W T) * W :=
  filterLogs contract opts "Approval" [rule owner; rule spender].

Definition WatchApproval (opts : WatchOpts T) (owner : list Address) (spender : list Address)
    : W -> res (list watched -> list ContractApproval * watch_state) * W :=
  watchLogs contract opts "Approval" [rule owner; rule spender].

Definition FilterIFTBridgeRegistered (opts : FilterOpts T)
    : W -> res (ContractIFTBridgeRegisteredIterator W T) * W :=
  filterLogs contract opts "IFTBridgeRegistered" [].

Definition WatchIFTBridgeRegistered (opts : WatchOpts T)
    : W -> res (list watched -> list ContractIFTBridgeRegistered * watch_state) * W :=
  watchLogs contract opts "IFTBridgeRegistered" [].

Definition FilterIFTBridgeRemoved (opts : FilterOpts T) : W -> res (ContractIFTBridgeRemovedIterator W T) * W :=
  filterLogs contract opts "IFTBridgeRemoved" [].

Definition WatchIFTBridgeRemoved (opts : WatchOpts T)
    : W -> res (list watched -> list ContractIFTBridgeRemoved * watch_state) * W :=
  watchLogs contract opts "IFTBridgeRemoved" [].

Definition FilterIFTMintReceived (opts : FilterOpts T) (receiver : list Address)
    : W -> res (ContractIFTMintReceivedIterator W T) * W :=
  filterLogs contract opts "IFTMintReceived" [rule receiver].

Definition WatchIFTMintReceived (opts : WatchOpts T) (receiver : list Address)
    : W -> res (list watched -> list ContractIFTMintReceived * watch_state) * W :=
  watchLogs contract opts "IFTMintReceived" [rule receiver].

Definition FilterIFTTransferCompleted (opts : FilterOpts T) (sender : list Address)
    : W -> res (ContractIFTTransferCompletedIterator W T) * W :=
  filterLogs contract opts "IFTTransferCompleted" [rule sender].

Definition WatchIFTTransferCompleted (opts : WatchOpts T) (sender : list Address)
    : W -> res (list watched -> list ContractIFTTransferCompleted * watch_state) * W :=
  watchLogs contract opts "IFTTransferCompleted" [rule sender].

Definition FilterIFTTransferInitiated (opts : FilterOpts T) (sender : list Address)
    : W -> res (ContractIFTTransferInitiatedIterator W T) * W :=
  filterLogs contract opts "IFTTransferInitiated" [rule sender].

Definition WatchIFTTransferInitiated (opts : WatchOpts T) (sender : list Address)
    : W -> res (list watched -> list ContractIFTTransferInitiated * watch_state) * W :=
  watchLogs contract opts "IFTTransferInitiated" [rule sender].

Definition FilterIFTTransferRefunded (opts : FilterOpts T) (sender : list Address)
    : W -> res (ContractIFTTransferRefundedIterator W T) * W :=
  filterLogs contract opts "IFTTransferRefunded" [rule sender].

Definition WatchIFTTransferRefunded (opts : WatchOpts T) (sender : list Address)
    : W -> res (list watched -> list ContractIFTTransferRefunded * watch_state) * W :=
  watchLogs contract opts "IFTTransferRefunded" [rule sender].

Definition FilterInitialized (opts : FilterOpts T) : W -> res (ContractInitializedIterator W T) * W :=
  filterLogs contract opts "Initialized" [].

Definition WatchInitialized (opts : WatchOpts T)
    : W -> res (list watched -> list ContractInitialized * watch_state) * W :=
  watchLogs contract opts "Initialized" [].

Definition FilterTransfer (opts : FilterOpts T) (from : list Address) (to : list Address)
    : W -> res (ContractTransferIterator W T) * W :=
  filterLogs contract opts "Transfer" [rule from; rule to].

Definition WatchTransfer (opts : WatchOpts T) (from : list Address) (to : list Address)
    : W -> res (list watched -> list ContractTransfer * watch_state) * W :=
  watchLogs contract opts "Transfer" [rule from; rule to].

End Filters.

(** Sessions: the bindings with the options of the session. *)
Definition Session_Allowance (s : ContractSession W T) (owner : Address) (spender : Address) :=
  Allowance (Contract_Caller (session_Contract s)) (session_CallOpts s) owner spender.
Definition Session_BalanceOf (s : ContractSession W T) (account : Address) :=
  BalanceOf (Contract_Caller (session_Contract s)) (session_CallOpts s) account.
Definition Session_Decimals (s : ContractSession W T) :=
  Decimals (Contract_Caller (session_Contract s)) (session_CallOpts s).
Definition Session_GetIFTBridge (s : ContractSession W T) (clientId : string) :=
  GetIFTBridge (Contract_Caller (session_Contract s)) (session_CallOpts s) clientId.
Definition Session_GetPendingTransfer (s : ContractSession W T) (clientId : string) (sequence : uint 64) :=
  GetPendingTransfer (Contract_Caller (session_Contract s)) (session_CallOpts s) clientId sequence.
Definition Session_Ics27 (s : ContractSession W T) :=
  Ics27 (Contract_Caller (session_Contract s)) (session_CallOpts s).
Definition Session_Name (s : ContractSession W T) :=
  Name (Contract_Caller (session_Contract s)) (session_CallOpts s).
Definition Session_SupportsInterface (s : ContractSession W T) (interfaceId : bytesN 4) :=
  SupportsInterface (Contract_Caller (session_Contract s)) (session_CallOpts s) interfaceId.
Definition Session_Symbol (s : ContractSession W T) :=
  Symbol (Contract_Caller (session_Contract s)) (session_CallOpts s).
Definition Session_TotalSupply (s : ContractSession W T) :=
  TotalSupply (Contract_Caller (session_Contract s)) (session_CallOpts s).
Definition Session_Approve (s : ContractSession W T) (spender : Address) (value : BigInt) :=
  Approve (Contract_Transactor (session_Contract s)) (session_TransactOpts s) spender value.
Definition Session_IftMint (s : ContractSession W T) (receiver : Address) (amount : BigInt) :=
  IftMint (Contract_Transactor (session_Contract s)) (session_TransactOpts s) receiver amount.
Definition Session_IftTransfer (s : ContractSession W T) (clientId : string) (receiver : string) (amount : BigInt) (timeoutTimestamp : uint 64) :=
  IftTransfer (Contract_Transactor (session_Contract s)) (session_TransactOpts s) clientId receiver amount timeoutTimestamp.
Definition Session_IftTransfer0 (s : ContractSession W T) (clientId : string) (receiver : string) (amount : BigInt) :=
  IftTransfer0 (Contract_Transactor (session_Contract s)) (session_TransactOpts s) clientId receiver amount.
Definition Session_OnAckPacket (s : ContractSession W T) (success : bool) (msg_ : IIBCAppCallbacksOnAcknowledgementPacketCallback) :=
  OnAckPacket (Contract_Transactor (session_Contract s)) (session_TransactOpts s) success msg_.
Definition Session_OnTimeoutPacket (s : ContractSession W T) (msg_ : IIBCAppCallbacksOnTimeoutPacketCallback) :=
  OnTimeoutPacket (Contract_Transactor (session_Contract s)) (session_TransactOpts s) msg_.
Definition Session_RegisterIFTBridge (s : ContractSession W T) (clientId : string) (counterpartyIFTAddress : string) (iftSendCallConstructor : Address) :=
  RegisterIFTBridge (Contract_Transactor (session_Contract s)) (session_TransactOpts s) clientId counterpartyIFTAddress iftSendCallConstructor.
Definition Session_RemoveIFTBridge (s : ContractSession W T) (clientId : string) :=
  RemoveIFTBridge (Contract_Transactor (session_Contract s)) (session_TransactOpts s) clientId.
Definition Session_Transfer (s : ContractSession W T) (to : Address) (value : BigInt) :=
  Transfer (Contract_Transactor (session_Contract s)) (session_TransactOpts s) to value.
Definition Session_TransferFrom (s : ContractSession W T) (from : Address) (to : Address) (value : BigInt) :=
  TransferFrom (Contract_Transactor (session_Contract s)) (session_TransactOpts s) from to value.

Definition CallerSession_Allowance (s : ContractCallerSession W T) (owner : Address) (spender : Address) :=
  Allowance (callerSession_Contract s) (callerSession_CallOpts s) owner spender.
Definition CallerSession_BalanceOf (s : ContractCallerSession W T) (account : Address) :=
  BalanceOf (callerSession_Contract s) (callerSession_CallOpts s) account.
Definition CallerSession_Decimals (s : ContractCallerSession W T) :=
  Decimals (callerSession_Contract s) (callerSession_CallOpts s).
Definition CallerSession_GetIFTBridge (s : ContractCallerSession W T) (clientId : string) :=
  GetIFTBridge (callerSession_Contract s) (callerSession_CallOpts s) clientId.
Definition CallerSession_GetPendingTransfer (s : ContractCallerSession W T) (clientId : string) (sequence : uint 64) :=
  GetPendingTransfer (callerSession_Contract s) (callerSession_CallOpts s) clientId sequence.
Definition CallerSession_Ics27 (s : ContractCallerSession W T) :=
  Ics27 (callerSession_Contract s) (callerSession_CallOpts s).
Definition CallerSession_Name (s : ContractCallerSession W T) :=
  Name (callerSession_Contract s) (callerSession_CallOpts s).
Definition CallerSession_SupportsInterface (s : ContractCallerSession W T) (interfaceId : bytesN 4) :=
  SupportsInterface (callerSession_Contract s) (callerSession_CallOpts s) interfaceId.
Definition CallerSession_Symbol (s : ContractCallerSession W T) :=
  Symbol (callerSession_Contract s) (callerSession_CallOpts s).
Definition CallerSession_TotalSupply (s : ContractCallerSession W T) :=
  TotalSupply (callerSession_Contract s) (callerSession_CallOpts s).

Definition TransactorSession_Approve (s : ContractTransactorSession W T) (spender : Address) (value : BigInt) :=
  Approve (transactorSession_Contract s) (transactorSession_TransactOpts s) spender value.
Definition TransactorSession_IftMint (s : ContractTransactorSession W T) (receiver : Address) (amount : BigInt) :=
  IftMint (transactorSession_Contract s) (transactorSession_TransactOpts s) receiver amount.
Definition TransactorSession_IftTransfer (s : ContractTransactorSession W T) (clientId : string) (receiver : string) (amount : BigInt) (timeoutTimestamp : uint 64) :=
  IftTransfer (transactorSession_Contract s) (transactorSession_TransactOpts s) clientId receiver amount timeoutTimestamp.
Definition TransactorSession_IftTransfer0 (s : ContractTransactorSession W T) (clientId : string) (receiver : string) (amount : BigInt) :=
  IftTransfer0 (transactorSession_Contract s) (transactorSession_TransactOpts s) clientId receiver amount.
Definition TransactorSession_OnAckPacket (s : ContractTransactorSession W T) (success : bool) (msg_ : IIBCAppCallbacksOnAcknowledgementPacketCallback) :=
  OnAckPacket (transactorSession_Contract s) (transactorSession_TransactOpts s) success msg_.
Definition TransactorSession_OnTimeoutPacket (s : ContractTransactorSession W T) (msg_ : IIBCAppCallbacksOnTimeoutPacketCallback) :=
  OnTimeoutPacket (transactorSession_Contract s) (transactorSession_TransactOpts s) msg_.
Definition TransactorSession_RegisterIFTBridge (s : ContractTransactorSession W T) (clientId : string) (counterpartyIFTAddress : string) (iftSendCallConstructor : Address) :=
  RegisterIFTBridge (transactorSession_Contract s) (transactorSession_TransactOpts s) clientId counterpartyIFTAddress iftSendCallConstructor.
Definition TransactorSession_RemoveIFTBridge (s : ContractTransactorSession W T) (clientId : string) :=
  RemoveIFTBridge (transactorSession_Contract s) (transactorSession_TransactOpts s) clientId.
Definition TransactorSession_Transfer (s : ContractTransactorSession W T) (to : Address) (value : BigInt) :=
  Transfer (transactorSession_Contract s) (transactorSession_TransactOpts s) to value.
Definition TransactorSession_TransferFrom (s : ContractTransactorSession W T) (from : Address) (to : Address) (value : BigInt) :=
  TransferFrom (transactorSession_Contract s) (transactorSession_TransactOpts s) from to value.

(** All of them. *)
Definition bindings (c : Contract W T) : list binding := [
  Binding _ _ (Allowance (Contract_Caller c)); Binding _ _ (BalanceOf (Contract_Caller c));
  Binding _ _ (Decimals (Contract_Caller c)); Binding _ _ (GetIFTBridge (Contract_Caller c));
  Binding _ _ (GetPendingTransfer (Contract_Caller c)); Binding _ _ (Ics27 (Contract_Caller c));
  Binding _ _ (Name (Contract_Caller c)); Binding _ _ (SupportsInterface (Contract_Caller c));
  Binding _ _ (Symbol (Contract_Caller c)); Binding _ _ (TotalSupply (Contract_Caller c));
  Binding _ _ (Approve (Contract_Transactor c)); Binding _ _ (IftMint (Contract_Transactor c));
  Binding _ _ (IftTransfer (Contract_Transactor c)); Binding _ _ (IftTransfer0 (Contract_Transactor c));
  Binding _ _ (OnAckPacket (Contract_Transactor c)); Binding _ _ (OnTimeoutPacket (Contract_Transactor c));
  Binding _ _ (RegisterIFTBridge (Contract_Transactor c)); Binding _ _ (RemoveIFTBridge (Contract_Transactor c));
  Binding _ _ (Transfer (Contract_Transactor c)); Binding _ _ (TransferFrom (Contract_Transactor c));
  Binding _ _ (ParseApproval (Contract_Filterer c)); Binding _ _ (ParseIFTBridgeRegistered (Contract_Filterer c));
  Binding _ _ (ParseIFTBridgeRemoved (Contract_Filterer c));
  Binding _ _ (ParseIFTMintReceived (Contract_Filterer c));
  Binding _ _ (ParseIFTTransferCompleted (Contract_Filterer c));
  Binding _ _ (ParseIFTTransferInitiated (Contract_Filterer c));
  Binding _ _ (ParseIFTTransferRefunded (Contract_Filterer c));
  Binding _ _ (ParseInitialized (Contract_Filterer c)); Binding _ _ (ParseTransfer (Contract_Filterer c));
  Binding _ _ (FilterApproval (Contract_Filterer c)); Binding _ _ (WatchApproval (Contract_Filterer c));
  Binding _ _ (FilterIFTBridgeRegistered (Contract_Filterer c));
  Binding _ _ (WatchIFTBridgeRegistered (Contract_Filterer c));
  Binding _ _ (FilterIFTBridgeRemoved (Contract_Filterer c));
  Binding _ _ (WatchIFTBridgeRemoved (Contract_Filterer c));
  Binding _ _ (FilterIFTMintReceived (Contract_Filterer c));
  Binding _ _ (WatchIFTMintReceived (Contract_Filterer c));
  Binding _ _ (FilterIFTTransferCompleted (Contract_Filterer c));
  Binding _ _ (WatchIFTTransferCompleted (Contract_Filterer c));
  Binding _ _ (FilterIFTTransferInitiated (Contract_Filterer c));
  Binding _ _ (WatchIFTTransferInitiated (Contract_Filterer c));
  Binding _ _ (FilterIFTTransferRefunded (Contract_Filterer c));
  Binding _ _ (WatchIFTTransferRefunded (Contract_Filterer c));
  Binding _ _ (FilterInitialized (Contract_Filterer c)); Binding _ _ (WatchInitialized (Contract_Filterer c));
  Binding _ _ (FilterTransfer (Contract_Filterer c)); Binding _ _ (WatchTransfer (Contract_Filterer c))].

Lemma ift_bindings_safe (lib : BindLib W T Backend) address backend c :
  Documented lib -> NewContract lib address backend = inr c -> Forall is_safe (bindings c).
Proof.
  unfold NewContract, bindContract. intros Hl Hc. destruct (GetAbi lib ContractMetaData) as [err|parsed] eqn:Hp; [done|].
  injection Hc as <-. destruct (abi_documented _ _ Hp) as [-> Hb].
  specialize (Hb address backend). set (bc := NewBoundContract _ _ _ _ _ _) in *. clearbody bc. bindings_tac ContractMetaData.
Qed.

End Bindings.
