(* ===== verification/Erc20Binding.v ===== *)
(** * An ERC20 token ([src/shared/contracts/erc20/erc20.go])

    The ABI the binding was generated from, the structs of its arguments and events, and
    the bindings of its methods, its transactions and its events, alone and in sessions. *)

From S2P Require Import Prelude Db Transfer Config World Logic Once GoLib GoFloat EvmClient Bindings.
From S2P Require Import BoundContracts LogIterators.

(** ** The ABI *)

Definition ContractMetaData : ABI := [
  Function "allowance" [arg "owner" Taddress; arg "spender" Taddress] [arg "" (Tuint 256)] view;
  Function "approve" [arg "spender" Taddress; arg "value" (Tuint 256)] [arg "" Tbool] nonpayable;
  Function "balanceOf" [arg "account" Taddress] [arg "" (Tuint 256)] view;
  Function "decimals" [] [arg "" (Tuint 8)] view;
  Function "name" [] [arg "" Tstring] view;
  Function "symbol" [] [arg "" Tstring] view;
  Function "totalSupply" [] [arg "" (Tuint 256)] view;
  Function "transfer" [arg "to" Taddress; arg "value" (Tuint 256)] [arg "" Tbool] nonpayable;
  Function "transferFrom" [arg "from" Taddress; arg "to" Taddress; arg "value" (Tuint 256)] [arg "" Tbool] nonpayable;
  Event "Approval" [evarg "owner" Taddress true; evarg "spender" Taddress true; evarg "value" (Tuint 256) false];
  Event "Transfer" [evarg "from" Taddress true; evarg "to" Taddress true; evarg "value" (Tuint 256) false]
].

(** ** Events *)

Record ContractApproval := mkContractApproval {
  Approval_Owner : Address;
  Approval_Spender : Address;
  Approval_Value : BigInt;
  Approval_Raw : EthLog;
}.

#[export, refine] Instance ContractApproval_EventType : EventType ContractApproval := {|
  event_fields := [("Owner", go_type_of Address); ("Spender", go_type_of Address); ("Value", go_type_of BigInt)];
  of_fields := fun log vs => match vs with
    | [v0; v1; v2] =>
        x0 ← of_value v0; x1 ← of_value v1; x2 ← of_value v2; Some (mkContractApproval x0 x1 x2 log)
    | _ => None
    end;
|}.
Proof. all: event_tac. Defined.

Record ContractTransfer := mkContractTransfer {
  Transfer_From : Address;
  Transfer_To : Address;
  Transfer_Value : BigInt;
  Transfer_Raw : EthLog;
}.

#[export, refine] Instance ContractTransfer_EventType : EventType ContractTransfer := {|
  event_fields := [("From", go_type_of Address); ("To", go_type_of Address); ("Value", go_type_of BigInt)];
  of_fields := fun log vs => match vs with
    | [v0; v1; v2] =>
        x0 ← of_value v0; x1 ← of_value v1; x2 ← of_value v2; Some (mkContractTransfer x0 x1 x2 log)
    | _ => None
    end;
|}.
Proof. all: event_tac. Defined.

(** ** Bindings *)

Section Bindings.
Context {W : Type} {T : Geth} {Backend : Type}.

Definition bindContract (lib : BindLib W T Backend) (address : Address)
    (caller transactor filterer : option Backend) : error + BoundContract W T :=
  match GetAbi lib ContractMetaData with
  | inl err => inl err
  | inr parsed => inr (NewBoundContract lib address parsed caller transactor filterer)
  end.

Definition NewContract (lib : BindLib W T Backend) (address : Address)
    (backend : Backend) : error + Contract W T :=
  match bindContract lib address (Some backend) (Some backend) (Some backend) with
  | inl err => inl err
  | inr contract => inr (mkContract (mkContractCaller contract) (mkContractTransactor contract) (mkContractFilterer contract))
  end.

Definition NewContractCaller (lib : BindLib W T Backend) (address : Address)
    (caller : Backend) : error + ContractCaller W T :=
  match bindContract lib address (Some caller) None None with
  | inl err => inl err
  | inr contract => inr (mkContractCaller contract)
  end.

Definition NewContractTransactor (lib : BindLib W T Backend) (address : Address)
    (transactor : Backend) : error + ContractTransactor W T :=
  match bindContract lib address None (Some transactor) None with
  | inl err => inl err
  | inr contract => inr (mkContractTransactor contract)
  end.

Definition NewContractFilterer (lib : BindLib W T Backend) (address : Address)
    (filterer : Backend) : error + ContractFilterer W T :=
  match bindContract lib address None None (Some filterer) with
  | inl err => inl err
  | inr contract => inr (mkContractFilterer contract)
  end.

(** Calls. *)
Section Calls.
Context (contract : ContractCaller W T) (opts : CallOpts T).

Definition Allowance (owner : Address) (spender : Address) : W -> res BigInt * W :=
  callOut contract opts "allowance" [to_value owner; to_value spender].

Definition BalanceOf (account : Address) : W -> res BigInt * W :=
  callOut contract opts "balanceOf" [to_value account].

Definition Decimals : W -> res (uint 8) * W := callOut contract opts "decimals" [].

Definition Name : W -> res string * W := callOut contract opts "name" [].

Definition Symbol : W -> res string * W := callOut contract opts "symbol" [].

Definition TotalSupply : W -> res BigInt * W := callOut contract opts "totalSupply" [].

End Calls.

(** Transactions. *)
Section Transactions.
Context (contract : ContractTransactor W T) (opts : TransactOpts T).

Definition Approve (spender : Address) (value : BigInt) : W -> res (Transaction T) * W :=
  transact contract opts "approve" [to_value spender; to_value value].

Definition Transfer (to : Address) (value : BigInt) : W -> res (Transaction T) * W :=
  transact contract opts "transfer" [to_value to; to_value value].

Definition TransferFrom (from : Address) (to : Address) (value : BigInt) : W -> res (Transaction T) * W :=
  transact contract opts "transferFrom" [to_value from; to_value to; to_value value].

End Transactions.

(** Events. *)
Section Logs.
Context (contract : ContractFilterer W T) (log : EthLog).

Definition ParseApproval : res ContractApproval := parse contract "Approval" log.

Definition ParseTransfer : res ContractTransfer := parse contract "Transfer" log.

End Logs.

(** Iterators over past events. *)
Definition ContractApprovalIterator (W : Type) (T : Geth) : Type := LogIterator W T ContractApproval.
Definition ApprovalIterator_Next (it : ContractApprovalIterator W T) := it_Next it.
Definition ApprovalIterator_Error (it : ContractApprovalIterator W T) := it_Error it.
Definition ApprovalIterator_Close (it : ContractApprovalIterator W T) := it_Close it.

Definition ContractTransferIterator (W : Type) (T : Geth) : Type := LogIterator W T ContractTransfer.
Definition TransferIterator_Next (it : ContractTransferIterator W T) := it_Next it.
Definition TransferIterator_Error (it : ContractTransferIterator W T) := it_Error it.
Definition TransferIterator_Close (it : ContractTransferIterator W T) := it_Close it.

(** Filters and watches. *)
Section Filters.
Context (contract : ContractFilterer W T).

Definition FilterApproval (opts : FilterOpts T) (owner : list Address) (spender : list Address)
    : W -> res (ContractApprovalIterator W T) * W :=
  filterLogs contract opts "Approval" [rule owner; rule spender].

Definition WatchApproval (opts : WatchOpts T) (owner : list Address) (spender : list Address)
    : W -> res (list watched -> list ContractApproval * watch_state) * W :=
  watchLogs contract opts "Approval" [rule owner; rule spender].

Definition FilterTransfer (opts : FilterOpts T) (from : list Address) (to : list Address)
    : W -> res (ContractTransferIterator W T) * W :=
  filterLogs contract opts "Transfer" [rule from; rule to].

Definition WatchTransfer (opts : WatchOpts T) (from : list Address) (to : list Address)
    : W -> res (list watched -> list ContractTransfer * watch_state) * W :=
  watchLogs contract opts "Transfer" [rule from; rule to].

End Filters.

(** Sessions: the bindings with the options of the session. *)
Definition Session_Allowance (s : ContractSession W T) (owner : Address) (spender : Address) :=
  Allowance (Contract_Caller (session_Contract s)) (session_CallOpts s) owner spender.
Definition Session_BalanceOf (s : ContractSession W T) (account : Address) :=
  BalanceOf (Contract_Caller (session_Contract s)) (session_CallOpts s) account.
Definition Session_Decimals (s : ContractSession W T) :=
  Decimals (Contract_Caller (session_Contract s)) (session_CallOpts s).
Definition Session_Name (s : ContractSession W T) :=
  Name (Contract_Caller (session_Contract s)) (session_CallOpts s).
Definition Session_Symbol (s : ContractSession W T) :=
  Symbol (Contract_Caller (session_Contract s)) (session_CallOpts s).
Definition Session_TotalSupply (s : ContractSession W T) :=
  TotalSupply (Contract_Caller (session_Contract s)) (session_CallOpts s).
Definition Session_Approve (s : ContractSession W T) (spender : Address) (value : BigInt) :=
  Approve (Contract_Transactor (session_Contract s)) (session_TransactOpts s) spender value.
Definition Session_Transfer (s : ContractSession W T) (to : Address) (value : BigInt) :=
  Transfer (Contract_Transactor (session_Contract s)) (session_TransactOpts s) to value.
Definition Session_TransferFrom (s : ContractSession W T) (from : Address) (to : Address) (value : BigInt) :=
  TransferFrom (Contract_Transactor (session_Contract s)) (session_TransactOpts s) from to value.

Definition CallerSession_Allowance (s : ContractCallerSession W T) (owner : Address) (spender : Address) :=
  Allowance (callerSession_Contract s) (callerSession_CallOpts s) owner spender.
Definition CallerSession_BalanceOf (s : ContractCallerSession W T) (account : Address) :=
  BalanceOf (callerSession_Contract s) (callerSession_CallOpts s) account.
Definition CallerSession_Decimals (s : ContractCallerSession W T) :=
  Decimals (callerSession_Contract s) (callerSession_CallOpts s).
Definition CallerSession_Name (s : ContractCallerSession W T) :=
  Name (callerSession_Contract s) (callerSession_CallOpts s).
Definition CallerSession_Symbol (s : ContractCallerSession W T) :=
  Symbol (callerSession_Contract s) (callerSession_CallOpts s).
Definition CallerSession_TotalSupply (s : ContractCallerSession W T) :=
  TotalSupply (callerSession_Contract s) (callerSession_CallOpts s).

Definition TransactorSession_Approve (s : ContractTransactorSession W T) (spender : Address) (value : BigInt) :=
  Approve (transactorSession_Contract s) (transactorSession_TransactOpts s) spender value.
Definition TransactorSession_Transfer (s : ContractTransactorSession W T) (to : Address) (value : BigInt) :=
  Transfer (transactorSession_Contract s) (transactorSession_TransactOpts s) to value.
Definition TransactorSession_TransferFrom (s : ContractTransactorSession W T) (from : Address) (to : Address) (value : BigInt) :=
  TransferFrom (transactorSession_Contract s) (transactorSession_TransactOpts s) from to value.

(** All of them. *)
Definition bindings (c : Contract W T) : list binding := [
  Binding _ _ (Allowance (Contract_Caller c)); Binding _ _ (BalanceOf (Contract_Caller c));
  Binding _ _ (Decimals (Contract_Caller c)); Binding _ _ (Name (Contract_Caller c));
  Binding _ _ (Symbol (Contract_Caller c)); Binding _ _ (TotalSupply (Contract_Caller c));
  Binding _ _ (Approve (Contract_Transactor c)); Binding _ _ (Transfer (Contract_Transactor c));
  Binding _ _ (TransferFrom (Contract_Transactor c)); Binding _ _ (ParseApproval (Contract_Filterer c));
  Binding _ _ (ParseTransfer (Contract_Filterer c)); Binding _ _ (FilterApproval (Contract_Filterer c));
  Binding _ _ (WatchApproval (Contract_Filterer c)); Binding _ _ (FilterTransfer (Contract_Filterer c));
  Binding _ _ (WatchTransfer (Contract_Filterer c))].

Lemma erc20_bindings_safe (lib : BindLib W T Backend) address backend c :
  Documented lib -> NewContract lib address backend = inr c -> Forall is_safe (bindings c).
Proof.
  unfold NewContract, bindContract. intros Hl Hc. destruct (GetAbi lib ContractMetaData) as [err|parsed] eqn:Hp; [done|].
  injection Hc as <-. destruct (abi_documented _ _ Hp) as [-> Hb].
  specialize (Hb address backend). set (bc := NewBoundContract _ _ _ _ _ _) in *. clearbody bc. bindings_tac ContractMetaData.
Qed.

End Bindings.
