(* ===== verification/Sp1Binding.v ===== *)
(** * The SP1 light client ([src/shared/contracts/sp1_ics07_tendermint/client.go])

    The ABI the binding was generated from, the structs of its arguments and events, and
    the bindings of its methods, its transactions and its events, alone and in sessions. *)

From S2P Require Import Prelude Db Transfer Config World Logic Once GoLib GoFloat EvmClient Bindings.
From S2P Require Import BoundContracts LogIterators.

(** ** The ABI *)

Definition abi_TrustThreshold : abi_type := Ttuple [("numerator", Tuint 8); ("denominator", Tuint 8)].

Definition abi_Height : abi_type := Ttuple [("revisionNumber", Tuint 64); ("revisionHeight", Tuint 64)].

Definition abi_MsgVerifyMembership : abi_type := Ttuple [("proof", Tbytes); ("proofHeight", abi_Height);
    ("path", Tslice Tbytes); ("value", Tbytes)].

Definition abi_MsgVerifyNonMembership : abi_type := Ttuple [("proof", Tbytes); ("proofHeight", abi_Height);
    ("path", Tslice Tbytes)].

Definition ContractMetaData : ABI := [
  Constructor [arg "updateClientProgramVkey" (Tfixed 32); arg "membershipProgramVkey" (Tfixed 32);
      arg "updateClientAndMembershipProgramVkey" (Tfixed 32); arg "misbehaviourProgramVkey" (Tfixed 32);
      arg "sp1Verifier" Taddress; arg "_clientState" Tbytes; arg "_consensusState" (Tfixed 32);
      arg "roleManager" Taddress];
  Function "ALLOWED_SP1_CLOCK_DRIFT" [] [arg "" (Tuint 16)] view;
  Function "DEFAULT_ADMIN_ROLE" [] [arg "" (Tfixed 32)] view;
  Function "MEMBERSHIP_PROGRAM_VKEY" [] [arg "" (Tfixed 32)] view;
  Function "MISBEHAVIOUR_PROGRAM_VKEY" [] [arg "" (Tfixed 32)] view;
  Function "PROOF_SUBMITTER_ROLE" [] [arg "" (Tfixed 32)] view;
  Function "UPDATE_CLIENT_AND_MEMBERSHIP_PROGRAM_VKEY" [] [arg "" (Tfixed 32)] view;
  Function "UPDATE_CLIENT_PROGRAM_VKEY" [] [arg "" (Tfixed 32)] view;
  Function "VERIFIER" [] [arg "" Taddress] view;
  Function "clientState" [] [arg "chainId" Tstring; arg "trustLevel" abi_TrustThreshold;
      arg "latestHeight" abi_Height; arg "trustingPeriod" (Tuint 32); arg "unbondingPeriod" (Tuint 32);
      arg "isFrozen" Tbool; arg "zkAlgorithm" (Tuint 8)] view;
  Function "getClientState" [] [arg "" Tbytes] view;
  Function "getConsensusStateHash" [arg "revisionHeight" (Tuint 64)] [arg "" (Tfixed 32)] view;
  Function "getRoleAdmin" [arg "role" (Tfixed 32)] [arg "" (Tfixed 32)] view;
  Function "grantRole" [arg "role" (Tfixed 32); arg "account" Taddress] [] nonpayable;
  Function "hasRole" [arg "role" (Tfixed 32); arg "account" Taddress] [arg "" Tbool] view;
  Function "misbehaviour" [arg "misbehaviourMsg" Tbytes] [] nonpayable;
  Function "multicall" [arg "data" (Tslice Tbytes)] [arg "results" (Tslice Tbytes)] nonpayable;
  Function "renounceRole" [arg "role" (Tfixed 32); arg "callerConfirmation" Taddress] [] nonpayable;
  Function "revokeRole" [arg "role" (Tfixed 32); arg "account" Taddress] [] nonpayable;
  Function "supportsInterface" [arg "interfaceId" (Tfixed 4)] [arg "" Tbool] view;
  Function "updateClient" [arg "updateMsg" Tbytes] [arg "" (Tuint 8)] nonpayable;
  Function "upgradeClient" [arg "" Tbytes] [] view;
  Function "verifyMembership" [arg "msg_" abi_MsgVerifyMembership] [arg "" (Tuint 256)] nonpayable;
  Function "verifyNonMembership" [arg "msg_" abi_MsgVerifyNonMembership] [arg "" (Tuint 256)] nonpayable;
  Event "RoleAdminChanged" [evarg "role" (Tfixed 32) true; evarg "previousAdminRole" (Tfixed 32) true;
      evarg "newAdminRole" (Tfixed 32) true];
  Event "RoleGranted" [evarg "role" (Tfixed 32) true; evarg "account" Taddress true; evarg "sender" Taddress true];
  Event "RoleRevoked" [evarg "role" (Tfixed 32) true; evarg "account" Taddress true; evarg "sender" Taddress true]
].

(** ** Structs *)

Record IICS02ClientMsgsHeight := mkHeight {
  Height_RevisionNumber : uint 64;
  Height_RevisionHeight : uint 64;
}.

#[export, refine] Instance IICS02ClientMsgsHeight_GoType : GoType IICS02ClientMsgsHeight := {|
  go_type_of := Gstruct [("RevisionNumber", go_type_of (uint 64)); ("RevisionHeight", go_type_of (uint 64))];
  to_value := fun x => VStruct [to_value (Height_RevisionNumber x); to_value (Height_RevisionHeight x)];
  of_value := fun v => match v with
    | VStruct [v0; v1] =>
        x0 ← of_value v0; x1 ← of_value v1; Some (mkHeight x0 x1)
    | _ => None
    end;
|}.
Proof. all: struct_tac. Defined.

Record IICS07TendermintMsgsTrustThreshold := mkTrustThreshold {
  TrustThreshold_Numerator : uint 8;
  TrustThreshold_Denominator : uint 8;
}.

#[export, refine] Instance IICS07TendermintMsgsTrustThreshold_GoType : GoType IICS07TendermintMsgsTrustThreshold := {|
  go_type_of := Gstruct [("Numerator", go_type_of (uint 8)); ("Denominator", go_type_of (uint 8))];
  to_value := fun x => VStruct [to_value (TrustThreshold_Numerator x); to_value (TrustThreshold_Denominator x)];
  of_value := fun v => match v with
    | VStruct [v0; v1] =>
        x0 ← of_value v0; x1 ← of_value v1; Some (mkTrustThreshold x0 x1)
    | _ => None
    end;
|}.
Proof. all: struct_tac. Defined.

Record ILightClientMsgsMsgVerifyMembership := mkMsgVerifyMembership {
  MsgVerifyMembership_Proof : Bytes;
  MsgVerifyMembership_ProofHeight : IICS02ClientMsgsHeight;
  MsgVerifyMembership_Path : list Bytes;
  MsgVerifyMembership_Value : Bytes;
}.

#[export, refine] Instance ILightClientMsgsMsgVerifyMembership_GoType : GoType ILightClientMsgsMsgVerifyMembership := {|
  go_type_of := Gstruct [("Proof", go_type_of Bytes); ("ProofHeight", go_type_of IICS02ClientMsgsHeight);
    ("Path", go_type_of (list Bytes)); ("Value", go_type_of Bytes)];
  to_value := fun x => VStruct [to_value (MsgVerifyMembership_Proof x);
    to_value (MsgVerifyMembership_ProofHeight x); to_value (MsgVerifyMembership_Path x);
    to_value (MsgVerifyMembership_Value x)];
  of_value := fun v => match v with
    | VStruct [v0; v1; v2; v3] =>
        x0 ← of_value v0; x1 ← of_value v1; x2 ← of_value v2; x3 ← of_value v3;
        Some (mkMsgVerifyMembership x0 x1 x2 x3)
    | _ => None
    end;
|}.
Proof. all: struct_tac. Defined.

Record ILightClientMsgsMsgVerifyNonMembership := mkMsgVerifyNonMembership {
  MsgVerifyNonMembership_Proof : Bytes;
  MsgVerifyNonMembership_ProofHeight : IICS02ClientMsgsHeight;
  MsgVerifyNonMembership_Path : list Bytes;
}.

#[export, refine] Instance ILightClientMsgsMsgVerifyNonMembership_GoType : GoType ILightClientMsgsMsgVerifyNonMembership := {|
  go_type_of := Gstruct [("Proof", go_type_of Bytes); ("ProofHeight", go_type_of IICS02ClientMsgsHeight);
    ("Path", go_type_of (list Bytes))];
  to_value := fun x => VStruct [to_value (MsgVerifyNonMembership_Proof x);
    to_value (MsgVerifyNonMembership_ProofHeight x); to_value (MsgVerifyNonMembership_Path x)];
  of_value := fun v => match v with
    | VStruct [v0; v1; v2] =>
        x0 ← of_value v0; x1 ← of_value v1; x2 ← of_value v2; Some (mkMsgVerifyNonMembership x0 x1 x2)
    | _ => None
    end;
|}.
Proof. all: struct_tac. Defined.

(** What [ClientState] returns. *)
Record ClientStateStruct := mkClientStateStruct {
  ClientState_ChainId : string;
  ClientState_TrustLevel : IICS07TendermintMsgsTrustThreshold;
  ClientState_LatestHeight : IICS02ClientMsgsHeight;
  ClientState_TrustingPeriod : uint 32;
  ClientState_UnbondingPeriod : uint 32;
  ClientState_IsFrozen : bool;
  ClientState_ZkAlgorithm : uint 8;
}.

Definition clientStateOf (out : list value) : option ClientStateStruct :=
  match out with
  | v0 :: v1 :: v2 :: v3 :: v4 :: v5 :: v6 :: _ =>
      x0 ← of_value v0; x1 ← of_value v1; x2 ← of_value v2; x3 ← of_value v3; x4 ← of_value v4; x5 ← of_value v5;
      x6 ← of_value v6; Some (mkClientStateStruct x0 x1 x2 x3 x4 x5 x6)
  | _ => None
  end.

(** ** Events *)

Record ContractRoleAdminChanged := mkContractRoleAdminChanged {
  RoleAdminChanged_Role : bytesN 32;
  RoleAdminChanged_PreviousAdminRole : bytesN 32;
  RoleAdminChanged_NewAdminRole : bytesN 32;
  RoleAdminChanged_Raw : EthLog;
}.

#[export, refine] Instance ContractRoleAdminChanged_EventType : EventType ContractRoleAdminChanged := {|
  event_fields := [("Role", go_type_of (bytesN 32)); ("PreviousAdminRole", go_type_of (bytesN 32));
    ("NewAdminRole", go_type_of (bytesN 32))];
  of_fields := fun log vs => match vs with
    | [v0; v1; v2] =>
        x0 ← of_value v0; x1 ← of_value v1; x2 ← of_value v2; Some (mkContractRoleAdminChanged x0 x1 x2 log)
    | _ => None
    end;
|}.
Proof. all: event_tac. Defined.

Record ContractRoleGranted := mkContractRoleGranted {
  RoleGranted_Role : bytesN 32;
  RoleGranted_Account : Address;
  RoleGranted_Sender : Address;
  RoleGranted_Raw : EthLog;
}.

#[export, refine] Instance ContractRoleGranted_EventType : EventType ContractRoleGranted := {|
  event_fields := [("Role", go_type_of (bytesN 32)); ("Account", go_type_of Address);
    ("Sender", go_type_of Address)];
  of_fields := fun log vs => match vs with
    | [v0; v1; v2] =>
        x0 ← of_value v0; x1 ← of_value v1; x2 ← of_value v2; Some (mkContractRoleGranted x0 x1 x2 log)
    | _ => None
    end;
|}.
Proof. all: event_tac. Defined.

Record ContractRoleRevoked := mkContractRoleRevoked {
  RoleRevoked_Role : bytesN 32;
  RoleRevoked_Account : Address;
  RoleRevoked_Sender : Address;
  RoleRevoked_Raw : EthLog;
}.

#[export, refine] Instance ContractRoleRevoked_EventType : EventType ContractRoleRevoked := {|
  event_fields := [("Role", go_type_of (bytesN 32)); ("Account", go_type_of Address);
    ("Sender", go_type_of Address)];
  of_fields := fun log vs => match vs with
    | [v0; v1; v2] =>
        x0 ← of_value v0; x1 ← of_value v1; x2 ← of_value v2; Some (mkContractRoleRevoked x0 x1 x2 log)
    | _ => None
    end;
|}.
Proof. all: event_tac. Defined.

(** ** Bindings *)

Section Bindings.
Context {W : Type} {T : Geth} {Backend : Type}.

Definition bindContract (lib : BindLib W T Backend) (address : Address)
    (caller transactor filterer : option Backend) : error + BoundContract W T :=
  match GetAbi lib ContractMetaData with
  | inl err => inl err
  | inr parsed => inr (NewBoundContract lib address parsed caller transactor filterer)
  end.

Definition NewContract (lib : BindLib W T Backend) (address : Address)
    (backend : Backend) : error + Contract W T :=
  match bindContract lib address (Some backend) (Some backend) (Some backend) with
  | inl err => inl err
  | inr contract => inr (mkContract (mkContractCaller contract) (mkContractTransactor contract) (mkContractFilterer contract))
  end.

Definition NewContractCaller (lib : BindLib W T Backend) (address : Address)
    (caller : Backend) : error + ContractCaller W T :=
  match bindContract lib address (Some caller) None None with
  | inl err => inl err
  | inr contract => inr (mkContractCaller contract)
  end.

Definition NewContractTransactor (lib : BindLib W T Backend) (address : Address)
    (transactor : Backend) : error + ContractTransactor W T :=
  match bindContract lib address None (Some transactor) None with
  | inl err => inl err
  | inr contract => inr (mkContractTransactor contract)
  end.

Definition NewContractFilterer (lib : BindLib W T Backend) (address : Address)
    (filterer : Backend) : error + ContractFilterer W T :=
  match bindContract lib address None None (Some filterer) with
  | inl err => inl err
  | inr contract => inr (mkContractFilterer contract)
  end.

(** Calls. *)
Section Calls.
Context (contract : ContractCaller W T) (opts : CallOpts T).

Definition ALLOWEDSP1CLOCKDRIFT : W -> res (uint 16) * W := callOut contract opts "ALLOWED_SP1_CLOCK_DRIFT" [].

Definition DEFAULTADMINROLE : W -> res (bytesN 32) * W := callOut contract opts "DEFAULT_ADMIN_ROLE" [].

Definition MEMBERSHIPPROGRAMVKEY : W -> res (bytesN 32) * W := callOut contract opts "MEMBERSHIP_PROGRAM_VKEY" [].

Definition MISBEHAVIOURPROGRAMVKEY : W -> res (bytesN 32) * W :=
  callOut contract opts "MISBEHAVIOUR_PROGRAM_VKEY" [].

Definition PROOFSUBMITTERROLE : W -> res (bytesN 32) * W := callOut contract opts "PROOF_SUBMITTER_ROLE" [].

Definition UPDATECLIENTANDMEMBERSHIPPROGRAMVKEY : W -> res (bytesN 32) * W :=
  callOut contract opts "UPDATE_CLIENT_AND_MEMBERSHIP_PROGRAM_VKEY" [].

Definition UPDATECLIENTPROGRAMVKEY : W -> res (bytesN 32) * W :=
  callOut contract opts "UPDATE_CLIENT_PROGRAM_VKEY" [].

Definition VERIFIER : W -> res Address * W := callOut contract opts "VERIFIER" [].

Definition GetClientState : W -> res Bytes * W := callOut contract opts "getClientState" [].

Definition GetConsensusStateHash (revisionHeight : uint 64) : W -> res (bytesN 32) * W :=
  callOut contract opts "getConsensusStateHash" [to_value revisionHeight].

Definition GetRoleAdmin (role : bytesN 32) : W -> res (bytesN 32) * W :=
  callOut contract opts "getRoleAdmin" [to_value role].

Definition HasRole (role : bytesN 32) (account : Address) : W -> res bool * W :=
  callOut contract opts "hasRole" [to_value role; to_value account].

Definition SupportsInterface (interfaceId : bytesN 4) : W -> res bool * W :=
  callOut contract opts "supportsInterface" [to_value interfaceId].

Definition UpgradeClient (arg0 : Bytes) : W -> res unit * W :=
  callNone contract opts "upgradeClient" [to_value arg0].

Definition ClientState : W -> res ClientStateStruct * W := callOuts clientStateOf contract opts "clientState" [].

End Calls.

(** Transactions. *)
Section Transactions.
Context (contract : ContractTransactor W T) (opts : TransactOpts T).

Definition GrantRole (role : bytesN 32) (account : Address) : W -> res (Transaction T) * W :=
  transact contract opts "grantRole" [to_value role; to_value account].

Definition Misbehaviour (misbehaviourMsg : Bytes) : W -> res (Transaction T) * W :=
  transact contract opts "misbehaviour" [to_value misbehaviourMsg].

Definition Multicall (data : list Bytes) : W -> res (Transaction T) * W :=
  transact contract opts "multicall" [to_value data].

Definition RenounceRole (role : bytesN 32) (callerConfirmation : Address) : W -> res (Transaction T) * W :=
  transact contract opts "renounceRole" [to_value role; to_value callerConfirmation].

Definition RevokeRole (role : bytesN 32) (account : Address) : W -> res (Transaction T) * W :=
  transact contract opts "revokeRole" [to_value role; to_value account].

Definition UpdateClient (updateMsg : Bytes) : W -> res (Transaction T) * W :=
  transact contract opts "updateClient" [to_value updateMsg].

Definition VerifyMembership (msg_ : ILightClientMsgsMsgVerifyMembership) : W -> res (Transaction T) * W :=
  transact contract opts "verifyMembership" [to_value msg_].

Definition VerifyNonMembership (msg_ : ILightClientMsgsMsgVerifyNonMembership) : W -> res (Transaction T) * W :=
  transact contract opts "verifyNonMembership" [to_value msg_].

End Transactions.

(** Events. *)
Section Logs.
Context (contract : ContractFilterer W T) (log : EthLog).

Definition ParseRoleAdminChanged : res ContractRoleAdminChanged := parse contract "RoleAdminChanged" log.

Definition ParseRoleGranted : res ContractRoleGranted := parse contract "RoleGranted" log.

Definition ParseRoleRevoked : res ContractRoleRevoked := parse contract "RoleRevoked" log.

End Logs.

(** Iterators over past events. *)
Definition ContractRoleAdminChangedIterator (W : Type) (T : Geth) : Type :=
  LogIterator W T ContractRoleAdminChanged.
Definition RoleAdminChangedIterator_Next (it : ContractRoleAdminChangedIterator W T) := it_Next it.
Definition RoleAdminChangedIterator_Error (it : ContractRoleAdminChangedIterator W T) := it_Error it.
Definition RoleAdminChangedIterator_Close (it : ContractRoleAdminChangedIterator W T) := it_Close it.

Definition ContractRoleGrantedIterator (W : Type) (T : Geth) : Type := LogIterator W T ContractRoleGranted.
Definition RoleGrantedIterator_Next (it : ContractRoleGrantedIterator W T) := it_Next it.
Definition RoleGrantedIterator_Error (it : ContractRoleGrantedIterator W T) := it_Error it.
Definition RoleGrantedIterator_Close (it : ContractRoleGrantedIterator W T) := it_Close it.

Definition ContractRoleRevokedIterator (W : Type) (T : Geth) : Type := LogIterator W T ContractRoleRevoked.
Definition RoleRevokedIterator_Next (it : ContractRoleRevokedIterator W T) := it_Next it.
Definition RoleRevokedIterator_Error (it : ContractRoleRevokedIterator W T) := it_Error it.
Definition RoleRevokedIterator_Close (it : ContractRoleRevokedIterator W T) := it_Close it.

(** Filters and watches. *)
Section Filters.
Context (contract : ContractFilterer W T).

Definition FilterRoleAdminChanged (opts : FilterOpts T) (role : list (bytesN 32)) (previousAdminRole : list (bytesN 32)) (newAdminRole : list (bytesN 32))
    : W -> res (ContractRoleAdminChangedIterator W T) * W :=
  filterLogs contract opts "RoleAdminChanged" [rule role; rule previousAdminRole; rule newAdminRole].

Definition WatchRoleAdminChanged (opts : WatchOpts T) (role : list (bytesN 32)) (previousAdminRole : list (bytesN 32)) (newAdminRole : list (bytesN 32))
    : W -> res (list watched -> list ContractRoleAdminChanged * watch_state) * W :=
  watchLogs contract opts "RoleAdminChanged" [rule role; rule previousAdminRole; rule newAdminRole].

Definition FilterRoleGranted (opts : FilterOpts T) (role : list (bytesN 32)) (account : list Address) (sender : list Address)
    : W -> res (ContractRoleGrantedIterator W T) * W :=
  filterLogs contract opts "RoleGranted" [rule role; rule account; rule sender].

Definition WatchRoleGranted (opts : WatchOpts T) (role : list (bytesN 32)) (account : list Address) (sender : list Address)
    : W -> res (list watched -> list ContractRoleGranted * watch_state) * W :=
  watchLogs contract opts "RoleGranted" [rule role; rule account; rule sender].

Definition FilterRoleRevoked (opts : FilterOpts T) (role : list (bytesN 32)) (account : list Address) (sender : list Address)
    : W -> res (ContractRoleRevokedIterator W T) * W :=
  filterLogs contract opts "RoleRevoked" [rule role; rule account; rule sender].

Definition WatchRoleRevoked (opts : WatchOpts T) (role : list (bytesN 32)) (account : list Address) (sender : list Address)
    : W -> res (list watched -> list ContractRoleRevoked * watch_state) * W :=
  watchLogs contract opts "RoleRevoked" [rule role; rule account; rule sender].

End Filters.

(** Sessions: the bindings with the options of the session. *)
Definition Session_ALLOWEDSP1CLOCKDRIFT (s : ContractSession W T) :=
  ALLOWEDSP1CLOCKDRIFT (Contract_Caller (session_Contract s)) (session_CallOpts s).
Definition Session_DEFAULTADMINROLE (s : ContractSession W T) :=
  DEFAULTADMINROLE (Contract_Caller (session_Contract s)) (session_CallOpts s).
Definition Session_MEMBERSHIPPROGRAMVKEY (s : ContractSession W T) :=
  MEMBERSHIPPROGRAMVKEY (Contract_Caller (session_Contract s)) (session_CallOpts s).
Definition Session_MISBEHAVIOURPROGRAMVKEY (s : ContractSession W T) :=
  MISBEHAVIOURPROGRAMVKEY (Contract_Caller (session_Contract s)) (session_CallOpts s).
Definition Session_PROOFSUBMITTERROLE (s : ContractSession W T) :=
  PROOFSUBMITTERROLE (Contract_Caller (session_Contract s)) (session_CallOpts s).
Definition Session_UPDATECLIENTANDMEMBERSHIPPROGRAMVKEY (s : ContractSession W T) :=
  UPDATECLIENTANDMEMBERSHIPPROGRAMVKEY (Contract_Caller (session_Contract s)) (session_CallOpts s).
Definition Session_UPDATECLIENTPROGRAMVKEY (s : ContractSession W T) :=
  UPDATECLIENTPROGRAMVKEY (Contract_Caller (session_Contract s)) (session_CallOpts s).
Definition Session_VERIFIER (s : ContractSession W T) :=
  VERIFIER (Contract_Caller (session_Contract s)) (session_CallOpts s).
Definition Session_ClientState (s : ContractSession W T) :=
  ClientState (Contract_Caller (session_Contract s)) (session_CallOpts s).
Definition Session_GetClientState (s : ContractSession W T) :=
  GetClientState (Contract_Caller (session_Contract s)) (session_CallOpts s).
Definition Session_GetConsensusStateHash (s : ContractSession W T) (revisionHeight : uint 64) :=
  GetConsensusStateHash (Contract_Caller (session_Contract s)) (session_CallOpts s) revisionHeight.
Definition Session_GetRoleAdmin (s : ContractSession W T) (role : bytesN 32) :=
  GetRoleAdmin (Contract_Caller (session_Contract s)) (session_CallOpts s) role.
Definition Session_HasRole (s : ContractSession W T) (role : bytesN 32) (account : Address) :=
  HasRole (Contract_Caller (session_Contract s)) (session_CallOpts s) role account.
Definition Session_SupportsInterface (s : ContractSession W T) (interfaceId : bytesN 4) :=
  SupportsInterface (Contract_Caller (session_Contract s)) (session_CallOpts s) interfaceId.
Definition Session_UpgradeClient (s : ContractSession W T) (arg0 : Bytes) :=
  UpgradeClient (Contract_Caller (session_Contract s)) (session_CallOpts s) arg0.
Definition Session_GrantRole (s : ContractSession W T) (role : bytesN 32) (account : Address) :=
  GrantRole (Contract_Transactor (session_Contract s)) (session_TransactOpts s) role account.
Definition Session_Misbehaviour (s : ContractSession W T) (misbehaviourMsg : Bytes) :=
  Misbehaviour (Contract_Transactor (session_Contract s)) (session_TransactOpts s) misbehaviourMsg.
Definition Session_Multicall (s : ContractSession W T) (data : list Bytes) :=
  Multicall (Contract_Transactor (session_Contract s)) (session_TransactOpts s) data.
Definition Session_RenounceRole (s : ContractSession W T) (role : bytesN 32) (callerConfirmation : Address) :=
  RenounceRole (Contract_Transactor (session_Contract s)) (session_TransactOpts s) role callerConfirmation.
Definition Session_RevokeRole (s : ContractSession W T) (role : bytesN 32) (account : Address) :=
  RevokeRole (Contract_Transactor (session_Contract s)) (session_TransactOpts s) role account.
Definition Session_UpdateClient (s : ContractSession W T) (updateMsg : Bytes) :=
  UpdateClient (Contract_Transactor (session_Contract s)) (session_TransactOpts s) updateMsg.
Definition Session_VerifyMembership (s : ContractSession W T) (msg_ : ILightClientMsgsMsgVerifyMembership) :=
  VerifyMembership (Contract_Transactor (session_Contract s)) (session_TransactOpts s) msg_.
Definition Session_VerifyNonMembership (s : ContractSession W T) (msg_ : ILightClientMsgsMsgVerifyNonMembership) :=
  VerifyNonMembership (Contract_Transactor (session_Contract s)) (session_TransactOpts s) msg_.

Definition CallerSession_ALLOWEDSP1CLOCKDRIFT (s : ContractCallerSession W T) :=
  ALLOWEDSP1CLOCKDRIFT (callerSession_Contract s) (callerSession_CallOpts s).
Definition CallerSession_DEFAULTADMINROLE (s : ContractCallerSession W T) :=
  DEFAULTADMINROLE (callerSession_Contract s) (callerSession_CallOpts s).
Definition CallerSession_MEMBERSHIPPROGRAMVKEY (s : ContractCallerSession W T) :=
  MEMBERSHIPPROGRAMVKEY (callerSession_Contract s) (callerSession_CallOpts s).
Definition CallerSession_MISBEHAVIOURPROGRAMVKEY (s : ContractCallerSession W T) :=
  MISBEHAVIOURPROGRAMVKEY (callerSession_Contract s) (callerSession_CallOpts s).
Definition CallerSession_PROOFSUBMITTERROLE (s : ContractCallerSession W T) :=
  PROOFSUBMITTERROLE (callerSession_Contract s) (callerSession_CallOpts s).
Definition CallerSession_UPDATECLIENTANDMEMBERSHIPPROGRAMVKEY (s : ContractCallerSession W T) :=
  UPDATECLIENTANDMEMBERSHIPPROGRAMVKEY (callerSession_Contract s) (callerSession_CallOpts s).
Definition CallerSession_UPDATECLIENTPROGRAMVKEY (s : ContractCallerSession W T) :=
  UPDATECLIENTPROGRAMVKEY (callerSession_Contract s) (callerSession_CallOpts s).
Definition CallerSession_VERIFIER (s : ContractCallerSession W T) :=
  VERIFIER (callerSession_Contract s) (callerSession_CallOpts s).
Definition CallerSession_ClientState (s : ContractCallerSession W T) :=
  ClientState (callerSession_Contract s) (callerSession_CallOpts s).
Definition CallerSession_GetClientState (s : ContractCallerSession W T) :=
  GetClientState (callerSession_Contract s) (callerSession_CallOpts s).
Definition CallerSession_GetConsensusStateHash (s : ContractCallerSession W T) (revisionHeight : uint 64) :=
  GetConsensusStateHash (callerSession_Contract s) (callerSession_CallOpts s) revisionHeight.
Definition CallerSession_GetRoleAdmin (s : ContractCallerSession W T) (role : bytesN 32) :=
  GetRoleAdmin (callerSession_Contract s) (callerSession_CallOpts s) role.
Definition CallerSession_HasRole (s : ContractCallerSession W T) (role : bytesN 32) (account : Address) :=
  HasRole (callerSession_Contract s) (callerSession_CallOpts s) role account.
Definition CallerSession_SupportsInterface (s : ContractCallerSession W T) (interfaceId : bytesN 4) :=
  SupportsInterface (callerSession_Contract s) (callerSession_CallOpts s) interfaceId.
Definition CallerSession_UpgradeClient (s : ContractCallerSession W T) (arg0 : Bytes) :=
  UpgradeClient (callerSession_Contract s) (callerSession_CallOpts s) arg0.

Definition TransactorSession_GrantRole (s : ContractTransactorSession W T) (role : bytesN 32) (account : Address) :=
  GrantRole (transactorSession_Contract s) (transactorSession_TransactOpts s) role account.
Definition TransactorSession_Misbehaviour (s : ContractTransactorSession W T) (misbehaviourMsg : Bytes) :=
  Misbehaviour (transactorSession_Contract s) (transactorSession_TransactOpts s) misbehaviourMsg.
Definition TransactorSession_Multicall (s : ContractTransactorSession W T) (data : list Bytes) :=
  Multicall (transactorSession_Contract s) (transactorSession_TransactOpts s) data.
Definition TransactorSession_RenounceRole (s : ContractTransactorSession W T) (role : bytesN 32) (callerConfirmation : Address) :=
  RenounceRole (transactorSession_Contract s) (transactorSession_TransactOpts s) role callerConfirmation.
Definition TransactorSession_RevokeRole (s : ContractTransactorSession W T) (role : bytesN 32) (account : Address) :=
  RevokeRole (transactorSession_Contract s) (transactorSession_TransactOpts s) role account.
Definition TransactorSession_UpdateClient (s : ContractTransactorSession W T) (updateMsg : Bytes) :=
  UpdateClient (transactorSession_Contract s) (transactorSession_TransactOpts s) updateMsg.
Definition TransactorSession_VerifyMembership (s : ContractTransactorSession W T) (msg_ : ILightClientMsgsMsgVerifyMembership) :=
  VerifyMembership (transactorSession_Contract s) (transactorSession_TransactOpts s) msg_.
Definition TransactorSession_VerifyNonMembership (s : ContractTransactorSession W T) (msg_ : ILightClientMsgsMsgVerifyNonMembership) :=
  VerifyNonMembership (transactorSession_Contract s) (transactorSession_TransactOpts s) msg_.

(** All of them. *)
Definition bindings (c : Contract W T) : list binding := [
  Binding _ _ (ALLOWEDSP1CLOCKDRIFT (Contract_Caller c)); Binding _ _ (DEFAULTADMINROLE (Contract_Caller c));
  Binding _ _ (MEMBERSHIPPROGRAMVKEY (Contract_Caller c));
  Binding _ _ (MISBEHAVIOURPROGRAMVKEY (Contract_Caller c)); Binding _ _ (PROOFSUBMITTERROLE (Contract_Caller c));
  Binding _ _ (UPDATECLIENTANDMEMBERSHIPPROGRAMVKEY (Contract_Caller c));
  Binding _ _ (UPDATECLIENTPROGRAMVKEY (Contract_Caller c)); Binding _ _ (VERIFIER (Contract_Caller c));
  Binding _ _ (GetClientState (Contract_Caller c)); Binding _ _ (GetConsensusStateHash (Contract_Caller c));
  Binding _ _ (GetRoleAdmin (Contract_Caller c)); Binding _ _ (HasRole (Contract_Caller c));
  Binding _ _ (SupportsInterface (Contract_Caller c)); Binding _ _ (UpgradeClient (Contract_Caller c));
  Binding _ _ (ClientState (Contract_Caller c)); Binding _ _ (GrantRole (Contract_Transactor c));
  Binding _ _ (Misbehaviour (Contract_Transactor c)); Binding _ _ (Multicall (Contract_Transactor c));
  Binding _ _ (RenounceRole (Contract_Transactor c)); Binding _ _ (RevokeRole (Contract_Transactor c));
  Binding _ _ (UpdateClient (Contract_Transactor c)); Binding _ _ (VerifyMembership (Contract_Transactor c));
  Binding _ _ (VerifyNonMembership (Contract_Transactor c));
  Binding _ _ (ParseRoleAdminChanged (Contract_Filterer c)); Binding _ _ (ParseRoleGranted (Contract_Filterer c));
  Binding _ _ (ParseRoleRevoked (Contract_Filterer c)); Binding _ _ (FilterRoleAdminChanged (Contract_Filterer c));
  Binding _ _ (WatchRoleAdminChanged (Contract_Filterer c)); Binding _ _ (FilterRoleGranted (Contract_Filterer c));
  Binding _ _ (WatchRoleGranted (Contract_Filterer c)); Binding _ _ (FilterRoleRevoked (Contract_Filterer c));
  Binding _ _ (WatchRoleRevoked (Contract_Filterer c))].

Lemma sp1_bindings_safe (lib : BindLib W T Backend) address backend c :
  Documented lib -> NewContract lib address backend = inr c -> Forall is_safe (bindings c).
Proof.
  unfold NewContract, bindContract. intros Hl Hc. destruct (GetAbi lib ContractMetaData) as [err|parsed] eqn:Hp; [done|].
  injection Hc as <-. destruct (abi_documented _ _ Hp) as [-> Hb].
  specialize (Hb address backend). set (bc := NewBoundContract _ _ _ _ _ _) in *. clearbody bc. bindings_tac ContractMetaData.
Qed.

End Bindings.
