(* ===== verification/BindingTheorems.v ===== *)
(** * The bindings fit their contracts

    Every binding of the five contracts is safe with a go-ethereum that does what it
    documents, and the operations the EVM bridge client is modelled with ([EVMNode]) are
    the bindings of the contracts it creates. *)

From S2P Require Import Prelude Db Transfer Config World Logic Once GoLib GoFloat EvmClient Bindings.
From S2P Require Import BoundContracts LogIterators RouterBinding Ics20Binding IftBinding Erc20Binding Sp1Binding.

Section BindingTheorems.
Context {W : Type} {T : Geth} {Backend : Type} (lib : BindLib W T Backend).

(** C30: the generated bindings fit the ABI they carry: in a contract that [NewContract]
    has bound, every binding of the router, the ICS20 transfer contract, IFT and ERC20
    tokens and the SP1 light client names a method or an event of the ABI, passes
    arguments of the Go types of its inputs or of its indexed arguments and reads
    results as the Go types of its outputs, so that no conversion panics, whatever the
    arguments and the world. *)
Theorem bindings_fit_abi address backend : Documented lib ->
  (forall c, RouterBinding.NewContract lib address backend = inr c -> Forall is_safe (RouterBinding.bindings c)) /\
  (forall c, Ics20Binding.NewContract lib address backend = inr c -> Forall is_safe (Ics20Binding.bindings c)) /\
  (forall c, IftBinding.NewContract lib address backend = inr c -> Forall is_safe (IftBinding.bindings c)) /\
  (forall c, Erc20Binding.NewContract lib address backend = inr c -> Forall is_safe (Erc20Binding.bindings c)) /\
  (forall c, Sp1Binding.NewContract lib address backend = inr c -> Forall is_safe (Sp1Binding.bindings c)).
Proof.
  intros Hl. split_and!; intros c Hc;
    [by eapply router_bindings_safe | by eapply ics20_bindings_safe | by eapply ift_bindings_safe
    | by eapply erc20_bindings_safe | by eapply sp1_bindings_safe].
Qed.

(** ** What the client calls *)

(** The contracts of the client, the options it passes and the hash it takes of a
    transaction. *)
Context (backend : Backend) (callOpts : CallOpts T) (transactOpts : TransactOpts T) (tx_Hash : Transaction T -> bytes).

(** A binding as an operation of the node; that the last case does not arise is what
    [client_calls_bindings] shows. *)
Definition to_X {A B} (f : A -> B) (m : W -> res A * W) : X W B := fun w =>
  match m w with
  | (Ok a, w') => (inr (f a), w')
  | (Fail err, w') => (inl err, w')
  | (Panic, w') => (inl (ENew "panic"), w')
  end.

(** [x] does what [m] does, which does not panic. *)
Definition does {A B} (f : A -> B) (m : W -> res A * W) (x : X W B) : Prop := forall w,
  match m w with
  | (Ok a, w') => x w = (inr (f a), w')
  | (Fail err, w') => x w = (inl err, w')
  | (Panic, _) => False
  end.

Lemma to_X_does {A B} (f : A -> B) m : (forall w, fst (m w) <> Panic) -> does f m (to_X f m).
Proof. intros Hm w. specialize (Hm w). unfold to_X. by destruct (m w) as [[] ?]. Qed.

(** A binding of a contract that is created for the call. *)
Definition with_contract {C A} (new : error + C) (m : C -> W -> res A * W) : W -> res A * W := fun w =>
  match new with
  | inl err => (Fail err, w)
  | inr c => m c w
  end.

Definition sendTransferMsg (msg : SendTransferMsg) : IICS20TransferMsgsSendTransferMsg :=
  Ics20Binding.mkSendTransferMsg (Addr (st_Denom msg)) (st_Amount msg) (st_Receiver msg) (st_SourceClient msg)
    (st_DestPort msg) (Uint (st_TimeoutTimestamp msg)) (st_Memo msg).

(** What the client reads of a light client. *)
Definition clientStateFields (cs : ClientStateStruct) : Z * Z :=
  (of_uint (ClientState_TrustingPeriod cs), of_uint (Sp1Binding.Height_RevisionHeight (ClientState_LatestHeight cs))).

Section Node.
Context (router : Contract W T) (node : EVMNode W).

(** The operations of the node that go through a binding. *)
Definition op_GetCommitment (h : bytes) := RouterBinding.GetCommitment (Contract_Caller router) callOpts (BytesN h).
Definition op_GetClient (id : string) := RouterBinding.GetClient (Contract_Caller router) callOpts id.
Definition op_ClientState (a : bytes) :=
  with_contract (Sp1Binding.NewContract lib (Addr a) backend) (fun c => Sp1Binding.ClientState (Contract_Caller c) callOpts).
Definition op_Allowance (token owner spender : bytes) :=
  with_contract (Erc20Binding.NewContract lib (Addr token) backend)
    (fun c => Erc20Binding.Allowance (Contract_Caller c) callOpts (Addr owner) (Addr spender)).
Definition op_Approve (token spender : bytes) (amount : Z) :=
  with_contract (Erc20Binding.NewContract lib (Addr token) backend)
    (fun c => Erc20Binding.Approve (Contract_Transactor c) transactOpts (Addr spender) amount).
Definition op_SendTransfer (a : bytes) (msg : SendTransferMsg) :=
  with_contract (Ics20Binding.NewContract lib (Addr a) backend)
    (fun c => Ics20Binding.SendTransfer (Contract_Transactor c) transactOpts (sendTransferMsg msg)).
Definition op_IftTransfer (a : bytes) (id receiver : string) (amount timeout : Z) :=
  with_contract (IftBinding.NewContract lib (Addr a) backend)
    (fun c => IftBinding.IftTransfer (Contract_Transactor c) transactOpts id receiver amount (Uint timeout)).

(** A node with these operations. *)
Definition binding_node : EVMNode W := {|
  TransactionReceipt := TransactionReceipt node; HeaderByNumber := HeaderByNumber node;
  FilterLogs := FilterLogs node; TransactionByHash := TransactionByHash node;
  SuggestGasTipCap := SuggestGasTipCap node; PendingCodeAt := PendingCodeAt node;
  EstimateGas := EstimateGas node; PendingNonceAt := PendingNonceAt node; NonceAt := NonceAt node;
  SendTransaction := SendTransaction node; BalanceAt := BalanceAt node; SignTx := SignTx node; wait := wait node;
  EvmClient.GetCommitment := fun h => to_X of_bytesN (op_GetCommitment h);
  Router_GetClient := fun id => to_X of_Address (op_GetClient id);
  Tendermint_ClientState := fun a => to_X clientStateFields (op_ClientState a);
  EvmClient.Allowance := fun t o s => to_X (fun n => n) (op_Allowance t o s);
  EvmClient.Approve := fun t s n => to_X tx_Hash (op_Approve t s n);
  ICS20_SendTransfer := fun a m => to_X tx_Hash (op_SendTransfer a m);
  IFT_Transfer := fun a id r n ts => to_X tx_Hash (op_IftTransfer a id r n ts);
|}.

(** A safe binding stays safe on a contract that is created for it. *)
Lemma with_contract_safe {C A} (new : error + C) (m : C -> W -> res A * W) :
  (forall c, new = inr c -> forall w, fst (m c w) <> Panic) -> forall w, fst (with_contract new m w) <> Panic.
Proof. intros Hm w. unfold with_contract. by destruct new as [err|c]; [|apply Hm]. Qed.

(** One binding of the table. *)
Lemma safe_in (l : list binding) b : Forall is_safe l -> In b l -> is_safe b.
Proof. intros Hl Hb. by eapply (proj1 (List.Forall_forall _ _) Hl). Qed.

End Node.

Ltac by_table H b := let Hs := fresh "Hs" in
  assert (Hs : is_safe b) by (eapply safe_in; [exact H | cbn; tauto]); intros; apply Hs.

(** The contract operations of the client's node are the bindings: whatever a binding
    returns the operation returns, and none of them panics. *)
Lemma client_calls_bindings address router node : Documented lib ->
  RouterBinding.NewContract lib address backend = inr router ->
  let n := binding_node router node in
  (forall h, does of_bytesN (op_GetCommitment router h) (EvmClient.GetCommitment n h)) /\
  (forall id, does of_Address (op_GetClient router id) (Router_GetClient n id)) /\
  (forall a, does clientStateFields (op_ClientState a) (Tendermint_ClientState n a)) /\
  (forall t o s, does (fun n => n) (op_Allowance t o s) (EvmClient.Allowance n t o s)) /\
  (forall t s a, does tx_Hash (op_Approve t s a) (EvmClient.Approve n t s a)) /\
  (forall a m, does tx_Hash (op_SendTransfer a m) (ICS20_SendTransfer n a m)) /\
  (forall a id r k ts, does tx_Hash (op_IftTransfer a id r k ts) (IFT_Transfer n a id r k ts)).
Proof.
  intros Hl Hr. pose proof (router_bindings_safe _ _ _ _ Hl Hr) as Hrs.
  split_and!; intros; apply to_X_does;
    try (apply with_contract_safe; intros c Hc).
  - by_table Hrs (Binding _ _ (RouterBinding.GetCommitment (Contract_Caller router))).
  - by_table Hrs (Binding _ _ (RouterBinding.GetClient (Contract_Caller router))).
  - by_table (sp1_bindings_safe _ _ _ _ Hl Hc) (Binding _ _ (Sp1Binding.ClientState (Contract_Caller c))).
  - by_table (erc20_bindings_safe _ _ _ _ Hl Hc) (Binding _ _ (Erc20Binding.Allowance (Contract_Caller c))).
  - by_table (erc20_bindings_safe _ _ _ _ Hl Hc) (Binding _ _ (Erc20Binding.Approve (Contract_Transactor c))).
  - by_table (ics20_bindings_safe _ _ _ _ Hl Hc) (Binding _ _ (Ics20Binding.SendTransfer (Contract_Transactor c))).
  - by_table (ift_bindings_safe _ _ _ _ Hl Hc) (Binding _ _ (IftBinding.IftTransfer (Contract_Transactor c))).
Qed.

(** ** What the client parses *)

Definition packetOf (p : IICS26RouterMsgsPacket) : RouterPacket :=
  mkRouterPacket (of_uint (RouterBinding.Packet_Sequence p)) (RouterBinding.Packet_SourceClient p)
    (RouterBinding.Packet_DestClient p) (of_uint (RouterBinding.Packet_TimeoutTimestamp p)).

Definition writeAckOf (e : ContractWriteAcknowledgement) : WriteAcknowledgement :=
  mkWriteAcknowledgement (packetOf (WriteAcknowledgement_Packet e))
    (of_Bytes <$> WriteAcknowledgement_Acknowledgements e) (WriteAcknowledgement_Raw e).

Definition to_sum {A B} (f : A -> B) (r : res A) : error + B :=
  match r with
  | Ok a => inr (f a)
  | Fail err => inl err
  | Panic => inl (ENew "panic")
  end.

Definition reads {A B} (f : A -> B) (r : res A) (x : error + B) : Prop :=
  match r with
  | Ok a => x = inr (f a)
  | Fail err => x = inl err
  | Panic => False
  end.

Lemma to_sum_reads {A B} (f : A -> B) r : r <> Panic -> reads f r (to_sum f r).
Proof. by destruct r. Qed.

(** The functions of the client with the parsers of the router's binding. *)
Definition binding_lib (router : Contract W T) (l : EVMLib) : EVMLib := {|
  HexToHash := HexToHash l; Hash_String := Hash_String l; HexToAddress := HexToAddress l;
  Address_String := Address_String l; Keccak256Hash := Keccak256Hash l; Router_GetAbi := Router_GetAbi l;
  MakeTopics := MakeTopics l; Signed_Hash := Signed_Hash l; Sender := Sender l; EvmClient.NewContract := EvmClient.NewContract l;
  EvmClient.ParseWriteAcknowledgement := fun log =>
    to_sum writeAckOf (RouterBinding.ParseWriteAcknowledgement (Contract_Filterer router) log);
  EvmClient.ParseAckPacket := fun log => to_sum AckPacket_Raw (RouterBinding.ParseAckPacket (Contract_Filterer router) log);
  EvmClient.ParseTimeoutPacket := fun log =>
    to_sum TimeoutPacket_Raw (RouterBinding.ParseTimeoutPacket (Contract_Filterer router) log);
  EvmClient.ParseSendPacket := fun log =>
    to_sum (fun e => packetOf (SendPacket_Packet e)) (RouterBinding.ParseSendPacket (Contract_Filterer router) log);
|}.

Lemma client_parses_bindings address router l : Documented lib ->
  RouterBinding.NewContract lib address backend = inr router ->
  let n := binding_lib router l in
  let f := Contract_Filterer router in
  forall log,
  reads writeAckOf (RouterBinding.ParseWriteAcknowledgement f log) (EvmClient.ParseWriteAcknowledgement n log) /\
  reads AckPacket_Raw (RouterBinding.ParseAckPacket f log) (EvmClient.ParseAckPacket n log) /\
  reads TimeoutPacket_Raw (RouterBinding.ParseTimeoutPacket f log) (EvmClient.ParseTimeoutPacket n log) /\
  reads (fun e => packetOf (SendPacket_Packet e)) (RouterBinding.ParseSendPacket f log) (EvmClient.ParseSendPacket n log).
Proof.
  intros Hl Hr n f log. pose proof (router_bindings_safe _ _ _ _ Hl Hr) as Hrs.
  split_and!; apply to_sum_reads.
  - by_table Hrs (Binding _ _ (RouterBinding.ParseWriteAcknowledgement (Contract_Filterer router))).
  - by_table Hrs (Binding _ _ (RouterBinding.ParseAckPacket (Contract_Filterer router))).
  - by_table Hrs (Binding _ _ (RouterBinding.ParseTimeoutPacket (Contract_Filterer router))).
  - by_table Hrs (Binding _ _ (RouterBinding.ParseSendPacket (Contract_Filterer router))).
Qed.

End BindingTheorems.

(** ** A go-ethereum to try them on *)

Module BindingExamples.

(** A value of each type. *)
Fixpoint zero_value (g : go_type) : value :=
  match g with
  | Guint b => VUint b 0
  | Gbig => VBig 0
  | Gbool => VBool false
  | Gaddress => VAddress []
  | Ghash => VHash []
  | Gstring => VString ""
  | Gbytes => VBytes []
  | Gfixed n => VFixed n []
  | Gstruct fs => VStruct (List.map (fun f => match f with (_, g) => zero_value g end) fs)
  | Gslice _ => VSlice []
  end.

Lemma zero_typed : forall g, typed g (zero_value g).
Proof.
  fix IH 1. intros [| | | | | | | |fs|g]; cbn; try done.
  induction fs as [|[n g] fs IHfs]; cbn; [done|]. by split; [apply IH | apply IHfs].
Qed.

Lemma zeros_typed gs : Forall2 typed gs (zero_value <$> gs).
Proof. induction gs as [|g gs IH]; cbn; constructor; [apply zero_typed | done]. Qed.

(** Contracts that answer with zero values. *)
Definition types : Geth := mkGeth unit unit unit unit string.

Definition bound (abi : ABI) : BoundContract unit types := {|
  bound_Call := fun _ k _ w =>
    (match Methods abi k with Some m => Ok (zero_value <$> m_outputs m) | None => Fail (ENew "no method") end, w);
  bound_Transact := fun _ k _ w => (Ok (k : Transaction types), w);
  bound_Transfer := fun _ w => (Ok ("" : Transaction types), w);
  bound_UnpackLog := fun fields k _ =>
    match Events abi k with Some fs => Ok (zero_value <$> (snd <$> fs)) | None => Fail (ENew "no event") end;
  bound_FilterLogs := fun _ _ _ w => (Ok [REnd None], w);
  bound_WatchLogs := fun _ _ _ w => (Ok tt, w);
|}.

Definition geth : BindLib unit types unit := {|
  GetAbi := inr;
  NewBoundContract := fun _ abi _ _ _ => bound abi;
|}.

Lemma geth_documented : Documented geth.
Proof.
  intros abi parsed [= <-]. split; [done|]. intros address []. split.
  - intros opts k m args w Hm _. cbn. rewrite Hm. apply zeros_typed.
  - done.
  - intros fields k log Hk. cbn. rewrite Hk. apply zeros_typed.
  - done.
  - done.
Qed.

Lemma bindings_fit_abi_witness : exists c, RouterBinding.NewContract geth (Addr []) tt = inr c /\
  Forall is_safe (RouterBinding.bindings c) /\ RouterBinding.GetClient (T:=types) (Contract_Caller c) tt "c-0" tt = (Ok (Addr []), tt).
Proof.
  eexists. split; [reflexivity|]. split; [|vm_compute; reflexivity].
  apply (proj1 (bindings_fit_abi geth (Addr []) tt geth_documented)). reflexivity.
Defined.

End BindingExamples.
