(* ===== verification/CosmosTheorems.v ===== *)
(** * Theorems about the Cosmos bridge client

    How the messages of a relay are spread over transactions, the gas limit and the fee,
    the packets read from events, and the loops on a ticker of both clients. *)

From S2P Require Import Prelude Db Transfer Config World Logic BatchProcessors Once GoLib GoFloat.
From S2P Require Import EvmClient CosmosClient ClientContract ClientWorld EvmTheorems.

(** ** Transactions of a relay *)

Section Plan.
Context {W : Type} (lib : CosmosLib) (node : CosmosNode W) (c : CosmosBridgeClient).

(** The reference: which messages go alone, and which go together at the end. *)
Definition plan (msgs : list Msg) : list Msg * list Msg :=
  if bool_decide (1 < length (filter isUpdateClient msgs))%nat
  then (filter isUpdateClient msgs, filter (fun m => ~ isUpdateClient m) msgs)
  else ([], msgs).

Definition transactions (p : list Msg * list Msg) : list (list Msg) := ((fun m => [m]) <$> p.1) ++ [p.2].

Definition submitAlone (m : Msg) : M W unit :=
  wrap "submitting individual update client message" (Cosmos.signAndSubmitMessages lib node c [m]) ;;
  logf LInfo "submitted individual client update, sleeping to submit next tx" ;;
  Cosmos.sleep node (txSubmissionDelay c).

Definition run_plan (p : list Msg * list Msg) : M W bytes :=
  match p.1 with
  | [] => Cosmos.signAndSubmitMessages lib node c p.2
  | _ =>
      logf LWarn "found update client messages tx, submitting them on chain individually" ;;
      for_each submitAlone p.1 ;;
      logf LInfo "submitted all individual client updates" ;;
      Cosmos.signAndSubmitMessages lib node c p.2
  end.

Lemma submitUpdates_eq msgs : forall rest s,
  Cosmos.submitUpdates lib node c msgs rest s =
  (for_each submitAlone (filter isUpdateClient msgs) ;; ret (rest ++ filter (fun m => ~ isUpdateClient m) msgs)) s.
Proof.
  induction msgs as [|m msgs IH]; intros rest s.
  - cbn. unfold bind, ret. by rewrite app_nil_r.
  - cbn [Cosmos.submitUpdates]. rewrite !filter_cons. destruct (isUpdateClient m); cbn [negb Is_true];
      repeat destruct (decide _); try tauto.
    + cbn [for_each]. unfold submitAlone at 1, bind, wrap.
      destruct (Cosmos.signAndSubmitMessages _ _ _ _ s) as [[h|e|] s1]; cbn; [|done..].
      rewrite IH. done.
    + rewrite IH. by rewrite <- app_assoc.
Qed.

Lemma plan_permutation msgs : concat (transactions (plan msgs)) ≡ₚ msgs.
Proof.
  unfold plan, transactions. case_bool_decide; cbn [fst snd]; [|cbn; by rewrite app_nil_r].
  rewrite concat_app. cbn. rewrite app_nil_r.
  assert (Hc : forall l : list Msg, concat ((fun m => [m]) <$> l) = l).
  { intros l. induction l as [|m l IHl]; [done|]. rewrite fmap_cons. cbn [concat]. by rewrite IHl. }
  rewrite Hc. clear. induction msgs as [|m msgs IH]; [done|].
  rewrite !filter_cons. repeat destruct (decide _); try tauto; cbn [app].
  - by rewrite IH.
  - by rewrite <- Permutation_middle, IH.
Qed.

Lemma plan_one_update msgs tx :
  tx ∈ transactions (plan msgs) -> (length (filter isUpdateClient tx) <= 1)%nat.
Proof.
  unfold plan, transactions. case_bool_decide as Hn; cbn [fst snd]; rewrite elem_of_app, list_elem_of_singleton.
  - intros [Ht|Ht]; [apply list_elem_of_fmap in Ht as (m & -> & _)| subst tx].
    + rewrite filter_cons. case_decide; cbn; lia.
    + clear. induction msgs as [|m msgs IH]; [cbn; lia|].
      rewrite (filter_cons _ m). case_decide; [|done]. rewrite filter_cons, decide_False by done. done.
  - intros [Ht|Ht]; [by apply elem_of_nil in Ht | subst tx; lia].
Qed.

End Plan.

(** C31: how the messages of one relay reach the chain.  Submitting a decoded transaction
    body runs its plan: when more than one message updates a light client, every update
    goes alone, in order, with the pause between transactions after each, and the other
    messages follow together; otherwise all go in one transaction.  In a plan every
    message is sent exactly once, no transaction carries two client updates, and the hash
    that is returned is the last transaction's. *)
Theorem cosmos_submission_plan {W} (lib : CosmosLib) (node : CosmosNode W) c bz anys msgs :
  UnmarshalTxBody lib bz = inr anys -> anys <> [] -> Cosmos.unpackMsgs lib anys = inr msgs ->
  (forall s, Cosmos.signAndSubmit lib node c bz s = run_plan lib node c (plan msgs) s) /\
  concat (transactions (plan msgs)) ≡ₚ msgs /\
  (forall tx, tx ∈ transactions (plan msgs) -> (length (filter isUpdateClient tx) <= 1)%nat).
Proof.
  intros Hb Hn Hm. split; [|split; [apply plan_permutation | apply plan_one_update]].
  intros s. unfold Cosmos.signAndSubmit. rewrite Hb. unfold of_sum, bind, wrap, ret.
  rewrite bool_decide_false by done. rewrite Hm. unfold plan, run_plan. case_bool_decide as Hlt; [|done].
  cbn [fst snd]. destruct (filter isUpdateClient msgs) as [|m l] eqn:Ef; [cbn in Hlt; lia|].
  unfold logf, emit, bind. rewrite submitUpdates_eq, Ef. unfold bind, ret.
  destruct (for_each _ _ _) as [[]?]; done.
Qed.

(** ** Gas and fees *)

Lemma gasLimitOf_exact lib g : 0 <= g <= 2 ^ 51 -> Cosmos.gasLimitOf lib g = (3 * g + 1) / 2.
Proof.
  intros Hg. unfold Cosmos.gasLimitOf, big_Mul, round, float_of_Z. cbn [mantissa exponent].
  rewrite (Z.abs_eq g), (round_even_exact 53 g) by first [lia | apply BitLen_le; lia]. cbn [mantissa exponent].
  assert (Hs : Z.sgn g * g = g) by (destruct g; cbn; lia).
  rewrite Hs, Z.add_0_r, Z.add_0_l, (Z.abs_eq (g * 3)), (round_even_exact 53 (g * 3))
    by first [lia | apply BitLen_le; lia].
  cbn [mantissa exponent].
  assert (Hs3 : Z.sgn (g * 3) * (g * 3) = g * 3) by (destruct g; cbn; lia).
  rewrite Hs3. unfold math_Ceil. cbn [mantissa exponent]. rewrite (bool_decide_false (0 <= -1 + 0)) by lia.
  change (2 ^ (- (-1 + 0))) with 2.
  assert (Heq : - (- (g * 3) / 2) = (3 * g + 1) / 2) by (Z.to_euclidean_division_equations; lia).
  rewrite Heq, bool_decide_true; [done|]. apply Z.div_lt_upper_bound; lia.
Qed.

Section Fee.
Context {W : Type} (lib : CosmosLib) (c : CosmosBridgeClient) (m k : Z).

(** [sdk.NewCoin] makes the coin when the denom is valid and the amount fits. *)
Context (Hcoin : forall a, 0 <= a < 2 ^ 256 -> NewCoin lib (feeDenom c) a = Some (feeDenom c, a)).

Lemma getTxFee_price g (s : Sys W) :
  feeDenom c <> "" -> gasPrice c = mkFloat m (- k) -> feeAmount c = 0 -> 0 < m -> 0 <= k ->
  0 <= g < 2 ^ 63 -> m * g < 2 ^ (64 + k) ->
  exists fee, Cosmos.getTxFee lib c g s = (Ok (feeDenom c, fee), s) /\
    m * g < fee * 2 ^ k <= m * g + 2 * 2 ^ k.
Proof.
  intros Hd Hp Hf Hm Hk Hg Hlt. unfold Cosmos.getTxFee. rewrite bool_decide_false by done.
  rewrite Hp, Hf. unfold float_pos. cbn [mantissa]. rewrite (bool_decide_true (0 < m)) by done.
  rewrite (bool_decide_false (0 < 0)) by lia. cbn [andb]. rewrite to_int64_small by lia.
  unfold big_Mul, float_of_Z. cbn [mantissa exponent]. rewrite Z.add_0_r.
  assert (H2k : 0 < 2 ^ k) by (apply Z.pow_pos_nonneg; lia).
  pose proof (big_Int_round 64 (m * g) (- k) ltac:(nia) ltac:(lia)) as H.
  rewrite Z.max_l, Z.opp_involutive, Z.max_r, Z.pow_0_r, Z.mul_1_r in H by lia. specialize (H Hlt).
  set (fee := big_Int (round 64 (mkFloat (m * g) (- k)))) in *.
  assert (Hi : big_Int (mkFloat (m * g) (- k)) = m * g / 2 ^ k).
  { unfold big_Int. cbn [mantissa exponent]. case_bool_decide as H0.
    - assert (k = 0) as -> by lia. change (- 0) with 0. by rewrite Z.pow_0_r, Z.div_1_r, Z.mul_1_r.
    - rewrite Z.opp_involutive. apply Z.quot_div_nonneg; nia. }
  rewrite Hi in H. pose proof (Z.div_mod (m * g) (2 ^ k) ltac:(lia)) as Hdm.
  pose proof (Z.mod_pos_bound (m * g) (2 ^ k) H2k) as Hmod.
  assert (Hsmall : m * g / 2 ^ k < 2 ^ 64).
  { apply Z.div_lt_upper_bound; [lia|]. by rewrite <- Z.pow_add_r, Z.add_comm by lia. }
  assert (Hpos : 0 <= m * g / 2 ^ k) by (apply Z.div_pos; nia).
  exists (fee + 1). rewrite Hcoin; [split; [done|]; nia|]. split; [lia|]. transitivity (2 ^ 65); [lia | reflexivity].
Qed.

(** C32: gas and fee of a Cosmos transaction.  For a simulation that used up to [2 ^ 51]
    gas the gas limit is one and a half times that, rounded up, although it is computed
    in floating point; and with a gas price the fee in the chain's denom is more than the
    price of the whole gas limit, by at most two units, as long as it is below [2 ^ 64]. *)
Theorem cosmos_fee_covers gasUsed (s : Sys W) :
  feeDenom c <> "" -> gasPrice c = mkFloat m (- k) -> feeAmount c = 0 -> 0 < m -> 0 <= k ->
  0 <= gasUsed <= 2 ^ 51 -> m * Cosmos.gasLimitOf lib gasUsed < 2 ^ (64 + k) ->
  let gasLimit := Cosmos.gasLimitOf lib gasUsed in
  3 * gasUsed <= 2 * gasLimit <= 3 * gasUsed + 1 /\
  exists fee, Cosmos.getTxFee lib c gasLimit s = (Ok (feeDenom c, fee), s) /\
    m * gasLimit < fee * 2 ^ k <= m * gasLimit + 2 * 2 ^ k.
Proof.
  intros Hd Hp Hf Hm Hk Hg Hlt gasLimit.
  assert (Hlim : 3 * gasUsed <= 2 * gasLimit <= 3 * gasUsed + 1).
  { unfold gasLimit. rewrite gasLimitOf_exact by done. Z.to_euclidean_division_equations. lia. }
  split; [done|]. apply getTxFee_price; try done. lia.
Qed.

End Fee.

(** A client without a fee denom cannot tell the fee of any transaction: where the SDK
    refuses the empty denom, [TxFee] panics. *)
Lemma cosmos_TxFee_panics {W} {E : Env W} lib (node : CosmosNode W) c L h bz tx decoded coins s s' :
  feeDenom c = "" -> (forall l, AmountOf lib l "" = None) -> hex_DecodeString h = Some bz ->
  Cosmos.resultOnce node L h bz s = (Ok (Some tx), s') -> TxDecoder lib (Tx_Bytes tx) = inr decoded ->
  decoded_Fee decoded = Some coins ->
  Cosmos.TxFee lib node c L h s = (Panic, s').
Proof.
  intros Hd Ha Hh Hr Ht Hc. unfold Cosmos.TxFee, Cosmos.decodeHash. rewrite Hh.
  unfold bind, wrap, of_sum, ret. rewrite Hr. cbn. rewrite Ht, Hc, Hd, Ha. done.
Qed.

(** ** Packets in events *)

Lemma digit_value_char d : (d < 10)%N -> digit_value (pretty_N_char d) = Some (Z.of_N d).
Proof.
  intros H. assert (Hd : d ∈ (fun n => N.of_nat n) <$> seq 0 10).
  { apply list_elem_of_fmap. exists (N.to_nat d). split; [lia|]. apply elem_of_seq. lia. }
  cbn in Hd. rewrite !elem_of_cons in Hd. destruct_or!; try subst; try reflexivity. by apply elem_of_nil in Hd.
Qed.

Lemma parse_digits_pretty x : forall s, parse_digits 0 (pretty_N_go x s) = parse_digits (Z.of_N x) s.
Proof.
  induction (N.lt_wf_0 x) as [x _ IH]. intros s. destruct (decide (x = 0)%N) as [->|N]; [done|].
  rewrite pretty_N_go_step by lia. rewrite IH by (apply N.div_lt; lia). cbn [parse_digits].
  rewrite digit_value_char by (apply N.mod_lt; lia). cbn [mbind option_bind]. f_equal.
  rewrite N2Z.inj_div, N2Z.inj_mod. pose proof (Z.div_mod (Z.of_N x) 10 ltac:(lia)). change (Z.of_N 10) with 10. lia.
Qed.

Lemma pretty_N_go_digit x : forall s, (0 < x)%N -> exists c s', pretty_N_go x s = String c s' /\ is_Some (digit_value c).
Proof.
  induction (N.lt_wf_0 x) as [x _ IH]. intros s Hx. rewrite pretty_N_go_step by lia.
  destruct (decide (x / 10 = 0)%N) as [->|N].
  - rewrite pretty_N_go_0. eexists _, _. split; [done|]. rewrite digit_value_char by (apply N.mod_lt; lia). by eexists.
  - apply IH; [apply N.div_lt; lia | by apply N.neq_0_lt_0].
Qed.

(** A text that starts with a digit has no sign. *)
Lemma SetString10_digits c s : is_Some (digit_value c) -> SetString10 (String c s) = parse_digits 0 (String c s).
Proof. intros H. destruct c as [[] [] [] [] [] [] [] []]; first [reflexivity | by destruct H]. Qed.

Lemma SetString10_pretty_N x : SetString10 (pretty x) = Some (Z.of_N x).
Proof.
  unfold pretty, pretty_N. case_decide as H; [by subst|].
  destruct (pretty_N_go_digit x "" ltac:(lia)) as (c & s & Hs & Hc).
  rewrite Hs, SetString10_digits, <- Hs by done. by rewrite parse_digits_pretty.
Qed.

Lemma Atoi_pretty n : min_int64 <= n <= max_int64 -> strconv_Atoi (pretty n) = Some n.
Proof.
  intros Hn. assert (Hs : SetString10 (pretty n) = Some n).
  { destruct n as [|p|p]; [done | exact (SetString10_pretty_N (Npos p))|].
    change (pretty (Zneg p)) with ("-" +:+ pretty (Npos p)).
    pose proof (SetString10_pretty_N (Npos p)) as H. unfold pretty, pretty_N in H |- *. rewrite decide_False in H |- * by done.
    destruct (pretty_N_go_digit (Npos p) "" ltac:(lia)) as (c & s & Hs & Hc).
    rewrite Hs in H |- *. rewrite SetString10_digits in H by done.
    change (Z.opp <$> parse_digits 0 (String c s) = Some (Z.neg p)). by rewrite H. }
  unfold strconv_Atoi. rewrite Hs. by rewrite bool_decide_true.
Qed.

(** The attributes with a key, at least one, all have this value. *)
Definition attribute_is (key value : string) (attributes : list Attribute) : Prop :=
  (exists a, a ∈ attributes /\ Key a = key) /\ forall a, a ∈ attributes -> Key a = key -> Value a = value.

(** The event a chain emits for a sent packet, its attributes in any order and among any
    others. *)
Record describes (p : PacketInfo) (e : Event) : Prop := {
  event_type : Event_Type e = eventTypeSendPacket;
  event_sequence : attribute_is attributeKeyPacketSequence (pretty (Sequence p)) (Attributes e);
  event_source : attribute_is attributeKeyPacketSourceClient (SourceClient p) (Attributes e);
  event_dest : attribute_is attributeKeyPacketDestClient (DestinationClient p) (Attributes e);
  event_timeout : exists sec, attribute_is attributeKeyPacketTimeoutTimestamp (pretty sec) (Attributes e) /\
    TimeoutTimestamp p = sec * Second /\ - 2 ^ 63 <= sec < 2 ^ 63;
  event_range : 0 <= Sequence p < 2 ^ 63;
  event_clients : SourceClient p <> "" /\ DestinationClient p <> "";
}.

Definition has_key (key : string) (attributes : list Attribute) : bool :=
  existsb (fun a => bool_decide (Key a = key)) attributes.

(** What reading the attributes of a described packet leaves, from any packet. *)
Lemma readPacket_attributes p sec attributes : forall q,
  TimeoutTimestamp p = sec * Second -> - 2 ^ 63 <= sec < 2 ^ 63 -> 0 <= Sequence p < 2 ^ 63 ->
  (forall a, a ∈ attributes -> Key a = attributeKeyPacketSequence -> Value a = pretty (Sequence p)) ->
  (forall a, a ∈ attributes -> Key a = attributeKeyPacketSourceClient -> Value a = SourceClient p) ->
  (forall a, a ∈ attributes -> Key a = attributeKeyPacketDestClient -> Value a = DestinationClient p) ->
  (forall a, a ∈ attributes -> Key a = attributeKeyPacketTimeoutTimestamp -> Value a = pretty sec) ->
  Cosmos.readPacket attributes q = inr (mkPacketInfo
    (if has_key attributeKeyPacketSequence attributes then Sequence p else Sequence q)
    (if has_key attributeKeyPacketSourceClient attributes then SourceClient p else SourceClient q)
    (if has_key attributeKeyPacketDestClient attributes then DestinationClient p else DestinationClient q)
    (if has_key attributeKeyPacketTimeoutTimestamp attributes then TimeoutTimestamp p else TimeoutTimestamp q)
    (PacketTimestamp q)).
Proof.
  induction attributes as [|a attributes IH]; intros q Hto Hsec Hseq H1 H2 H3 H4; [by destruct q|].
  assert (Htail : forall key v, (forall b, b ∈ a :: attributes -> Key b = key -> Value b = v) ->
            forall b, b ∈ attributes -> Key b = key -> Value b = v).
  { intros key v H b Hb. apply H. by apply elem_of_cons; right. }
  cbn [Cosmos.readPacket has_key existsb]. specialize (fun q => IH q Hto Hsec Hseq (Htail _ _ H1) (Htail _ _ H2) (Htail _ _ H3) (Htail _ _ H4)).
  assert (Hin : a ∈ a :: attributes) by apply elem_of_cons, or_introl, eq_refl.
  specialize (H1 a Hin). specialize (H2 a Hin). specialize (H3 a Hin). specialize (H4 a Hin). clear Htail Hin.
  case_bool_decide as E1; [|case_bool_decide as E2; [|case_bool_decide as E3; [|case_bool_decide as E4]]].
  - rewrite H1 by done. rewrite Atoi_pretty by (unfold min_int64, max_int64; lia).
    rewrite IH, E1. cbn. rewrite to_uint64_small by lia. by destruct (has_key attributeKeyPacketSequence attributes).
  - rewrite H2 by done. rewrite IH, E2. cbn. by destruct (has_key attributeKeyPacketSourceClient attributes).
  - rewrite H3 by done. rewrite IH, E3. cbn. by destruct (has_key attributeKeyPacketDestClient attributes).
  - rewrite H4 by done. rewrite Atoi_pretty by (unfold min_int64, max_int64; lia). rewrite IH. cbn.
    unfold time_Unix. rewrite to_int64_small by lia. rewrite <- Hto.
    by destruct (has_key attributeKeyPacketTimeoutTimestamp attributes).
  - rewrite IH. cbn [orb]. done.
Qed.

Lemma has_key_true key value attributes : attribute_is key value attributes -> has_key key attributes = true.
Proof.
  intros [(a & Ha & Hk) _]. unfold has_key. apply existsb_exists. exists a. rewrite bool_decide_eq_true.
  split; [by apply list_elem_of_In | done].
Qed.

Lemma readPacket_describes p e :
  describes p e -> Cosmos.readPacket (Attributes e) Cosmos.zeroPacket = inr (p <| PacketTimestamp := zero_time |>).
Proof.
  intros [_ Hs Hsrc Hdst (sec & Hto & Hsec & Hr) Hrange _].
  rewrite (readPacket_attributes p sec) by first [done | apply Hs | apply Hsrc | apply Hdst | apply Hto].
  by rewrite (has_key_true _ _ _ Hs), (has_key_true _ _ _ Hsrc), (has_key_true _ _ _ Hdst), (has_key_true _ _ _ Hto).
Qed.

(** An event of IBC v1 has the same type; it names no clients. *)
Lemma readPacket_v1 attributes : forall q,
  has_key attributeKeyPacketSourceClient attributes = false ->
  (forall a, a ∈ attributes -> Key a = attributeKeyPacketSequence \/ Key a = attributeKeyPacketTimeoutTimestamp ->
     is_Some (strconv_Atoi (Value a))) ->
  exists q', Cosmos.readPacket attributes q = inr q' /\ SourceClient q' = SourceClient q.
Proof.
  induction attributes as [|a attributes IH]; intros q Hk Hn; [by exists q|].
  cbn [has_key existsb] in Hk. apply orb_false_iff in Hk as [Hk1%bool_decide_eq_false Hk2].
  assert (Hrest : forall q', SourceClient q' = SourceClient q ->
    exists q'', Cosmos.readPacket attributes q' = inr q'' /\ SourceClient q'' = SourceClient q).
  { intros q' Hq'. destruct (IH q' Hk2) as (q'' & H1 & H2); [|exists q''; by rewrite H2].
    intros b Hb. apply Hn, elem_of_cons. by right. }
  specialize (Hn a ltac:(by apply elem_of_cons; left)). cbn [Cosmos.readPacket].
  case_bool_decide as E1; [|rewrite (bool_decide_false _ Hk1); case_bool_decide as E2; [|case_bool_decide as E3]].
  - destruct (Hn (or_introl E1)) as [n ->]. by apply Hrest.
  - by apply Hrest.
  - destruct (Hn (or_intror E3)) as [n ->]. by apply Hrest.
  - by apply Hrest.
Qed.

(** The events of a transaction that sent these packets, in order. *)
Inductive emits : list Event -> list PacketInfo -> Prop :=
  | emits_nil : emits [] []
  | emits_other e es ps : Event_Type e <> eventTypeSendPacket -> emits es ps -> emits (e :: es) ps
  | emits_v1 e es ps :
      has_key attributeKeyPacketSourceClient (Attributes e) = false ->
      (forall a, a ∈ Attributes e -> Key a = attributeKeyPacketSequence \/ Key a = attributeKeyPacketTimeoutTimestamp ->
         is_Some (strconv_Atoi (Value a))) ->
      emits es ps -> emits (e :: es) ps
  | emits_v2 e es p ps : describes p e -> emits es ps -> emits (e :: es) (p :: ps).

Lemma sendPackets_emits es ps :
  emits es ps -> Cosmos.sendPackets es = inr ((fun p => p <| PacketTimestamp := zero_time |>) <$> ps).
Proof.
  induction 1 as [|e es ps Hne _ IH|e es ps Hk Hn _ IH|e es p ps Hd _ IH]; [done|..]; cbn [Cosmos.sendPackets].
  - by rewrite bool_decide_false.
  - case_bool_decide; cbn [negb]; [|done].
    destruct (readPacket_v1 (Attributes e) Cosmos.zeroPacket Hk Hn) as (q & -> & Hq). rewrite IH, Hq. done.
  - rewrite bool_decide_true by apply Hd. cbn [negb]. rewrite (readPacket_describes p e Hd), IH.
    destruct (event_clients _ _ Hd) as [H1 H2]. cbn. by rewrite !bool_decide_false.
Qed.

(** C33: the packets of a transaction on a Cosmos chain are read back from its events: if
    the chain wrote an event for every packet, with its attributes in any order and among
    any others, between events of other kinds and of IBC v1, [SendPacketsFromTx] returns
    exactly those packets, in order, with the time of the block.  Decimal sequence
    numbers below [2 ^ 63] and timeouts survive their text form. *)
Theorem cosmos_send_packets_roundtrip {W} (node : CosmosNode W) chain hash bz tx ps ts s :
  hex_DecodeString hash = Some bz -> emits (Tx_Events tx) ps ->
  (forall w, fst (CosmosClient.Tx node bz w) = inr (Some tx)) ->
  (forall w, fst (CosmosClient.Header node (Some (Tx_Height tx)) w) = inr (Some ts)) ->
  wp (Cosmos.SendPacketsFromTx node chain hash)
    (fun r _ => r = Ok ((fun p => p <| PacketTimestamp := ts |>) <$> ps)) s.
Proof.
  intros Hh He Ht Hb. unfold Cosmos.SendPacketsFromTx, Cosmos.decodeHash. rewrite Hh.
  apply wp_bind, wp_wrap, wp_ret, wp_bind, wp_wrap, wp_call. intros r w Hr.
  specialize (Ht (world s)). rewrite Hr in Ht. cbn in Ht. subst r. apply wp_bind, wp_ret, wp_bind, wp_of_sum.
  rewrite (sendPackets_emits _ _ He). destruct ps as [|p ps]; [by apply wp_ret|]. rewrite fmap_cons.
  unfold Cosmos.headerAt. apply wp_bind, wp_bind, wp_wrap, wp_call. cbn [world]. intros r w' Hr'.
  specialize (Hb w). rewrite Hr' in Hb. cbn in Hb. subst r. apply wp_ret, wp_ret. f_equal.
  rewrite fmap_cons. f_equal. rewrite <- list_fmap_compose. done.
Qed.

(** ** Loops on a ticker *)

Section Wait.
Context {W : Type} {E : Env W} (node : CosmosNode W).

Record cosmos_advances (chain_time : W -> Z) (d goal : Z) : Prop := {
  cosmos_wait_advances : forall t w, fst (cosmos_wait node t w) = inr tt /\
    Z.min (chain_time w + d) (goal + 1) <= chain_time (snd (cosmos_wait node t w));
  cosmos_header_advances : forall w, fst (CosmosClient.Header node None w) = inr (Some (chain_time w)) /\
    chain_time w <= chain_time (snd (CosmosClient.Header node None w));
  cosmos_clock_advances : forall w, chain_time w <= chain_time (snd (clock w));
}.

Lemma cosmos_waitForChain_ends chain_time d ticks : forall tick now s,
  cosmos_advances chain_time d now -> (0 < ticks)%nat -> now - chain_time (world s) < Z.of_nat ticks * d ->
  wp (Cosmos.waitForChain node ticks tick now) (fun r _ => r = Ok true) s.
Proof.
  induction ticks as [|ticks IH]; intros tick now s Ha Hpos Hlt; [lia|].
  cbn [Cosmos.waitForChain]. apply wp_bind, wp_call. intros r w Hw.
  destruct (cosmos_wait_advances _ _ _ Ha tick (world s)) as [H1 H2]. rewrite Hw in H1, H2. cbn in H1, H2. subst r.
  unfold Cosmos.headerAt. apply wp_bind, wp_bind, wp_wrap, wp_call. cbn [world]. intros r w' Hh.
  destruct (cosmos_header_advances _ _ _ Ha w) as (H3 & H5). rewrite Hh in H3, H5. cbn in H3, H5. subst r. apply wp_ret.
  unfold time_After. case_bool_decide as Hafter; [by apply wp_ret|].
  apply wp_bind. unfold Since. apply wp_bind, wp_Now. cbn [world]. intros t w'' Hc. apply wp_ret.
  pose proof (cosmos_clock_advances _ _ _ Ha w') as H6. rewrite Hc in H6. cbn in H6.
  assert (Hgo : forall s', world s' = w'' -> wp (Cosmos.waitForChain node ticks Second now) (fun r _ => r = Ok true) s').
  { intros s' Hs'. destruct ticks as [|ticks']; [exfalso; lia|]. apply IH; [done | lia | rewrite Hs'; nia]. }
  apply wp_bind. case_bool_decide; apply wp_emit; by apply Hgo.
Qed.

(** While the node says that a transaction is not found, [WaitForTx] goes on waiting,
    whatever the clock says: the minute after which it gives up is only looked at when
    the node returns neither a transaction nor an error. *)
Lemma cosmos_waitForTx_waits ticks : forall start bz s,
  (forall t w, fst (cosmos_wait node t w) = inr tt) ->
  (forall w, exists e, fst (CosmosClient.Tx node bz w) = inl e /\ strings_Contains (Error_text e) "not found" = true) ->
  wp (Cosmos.waitForTx node ticks start bz) (fun r _ => r = Ok false) s.
Proof.
  induction ticks as [|ticks IH]; intros start bz s Hwait Hr; [by apply wp_ret|].
  cbn [Cosmos.waitForTx]. apply wp_bind, wp_call. intros r w Hw. specialize (Hwait (3 * Second) (world s)) as H1.
  rewrite Hw in H1. cbn in H1. subst r. apply wp_bind, wp_try, wp_call. cbn [world]. intros r w' Hr'.
  destruct (Hr w) as (e & He & Hn). rewrite Hr' in He. cbn in He. subst r. cbn beta iota. rewrite Hn. by apply IH.
Qed.

End Wait.

(** C34: [WaitForChain] of both clients ends: when the time of the latest block moves on
    by at least [d] with every tick until it is past the clock at the start, it returns without an error within the number of
    ticks that bridges the distance between the clock at the start and the chain. *)
Theorem wait_for_chain_terminates {W} {E : Env W} enode cnode (evm_time cosmos_time : W -> Z) d ticks (s : Sys W) :
  evm_advances enode evm_time d (fst (clock (world s))) -> cosmos_advances cnode cosmos_time d (fst (clock (world s))) ->
  (0 < ticks)%nat ->
  (fst (clock (world s)) - evm_time (world s) < Z.of_nat ticks * d ->
   wp (EVM.WaitForChain enode ticks) (fun r _ => r = Ok true) s) /\
  (fst (clock (world s)) - cosmos_time (world s) < Z.of_nat ticks * d ->
   wp (Cosmos.WaitForChain cnode ticks) (fun r _ => r = Ok true) s).
Proof.
  intros He Hc Hpos. split; intros Hlt; apply wp_bind, wp_Now; intros now w Hnow; rewrite Hnow in Hlt, He, Hc;
    cbn [fst] in Hlt, He, Hc.
  - apply (evm_waitForChain_ends enode evm_time d); [done | done |]. cbn [world].
    pose proof (evm_clock_advances _ _ _ _ He (world s)) as H. rewrite Hnow in H. cbn in H. lia.
  - apply (cosmos_waitForChain_ends cnode cosmos_time d); [done | done |]. cbn [world].
    pose proof (cosmos_clock_advances _ _ _ _ Hc (world s)) as H. rewrite Hnow in H. cbn in H. lia.
Qed.

(** ** The theorems at work *)

Module CosmosExamples.
Import ClientWorld.

(** Two updates and a packet: the updates go alone. *)
Lemma cosmos_submission_plan_witness :
  plan [MsgUpdateClient [1]; MsgRecvPacket "signer" [2]; MsgUpdateClient [1]]
    = ([MsgUpdateClient [1]; MsgUpdateClient [1]], [MsgRecvPacket "signer" [2]]) /\
  forall s, Cosmos.signAndSubmit cosmos_lib (cosmos_node good_cosmos) cosmos_client [1; 2; 1] s =
    run_plan cosmos_lib (cosmos_node good_cosmos) cosmos_client
      (plan [MsgUpdateClient [1]; MsgRecvPacket "signer" [2]; MsgUpdateClient [1]]) s.
Proof.
  split; [reflexivity|].
  apply (cosmos_submission_plan cosmos_lib (cosmos_node good_cosmos) cosmos_client [1; 2; 1] [[1]; [2]; [1]]); done.
Defined.

(** 1001 gas at a price of 5/2: a limit of 1502 and a fee of 3756. *)
Lemma cosmos_fee_covers_witness :
  Cosmos.gasLimitOf cosmos_lib 1001 = 1502 /\
  exists fee, Cosmos.getTxFee cosmos_lib cosmos_client 1502 (mkSys w0 db.empty_DB []) =
    (Ok ("atom", fee), mkSys w0 db.empty_DB []) /\ 5 * 1502 < fee * 2 ^ 1 <= 5 * 1502 + 2 * 2 ^ 1.
Proof.
  split; [vm_compute; reflexivity|].
  refine (proj2 (cosmos_fee_covers cosmos_lib cosmos_client 5 1 _ 1001 (mkSys w0 db.empty_DB []) _ _ _ _ _ _ _));
    try (cbn; (done || lia)).
  - intros a Ha. cbn [NewCoin cosmos_lib feeDenom cosmos_client].
    rewrite (bool_decide_false ("atom" = "")) by done. rewrite !bool_decide_false by lia. done.
Defined.

Definition packet7 : PacketInfo := mkPacketInfo 7 "c-0" "c-1" (5 * Second) (9 * Second).
Definition event7 : Event := mkEvent eventTypeSendPacket
  [mkAttribute "packet_dest_client" "c-1"; mkAttribute "packet_timeout_timestamp" "5";
   mkAttribute "module" "ibc"; mkAttribute "packet_sequence" "7"; mkAttribute "packet_source_client" "c-0"].
Definition sent7 : cosmos_script :=
  mkCosmosScript (inr (Some (mkResultTx [1] 5 0 "" [mkEvent "tx" []; event7] []))) (fun _ => 9 * Second) 0.

Lemma event7_describes : describes packet7 event7.
Proof.
  assert (Hattr : forall key value i, (exists a, Attributes event7 !! i = Some a /\ Key a = key) ->
    Forall (fun a => Key a = key -> Value a = value) (Attributes event7) -> attribute_is key value (Attributes event7)).
  { intros key value i (a & Ha & Hk) Hf. rewrite Forall_forall in Hf. split; [|done].
    exists a. split; [by eapply list_elem_of_lookup_2 | done]. }
  split; try done; try (cbn; lia).
  - apply (Hattr _ _ 3%nat); [by eexists | by repeat constructor].
  - apply (Hattr _ _ 4%nat); [by eexists | by repeat constructor].
  - apply (Hattr _ _ 0%nat); [by eexists | by repeat constructor].
  - exists 5. split; [|cbn; lia]. apply (Hattr _ _ 1%nat); [by eexists | by repeat constructor].
Qed.

Lemma cosmos_send_packets_roundtrip_witness :
  wp (Cosmos.SendPacketsFromTx (cosmos_node sent7) "src" "ab") (fun r _ => r = Ok [packet7]) (mkSys w0 db.empty_DB []).
Proof.
  apply (cosmos_send_packets_roundtrip (cosmos_node sent7) "src" "ab" [171]
    (mkResultTx [1] 5 0 "" [mkEvent "tx" []; event7] []) [packet7]); [reflexivity | | done | done].
  apply emits_other; [done|]. apply emits_v2; [exact event7_describes | constructor].
Defined.

(** A chain that is ten seconds behind the world's clock and follows it, and one that is
    ahead. *)
Definition ahead : evm_script := mkEvmScript (inr None) (fun _ => 1000) [] 0 0.
Definition behind : cosmos_script := mkCosmosScript (inr None) (fun w => cw_now w - 10 * Second) 0.

Lemma wait_for_chain_terminates_witness :
  wp (Cosmos.WaitForChain (E:=base_env) (cosmos_node behind) 11) (fun r _ => r = Ok true) (mkSys w0 db.empty_DB []).
Proof.
  refine (proj2 (wait_for_chain_terminates (E:=base_env) (evm_node ahead) (cosmos_node behind)
    (fun _ => 1000 * Second) (fun w => cw_now w - 10 * Second) Second 11 (mkSys w0 db.empty_DB []) _ _ _) _).
  - split.
    + intros t w. split; [done|]. cbn [world base_env clock tick w0 cw_now fst]. unfold Second, Millisecond, Microsecond. lia.
    + intros w. by eexists.
    + intros w. lia.
  - split.
    + intros t w. split; [done|]. cbn. lia.
    + intros w. split; [done|]. cbn. lia.
    + intros w. cbn. unfold Second, Millisecond, Microsecond. lia.
  - lia.
  - vm_compute. reflexivity.
Defined.

End CosmosExamples.
