(* ===== verification/SignerTheorems.v ===== *)
(** * Theorems about signing

    What the Cosmos client broadcasts carries a signature of exactly what it broadcasts,
    with a local key and with the remote service, although the service is given the bytes
    to sign before the signer's info is set. *)

From S2P Require Import Prelude Db Transfer Config World Logic Once GoLib GoFloat EvmClient CosmosClient Signers.
From S2P Require Import ClientContract ClientWorld.

(** ** Transactions as the SDK keeps them *)

Record SignerInfo := mkSignerInfo {
  info_PubKey : bytes;
  info_Mode : Z;
  info_Sequence : Z;
}.

(** An object of the SDK: what is signed besides the chain and account (the body and the
    signer infos), and the signatures. *)
Record TxContent := mkTxContent {
  content_body : CosmosTx;
  content_infos : list SignerInfo;
  content_sigs : list bytes;
}.

Definition info_of (sig : SignatureV2) : SignerInfo := mkSignerInfo (sig_PubKey sig) (sig_Mode sig) (sig_Sequence sig).

(** What the code relies on in the SDK: a transaction and its builder are one object,
    setters set, the bytes to sign are a function of the object without its signatures,
    and a local signature is one of these bytes. *)
Class TxConfigLaws {W} (cfg : TxConfig W) (content : Ref -> W -> TxContent)
    (sign_doc : Z -> SignerData -> CosmosTx -> list SignerInfo -> bytes) (encode : TxContent -> bytes)
    (secp_PubKey : bytes -> bytes) (verify : bytes -> bytes -> bytes -> Prop) : Prop := {
  new_empty : forall w, content (fst (NewTxBuilder cfg w)) (snd (NewTxBuilder cfg w)) = mkTxContent (mkCosmosTx [] 0 []) [] [];
  wrap_same : forall tx w b w', WrapTxBuilder cfg tx w = (inr b, w') -> b = tx /\ w' = w;
  get_same : forall b w, GetTx cfg b w = (b, w);
  set_msgs : forall b msgs w u w', SetMsgs cfg b msgs w = (inr u, w') ->
    let x := content b w in
    content b w' = mkTxContent (mkCosmosTx msgs (tx_GasLimit (content_body x)) (tx_Fee (content_body x)))
                     (content_infos x) (content_sigs x);
  set_gas : forall b gas w,
    let x := content b w in
    content b (SetGasLimit cfg b gas w) = mkTxContent (mkCosmosTx (tx_Msgs (content_body x)) gas (tx_Fee (content_body x)))
                                            (content_infos x) (content_sigs x);
  set_fee : forall b fee w,
    let x := content b w in
    content b (SetFeeAmount cfg b fee w) = mkTxContent (mkCosmosTx (tx_Msgs (content_body x)) (tx_GasLimit (content_body x)) fee)
                                             (content_infos x) (content_sigs x);
  set_sigs : forall b sig w u w', SetSignatures cfg b sig w = (inr u, w') ->
    content b w' = mkTxContent (content_body (content b w)) [info_of sig] [sig_Signature sig];
  sign_bytes : forall mode data tx w bz w', GetSignBytesAdapter cfg mode data tx w = (inr bz, w') ->
    bz = sign_doc mode data (content_body (content tx w)) (content_infos (content tx w)) /\ w' = w;
  sign_local : forall mode data b key seq w sig w', SignWithPrivKey cfg mode data b key seq w = (inr sig, w') ->
    info_of sig = mkSignerInfo (secp_PubKey key) mode seq /\
    verify (secp_PubKey key) (sign_doc mode data (content_body (content b w)) (content_infos (content b w)))
      (sig_Signature sig) /\ w' = w;
  encode_tx : forall tx w bz w', TxEncoder cfg tx w = (inr bz, w') -> bz = encode (content tx w) /\ w' = w;
}.

Section SignedBroadcast.
Context {W : Type} (slib : SignerLib W) (content : Ref -> W -> TxContent)
  (sign_doc : Z -> SignerData -> CosmosTx -> list SignerInfo -> bytes) (encode : TxContent -> bytes)
  (verify : bytes -> bytes -> bytes -> Prop).
Notation Laws cfg := (TxConfigLaws cfg content sign_doc encode (secp_PubKey slib) verify).

(** The object's memory, across a call that is not about transactions. *)
Definition keeps {A} (x : X W A) : Prop := forall w r, content r (snd (x w)) = content r w.

Lemma keeps_eq {A} (x : X W A) w r w' t : keeps x -> x w = (r, w') -> content t w' = content t w.
Proof. intros K H. specialize (K w t). by rewrite H in K. Qed.

(** The service gives one key per wallet and signs with it, and its calls do not touch
    the program's memory. *)
Record HonestService (wallet : string) (key : bytes) : Prop := {
  service_key : forall w k w', sc_GetWallet slib wallet PubKeyType_Cosmos w = (inr k, w') -> k = key;
  service_signs : forall doc w resp w',
    sc_Sign slib (mkSignRequest wallet (SignRequest_CosmosTransaction doc)) w = (inr resp, w') ->
    verify key doc (GetCosmosSignature resp);
  service_wallet_keeps : keeps (sc_GetWallet slib wallet PubKeyType_Cosmos);
  service_sign_keeps : forall req, keeps (sc_Sign slib req);
}.

(** The signers of a Cosmos chain, the key and the mode they sign with. *)
Inductive signs_as : Signer W -> TxConfig W -> bytes -> Z -> Prop :=
  | signs_local key cfg : signs_as (LocalCosmosSigner key) cfg (secp_PubKey slib key) (DefaultMode cfg)
  | signs_remote wallet chain cfg cfg' key : Laws cfg' -> HonestService wallet key ->
      signs_as (RemoteCosmosSigner wallet chain cfg') cfg key SIGN_MODE_DIRECT.

(** What a signer leaves: the body, its own info, and a signature of the body with the
    infos [signed]. *)
Definition signed_by (key : bytes) (mode : Z) (data : SignerData) (body : CosmosTx) (signed : list SignerInfo)
    (x : TxContent) : Prop :=
  exists sig, x = mkTxContent body [mkSignerInfo key mode (data_Sequence data)] [sig] /\
    verify key (sign_doc mode data body signed) sig.

(** The infos that are under the signature: a local signer sets its own first, the
    remote one takes them as they are. *)
Definition signed_infos (signer : Signer W) (key : bytes) (mode sequence : Z) (x : TxContent) : list SignerInfo :=
  match signer with
  | RemoteCosmosSigner _ _ _ => content_infos x
  | _ => [mkSignerInfo key mode sequence]
  end.

Lemma wp_step {A} (f : W -> A * W) Q (s : Sys W) :
  Q (Ok (fst (f (world s)))) (mkSys (snd (f (world s))) (tables s) (trace s)) -> wp (Cosmos.step f) Q s.
Proof. intros H. unfold wp, Cosmos.step. by destruct (f (world s)). Qed.

Lemma wp_GetTx cfg b Q (s : Sys W) : Laws cfg -> Q (Ok b) s -> wp (Cosmos.step (GetTx cfg b)) Q s.
Proof. intros L HQ. apply wp_step. rewrite (get_same (cfg:=cfg)). by destruct s. Qed.

Lemma SignCosmosTx_signs cfg key chain acc seq tx s :
  Laws cfg ->
  wp (Signing.SignCosmosTx slib key cfg chain acc seq tx) (fun r s' => match r with
    | Ok tx' => tx' = tx /\
        signed_by (secp_PubKey slib key) (DefaultMode cfg) (mkSignerData chain acc seq) (content_body (content tx (world s)))
          [mkSignerInfo (secp_PubKey slib key) (DefaultMode cfg) seq] (content tx (world s'))
    | _ => True end) s.
Proof.
  intros L. unfold Signing.SignCosmosTx. apply wp_bind, wp_call. intros [e|b] w1 H1; [done|].
  apply wrap_same in H1 as [-> ->].
  apply wp_bind, wp_call. cbn [world]. intros [e|u] w2 H2; [done|]. apply set_sigs in H2.
  apply wp_bind, wp_call. cbn [world]. intros [e|sig] w3 H3; [done|].
  apply sign_local in H3 as (Hi & Hv & ->). rewrite H2 in Hv.
  apply wp_bind, wp_call. cbn [world]. intros [e|u'] w4 H4; [done|]. apply set_sigs in H4.
  apply wp_GetTx; [done|]. split; [done|]. cbn [world]. rewrite H4, H2, Hi. by exists (sig_Signature sig).
Qed.

Lemma SignCosmosTransaction_signs cfg wallet key chain acc seq tx s :
  Laws cfg -> HonestService wallet key ->
  wp (Signing.SignCosmosTransaction slib tx acc seq chain wallet cfg) (fun r s' => match r with
    | Ok tx' => tx' = tx /\
        signed_by key SIGN_MODE_DIRECT (mkSignerData chain acc seq) (content_body (content tx (world s)))
          (content_infos (content tx (world s))) (content tx (world s'))
    | _ => True end) s.
Proof.
  intros L S. unfold Signing.SignCosmosTransaction. apply wp_bind, wp_GetTx; [done|].
  apply wp_bind, wp_wrap, wp_call. intros [e|doc] w1 H1; [done|]. apply sign_bytes in H1 as [-> ->].
  apply wp_bind, wp_wrap, wp_call. cbn [world]. intros [e|resp] w2 H2; [done|].
  pose proof (keeps_eq _ _ _ _ tx (service_sign_keeps _ _ S _) H2) as K2. apply (service_signs _ _ S) in H2.
  apply wp_bind, wp_try, wp_call. cbn [world] in *. intros [e|k] w3 H3; [by apply wp_bind, wp_emit, wp_fail|].
  pose proof (keeps_eq _ _ _ _ tx (service_wallet_keeps _ _ S) H3) as K3. apply (service_key _ _ S) in H3 as ->.
  apply wp_bind, wp_call. cbn [world] in *. intros [e|u] w4 H4; [done|]. apply set_sigs in H4.
  apply wp_GetTx; [done|]. split; [done|]. cbn [world]. rewrite H4, K3, K2. by eexists.
Qed.

(** [Sign] of a Cosmos signer. *)
Lemma Sign_signs signer cfg key mode chain acc seq tx s :
  Laws cfg -> signs_as signer cfg key mode ->
  wp (Signing.Sign slib signer chain (CosmosTransaction_ (mkCosmosTransaction tx acc seq cfg))) (fun r s' => match r with
    | Ok signed => signed = Some (CosmosTransaction_ (mkCosmosTransaction tx acc seq cfg)) /\
        signed_by key mode (mkSignerData chain acc seq) (content_body (content tx (world s)))
          (signed_infos signer key mode seq (content tx (world s))) (content tx (world s'))
    | _ => True end) s.
Proof.
  intros L H. destruct H as [sk cfg|wallet chain' cfg cfg' key L' S];
    cbn [Signing.Sign Signing.LocalCosmosSigner_Sign Signing.RemoteCosmosSigner_Sign
         ct_Tx ct_AccountNumber ct_Sequence ct_TxConfig signed_infos].
  - apply wp_bind. eapply wp_mono; [|exact (SignCosmosTx_signs cfg sk chain acc seq tx s L)].
    intros [tx'|e|] s' H; [|done..]. destruct H as [-> H]. by apply wp_ret.
  - apply wp_bind, wp_wrap, wp_call. intros [e|b] w1 H1; [done|]. apply wrap_same in H1 as [-> ->].
    apply wp_bind, wp_wrap. eapply wp_mono; [|exact (SignCosmosTransaction_signs cfg' wallet key chain acc seq tx _ L' S)].
    intros [tx'|e|] s' H'; [|done..]. destruct H' as [-> H']. by apply wp_ret.
Qed.

(** ** The client with a signer *)

Definition cosmos_Sign (signer : Signer W) (cfg : TxConfig W) (chain : string) (tx : Ref) (acc seq : Z) : X W (option Ref) :=
  as_X (let* signed := Signing.Sign slib signer chain (CosmosTransaction_ (mkCosmosTransaction tx acc seq cfg)) in
        ret (match signed with Some (CosmosTransaction_ t) => Some (ct_Tx t) | _ => None end)).

Lemma cosmos_Sign_signs signer cfg key mode chain acc seq tx w r w' :
  Laws cfg -> signs_as signer cfg key mode -> cosmos_Sign signer cfg chain tx acc seq w = (inr r, w') ->
  r = Some tx /\ signed_by key mode (mkSignerData chain acc seq) (content_body (content tx w))
                   (signed_infos signer key mode seq (content tx w)) (content tx w').
Proof.
  intros L S H. pose proof (Sign_signs signer cfg key mode chain acc seq tx (mkSys w db.empty_DB []) L S) as Hs.
  unfold wp in Hs. unfold cosmos_Sign, as_X, bind in H. destruct (Signing.Sign _ _ _ _ _) as [[signed|e|] s']; [|done..].
  cbn in *. destruct Hs as [-> Hs]. by simplify_eq.
Qed.

Context (lib : CosmosLib) (node : CosmosNode W) (c : CosmosBridgeClient) (signer : Signer W) (key : bytes) (mode : Z).
Context (L : Laws (txConfig node)) (S : signs_as signer (txConfig node) key mode)
  (Hsign : forall chain tx acc seq, CosmosClient.Sign node chain tx acc seq = cosmos_Sign signer (txConfig node) chain tx acc seq)
  (Hsim : forall bz, keeps (Simulate node bz)).

(** A transaction whose only signer info is the signer's own. *)
Definition own_info (seq : Z) (infos : list SignerInfo) : Prop := infos = [mkSignerInfo key mode seq].

Lemma signed_infos_own seq x : own_info seq (content_infos x) -> signed_infos signer key mode seq x = [mkSignerInfo key mode seq].
Proof. intros H. by destruct signer. Qed.

Lemma signAndEncode_signs b acc seq s :
  wp (Cosmos.signAndEncode node c b (acc, seq)) (fun r s' => match r with
    | Ok bz => bz = encode (content b (world s')) /\
        signed_by key mode (mkSignerData (chainID c) acc seq) (content_body (content b (world s)))
          (signed_infos signer key mode seq (content b (world s))) (content b (world s'))
    | _ => True end) s.
Proof using L S Hsign.
  unfold Cosmos.signAndEncode. apply wp_bind, wp_GetTx; [done|].
  apply wp_bind, wp_wrap, wp_call. rewrite Hsign. intros [e|r] w1 H1; [done|].
  apply (cosmos_Sign_signs _ _ _ _ _ _ _ _ _ _ _ L S) in H1 as [-> H1].
  apply wp_bind, wp_ret, wp_wrap, wp_call. cbn [world]. intros [e|bz] w2 H2; [done|].
  by apply encode_tx in H2 as [-> ->].
Qed.

Lemma getEstimatedGasLimit_signs b acc seq s :
  wp (Cosmos.getEstimatedGasLimit lib node c b (acc, seq)) (fun r s' => match r with
    | Ok _ => content_body (content b (world s')) = content_body (content b (world s)) /\
              own_info seq (content_infos (content b (world s')))
    | _ => True end) s.
Proof using L S Hsign Hsim.
  unfold Cosmos.getEstimatedGasLimit. apply wp_bind. eapply wp_mono; [|apply signAndEncode_signs].
  intros [bz|e|] s1 H1; [|done..]. destruct H1 as [_ (sig & Hc & _)].
  apply wp_bind, wp_wrap, wp_call. intros [e|res] w2 H2; [done|].
  pose proof (keeps_eq _ _ _ _ b (Hsim bz) H2) as K.
  destruct res as [gas|]; [|by apply wp_fail]. apply wp_ret. cbn [world]. by rewrite K, Hc.
Qed.

(** Setting the fee, or not, when a denom is configured. *)
Lemma wp_setFee b gasLimit Q s :
  (forall fee s', content b (world s') =
     mkTxContent (mkCosmosTx (tx_Msgs (content_body (content b (world s)))) (tx_GasLimit (content_body (content b (world s)))) fee)
       (content_infos (content b (world s))) (content_sigs (content b (world s))) -> Q (Ok tt) s') ->
  (forall e s', Q (Fail e) s') -> (forall s', Q Panic s') ->
  wp (if bool_decide (feeDenom c = "") then ret tt
      else let* fee := wrap "getting tx fee" (Cosmos.getTxFee lib c gasLimit) in
           let* fees := Cosmos.must (NewCoins lib [fee]) in
           Cosmos.step (fun w => (tt, SetFeeAmount (txConfig node) b fees w))) Q s.
Proof using L.
  intros HQ Hf Hp. case_bool_decide.
  { apply wp_ret, (HQ (tx_Fee (content_body (content b (world s))))). by destruct (content b (world s)) as [[]]. }
  assert (Hpure : snd (Cosmos.getTxFee lib c gasLimit s) = s).
  { unfold Cosmos.getTxFee, Cosmos.must. repeat case_match; done. }
  apply wp_bind, wp_wrap. unfold wp at 1. rewrite Hpure. destruct (fst _) as [fee|e|]; [|done..].
  apply wp_bind. destruct (NewCoins lib [fee]) as [fees|]; [|by apply wp_panic]. apply wp_ret, wp_step. cbn [fst].
  apply (HQ fees). cbn [world snd]. by rewrite set_fee.
Qed.

(** C35: a transaction the Cosmos client broadcasts carries one signature, by the key of
    its signer and over the bytes to sign of exactly this transaction: its messages, gas
    limit and fee, its one signer info, the chain of the client and the account number
    and sequence the chain gave.  With the remote service this holds because a
    transaction and its builder are one object: the first signature, made to estimate
    the gas, leaves the signer info that the second one is made over. *)
Theorem cosmos_broadcast_is_signed msgs s :
  wp (Cosmos.signAndSubmitMessages lib node c msgs) (fun r s' => match r with
    | Ok hash => exists acc seq gas fee sig result w,
        (exists address w1 w2, AccountInfo node address w1 = (inr (Some (acc, seq)), w2)) /\
        let body := mkCosmosTx msgs gas fee in
        let infos := [mkSignerInfo key mode seq] in
        BroadcastTxSync node (encode (mkTxContent body infos [sig])) w = (inr result, world s') /\
        hash = Broadcast_Hash result /\
        verify key (sign_doc mode (mkSignerData (chainID c) acc seq) body infos) sig
    | _ => True end) s.
Proof using L S Hsign Hsim.
  unfold Cosmos.signAndSubmitMessages. apply wp_bind. eapply (wp_mono _ (fun _ _ => True)); [|done].
  intros [address|e|] s1 _; [|done..]. apply wp_bind, wp_wrap, wp_call. intros [e|account] w2 H2; [done|].
  destruct account as [[acc seq]|]; [|by apply wp_fail].
  apply wp_bind, wp_step. pose proof (new_empty w2) as Hnew. cbn [world].
  destruct (NewTxBuilder (txConfig node) w2) as [b w3]. cbn [fst snd] in *.
  apply wp_bind, wp_wrap, wp_call. cbn [world]. intros [e|u] w4 H4; [done|]. apply set_msgs in H4. rewrite Hnew in H4.
  apply wp_bind, wp_wrap. eapply wp_mono; [|apply getEstimatedGasLimit_signs].
  intros [gas|e|] s5 H5; [|done..]. destruct H5 as [Hb Hi]. cbn [world] in Hb. rewrite H4 in Hb.
  apply wp_bind, wp_step. cbn [fst snd]. apply wp_bind, wp_setFee; [|done..]. intros fee s6 H6.
  cbn [world] in H6. rewrite set_gas in H6. cbn in H6. rewrite Hb, Hi in H6. cbn in H6.
  apply wp_bind. eapply wp_mono; [|apply signAndEncode_signs]. intros [bz|e|] s7 H7; [|done..].
  destruct H7 as [-> (sig & Hc & Hv)]. rewrite Hc, H6 in *.
  apply wp_bind, wp_wrap, wp_call. intros [e|result] w8 H8; [done|]. case_bool_decide; [|by apply wp_fail].
  apply wp_ret. exists acc, seq, gas, fee, sig, result, (world s7).
  split; [by exists address, (world s1), w2|]. rewrite signed_infos_own in Hv by done. by split_and!.
Qed.

End SignedBroadcast.

(** ** The other signers *)

Section OtherSigners.
Context {W : Type} (slib : SignerLib W).

(** A signature on an EVM transaction leaves the transaction as it is, where the two
    functions of go-ethereum that set one do. *)
Lemma evm_signers_keep_tx signer chain tx s :
  (forall t id key signed, eth_SignTx slib t id key = Some (inr signed) -> signed_inner signed = signed_inner t) ->
  (forall t id sig signed, WithSignature slib t id sig = inr signed -> signed_inner signed = signed_inner t) ->
  wp (Signing.EthereumSignerToBindSignerFn slib signer chain tx) (fun r _ => match r with
    | Ok signed => signed_inner signed = signed_inner tx
    | _ => True end) s.
Proof.
  intros Hl Hr. unfold Signing.EthereumSignerToBindSignerFn. apply wp_bind.
  destruct signer as [wallet c|wallet c cfg|key|key|key|]; cbn [Signing.Sign Signing.RemoteEVMSigner_Sign Signing.RemoteCosmosSigner_Sign
    Signing.LocalEthereumSigner_Sign Signing.LocalCosmosSigner_Sign]; try by apply wp_fail.
  - apply wp_bind, wp_wrap. unfold Signing.RemoteSignerToBindSignerFn.
    apply wp_bind, wp_wrap, wp_of_sum. destruct (eth_MarshalBinary slib tx) as [|bz]; [done|].
    apply wp_bind, wp_wrap, wp_call. intros [e|resp] w1 _; [done|]. apply wp_bind.
    destruct (CancunSigner_Hash slib _ tx) as [hash|]; [|by apply wp_panic]. apply wp_ret.
    destruct (GetEvmSignature resp) as [[r1 r2] r3]. apply wp_bind, wp_wrap, wp_of_sum.
    destruct (Ecrecover slib hash _); [done|]. apply wp_wrap, wp_of_sum.
    destruct (WithSignature slib tx _ _) eqn:Ew; [done|]. by apply wp_ret, wp_ret, (Hr _ _ _ _ Ew).
  - destruct (SetString10 chain) as [id|]; [|by apply wp_fail]. apply wp_bind.
    destruct (eth_SignTx slib tx id key) as [[e|signed]|] eqn:Es; [| |by apply wp_panic]; apply wp_ret, wp_bind, wp_of_sum; [done|].
    by apply wp_ret, wp_ret, (Hl _ _ _ _ Es).
  - by apply wp_ret, wp_ret.
Qed.

(** What a line answers. *)
Definition answer_of (line : error + string) : option bool :=
  match line with
  | inl _ => None
  | inr l =>
      let l := strings_ToLower (strings_TrimSpace l) in
      if bool_decide (l = "y") || bool_decide (l = "yes") then Some true else
      if bool_decide (l = "n") || bool_decide (l = "no") then Some false else None
  end.

(** The lines of the console, and the world after each. *)
Fixpoint lines (n : nat) (w : W) : list (error + string) :=
  match n with
  | O => []
  | S n => let '(l, w') := ReadString slib w in l :: lines n w'
  end.

(** The prompt gives the first answer among the lines, and none when no line answers: a
    console at its end, which gives an error on every read, is asked for ever. *)
Lemma promptYesNo_first reads (s : Sys W) :
  fst (Signing.promptYesNo slib reads s) = Ok (head (omap answer_of (lines reads (world s)))).
Proof.
  revert s. induction reads as [|reads IH]; intros s; [done|].
  cbn [Signing.promptYesNo lines]. unfold bind, try, call. destruct (ReadString slib (world s)) as [[e|l] w]; cbn [omap list_omap].
  - cbn [answer_of]. apply (IH (mkSys w (tables s) (trace s))).
  - cbn [answer_of]. repeat case_match; try done; apply (IH (mkSys w (tables s) (trace s))).
Qed.

Lemma prompt_at_end_of_input reads (s : Sys W) :
  (forall w, exists e w', ReadString slib w = (inl e, w')) -> fst (Signing.promptYesNo slib reads s) = Ok None.
Proof.
  intros H. rewrite promptYesNo_first. do 2 f_equal. generalize (world s). clear s.
  induction reads as [|reads IH]; intros w; [done|]. cbn [lines]. destruct (H w) as (e & w' & ->). by cbn.
Qed.

End OtherSigners.

(** ** A heap of transactions *)

Module SignerExamples.

(** The world is the SDK's objects. *)
Notation heap := (list TxContent).

Definition no_tx : TxContent := mkTxContent (mkCosmosTx [] 0 []) [] [].
Definition content (r : Ref) (w : heap) : TxContent := default no_tx (w !! r).
Definition set (r : Ref) (f : TxContent -> TxContent) (w : heap) : heap :=
  <[r := f (content r w)]> (w ++ replicate (S r - length w) no_tx).

Definition info_bytes (i : SignerInfo) : bytes := info_PubKey i ++ [info_Mode i; info_Sequence i].
Definition sign_doc (mode : Z) (data : SignerData) (body : CosmosTx) (infos : list SignerInfo) : bytes :=
  [mode; data_AccountNumber data; data_Sequence data; tx_GasLimit body; Z.of_nat (length (tx_Msgs body))] ++
  concat (info_bytes <$> infos).
Definition encode (x : TxContent) : bytes := sign_doc 0 (mkSignerData "" 0 0) (content_body x) (content_infos x) ++ concat (content_sigs x).
Definition verify (key doc sig : bytes) : Prop := sig = key ++ doc.

Definition says {A} (r : error + A) : X heap A := fun w => (r, w).
Definition does (f : heap -> heap) : X heap unit := fun w => (inr tt, f w).

Definition cfg : TxConfig heap := {|
  NewTxBuilder := fun w => (length w, w ++ [no_tx]);
  WrapTxBuilder := fun tx => says (inr tx);
  SetMsgs := fun b msgs => does (set b (fun x =>
    mkTxContent (mkCosmosTx msgs (tx_GasLimit (content_body x)) (tx_Fee (content_body x))) (content_infos x) (content_sigs x)));
  SetGasLimit := fun b gas => set b (fun x =>
    mkTxContent (mkCosmosTx (tx_Msgs (content_body x)) gas (tx_Fee (content_body x))) (content_infos x) (content_sigs x));
  SetFeeAmount := fun b fee => set b (fun x =>
    mkTxContent (mkCosmosTx (tx_Msgs (content_body x)) (tx_GasLimit (content_body x)) fee) (content_infos x) (content_sigs x));
  SetSignatures := fun b sig => does (set b (fun x => mkTxContent (content_body x) [info_of sig] [sig_Signature sig]));
  GetTx := fun b w => (b, w);
  TxEncoder := fun tx w => (inr (encode (content tx w)), w);
  TxJSONEncoder := fun tx w => (inr (encode (content tx w)), w);
  DefaultMode := SIGN_MODE_DIRECT;
  GetSignBytesAdapter := fun mode data tx w =>
    (inr (sign_doc mode data (content_body (content tx w)) (content_infos (content tx w))), w);
  SignWithPrivKey := fun mode data b key seq w =>
    (inr (mkSignatureV2 key mode (key ++ sign_doc mode data (content_body (content b w)) (content_infos (content b w))) seq), w);
|}.

(** A wallet is its key. *)
Definition slib : SignerLib heap := {|
  sc_Sign := fun req => says (inr (match Payload req with
    | SignRequest_CosmosTransaction doc => CosmosSignature (string_bytes (WalletId req) ++ doc)
    | SignRequest_EvmTransaction _ bz => EvmSignature bz [1] [0]
    | _ => NoSignature end));
  sc_GetWallet := fun wallet _ => says (inr (string_bytes wallet));
  secp_PubKey := fun key => key;
  secp_Address := Some;
  ecdsa_PublicKey := fun key => key;
  PubkeyToAddress := fun key => key;
  UnmarshalPubkey := inr;
  CancunSigner_Hash := fun id tx => (fun id => [id; tx_Nonce (signed_inner tx)]) <$> id;
  eth_SignTx := fun tx id key => Some (inr (mkSignedTx (signed_inner tx) (id :: key)));
  WithSignature := fun tx _ sig => inr (mkSignedTx (signed_inner tx) sig);
  Ecrecover := fun _ sig => inr sig;
  eth_MarshalBinary := fun tx => inr (tx_Data (signed_inner tx));
  eth_MarshalJSON := fun _ => inr [];
  PrivateKeyFromBase58 := fun s => inr (string_bytes s);
  solana_PublicKey := fun key => key;
  ToBase64 := fun _ => inr "";
  SignatureFromBytes := fun bz => bz;
  ReadString := says (inr "Yes
");
|}.

Lemma content_set r f w : content r (set r f w) = f (content r w).
Proof.
  unfold content at 1, set. rewrite list_lookup_insert_eq; [done|].
  rewrite length_app, length_replicate. unfold Ref in *. lia.
Qed.

#[export] Instance cfg_laws : TxConfigLaws cfg content sign_doc encode (secp_PubKey slib) verify.
Proof.
  split; cbn; intros; unfold does, says in *; simplify_eq; try by rewrite content_set.
  - unfold content. by rewrite lookup_app_r, Nat.sub_diag by done.
  - done.
  - done.
  - done.
  - by split_and!.
  - done.
Qed.

Lemma honest wallet : HonestService slib content verify wallet (string_bytes wallet).
Proof. split; cbn; unfold keeps, says, verify; intros; by simplify_eq. Qed.

Definition node (signer : Signer heap) : CosmosNode heap := {|
  PacketReceipt := fun _ _ => says (inr false);
  PacketCommitment := fun _ _ => says (inr tt);
  TxSearch := fun _ => says (inr (mkResultTxSearch 0 []));
  CosmosClient.Header := fun _ => says (inr None);
  CosmosClient.Tx := fun _ => says (inr None);
  AccountInfo := fun _ => says (inr (Some (7, 8)));
  Simulate := fun _ => says (inr (Some 1000));
  BroadcastTxSync := fun bz => says (inr (mkResultBroadcastTx 0 "" bz));
  Balance := fun _ _ => says (inr (Some 1));
  QueryClientState := fun _ => says (inr None);
  SignerAddress := fun w => ([2], w);
  CosmosClient.Sign := cosmos_Sign slib signer cfg;
  txConfig := cfg;
  cosmos_wait := fun _ => says (inr tt);
  Sleep := fun _ w => w;
|}.

Definition remote : Signer heap := RemoteCosmosSigner "wallet" "hub-1" cfg.
Definition broadcast : bytes :=
  match fst (Cosmos.signAndSubmitMessages ClientWorld.cosmos_lib (node remote) ClientWorld.cosmos_client
               [MsgUpdateClient [1]] (mkSys [] db.empty_DB [])) with
  | Ok hash => hash
  | _ => []
  end.

Lemma cosmos_broadcast_is_signed_witness :
  broadcast <> [] /\
  wp (Cosmos.signAndSubmitMessages ClientWorld.cosmos_lib (node remote) ClientWorld.cosmos_client [MsgUpdateClient [1]])
    (fun r _ => match r with Ok hash => exists gas fee sig seq,
       hash = encode (mkTxContent (mkCosmosTx [MsgUpdateClient [1]] gas fee)
                        [mkSignerInfo (string_bytes "wallet") SIGN_MODE_DIRECT seq] [sig])
     | _ => True end) (mkSys [] db.empty_DB []).
Proof.
  split; [vm_compute; discriminate|].
  eapply wp_mono; [|apply (cosmos_broadcast_is_signed slib content sign_doc encode verify ClientWorld.cosmos_lib
    (node remote) ClientWorld.cosmos_client remote (string_bytes "wallet") SIGN_MODE_DIRECT)].
  - intros [hash|e|] s' H; [|done..]. destruct H as (acc & seq & gas & fee & sig & result & w & _ & Hb & -> & _).
    exists gas, fee, sig, seq. cbn in Hb. unfold says in Hb. by simplify_eq.
  - apply cfg_laws.
  - apply signs_remote; [apply cfg_laws | apply honest].
  - done.
  - by intros bz w r.
Defined.

(** The first signature of a transaction by the service is of bytes without the signer
    info and does not verify for the transaction that carries it. *)
Example remote_signature_of_fresh_tx :
  let '(r, s) := Signing.Sign slib remote "hub-1" (CosmosTransaction_ (mkCosmosTransaction 0%nat 7 8 cfg))
                   (mkSys [no_tx] db.empty_DB []) in
  let x := content 0%nat (world s) in
  let doc := sign_doc SIGN_MODE_DIRECT (mkSignerData "hub-1" 7 8) (content_body x) in
  content_infos x = [mkSignerInfo (string_bytes "wallet") SIGN_MODE_DIRECT 8] /\
  content_sigs x = [string_bytes "wallet" ++ doc []] /\
  content_sigs x <> [string_bytes "wallet" ++ doc (content_infos x)].
Proof. vm_compute. by split_and!. Qed.

End SignerExamples.
