(* ===== verification/Monitors.v ===== *)
(** * The gas monitor and the transfer statistics

    [src/gasmonitor/gasmonitor.go] and [src/transferstats/transferstats.go]: one tick of
    each, the whole loop body, with the gauges they set as events; and what becomes of a
    gas balance in [src/shared/metrics/metrics.go].  The loops that run the ticks are in the
    file Loops. *)

From S2P Require Import Prelude GoFloat Db Models Transfer Config World Logic Processors ProcessorSpecs BatchProcessors.
From S2P Require Import BatchSpecs Middleware Pipeline Dispatcher System Trace TestWorld.

Section Monitors.
Context {W : Type} {E : Env W}.

(** ** Gas *)

Definition monitorIBCV2GasBalances (chain : ChainConfig) (chainID : string) : M W unit :=
  match GetSignerGasAlertThresholds cfg chainID BridgeTypeIBCV2 with
  | inl err =>
      if errors_Is err ErrNoSignerForBridge then ret tt
      else fail (EWrap "getting ibcv2 signer gas alert thresholds on chain" err)
  | inr (warningThreshold, criticalThreshold) =>
      let* chainClient := wrap "getting ibcv2 client for chain" (GetClient chainID) in
      let* balance := wrap "getting gas token balance for eurkea signer on chain"
                        (call (SignerGasTokenBalance chainClient)) in
      (if bool_decide (balance < criticalThreshold) then logf LError "low balance on ibcv2 signer" else ret tt) ;;
      emit (SetGasBalance chainID (ChainName chain) (GasTokenSymbol chain) (Environment chain)
              balance warningThreshold criticalThreshold (GasTokenDecimals chain))
  end.

(** The chains [Start] collects once. *)
Definition monitoredChains : list ChainConfig :=
  GetAllChainConfigsOfType cfg ChainTypeEVM ++ GetAllChainConfigsOfType cfg ChainTypeCOSMOS
  ++ GetAllChainConfigsOfType cfg ChainTypeSVM.

Definition monitorChain (chain : ChainConfig) : M W unit :=
  let* err := try (monitorIBCV2GasBalances chain (ChainID chain)) in
  match err with
  | inl err => if errors_Is err ErrNoSignerForBridge then ret tt else logf LError "failed to monitor ibcv2 gas balance"
  | inr _ => ret tt
  end.

Definition GasMonitor_tick (chains : list ChainConfig) : M W unit := for_each monitorChain chains.

(** [PromMetrics.SetGasBalance]: the state of the gauge; integers are compared, since the
    exported float loses precision. *)
Definition gasBalanceState (gasBalance warningThreshold criticalThreshold : Z) : Z :=
  if bool_decide (gasBalance < criticalThreshold) then 2
  else if bool_decide (gasBalance < warningThreshold) then 1 else 0.

(** ** Transfers by chain pair and status *)

(** [counts[p][string(r.Status)] = r.Count], row by row. *)
Definition countRow (counts : gmap (string * string) (gmap string Z)) (r : db.CountTransfersByChainPairAndStatusRow)
    : gmap (string * string) (gmap string Z) :=
  let p := (db.count_SourceChainID r, db.count_DestinationChainID r) in
  <[p := <[db.Ibcv2RelayStatus_string (db.count_Status r) := db.Count r]> (default ∅ (counts !! p))]> counts.

(** The chain's name and environment, or its ID and no environment. *)
Definition chainConfigOrFallback (chainID : string) : string * string * bool :=
  match GetChainConfig cfg chainID with
  | inl _ => (chainID, "", false)
  | inr chain => (ChainName chain, Environment chain, true)
  end.

Definition warnUnknown (chainID : string) (found : bool) : M W unit :=
  if found then ret tt else logf LWarn "chain config lookup failed, falling back to chain id as name".

Definition setCounts (statuses : list string) (entry : string * string * gmap string Z) : M W unit :=
  let '(src, dst, byStatus) := entry in
  let '(srcName, srcEnvironment, srcFound) := chainConfigOrFallback src in
  let '(dstName, _, dstFound) := chainConfigOrFallback dst in
  warnUnknown src srcFound ;;
  warnUnknown dst dstFound ;;
  for_each (fun s => emit (SetTransferCount src dst srcName dstName srcEnvironment s (default 0 (byStatus !! s)))) statuses.

(** The order of the range over the pairs is left open by Go. *)
Definition Monitor_tick : M W unit :=
  let* statuses := try (sql db.ListRelayStatuses) in
  match statuses with
  | inl _ => logf LError "listing relay statuses"
  | inr statuses =>
      let* rows := try (sql db.CountTransfersByChainPairAndStatus) in
      match rows with
      | inl _ => logf LError "counting transfers by chain pair and status"
      | inr rows => for_each (setCounts statuses) (map_to_list (foldl countRow ∅ rows))
      end
  end.

(** ** Computations that only emit *)

Definition emit_all (evs : list event) (s : Sys W) : Sys W := mkSys (world s) (tables s) (trace s ++ evs).

Lemma emit_all_app evs evs' s : emit_all evs' (emit_all evs s) = emit_all (evs ++ evs') s.
Proof. unfold emit_all. cbn. by rewrite <- app_assoc. Qed.

Lemma emit_all_nil s : emit_all [] s = s.
Proof. unfold emit_all. rewrite app_nil_r. by destruct s. Qed.

Lemma for_each_emits {A} (f : A -> M W unit) (g : A -> list event) l :
  (forall x s, f x s = (Ok tt, emit_all (g x) s)) ->
  forall s, for_each f l s = (Ok tt, emit_all (l ≫= g) s).
Proof.
  intros Hf. induction l as [|x l IH]; intros s; cbn; [by rewrite emit_all_nil|].
  unfold bind. rewrite Hf, IH, emit_all_app. done.
Qed.

Definition warnings (chainID : string) : list event :=
  if (chainConfigOrFallback chainID).2 then [] else [Log LWarn "chain config lookup failed, falling back to chain id as name"].

Definition gauges (statuses : list string) (entry : string * string * gmap string Z) : list event :=
  let '(src, dst, byStatus) := entry in
  warnings src ++ warnings dst ++
  ((fun s => SetTransferCount src dst (chainConfigOrFallback src).1.1 (chainConfigOrFallback dst).1.1
               (chainConfigOrFallback src).1.2 s (default 0 (byStatus !! s))) <$> statuses).

Lemma warnUnknown_emits chainID s :
  warnUnknown chainID (chainConfigOrFallback chainID).2 s = (Ok tt, emit_all (warnings chainID) s).
Proof. unfold warnUnknown, warnings. destruct (chainConfigOrFallback chainID).2; [by rewrite emit_all_nil | done]. Qed.

Lemma setCounts_emits statuses entry s : setCounts statuses entry s = (Ok tt, emit_all (gauges statuses entry) s).
Proof.
  destruct entry as [[src dst] byStatus]. unfold setCounts, gauges.
  pose proof (warnUnknown_emits src) as Hs. pose proof (warnUnknown_emits dst) as Hd.
  destruct (chainConfigOrFallback src) as [[srcName srcEnv] srcFound], (chainConfigOrFallback dst) as [[dstName dstEnv] dstFound].
  cbn [fst snd] in *. unfold bind. rewrite Hs, Hd, emit_all_app.
  rewrite (for_each_emits _ (fun s => [SetTransferCount src dst srcName dstName srcEnv s (default 0 (byStatus !! s))])) by done.
  rewrite emit_all_app, <- app_assoc. do 4 f_equal.
Qed.

(** ** Counting *)

Definition row_group (r : db.CountTransfersByChainPairAndStatusRow) : string * string * db.Ibcv2RelayStatus :=
  (db.count_SourceChainID r, db.count_DestinationChainID r, db.count_Status r).

(** The map after the loop: a pair is there when a row has it, and the entry of a status
    is the count of its row. *)
Lemma countRow_spec rows : NoDup (row_group <$> rows) -> forall p,
  (foldl countRow ∅ rows !! p = None <-> forall r, r ∈ rows -> (row_group r).1 <> p) /\
  forall byStatus st, foldl countRow ∅ rows !! p = Some byStatus ->
    (forall r, r ∈ rows -> row_group r = (p, st) -> byStatus !! db.Ibcv2RelayStatus_string st = Some (db.Count r)) /\
    ((forall r, r ∈ rows -> row_group r <> (p, st)) -> byStatus !! db.Ibcv2RelayStatus_string st = None).
Proof.
  induction rows as [|r rows IH] using rev_ind; intros Hnd p.
  - cbn. rewrite lookup_empty. split; [|done]. split; [|done]. intros _ r Hr. by apply elem_of_nil in Hr.
  - rewrite fmap_app, NoDup_app in Hnd. destruct Hnd as (Hnd & Hnew & _). specialize (IH Hnd).
    rewrite foldl_app. cbn [foldl]. unfold countRow at 1 3.
    change (db.count_SourceChainID r, db.count_DestinationChainID r) with (row_group r).1.
    setoid_rewrite elem_of_app. setoid_rewrite list_elem_of_singleton.
    destruct (decide ((row_group r).1 = p)) as [<-|N].
    + rewrite lookup_insert_eq. split.
      { split; [done|]. intros H. by destruct (H r (or_intror eq_refl)). }
      intros byStatus st [= <-]. destruct (IH (row_group r).1) as [Hnone Hsome].
      set (old := default ∅ (foldl countRow ∅ rows !! (row_group r).1)).
      destruct (decide (db.count_Status r = st)) as [<-|Nst].
      * rewrite lookup_insert_eq. split; [|intros H; by destruct (H r (or_intror eq_refl))].
        intros r' [Hr'| ->] Hg; [|done]. exfalso. apply (Hnew (row_group r')); [by apply list_elem_of_fmap_2|].
        rewrite Hg. apply list_elem_of_singleton. by destruct r.
      * rewrite lookup_insert_ne by (intros H; by apply Nst, status_string_inj).
        assert (Hold : (forall r', r' ∈ rows -> row_group r' = ((row_group r).1, st) ->
                   old !! db.Ibcv2RelayStatus_string st = Some (db.Count r')) /\
                 ((forall r', r' ∈ rows -> row_group r' <> ((row_group r).1, st)) ->
                   old !! db.Ibcv2RelayStatus_string st = None)).
        { unfold old. destruct (foldl countRow ∅ rows !! (row_group r).1) as [m|] eqn:Em; cbn; [by apply Hsome|].
          rewrite lookup_empty. split; [|done]. intros r' Hr' Hg. destruct (proj1 Hnone eq_refl r' Hr'). by rewrite Hg. }
        destruct Hold as [H1 H2]. split.
        -- intros r' [Hr'| ->] Hg; [by apply H1|]. by injection Hg.
        -- intros H. apply H2. intros r' Hr'. apply H. by left.
    + rewrite lookup_insert_ne by done. destruct (IH p) as [Hnone Hsome]. split.
      * rewrite Hnone. split; [|by eauto]. intros H r' [Hr'| ->]; [by apply H | done].
      * intros byStatus st Hm. destruct (Hsome byStatus st Hm) as [H1 H2]. split.
        -- intros r' [Hr'| ->] Hg; [by apply H1|]. exfalso. apply N. by rewrite Hg.
        -- intros H. apply H2. intros r' Hr'. apply H. by left.
Qed.

(** The number of transfers of a pair of chains in a status. *)
Definition transfers_in (d : db.DB) (src dst : string) (st : db.Ibcv2RelayStatus) : Z :=
  Z.of_nat (length (filter (fun r => db.chain_pair_status r = (src, dst, st)) (map_to_list (db.ibcv2_transfers d)).*2)).

Definition has_pair (d : db.DB) (src dst : string) : Prop :=
  exists i r, db.ibcv2_transfers d !! i = Some r /\ db.SourceChainID r = src /\ db.DestinationChainID r = dst.

Definition counted (d : db.DB) : list db.CountTransfersByChainPairAndStatusRow :=
  match fst (db.CountTransfersByChainPairAndStatus 0 d) with inr rows => rows | inl _ => [] end.

Lemma counted_groups d :
  row_group <$> counted d = remove_dups (db.chain_pair_status <$> (map_to_list (db.ibcv2_transfers d)).*2).
Proof.
  unfold counted. cbn. rewrite <- list_fmap_compose.
  rewrite (list_fmap_ext _ id); [by rewrite list_fmap_id|]. by intros i [[src dst] st] _.
Qed.

Lemma counted_elem d r : r ∈ counted d ->
  db.Count r = transfers_in d (db.count_SourceChainID r) (db.count_DestinationChainID r) (db.count_Status r).
Proof.
  unfold counted. cbn. intros ([[src dst] st] & -> & _)%list_elem_of_fmap. cbn. unfold transfers_in. f_equal.
  induction ((map_to_list (db.ibcv2_transfers d)).*2) as [|x l IH]; [done|].
  rewrite fmap_cons, !filter_cons. repeat case_decide; try tauto; cbn; by rewrite IH.
Qed.

Lemma counted_pair d src dst :
  (exists r, r ∈ counted d /\ (row_group r).1 = (src, dst)) <-> has_pair d src dst.
Proof.
  assert (Hg : forall g, g ∈ row_group <$> counted d <->
    exists i r, db.ibcv2_transfers d !! i = Some r /\ g = db.chain_pair_status r).
  { intros g. rewrite counted_groups, elem_of_remove_dups, list_elem_of_fmap. split.
    - intros (r & -> & ([i r'] & -> & Hr)%list_elem_of_fmap). apply elem_of_map_to_list in Hr. eauto.
    - intros (i & r & Hr & ->). exists r. split; [done|]. apply list_elem_of_fmap. exists (i, r).
      split; [done|]. by apply elem_of_map_to_list. }
  split.
  - intros (r & Hr & Hp). destruct (proj1 (Hg (row_group r)) ltac:(by apply list_elem_of_fmap_2)) as (i & x & Hx & Hgx).
    exists i, x. split; [done|]. rewrite Hgx in Hp. unfold db.chain_pair_status in Hp. cbn in Hp. by injection Hp.
  - intros (i & r & Hr & <- & <-). pose proof (proj2 (Hg (db.chain_pair_status r)) ltac:(eauto)) as Hin.
    apply list_elem_of_fmap in Hin as (x & Hx & Hin). exists x. split; [done|]. by rewrite <- Hx.
Qed.

(** What the map holds for a pair that has a transfer. *)
Lemma byStatus_exact d src dst byStatus st :
  foldl countRow ∅ (counted d) !! (src, dst) = Some byStatus ->
  default 0 (byStatus !! db.Ibcv2RelayStatus_string st) = transfers_in d src dst st.
Proof.
  intros Hm. assert (Hnd : NoDup (row_group <$> counted d)) by (rewrite counted_groups; apply NoDup_remove_dups).
  destruct (countRow_spec _ Hnd (src, dst)) as [_ Hs]. destruct (Hs byStatus st Hm) as [H1 H2].
  destruct (decide ((src, dst, st) ∈ row_group <$> counted d)) as [Hin|Hn].
  - apply list_elem_of_fmap in Hin as (r & Hg & Hr). rewrite (H1 r Hr) by done. cbn.
    rewrite (counted_elem _ _ Hr). destruct r. by injection Hg as -> -> ->.
  - rewrite H2; [cbn | intros r Hr Hg; apply Hn; rewrite <- Hg; by apply list_elem_of_fmap_2].
    unfold transfers_in. rewrite counted_groups, elem_of_remove_dups in Hn.
    assert (Hnil : forall l, (src, dst, st) ∉ db.chain_pair_status <$> l ->
      filter (fun r => db.chain_pair_status r = (src, dst, st)) l = []).
    { intros l. induction l as [|x l IH]; [done|]. rewrite fmap_cons, not_elem_of_cons. intros [Hx Hl].
      rewrite filter_cons, decide_False by congruence. by apply IH. }
    by rewrite Hnil.
Qed.

Lemma enum_range_complete st : st ∈ db.enum_range.
Proof. destruct st; unfold db.enum_range; rewrite !elem_of_cons; tauto. Qed.

Lemma gauges_elem statuses entry src dst sn dn en st n :
  SetTransferCount src dst sn dn en st n ∈ gauges statuses entry ->
  entry.1 = (src, dst) /\ st ∈ statuses /\ n = default 0 (entry.2 !! st).
Proof.
  destruct entry as [[src' dst'] byStatus]. unfold gauges, warnings. rewrite !elem_of_app.
  intros [H|[H|H]].
  - destruct (_.2); [by apply elem_of_nil in H|]. by apply list_elem_of_singleton in H.
  - destruct (_.2); [by apply elem_of_nil in H|]. by apply list_elem_of_singleton in H.
  - apply list_elem_of_fmap in H as (s & [= -> -> -> -> -> -> ->] & Hs). done.
Qed.

(** A tick of the transfer statistics sets the gauge of every pair of chains that has
    a transfer and of every status to the number of its transfers in that status, zero
    included, and sets no other gauge; it changes no table and never fails.  When the
    database does not execute one of the two queries it logs that and sets nothing. *)
Lemma transfer_counts_exact s :
  wp Monitor_tick (fun r s' => r = Ok tt /\ tables s' = tables s /\ exists evs, trace s' = trace s ++ evs /\
    ((exists msg, evs = [Log LError msg]) \/
     (forall src dst st, has_pair (tables s) src dst -> exists sn dn en,
        SetTransferCount src dst sn dn en (db.Ibcv2RelayStatus_string st) (transfers_in (tables s) src dst st) ∈ evs) /\
     (forall src dst sn dn en st n, SetTransferCount src dst sn dn en st n ∈ evs -> has_pair (tables s) src dst /\
        exists st', st = db.Ibcv2RelayStatus_string st' /\ n = transfers_in (tables s) src dst st'))) s.
Proof.
  unfold Monitor_tick. apply wp_bind, wp_try, wp_sql.
  { intros e w _. apply wp_emit. split; [done|]. split; [done|]. eexists. split; [done|]. left. by eexists. }
  intros now w r d _ Hls.
  assert (Hr0 : r = inr (db.Ibcv2RelayStatus_string <$> db.enum_range) /\ d = tables s) by (by injection Hls as <- <-).
  destruct Hr0 as [-> ->]. apply wp_bind, wp_try, wp_sql.
  { intros e w' _. apply wp_emit. split; [done|]. split; [done|]. eexists. split; [done|]. left. by eexists. }
  cbn [tables trace world]. intros now' w' r d _ Hq.
  assert (Hr : r = inr (counted (tables s)) /\ d = tables s) by (by injection Hq as <- <-). destruct Hr as [-> ->].
  cbn beta iota. unfold wp. rewrite (for_each_emits _ _ _ (setCounts_emits _)). cbn [fst snd].
  split; [done|]. split; [done|]. eexists. split; [done|]. right.
  assert (Hnd : NoDup (row_group <$> counted (tables s))) by (rewrite counted_groups; apply NoDup_remove_dups).
  split.
  - intros src dst st Hp. destruct (countRow_spec _ Hnd (src, dst)) as [Hn _].
    destruct (foldl countRow ∅ (counted (tables s)) !! (src, dst)) as [byStatus|] eqn:Em.
    2:{ apply counted_pair in Hp as (r & Hr & Hg). by destruct (proj1 Hn eq_refl r Hr). }
    eexists _, _, _. apply list_elem_of_bind. exists (src, dst, byStatus). split; [|by apply elem_of_map_to_list].
    unfold gauges. rewrite !elem_of_app. right. right. apply list_elem_of_fmap.
    exists (db.Ibcv2RelayStatus_string st). rewrite (byStatus_exact _ _ _ _ _ Em). split; [done|].
    apply list_elem_of_fmap_2, enum_range_complete.
  - intros src dst sn dn en st n ([p byStatus] & Hin & Hm)%list_elem_of_bind.
    apply gauges_elem in Hin as (Hp & Hst & Hn'). cbn [fst snd] in *. subst p. apply elem_of_map_to_list in Hm. split.
    + apply counted_pair. destruct (countRow_spec _ Hnd (src, dst)) as [Hn _].
      destruct (decide (Exists (fun r => (row_group r).1 = (src, dst)) (counted (tables s)))) as [He|He].
      * apply Exists_exists in He as (r & Hr & Hg). eauto.
      * exfalso. assert (Hnone : foldl countRow ∅ (counted (tables s)) !! (src, dst) = None); [|congruence].
        apply Hn. intros r Hr Hg. apply He, Exists_exists. eauto.
    + apply list_elem_of_fmap in Hst as (st' & -> & _). exists st'. split; [done|]. by rewrite Hn', (byStatus_exact _ _ _ _ _ Hm).
Qed.

(** ** The gas monitor *)

(** What a tick does for one chain when its client answers [balance]. *)
Definition gas_events (balance : string -> error + Z) (chain : ChainConfig) : list event :=
  match GetSignerGasAlertThresholds cfg (ChainID chain) BridgeTypeIBCV2, (clients : gmap string (BridgeClient W)) !! ChainID chain with
  | inl err, _ => if errors_Is err ErrNoSignerForBridge then [] else [Log LError "failed to monitor ibcv2 gas balance"]
  | inr (warning, critical), Some _ =>
      match balance (ChainID chain) with
      | inl _ => [Log LError "failed to monitor ibcv2 gas balance"]
      | inr b =>
          (if bool_decide (gasBalanceState b warning critical = 2) then [Log LError "low balance on ibcv2 signer"] else [])
          ++ [SetGasBalance (ChainID chain) (ChainName chain) (GasTokenSymbol chain) (Environment chain) b warning critical
                (GasTokenDecimals chain)]
      end
  | inr _, None => [Log LError "failed to monitor ibcv2 gas balance"]
  end.

Lemma gasBalanceState_critical b w c : gasBalanceState b w c = 2 <-> b < c.
Proof. unfold gasBalanceState. repeat case_bool_decide; lia. Qed.

Definition no_sentinel (e : error) : Prop := errors_Is e ErrNoSignerForBridge = false.

Lemma monitorChain_events balance chain s :
  (forall id client w, clients !! id = Some client -> fst (SignerGasTokenBalance client w) = balance id) ->
  (forall id e, balance id = inl e -> no_sentinel e) ->
  wp (monitorChain chain) (fun r s' => r = Ok tt /\ tables s' = tables s /\ trace s' = trace s ++ gas_events balance chain) s.
Proof.
  intros Hb He. unfold monitorChain, monitorIBCV2GasBalances, gas_events.
  destruct (GetSignerGasAlertThresholds _ _ _) as [err|[warning critical]].
  - apply wp_bind, wp_try. destruct (errors_Is err ErrNoSignerForBridge) eqn:Ee.
    + apply wp_ret, wp_ret. by rewrite app_nil_r.
    + apply wp_fail. cbn [errors_Is]. rewrite Ee. by apply wp_emit.
  - apply wp_bind, wp_try, wp_bind, wp_wrap, wp_GetClient.
    2:{ intros Hc. rewrite Hc. cbn. by apply wp_emit. }
    intros client Hc. rewrite Hc. apply wp_bind, wp_wrap, wp_call. intros r w Hr.
    pose proof (Hb _ _ (world s) Hc) as Hbal. rewrite Hr in Hbal. cbn in Hbal. subst r.
    destruct (balance (ChainID chain)) as [e|b] eqn:Eb.
    + cbn [errors_Is]. rewrite (He _ _ Eb). by apply wp_emit.
    + apply wp_bind. rewrite (bool_decide_ext (b < critical) (gasBalanceState b warning critical = 2))
        by (symmetry; apply gasBalanceState_critical).
      case_bool_decide.
      * apply wp_emit, wp_emit, wp_ret. cbn. by rewrite <- app_assoc.
      * apply wp_ret, wp_emit, wp_ret. done.
Qed.

(** A tick of the gas monitor goes over every chain, whatever happens with the others:
    the gauge of a chain with thresholds and a client is set to the balance the client
    reports, an alert is logged exactly when the exported state is critical, a chain whose
    thresholds cannot be read, without a client or whose client fails is only logged, and
    a chain without thresholds is passed over.  The tick never fails or panics. *)
Lemma gas_monitor_reports balance chains s :
  (forall id client w, clients !! id = Some client -> fst (SignerGasTokenBalance client w) = balance id) ->
  (forall id e, balance id = inl e -> no_sentinel e) ->
  wp (GasMonitor_tick chains)
    (fun r s' => r = Ok tt /\ tables s' = tables s /\ trace s' = trace s ++ (chains ≫= gas_events balance)) s.
Proof.
  intros Hb He. unfold GasMonitor_tick. revert s.
  induction chains as [|chain chains IH]; intros s; cbn [for_each]; [apply wp_ret; cbn; by rewrite app_nil_r|].
  apply wp_bind. eapply wp_mono; [|exact (monitorChain_events balance chain s Hb He)].
  intros r s1 (-> & Ht & Htr). eapply wp_mono; [|apply IH]. cbn. intros r s2 (-> & Ht2 & Htr2).
  split; [done|]. split; [congruence|]. by rewrite Htr2, Htr, <- app_assoc.
Qed.

End Monitors.

(** ** The theorem at work: a balance of 100 below a critical threshold of 150 *)

Module MonitorExamples.
Import TestWorld.

Definition low_chain : ChainConfig :=
  mkChainConfig "src" "src" ChainTypeCOSMOS "testnet" None None None "atom" None 6
    {[ BridgeTypeIBCV2 := mkSignerGasAlertThresholdsConfig "200" "150" ]} None [].
Definition config_low : Config :=
  mkConfig (mkPostgresConfig "h" "5432" "db" false "") [("src", low_chain)] "" ":1"
    (mkCoingeckoConfig "" 0 "" 0) (mkIBCV2ProofAPIConfig "" false) no_signing.

Lemma gas_monitor_reports_witness :
  let E := env_with config_low happy happy in
  gas_events (W:=Z) (fun _ => inr 100) low_chain =
    [Log LError "low balance on ibcv2 signer"; SetGasBalance "src" "src" "atom" "testnet" 100 200 150 6] /\
  wp (GasMonitor_tick monitoredChains) (fun r s' => r = Ok tt /\ tables s' = db1 /\
    trace s' = [] ++ (monitoredChains ≫= gas_events (fun _ => inr 100))) (sys0 0).
Proof.
  intros E. split; [vm_compute; reflexivity|].
  apply (gas_monitor_reports (E:=E) (fun _ => inr 100) monitoredChains (sys0 0)).
  - intros id c w Hc. cbn in Hc.
    apply lookup_insert_Some in Hc as [[_ <-]|[_ [[_ <-]|[_ Hc]]%lookup_insert_Some]]; [done..|].
    by rewrite lookup_empty in Hc.
  - done.
Defined.

End MonitorExamples.
