(* ===== verification/ClientManager.v ===== *)
(** * The client manager ([src/relayer/ibcv2/client_manager.go])

    Building a bridge client for every configured EVM and Cosmos chain, with its signer
    and connections, and looking one up.  Dialling, key parsing and what the signers call
    are arguments ([ManagerLib]); the process environment is one too. *)

From S2P Require Import Prelude GoFloat Db Transfer Config World Logic BatchProcessors Once GoLib.
From S2P Require Import EvmClient CosmosClient Signers ClientContract ClientWorld.

(** What the manager calls and does not contain. *)
Record ManagerLib (W : Type) := mkManagerLib {
  signerLib : SignerLib W;
  DefaultTxConfig : TxConfig W;
  HexToECDSA : string -> error + bytes;
  UnmarshalAmino : bytes -> error + unit;
  ethDial : string -> X W unit;
  tmrpcDial : string -> option string -> error + unit;
  grpcDial : string -> bool -> error + unit;
}.
Arguments signerLib {W} m.
Arguments DefaultTxConfig {W} m.
Arguments HexToECDSA {W} m.
Arguments UnmarshalAmino {W} m.
Arguments ethDial {W} m.
Arguments tmrpcDial {W} m.
Arguments grpcDial {W} m.

(** An entry of [ClientManager.clients]: the client, its memory and what it signs and
    connects with. *)
Inductive BuiltClient (W : Type) :=
  | BuiltEVM (client : EVMBridgeClient) (memory : EVMState) (signer : Signer W) (rpc : string) (basicAuth : option string)
  | BuiltCosmos (client : CosmosBridgeClient) (memory : CosmosState) (signer : Signer W) (rpc : string)
      (basicAuth : option string) (grpc : string) (tls : bool).
Arguments BuiltEVM {W}.
Arguments BuiltCosmos {W}.

(** [s[:2]] panics on a shorter string. *)
Definition trim0x_unchecked (s : string) : option string :=
  match s with
  | String a (String b s') => Some (if bool_decide (String a (String b EmptyString) = "0x") then s' else s)
  | _ => None
  end.

Section Manager.
Context {W : Type} {E : Env W} (env : string -> option string) (elib : EVMLib) (lib : ManagerLib W).

Definition createEthClient (chainID : string) : M W (string * option string) :=
  let* rpc := of_sum (GetRPCEndpoint env cfg chainID) in
  let* basicAuth := of_sum (GetBasicAuth env cfg chainID) in
  call (ethDial lib rpc) ;;
  ret (rpc, basicAuth).

Definition createEthSigner (chainID : string) (keys : gmap string string) (signerManager : bool)
    (signerWalletID : string) : M W (Signer W) :=
  if signerManager then
    logf LInfo "Using remote signer for EVM chain" ;;
    ret (RemoteEVMSigner signerWalletID chainID)
  else
    logf LInfo "Remote signing not configured - using local signer for EVM chain" ;;
    match keys !! chainID with
    | None => fail (ENew "private key not found for chain")
    | Some privateKeyStr =>
        let* privateKey := wrap "converting hex private key to ecdsa"
                             (of_sum (HexToECDSA lib (TrimPrefix0x privateKeyStr))) in
        ret (LocalEthereumSigner privateKey)
    end.

Definition createCosmosRPC (chainID : string) : M W (string * option string) :=
  let* rpc := wrap "getting rpc endpoint for chain" (of_sum (GetRPCEndpoint env cfg chainID)) in
  let* basicAuth := wrap "getting basic auth for chain" (of_sum (GetBasicAuth env cfg chainID)) in
  wrap "creating tmrpc client for chain" (of_sum (tmrpcDial lib rpc basicAuth)) ;;
  ret (rpc, basicAuth).

Definition createCosmosGRPC (chainID : string) : M W (string * bool) :=
  let* '(addr, tlsEnabled) := wrap "getting grpc endpoint for chain" (of_sum (GetGRPCEndpoint cfg chainID)) in
  wrap "creating grpc client at address" (of_sum (grpcDial lib addr tlsEnabled)) ;;
  ret (addr, tlsEnabled).

Definition createCosmosSigner (chainID : string) (keys : gmap string string) (signerManager : bool)
    (signerWalletID : string) : M W (Signer W) :=
  if signerManager then
    logf LInfo "Using remote signer for Cosmos chain" ;;
    ret (RemoteCosmosSigner signerWalletID chainID (DefaultTxConfig lib))
  else
    logf LInfo "Remote Signing not configured - using local signer for Cosmos chain" ;;
    match keys !! chainID with
    | None => fail (ENew "private key not found for chain")
    | Some privateKeyStr =>
        match trim0x_unchecked privateKeyStr with
        | None => panic
        | Some privateKeyStr =>
            match hex_DecodeString privateKeyStr with
            | None => fail (EWrap "hex decoding private key bytes to string" hexError)
            | Some privateKeyBytes =>
                wrap "unmarshaling private key bytes to amino" (of_sum (UnmarshalAmino lib privateKeyBytes)) ;;
                ret (LocalCosmosSigner privateKeyBytes)
            end
        end
    end.

(** The fees a Cosmos chain may be configured with. *)
Definition checkFees (gasPrice : float) (feeDenom : string) (feeAmount : Z) : option error :=
  if (float_pos gasPrice || bool_decide (0 < feeAmount)) && bool_decide (feeDenom = "") then
    Some (ENew "ibcv2 gas price or ibcv2 fee amount cannot be specified without setting ibcv2 fee denom")
  else if negb (bool_decide (feeDenom = "")) && (float_zero gasPrice && bool_decide (feeAmount = 0)) then
    Some (ENew "ibcv2 gas price and ibcv2 fee amount cannot be unset when a ibcv2 fee denom is set")
  else if float_pos gasPrice && bool_decide (0 < feeAmount) then
    Some (ENew "ibcv2 fee denom and ibcv2 gas price cannot both be set")
  else None.

Definition createEVM (keys : gmap string string) (signerManager : bool) (wallet : string) (chain : ChainConfig)
    : M W (BuiltClient W) :=
  let chainID := ChainID chain in
  let* signer := wrap "creating eth signer for chain" (createEthSigner chainID keys signerManager wallet) in
  let* '(rpc, basicAuth) := wrap "creating eth client for chain" (createEthClient chainID) in
  match Config.EVM chain with
  | None => panic
  | Some evm =>
      let* signerAddress := Signing.Address (signerLib lib) signer in
      let* '(client, memory) := wrap "creating evm bridge client for chain"
        (of_sum (EVM.NewEVMBridgeClient elib chainID (ICS26RouterAddress evm) signerAddress
                   (GasFeeCapMultiplier evm) (GasTipCapMultiplier evm) (EVM_TxSubmissionDelay evm))) in
      ret (BuiltEVM client memory signer rpc basicAuth)
  end.

Definition createCosmos (keys : gmap string string) (signerManager : bool) (wallet : string) (chain : ChainConfig)
    : M W (BuiltClient W) :=
  let chainID := ChainID chain in
  match Config.Cosmos chain with
  | None => panic
  | Some cosmos =>
      match checkFees (GasPrice cosmos) (IBCV2TxFeeDenom cosmos) (IBCV2TxFeeAmount cosmos) with
      | Some err => fail err
      | None =>
          let* signer := wrap "creating cosmos signer for chain" (createCosmosSigner chainID keys signerManager wallet) in
          let* '(rpc, basicAuth) := wrap "creating cosmos rpc client for chain" (createCosmosRPC chainID) in
          let* '(grpc, tls) := wrap "creating cosmos grpc connection for chain" (createCosmosGRPC chainID) in
          let '(client, memory) := Cosmos.NewCosmosBridgeClient chainID (AddressPrefix cosmos) (GasPrice cosmos)
            (IBCV2TxFeeDenom cosmos) (IBCV2TxFeeAmount cosmos) (Cosmos_TxSubmissionDelay cosmos) in
          ret (BuiltCosmos client memory signer rpc basicAuth grpc tls)
      end
  end.

(** The loop over the chains; a later chain of the same ID replaces an earlier one. *)
Fixpoint createClients (keys : gmap string string) (signerManager : bool) (cosmosWallet evmWallet : string)
    (chains : list ChainConfig) (built : gmap string (BuiltClient W)) : M W (gmap string (BuiltClient W)) :=
  match chains with
  | [] => ret built
  | chain :: rest =>
      if bool_decide (Type_ chain = ChainTypeEVM) then
        let* bridge := createEVM keys signerManager evmWallet chain in
        createClients keys signerManager cosmosWallet evmWallet rest (<[ChainID chain := bridge]> built)
      else if bool_decide (Type_ chain = ChainTypeCOSMOS) then
        let* bridge := createCosmos keys signerManager cosmosWallet chain in
        createClients keys signerManager cosmosWallet evmWallet rest (<[ChainID chain := bridge]> built)
      else createClients keys signerManager cosmosWallet evmWallet rest built
  end.

Definition NewClientManagerFromConfig (keys : gmap string string) (signerConn : bool)
    (signerCosmosWalletID signerEVMWalletID : string) (chains : list ChainConfig) : M W (gmap string (BuiltClient W)) :=
  (if signerConn then
     let hasCosmosChains := existsb (fun chain => bool_decide (Type_ chain = ChainTypeCOSMOS)) chains in
     let hasEVMChains := existsb (fun chain => bool_decide (Type_ chain = ChainTypeEVM)) chains in
     (if hasCosmosChains && negb (bool_decide (signerCosmosWalletID = ""))
      then wrap "remote signer health check failed for wallet" (Signing.GetWallet (signerLib lib) signerCosmosWalletID PubKeyType_Cosmos ;; ret tt)
      else ret tt) ;;
     (if hasEVMChains && negb (bool_decide (signerEVMWalletID = ""))
      then wrap "remote signer health check failed for wallet" (Signing.GetWallet (signerLib lib) signerEVMWalletID PubKeyType_Ethereum ;; ret tt)
      else ret tt) ;;
     logf LInfo "Successfully connected to remote signer service"
   else ret tt) ;;
  createClients keys signerConn signerCosmosWalletID signerEVMWalletID chains ∅.

(** *** What was built *)

(** The client belongs to the chain's configuration. *)
Definition built_from (chain : ChainConfig) (b : BuiltClient W) : Prop :=
  match b with
  | BuiltEVM c _ _ _ _ =>
      Type_ chain = ChainTypeEVM /\ EvmClient.chainID c = ChainID chain /\ exists evm, Config.EVM chain = Some evm /\
      routerAddress c = HexToAddress elib (ICS26RouterAddress evm) /\ length (signerAddress c) = 20%nat /\
      EvmClient.txSubmissionDelay c = default (2 * Second) (EVM_TxSubmissionDelay evm)
  | BuiltCosmos c _ _ _ _ _ _ =>
      Type_ chain = ChainTypeCOSMOS /\ CosmosClient.chainID c = ChainID chain /\ exists cosmos, Config.Cosmos chain = Some cosmos /\
      gasPrice c = GasPrice cosmos /\ feeDenom c = IBCV2TxFeeDenom cosmos /\ feeAmount c = IBCV2TxFeeAmount cosmos /\
      checkFees (gasPrice c) (feeDenom c) (feeAmount c) = None
  end.

Lemma createEVM_built keys sm wallet chain s :
  Type_ chain = ChainTypeEVM ->
  wp (createEVM keys sm wallet chain) (fun r _ => match r with Ok b => built_from chain b | _ => True end) s.
Proof.
  intros Ht. unfold createEVM. apply wp_bind, wp_wrap.
  eapply (wp_mono _ (fun _ _ => True)); [|done]. intros [signer|e|] s1 _; [|done..].
  apply wp_bind, wp_wrap. eapply (wp_mono _ (fun _ _ => True)); [|done]. intros [[rpc auth]|e|] s2 _; [|done..].
  destruct (Config.EVM chain) as [evm|] eqn:Eevm; [|by apply wp_panic].
  apply wp_bind. eapply (wp_mono _ (fun _ _ => True)); [|done]. intros [a|e|] s3 _; [|done..].
  unfold EVM.NewEVMBridgeClient. destruct (NewContract _ _ _) as [e|[]]; [by apply wp_bind, wp_wrap, wp_fail|].
  destruct (bool_decide (length a = 20%nat)) eqn:El; cbn [negb]; [|by apply wp_bind, wp_wrap, wp_fail].
  apply bool_decide_eq_true in El. apply wp_bind, wp_wrap, wp_ret, wp_ret.
  split; [done|]. split; [done|]. by exists evm.
Qed.

Lemma createCosmos_built keys sm wallet chain s :
  Type_ chain = ChainTypeCOSMOS ->
  wp (createCosmos keys sm wallet chain) (fun r _ => match r with Ok b => built_from chain b | _ => True end) s.
Proof.
  intros Ht. unfold createCosmos. destruct (Config.Cosmos chain) as [cosmos|] eqn:Ec; [|by apply wp_panic].
  destruct (checkFees _ _ _) eqn:Ef; [by apply wp_fail|].
  apply wp_bind, wp_wrap. eapply (wp_mono _ (fun _ _ => True)); [|done]. intros [signer|e|] s1 _; [|done..].
  apply wp_bind, wp_wrap. eapply (wp_mono _ (fun _ _ => True)); [|done]. intros [[rpc auth]|e|] s2 _; [|done..].
  apply wp_bind, wp_wrap. eapply (wp_mono _ (fun _ _ => True)); [|done]. intros [[grpc tls]|e|] s3 _; [|done..].
  apply wp_ret. split; [done|]. split; [done|]. by exists cosmos.
Qed.

Definition bridged (chain : ChainConfig) : Prop := Type_ chain = ChainTypeEVM \/ Type_ chain = ChainTypeCOSMOS.

(** The map is about these chains. *)
Definition built_for (chains : list ChainConfig) (built : gmap string (BuiltClient W)) : Prop :=
  (forall id b, built !! id = Some b -> exists chain, chain ∈ chains /\ ChainID chain = id /\ built_from chain b) /\
  (forall chain, chain ∈ chains -> bridged chain -> is_Some (built !! ChainID chain)).

Lemma built_for_add done built chain b :
  built_for done built -> built_from chain b -> built_for (done ++ [chain]) (<[ChainID chain := b]> built).
Proof.
  intros [H1 H2] Hb. split.
  - intros id b' [[<- <-]|[N Hid]]%lookup_insert_Some.
    + exists chain. split; [apply elem_of_app; right; by apply list_elem_of_singleton | done].
    + destruct (H1 id b' Hid) as (c & Hc & Hid' & Hf). exists c. split; [by apply elem_of_app; left | done].
  - intros c [Hc| ->%list_elem_of_singleton]%elem_of_app Hbr.
    + destruct (decide (ChainID chain = ChainID c)) as [->|N]; [rewrite lookup_insert_eq; by eexists|].
      rewrite lookup_insert_ne by done. by apply H2.
    + rewrite lookup_insert_eq. by eexists.
Qed.

Lemma built_for_skip done built chain : built_for done built -> ~ bridged chain -> built_for (done ++ [chain]) built.
Proof.
  intros [H1 H2] Hn. split.
  - intros id b Hid. destruct (H1 id b Hid) as (c & Hc & Hf). exists c. split; [by apply elem_of_app; left | done].
  - intros c [Hc| ->%list_elem_of_singleton]%elem_of_app Hbr; [by apply H2 | done].
Qed.

Lemma createClients_built keys sm cw ew chains : forall done built s,
  built_for done built ->
  wp (createClients keys sm cw ew chains built)
    (fun r _ => match r with Ok m => built_for (done ++ chains) m | _ => True end) s.
Proof.
  induction chains as [|chain chains IH]; intros done built s Hb; [apply wp_ret; by rewrite app_nil_r|].
  cbn [createClients]. replace (done ++ chain :: chains) with ((done ++ [chain]) ++ chains) by by rewrite <- app_assoc.
  case_bool_decide as E1; [|case_bool_decide as E2].
  - apply wp_bind. eapply wp_mono; [|exact (createEVM_built keys sm ew chain s E1)].
    intros [b|e|] s' Hf; [|done..]. apply IH. by apply built_for_add.
  - apply wp_bind. eapply wp_mono; [|exact (createCosmos_built keys sm cw chain s E2)].
    intros [b|e|] s' Hf; [|done..]. apply IH. by apply built_for_add.
  - apply IH. apply built_for_skip; [done|]. intros [?|?]; done.
Qed.


(** A configured key of fewer than two characters makes the slice expression panic. *)
Lemma short_cosmos_key_panics chainID keys wallet key s :
  keys !! chainID = Some key -> (String.length key < 2)%nat ->
  fst (createCosmosSigner chainID keys false wallet s) = Panic.
Proof.
  intros Hk Hl. unfold createCosmosSigner, bind, logf, emit. rewrite Hk.
  destruct key as [|a [|b key]]; [done | done | cbn in Hl; lia].
Qed.

End Manager.

(** ** A manager of two chains *)

Module ManagerExamples.
Import ClientWorld.

Definition evm_chain : ChainConfig :=
  mkChainConfig "ethereum" "1" ChainTypeEVM "testnet" None (Some (mkEVMConfig "http://evm" "" "router" "" None None None)) None
    "eth" None 18 ∅ None [].
Definition cosmos_chain : ChainConfig :=
  mkChainConfig "hub" "hub-1" ChainTypeCOSMOS "testnet"
    (Some (mkCosmosConfig (mkFloat 5 (-1)) "atom" 0 "http://hub" "" "hub:9090" false "cosmos" None)) None None
    "atom" None 6 ∅ None [].
Definition svm_chain : ChainConfig :=
  mkChainConfig "solana" "sol" ChainTypeSVM "testnet" None None None "sol" None 9 ∅ None [].

Definition two_chains : Env cworld := {|
  clock := tick;
  db_exec := fun w => (inr (cw_now w), w);
  tx_begin := says (inr tt);
  tx_commit := fun w => (Committed, w);
  tx_rollback := says (inr tt);
  clients := ∅;
  RelayByTx := fun _ => says (inr (mkRelayByTxResponse [1; 2] "router"));
  priceClient := None;
  cfg := NewConfigReader (mkConfig (mkPostgresConfig "h" "5432" "db" false "")
    [("a", evm_chain); ("b", cosmos_chain); ("c", svm_chain)] "" ":1" (mkCoingeckoConfig "" 0 "" 0)
    (mkIBCV2ProofAPIConfig "" false) no_signing);
|}.

Definition signer_lib : SignerLib cworld := {|
  sc_Sign := fun _ => says (inr NoSignature);
  sc_GetWallet := fun _ _ => says (inr []);
  secp_PubKey := fun key => key;
  secp_Address := Some;
  ecdsa_PublicKey := fun key => key;
  PubkeyToAddress := fun key => take 20 (key ++ replicate 20 0);
  UnmarshalPubkey := inr;
  CancunSigner_Hash := fun _ _ => None;
  eth_SignTx := fun _ _ _ => None;
  WithSignature := fun tx _ sig => inr (mkSignedTx (signed_inner tx) sig);
  Ecrecover := fun _ sig => inr sig;
  eth_MarshalBinary := fun tx => inr (tx_Data (signed_inner tx));
  eth_MarshalJSON := fun _ => inr [];
  PrivateKeyFromBase58 := fun s => inr (string_bytes s);
  solana_PublicKey := fun key => key;
  ToBase64 := fun _ => inr "";
  SignatureFromBytes := fun bz => bz;
  ReadString := says (inr "n");
|}.

Definition manager_lib : ManagerLib cworld := {|
  signerLib := signer_lib;
  DefaultTxConfig := cosmos_txConfig;
  HexToECDSA := fun s => inr (string_bytes s);
  UnmarshalAmino := fun _ => inr tt;
  ethDial := fun _ => says (inr tt);
  tmrpcDial := fun _ _ => inr tt;
  grpcDial := fun _ _ => inr tt;
|}.

Example manager_of_two_chains :
  match fst (NewClientManagerFromConfig (E:=two_chains) (fun _ => None) evm_lib manager_lib
               {[ "1" := "0xab"; "hub-1" := "0xcd" ]} false "" "" [evm_chain; cosmos_chain; svm_chain]
               (mkSys w0 db.empty_DB [])) with
  | Ok built => size built = 2%nat /\ is_Some (built !! "1") /\ is_Some (built !! "hub-1")
  | _ => False
  end.
Proof. vm_compute. split_and!; [reflexivity | by eexists | by eexists]. Qed.

End ManagerExamples.
