(* ===== verification/Prices.v ===== *)
(** * Prices ([src/shared/clients/coingecko/price_client.go], [client.go],
    [src/shared/clients/utils/rate_limited_http_client.go])

    The cache in front of the price service, the service's client and the HTTP client
    that keeps to its rate limit.  The cache lives in a part of the world; HTTP, the
    limiter and JSON are arguments.  The conversion of an amount to dollars is in the file
    UsdValue. *)

From stdpp Require Import pretty.
From S2P Require Import Prelude GoFloat Db Transfer Config World Logic Once GoLib.
From Stdlib Require Import Ascii.
Open Scope Z_scope.

(** ** The cache *)

Record PriceResponse := mkPriceResponse {
  price : float;
  lastUpdated : Z;
}.

Record CachedPriceClient := mkCachedPriceClient {
  cache : gmap string PriceResponse;
  cacheRefreshInterval : Z;
}.

#[export] Instance eta_CachedPriceClient : Eta CachedPriceClient := fun c =>
  mkCachedPriceClient (cache c) (cacheRefreshInterval c).

Definition NewCachedPriceClient (cacheRefreshInterval : Z) : CachedPriceClient :=
  mkCachedPriceClient ∅ cacheRefreshInterval.

Definition cacheKey (coingeckoID currency : string) : string :=
  double_slashes coingeckoID +:+ "/" +:+ double_slashes currency.

Section Cache.
Context {W : Type} {E : Env W} (L : Lens W CachedPriceClient).
Context (internalClient : string -> string -> X W float).

Definition GetSimplePrice (coingeckoID currency : string) : M W float :=
  let key := cacheKey coingeckoID currency in
  let* c := gets L in
  let* kept :=
    match cache c !! key with
    | None => ret None
    | Some response =>
        let* since := Since (lastUpdated response) in
        ret (if bool_decide (cacheRefreshInterval c < since) then None else Some response)
    end in
  match kept with
  | Some response => ret (price response)
  | None =>
      let* p := call (internalClient coingeckoID currency) in
      let* now := Now in
      modify L (fun c => c <| cache := <[key := mkPriceResponse p now]> (cache c) |>) ;;
      ret p
  end.

(** [NoOpPriceClient] *)
Definition NoOp_GetSimplePrice (coingeckoID currency : string) : M W float := ret (float_of_Z 0).
Definition NoOp_GetCoinUsdValue (coingeckoID : string) (decimals amount : Z) : M W (option db.Numeric) := ret None.

End Cache.

(** ** The service *)

Record Response := mkResponse {
  StatusCode : Z;
  RetryAfter : string;
  Body : error + list Z;
}.

Definition StatusOK : Z := 200.
Definition StatusTooManyRequests : Z := 429.

Section Http.
Context {W : Type} {E : Env W} {Request : Type}.
Context (limiter_Wait : X W unit) (client_Do : Request -> X W Response) (sleep : Z -> W -> W).

(** [time.Duration(retryAfter) * time.Second] wraps. *)
Definition waitFor (d : Z) : M W unit := fun s => (Ok tt, mkSys (sleep d (world s)) (tables s) (trace s)).

Definition RateLimited_Do (req : Request) : M W Response :=
  call limiter_Wait ;;
  let* res := call (client_Do req) in
  if negb (bool_decide (StatusCode res = StatusTooManyRequests)) then ret res else
  match strconv_Atoi (RetryAfter res) with
  | None => ret res
  | Some retryAfter => waitFor (to_int64 (retryAfter * Second)) ;; call (client_Do req)
  end.

Context (NewRequest : string -> list (string * string) -> error + Request).
(** [json.Unmarshal] into a map from coins to an object with numbers. *)
Context (UnmarshalPrices : list Z -> error + gmap string (gmap string float)).
Context (baseURL apiKey : string).

Definition Coingecko_GetSimplePrice (coingeckoID currency : string) : M W float :=
  let query := [("ids", coingeckoID); ("vs_currencies", currency)]
               ++ (if bool_decide (apiKey = "") then [] else [("x_cg_pro_api_key", apiKey)]) in
  let* req := of_sum (NewRequest (baseURL +:+ "/simple/price") query) in
  let* res := RateLimited_Do req in
  if negb (bool_decide (StatusCode res = StatusOK)) then fail (ENew "error requesting resource from server") else
  let* jsonBytes := of_sum (Body res) in
  let* prices := of_sum (UnmarshalPrices jsonBytes) in
  match prices !! coingeckoID with
  | None => fail (ENew "failed to return price for coingeckoId")
  | Some fields => ret (default (float_of_Z 0) (fields !! "usd"))
  end.

(** What [date.Format("02-01-2006")] reads of a time. *)
Record date := mkDate { date_day : Z; date_month : Z; date_year : Z }.

Definition pad2 (n : Z) : string := (if bool_decide (n < 10) then "0" else "") +:+ pretty (Z.to_N n).

Definition pad4 (n : Z) : string :=
  (if bool_decide (n < 10) then "000" else if bool_decide (n < 100) then "00"
   else if bool_decide (n < 1000) then "0" else "") +:+ pretty (Z.to_N n).

Definition Format_date (d : date) : string :=
  pad2 (date_day d) +:+ "-" +:+ pad2 (date_month d) +:+ "-" +:+ pad4 (date_year d).

(** [json.Unmarshal] into [HistoricalPriceResponse]: the current prices by currency. *)
Context (UnmarshalHistorical : list Z -> error + gmap string float).

Definition Coingecko_GetHistoricalPrice (coingeckoID currency : string) (d : date) : M W float :=
  let query := [("date", Format_date d)]
               ++ (if bool_decide (apiKey = "") then [] else [("x_cg_pro_api_key", apiKey)]) in
  let* req := of_sum (NewRequest (baseURL +:+ "/coins/" +:+ coingeckoID +:+ "/history") query) in
  let* res := RateLimited_Do req in
  if negb (bool_decide (StatusCode res = StatusOK)) then fail (ENew "error requesting resource from server") else
  let* jsonBytes := of_sum (Body res) in
  let* historicalPrice := of_sum (UnmarshalHistorical jsonBytes) in
  match historicalPrice !! currency with
  | None => fail (ENew "failed to return price for coingeckoId")
  | Some p => ret p
  end.

End Http.

Example Format_date_padded : Format_date (mkDate 2 1 2026) = "02-01-2026".
Proof. vm_compute. reflexivity. Qed.

(** [DefaultRateLimitedHTTPClient]: the interval and the burst of the limiter; a negative
    number of requests is not refused. *)
Definition limiter_settings (requestsPerMinute : Z) : Z * Z :=
  let n := if bool_decide (requestsPerMinute = 0) then 10 else requestsPerMinute in
  (Z.quot Minute n, Z.quot n 2).

(** ** Keys of the cache *)

Lemma double_slashes_inj s : forall s', double_slashes s = double_slashes s' -> s = s'.
Proof.
  induction s as [|a s IH]; intros [|b s'] H.
  - done.
  - destruct b as [[] [] [] [] [] [] [] []]; discriminate H.
  - destruct a as [[] [] [] [] [] [] [] []]; discriminate H.
  - assert (Hd : forall c t, double_slashes (String c t) =
      if Ascii.eqb c "/"%char then String c (String c (double_slashes t)) else String c (double_slashes t))
      by (intros [[] [] [] [] [] [] [] []] t; reflexivity).
    rewrite !Hd in H.
    destruct (Ascii.eqb a "/"%char) eqn:Ea, (Ascii.eqb b "/"%char) eqn:Eb.
    + injection H as -> H. f_equal. by apply IH.
    + injection H as -> H. congruence.
    + injection H as -> H. congruence.
    + injection H as -> H. f_equal. by apply IH.
Qed.

Lemma append_inj_r (s s' t : string) : s +:+ t = s' +:+ t -> s = s'.
Proof.
  intros H. apply (f_equal String.list_ascii_of_string) in H.
  assert (Ha : forall x y, String.list_ascii_of_string (x +:+ y) = String.list_ascii_of_string x ++ String.list_ascii_of_string y).
  { intros x y. induction x as [|c x IH]; [done|]. exact (f_equal (cons c) IH). }
  rewrite !Ha in H. apply app_inv_tail in H.
  by rewrite <- (String.string_of_list_ascii_of_string s), H, String.string_of_list_ascii_of_string.
Qed.

(** For one currency no two coins share a key. *)
Lemma cacheKey_inj currency id id' : cacheKey id currency = cacheKey id' currency -> id = id'.
Proof. intros H. apply append_inj_r in H. by apply double_slashes_inj. Qed.

(** For two currencies they can: doubling the slashes does not separate the parts. *)
Example cacheKey_collision : cacheKey "a/" "b" = cacheKey "a" "/b".
Proof. reflexivity. Qed.

(** ** Freshness *)

Section Fresh.
Context {W : Type} {E : Env W} (L : Lens W CachedPriceClient) `{!Lawful L}.
Context (internalClient : string -> string -> X W float) (currency : string).

(** [time] is what the clock says; it does not run backwards, and neither the clock nor
    the service reaches into the cache. *)
Record price_world (time : W -> Z) : Prop := {
  clock_time : forall w, fst (clock w) = time w;
  clock_forward : forall w, time w <= time (snd (clock w));
  clock_cache : forall w, view L (snd (clock w)) = view L w;
  service_forward : forall id w, time w <= time (snd (internalClient id currency w));
  service_cache : forall id w, view L (snd (internalClient id currency w)) = view L w;
}.

(** [fetched id p t]: the service gave the price [p] of [id], and [t] is the time right
    after. *)
Definition fetched (id : string) (p : float) (t : Z) : Prop :=
  exists w, fst (internalClient id currency w) = inr p /\ t = fst (clock (snd (internalClient id currency w))).

Definition cache_ok (c : CachedPriceClient) : Prop :=
  forall key r, cache c !! key = Some r -> exists id, key = cacheKey id currency /\ fetched id (price r) (lastUpdated r).

(** C37: a price the cache gives was given by the service for that coin, at most the
    refresh interval before the call or during it; an error is the service's own.  The
    cache, used for one currency, stays one of fetched prices, and a failed request leaves
    it as it was. *)
Theorem cached_price_fresh time id s :
  price_world time -> cache_ok (view L (world s)) -> 0 <= cacheRefreshInterval (view L (world s)) < max_int64 ->
  wp (GetSimplePrice L internalClient id currency) (fun r s' =>
    cache_ok (view L (world s')) /\
    match r with
    | Ok p => exists t, fetched id p t /\ time (world s) - cacheRefreshInterval (view L (world s)) <= t
    | Fail e => view L (world s') = view L (world s) /\ exists w, fst (internalClient id currency w) = inl e
    | Panic => False
    end) s.
Proof.
  intros Hw Hok Hint. unfold GetSimplePrice. apply wp_bind, wp_gets.
  assert (Hfetch : forall s1, view L (world s1) = view L (world s) -> time (world s) <= time (world s1) ->
    wp (let* p := call (internalClient id currency) in
        let* now := Now in
        modify L (fun c => c <| cache := <[cacheKey id currency := mkPriceResponse p now]> (cache c) |>) ;;
        ret p) (fun r s' => cache_ok (view L (world s')) /\
    match r with
    | Ok p => exists t, fetched id p t /\ time (world s) - cacheRefreshInterval (view L (world s)) <= t
    | Fail e => view L (world s') = view L (world s) /\ exists w, fst (internalClient id currency w) = inl e
    | Panic => False
    end) s1).
  { intros s1 Hv Hle. apply wp_bind, wp_call. intros r w Hr.
    pose proof (service_cache _ Hw id (world s1)) as Hsv. pose proof (service_forward _ Hw id (world s1)) as Hsf.
    rewrite Hr in Hsv, Hsf. cbn in Hsv, Hsf. destruct r as [e|p].
    { cbn. rewrite Hsv, Hv. split; [done|]. split; [done|]. exists (world s1). by rewrite Hr. }
    apply wp_bind, wp_Now. cbn [world]. intros now w' Hc. apply wp_bind, wp_modify, wp_ret. cbn [world].
    rewrite view_set. pose proof (clock_cache _ Hw w) as Hcc. pose proof (clock_time _ Hw w) as Hct.
    rewrite Hc in Hcc, Hct. cbn in Hcc, Hct. rewrite Hcc, Hsv, Hv.
    assert (Hf : fetched id p now) by (exists (world s1); rewrite Hr; cbn; by rewrite Hc).
    split; [|exists now; split; [done | lia]].
    intros key r Hk. cbn in Hk. apply lookup_insert_Some in Hk as [[<- <-]|[_ Hk]]; [by exists id | by apply Hok]. }
  destruct (cache (view L (world s)) !! cacheKey id currency) as [response|] eqn:Ek.
  - apply wp_bind, wp_bind. unfold Since. apply wp_bind, wp_Now. intros now w Hc. apply wp_ret, wp_ret. cbn beta iota.
    pose proof (clock_cache _ Hw (world s)) as Hcc. pose proof (clock_time _ Hw (world s)) as Hct.
    pose proof (clock_forward _ Hw (world s)) as Hcf. rewrite Hc in Hcc, Hct, Hcf. cbn in Hcc, Hct, Hcf.
    case_bool_decide as Hs; [by apply Hfetch|]. apply wp_ret. cbn [world]. rewrite Hcc. split; [done|].
    destruct (Hok _ _ Ek) as (id' & Hid & Hf). apply cacheKey_inj in Hid. subst id'.
    exists (lastUpdated response). split; [done|]. unfold time_Sub in Hs. unfold max_int64, min_int64 in *. lia.
  - apply wp_bind, wp_ret. apply Hfetch; [done | lia].
Qed.

End Fresh.

(** A single request per minute leaves no burst, so that the limiter admits none. *)
Example limiter_of_one : limiter_settings 1 = (Minute, 0).
Proof. reflexivity. Qed.

(** ** The theorem at work *)

Module PriceExamples.

Definition pworld : Type := Z * CachedPriceClient.
Definition price_lens : Lens pworld CachedPriceClient := mkLens snd (fun c w => (w.1, c)).

#[export] Instance price_lens_lawful : Lawful price_lens.
Proof. by split; intros; try destruct w. Qed.

Definition penv : Env pworld := {|
  clock := fun w => (w.1, (w.1 + Second, w.2));
  db_exec := fun w => (inr w.1, w);
  tx_begin := fun w => (inr tt, w);
  tx_commit := fun w => (Committed, w);
  tx_rollback := fun w => (inr tt, w);
  clients := ∅;
  RelayByTx := fun _ w => (inl (ENew "unavailable"), w);
  priceClient := None;
  cfg := NewConfigReader (mkConfig (mkPostgresConfig "h" "5432" "db" false "") [] "" ":1" (mkCoingeckoConfig "" 0 "" 0)
           (mkIBCV2ProofAPIConfig "" false) no_signing);
|}.

(** A service whose price is the time. *)
Definition service (id currency : string) : X pworld float := fun w => (inr (float_of_Z w.1), w).

(** A price fetched at second 5, asked for at second 8 with an interval of a minute. *)
Definition kept : pworld :=
  (8 * Second, mkCachedPriceClient {[ cacheKey "cosmos" "usd" := mkPriceResponse (float_of_Z (5 * Second)) (5 * Second) ]} Minute).

Lemma cached_price_fresh_witness :
  fst (GetSimplePrice (E:=penv) price_lens service "cosmos" "usd" (mkSys kept db.empty_DB [])) = Ok (float_of_Z (5 * Second)) /\
  exists t, fetched (E:=penv) service "usd" "cosmos" (float_of_Z (5 * Second)) t /\ 8 * Second - Minute <= t.
Proof.
  split; [vm_compute; reflexivity|].
  assert (Hw : price_world (E:=penv) price_lens service "usd" fst).
  { split; try done; intros; cbn; unfold Second, Millisecond, Microsecond; lia. }
  assert (Hok : cache_ok (E:=penv) service "usd" (view price_lens kept)).
  { intros key r Hk. cbn [kept price_lens view snd cache] in Hk. apply lookup_singleton_Some in Hk as [<- <-].
    exists "cosmos". split; [done|]. exists (5 * Second, NewCachedPriceClient 0). done. }
  pose proof (cached_price_fresh (E:=penv) price_lens service "usd" fst "cosmos" (mkSys kept db.empty_DB []) Hw Hok
    ltac:(vm_compute; split; [discriminate | reflexivity])) as H.
  unfold wp in H. replace (fst (GetSimplePrice (E:=penv) price_lens service "cosmos" "usd" (mkSys kept db.empty_DB [])))
    with (Ok (float_of_Z (5 * Second))) in H by (vm_compute; reflexivity).
  exact (proj2 H).
Defined.

End PriceExamples.
