(* ===== verification/UsdValue.v ===== *)
(** * Dollars

    [GetCoinUsdValue] of [src/shared/clients/coingecko/price_client.go]: an amount of
    base units is turned into a [float64], divided by a power of ten, multiplied by the
    price, printed with six decimals and read back as a decimal number.  Every
    operation rounds; the theorem bounds what is stored against the exact value.

    The amount's conversion ([LegacyDec.Float64]) and the reading of the decimal text
    ([pgtype.Numeric.ScanScientific]) are library code and arguments here. *)

From stdpp Require Import pretty.
From S2P Require Import Prelude GoFloat Db Transfer Config World Logic Once GoLib Prices.
From S2P Require Import CosmosTheorems.
From Stdlib Require Import QArith Qabs Qpower Lqa Ascii.
Open Scope Z_scope.

(** ** [float64] operations *)

(** The quotient to nearest, ties to even: enough bits of it for the rounding to see,
    and a last bit that says whether anything follows. *)
Definition float_Div (p : Z) (x y : float) : float :=
  let mx := Z.abs (mantissa x) in
  let my := Z.abs (mantissa y) in
  let k := Z.max 0 (p + 2 + BitLen my - BitLen mx) in
  let q := mx * 2 ^ k / my in
  let sticky := if bool_decide ((mx * 2 ^ k) mod my = 0) then 0 else 1 in
  round p (mkFloat (Z.sgn (mantissa x) * Z.sgn (mantissa y) * (2 * q + sticky))
             (exponent x - exponent y - k - 1)).

Definition float64_Mul (x y : float) : float := big_Mul 53 x y.
Definition float64_Div (x y : float) : float := float_Div 53 x y.
Definition float64_of_Z (n : Z) : float := round 53 (float_of_Z n).

(** [math.Pow10] for a non-negative argument: a product of two tabulated powers. *)
Definition math_Pow10 (n : Z) : float :=
  float64_Mul (float64_of_Z (10 ^ (32 * (n / 32)))) (float64_of_Z (10 ^ (n mod 32))).

(** ** [fmt.Sprintf "%f"] *)

(** A quotient to the nearest integer, ties to even. *)
Definition div_even (n d : Z) : Z :=
  let q := n / d in
  let r := n mod d in
  if bool_decide (d < 2 * r) || (bool_decide (2 * r = d) && Z.odd q) then q + 1 else q.

(** The number of millionths. *)
Definition millionths (x : float) : Z :=
  let m := Z.abs (mantissa x) in
  if bool_decide (0 <= exponent x) then m * 2 ^ exponent x * 10 ^ 6
  else div_even (m * 10 ^ 6) (2 ^ (- exponent x)).

Definition digit_at (k i : Z) : ascii := pretty_N_char (Z.to_N (k / 10 ^ i mod 10)).

(** A number of millionths with its decimal point. *)
Definition decimal6 (k : Z) : string :=
  pretty (Z.to_N (k / 10 ^ 6)) +:+ "." +:+
  String (digit_at k 5) (String (digit_at k 4) (String (digit_at k 3)
    (String (digit_at k 2) (String (digit_at k 1) (String (digit_at k 0) ""))))).

Definition float_inf (x : float) : bool :=
  negb (bool_decide (mantissa x = 0)) && bool_decide (1024 < BitLen (Z.abs (mantissa x)) + exponent x).

Definition Sprintf_f (x : float) : string :=
  if float_inf x then if bool_decide (mantissa x < 0) then "-Inf" else "+Inf"
  else (if bool_decide (mantissa x < 0) then "-" else "") +:+ decimal6 (millionths x).

(** ** The price client *)

(** What a number of the library makes of an outcome. *)
Definition of_res {W A} (r : res A) : M W A := fun s => (r, s).

Section UsdValue.
Context {W : Type} {E : Env W} (L : Lens W CachedPriceClient).
Context (internalClient : string -> string -> X W float).
(** [LegacyNewDecFromInt (NewIntFromBigInt amount)).Float64()] *)
Context (DecFloat64 : option Z -> res float).
Context (ScanScientific : string -> error + db.Numeric).

Definition usd_amount (amountFloat coingeckoPrice : float) (decimals : Z) : float :=
  float64_Mul (float64_Div amountFloat (math_Pow10 decimals)) coingeckoPrice.

Definition Cached_GetCoinUsdValue (coingeckoID : string) (decimals : Z) (amount : option Z)
    : M W (option db.Numeric) :=
  let* coingeckoPrice := wrap "getting coingecko price in usd"
    (GetSimplePrice L internalClient coingeckoID "usd") in
  let* amountFloat := wrap "invalid amount to float64 conversion" (of_res (DecFloat64 amount)) in
  let usdAmountStr := Sprintf_f (usd_amount amountFloat coingeckoPrice decimals) in
  let* num := wrap "scanning usd amount into pg numeric" (of_sum (ScanScientific usdAmountStr)) in
  ret (Some num).

End UsdValue.

(** ** Values *)

Definition float_value (x : float) : Q := (inject_Z (mantissa x) * 2 ^ exponent x)%Q.

Definition numeric_value (n : db.Numeric) : Q := (inject_Z (default 0%Z (db.Int n)) * 10 ^ db.Exp n)%Q.

(** [y] is [x] up to factors between [lo] and [hi]. *)
Definition within (lo hi x y : Q) : Prop := (lo * x <= y /\ y <= hi * x)%Q.

Open Scope Q_scope.

Lemma within_trans l1 h1 l2 h2 x y z :
  0 <= l2 -> 0 <= h2 -> within l1 h1 x y -> within l2 h2 y z -> within (l1 * l2) (h1 * h2) x z.
Proof.
  intros Hl Hh [H1 H2] [H3 H4]. split.
  - apply (Qle_trans _ (l2 * y)); [|done]. rewrite (Qmult_comm l1), <- Qmult_assoc.
    rewrite !(Qmult_comm l2). by apply Qmult_le_compat_r.
  - apply (Qle_trans _ (h2 * y)); [done|]. rewrite (Qmult_comm h1), <- Qmult_assoc.
    rewrite !(Qmult_comm h2). by apply Qmult_le_compat_r.
Qed.

Lemma within_nonneg l h x y : 0 <= l -> 0 <= x -> within l h x y -> 0 <= y.
Proof. intros Hl Hx [H _]. apply (Qle_trans _ (l * x)); [by apply Qmult_le_0_compat | done]. Qed.

Lemma within_mul l1 h1 l2 h2 x x' y y' :
  0 <= l1 -> 0 <= l2 -> 0 <= x -> 0 <= y ->
  within l1 h1 x x' -> within l2 h2 y y' -> within (l1 * l2) (h1 * h2) (x * y) (x' * y').
Proof.
  intros Hl1 Hl2 Hx Hy Hw1 Hw2.
  pose proof (within_nonneg _ _ _ _ Hl1 Hx Hw1). pose proof (within_nonneg _ _ _ _ Hl2 Hy Hw2).
  destruct Hw1, Hw2. split.
  - setoid_replace (l1 * l2 * (x * y)) with ((l1 * x) * (l2 * y)) using relation Qeq by ring.
    apply Qmult_le_compat_nonneg; split; try done; by apply Qmult_le_0_compat.
  - setoid_replace (h1 * h2 * (x * y)) with ((h1 * x) * (h2 * y)) using relation Qeq by ring.
    apply Qmult_le_compat_nonneg; by split.
Qed.

Lemma within_div l1 h1 l2 h2 x x' y y' :
  0 <= l1 -> 0 <= h1 -> 0 < l2 -> 0 < h2 -> 0 <= x -> 0 < y ->
  within l1 h1 x x' -> within l2 h2 y y' -> within (l1 / h2) (h1 / l2) (x / y) (x' / y').
Proof.
  intros Hl1 Hh1 Hl2 Hh2 Hx Hy Hw1 [H3 H4].
  assert (Hy' : 0 < y') by (apply (Qlt_le_trans _ (l2 * y)); [by apply Qmult_lt_0_compat | done]).
  pose proof (within_nonneg _ _ _ _ Hl1 Hx Hw1) as Hx'. destruct Hw1 as [H1 H2]. split.
  - apply Qle_shift_div_l; [done|].
    apply (Qle_trans _ (l1 / h2 * (x / y) * (h2 * y))).
    + rewrite !(Qmult_comm (_ * (x / y))). apply Qmult_le_compat_r; [done|].
      apply Qmult_le_0_compat; [apply Qle_shift_div_l | apply Qle_shift_div_l]; lra.
    + setoid_replace (l1 / h2 * (x / y) * (h2 * y)) with (l1 * x) using relation Qeq by (field; split; lra). done.
  - apply Qle_shift_div_r; [done|].
    apply (Qle_trans _ (h1 / l2 * (x / y) * (l2 * y))).
    + setoid_replace (h1 / l2 * (x / y) * (l2 * y)) with (h1 * x) using relation Qeq by (field; split; lra). done.
    + rewrite !(Qmult_comm (_ * (x / y))). apply Qmult_le_compat_r; [done|].
      apply Qmult_le_0_compat; apply Qle_shift_div_l; lra.
Qed.

Close Scope Q_scope.

(** ** What each operation rounds *)

Lemma round_even_error p m q d :
  0 <= m -> 1 <= p -> round_even p m = (q, d) -> 0 <= d /\ 0 <= q /\ Z.abs (q * 2 ^ d - m) * 2 ^ p <= m.
Proof.
  intros Hm Hp. unfold round_even. case_bool_decide as Hd.
  { intros [= <- <-]. rewrite Z.pow_0_r, Z.mul_1_r, Z.sub_diag. cbn. lia. }
  set (d0 := BitLen m - p) in *. intros Hr.
  assert (Hd0 : d = d0) by (destruct (_ || _); by injection Hr as _ <-). subst d.
  assert (N : 0 < m) by (destruct (decide (m = 0)) as [->|]; [|lia]; exfalso; apply Hd; unfold d0; change (BitLen 0) with 0; lia).
  pose proof (BitLen_spec m N) as [Hb _].
  assert (H2 : 2 ^ d0 = 2 * 2 ^ (d0 - 1)) by (rewrite <- Z.pow_succ_r by lia; f_equal; lia).
  assert (Hpos : 0 < 2 ^ (d0 - 1)) by (apply Z.pow_pos_nonneg; lia).
  assert (Hbig : 2 ^ (d0 - 1) * 2 ^ p <= m).
  { rewrite <- Z.pow_add_r by lia. replace (d0 - 1 + p) with (BitLen m - 1) by lia. done. }
  pose proof (Z.div_mod m (2 ^ d0) ltac:(lia)) as Hdm.
  pose proof (Z.mod_pos_bound m (2 ^ d0) ltac:(lia)) as Hmb.
  assert (Hq0 : 0 <= m / 2 ^ d0) by (apply Z.div_pos; lia).
  assert (Herr : 0 <= q /\ Z.abs (q * 2 ^ d0 - m) <= 2 ^ (d0 - 1)).
  { destruct (_ || _) eqn:Hc; injection Hr as <-.
    - apply orb_true_iff in Hc. assert (2 ^ (d0 - 1) <= m mod 2 ^ d0); [|split; [lia|]; rewrite Z.mul_add_distr_r; lia].
      destruct Hc as [Hc|[Hc _]%andb_true_iff]; apply bool_decide_eq_true in Hc; lia.
    - apply orb_false_iff in Hc as [Hc _]. apply bool_decide_eq_false in Hc. split; lia. }
  destruct Herr as [Hq Herr]. split; [lia|]. split; [done|].
  transitivity (2 ^ (d0 - 1) * 2 ^ p); [|done]. apply Z.mul_le_mono_nonneg_r; [lia | done].
Qed.

Open Scope Q_scope.

(** The unit of the last of 53 bits, and room for it both ways. *)
Definition ulp : Q := 1 # 9007199254740992.
Definition close : Q -> Q -> Prop := within (1 - ulp) (1 + ulp).

Lemma scaled_close (a m : Z) (w : Q) : 0 < w ->
  (Z.abs (a - m) * 2 ^ 53 <= m)%Z -> close (inject_Z m * w) (inject_Z a * w).
Proof.
  intros Hw Ha. assert (H1 : ((m - a) * 2 ^ 53 <= m)%Z) by lia. assert (H2 : ((a - m) * 2 ^ 53 <= m)%Z) by lia.
  rewrite Zle_Qle, inject_Z_mult in H1, H2. unfold Z.sub in H1, H2. rewrite inject_Z_plus, inject_Z_opp in H1, H2.
  change (inject_Z (2 ^ 53)) with (9007199254740992 # 1) in *. unfold close, within, ulp.
  split; rewrite Qmult_assoc; (apply Qmult_le_compat_r; [|by apply Qlt_le_weak]); lra.
Qed.

Lemma pow2_pos e : 0 < 2 ^ e.
Proof. by apply Qpower_0_lt. Qed.

Lemma pow2_plus a b : 2 ^ (a + b) == 2 ^ a * 2 ^ b.
Proof. by apply Qpower_plus. Qed.

Lemma round_close x : (0 <= mantissa x)%Z -> close (float_value x) (float_value (round 53 x)).
Proof.
  intros Hm. unfold round. rewrite Z.abs_eq by done. destruct (round_even 53 (mantissa x)) as [q d] eqn:Hr.
  destruct (round_even_error 53 (mantissa x) q d Hm ltac:(lia) Hr) as (Hd & Hq & He).
  assert (Hs : (Z.sgn (mantissa x) * q = q)%Z).
  { destruct (decide (mantissa x = 0)%Z) as [H0|N]; [|rewrite Z.sgn_pos; lia].
    rewrite H0 in Hr |- *. injection Hr as <- _. done. }
  rewrite Hs. unfold float_value. cbn [mantissa exponent].
  assert (Hv : inject_Z q * 2 ^ (exponent x + d) == inject_Z (q * 2 ^ d) * 2 ^ exponent x).
  { rewrite pow2_plus, inject_Z_mult, (Zpower_Qpower 2 d) by done. change (inject_Z 2) with (2 # 1). ring. }
  unfold close, within. rewrite Hv. apply scaled_close; [apply pow2_pos | done].
Qed.

Lemma round_nonneg p x : (0 <= mantissa x)%Z -> (1 <= p)%Z -> (0 <= mantissa (round p x))%Z.
Proof.
  intros Hm Hp. unfold round. destruct (round_even p (Z.abs (mantissa x))) as [q d] eqn:Hr. cbn.
  destruct (round_even_error _ _ _ _ (Z.abs_nonneg _) Hp Hr) as (_ & Hq & _). lia.
Qed.

Lemma float_value_nonneg x : (0 <= mantissa x)%Z -> 0 <= float_value x.
Proof.
  intros H. apply Qmult_le_0_compat; [by rewrite <- (Zle_Qle 0) | apply Qlt_le_weak, pow2_pos].
Qed.

Lemma Mul_close x y : (0 <= mantissa x)%Z -> (0 <= mantissa y)%Z ->
  close (float_value x * float_value y) (float_value (float64_Mul x y)).
Proof.
  intros Hx Hy. unfold float64_Mul, big_Mul. set (z := mkFloat _ _).
  assert (Hz : float_value z == float_value x * float_value y).
  { unfold float_value. cbn. rewrite pow2_plus, inject_Z_mult. ring. }
  unfold close, within. rewrite <- Hz. apply round_close. cbn. lia.
Qed.

(** The quotient before it is rounded. *)
Lemma quotient_error mx my : (0 <= mx)%Z -> (0 < my)%Z ->
  let k := Z.max 0 (53 + 2 + BitLen my - BitLen mx) in
  let q := (mx * 2 ^ k / my)%Z in
  let sticky := if bool_decide ((mx * 2 ^ k) mod my = 0)%Z then 0%Z else 1%Z in
  (0 <= k /\ 0 <= 2 * q + sticky /\
   Z.abs ((2 * q + sticky) * my - 2 * (mx * 2 ^ k)) * 2 ^ 53 <= 2 * (mx * 2 ^ k))%Z.
Proof.
  intros Hx Hy k q sticky.
  destruct (decide (mx = 0)%Z) as [->|N].
  { assert (Hq : q = 0%Z) by (unfold q; by rewrite Z.mul_0_l, Z.div_0_l by lia).
    assert (Hs : sticky = 0%Z) by (unfold sticky; rewrite Z.mul_0_l, Z.mod_0_l by lia; done).
    rewrite Hq, Hs, Z.mul_0_l. cbn. unfold k. lia. }
  pose proof (BitLen_spec mx ltac:(lia)) as [Hbx _]. pose proof (BitLen_spec my Hy) as [_ Hby].
  assert (Hbx0 : (1 <= BitLen mx)%Z) by (unfold BitLen; rewrite bool_decide_false by lia; pose proof (Z.log2_nonneg mx); lia).
  assert (Hby0 : (0 <= BitLen my)%Z) by (unfold BitLen; case_bool_decide; [lia|]; pose proof (Z.log2_nonneg my); lia).
  assert (Hk : (0 <= k)%Z) by (unfold k; lia).
  assert (Hn : (my * 2 ^ 54 <= mx * 2 ^ k)%Z).
  { transitivity (2 ^ BitLen my * 2 ^ 54)%Z; [apply Z.mul_le_mono_nonneg_r; lia|].
    transitivity (2 ^ (BitLen mx - 1) * 2 ^ k)%Z;
      [|apply Z.mul_le_mono_nonneg_r; [apply Z.pow_nonneg; lia | done]].
    rewrite <- !Z.pow_add_r by lia. apply Z.pow_le_mono_r; unfold k; lia. }
  set (n := (mx * 2 ^ k)%Z) in *.
  pose proof (Z.div_mod n my ltac:(lia)) as Hdm. pose proof (Z.mod_pos_bound n my Hy) as Hmb.
  assert (Hq : (0 <= q)%Z) by (unfold q; apply Z.div_pos; lia).
  assert (He : (Z.abs ((2 * q + sticky) * my - 2 * n) <= my)%Z).
  { unfold sticky, q in *. case_bool_decide; nia. }
  split; [done|]. split; [unfold sticky; case_bool_decide; lia|].
  transitivity (my * 2 ^ 53)%Z; [apply Z.mul_le_mono_nonneg_r; [lia | done] | lia].
Qed.

Lemma Div_within x y : (0 <= mantissa x)%Z -> (0 < mantissa y)%Z ->
  within ((1 - ulp) * (1 - ulp)) ((1 + ulp) * (1 + ulp)) (float_value x / float_value y)
    (float_value (float64_Div x y)).
Proof.
  intros Hx Hy. unfold float64_Div, float_Div. rewrite !Z.abs_eq by lia.
  destruct (quotient_error (mantissa x) (mantissa y) Hx Hy) as (Hk & Hpos & He).
  set (k := Z.max _ _) in *. set (q := (_ / mantissa y)%Z) in *. set (sticky := if bool_decide (_ mod mantissa y = 0)%Z then 0%Z else 1%Z) in *.
  assert (Hs : (Z.sgn (mantissa x) * Z.sgn (mantissa y) * (2 * q + sticky) = 2 * q + sticky)%Z).
  { rewrite (Z.sgn_pos (mantissa y)) by done. destruct (decide (mantissa x = 0)%Z) as [H0|N];
      [|rewrite Z.sgn_pos; lia].
    assert (2 * q + sticky = 0)%Z; [|nia]. rewrite H0, Z.mul_0_l in He. cbn in He. nia. }
  rewrite Hs. set (z := mkFloat (2 * q + sticky) _).
  apply (within_trans _ _ _ _ _ (float_value z)); [done | done | | by apply round_close].
  set (w := 2 ^ (exponent x - exponent y - k - 1) / inject_Z (mantissa y)).
  assert (Hmy : 0 < inject_Z (mantissa y)) by by rewrite <- (Zlt_Qlt 0).
  assert (Hx' : float_value x / float_value y == inject_Z (2 * (mantissa x * 2 ^ k)) * w).
  { unfold float_value, w. rewrite !inject_Z_mult, (Zpower_Qpower 2 k) by done.
    change (inject_Z 2) with (2 # 1). change (2 # 1) with (2 ^ 1) at 3.
    assert (Hp : 2 ^ exponent x == 2 ^ exponent y * 2 ^ k * 2 ^ 1 * 2 ^ (exponent x - exponent y - k - 1)).
    { rewrite <- !pow2_plus. f_equiv. lia. }
    rewrite Hp. field. split; [intros H0; by rewrite H0 in Hmy|]. pose proof (pow2_pos (exponent y)) as H2.
    intros H0. by rewrite H0 in H2. }
  assert (Hz : float_value z == inject_Z ((2 * q + sticky) * mantissa y) * w).
  { unfold float_value, w. cbn [mantissa exponent z]. rewrite inject_Z_mult. field.
    intros H0. by rewrite H0 in Hmy. }
  unfold within. rewrite Hx', Hz. apply scaled_close; [|done]. unfold w.
  apply Qlt_shift_div_l; [done|]. rewrite Qmult_0_l. apply pow2_pos.
Qed.

Lemma within_mono l h l' h' x y : l' <= l -> h <= h' -> 0 <= x -> within l h x y -> within l' h' x y.
Proof.
  intros Hl Hh Hx [H1 H2]. split.
  - apply (Qle_trans _ (l * x)); [by apply Qmult_le_compat_r | done].
  - apply (Qle_trans _ (h * x)); [done | by apply Qmult_le_compat_r].
Qed.

Lemma of_Z_close n : (0 <= n)%Z -> close (inject_Z n) (float_value (float64_of_Z n)) /\ (0 <= mantissa (float64_of_Z n))%Z.
Proof.
  intros Hn. split; [|by apply round_nonneg; [|lia]]. unfold float64_of_Z.
  assert (Hv : float_value (float_of_Z n) == inject_Z n) by (unfold float_value; cbn; ring).
  unfold close, within. rewrite <- Hv. by apply round_close.
Qed.

Definition pow10_lo : Q := (1 - ulp) * (1 - ulp) * (1 - ulp).
Definition pow10_hi : Q := (1 + ulp) * (1 + ulp) * (1 + ulp).

Lemma pos_mantissa x : 0 < float_value x -> (0 < mantissa x)%Z.
Proof.
  intros H. rewrite Zlt_Qlt. apply (Qmult_lt_r _ _ (2 ^ exponent x)); [apply pow2_pos|].
  by rewrite Qmult_0_l.
Qed.

Lemma Pow10_within n : (0 <= n)%Z -> within pow10_lo pow10_hi (inject_Z (10 ^ n)) (float_value (math_Pow10 n)).
Proof.
  intros Hn. unfold math_Pow10. set (a := (10 ^ (32 * (n / 32)))%Z). set (b := (10 ^ (n mod 32))%Z).
  pose proof (Z.mod_pos_bound n 32 ltac:(lia)) as Hm. pose proof (Z.div_pos n 32 Hn ltac:(lia)) as Hd.
  assert (Ha : (0 <= a)%Z) by (apply Z.pow_nonneg; lia). assert (Hb : (0 <= b)%Z) by (apply Z.pow_nonneg; lia).
  destruct (of_Z_close a Ha) as [Ca Ma], (of_Z_close b Hb) as [Cb Mb].
  assert (Hab : inject_Z (10 ^ n) == inject_Z a * inject_Z b).
  { rewrite <- inject_Z_mult. unfold a, b. rewrite <- Z.pow_add_r by lia.
    by rewrite <- (Z.div_mod n 32) by lia. }
  unfold within. rewrite Hab.
  eapply within_trans; [done | done | | by apply Mul_close].
  apply within_mul; try done; by rewrite <- (Zle_Qle 0).
Qed.

(** The whole computation, as one factor. *)
Lemma usd_amount_within a decimals p amountFloat : (0 <= a)%Z -> (0 <= decimals)%Z -> (0 <= mantissa p)%Z ->
  amountFloat = float64_of_Z a ->
  within (1 - (1 # 2 ^ 50)) (1 + (1 # 2 ^ 50)) (inject_Z a / inject_Z (10 ^ decimals) * float_value p)
    (float_value (usd_amount amountFloat p decimals)) /\
  (0 <= mantissa (usd_amount amountFloat p decimals))%Z.
Proof.
  intros Ha Hd Hp ->. destruct (of_Z_close a Ha) as [Ca Ma]. pose proof (Pow10_within decimals Hd) as Hw.
  assert (Ha0 : 0 <= inject_Z a) by by rewrite <- (Zle_Qle 0).
  assert (Ht : 0 < inject_Z (10 ^ decimals)) by (rewrite <- (Zlt_Qlt 0); by apply Z.pow_pos_nonneg).
  assert (Hpow : (0 < mantissa (math_Pow10 decimals))%Z).
  { apply pos_mantissa. destruct Hw as [Hw _]. apply (Qlt_le_trans _ (pow10_lo * inject_Z (10 ^ decimals))); [|done].
    by apply Qmult_lt_0_compat. }
  assert (Hq0 : 0 <= inject_Z a / inject_Z (10 ^ decimals)) by (apply Qle_shift_div_l; [done | by rewrite Qmult_0_l]).
  assert (H1 : within ((1 - ulp) / pow10_hi) ((1 + ulp) / pow10_lo) (inject_Z a / inject_Z (10 ^ decimals))
    (float_value (float64_of_Z a) / float_value (math_Pow10 decimals))) by by apply within_div.
  pose proof (fun H0 H0' => within_trans _ _ _ _ _ _ _ H0 H0' H1 (Div_within _ _ Ma Hpow)) as H2.
  specialize (H2 ltac:(done) ltac:(done)).
  assert (Hdiv : (0 <= mantissa (float64_Div (float64_of_Z a) (math_Pow10 decimals)))%Z).
  { unfold float64_Div, float_Div. apply round_nonneg; [|lia]. cbn.
    destruct (quotient_error (Z.abs (mantissa (float64_of_Z a))) (Z.abs (mantissa (math_Pow10 decimals)))
      ltac:(lia) ltac:(lia)) as (_ & Hq & _). lia. }
  assert (Hp0 : within 1 1 (float_value p) (float_value p)) by (split; rewrite Qmult_1_l; apply Qle_refl).
  pose proof (fun H0 H0' => within_mul _ _ _ _ _ _ _ _ H0 H0' Hq0 (float_value_nonneg p Hp) H2 Hp0) as H3.
  specialize (H3 ltac:(done) ltac:(done)).
  pose proof (fun H0 H0' => within_trans _ _ _ _ _ _ _ H0 H0' H3 (Mul_close _ _ Hdiv Hp)) as H4.
  specialize (H4 ltac:(done) ltac:(done)).
  split.
  - eapply within_mono; [| | |exact H4]; [vm_compute; discriminate..|].
    apply Qmult_le_0_compat; [done | by apply float_value_nonneg].
  - unfold usd_amount, float64_Mul, big_Mul. apply round_nonneg; [cbn; lia | lia].
Qed.

(** ** Printing *)

Lemma div_even_error n d : (0 < d)%Z -> (2 * Z.abs (div_even n d * d - n) <= d)%Z.
Proof.
  intros Hd. unfold div_even. pose proof (Z.div_mod n d ltac:(lia)) as Hdm.
  pose proof (Z.mod_pos_bound n d Hd) as Hmb. destruct (_ || _) eqn:Hc.
  - apply orb_true_iff in Hc. assert (d <= 2 * (n mod d))%Z; [|rewrite Z.mul_add_distr_r; lia].
    destruct Hc as [Hc|[Hc _]%andb_true_iff]; apply bool_decide_eq_true in Hc; lia.
  - apply orb_false_iff in Hc as [Hc _]. apply bool_decide_eq_false in Hc. lia.
Qed.

(** Printing moves the value by half of the last decimal at most. *)
Lemma millionths_close x : (0 <= mantissa x)%Z ->
  Qabs (inject_Z (millionths x) / inject_Z (10 ^ 6) - float_value x) <= 1 # 2000000.
Proof.
  intros Hm. unfold millionths. rewrite Z.abs_eq by done. unfold float_value.
  change (inject_Z (10 ^ 6)) with (1000000 # 1). case_bool_decide as He.
  - rewrite !inject_Z_mult, (Zpower_Qpower 2 (exponent x)) by done. change (inject_Z 2) with (2 # 1).
    change (inject_Z (10 ^ 6)) with (1000000 # 1).
    setoid_replace (inject_Z (mantissa x) * 2 ^ exponent x * (1000000 # 1) / (1000000 # 1) -
      inject_Z (mantissa x) * 2 ^ exponent x) with 0 using relation Qeq by (field; done). done.
  - set (d := (2 ^ (- exponent x))%Z). assert (Hd : (0 < d)%Z) by (apply Z.pow_pos_nonneg; lia).
    pose proof (div_even_error (mantissa x * 10 ^ 6) d Hd) as Hx. set (k := div_even _ d) in *.
    assert (H1 : (2 * (k * d - mantissa x * 10 ^ 6) <= d)%Z) by lia.
    assert (H2 : (2 * (mantissa x * 10 ^ 6 - k * d) <= d)%Z) by lia.
    assert (Hdq : 0 < inject_Z d) by by rewrite <- (Zlt_Qlt 0).
    assert (Hp : 2 ^ exponent x == / inject_Z d).
    { unfold d. rewrite (Zpower_Qpower 2 (- exponent x)) by lia. change (inject_Z 2) with (2 # 1).
      rewrite Qpower_opp, Qinv_involutive. done. }
    rewrite Hp. unfold Z.sub in H1, H2.
    rewrite Zle_Qle, !inject_Z_mult, inject_Z_plus, inject_Z_opp, !inject_Z_mult in H1, H2.
    change (inject_Z 2) with (2 # 1) in *. change (inject_Z (10 ^ 6)) with (1000000 # 1) in *.
    assert (Heq : (inject_Z k / (1000000 # 1) - inject_Z (mantissa x) * / inject_Z d) * inject_Z d ==
      inject_Z k * inject_Z d * (1 # 1000000) - inject_Z (mantissa x)).
    { unfold Qdiv. change (/ (1000000 # 1)) with (1 # 1000000). field. intros H0. by rewrite H0 in Hdq. }
    apply Qabs_Qle_condition. split; (apply (Qmult_le_r _ _ (inject_Z d)); [done|]); rewrite Heq; lra.
Qed.

Lemma float_inf_false x : (0 <= mantissa x)%Z -> float_value x < 2 ^ 1024 -> float_inf x = false.
Proof.
  intros Hm Hv. unfold float_inf. case_bool_decide as N; [done|]. apply bool_decide_eq_false.
  rewrite Z.abs_eq by done. intros Hb. pose proof (BitLen_spec (mantissa x) ltac:(lia)) as [Hl _].
  assert (H1 : (0 <= BitLen (mantissa x) - 1)%Z).
  { unfold BitLen. rewrite bool_decide_false by done. pose proof (Z.log2_nonneg (mantissa x)). lia. }
  apply (Qlt_irrefl (2 ^ 1024)). apply (Qle_lt_trans _ (float_value x)); [|done]. unfold float_value.
  apply (Qle_trans _ (2 ^ (BitLen (mantissa x) - 1) * 2 ^ exponent x)).
  - rewrite <- pow2_plus. apply Qpower_le_compat_l; [lia | done].
  - apply Qmult_le_compat_r; [|apply Qlt_le_weak, pow2_pos].
    rewrite Zle_Qle, (Zpower_Qpower 2) in Hl by done. done.
Qed.

Section Bound.
Context {W : Type} {E : Env W} (L : Lens W CachedPriceClient).
Context (internalClient : string -> string -> X W float).
Context (DecFloat64 : option Z -> res float) (ScanScientific : string -> error + db.Numeric).

(** C38: the dollar value [GetCoinUsdValue] stores for an amount of base units differs
    from the exact [amount / 10 ^ decimals * price] by half a millionth of a dollar and
    one part in 2^50 at most.  The conversion of the amount is to the nearest float, as
    [LegacyDec.Float64] documents for amounts of up to 256 bits, and [ScanScientific]
    reads a decimal text as the number it denotes. *)
Theorem usd_value_close id decimals a p s s' :
  (forall a, (0 <= a < 2 ^ 256)%Z -> DecFloat64 (Some a) = Ok (float64_of_Z a)) ->
  (forall k, (0 <= k)%Z -> exists n, ScanScientific (decimal6 k) = inr n /\
     numeric_value n == inject_Z k / inject_Z (10 ^ 6)) ->
  GetSimplePrice L internalClient id "usd" s = (Ok p, s') ->
  (0 <= a < 2 ^ 256)%Z -> (0 <= decimals <= 255)%Z -> (0 <= mantissa p)%Z -> float_value p <= 2 ^ 700 ->
  let exact := inject_Z a / inject_Z (10 ^ decimals) * float_value p in
  exists n, Cached_GetCoinUsdValue L internalClient DecFloat64 ScanScientific id decimals (Some a) s =
      (Ok (Some n), s') /\
    exact * (1 - (1 # 2 ^ 50)) - (1 # 2000000) <= numeric_value n /\
    numeric_value n <= exact * (1 + (1 # 2 ^ 50)) + (1 # 2000000).
Proof.
  intros Hdec Hscan Hprice Ha Hd Hp Hbig exact.
  destruct (usd_amount_within a decimals p (float64_of_Z a) ltac:(lia) ltac:(lia) Hp eq_refl) as [Hw Hm].
  set (v := usd_amount (float64_of_Z a) p decimals) in *.
  assert (Hex : exact <= 2 ^ 1000).
  { apply (Qle_trans _ (2 ^ 256 * 2 ^ 700)); [|vm_compute; discriminate].
    apply Qmult_le_compat_nonneg; (split; [|]); [| | by apply float_value_nonneg | done].
    - apply Qle_shift_div_l; [rewrite <- (Zlt_Qlt 0); apply Z.pow_pos_nonneg; lia|].
      rewrite Qmult_0_l, <- (Zle_Qle 0). lia.
    - apply Qle_shift_div_r; [rewrite <- (Zlt_Qlt 0); apply Z.pow_pos_nonneg; lia|].
      change (2 ^ 256) with (inject_Z (2 ^ 256)). rewrite <- inject_Z_mult, <- Zle_Qle.
      assert (1 <= 10 ^ decimals)%Z by (pose proof (Z.pow_pos_nonneg 10 decimals); lia). nia. }
  assert (Hinf : float_inf v = false).
  { apply float_inf_false; [done|]. destruct Hw as [_ Hw]. apply (Qle_lt_trans _ _ _ Hw).
    apply (Qle_lt_trans _ ((1 + (1 # 2 ^ 50)) * 2 ^ 1000)); [|vm_compute; reflexivity].
    rewrite !(Qmult_comm (1 + _)). apply Qmult_le_compat_r; [done | discriminate]. }
  assert (Hk : (0 <= millionths v)%Z).
  { unfold millionths. case_bool_decide; [apply Z.mul_nonneg_nonneg; [|done]; apply Z.mul_nonneg_nonneg; [lia|]; by apply Z.pow_nonneg|].
    unfold div_even. assert (0 < 2 ^ (- exponent v))%Z by (apply Z.pow_pos_nonneg; lia).
    assert (0 <= Z.abs (mantissa v) * 10 ^ 6 / 2 ^ (- exponent v))%Z by (apply Z.div_pos; lia).
    destruct (_ || _); lia. }
  destruct (Hscan (millionths v) Hk) as (n & Hn & Hval). exists n. split.
  - unfold Cached_GetCoinUsdValue, wrap, bind, of_res. rewrite Hprice, Hdec by done. cbn -[usd_amount].
    fold v. unfold Sprintf_f. rewrite Hinf, bool_decide_false by lia.
    change ("" +:+ decimal6 (millionths v)) with (decimal6 (millionths v)). by rewrite Hn.
  - pose proof (millionths_close v Hm) as Hc. apply Qabs_Qle_condition in Hc as [Hc1 Hc2].
    destruct Hw as [Hw1 Hw2]. fold exact in Hw1, Hw2. rewrite Hval.
    rewrite !(Qmult_comm exact). split; lra.
Qed.

End Bound.

(** ** The theorem at work *)

Close Scope Q_scope.

Module UsdExamples.
Import PriceExamples.

(** A reader of decimal texts: the digits, with the point left out. *)
Fixpoint scan_digits (acc : Z) (s : string) : option Z :=
  match s with
  | "" => Some acc
  | String c s' =>
      if Ascii.eqb c "."%char then scan_digits acc s'
      else d ← digit_value c; scan_digits (10 * acc + d) s'
  end.

Definition scan (s : string) : error + db.Numeric :=
  match scan_digits 0 s with
  | Some k => inr (db.mkNumeric (Some k) (-6))
  | None => inl (ENew "not a number")
  end.

Lemma scan_digit acc d s : (d < 10)%N ->
  scan_digits acc (String (pretty_N_char d) s) = scan_digits (10 * acc + Z.of_N d) s.
Proof.
  intros Hd. cbn [scan_digits]. rewrite digit_value_char by done.
  assert (Hne : Ascii.eqb (pretty_N_char d) "."%char = false); [|by rewrite Hne].
  destruct (Ascii.eqb_spec (pretty_N_char d) "."%char) as [He|]; [|done].
  pose proof (digit_value_char d Hd) as Hv. by rewrite He in Hv.
Qed.

Lemma scan_pretty_go x : forall s, scan_digits 0 (pretty_N_go x s) = scan_digits (Z.of_N x) s.
Proof.
  induction (N.lt_wf_0 x) as [x _ IH]. intros s. destruct (decide (x = 0)%N) as [->|N]; [done|].
  rewrite pretty_N_go_step by lia. rewrite IH by (apply N.div_lt; lia).
  rewrite scan_digit by (apply N.mod_lt; lia). f_equal.
  rewrite N2Z.inj_div, N2Z.inj_mod. pose proof (Z.div_mod (Z.of_N x) 10 ltac:(lia)). change (Z.of_N 10) with 10. lia.
Qed.

Lemma pretty_go_app x : forall s t, pretty_N_go x s +:+ t = pretty_N_go x (s +:+ t).
Proof.
  induction (N.lt_wf_0 x) as [x _ IH]. intros s t. destruct (decide (x = 0)%N) as [->|N]; [done|].
  rewrite !(pretty_N_go_step x) by lia. by rewrite IH by (apply N.div_lt; lia).
Qed.

Lemma scan_pretty x t : scan_digits 0 (pretty x +:+ t) = scan_digits (Z.of_N x) t.
Proof.
  unfold pretty, pretty_N. case_decide as H; [by subst|]. rewrite pretty_go_app. apply scan_pretty_go.
Qed.

Lemma scan_decimal6 k : 0 <= k -> scan (decimal6 k) = inr (db.mkNumeric (Some k) (-6)).
Proof.
  intros Hk. unfold scan, decimal6. rewrite scan_pretty.
  assert (Hp : forall acc s, scan_digits acc ("." +:+ s) = scan_digits acc s) by done. rewrite Hp. unfold digit_at.
  assert (Hd : forall i, (Z.to_N (k / 10 ^ i mod 10) < 10)%N).
  { intros i. pose proof (Z.mod_pos_bound (k / 10 ^ i) 10 ltac:(lia)). lia. }
  rewrite !scan_digit by apply Hd. cbn [scan_digits].
  assert (Hz : forall i, Z.of_N (Z.to_N (k / 10 ^ i mod 10)) = k / 10 ^ i mod 10).
  { intros i. pose proof (Z.mod_pos_bound (k / 10 ^ i) 10 ltac:(lia)). lia. }
  rewrite !Hz, Z2N.id by (apply Z.div_pos; lia). do 4 f_equal.
  change (10 ^ 6) with 1000000. change (10 ^ 5) with 100000. change (10 ^ 4) with 10000.
  change (10 ^ 3) with 1000. change (10 ^ 2) with 100. change (10 ^ 1) with 10. change (10 ^ 0) with 1.
  Z.to_euclidean_division_equations. lia.
Qed.

Definition dec (a : option Z) : res float :=
  match a with Some a => Ok (float64_of_Z a) | None => Panic end.

(** A token at 12.5 dollars, cached. *)
Definition kept_price : pworld :=
  (8 * Second, mkCachedPriceClient {[ cacheKey "cosmos" "usd" := mkPriceResponse (mkFloat 25 (-1)) (5 * Second) ]} Minute).

Definition priced : Sys pworld := mkSys kept_price db.empty_DB [].

(** One and a half tokens of a million units are worth 18.75 dollars. *)
Lemma usd_value_close_witness :
  exists n s', Cached_GetCoinUsdValue (E:=penv) price_lens service dec scan "cosmos" 6 (Some 1500000) priced =
    (Ok (Some n), s') /\
  (numeric_value n <= inject_Z 1500000 / inject_Z (10 ^ 6) * float_value (mkFloat 25 (-1)) * (1 + (1 # 2 ^ 50)) + (1 # 2000000))%Q.
Proof.
  destruct (GetSimplePrice (E:=penv) price_lens service "cosmos" "usd" priced) as [r s'] eqn:Hr.
  assert (Hp : r = Ok (mkFloat 25 (-1))).
  { transitivity (fst (GetSimplePrice (E:=penv) price_lens service "cosmos" "usd" priced)); [by rewrite Hr|].
    vm_compute. reflexivity. }
  subst r.
  destruct (usd_value_close (E:=penv) price_lens service dec scan "cosmos" 6 1500000 (mkFloat 25 (-1)) priced s')
    as (n & Hn & _ & Hhi).
  - intros a _. reflexivity.
  - intros k Hk. eexists. split; [by apply scan_decimal6|]. unfold numeric_value. cbn [db.Int db.Exp default].
    unfold Qdiv. apply Qmult_comp; [reflexivity|]. vm_compute. reflexivity.
  - exact Hr.
  - lia.
  - lia.
  - cbn. lia.
  - vm_compute. discriminate.
  - exists n, s'. split; [exact Hn | exact Hhi].
Defined.

(** The same amount, evaluated. *)
Example usd_value_example :
  fst (Cached_GetCoinUsdValue (E:=penv) price_lens service dec scan "cosmos" 6 (Some 1500000) priced) =
  Ok (Some (db.mkNumeric (Some 18750000) (-6))).
Proof. vm_compute. reflexivity. Qed.

End UsdExamples.
