(* ===== verification/Commands.v ===== *)
(** * The command that sends a transfer ([src/cmd/transfer])

    The [ics20] and [ift] subcommands: checking the flags against the configuration,
    building the source chain's client, sending the transfer and asking the relayer to
    relay it; and the map of keys [cmd/relayer] loads ([src/cmd/relayer/main.go]).
    Addresses, dialling and the relayer's API are arguments. *)

From S2P Require Import Prelude GoFloat Db Transfer Config World Logic BatchProcessors Once GoLib.
From S2P Require Import EvmClient CosmosClient Signers ClientContract ClientWorld ClientManager.

(** The flags of [flags.go], [ics20.go] and [ift.go]; the durations in nanoseconds. *)
Record Flags := mkFlags {
  sourceChainID : string;
  destChainID : string;
  sourceClientID : string;
  receiver : string;
  amount : Z;
  timeout : Z;
  relayerGRPCURL : string;
  insecureDial : bool;
  privateKey : string;
  denom : string;
  memo : string;
  ics20Address : string;
  iftAddress : string;
}.

Record CommandLib (W : Type) := mkCommandLib {
  IsHexAddress : string -> bool;
  Bech32_Decode : string -> error + unit;
  relayer_Dial : string -> bool -> error + unit;
  relayer_Relay : string -> string -> X W unit;
}.
Arguments IsHexAddress {W} c.
Arguments Bech32_Decode {W} c.
Arguments relayer_Dial {W} c.
Arguments relayer_Relay {W} c.

Section Commands.
Context {W : Type} {E : Env W} (env : string -> option string) (elib : EVMLib) (mlib : ManagerLib W)
  (lib : CommandLib W) (node : EVMNode W) (ticks : nat) (flags : Flags).

(** A chain of the configuration that supports IBC v2. *)
Definition loadChain (chainID loading unsupported : string) : M W ChainConfig :=
  let* chain := wrap loading (of_sum (GetChainConfig cfg chainID)) in
  if bool_decide (BridgeTypeIBCV2 ∈ SupportedBridges chain) then ret chain else fail (ENew unsupported).

Definition checkReceiver (destChain : ChainConfig) : M W unit :=
  match Config.Cosmos destChain, Config.EVM destChain with
  | Some _, _ => wrap "receiver is not a valid bech32 address" (of_sum (Bech32_Decode lib (receiver flags)))
  | None, Some _ => if IsHexAddress lib (receiver flags) then ret tt
                    else fail (ENew "receiver is not a valid hex address (EVM destination)")
  | None, None => fail (ENew "dest chain must be evm or cosmos type")
  end.

(** [addresses]: the flags a subcommand needs a hex address in, with their errors. *)
Fixpoint checkAddresses (addresses : list (string * string)) : M W unit :=
  match addresses with
  | [] => ret tt
  | (address, invalid) :: rest => if IsHexAddress lib address then checkAddresses rest else fail (ENew invalid)
  end.

(** What the two subcommands check before they send, and the client they send with. *)
Definition prepare (needsEVM : string) (addresses : list (string * string)) : M W (BuiltClient W) :=
  let* sourceChain := loadChain (sourceChainID flags) "loading source chain config" "source chain does not support ibcv2" in
  match Config.EVM sourceChain with
  | None => fail (ENew needsEVM)
  | Some _ =>
      let* destChain := loadChain (destChainID flags) "loading dest chain config" "dest chain does not support ibcv2" in
      checkReceiver destChain ;;
      checkAddresses addresses ;;
      if bool_decide (amount flags = 0) then fail (ENew "amount must be positive") else
      let* sourceChainIBCV2Config := wrap "loading source chain ibcv2 config"
                                       (of_sum (GetIBCV2Config cfg (sourceChainID flags))) in
      match sourceChainIBCV2Config with
      | None => panic
      | Some ibcv2 =>
          match CounterpartyChains ibcv2 !! sourceClientID flags with
          | None => fail (ENew "could not determine counterparty chain id for source client")
          | Some clientCounterpartyChainID =>
              if negb (bool_decide (clientCounterpartyChainID = destChainID flags))
              then fail (ENew "source client counterparty chain id does not match the dest chain id") else
              if bool_decide (relayerGRPCURL flags = "") then fail (ENew "--relayer-grpc-url is required") else
              wrap "creating grpc connection to relayer"
                (of_sum (relayer_Dial lib (relayerGRPCURL flags) (insecureDial flags))) ;;
              let* clientManager := wrap "creating ibcv2 client manager"
                (NewClientManagerFromConfig env elib mlib {[sourceChainID flags := privateKey flags]} false "" "" [sourceChain]) in
              match clientManager !! sourceChainID flags with
              | None => fail (EWrap "getting ibcv2 client for source chain id" (ENew "no configured ibcv2 bridge client for chain ID"))
              | Some client => ret client
              end
          end
      end
  end.

(** [SendTransfer] and [IFTTransfer] of a built client; Cosmos clients have none. *)
Definition client_SendTransfer (client : BuiltClient W) : M W string :=
  match client with
  | BuiltEVM c _ _ _ _ => EVM.SendTransfer elib node c ticks (ics20Address flags) (sourceClientID flags) (denom flags)
                            (receiver flags) (amount flags) (memo flags) (timeout flags)
  | BuiltCosmos _ _ _ _ _ _ _ => panic
  end.

Definition client_IFTTransfer (client : BuiltClient W) : M W string :=
  match client with
  | BuiltEVM c _ _ _ _ => EVM.IFTTransfer elib node ticks (iftAddress flags) (sourceClientID flags) (receiver flags)
                            (amount flags) (timeout flags)
  | BuiltCosmos _ _ _ _ _ _ _ => panic
  end.

Definition requestRelay (sendTxHash : string) : M W unit :=
  wrap "submitting relay request" (call (relayer_Relay lib sendTxHash (sourceChainID flags))).

Definition ics20Transfer : M W unit :=
  let* sourceClient := prepare "ics20 transfers require an evm source chain"
    [(ics20Address flags, "ics20-address is not a valid hex address"); (denom flags, "denom is not a valid hex address")] in
  let* sendTxHash := wrap "sending ics20 transfer" (client_SendTransfer sourceClient) in
  requestRelay sendTxHash.

Definition iftTransfer : M W unit :=
  let* sourceClient := prepare "ift transfers require an evm source chain"
    [(iftAddress flags, "ift-address is not a valid hex address")] in
  let* sendTxHash := wrap "sending ift transfer" (client_IFTTransfer sourceClient) in
  requestRelay sendTxHash.

(** [LoadChainIDToPrivateKeyMap], of the decoded file; a missing key is empty. *)
Definition LoadChainIDToPrivateKeyMap (rawKeysMap : gmap string (gmap string string)) : gmap string string :=
  (fun value => default "" (value !! "private_key")) <$> rawKeysMap.

(** ** What a transfer that succeeds has done *)

(** The client on the source chain tracks the destination chain, and there is something
    to send. *)
Definition checked : Prop :=
  amount flags <> 0 /\
  GetClientCounterpartyChainID cfg (sourceChainID flags) (sourceClientID flags) = inr (destChainID flags).

Lemma prepare_checked needsEVM addresses s :
  wp (prepare needsEVM addresses) (fun r _ => match r with
    | Ok _ => checked /\ Forall (fun a => IsHexAddress lib a.1 = true) addresses
    | _ => True end) s.
Proof.
  unfold prepare, loadChain. apply wp_bind, wp_bind, wp_wrap, wp_of_sum.
  destruct (GetChainConfig cfg (sourceChainID flags)) as [e|source] eqn:Es; [done|].
  case_bool_decide; [|by apply wp_fail]. apply wp_ret. destruct (Config.EVM source); [|by apply wp_fail].
  apply wp_bind. eapply (wp_mono _ (fun _ _ => True)); [|done]. intros [dest|e1|] s1 _; [|done..].
  apply wp_bind. eapply (wp_mono _ (fun _ _ => True)); [|done]. intros [[]|e1|] s2 _; [|done..].
  apply wp_bind. eapply wp_mono with (Q := fun r _ => match r with
    | Ok _ => Forall (fun a => IsHexAddress lib a.1 = true) addresses | _ => True end).
  2: { clear. induction addresses as [|[a invalid] rest IH]; [by apply wp_ret|]. cbn [checkAddresses].
       destruct (IsHexAddress lib a) eqn:Ea; [|by apply wp_fail]. eapply wp_mono; [|exact IH].
       intros [[]|e|] s' H; [|done..]. by constructor. }
  intros [[]|e1|] s3 Ha; [|done..]. case_bool_decide as Hz; [by apply wp_fail|].
  apply wp_bind, wp_wrap, wp_of_sum. unfold GetIBCV2Config. rewrite Es.
  destruct (IBCV2 source) as [ibcv2|] eqn:Ei; [|by apply wp_panic].
  destruct (CounterpartyChains ibcv2 !! sourceClientID flags) as [counterparty|] eqn:Ecp; [|by apply wp_fail].
  case_bool_decide as Hd; cbn [negb]; [|by apply wp_fail]. case_bool_decide; [by apply wp_fail|].
  apply wp_bind, wp_wrap, wp_of_sum. destruct (relayer_Dial lib _ _); [done|].
  apply wp_bind, wp_wrap. eapply (wp_mono _ (fun _ _ => True)); [|done]. intros [m|e1|] s4 _; [|done..].
  destruct (m !! _); [|by apply wp_fail]. apply wp_ret. split; [|done]. split; [done|].
  unfold GetClientCounterpartyChainID. by rewrite Es, Ei, Ecp, Hd.
Qed.

(** The transfer that was handed to the contract, and the hash that was returned. *)
Lemma SendTransfer_sends c s :
  wp (EVM.SendTransfer elib node c ticks (ics20Address flags) (sourceClientID flags) (denom flags) (receiver flags)
        (amount flags) (memo flags) (timeout flags)) (fun r _ => match r with
    | Ok hash => exists deadline w tx w', hash = Hash_String elib tx /\
        ICS20_SendTransfer node (HexToAddress elib (ics20Address flags))
          (mkSendTransferMsg (HexToAddress elib (denom flags)) (amount flags) (receiver flags) (sourceClientID flags)
             "transfer" deadline (memo flags)) w = (inr tx, w')
    | _ => True end) s.
Proof.
  unfold EVM.SendTransfer. apply wp_bind. eapply (wp_mono _ (fun _ _ => True)); [|done]. intros [[]|e|] s1 _; [|done..].
  apply wp_bind. eapply (wp_mono _ (fun _ _ => True)); [|done]. intros [[]|e|] s2 _; [|done..].
  apply wp_bind. eapply (wp_mono _ (fun _ _ => True)); [|done]. intros [approval|e|] s3 _; [|done..].
  apply wp_bind. eapply (wp_mono _ (fun _ _ => True)); [|done]. intros [[]|e|] s4 _; [|done..].
  apply wp_bind, wp_Now. intros now w5 _. apply wp_bind, wp_wrap, wp_call. cbn [world]. intros [e|tx] w6 H6; [done|].
  apply wp_bind. eapply (wp_mono _ (fun _ _ => True)); [|done]. intros [[]|e|] s7 _; [|done..].
  apply wp_ret. by eexists _, _, _, _.
Qed.

(** An ics20 command that succeeds has checked its flags against the configuration, sent
    the transfer they describe and had the relayer accept the hash of its transaction. *)
Lemma ics20Transfer_sends s :
  wp ics20Transfer (fun r s' => match r with
    | Ok _ => checked /\ exists deadline w tx w' w'',
        ICS20_SendTransfer node (HexToAddress elib (ics20Address flags))
          (mkSendTransferMsg (HexToAddress elib (denom flags)) (amount flags) (receiver flags) (sourceClientID flags)
             "transfer" deadline (memo flags)) w = (inr tx, w') /\
        relayer_Relay lib (Hash_String elib tx) (sourceChainID flags) w'' = (inr tt, world s')
    | _ => True end) s.
Proof.
  unfold ics20Transfer. apply wp_bind. eapply wp_mono; [|apply prepare_checked]. intros [client|e|] s1 Hc; [|done..].
  destruct Hc as [Hc _]. apply wp_bind, wp_wrap.
  destruct client as [c memory signer rpc auth|]; cbn [client_SendTransfer]; [|by apply wp_panic].
  eapply wp_mono; [|apply SendTransfer_sends]. intros [hash|e|] s2 Hs; [|done..].
  destruct Hs as (deadline & w & tx & w' & -> & Hs). apply wp_wrap, wp_call. intros [e|[]] w3 H3; [done|].
  split; [done|]. by exists deadline, w, tx, w', (world s2).
Qed.

End Commands.
