(* ===== verification/Metrics.v ===== *)
(** * The metrics backend ([src/shared/metrics/metrics.go])

    The Prometheus series the relayer registers, what every recorder of the interface
    [Metrics] adds to them, and the labels a context carries.  An event of the trace is a
    call of a recorder. *)

From S2P Require Import Prelude Db Transfer Config World Logic Monitors.

(** ** Labels *)

Definition SuccessStatus : string := "success".
Definition FailureStatus : string := "failure".
Definition IBCV2BridgeType : string := "ibcv2".

Definition requestStatusCodeLabel : string := "status_code".
Definition methodLabel : string := "method".
Definition chainIDLabel : string := "chain_id".
Definition sourceChainIDLabel : string := "source_chain_id".
Definition destinationChainIDLabel : string := "destination_chain_id".
Definition statusLabel : string := "status".
Definition transferStateLabel : string := "state".
Definition codeLabel : string := "code".
Definition successLabel : string := "success".
Definition providerLabel : string := "provider".
Definition chainNameLabel : string := "chain_name".
Definition sourceChainNameLabel : string := "source_chain_name".
Definition destinationChainNameLabel : string := "destination_chain_name".
Definition chainEnvironmentLabel : string := "chain_environment".
Definition gasTokenSymbolLabel : string := "gas_token_symbol".
Definition relayTypelLabel : string := "relay_type".
Definition bridgeTypeLabel : string := "bridge_type".
Definition sourceClientIDLabel : string := "source_client_id".
Definition destinationClientIDLabel : string := "destination_client_id".

Definition RelayType_string (ty : RelayType) : string :=
  match ty with
  | IBCV2SendToRecvRelayType => "ibcv2_send_to_recv"
  | IBCV2SendToTimeoutRelayType => "ibcv2_send_to_timeout"
  | IBCV2RecvToAckRelayType => "ibcv2_recv_to_ack"
  end.

(** ** Series *)

Inductive PromMetrics :=
  | totalRequests | totalRelayRequests | latencyPerRelayerAPIRequest | gasBalance_ | gasBalanceState_
  | totalTransactionSubmitted | totalTransactionRetryAttempts | totalTransactionNonceReplaced
  | totalTransactionsConfirmed | totalTransfers | transferCount | totalTransactionGasCost | latencyPerRelay
  | totalExcessiveRelayLatencyObservations | totalRelaysCompleted | totalExternalRequests
  | latencyPerExternalRequest.

#[export] Instance PromMetrics_eq_dec : EqDecision PromMetrics.
Proof. solve_decision. Defined.

Definition PromMetrics_all : list PromMetrics :=
  [totalRequests; totalRelayRequests; latencyPerRelayerAPIRequest; gasBalance_; gasBalanceState_;
   totalTransactionSubmitted; totalTransactionRetryAttempts; totalTransactionNonceReplaced;
   totalTransactionsConfirmed; totalTransfers; transferCount; totalTransactionGasCost; latencyPerRelay;
   totalExcessiveRelayLatencyObservations; totalRelaysCompleted; totalExternalRequests; latencyPerExternalRequest].

Inductive SeriesKind := Counter | Gauge | Histogram.

(** What a series is registered with: its kind, its name and its labels. *)
Record SeriesOpts := mkSeriesOpts {
  series_kind : SeriesKind;
  series_Name : string;
  series_labels : list string;
}.

Definition NewPromMetrics (m : PromMetrics) : SeriesOpts :=
  match m with
  | totalRequests => mkSeriesOpts Counter "total_request_counter" [methodLabel; requestStatusCodeLabel]
  | totalRelayRequests => mkSeriesOpts Counter "total_relay_requests_per_bridge" [bridgeTypeLabel; requestStatusCodeLabel]
  | latencyPerRelayerAPIRequest => mkSeriesOpts Histogram "latency_per_relayer_api_request" [methodLabel]
  | gasBalance_ => mkSeriesOpts Gauge "gas_balance_gauge"
      [chainIDLabel; chainNameLabel; gasTokenSymbolLabel; chainEnvironmentLabel; bridgeTypeLabel]
  | gasBalanceState_ => mkSeriesOpts Gauge "gas_balance_state_gauge"
      [chainIDLabel; chainNameLabel; chainEnvironmentLabel; bridgeTypeLabel]
  | totalTransactionSubmitted => mkSeriesOpts Counter "total_transactions_submitted_counter"
      [successLabel; chainIDLabel; chainNameLabel; chainEnvironmentLabel]
  | totalTransactionRetryAttempts => mkSeriesOpts Counter "total_transaction_retry_attempts_counter"
      [sourceChainIDLabel; destinationChainIDLabel; sourceChainNameLabel; destinationChainNameLabel;
       chainEnvironmentLabel; relayTypelLabel]
  | totalTransactionNonceReplaced => mkSeriesOpts Counter "total_transaction_nonce_replaced_counter" [chainIDLabel]
  | totalTransactionsConfirmed => mkSeriesOpts Counter "total_transactions_confirmed_counter"
      [successLabel; chainIDLabel; chainNameLabel; chainEnvironmentLabel]
  | totalTransfers => mkSeriesOpts Counter "total_transfers_counter"
      [sourceChainIDLabel; destinationChainIDLabel; sourceChainNameLabel; destinationChainNameLabel;
       chainEnvironmentLabel; transferStateLabel]
  | transferCount => mkSeriesOpts Gauge "ibcv2_transfers_gauge"
      [sourceChainIDLabel; destinationChainIDLabel; sourceChainNameLabel; destinationChainNameLabel;
       chainEnvironmentLabel; transferStateLabel]
  | totalTransactionGasCost => mkSeriesOpts Counter "total_transaction_gas_cost_counter"
      [chainIDLabel; chainNameLabel; chainEnvironmentLabel]
  | latencyPerRelay => mkSeriesOpts Histogram "latency_per_relay"
      [sourceChainIDLabel; destinationChainIDLabel; sourceChainNameLabel; destinationChainNameLabel;
       chainEnvironmentLabel; relayTypelLabel]
  | totalExcessiveRelayLatencyObservations => mkSeriesOpts Counter "total_excessive_relay_latency_observations"
      [sourceChainNameLabel; destinationChainNameLabel; chainEnvironmentLabel; relayTypelLabel]
  | totalRelaysCompleted => mkSeriesOpts Counter "total_relays_completed"
      [sourceChainIDLabel; sourceClientIDLabel; destinationChainIDLabel; destinationClientIDLabel; relayTypelLabel]
  | totalExternalRequests => mkSeriesOpts Counter "total_external_requests"
      [sourceChainIDLabel; sourceClientIDLabel; destinationChainIDLabel; destinationClientIDLabel; methodLabel;
       statusLabel; codeLabel; providerLabel; bridgeTypeLabel]
  | latencyPerExternalRequest => mkSeriesOpts Histogram "latency_per_external_request"
      [sourceChainIDLabel; sourceClientIDLabel; destinationChainIDLabel; destinationClientIDLabel; methodLabel;
       providerLabel; bridgeTypeLabel]
  end.

(** ** Contexts *)

(** The values a context carries for the labels. *)
Record MetricsCtx := mkMetricsCtx {
  ctx_sourceChainID : option string;
  ctx_sourceClientID : option string;
  ctx_destinationChainID : option string;
  ctx_destinationClientID : option string;
  ctx_bridgeType : option string;
  ctx_relayType : option RelayType;
}.

#[export] Instance eta_MetricsCtx : Eta MetricsCtx := fun c =>
  mkMetricsCtx (ctx_sourceChainID c) (ctx_sourceClientID c) (ctx_destinationChainID c) (ctx_destinationClientID c)
    (ctx_bridgeType c) (ctx_relayType c).

Definition Background : MetricsCtx := mkMetricsCtx None None None None None None.

Definition ContextWithSourceChainID (ctx : MetricsCtx) (v : string) : MetricsCtx := ctx <| ctx_sourceChainID := Some v |>.
Definition ContextWithSourceClientID (ctx : MetricsCtx) (v : string) : MetricsCtx := ctx <| ctx_sourceClientID := Some v |>.
Definition ContextWithDestChainID (ctx : MetricsCtx) (v : string) : MetricsCtx := ctx <| ctx_destinationChainID := Some v |>.
Definition ContextWithDestClientID (ctx : MetricsCtx) (v : string) : MetricsCtx := ctx <| ctx_destinationClientID := Some v |>.
Definition ContextWithBridgeType (ctx : MetricsCtx) (v : string) : MetricsCtx := ctx <| ctx_bridgeType := Some v |>.
Definition ContextWithRelayType (ctx : MetricsCtx) (v : RelayType) : MetricsCtx := ctx <| ctx_relayType := Some v |>.

Definition SourceChainIDFromContext (ctx : MetricsCtx) : string := default "" (ctx_sourceChainID ctx).
Definition SourceClientIDFromContext (ctx : MetricsCtx) : string := default "" (ctx_sourceClientID ctx).
Definition DestinationChainIDFromContext (ctx : MetricsCtx) : string := default "" (ctx_destinationChainID ctx).
Definition DestinationClientIDFromContext (ctx : MetricsCtx) : string := default "" (ctx_destinationClientID ctx).
Definition BridgeTypeFromContext (ctx : MetricsCtx) : string := default "" (ctx_bridgeType ctx).
Definition RelayTypeFromContext (ctx : MetricsCtx) : string := default "" (RelayType_string <$> ctx_relayType ctx).

(** The context [newPipelineForTransfer] gives a pipeline. *)
Definition pipelineCtx (ctx : MetricsCtx) (transfer : IBCV2Transfer) : MetricsCtx :=
  let ctx := ContextWithSourceChainID ctx (GetSourceChainID transfer) in
  let ctx := ContextWithSourceClientID ctx (GetPacketSourceClientID transfer) in
  let ctx := ContextWithDestChainID ctx (GetDestinationChainID transfer) in
  let ctx := ContextWithDestClientID ctx (GetPacketDestinationClientID transfer) in
  ContextWithBridgeType ctx IBCV2BridgeType.

(** ** Recorders *)

(** A number, or [float64(amount) / 10^decimals] of a token. *)
Inductive Sample :=
  | Number (n : Z)
  | TokenAmount (amount decimals : Z).

Inductive SampleOp := OpAdd (v : Sample) | OpSet (v : Sample) | OpObserve (v : Sample).

(** [series.With(labelValues...)] followed by [Add], [Set] or [Observe]. *)
Record Update := mkUpdate {
  upd_series : PromMetrics;
  upd_labels : list (string * string);
  upd_op : SampleOp;
}.

Definition fmt_bool (b : bool) : string := if b then "true" else "false".

(** [Duration.Milliseconds] *)
Definition Milliseconds (d : Z) : Z := Z.quot d Millisecond.

Definition addExternalRequest (ctx : MetricsCtx) (method requestStatus code provider bridgeType : string) : list Update :=
  [mkUpdate totalExternalRequests
     [(methodLabel, method); (statusLabel, requestStatus); (codeLabel, code); (providerLabel, provider);
      (bridgeTypeLabel, bridgeType); (sourceChainIDLabel, SourceChainIDFromContext ctx);
      (destinationChainIDLabel, DestinationChainIDFromContext ctx);
      (sourceClientIDLabel, SourceClientIDFromContext ctx);
      (destinationClientIDLabel, DestinationClientIDFromContext ctx)] (OpAdd (Number 1))].

(** The recorder an event is a call of.  The two recorders that take a bridge type are
    only called with that of IBC v2. *)
Definition PromMetrics_record (ctx : MetricsCtx) (e : event) : list Update :=
  match e with
  | AddRequest method statusCode =>
      [mkUpdate totalRequests [(methodLabel, method); (requestStatusCodeLabel, pretty statusCode)] (OpAdd (Number 1))]
  | AddRelayRequest statusCode =>
      [mkUpdate totalRelayRequests [(bridgeTypeLabel, IBCV2BridgeType); (requestStatusCodeLabel, pretty statusCode)]
         (OpAdd (Number 1))]
  | AddRelayerAPIRequestLatency method duration =>
      [mkUpdate latencyPerRelayerAPIRequest [(methodLabel, method)] (OpObserve (Number (Milliseconds duration)))]
  | SetGasBalance chainID chainName gasTokenSymbol chainEnvironment gasBalance warning critical decimals =>
      [mkUpdate gasBalanceState_
         [(chainIDLabel, chainID); (chainNameLabel, chainName); (chainEnvironmentLabel, chainEnvironment);
          (bridgeTypeLabel, IBCV2BridgeType)] (OpSet (Number (gasBalanceState gasBalance warning critical)));
       mkUpdate gasBalance_
         [(chainIDLabel, chainID); (chainNameLabel, chainName); (gasTokenSymbolLabel, gasTokenSymbol);
          (chainEnvironmentLabel, chainEnvironment); (bridgeTypeLabel, IBCV2BridgeType)]
         (OpSet (TokenAmount gasBalance decimals))]
  | AddTransactionSubmitted success chainID chainName chainEnvironment =>
      [mkUpdate totalTransactionSubmitted
         [(successLabel, fmt_bool success); (chainIDLabel, chainID); (chainNameLabel, chainName);
          (chainEnvironmentLabel, chainEnvironment)] (OpAdd (Number 1))]
  | AddTransactionRetryAttempt src dst srcName dstName env relayType =>
      [mkUpdate totalTransactionRetryAttempts
         [(sourceChainIDLabel, src); (destinationChainIDLabel, dst); (sourceChainNameLabel, srcName);
          (destinationChainNameLabel, dstName); (chainEnvironmentLabel, env);
          (relayTypelLabel, RelayType_string relayType)] (OpAdd (Number 1))]
  | AddTransactionNonceReplaced chainID =>
      [mkUpdate totalTransactionNonceReplaced [(chainIDLabel, chainID)] (OpAdd (Number 1))]
  | AddTransactionConfirmed success chainID chainName chainEnvironment =>
      [mkUpdate totalTransactionsConfirmed
         [(successLabel, fmt_bool success); (chainIDLabel, chainID); (chainNameLabel, chainName);
          (chainEnvironmentLabel, chainEnvironment)] (OpAdd (Number 1))]
  | AddTransfer src dst srcName dstName env state =>
      [mkUpdate totalTransfers
         [(sourceChainIDLabel, src); (destinationChainIDLabel, dst); (sourceChainNameLabel, srcName);
          (destinationChainNameLabel, dstName); (chainEnvironmentLabel, env);
          (transferStateLabel, db.Ibcv2RelayStatus_string state)] (OpAdd (Number 1))]
  | SetTransferCount src dst srcName dstName env state count =>
      [mkUpdate transferCount
         [(sourceChainIDLabel, src); (destinationChainIDLabel, dst); (sourceChainNameLabel, srcName);
          (destinationChainNameLabel, dstName); (chainEnvironmentLabel, env); (transferStateLabel, state)]
         (OpSet (Number count))]
  | AddTransactionGasCost chainID chainName chainEnvironment gasCost decimals =>
      [mkUpdate totalTransactionGasCost
         [(chainIDLabel, chainID); (chainNameLabel, chainName); (chainEnvironmentLabel, chainEnvironment)]
         (OpAdd (TokenAmount gasCost decimals))]
  | RelayLatency src dst srcName dstName env relayType latency =>
      [mkUpdate latencyPerRelay
         [(sourceChainIDLabel, src); (destinationChainIDLabel, dst); (sourceChainNameLabel, srcName);
          (destinationChainNameLabel, dstName); (chainEnvironmentLabel, env);
          (relayTypelLabel, RelayType_string relayType)] (OpObserve (Number (Milliseconds latency)))]
  | AddExcessiveRelayLatencyObservation srcName dstName env relayType =>
      [mkUpdate totalExcessiveRelayLatencyObservations
         [(sourceChainNameLabel, srcName); (destinationChainNameLabel, dstName); (chainEnvironmentLabel, env);
          (relayTypelLabel, RelayType_string relayType)] (OpAdd (Number 1))]
  | AddRelayCompleted src srcClient dst dstClient relayType =>
      [mkUpdate totalRelaysCompleted
         [(sourceChainIDLabel, src); (sourceClientIDLabel, srcClient); (destinationChainIDLabel, dst);
          (destinationClientIDLabel, dstClient); (relayTypelLabel, RelayType_string relayType)] (OpAdd (Number 1))]
  | AddSuccessfulExternalRequest method code provider =>
      addExternalRequest ctx method SuccessStatus code provider (BridgeTypeFromContext ctx)
  | AddFailedExternalRequest method code provider =>
      addExternalRequest ctx method FailureStatus code provider (BridgeTypeFromContext ctx)
  | ExternalRequestLatency method provider latency =>
      [mkUpdate latencyPerExternalRequest
         [(methodLabel, method); (providerLabel, provider); (bridgeTypeLabel, BridgeTypeFromContext ctx);
          (sourceChainIDLabel, SourceChainIDFromContext ctx);
          (destinationChainIDLabel, DestinationChainIDFromContext ctx);
          (sourceClientIDLabel, SourceClientIDFromContext ctx);
          (destinationClientIDLabel, DestinationClientIDFromContext ctx)] (OpObserve (Number (Milliseconds latency)))]
  | Log _ _ | CallRelayByTx _ | CallDeliverTx _ _ _ => []
  end.

(** The backends of the interface: the one of the Prometheus server, and the one that
    records nothing, which a context without a backend stands for. *)
Inductive Backend := Prom | NoOpMetrics.

Definition NoOpMetrics_record (ctx : MetricsCtx) (e : event) : list Update := [].

Definition ContextWithMetrics (_ : option Backend) (m : Backend) : option Backend := Some m.

Definition FromContext (metricsFromContext : option Backend) : Backend := default NoOpMetrics metricsFromContext.

Definition Backend_record (m : Backend) : MetricsCtx -> event -> list Update :=
  match m with Prom => PromMetrics_record | NoOpMetrics => NoOpMetrics_record end.

Lemma no_backend_records_nothing ctx e : Backend_record (FromContext None) ctx e = [].
Proof. done. Qed.

(** ** Every update fits its series *)

Definition op_fits (k : SeriesKind) (op : SampleOp) : Prop :=
  match k, op with
  | Counter, OpAdd _ | Gauge, OpSet _ | Histogram, OpObserve _ => True
  | _, _ => False
  end.

(** A counter is not decreased, for a gas cost that is not negative. *)
Definition sample_nonneg (v : Sample) : Prop := match v with Number n => 0 <= n | TokenAmount n _ => 0 <= n end.
Definition never_decreases (op : SampleOp) : Prop := match op with OpAdd v => sample_nonneg v | _ => True end.
Definition gas_cost_nonneg (e : event) : Prop := match e with AddTransactionGasCost _ _ _ g _ => 0 <= g | _ => True end.

(** An event that counts a call. *)
Definition counts_one (ctx : MetricsCtx) (e : event) : Prop :=
  exists m labels, PromMetrics_record ctx e = [mkUpdate m labels (OpAdd (Number 1))].

#[local] Instance RelayType_string_inj : Inj (=) (=) RelayType_string.
Proof. by intros [] []. Qed.

#[local] Instance relay_status_string_inj : Inj (=) (=) db.Ibcv2RelayStatus_string.
Proof. by intros [] []. Qed.

#[local] Instance fmt_bool_inj : Inj (=) (=) fmt_bool.
Proof. by intros [] []. Qed.

Lemma record_counts_inj ctx e e' :
  counts_one ctx e -> PromMetrics_record ctx e' = PromMetrics_record ctx e -> e' = e.
Proof.
  intros (m & labels & H) Hr. rewrite H in Hr.
  destruct e; cbn in H; try discriminate; unfold addExternalRequest in H; injection H as <- <-;
    destruct e'; cbn in Hr; try discriminate; unfold addExternalRequest in Hr; simplify_eq;
    repeat match goal with H : _ = _ |- _ => apply (inj _) in H end; by subst.
Qed.

Lemma record_fits ctx e u :
  u ∈ PromMetrics_record ctx e ->
  NoDup (fst <$> upd_labels u) /\ (fst <$> upd_labels u) ≡ₚ series_labels (NewPromMetrics (upd_series u)) /\
  op_fits (series_kind (NewPromMetrics (upd_series u))) (upd_op u) /\
  (gas_cost_nonneg e -> never_decreases (upd_op u)).
Proof.
  destruct e; cbn [PromMetrics_record]; unfold addExternalRequest; rewrite ?elem_of_cons, ?elem_of_nil;
    intros Hu; destruct_or?; try done; subst u;
    cbn [upd_labels upd_series upd_op fmap list_fmap fst NewPromMetrics series_labels series_kind];
    (split_and!; [by apply (bool_decide_unpack _); vm_compute | by apply (bool_decide_unpack _); vm_compute | done | cbn; lia]).
Qed.


(** External requests of a pipeline are labelled with its connection. *)
Lemma pipeline_request_labels ctx transfer method code provider :
  exists u, PromMetrics_record (pipelineCtx ctx transfer) (AddSuccessfulExternalRequest method code provider) = [u] /\
    (sourceChainIDLabel, GetSourceChainID transfer) ∈ upd_labels u /\
    (sourceClientIDLabel, GetPacketSourceClientID transfer) ∈ upd_labels u /\
    (destinationChainIDLabel, GetDestinationChainID transfer) ∈ upd_labels u /\
    (destinationClientIDLabel, GetPacketDestinationClientID transfer) ∈ upd_labels u /\
    (bridgeTypeLabel, IBCV2BridgeType) ∈ upd_labels u.
Proof. eexists. split; [done|]. cbn. by repeat split; rewrite !elem_of_cons; tauto. Qed.
