(* ===== verification/HttpTransport.v ===== *)
(** * Transports and interceptors that record requests

    [src/shared/metrics/http_transport.go] and [http_transport_config.go], the basic-auth
    transport of [src/shared/utils/http.go], and the gRPC interceptors of
    [src/shared/metrics/metrics.go].  The transport below, the decoding of JSON and the
    status of a gRPC error are arguments. *)

From S2P Require Import Prelude Db Transfer Config World Logic Once GoLib ClientWorld.
From Stdlib Require Import Ascii.
Open Scope Z_scope.

Definition bytes : Type := list Z.

(** ** Requests and responses *)

(** A body: the bytes a reader gets from it, the error it then gets instead of the end,
    and whether closing it closes what the transport gave. *)
Record Body := mkBody {
  body_data : bytes;
  body_err : option error;
  body_closes : bool;
}.

Record Request := mkRequest {
  req_Path : string;
  req_Hostname : string;
  req_Header : list (string * string);
  req_Body : option Body;
}.

Record Response := mkResponse {
  resp_StatusCode : Z;
  resp_Body : option Body;
}.

(** [io.ReadAll] through a [TeeReader], and the body that is left: the bytes that were
    read, in a closer that does nothing. *)
Definition bodyBytes (b : Body) : (bytes * option error) * Body :=
  ((body_data b, body_err b), mkBody (body_data b) None false).

Definition set_req_Body (r : Request) (b : option Body) : Request :=
  mkRequest (req_Path r) (req_Hostname r) (req_Header r) b.

Definition set_resp_Body (r : Response) (b : option Body) : Response := mkResponse (resp_StatusCode r) b.

(** [encoding/json]: the fields [jsonrpc] and [method] of a request, and the code of the
    error of a response, if any. *)
Record JSONLib := mkJSONLib {
  json_request : bytes -> error + (string * string);
  json_method : bytes -> error + string;
  json_error : bytes -> error + option Z;
}.

(** [http.StatusText] *)
Definition http_StatusText (code : Z) : string :=
  match code with
  | 100 => "Continue" | 101 => "Switching Protocols" | 102 => "Processing" | 103 => "Early Hints"
  | 200 => "OK" | 201 => "Created" | 202 => "Accepted" | 203 => "Non-Authoritative Information"
  | 204 => "No Content" | 205 => "Reset Content" | 206 => "Partial Content" | 207 => "Multi-Status"
  | 208 => "Already Reported" | 226 => "IM Used"
  | 300 => "Multiple Choices" | 301 => "Moved Permanently" | 302 => "Found" | 303 => "See Other"
  | 304 => "Not Modified" | 305 => "Use Proxy" | 307 => "Temporary Redirect" | 308 => "Permanent Redirect"
  | 400 => "Bad Request" | 401 => "Unauthorized" | 402 => "Payment Required" | 403 => "Forbidden"
  | 404 => "Not Found" | 405 => "Method Not Allowed" | 406 => "Not Acceptable"
  | 407 => "Proxy Authentication Required" | 408 => "Request Timeout" | 409 => "Conflict" | 410 => "Gone"
  | 411 => "Length Required" | 412 => "Precondition Failed" | 413 => "Request Entity Too Large"
  | 414 => "Request URI Too Long" | 415 => "Unsupported Media Type" | 416 => "Requested Range Not Satisfiable"
  | 417 => "Expectation Failed" | 418 => "I'm a teapot" | 421 => "Misdirected Request"
  | 422 => "Unprocessable Entity" | 423 => "Locked" | 424 => "Failed Dependency" | 425 => "Too Early"
  | 426 => "Upgrade Required" | 428 => "Precondition Required" | 429 => "Too Many Requests"
  | 431 => "Request Header Fields Too Large" | 451 => "Unavailable For Legal Reasons"
  | 500 => "Internal Server Error" | 501 => "Not Implemented" | 502 => "Bad Gateway"
  | 503 => "Service Unavailable" | 504 => "Gateway Timeout" | 505 => "HTTP Version Not Supported"
  | 506 => "Variant Also Negotiates" | 507 => "Insufficient Storage" | 508 => "Loop Detected"
  | 510 => "Not Extended" | 511 => "Network Authentication Required"
  | _ => ""
  end.

(** ** The name of a request *)

Definition DefaultHTTPMethodExtractor (request : Request) : string := req_Path request.

(** The position of the last slash. *)
Fixpoint LastSlash (s : string) : option nat :=
  match s with
  | EmptyString => None
  | String c s' =>
      match LastSlash s' with
      | Some n => Some (S n)
      | None => if bool_decide (c = "/"%char) then Some O else None
      end
  end.

Definition AllButLastPathHTTPMethodExtractor (request : Request) : string :=
  match LastSlash (req_Path request) with
  | None => req_Path request
  | Some n => String.substring 0 n (req_Path request)
  end.

Section Transport.
Context {W : Type} {E : Env W} (json : JSONLib).

Definition RoundTripper : Type := Request -> X W (option Response).

Definition isJSONRPCRequest (request : Request) : bool * Request :=
  match req_Body request with
  | None => (false, request)
  | Some b =>
      let '((body, err), b') := bodyBytes b in
      let request := set_req_Body request (Some b') in
      match err with
      | Some _ => (false, request)
      | None =>
          match json_request json body with
          | inl _ => (false, request)
          | inr (version, method) =>
              (bool_decide (version = "2.0") && negb (bool_decide (method = "")), request)
          end
      end
  end.

Definition getJSONRPCMethodFromRequest (request : Request) : string * Request :=
  match req_Body request with
  | None => ("", request)
  | Some b =>
      let '((body, err), b') := bodyBytes b in
      let request := set_req_Body request (Some b') in
      match err with
      | Some _ => ("error: failed to read request body", request)
      | None =>
          match json_method json body with
          | inl _ => ("error: failed to unmarshal request body", request)
          | inr method => (method, request)
          end
      end
  end.

Definition getJSONRPCCodeFromResponse (response : Response) : string * Response :=
  match resp_Body response with
  | None => ("", response)
  | Some b =>
      let '((body, err), b') := bodyBytes b in
      let response := set_resp_Body response (Some b') in
      match err with
      | Some _ => ("error: failed to read response body", response)
      | None =>
          match json_error json body with
          | inl _ => ("error: failed to unmarshal response body", response)
          | inr None => (http_StatusText (resp_StatusCode response), response)
          | inr (Some code) => (pretty code, response)
          end
      end
  end.

Definition isExternalError (err : error) : bool := negb (errors_Is err context_Canceled).

(** What the two round trips share: the request under a name, timed, with the outcome
    recorded under the code of the response. *)
Definition recorded (internal : RoundTripper) (request : Request) (method : string)
    (code : Response -> string * Response) : M W (option Response) :=
  let provider := req_Hostname request in
  let* start := Now in
  let* result := try (call (internal request)) in
  let* result :=
    (match result with
     | inl err =>
         (if isExternalError err then emit (AddFailedExternalRequest method "-1" provider)
          else emit (AddSuccessfulExternalRequest method "-1" provider)) ;;
         ret (inl err)
     | inr response =>
         let '(code, response) :=
           match response with
           | None => ("", None)
           | Some r => let '(code, r) := code r in (code, Some r)
           end in
         emit (AddSuccessfulExternalRequest method code provider) ;;
         ret (inr response)
     end) in
  let* latency := Since start in
  emit (ExternalRequestLatency method provider latency) ;;
  of_sum result.

Definition JSONRPCRoundTrip (internal : RoundTripper) (request : Request) : M W (option Response) :=
  let '(jsonRPCMethod, request) := getJSONRPCMethodFromRequest request in
  recorded internal request jsonRPCMethod getJSONRPCCodeFromResponse.

Definition HTTPRoundTrip (extractor : Request -> string) (internal : RoundTripper) (request : Request)
    : M W (option Response) :=
  recorded internal request (extractor request) (fun r => (pretty (resp_StatusCode r), r)).

Definition RoundTrip (extractor : option (Request -> string)) (internal : RoundTripper) (request : Request)
    : M W (option Response) :=
  let extractor := default DefaultHTTPMethodExtractor extractor in
  let '(isJSONRPC, request) := isJSONRPCRequest request in
  if isJSONRPC then JSONRPCRoundTrip internal request else HTTPRoundTrip extractor internal request.

(** [BasicAuthTransport.RoundTrip] *)
Definition BasicAuth_RoundTrip (basicAuth : option string) (transport : option RoundTripper)
    (DefaultTransport : RoundTripper) (req : Request) : X W (option Response) :=
  let req :=
    match basicAuth with
    | Some auth => mkRequest (req_Path req) (req_Hostname req) (req_Header req ++ [("Authorization", "Basic " +:+ auth)]) (req_Body req)
    | None => req
    end in
  match transport with
  | Some t => t req
  | None => DefaultTransport req
  end.

(** ** gRPC *)

Context (status_Code : option error -> Z) (Code_String : Z -> string).

(** A body and its deferred function, which sees the error that is returned; there is
    none while a panic unwinds. *)
Definition deferred {A} (m : M W A) (fin : option error -> M W unit) : M W A := fun s =>
  let '(r, s') := m s in
  let err := match r with Fail e => Some e | _ => None end in
  match fin err s' with
  | (Ok _, s'') => (r, s'')
  | (Fail e, s'') => (Fail e, s'')
  | (Panic, s'') => (Panic, s'')
  end.

Definition UnaryServerInterceptor {A} (fullMethod : string) (handler : M W A) : M W A :=
  let* start := Now in
  deferred handler (fun err =>
    emit (AddRequest fullMethod (to_uint32 (status_Code err))) ;;
    let* latency := Since start in
    emit (AddRelayerAPIRequestLatency fullMethod latency)).

Definition UnaryClientInterceptor (method target : string) (invoker : M W unit) : M W unit :=
  let* start := Now in
  deferred invoker (fun err =>
    let* latency := Since start in
    emit (ExternalRequestLatency method target latency) ;;
    match err with
    | Some _ => emit (AddFailedExternalRequest method (Code_String (status_Code err)) target)
    | None => emit (AddSuccessfulExternalRequest method (Code_String (status_Code err)) target)
    end).

(** ** What a caller sees *)

(** A body that was read and put back. *)
Definition rewound (b : option Body) : option Body := (fun b => mkBody (body_data b) None false) <$> b.
Definition readable (b : option Body) : Prop := match b with Some b => body_err b = None | None => True end.

(** A request whose body is a JSON-RPC call. *)
Definition is_rpc (request : Request) : bool :=
  match req_Body request with
  | Some b =>
      match json_request json (body_data b) with
      | inr (version, method) => bool_decide (version = "2.0") && negb (bool_decide (method = ""))
      | inl _ => false
      end
  | None => false
  end.

(** The name a request is recorded under. *)
Definition request_name (extractor : option (Request -> string)) (request : Request) : string :=
  if is_rpc request then
    match req_Body request with
    | Some b => match json_method json (body_data b) with
                | inr method => method
                | inl _ => "error: failed to unmarshal request body"
                end
    | None => ""
    end
  else default DefaultHTTPMethodExtractor extractor request.

(** The code a response is recorded under, and the response that is passed on. *)
Definition response_code (rpc : bool) (response : option Response) : string * option Response :=
  match response with
  | None => ("", None)
  | Some r =>
      let '(code, r) := (if rpc then getJSONRPCCodeFromResponse r else (pretty (resp_StatusCode r), r)) in (code, Some r)
  end.

Definition outcome_event (name provider : string) (rpc : bool) (result : error + option Response) : event :=
  match result with
  | inl err => if errors_Is err context_Canceled then AddSuccessfulExternalRequest name "-1" provider
               else AddFailedExternalRequest name "-1" provider
  | inr response => AddSuccessfulExternalRequest name (response_code rpc response).1 provider
  end.

Lemma recorded_spec internal request name (rpc : bool) s :
  wp (recorded internal request name (if rpc then getJSONRPCCodeFromResponse else fun r => (pretty (resp_StatusCode r), r)))
    (fun r s' => exists t w1 result w2 t',
       clock (world s) = (t, w1) /\ internal request w1 = (result, w2) /\ clock w2 = (t', world s') /\
       tables s' = tables s /\
       trace s' = trace s ++ [outcome_event name (req_Hostname request) rpc result;
                              ExternalRequestLatency name (req_Hostname request) (time_Sub t' t)] /\
       r = match result with inl err => Fail err | inr response => Ok (response_code rpc response).2 end) s.
Proof.
  unfold recorded. apply wp_bind, wp_Now. intros t w1 H1. apply wp_bind, wp_try, wp_call. cbn [world].
  intros result w2 H2. destruct result as [err|response].
  - apply wp_bind, wp_bind. unfold isExternalError, outcome_event.
    destruct (errors_Is err context_Canceled) eqn:Ec; apply wp_emit, wp_ret, wp_bind; unfold Since; apply wp_bind, wp_Now;
      intros t' w3 H3; apply wp_ret, wp_bind, wp_emit, wp_fail; exists t, w1, (inl err), w2, t';
      cbn [tables trace world] in *; rewrite Ec, <- app_assoc; done.
  - apply wp_bind. replace (match response with None => _ | Some r => _ end) with (response_code rpc response)
      by (destruct response, rpc; done).
    destruct (response_code rpc response) as [code response'] eqn:Ecode. apply wp_bind, wp_emit, wp_ret, wp_bind.
    unfold Since. apply wp_bind, wp_Now. intros t' w3 H3. apply wp_ret, wp_bind, wp_emit, wp_ret.
    exists t, w1, (inr response), w2, t'. cbn [tables trace world outcome_event] in *. by rewrite Ecode, <- app_assoc.
Qed.

(** The recording transport is transparent.  For a request whose body can be read,
    the transport below gets the request once, with a body of the same bytes; its error
    is returned as it is, its response with the same status and, where the body can be
    read, the same bytes; and exactly one outcome and one latency are recorded, under the
    method of a JSON-RPC call and the path of any other request: a failure exactly for an
    error that is not a cancellation. *)
Lemma transport_transparent extractor internal request s :
  readable (req_Body request) ->
  wp (RoundTrip extractor internal request) (fun r s' =>
    exists t w1 result w2 t',
      let request' := set_req_Body request (rewound (req_Body request)) in
      let name := request_name extractor request' in
      clock (world s) = (t, w1) /\ internal request' w1 = (result, w2) /\ clock w2 = (t', world s') /\
      tables s' = tables s /\
      trace s' = trace s ++ [outcome_event name (req_Hostname request) (is_rpc request) result;
                             ExternalRequestLatency name (req_Hostname request) (time_Sub t' t)] /\
      match result, r with
      | inl err, Fail err' => err' = err
      | inr None, Ok None => True
      | inr (Some p), Ok (Some p') => resp_StatusCode p' = resp_StatusCode p /\
          (readable (resp_Body p) -> body_data <$> resp_Body p' = body_data <$> resp_Body p /\ readable (resp_Body p'))
      | _, _ => False
      end) s.
Proof.
  intros Hread. set (request' := set_req_Body request (rewound (req_Body request))).
  assert (Hr : RoundTrip extractor internal request =
               recorded internal request' (request_name extractor request')
                 (if is_rpc request then getJSONRPCCodeFromResponse else fun r => (pretty (resp_StatusCode r), r))).
  { unfold RoundTrip, isJSONRPCRequest, request_name, is_rpc, request', bodyBytes, JSONRPCRoundTrip, HTTPRoundTrip,
      getJSONRPCMethodFromRequest. destruct request as [p h hd [[data err cl]|]]; cbn in *; [subst err|done].
    destruct (json_request json data) as [e|[version method]]; [done|]. cbn.
    destruct (bool_decide (version = "2.0") && _); [|done]. by destruct (json_method json data). }
  rewrite Hr. eapply wp_mono; [|apply recorded_spec].
  intros r s' (t & w1 & result & w2 & t' & H1 & H2 & H3 & H4 & H5 & ->). exists t, w1, result, w2, t'.
  split_and!; try done. destruct result as [err|[p|]]; [done| |done].
  unfold response_code, getJSONRPCCodeFromResponse, bodyBytes, readable.
  destruct (is_rpc request), p as [code [[data err cl]|]]; cbn; try by split.
  destruct err; [by split|]. by destruct (json_error json data) as [|[]].
Qed.

(** A request whose body breaks off while it is read is sent with what was read, as if
    it were complete. *)
Lemma broken_body_is_sent extractor internal request data err closes s :
  req_Body request = Some (mkBody data (Some err) closes) ->
  wp (RoundTrip extractor internal request) (fun r _ => exists w result w',
    internal (set_req_Body request (Some (mkBody data None false))) w = (result, w') /\
    r = match result with inl e => Fail e | inr response => Ok response end) s.
Proof.
  intros Hb. unfold RoundTrip, isJSONRPCRequest, HTTPRoundTrip. rewrite Hb. cbn.
  eapply wp_mono; [|exact (recorded_spec internal _ _ false s)].
  intros r s' (t & w1 & result & w2 & t' & _ & H2 & _ & _ & _ & ->). exists w1, result, w2. split; [done|].
  by destruct result as [e|[p|]].
Qed.

(** A handler that panics is counted as one that returned no error. *)
Lemma interceptor_counts_panic {A} fullMethod (handler : M W A) s t w1 s1 t' w2 :
  clock (world s) = (t, w1) -> handler (mkSys w1 (tables s) (trace s)) = (Panic, s1) -> clock (world s1) = (t', w2) ->
  UnaryServerInterceptor fullMethod handler s =
    (Panic, mkSys w2 (tables s1) (trace s1 ++ [AddRequest fullMethod (to_uint32 (status_Code None));
                                               AddRelayerAPIRequestLatency fullMethod (time_Sub t' t)])).
Proof.
  intros H1 H2 H3. unfold UnaryServerInterceptor, bind at 1, Now at 1. rewrite H1. unfold deferred. rewrite H2. cbn.
  unfold Since, bind, Now. cbn. rewrite H3. cbn. by rewrite <- app_assoc.
Qed.

End Transport.

(** ** A JSON-RPC call *)

Module TransportExamples.
Import ClientWorld.

Definition json : JSONLib := {|
  json_request := fun bz => if bool_decide (bz = [1]) then inr ("2.0", "eth_call") else inl (ENew "syntax");
  json_method := fun bz => if bool_decide (bz = [1]) then inr "eth_call" else inl (ENew "syntax");
  json_error := fun bz => if bool_decide (bz = [2]) then inr None else inr (Some (-32000));
|}.

Definition rpc_call : Request := mkRequest "/v1" "node" [] (Some (mkBody [1] None true)).
Definition answers (bz : bytes) : RoundTripper (W:=cworld) := fun _ w => (inr (Some (mkResponse 200 (Some (mkBody bz None true)))), w).
Definition s0 : Sys cworld := mkSys w0 db.empty_DB [].

Lemma transport_transparent_witness :
  readable (req_Body rpc_call) /\
  wp (RoundTrip (E:=base_env) json None (answers [3]) rpc_call) (fun r s' =>
    r <> Panic /\ exists d, trace s' = [AddSuccessfulExternalRequest "eth_call" "-32000" "node";
                                        ExternalRequestLatency "eth_call" "node" d]) s0.
Proof.
  split; [reflexivity|].
  eapply wp_mono; [|exact (transport_transparent (E:=base_env) json None (answers [3]) rpc_call s0 eq_refl)].
  intros r s' (t & w1 & result & w2 & t' & H1 & H2 & H3 & H4 & H5 & H6). unfold answers in H2. simplify_eq.
  split; [by destruct r|]. exists (time_Sub t' t). by rewrite H5.
Defined.

(** An answer without an error is recorded under the text of its status, not its number. *)
Example rpc_success_code :
  trace (snd (RoundTrip (E:=base_env) json None (answers [2]) rpc_call s0)) !! O =
    Some (AddSuccessfulExternalRequest "eth_call" "OK" "node").
Proof. vm_compute. reflexivity. Qed.

Example all_but_last : AllButLastPathHTTPMethodExtractor (mkRequest "/api/user/7" "" [] None) = "/api/user".
Proof. reflexivity. Qed.

End TransportExamples.
