(* ===== verification/Loops.v ===== *)
(** * The services' loops

    [RelayDispatcher.Run] ([src/relayer/ibcv2/relay_dispatcher.go]),
    [SubmittedTxCostTracker.Run] ([tx_submission_cost_tracker.go]), [GasMonitor.Start]
    ([src/gasmonitor/gasmonitor.go]) and [Monitor.Start]
    ([src/transferstats/transferstats.go]): a loop that waits for the context or for a
    ticker.  A run is given by what the loop receives; a ticker that was stopped sends
    nothing. *)

From S2P Require Import Prelude GoFloat Db Transfer Config World Logic Processors ProcessorSpecs BatchProcessors.
From S2P Require Import BatchSpecs Middleware Pipeline Dispatcher System Trace TestWorld DispatchTheorems.
From S2P Require Import CostTracker Monitors.
Open Scope Z_scope.

Inductive received := Ticked | ContextDone.

#[export] Instance received_eq_dec : EqDecision received.
Proof. solve_decision. Defined.

(** [time.Ticker] *)
Record ticker := mkTicker {
  ticking : bool;
  period : Z;
}.

Section Loops.
Context {W : Type} {E : Env W}.

(** [Reset] panics on a period that is not positive. *)
Definition ticker_Reset (d : Z) : M W ticker :=
  if bool_decide (d <= 0) then panic else ret (mkTicker true d).

(** [for { select { case <-ctx.Done(): return fin; case <-ticker.C: tick } }]: what the
    loop has come to after what it received, the state it waits in or what it returned. *)
Fixpoint select_loop {S R : Type} (tick : S -> M W S) (fin : S -> M W R) (l : list received) (s : S)
    : M W (S + R) :=
  match l with
  | [] => ret (inl s)
  | ContextDone :: _ => let* r := fin s in ret (inr r)
  | Ticked :: l' => let* s' := tick s in select_loop tick fin l' s'
  end.

(** ** The dispatcher *)

Record RelayDispatcher := mkRelayDispatcher {
  disp_pollInterval : Z;
  defaultEnabled : bool;
}.

(** The pipelines [IBCV2PipelineManager.Close] closes the inputs of, in the order of its
    range; it waits for each of them to end. *)
Definition Manager_Close (m : Manager) : list Connection := (map_to_list m).*1.

Definition dispatcher_tick (r : RelayDispatcher) (st : ticker * Manager) : M W (ticker * Manager) :=
  let '(tk, m) := st in
  if negb (ticking tk) then ret (tk, m) else
  let* err := try (SubmitWaitingUnfinishedTransfers m) in
  let* m' :=
    match err with
    | inl _ => logf LError "error submitting unfinished transfers to pipeline" ;; ret m
    | inr m' => ret m'
    end in
  let* tk' := ticker_Reset (disp_pollInterval r) in
  ret (tk', m').

Definition dispatcher_done (st : ticker * Manager) : M W (error * list Connection) :=
  logf LInfo "relay dispatcher context cancelled, closing pipelines" ;;
  ret (ESentinel context_Canceled, Manager_Close (snd st)).

Definition Dispatcher_Run (r : RelayDispatcher) (l : list received) (m : Manager)
    : M W ((ticker * Manager) + (error * list Connection)) :=
  (if defaultEnabled r then logf LInfo "ibcv2 relaying enabled" else logf LInfo "ibcv2 relaying disabled") ;;
  select_loop (dispatcher_tick r) dispatcher_done l (mkTicker (defaultEnabled r) Millisecond, m).

(** ** The cost tracker *)

Definition tracker_tick (numeric_Scan : string -> error + db.Numeric) (t : SubmittedTxCostTracker) (tk : ticker)
    : M W ticker :=
  let* err := try (Track numeric_Scan t) in
  match err with
  | inl _ => logf LError "error tracking submitted tx costs"
  | inr _ => ret tt
  end ;;
  ticker_Reset (pollInterval t).

Definition Tracker_Run (numeric_Scan : string -> error + db.Numeric) (t : SubmittedTxCostTracker) (l : list received)
    : M W (ticker + error) :=
  select_loop (tracker_tick numeric_Scan t) (fun _ => ret (ESentinel context_Canceled)) l (mkTicker true Millisecond).

(** ** The monitors, which return no error *)

Definition GasMonitor_Start (l : list received) : M W (unit + unit) :=
  logf LInfo "Starting gas monitor" ;;
  select_loop (fun _ => GasMonitor_tick monitoredChains) (fun _ => ret tt) l tt.

Definition tickInterval : Z := 15 * Second.

Definition Monitor_Start (l : list received) : M W (unit + unit) :=
  logf LInfo "Starting transfer stats monitor" ;;
  select_loop (fun _ => Monitor_tick) (fun _ => ret tt) l tt.

(** ** Properties *)

Lemma select_loop_app {S R} (tick : S -> M W S) (fin : S -> M W R) l1 l2 st s :
  select_loop tick fin (l1 ++ l2) st s =
  bind (select_loop tick fin l1 st) (fun x =>
    match x with inl st' => select_loop tick fin l2 st' | inr r => ret (inr r) end) s.
Proof.
  revert st s. induction l1 as [|[] l1 IH]; intros st s; cbn; [done | |].
  - unfold bind. destruct (tick st s) as [[st'|e|] s']; [apply IH | done..].
  - unfold bind. by destruct (fin st s) as [[r|e|] s'].
Qed.

(** A loop whose ticks do not fail returns only when it hears of the context's end. *)
Lemma select_loop_returns {S R} (tick : S -> M W S) (fin : S -> M W R) l st s x s' :
  select_loop tick fin l st s = (Ok x, s') -> match x with inr _ => ContextDone ∈ l | inl _ => ContextDone ∉ l end.
Proof.
  revert st s. induction l as [|[] l IH]; intros st s; cbn.
  - intros [= <- <-]. apply not_elem_of_nil.
  - unfold bind. destruct (tick st s) as [[st'|e|] s1]; [|done..]. intros H%IH.
    destruct x; [apply not_elem_of_cons; by split | by right].
  - unfold bind. destruct (fin st s) as [[r|e|] s1]; [|done..]. intros [= <- <-]. left.
Qed.

(** With relaying disabled the loop never submits: the pipelines and the database stay
    as they are, whatever it receives, until it returns. *)
Lemma disabled_dispatcher_idle poll l m s :
  exists x s', Dispatcher_Run (mkRelayDispatcher poll false) l m s = (Ok x, s') /\ tables s' = tables s /\
    x = (if decide (ContextDone ∈ l) then inr (ESentinel context_Canceled, Manager_Close m)
         else inl (mkTicker false Millisecond, m)).
Proof.
  assert (H : forall l s, exists x s', select_loop (dispatcher_tick (mkRelayDispatcher poll false)) dispatcher_done l
      (mkTicker false Millisecond, m) s = (Ok x, s') /\ tables s' = tables s /\
    x = (if decide (ContextDone ∈ l) then inr (ESentinel context_Canceled, Manager_Close m)
         else inl (mkTicker false Millisecond, m))).
  { clear l s. induction l as [|[] l IH]; intros s; cbn.
    - eexists _, _. split; [done|]. split; [done|]. by rewrite decide_False by apply not_elem_of_nil.
    - destruct (IH s) as (x & s' & Hx & Ht & ->). eexists _, _. split; [exact Hx|]. split; [done|].
      destruct (decide (ContextDone ∈ l)) as [Hin|Hin]; [by rewrite decide_True by by right|].
      rewrite decide_False; [done|]. by apply not_elem_of_cons.
    - eexists _, _. split; [done|]. split; [done|]. by rewrite decide_True by left. }
  unfold Dispatcher_Run, bind. cbn [defaultEnabled logf emit].
  destruct (H l (mkSys (world s) (tables s) (trace s ++ [Log LInfo "ibcv2 relaying disabled"]))) as (x & s' & Hx & Ht & Hr).
  exists x, s'. cbn in *. by rewrite Hx.
Qed.

(** A pass that fails does not end the loop, and the next one that reads the rows puts
    every unfinished one in flight: after a tick of an enabled dispatcher the deduper of
    each row's connection holds it, unless it has no pipeline. *)
Lemma dispatcher_tick_dispatches r tk m s tk' m' s' :
  ticking tk = true -> dispatcher_tick r (tk, m) s = (Ok (tk', m'), s') ->
  ticking tk' = true /\ grows m m' /\
  ((exists e s1, SubmitWaitingUnfinishedTransfers m s = (Fail e, s1) /\ m' = m) \/
   forall i row, db.ibcv2_transfers (tables s) !! i = Some row -> db.finished (db.Status row) = false ->
     held m' (NewIBCV2Transfer row) \/ exists e, newPipelineForTransfer (NewIBCV2Transfer row) = inl e).
Proof.
  intros Ht. unfold dispatcher_tick. rewrite Ht. cbn [negb]. unfold bind at 1. unfold try.
  destruct (SubmitWaitingUnfinishedTransfers m s) as [[m1|e|] s1] eqn:Es; [| |done].
  - cbn. unfold ticker_Reset, bind. case_bool_decide; [done|]. intros [= <- <- <-]. split; [done|].
    unfold SubmitWaitingUnfinishedTransfers, bind, wrap, sql in Es.
    destruct (db_exec (world s)) as [[e|now] w]; [done|]. cbn in Es.
    apply submitAll_grows in Es as [Hg Hall]. split; [done|]. right. intros i row Hr Hf.
    apply Hall, list_elem_of_filter. split; [done|]. apply list_elem_of_fmap. exists (i, row).
    split; [done|]. by apply elem_of_map_to_list.
  - cbn. unfold ticker_Reset, bind. cbn. case_bool_decide; [done|]. intros [= <- <- <-]. split; [done|].
    split; [|left; eauto]. intros c d Hc. eauto.
Qed.

End Loops.
