(* ===== verification/Startup.v ===== *)
(** * Starting and stopping the relayer

    [main] of [src/cmd/relayer/main.go] with [migrate.go], the commands of
    [src/cmd/relay/main.go] and [src/cmd/transfer/main.go], the authentication of
    [src/shared/database/database.go], the health check of
    [src/relayerapi/services/health/service.go] with its HTTP handler and the server of
    [src/relayerapi/server/grpcserver.go], and [StartPrometheus] of
    [src/shared/metrics/server.go].  Files, YAML, JSON, gRPC, PostgreSQL, AWS and the
    HTTP server are arguments; [errgroup.Wait] is one too, with its documentation as a
    hypothesis. *)

From S2P Require Import Prelude GoFloat Db Models Migrations Transfer Config World Logic Once GoLib.
From S2P Require Import EvmClient CosmosClient Signers ClientContract ClientWorld ClientManager Commands.

(** ** The program's end *)

(** [Fatal] logs and exits with status 1, running no deferred call. *)
Inductive outcome :=
  | Exits
  | Fatal (msg : string) (err : option error).

Definition status (o : outcome) : Z := match o with Exits => 0 | Fatal _ _ => 1 end.

(** ** Arguments *)

Definition isMigrateSubcommand (args : list string) : bool :=
  match args with
  | _ :: a :: _ => bool_decide (a = "migrate")
  | _ => false
  end.

(** The subcommand is taken out before the flags are parsed. *)
Definition flag_args (args : list string) : list string :=
  if isMigrateSubcommand args then take 1 args ++ drop 2 args else args.

Record relayer_flags := mkRelayerFlags {
  configPath : string;
  enableIBCV2Relaying : bool;
  dbMigrate : bool;
}.

(** How the program signs: with a remote signer or with keys of its own. *)
Inductive signer :=
  | RemoteSigner (address : string) (tls : bool)
  | LocalKeys (keys : gmap string string).

(** The services of the error group, in the order they are started. *)
Inductive service :=
  | Prometheus
  | GRPCServer
  | GasMonitor
  | Dispatcher
  | TransferStats
  | CostTracker.

#[export] Instance service_eq_dec : EqDecision service.
Proof. solve_decision. Defined.

Record StartupLib := mkStartupLib {
  flag_Parse : list string -> relayer_flags;
  os_ReadFile : string -> error + list Z;
  yaml_Unmarshal : list Z -> error + Config;
  json_Unmarshal : list Z -> error + gmap string (gmap string string);
  NewDatabase : string -> bool -> string -> error + unit;
  migrate_Up : option error;
  grpc_NewClient : string -> bool -> error + unit;
  NewClientManagerFromConfig : signer -> string -> string -> list ChainConfig -> error + unit;
  Returns : service -> option error;
  errgroup_Wait : list (option error) -> option error;
}.

Section Main.
Context (env : string -> option string) (lib : StartupLib).

(** [LoadChainIDToPrivateKeyMap] on a file. *)
Definition LoadKeys (keysPath : string) : error + gmap string string :=
  match os_ReadFile lib keysPath with
  | inl err => inl err
  | inr keysBytes =>
      match json_Unmarshal lib keysBytes with
      | inl err => inl err
      | inr rawKeysMap => inr (LoadChainIDToPrivateKeyMap rawKeysMap)
      end
  end.

(** The choice between the remote signer, which wins, and local keys. *)
Definition chooseSigner (signing : SigningConfig) : outcome + signer :=
  if negb (bool_decide (Signing_GRPCAddress signing = "")) then
    match grpc_NewClient lib (Signing_GRPCAddress signing) (Signing_GRPCTLSEnabled signing) with
    | inl err => inl (Fatal "failed to connect to remote signer" (Some err))
    | inr _ => inr (RemoteSigner (Signing_GRPCAddress signing) (Signing_GRPCTLSEnabled signing))
    end
  else if negb (bool_decide (KeysPath signing = "")) then
    match LoadKeys (KeysPath signing) with
    | inl err => inl (Fatal "Failed to load chain id -> private key map for ibcv2" (Some err))
    | inr keys => inr (LocalKeys keys)
    end
  else inl (Fatal "No signing configuration: set either signing.grpc_address or signing.keys_path" None).

(** The price client is made when there is an API key. *)
Definition hasPriceClient (r : configReader) : bool := negb (bool_decide (APIKey (GetCoingeckoConfig env r) = "")).

(** The services and the end of [main], once there is a client manager.  Three services
    run before the connection to the proof API is made. *)
Definition serve (r : configReader) : outcome * list service :=
  let proof := GetIBCV2ProofRelayerConfig r in
  match grpc_NewClient lib (ProofAPI_GRPCAddress proof) (ProofAPI_GRPCTLSEnabled proof) with
  | inl err => (Fatal "error creating grpc connection to proof relayer" (Some err), [Prometheus; GRPCServer; GasMonitor])
  | inr _ =>
      let started := [Prometheus; GRPCServer; GasMonitor; Dispatcher; TransferStats; CostTracker] in
      match errgroup_Wait lib (Returns lib <$> started) with
      | Some err => (Fatal "Error running Relayer" (Some err), started)
      | None => (Exits, started)
      end
  end.

(** [main]: how it ends, and the services it has started. *)
Definition main (args : list string) : outcome * list service :=
  let migrateMode := isMigrateSubcommand args in
  let flags := flag_Parse lib (flag_args args) in
  match LoadConfig (os_ReadFile lib) (yaml_Unmarshal lib) (configPath flags) with
  | inl err => (Fatal "Unable to load config" (Some err), [])
  | inr cfg =>
  let r := NewConfigReader cfg in
  match NewDatabase lib (GetPostgresConnString env r) (PostgresIAMAuthEnabled r) (PostgresIAMAuthRegion r) with
  | inl err => (Fatal "Unable to connect to database" (Some err), [])
  | inr _ =>
  match (if migrateMode || dbMigrate flags then migrate_Up lib else None) with
  | Some err => (Fatal "Failed to run database migrations" (Some err), [])
  | None =>
  if migrateMode then (Exits, []) else
  match chooseSigner (Signing cfg) with
  | inl o => (o, [])
  | inr signer =>
  match NewClientManagerFromConfig lib signer (CosmosWalletKey (Signing cfg)) (EVMWalletKey (Signing cfg))
          (GetIBCV2Chains r) with
  | inl err => (Fatal "error creating ibcv2 client manager from config" (Some err), [])
  | inr _ => serve r
  end end end end end.

End Main.

(** ** The other commands *)

Definition relay_main (sourceChainID txHash relayerGRPCURL : string) (insecureDial : bool)
    (NewClient : string -> bool -> error + unit) (Relay : string -> string -> error + unit) : outcome :=
  if bool_decide (sourceChainID = "") || bool_decide (txHash = "") || bool_decide (relayerGRPCURL = "")
  then Fatal "source-chain-id, tx-hash, and relayer-grpc-url are required" None
  else match NewClient relayerGRPCURL insecureDial with
       | inl err => Fatal "creating grpc connection to relayer" (Some err)
       | inr _ =>
           match Relay txHash sourceChainID with
           | inl err => Fatal "submitting relay request" (Some err)
           | inr _ => Exits
           end
       end.

Definition transfer_main (args : list string) (ics20 ift : option error) : outcome :=
  match args with
  | [] => Fatal "too few arguments, expected 'transfer transfer_type' (ics20 or ift)" None
  | transferType :: _ =>
      if bool_decide (transferType = "ics20") then
        match ics20 with Some err => Fatal "error sending ics20 transfer" (Some err) | None => Exits end
      else if bool_decide (transferType = "ift") then
        match ift with Some err => Fatal "error sending ift transfer" (Some err) | None => Exits end
      else Fatal "unexpected transfer type" None
  end.

(** ** The database connection ([database.go]) *)

(** [BeforeConnect] with IAM authentication: the password of a connection.  The region of
    the configuration wins over that of the AWS environment. *)
Definition BeforeConnect (LoadDefaultConfig : error + string) (BuildAuthToken : string -> error + string)
    (iamAuthRegion : string) : error + string :=
  match LoadDefaultConfig with
  | inl err => inl (EWrap "failed to load AWS config" err)
  | inr awsRegion =>
      let region := if bool_decide (iamAuthRegion = "") then awsRegion else iamAuthRegion in
      if bool_decide (region = "")
      then inl (ENew "no AWS region configured: set postgres.iam_auth_region or AWS_REGION")
      else match BuildAuthToken region with
           | inl err => inl (EWrap "failed to build auth token" err)
           | inr authToken => inr authToken
           end
  end.

(** The pool, and the hook its connections are made with. *)
Definition new_database (ParseConfig : string -> error + unit) (NewWithConfig : bool -> error + unit)
    (connString : string) (useIAMAuth : bool) : error + unit :=
  match ParseConfig connString with
  | inl err => inl err
  | inr _ => NewWithConfig useIAMAuth
  end.

(** ** Health *)

Inductive serving_status := SERVING | NOT_SERVING | SERVICE_UNKNOWN.

#[export] Instance serving_status_eq_dec : EqDecision serving_status.
Proof. solve_decision. Defined.

(** [HealthService.Check]: the gRPC library's own check first, then the database. *)
Definition Check (Server_Check : error + serving_status) (Ping : option error) : error + serving_status :=
  match Server_Check with
  | inl err => inl err
  | inr st =>
      if negb (bool_decide (st = SERVING)) then inr st
      else match Ping with Some err => inl err | None => inr SERVING end
  end.

(** The handler of [/health]: the HTTP status and the body. *)
Definition health_handler (res : error + serving_status) : Z * string :=
  match res with
  | inl _ => (500, "")
  | inr st => if bool_decide (st = SERVING) then (200, "OK") else (503, "Service Unavailable")
  end.

(** ** Servers *)

(** [RelayerGRPCServer.Start]: a listener that cannot be made is fatal; the errors of the
    servers and of the multiplexer are logged, and it returns when the latter does. *)
Definition GRPCServer_Start (Listen : error + unit) (Serve healthcheck_Serve mux_Serve : option error)
    : outcome + list string :=
  match Listen with
  | inl err => inl (Fatal "failed to create relayer gRPC server" (Some err))
  | inr _ => inr (
      ["relayer gRPC server is listening"]
      ++ (if Serve then ["error serving relayer gRPC server"] else [])
      ++ (if healthcheck_Serve then ["error serving relayer healthcheck server"] else [])
      ++ (if mux_Serve then ["error serving grpc + healthcheck multiplexer"] else [])
      ++ ["relayer gRPC server was terminated"])
  end.

(** [StartPrometheus]: the server's own notice that it was closed is no error. *)
Definition StartPrometheus (ListenAndServe : option error) (ErrServerClosed : sentinel) : option error :=
  match ListenAndServe with
  | Some err => if errors_Is err ErrServerClosed then None else Some err
  | None => None
  end.

(** ** Properties *)

(** What [errgroup] documents of [Wait]: the first error a service returned, if any. *)
Record wait_documented (wait : list (option error) -> option error) : Prop := {
  wait_error : forall l e, wait l = Some e -> Some e ∈ l;
  wait_none : forall l, wait l = None -> Forall (fun r => r = None) l;
}.

(** The services are started only with a configuration that names an address for the
    API, a database, and a signer: the remote one if it is configured, else the keys of
    the file.  The migrate command starts none. *)
Lemma services_need_signer env lib args o l :
  main env lib args = (o, l) -> l <> [] ->
  isMigrateSubcommand args = false /\
  exists cfg signer, LoadConfig (os_ReadFile lib) (yaml_Unmarshal lib) (configPath (flag_Parse lib (flag_args args))) = inr cfg /\
    RelayerAPI_Address cfg <> "" /\ chooseSigner lib (Signing cfg) = inr signer /\
    match signer with
    | RemoteSigner a _ => a = Signing_GRPCAddress (Signing cfg) /\ a <> ""
    | LocalKeys keys => Signing_GRPCAddress (Signing cfg) = "" /\ LoadKeys lib (KeysPath (Signing cfg)) = inr keys
    end.
Proof.
  unfold main. destruct (LoadConfig _ _ _) as [err|cfg] eqn:El; [by intros [= <- <-]|].
  destruct (NewDatabase _ _ _ _); [by intros [= <- <-]|].
  destruct (if (_ : bool) then migrate_Up lib else None); [by intros [= <- <-]|].
  destruct (isMigrateSubcommand args); [by intros [= <- <-]|].
  destruct (chooseSigner lib (Signing cfg)) as [o'|sg] eqn:Es; [by intros [= <- <-]|]. intros _ _.
  split; [done|]. exists cfg, sg. split; [done|]. split.
  { revert El. unfold LoadConfig, Validate. destruct (os_ReadFile lib _); [done|].
    destruct (yaml_Unmarshal lib _) as [|c]; [done|]. case_bool_decide; [done|]. by intros [= <-]. }
  split; [done|]. revert Es. unfold chooseSigner. case_bool_decide as Ha; cbn [negb].
  - case_bool_decide; cbn [negb]; [done|]. destruct (LoadKeys _ _) as [|keys]; [done|]. by intros [= <-].
  - destruct (grpc_NewClient _ _ _); [done|]. by intros [= <-].
Qed.

(** A relayer that is told to stop exits as if it had failed: the dispatcher's loop
    returns the context's error when the context is done, which makes the group's [Wait]
    return an error, which is fatal. *)
Lemma stopped_relayer_fails env lib args o l e :
  wait_documented (errgroup_Wait lib) -> Returns lib Dispatcher = Some e ->
  main env lib args = (o, l) -> Dispatcher ∈ l -> status o = 1.
Proof.
  intros [_ Hn] Hd. unfold main. destruct (LoadConfig _ _ _) as [err|cfg]; [by intros [= <- <-]|].
  destruct (NewDatabase _ _ _ _); [by intros [= <- <-]|].
  destruct (if (_ : bool) then migrate_Up lib else None); [by intros [= <- <-]|].
  destruct (isMigrateSubcommand args); [intros [= <- <-]; by intros ?%not_elem_of_nil|].
  destruct (chooseSigner lib _) as [o'|sg].
  { intros [= <- <-]. by intros ?%not_elem_of_nil. }
  destruct (NewClientManagerFromConfig _ _ _ _ _); [by intros [= <- <-]|].
  unfold serve. destruct (grpc_NewClient _ _ _); [by intros [= <- <-]|].
  destruct (errgroup_Wait lib _) as [err|] eqn:Ew; [by intros [= <- <-]|].
  apply Hn in Ew. cbn in Ew. rewrite !Forall_cons in Ew. rewrite Hd in Ew. naive_solver.
Qed.

(** The health handler says the service is up only when the database answers. *)
Lemma health_ok check ping : fst (health_handler (Check check ping)) = 200 <-> check = inr SERVING /\ ping = None.
Proof. destruct check as [|[]], ping; cbn; naive_solver. Qed.

Lemma region_precedence aws token region :
  BeforeConnect (inr aws) token region =
  match (if bool_decide (region = "") then aws else region) with
  | "" => inl (ENew "no AWS region configured: set postgres.iam_auth_region or AWS_REGION")
  | r => match token r with inl err => inl (EWrap "failed to build auth token" err) | inr t => inr t end
  end.
Proof. unfold BeforeConnect. by destruct (bool_decide (region = "")), aws, region; cbn. Qed.
