(* ===== verification/Utils.v ===== *)
(** * Addresses, key files and the configuration of a context

    [src/shared/utils/address.go] and [src/shared/utils/key.go], helpers the repository
    keeps for its tools, and the part of [src/shared/config/config.go] that hands the
    configuration to a handler of the API through its context.  The decoders of
    go-ethereum and the Cosmos SDK are arguments. *)

From S2P Require Import Prelude Db Transfer Config World BatchProcessors.

(** ** Addresses *)

(** [SliceTo32ByteArray]: the input at the end of an array of zeros. *)
Definition SliceTo32ByteArray (input : list Z) : error + list Z :=
  if bool_decide (32 < length input)%nat then inl (ENew "input slice is too large")
  else inr (replicate (32 - length input) 0 ++ input).

Section Addresses.
Context (hexutil_Decode : string -> error + list Z) (hexutil_Encode : list Z -> string).
Context (bech32_DecodeAndConvert : string -> error + (string * list Z)).

Definition HexTo32ByteAddress (input : string) : error + list Z :=
  match hexutil_Decode input with
  | inl err => inl err
  | inr bytes => SliceTo32ByteArray bytes
  end.

(** [None] is the panic. *)
Definition MustBech32ToRawAddress (address : string) : option string :=
  match bech32_DecodeAndConvert address with
  | inl _ => None
  | inr (_, rawAddress) => Some (hexutil_Encode rawAddress)
  end.

End Addresses.

(** The number a sequence of bytes stands for, the most significant byte first. *)
Definition big_endian (l : list Z) : Z := foldl (fun acc b => 256 * acc + b) 0 l.

Lemma big_endian_zeros n l : big_endian (replicate n 0 ++ l) = big_endian l.
Proof. unfold big_endian. induction n as [|n IH]; [done | exact IH]. Qed.

(** An array of 32 bytes stands for the same number as the input; two inputs of one
    length with the same array are the same. *)
Lemma SliceTo32ByteArray_spec input :
  match SliceTo32ByteArray input with
  | inl _ => (32 < length input)%nat
  | inr a => length a = 32%nat /\ big_endian a = big_endian input /\ drop (32 - length input) a = input
  end.
Proof.
  unfold SliceTo32ByteArray. case_bool_decide as H; [done|]. split_and!.
  - rewrite length_app, length_replicate. lia.
  - apply big_endian_zeros.
  - apply drop_app_length'. by rewrite length_replicate.
Qed.

(** ** Key files *)

(** A file system as the loaders see it: opening a path gives a file, reading a file to
    its end its contents; the trace holds the files opened and closed. *)
Inductive file_event := Opened (path : string) | Closed (path : string).

Section Keys.
Context {key : Type}.
Context (os_Open : string -> option error) (io_ReadAll : string -> error + string).

(** Both loaders: open, read, and decode the contents, with the deferred Close. *)
Definition load_key (decode : string -> error + key) (privateKeyPath : string) : (error + key) * list file_event :=
  match os_Open privateKeyPath with
  | Some err => (inl err, [])
  | None =>
      (match io_ReadAll privateKeyPath with
       | inl err => inl err
       | inr privateKeyHexBytes => decode privateKeyHexBytes
       end, [Opened privateKeyPath; Closed privateKeyPath])
  end.

Definition LoadECDSAPrivateKey (HexToECDSA : string -> error + key) : string -> (error + key) * list file_event :=
  load_key HexToECDSA.

Definition LoadSecp256k1PrivateKey (UnmarshalAmino : list Z -> error + key)
    : string -> (error + key) * list file_event :=
  load_key (fun privateKeyHexBytes =>
    match hex_DecodeString privateKeyHexBytes with
    | None => inl (ENew "encoding/hex")
    | Some privateKeyBytes => UnmarshalAmino privateKeyBytes
    end).

Definition newline : string := String (Ascii.ascii_of_nat 10) "".

Lemma hex_newline h : hex_DecodeString (h +:+ newline) = None.
Proof.
  assert (H : forall n h, (String.length h <= n)%nat -> hex_DecodeString (h +:+ newline) = None);
    [|by eapply (H _ h)].
  clear h. intros n. induction n as [|n IH]; intros [|a [|b h]] Hl; cbn in Hl; try lia; try reflexivity.
  - change (hex_DecodeString (String a newline) = None). unfold newline. cbn [hex_DecodeString]. by destruct (hex_value a).
  - change (hex_DecodeString (String a (String b (h +:+ newline))) = None). cbn [hex_DecodeString].
    rewrite (IH h) by lia. by destruct (hex_value a), (hex_value b).
Qed.

(** The contents are not trimmed: a key file that ends with a newline, as an editor
    leaves it, is refused. *)
Lemma key_file_newline UnmarshalAmino path h :
  os_Open path = None -> io_ReadAll path = inr (h +:+ newline) ->
  exists err, fst (LoadSecp256k1PrivateKey UnmarshalAmino path) = inl err.
Proof.
  intros Ho Hr. unfold LoadSecp256k1PrivateKey, load_key. rewrite Ho, Hr, hex_newline. by eexists.
Qed.

End Keys.

(** ** The configuration of a context *)

(** A context, as far as the configuration goes: the reader it carries. *)
Record ConfigCtx := mkConfigCtx { ctx_config : option configReader }.

Definition ConfigReaderContext (ctx : ConfigCtx) (reader : configReader) : ConfigCtx :=
  mkConfigCtx (Some reader).

(** The type assertion panics, [None], on a context that carries no reader. *)
Definition GetConfigReader (ctx : ConfigCtx) : option configReader := ctx_config ctx.

Definition config_UnaryServerInterceptor {req resp : Type} (reader : configReader)
    (handler : ConfigCtx -> req -> error + resp) (ctx : ConfigCtx) (r : req) : error + resp :=
  handler (ConfigReaderContext ctx reader) r.

(** Behind the interceptor a handler finds the reader, whatever the caller's context. *)
Lemma handler_has_config {req resp} reader (handler : configReader -> req -> error + resp) ctx r :
  config_UnaryServerInterceptor reader (fun ctx r =>
    match GetConfigReader ctx with Some c => handler c r | None => inl (ENew "panic") end) ctx r =
  handler reader r.
Proof. done. Qed.
