(* ===== verification/Codec.v ===== *)
(** * Codecs and loggers

    The registries of message types the Cosmos side decodes with
    ([newInterfaceRegistry] of [src/shared/bridges/ibcv2/cosmos_bridge_client.go] and
    [src/shared/utils/tx_config.go]), the logger a context carries
    ([src/shared/lmt/logger.go]) and the queries on a connection or a transaction
    ([src/db/gen/db/db.go]). *)

From S2P Require Import Prelude.

(** ** Interface registries *)

(** [codectypes.InterfaceRegistry]: the type URLs registered for each interface. *)
Definition Registry : Type := gset (string * string).
Definition sdk_Msg : string := "cosmos.base.v1beta1.Msg".

(** The packages of the SDK that register their types, and the other ways to register. *)
Inductive SdkPackage :=
  | std | secp256r1 | authtypes | vestingtypes | authz | banktypes | distributiontypes | evidencetypes
  | feegrant | proposal | slashingtypes | stakingtypes | upgradetypes.

Record SDK := mkSDK {
  NewInterfaceRegistry : Registry;
  RegisterInterfaces : SdkPackage -> Registry -> Registry;
  RegisterImplementations : string -> list string -> Registry -> Registry;
  RegisterMsgServiceDesc : string -> Registry -> Registry;
}.

Definition MsgTypeURL (message : string) : string := "/" +:+ message.

(** Registering adds to a registry, implementations under their type URLs. *)
Class Additive (sdk : SDK) : Prop := {
  register_adds : forall p reg, reg ⊆ RegisterInterfaces sdk p reg;
  implementations_add : forall iface messages reg, reg ⊆ RegisterImplementations sdk iface messages reg /\
    forall m, m ∈ messages -> (iface, MsgTypeURL m) ∈ RegisterImplementations sdk iface messages reg;
  service_adds : forall s reg, reg ⊆ RegisterMsgServiceDesc sdk s reg;
}.

Section Codec.
Context (sdk : SDK).

Definition registryMsgs : list string := [
  "ibc.core.channel.v2.MsgSendPacket"; "ibc.core.channel.v2.MsgRecvPacket"; "ibc.core.channel.v2.MsgTimeout";
  "ibc.core.channel.v2.MsgAcknowledgement"; "ibc.core.client.v1.MsgUpdateClient";
  "ibc.lightclients.attestations.v1.ClientState"; "ibc.lightclients.attestations.v1.ConsensusState";
  "ibc.lightclients.attestations.v1.AttestationProof"; "ibc.lightclients.tendermint.v1.ClientState";
  "ibc.lightclients.tendermint.v1.Misbehaviour"; "ibc.lightclients.tendermint.v1.ConsensusState";
  "ibc.lightclients.tendermint.v1.Header"; "ibc.lightclients.tendermint.v1.Fraction";
  "ibc.lightclients.wasm.v1.ClientState"; "ibc.lightclients.wasm.v1.ConsensusState";
  "ibc.lightclients.wasm.v1.ClientMessage" ].

Definition newInterfaceRegistry : Registry :=
  let reg := NewInterfaceRegistry sdk in
  let reg := RegisterInterfaces sdk std reg in
  let reg := RegisterInterfaces sdk authtypes reg in
  let reg := RegisterImplementations sdk sdk_Msg registryMsgs reg in
  RegisterMsgServiceDesc sdk "ibc.core.channel.v2.Msg" reg.

Definition RegisterAllInterfaces (registry : Registry) : Registry :=
  let registry := RegisterInterfaces sdk std registry in
  let registry := RegisterInterfaces sdk secp256r1 registry in
  let registry := RegisterInterfaces sdk authtypes registry in
  let registry := RegisterInterfaces sdk vestingtypes registry in
  let registry := RegisterInterfaces sdk authz registry in
  let registry := RegisterInterfaces sdk banktypes registry in
  let registry := RegisterInterfaces sdk distributiontypes registry in
  let registry := RegisterInterfaces sdk evidencetypes registry in
  let registry := RegisterInterfaces sdk feegrant registry in
  let registry := RegisterInterfaces sdk proposal registry in
  let registry := RegisterInterfaces sdk slashingtypes registry in
  let registry := RegisterInterfaces sdk stakingtypes registry in
  RegisterInterfaces sdk upgradetypes registry.

(** [codec.NewProtoCodec] and [authtx.NewTxConfig] keep the registry they are given. *)
Record TxConfig := mkTxConfig { txconfig_codec : Registry; txconfig_signModes : string }.

Definition DefaultCodec : Registry := RegisterAllInterfaces (NewInterfaceRegistry sdk).

Definition DefaultTxConfig : TxConfig := mkTxConfig DefaultCodec "DefaultSignModes".

(** The messages a relay transaction consists of can be unpacked by the client. *)
Definition relayMsgs : list string := [
  "ibc.core.channel.v2.MsgRecvPacket"; "ibc.core.channel.v2.MsgTimeout"; "ibc.core.channel.v2.MsgAcknowledgement";
  "ibc.core.client.v1.MsgUpdateClient" ].

Lemma relay_messages_registered `{!Additive sdk} m : m ∈ relayMsgs -> (sdk_Msg, MsgTypeURL m) ∈ newInterfaceRegistry.
Proof.
  intros Hm. unfold newInterfaceRegistry. apply (service_adds "ibc.core.channel.v2.Msg").
  apply implementations_add. revert Hm. unfold relayMsgs, registryMsgs. set_solver.
Qed.

(** What any of the packages registers is in the registry of the default codec. *)
Lemma DefaultCodec_has `{!Additive sdk} p x :
  (forall reg, x ∈ RegisterInterfaces sdk p reg) -> x ∈ DefaultCodec.
Proof.
  intros Hp. unfold DefaultCodec, RegisterAllInterfaces.
  destruct p; repeat first [apply Hp | apply register_adds].
Qed.

End Codec.

(** ** Loggers *)

Section Loggers.
Context {zapLogger : Type}.

(** A context and the global logger of zap. *)
Record LogCtx := mkLogCtx { ctx_logger : option zapLogger }.

Definition WithLogger (ctx : LogCtx) (logger : option zapLogger) : LogCtx := mkLogCtx logger.

Definition LoggerContext (global : zapLogger) (ctx : LogCtx) : LogCtx := mkLogCtx (Some global).

(** A context without a logger, or with a nil one, logs to the global logger. *)
Definition Logger (global : zapLogger) (ctx : LogCtx) : zapLogger :=
  match ctx_logger ctx with
  | Some logger => logger
  | None => global
  end.

(** [ConfigureLogger]: the configuration that is built; the error of building it panics. *)
Inductive zapBase := DevelopmentConfig | ProductionConfig.
Record zapConfig := mkZapConfig {
  zap_base : zapBase; zap_Level : string; zap_OutputPaths : list string; zap_ErrorOutputPaths : list string }.

Definition ConfigureLogger {err : Type} (Build : zapConfig -> err + zapLogger) (logDev : bool) (logLevel : string)
    : option zapLogger :=
  let config := mkZapConfig (if logDev then DevelopmentConfig else ProductionConfig) logLevel ["stderr"] ["stderr"] in
  match Build config with
  | inl _ => None
  | inr logger => Some logger
  end.

Lemma Logger_WithLogger global ctx logger : Logger global (WithLogger ctx logger) = default global logger.
Proof. by destruct logger. Qed.

End Loggers.

(** ** Queries *)

Section Queries.
Context {DBTX : Type}.

Record Queries := mkQueries { queries_db : DBTX }.

Definition New (db : DBTX) : Queries := mkQueries db.

(** The queries of a transaction do not use the connection any more. *)
Definition WithTx (q : Queries) (tx : DBTX) : Queries := mkQueries tx.

End Queries.
